(* ===== verification/_CoqProject ===== *)
-Q . S2P
Prelude.v
Models.v
GoStrings.v
GoText.v
Utf8.v
Base64.v
GoErrors.v
Uuid.v
Secutil.v
Message.v
Decimal.v
ChainTypes.v
Control.v
Json.v
Envelope.v
Routing.v
Database.v
Claims.v
ClaimsSpec.v
Chain.v
ChainSpec.v
TenantSteps.v
ChainInv.v
ChainThm.v
Program.v
Stream.v
StreamSpec.v
Delivery.v
StreamThm.v
StreamCourse.v
Worker.v
Reconcile.v
System.v
BigInt.v
Cert.v
InvoiceHash.v
Civil.v
Float64.v
Qr.v
Sign.v
Config.v
Tenant.v
Topology.v
TopologySpec.v
TopologyOps.v
TopologyThm.v
Lifetime.v
Invoice.v
Xml.v
XmlSpec.v
XmlText.v
XmlLines.v
Dates.v
Scan.v
Unmarshal.v
JsonText.v
Operator.v
Io.v
Client.v
Sdk.v
SdkThm.v
Zatca.v
ZatcaThm.v
Cli.v
Store.v
Onboard.v
OnboardThm.v
Responder.v
ResponderThm.v
Preflight.v
Startup.v
Main.v
Bill.v
Submit.v
SubmitThm.v
BillThm.v
Query.v
Status.v
