(* ===== verification/Prelude.v ===== *)
(** * Verification of the ZATCA e-invoicing daemon

    The repository is a Go daemon that turns the bills of many tenants into
    signed electronic invoices and submits them to ZATCA, the Saudi tax
    authority. This library models its packages as executable definitions and
    proves what makes them correct. This file is the root: the documentation of
    the whole, and the prelude that every other file requires.

    ** The program

    A backend publishes one envelope per finalised bill on a JetStream stream.
    For each active branch of each tenant the daemon runs one worker
    (cmd/daemon/worker.go), which decodes the envelope and hands it to the
    ordered stream (queue/ordered_stream.go). That claims the request in the
    tenant's database (queue/sql_claim_store.go), books the next number of the
    branch's invoice chain (queue/chain.go), lets the pipeline build and sign
    the invoice (processor/bill.go, invoice/, sdk/, crypto/), commits it, sends
    it (client/), records ZATCA's answer and acknowledges. Operators may record
    an answer by hand (queue/reconcile.go), branches are onboarded on request
    (processor/onboard.go, zatca/), and a reconciler keeps tenants, workers and
    responders in step with a registry (cmd/daemon/reconcile.go).

    ** The files

    Go and its library: [Prelude] (results, integers, lists, tactics),
    [GoStrings], [GoText], [Utf8] (strings and runes), [GoErrors] (the error
    tree with Is, As and Join), [Base64], [Decimal], [Uuid], [BigInt], [Civil]
    (times), [Float64], [Json] and [Unmarshal] (decoding into structs),
    [JsonText] (encoding), [Io] (calls to the outside as actions of a world).

    Messages: [Models] (models/models.go), [Message] (queue/message.go),
    [Control] (queue/onboard.go, queue/reconcile.go), [Envelope] (their
    decoding), [Routing] (theorems).

    The tenant database: [Database] (tables, transactions and faults),
    [ChainTypes], [Chain] and [Scan] (queue/chain.go, queue/sql.go), [Claims]
    (queue/sql_claim_store.go, queue/claim.go), [Preflight]
    (queue/preflight.go). [ChainSpec], [TenantSteps], [ChainInv], [ChainThm]
    and [ClaimsSpec] hold the abstract specifications and the theorems.

    One delivery: [Program] (programs as trees of calls, with their answers),
    [Stream] (queue/ordered_stream.go), [Delivery] (handleDelivery of
    cmd/daemon/worker.go); [StreamSpec] and [StreamThm] hold the contract,
    [StreamCourse] the sequences of calls a delivery can make. [Worker] is the subscription and fetch loop of a branch's worker.

    The daemon: [System] interleaves deliveries, operators, the backend, faults
    and restarts on the database of a tenant; every worker's ordered stream has
    its own map of partition mutexes, looked up with [Stream.lockFor]. [Reconcile] is the operator's
    request at the daemon and [Operator] the command that sends it
    (cmd/zatca-reconcile). [Topology] has the reconciler's maps
    (cmd/daemon/reconcile.go) with [TopologySpec], [TopologyOps] and
    [TopologyThm], and [Lifetime] everything that happens to them from the start
    to the shutdown; [Tenant] (tenant/tenant.go) and [Config] (config/) are its
    inputs. [Responder] and [ResponderThm] are
    the onboarding responder and the removal of tenants; [Startup] is
    cmd/daemon/nats.go, main.go and email.go with dbutil/dsn.go, and [Main] the
    order of the process.

    Invoices: [Invoice] (invoice/invoice.go), [Xml] (invoice/xml.go) with
    [XmlSpec], [XmlText] and [XmlLines]; [Dates], [Bill] and [Submit]
    (processor/bill.go, processor/types.go) with [BillThm] and [SubmitThm];
    [Query] (processor/query.go and the reading of result sets).

    ZATCA: [Client] (client/client.go), [Sdk] and [SdkThm] (sdk/sdk.go),
    [Cert], [InvoiceHash], [Sign] and [Qr] (crypto/), [Zatca] and [ZatcaThm]
    (zatca/zatca.go), [Secutil] (secutil/secutil.go), [Store]
    (storeconfig/storeconfig.go), [Onboard] and [OnboardThm]
    (processor/onboard.go). The tools over them are [Cli] (cmd/zatca) and
    [Status] (cmd/store_status).

    Definitions keep the names of the source; a method takes its receiver as
    an argument, a pointer receiver that is changed is returned as well. A
    function of result [(T, error)] returns [result error T]. Record fields
    carry a prefix of their type.

    ** What is shown

    Numbering and signing: in every reachable state of a tenant the invoices of
    a branch are numbered without gaps and linked by their hashes; a committed
    invoice never changes, and every answer is logged once. Over all
    interleavings every invoice that is sent is the committed one, and an
    acknowledged delivery is final. The claim store refines the life cycle of a
    request; Book, Commit, Stored and Record do what their contracts say on
    every branch, under faults at every statement.

    Deliveries: HandleMessage and handleDelivery keep a contract of allowed
    calls for every behaviour of the interfaces; HandleMessage takes one of the
    described courses to its end when the calls that end or undo its work do not
    fail; a worker handles exactly what it is given, one delivery after the
    other. Accepted envelopes and their routing names identify tenant and
    branch; deliveries of one partition exclude each other on the stream of a
    worker, and wait for nothing else. Streams of two workers do not exclude each
    other; between them the claim and the booking do. An operator's request
    reaches the daemon as it was given, and the exit code says whether it was
    accepted, which is not to say that evidence was stored.

    Topology: one reconciliation brings tenants, workers and responders to
    what the registry says; readiness is exact; no branch is onboarded twice at
    the same time, and removals end and leave nothing running; the shutdown
    leaves nothing served and forgets nothing that ran.

    Onboarding: the calls to ZATCA form one fixed sequence; the stored row
    loads to what ZATCA issued, and the branch is not onboarded again while its
    compliance certificate is stored; the device identity of a branch is fixed
    once.

    Documents: ToXML gives well-formed documents, tax groups equal their
    reference definition, prepared bills can be built under a previous hash
    without markup, built invoices pass the stream's check, answers are
    classified exactly. QR codes, DER signatures, encrypted fields, CSR exchange,
    the scripts for the shell and the requests of the client carry exactly what
    was put in; the hash covers exactly the children of the root that the
    signature's transforms keep.

    Several theorems and examples state defects of the program, for instance
    that no invoice with a Base64 hash can be reconciled by an operator, that an
    operator's answer for an ambiguous invoice is lost, that a 208
    is never ambiguous, that an empty production answer completes an
    onboarding, or that SignInvoice never makes a QR code.

    ** Assumptions

    A transaction is atomic and isolated by the row locks it takes; statements
    may fail with or without effect, as [Database] says. Comparison of
    SQL strings is exact, RowsAffected counts changed rows. There is at most
    one submission row per bill, which the tables' unique keys demand. In
    [System] the two statements of Complete and of Release may be apart: a nil
    answer of Complete only says that the claim is completed, and one of Release
    says nothing; outside changes are the ones [TenantSteps] lists. [Topology] gives the
    effect of one reconciliation without other critical sections between its
    own, and takes the order of map iterations as an argument, any permutation.
    [Responder] interleaves critical sections freely.

    Code outside the repository is a parameter: [Decoders] (PEM, X.509, ASN.1),
    [Hash] (SHA-256), [Signer] (ECDSA), [XmlLibrary] (etree and goxmldsig),
    [AEAD] (AES-GCM with the law that what was sealed opens), url.Parse, the
    MySQL driver's connection strings, NATS, SMTP, HTTP servers and the shell.
    The last two answer through a [world], whose answers may depend on all
    calls before. Each class has an instance on which the theorems about it are
    applied.

    Integers that the source keeps at 64 bits wrap around where the source
    lets them. [Float64] is [SpecFloat] at 53 bits, with no operation fused and
    conversions as on amd64. Texts of JSON and SQL errors are abbreviated;
    log lines are left out.

    Parsers of JSON, of QR codes and of XML use fuel of the length of the text
    or more, and each call consumes at least one byte, so it is never
    exhausted; the bytes of a big integer use its number of bits. The handler programs are
    finite trees, so they need none.

    ** Not modelled

    Flag syntax is read by the flag package; the tools start from the parsed
    values. Signals, tickers and connection pools are I/O: a tick, a
    cancellation and an answer are inputs of the model. A panic in a goroutine
    ends the daemon and is the value [None] of the function that panics, not a
    step of [Responder] or [Lifetime]. Log lines, the usage texts, tests,
    scripts, migrations, web assets and vendored packages are left out. *)

From stdpp Require Export base tactics numbers list option strings gmap sets fin_maps pretty.
From Stdlib Require Export ZArith Lia Ascii.

(** ** Scope, hint databases *)

#[export] Set Warnings "-clear-no-such-hyp".

Declare Scope go_scope.
Delimit Scope go_scope with go.
Create HintDb go discriminated.
Create Rewrite HintDb go.

(** ** Go's two-result convention

    A Go function that returns [(T, error)] and whose first result is only
    meaningful when the error is nil is modelled by [result error T]. *)

Inductive result (E A : Type) : Type :=
| Ok (a : A)
| Err (e : E).
Arguments Ok {E A} a.
Arguments Err {E A} e.

#[export] Instance result_ret {E} : MRet (result E) := fun A a => Ok a.
#[export] Instance result_bind {E} : MBind (result E) :=
  fun A B f m => match m with Ok a => f a | Err e => Err e end.
#[export] Instance result_fmap {E} : FMap (result E) :=
  fun A B f m => match m with Ok a => Ok (f a) | Err e => Err e end.

Definition is_ok {E A} (r : result E A) : bool :=
  match r with Ok _ => true | Err _ => false end.

(** [if err != nil { return wrap(err) }] *)
Definition map_err {E A} (w : E -> E) (r : result E A) : result E A :=
  match r with Ok a => Ok a | Err e => Err (w e) end.

Notation "'try!' x ':=' m 'or' w 'in' k" :=
  (match m with Ok x => k | Err e => Err (w e) end)
  (at level 10, x pattern, m at level 99, w at level 99, k at level 200) : go_scope.

(** A boolean guard that returns early, as the cases of a Go [switch] do. *)
Notation "'guard!' c 'else' e ';;' k" := (if c then Some e else k)
  (at level 10, c at level 99, e at level 99, k at level 200) : go_scope.

(** ** Machine integers *)

Definition max_uint64 : Z := 2 ^ 64 - 1.
Definition max_int64 : Z := 2 ^ 63 - 1.
Definition min_int64 : Z := - 2 ^ 63.

(** Conversion to [uint64], as in [uint64(x)] and in [uint64] arithmetic. *)
Definition u64 (x : Z) : Z := x mod 2 ^ 64.

(** Conversion to [int64] (two's complement). *)
Definition i64 (x : Z) : Z := (x + 2 ^ 63) mod 2 ^ 64 - 2 ^ 63.

Lemma u64_small x : (0 <= x < 2 ^ 64)%Z -> u64 x = x.
Proof. intros. by apply Z.mod_small. Qed.

Lemma u64_range x : (0 <= u64 x < 2 ^ 64)%Z.
Proof. apply Z.mod_pos_bound. lia. Qed.

Lemma i64_small x : (- 2 ^ 63 <= x < 2 ^ 63)%Z -> i64 x = x.
Proof. intros. unfold i64. rewrite Z.mod_small; lia. Qed.

(** ** Tactics *)

(** Split every [match], [if] and boolean test of the goal or hypothesis. *)
Ltac split_match :=
  match goal with
  | |- context [match ?x with _ => _ end] => destruct x eqn:?
  end.
Ltac split_match_in H :=
  match type of H with
  | context [match ?x with _ => _ end] => destruct x eqn:?
  end.

(** Boolean hypotheses to propositions. *)
Ltac bool_to_prop :=
  repeat match goal with
  | H : negb _ = true |- _ => apply negb_true_iff in H
  | H : negb _ = false |- _ => apply negb_false_iff in H
  | H : (_ && _)%bool = true |- _ => apply andb_true_iff in H as [? ?]
  | H : (_ || _)%bool = false |- _ => apply orb_false_iff in H as [? ?]
  | H : String.eqb _ _ = true |- _ => apply String.eqb_eq in H
  | H : String.eqb _ _ = false |- _ => apply String.eqb_neq in H
  | H : (_ =? _)%Z = true |- _ => apply Z.eqb_eq in H
  | H : (_ =? _)%Z = false |- _ => apply Z.eqb_neq in H
  | H : (_ <=? _)%Z = true |- _ => apply Z.leb_le in H
  | H : (_ <=? _)%Z = false |- _ => apply Z.leb_gt in H
  | H : (_ <? _)%Z = true |- _ => apply Z.ltb_lt in H
  | H : (_ <? _)%Z = false |- _ => apply Z.ltb_ge in H
  end.

(** ** Generic lemmas on strings and lists *)

Fixpoint bytes (s : string) : list ascii :=
  match s with EmptyString => [] | String c s' => c :: bytes s' end.

Fixpoint of_bytes (l : list ascii) : string :=
  match l with [] => EmptyString | c :: l' => String c (of_bytes l') end.

Lemma of_bytes_bytes s : of_bytes (bytes s) = s.
Proof. induction s as [|c s IH]; simpl; [done | by rewrite IH]. Qed.

Lemma bytes_of_bytes l : bytes (of_bytes l) = l.
Proof. induction l as [|c l IH]; simpl; [done | by rewrite IH]. Qed.

Lemma bytes_inj s t : bytes s = bytes t -> s = t.
Proof. intros H. by rewrite <- (of_bytes_bytes s), H, of_bytes_bytes. Qed.

Lemma bytes_app s t : bytes (s +:+ t) = bytes s ++ bytes t.
Proof. induction s as [|c s IH]; simpl; [done | by rewrite IH]. Qed.

Lemma of_bytes_app l k : of_bytes (l ++ k) = of_bytes l +:+ of_bytes k.
Proof. induction l as [|c l IH]; simpl; [done | by rewrite IH]. Qed.

Lemma length_bytes s : length (bytes s) = String.length s.
Proof. induction s as [|c s IH]; simpl; [done | by rewrite IH]. Qed.

Lemma string_app_assoc s t u : (s +:+ t) +:+ u = s +:+ (t +:+ u).
Proof. induction s as [|c s IH]; [done|]. exact (f_equal (String c) IH). Qed.

Lemma string_app_nil_r s : s +:+ "" = s.
Proof. induction s as [|c s IH]; [done|]. exact (f_equal (String c) IH). Qed.

Lemma string_length_app s t :
  String.length (s +:+ t) = (String.length s + String.length t)%nat.
Proof. rewrite <- !length_bytes, bytes_app, length_app. done. Qed.

Lemma string_app_inj_l s t u : s +:+ t = s +:+ u -> t = u.
Proof. induction s as [|c s IH]; simpl; intros H; [done | injection H; auto]. Qed.

(** Two lists cut at the first occurrence of a separator are equal piecewise. *)
Lemma app_sep_inj {A} (x : A) (l1 l2 k1 k2 : list A) :
  x ∉ l1 -> x ∉ l2 -> l1 ++ x :: k1 = l2 ++ x :: k2 -> l1 = l2 /\ k1 = k2.
Proof.
  revert l2. induction l1 as [|a l1 IH]; intros [|b l2] H1 H2; simpl; intros E;
    simplify_eq; [done | set_solver | set_solver |].
  destruct (IH l2) as [-> ->]; [set_solver.. | done].
Qed.

(** Two lists cut at the last occurrence of a separator are equal piecewise. *)
Lemma app_sep_inj_r {A} (x : A) (l1 l2 k1 k2 : list A) :
  x ∉ k1 -> x ∉ k2 -> l1 ++ x :: k1 = l2 ++ x :: k2 -> l1 = l2 /\ k1 = k2.
Proof.
  intros H1 H2 E. apply (f_equal reverse) in E.
  rewrite !reverse_app, !reverse_cons, <- !app_assoc in E. simpl in E.
  apply app_sep_inj in E as [E1 E2]; [| by rewrite elem_of_reverse ..].
  split; by apply (inj reverse).
Qed.
