(* ===== verification/Models.v ===== *)
(** * Shared API types: [models/models.go]

    The request and response bodies of the ZATCA API. [json.Number] is a
    string in Go, and it is one here. *)

From S2P Require Import Prelude.

Record CSIDRequest := { csid_csr : string }.

Record ErrorDetail := { detail_code : string; detail_message : string }.

Record CSIDResponse := {
  csid_requestID : string;
  csid_dispositionMessage : string;
  csid_binarySecurityToken : string;
  csid_secret : string;
  csid_errors : list ErrorDetail
}.

Record ProductionCSIDRequest := { complianceRequestID : string }.

Record InvoiceRequest := {
  req_invoiceHash : string;
  req_uuid : string;
  req_invoice : string (* base64-encoded XML *)
}.

Record ValidationMessage := {
  vm_type : string;
  vm_code : string;
  vm_category : string;
  vm_message : string;
  vm_status : string
}.

Record ValidationResults := {
  infoMessages : list ValidationMessage;
  warningMessages : list ValidationMessage;
  errorMessages : list ValidationMessage;
  vr_status : string
}.

Record InvoiceResponse := {
  resp_invoiceHash : string;
  resp_status : string;
  resp_clearanceStatus : string;
  resp_reportingStatus : string;
  resp_clearedInvoice : string;
  resp_validationResults : option ValidationResults;
  resp_warnings : list ErrorDetail;
  resp_errors : list ErrorDetail
}.

Record RenewalRequest := { renewal_csr : string }.

#[export] Instance ErrorDetail_eq_dec : EqDecision ErrorDetail.
Proof. solve_decision. Defined.
#[export] Instance ValidationMessage_eq_dec : EqDecision ValidationMessage.
Proof. solve_decision. Defined.
#[export] Instance ValidationResults_eq_dec : EqDecision ValidationResults.
Proof. solve_decision. Defined.
#[export] Instance InvoiceResponse_eq_dec : EqDecision InvoiceResponse.
Proof. solve_decision. Defined.
