(* ===== verification/GoStrings.v ===== *)
(** * Go strings: bytes, runes and the functions of the standard library

    A Go string is a sequence of bytes, and so is Rocq's [string]. This file
    models what the source uses of [strings], [unicode/utf8], [strconv],
    [encoding/hex] and of the [range] loop over a string. The decoder follows
    [utf8.DecodeRuneInString]: an invalid byte is one rune [U+FFFD] of width 1.
    [strconv.Quote] is modelled on ASCII; it keeps every valid rune above
    [U+007F], where Go escapes the unprintable ones. *)

From S2P Require Import Prelude.
Local Open Scope Z_scope.

(** ** Bytes *)

Definition bv (c : ascii) : Z := Z.of_N (N_of_ascii c).
Definition byte_of (z : Z) : ascii := ascii_of_N (Z.to_N (z mod 256)).
Definition str1 (c : ascii) : string := String c EmptyString.

(** The one-byte string ["\x00"]. *)
Definition nul : ascii := Ascii.zero.

Lemma bv_range c : 0 <= bv c < 256.
Proof. unfold bv. pose proof (N_ascii_bounded c). lia. Qed.

Lemma bv_inj c d : bv c = bv d -> c = d.
Proof.
  unfold bv. intros H. rewrite <- (ascii_N_embedding c), <- (ascii_N_embedding d).
  f_equal. lia.
Qed.

Lemma byte_of_bv c : byte_of (bv c) = c.
Proof.
  unfold byte_of. rewrite Z.mod_small by apply bv_range. unfold bv.
  by rewrite N2Z.id, ascii_N_embedding.
Qed.

Lemma bv_byte_of z : bv (byte_of z) = z mod 256.
Proof.
  unfold byte_of, bv. pose proof (Z.mod_pos_bound z 256).
  rewrite N_ascii_embedding by lia. lia.
Qed.

(** ** Runes *)

Definition runeError : Z := 65533. (* U+FFFD *)

Definition in_range (lo hi b : Z) : bool := (lo <=? b) && (b <=? hi).

(** Width and range of the second byte for each first byte, as in the tables
    [first] and [acceptRanges] of [unicode/utf8]. *)
Definition utf8_first (b : Z) : option (nat * Z * Z) :=
  if in_range 0xC2 0xDF b then Some (2%nat, 0x80, 0xBF)
  else if b =? 0xE0 then Some (3%nat, 0xA0, 0xBF)
  else if b =? 0xED then Some (3%nat, 0x80, 0x9F)
  else if in_range 0xE1 0xEF b then Some (3%nat, 0x80, 0xBF)
  else if b =? 0xF0 then Some (4%nat, 0x90, 0xBF)
  else if in_range 0xF1 0xF3 b then Some (4%nat, 0x80, 0xBF)
  else if b =? 0xF4 then Some (4%nat, 0x80, 0x8F)
  else None.

Definition is_cont (b : Z) : bool := in_range 0x80 0xBF b.

(** [utf8.DecodeRuneInString (String c s)]: the rune and its width. *)
Definition decode_rune (c : ascii) (s : string) : Z * nat :=
  let b0 := bv c in
  if b0 <? 0x80 then (b0, 1%nat) else
  match utf8_first b0, s with
  | Some (2%nat, lo, hi), String c1 _ =>
      if in_range lo hi (bv c1)
      then (Z.lor (Z.shiftl (Z.land b0 0x1F) 6) (Z.land (bv c1) 0x3F), 2%nat)
      else (runeError, 1%nat)
  | Some (3%nat, lo, hi), String c1 (String c2 _) =>
      if in_range lo hi (bv c1) && is_cont (bv c2)
      then (Z.lor (Z.shiftl (Z.land b0 0x0F) 12)
             (Z.lor (Z.shiftl (Z.land (bv c1) 0x3F) 6) (Z.land (bv c2) 0x3F)), 3%nat)
      else (runeError, 1%nat)
  | Some (4%nat, lo, hi), String c1 (String c2 (String c3 _)) =>
      if in_range lo hi (bv c1) && is_cont (bv c2) && is_cont (bv c3)
      then (Z.lor (Z.shiftl (Z.land b0 0x07) 18)
             (Z.lor (Z.shiftl (Z.land (bv c1) 0x3F) 12)
               (Z.lor (Z.shiftl (Z.land (bv c2) 0x3F) 6) (Z.land (bv c3) 0x3F))), 4%nat)
      else (runeError, 1%nat)
  | _, _ => (runeError, 1%nat)
  end.

(** The runes a [range] loop yields, each with its width. [skip] counts the
    bytes of the current rune that are still to be passed over. *)
Fixpoint runes_from (skip : nat) (s : string) : list (Z * nat) :=
  match s with
  | EmptyString => []
  | String c s' =>
      match skip with
      | S k => runes_from k s'
      | O => let '(r, n) := decode_rune c s' in (r, n) :: runes_from (pred n) s'
      end
  end.

Definition runes_w (s : string) : list (Z * nat) := runes_from 0 s.
Definition runes (s : string) : list Z := (runes_w s).*1.

Definition rune_count (s : string) : nat := length (runes_w s).

(** [utf8.ValidString]: no invalid byte, that is no [U+FFFD] of width 1. *)
Definition valid_string (s : string) : bool :=
  forallb (fun '(r, n) => negb ((r =? runeError) && (n =? 1)%nat)) (runes_w s).

(** [utf8.AppendRune]: surrogates and out-of-range values become [U+FFFD]. *)
Definition encode_rune (r : Z) : string :=
  let r := if in_range 0 0x10FFFF r && negb (in_range 0xD800 0xDFFF r)
           then r else runeError in
  if r <? 0x80 then str1 (byte_of r)
  else if r <? 0x800 then
    String (byte_of (Z.lor 0xC0 (Z.shiftr r 6)))
      (str1 (byte_of (Z.lor 0x80 (Z.land r 0x3F))))
  else if r <? 0x10000 then
    String (byte_of (Z.lor 0xE0 (Z.shiftr r 12)))
      (String (byte_of (Z.lor 0x80 (Z.land (Z.shiftr r 6) 0x3F)))
        (str1 (byte_of (Z.lor 0x80 (Z.land r 0x3F)))))
  else
    String (byte_of (Z.lor 0xF0 (Z.shiftr r 18)))
      (String (byte_of (Z.lor 0x80 (Z.land (Z.shiftr r 12) 0x3F)))
        (String (byte_of (Z.lor 0x80 (Z.land (Z.shiftr r 6) 0x3F)))
          (str1 (byte_of (Z.lor 0x80 (Z.land r 0x3F)))))).

Definition encode_runes (l : list Z) : string :=
  foldr (fun r acc => encode_rune r +:+ acc) EmptyString l.

(** ** [strings.TrimSpace] *)

(** [unicode.IsSpace]. *)
Definition is_space (r : Z) : bool :=
  in_range 9 13 r || (r =? 0x20) || (r =? 0x85) || (r =? 0xA0) || (r =? 0x1680)
  || in_range 0x2000 0x200A r || (r =? 0x2028) || (r =? 0x2029) || (r =? 0x202F)
  || (r =? 0x205F) || (r =? 0x3000).

Fixpoint trim_left (skip : nat) (s : string) : string :=
  match s with
  | EmptyString => EmptyString
  | String c s' =>
      match skip with
      | S k => trim_left k s'
      | O => let '(r, n) := decode_rune c s' in
             if is_space r then trim_left (pred n) s' else s
      end
  end.

(** Decode the rune that starts at the head of [l] and spans [l] exactly. *)
Definition decode_exact (l : list ascii) : option Z :=
  match of_bytes l with
  | EmptyString => None
  | String c s =>
      let '(r, n) := decode_rune c s in
      if (n =? length l)%nat then Some r else None
  end.

Definition rune_start (c : ascii) : bool := negb (is_cont (bv c)).

(** [utf8.DecodeLastRuneInString] on the reversed bytes. *)
Definition decode_last (rev : list ascii) : Z * nat :=
  let exact l := match decode_exact l with
                 | Some r => (r, length l)
                 | None => (runeError, 1%nat) end in
  match rev with
  | [] => (runeError, 0%nat)
  | c :: rest =>
      if bv c <? 0x80 then (bv c, 1%nat) else
      match rest with
      | c1 :: rest1 =>
          if rune_start c1 then exact [c1; c] else
          match rest1 with
          | c2 :: rest2 =>
              if rune_start c2 then exact [c2; c1; c] else
              match rest2 with
              | c3 :: _ => if rune_start c3 then exact [c3; c2; c1; c]
                           else (runeError, 1%nat)
              | [] => (runeError, 1%nat)
              end
          | [] => (runeError, 1%nat)
          end
      | [] => (runeError, 1%nat)
      end
  end.

Fixpoint trim_right_rev (skip : nat) (l : list ascii) : list ascii :=
  match l with
  | [] => []
  | _ :: l' =>
      match skip with
      | S k => trim_right_rev k l'
      | O => let '(r, n) := decode_last l in
             if is_space r then trim_right_rev (pred n) l' else l
      end
  end.

Definition trim_right (s : string) : string :=
  of_bytes (reverse (trim_right_rev 0 (reverse (bytes s)))).

Definition TrimSpace (s : string) : string := trim_right (trim_left 0 s).

(** [strings.TrimSpace(s) == ""]. *)
Definition blank (s : string) : bool := String.eqb (TrimSpace s) "".

(** ** Other functions of [strings], [strconv] and [encoding/hex] *)

Definition HasPrefix (s p : string) : bool := String.prefix p s.

Fixpoint drop_bytes (n : nat) (s : string) : string :=
  match n, s with
  | S n', String _ s' => drop_bytes n' s'
  | _, _ => s
  end.

Fixpoint take_bytes (n : nat) (s : string) : string :=
  match n, s with
  | S n', String c s' => String c (take_bytes n' s')
  | _, _ => EmptyString
  end.

Definition TrimPrefix (s p : string) : string :=
  if HasPrefix s p then drop_bytes (String.length p) s else s.

(** [strings.SplitN(s, sep, 2)] for a one-byte separator: the two parts, or
    nothing when the separator does not occur. *)
Fixpoint split2 (sep : ascii) (s : string) : option (string * string) :=
  match s with
  | EmptyString => None
  | String c s' =>
      if Ascii.eqb c sep then Some (EmptyString, s')
      else match split2 sep s' with
           | Some (a, b) => Some (String c a, b)
           | None => None
           end
  end.

Fixpoint Join (l : list string) (sep : string) : string :=
  match l with
  | [] => ""
  | [s] => s
  | s :: l' => s +:+ sep +:+ Join l' sep
  end.

(** [strconv.FormatInt(z, 10)], and the verb [%d]. *)
Definition itoa (z : Z) : string := pretty z.

Definition is_digit (c : ascii) : bool := in_range 48 57 (bv c).

Fixpoint digits_value (acc : Z) (s : string) : option Z :=
  match s with
  | EmptyString => Some acc
  | String c s' => if is_digit c then digits_value (acc * 10 + (bv c - 48)) s' else None
  end.

(** [strconv.ParseUint(s, 10, 64)]; [None] is its error. *)
Definition ParseUint (s : string) : option Z :=
  match s with
  | EmptyString => None
  | _ => match digits_value 0 s with
         | Some v => if v <=? max_uint64 then Some v else None
         | None => None
         end
  end.

Definition hex_val (c : ascii) : option Z :=
  let b := bv c in
  if in_range 48 57 b then Some (b - 48)
  else if in_range 97 102 b then Some (b - 97 + 10)
  else if in_range 65 70 b then Some (b - 65 + 10)
  else None.

(** [hex.Decode]: the bytes, or nothing for an odd length or a bad digit. *)
Fixpoint hex_decode (s : string) : option (list Z) :=
  match s with
  | EmptyString => Some []
  | String _ EmptyString => None
  | String a (String b s') =>
      match hex_val a, hex_val b, hex_decode s' with
      | Some h, Some l, Some r => Some (h * 16 + l :: r)
      | _, _, _ => None
      end
  end.

(** The verb [%q]. *)
Definition hex_digit (z : Z) : ascii :=
  byte_of (if z <? 10 then 48 + z else 87 + z).

Definition hex_escape (b : Z) : string :=
  "\x" +:+ String (hex_digit (b / 16)) (str1 (hex_digit (b mod 16))).

Definition quote_rune (r : Z) : string :=
  if r =? 34 then "\" +:+ str1 (byte_of 34)
  else if r =? 92 then "\\"
  else if r =? 7 then "\a" else if r =? 8 then "\b" else if r =? 12 then "\f"
  else if r =? 10 then "\n" else if r =? 13 then "\r" else if r =? 9 then "\t"
  else if r =? 11 then "\v"
  else if (r <? 0x20) || (r =? 0x7F) then hex_escape r
  else encode_rune r.

Fixpoint quote_from (skip : nat) (s : string) : string :=
  match s with
  | EmptyString => EmptyString
  | String c s' =>
      match skip with
      | S k => quote_from k s'
      | O => let '(r, n) := decode_rune c s' in
             (if (r =? runeError) && (n =? 1)%nat then hex_escape (bv c) else quote_rune r)
             +:+ quote_from (pred n) s'
      end
  end.

Definition quote (s : string) : string :=
  let q := str1 (byte_of 34) in q +:+ quote_from 0 s +:+ q.

(** ** Facts about decoding *)

Lemma decode_rune_ascii c s : bv c < 128 -> decode_rune c s = (bv c, 1%nat).
Proof. intros H. unfold decode_rune. by replace (bv c <? 128) with true by lia. Qed.

Lemma utf8_first_lo b n lo hi : utf8_first b = Some (n, lo, hi) -> 128 <= lo.
Proof. unfold utf8_first. intros H. repeat split_match_in H; simplify_eq; lia. Qed.

(** The bytes a rune spans after its first are never ASCII. *)
Lemma decode_rune_tail c s r n :
  decode_rune c s = (r, n) -> Forall (fun d => 128 <= bv d) (take (pred n) (bytes s)).
Proof.
  unfold decode_rune. intros H.
  destruct (bv c <? 0x80); [simplify_eq; apply Forall_nil_2|].
  destruct (utf8_first (bv c)) as [[[k lo] hi]|] eqn:Hf;
    [apply utf8_first_lo in Hf | simplify_eq; apply Forall_nil_2].
  repeat split_match_in H; simplify_eq; simpl;
    unfold is_cont, in_range in *; bool_to_prop;
    repeat (apply Forall_cons; split; [lia|]); apply Forall_nil_2.
Qed.

Lemma runes_from_ascii c s skip :
  Forall (fun d => 128 <= bv d) (take skip (bytes s)) ->
  c ∈ bytes s -> bv c < 128 -> bv c ∈ (runes_from skip s).*1.
Proof.
  intros Hskip Hin Hc. revert skip Hskip.
  induction s as [|d s IH]; intros skip Hskip; simpl in *; [set_solver|].
  destruct skip as [|skip]; simpl in Hskip.
  - destruct (decode_rune d s) as [r n] eqn:E.
    apply elem_of_cons in Hin as [->|Hin].
    + rewrite decode_rune_ascii in E by done. simplify_eq. set_solver.
    + csimpl. right. apply IH; [done|]. by eapply decode_rune_tail.
  - apply Forall_cons in Hskip as [Hd Hskip].
    apply elem_of_cons in Hin as [->|Hin]; [lia|]. by apply IH.
Qed.

(** A [range] loop over a string sees each of its ASCII bytes. *)
Lemma ascii_byte_in_runes c s : c ∈ bytes s -> bv c < 128 -> bv c ∈ runes s.
Proof. intros. apply runes_from_ascii; [|done..]. apply Forall_nil_2. Qed.

(** What such a loop excludes is therefore absent from the bytes. *)
Lemma runes_exclude (bad : Z -> bool) c s :
  existsb bad (runes s) = false -> bv c < 128 -> bad (bv c) = true -> c ∉ bytes s.
Proof.
  intros H Hc Hb Hin. apply not_true_iff_false in H. apply H.
  apply existsb_exists. exists (bv c). split; [|done].
  by apply list_elem_of_In, ascii_byte_in_runes.
Qed.
