(* ===== verification/GoText.v ===== *)
(** * More of the packages [strings]: searching, splitting and replacing

    Positions are byte offsets; [None] stands for the result -1. *)

From S2P Require Import Prelude GoStrings.
Local Open Scope Z_scope.

(** [strings.Index]. *)
Fixpoint Index (s sub : string) : option nat :=
  if HasPrefix s sub then Some O
  else match s with
       | EmptyString => None
       | String _ s' => S <$> Index s' sub
       end.

(** [strings.LastIndex]. *)
Fixpoint LastIndex (s sub : string) : option nat :=
  match s with
  | EmptyString => if HasPrefix s sub then Some O else None
  | String _ s' => match LastIndex s' sub with
                   | Some n => Some (S n)
                   | None => if HasPrefix s sub then Some O else None
                   end
  end.

(** [strings.Contains]. *)
Definition Contains (s sub : string) : bool :=
  match Index s sub with Some _ => true | None => false end.

(** [strings.ContainsAny] for ASCII characters. *)
Definition ContainsAny (s chars : string) : bool :=
  existsb (fun c => existsb (Ascii.eqb c) (bytes chars)) (bytes s).

(** [strings.Split] at a one-byte separator: at least one part. *)
Fixpoint Split (sep : ascii) (s : string) : list string :=
  match s with
  | EmptyString => [""]
  | String c s' =>
      if Ascii.eqb c sep then "" :: Split sep s'
      else match Split sep s' with
           | p :: ps => String c p :: ps
           | [] => [str1 c]
           end
  end.

(** [strings.ReplaceAll] of a one-byte text. *)
Fixpoint ReplaceAll (old : ascii) (new s : string) : string :=
  match s with
  | EmptyString => ""
  | String c s' => (if Ascii.eqb c old then new else str1 c) +:+ ReplaceAll old new s'
  end.

(** [strings.Replace(s, old, new, 1)]. *)
Definition Replace1 (s old new : string) : string :=
  match Index s old with
  | None => s
  | Some i => take_bytes i s +:+ new +:+ drop_bytes (i + String.length old) s
  end.

(** ** Prefixes and slices *)

Lemma take_bytes_app s t : take_bytes (String.length s) (s +:+ t) = s.
Proof. induction s as [|c s IH]; cbn; [by destruct t|]. f_equal. exact IH. Qed.

Lemma drop_bytes_app s t : drop_bytes (String.length s) (s +:+ t) = t.
Proof. induction s as [|c s IH]; cbn; [by destruct t|]. exact IH. Qed.

Lemma take_drop_bytes n s : take_bytes n s +:+ drop_bytes n s = s.
Proof. revert s. induction n as [|n IH]; intros [|c s]; try done. exact (f_equal (String c) (IH s)). Qed.

Lemma take_bytes_length n s : String.length (take_bytes n s) = Nat.min n (String.length s).
Proof. revert s. induction n as [|n IH]; intros [|c s]; cbn; [done..|]. by rewrite IH. Qed.

Lemma HasPrefix_app p s : HasPrefix (p +:+ s) p = true.
Proof.
  unfold HasPrefix. induction p as [|c p IH]; [by destruct s|].
  change (String c p +:+ s) with (String c (p +:+ s)). cbn.
  destruct (Ascii.ascii_dec c c); [exact IH|done].
Qed.

Lemma HasPrefix_spec s p : HasPrefix s p = true <-> exists t, s = p +:+ t.
Proof.
  split; [|intros [t ->]; apply HasPrefix_app]. unfold HasPrefix.
  revert s. induction p as [|c p IH]; intros s Hs; [by exists s|].
  destruct s as [|d s]; [done|]. cbn in Hs. destruct (Ascii.ascii_dec c d) as [->|]; [|done].
  destruct (IH s Hs) as [t ->]. by exists t.
Qed.

Lemma TrimPrefix_app p s : TrimPrefix (p +:+ s) p = s.
Proof. unfold TrimPrefix. by rewrite HasPrefix_app, drop_bytes_app. Qed.

(** ** Index *)

Lemma Index_split s sub i : Index s sub = Some i ->
  s = take_bytes i s +:+ sub +:+ drop_bytes (i + String.length sub) s.
Proof.
  revert i. induction s as [|c s IH]; intros i; cbn [Index].
  - destruct (HasPrefix "" sub) eqn:E; [|done]. intros [= <-].
    apply HasPrefix_spec in E as [t Ht]. destruct sub; [done|discriminate].
  - destruct (HasPrefix (String c s) sub) eqn:E.
    + intros [= <-]. apply HasPrefix_spec in E as [t ->]. cbn [take_bytes Nat.add].
      by rewrite drop_bytes_app.
    + destruct (Index s sub) as [j|]; [|done]. cbn. intros [= <-]. cbn [take_bytes Nat.add drop_bytes].
      exact (f_equal (String c) (IH j eq_refl)).
Qed.

(** [sub] starts at no position of [s] that lies before the end of [s] when
    [t] follows: its first byte does not occur in [s]. *)
Lemma Index_skip c sub s t : c ∉ bytes s ->
  Index (s +:+ t) (String c sub) = Nat.add (String.length s) <$> Index t (String c sub).
Proof.
  induction s as [|d s IH]; intros Hc.
  - change ("" +:+ t) with t. by destruct (Index t (String c sub)).
  - cbn [bytes] in Hc. apply not_elem_of_cons in Hc as [Hd Hc].
    change (String d s +:+ t) with (String d (s +:+ t)). cbn [Index].
    replace (HasPrefix (String d (s +:+ t)) (String c sub)) with false.
    + rewrite IH by done. by destruct (Index t (String c sub)).
    + symmetry. apply not_true_iff_false. intros [u Hu]%HasPrefix_spec. injection Hu as ->. done.
Qed.

Lemma Index_here sub t : Index (sub +:+ t) sub = Some O.
Proof. destruct (sub +:+ t) eqn:E; cbn [Index]; rewrite <- E; by rewrite HasPrefix_app. Qed.

Lemma Contains_spec s sub : Contains s sub = true <-> exists a b, s = a +:+ sub +:+ b.
Proof.
  unfold Contains. split.
  - destruct (Index s sub) as [i|] eqn:E; [|done]. intros _. apply Index_split in E. eauto.
  - intros (a & b & ->). induction a as [|c a IH].
    + change ("" +:+ sub +:+ b) with (sub +:+ b). by rewrite Index_here.
    + change (String c a +:+ sub +:+ b) with (String c (a +:+ sub +:+ b)). cbn [Index].
      destruct (HasPrefix _ _); [done|]. by destruct (Index (a +:+ sub +:+ b) sub).
Qed.

(** ** Split *)

Lemma Split_nonempty sep s : Split sep s <> [].
Proof. destruct s as [|c s]; cbn; [done|]. destruct (Ascii.eqb c sep), (Split sep s); done. Qed.

Lemma Split_line sep l s : sep ∉ bytes l -> Split sep (l +:+ String sep s) = l :: Split sep s.
Proof.
  induction l as [|c l IH]; intros Hl.
  - change ("" +:+ String sep s) with (String sep s). cbn. by rewrite Ascii.eqb_refl.
  - cbn [bytes] in Hl. apply not_elem_of_cons in Hl as [Hc Hl].
    change (String c l +:+ String sep s) with (String c (l +:+ String sep s)). cbn [Split].
    replace (Ascii.eqb c sep) with false by (symmetry; apply Ascii.eqb_neq; congruence).
    by rewrite IH.
Qed.

Lemma Split_last sep l : sep ∉ bytes l -> Split sep l = [l].
Proof.
  induction l as [|c l IH]; intros Hl; [done|].
  cbn [bytes] in Hl. apply not_elem_of_cons in Hl as [Hc Hl]. cbn [Split].
  replace (Ascii.eqb c sep) with false by (symmetry; apply Ascii.eqb_neq; congruence).
  by rewrite IH.
Qed.

(** ** TrimSpace *)

(** A visible ASCII character. *)
Definition solid (c : ascii) : bool := in_range 33 126 (bv c).

Lemma solid_not_space c : solid c = true -> bv c < 128 /\ is_space (bv c) = false.
Proof. unfold solid, is_space, in_range. intros ?. bool_to_prop. lia. Qed.

Lemma trim_left_solid c s : solid c = true -> trim_left 0 (String c s) = String c s.
Proof. intros [Hc Hs]%solid_not_space. cbn [trim_left]. by rewrite decode_rune_ascii, Hs. Qed.

Lemma trim_right_rev_solid c l : solid c = true -> trim_right_rev 0 (c :: l) = c :: l.
Proof.
  intros [Hc Hs]%solid_not_space. cbn [trim_right_rev]. unfold decode_last.
  replace (bv c <? 0x80) with true by lia. by rewrite Hs.
Qed.

(** A text that begins and ends with a visible ASCII character is its own trimmed form. *)
Definition solid_ends (s : string) : bool :=
  match bytes s, reverse (bytes s) with c :: _, d :: _ => solid c && solid d | _, _ => true end.

Lemma TrimSpace_solid s : solid_ends s = true -> TrimSpace s = s.
Proof.
  unfold TrimSpace, solid_ends. destruct s as [|c s]; [done|]. cbn [bytes].
  destruct (reverse (c :: bytes s)) as [|d l] eqn:E; [by apply (f_equal length) in E; rewrite length_reverse in E|].
  intros [Hc Hd]%andb_true_iff. rewrite trim_left_solid by done. unfold trim_right. cbn [bytes].
  rewrite E, trim_right_rev_solid, <- E, reverse_involutive by done.
  change (c :: bytes s) with (bytes (String c s)). apply of_bytes_bytes.
Qed.

Lemma TrimSpace_solid_all s : Forall (fun c => solid c = true) (bytes s) -> TrimSpace s = s.
Proof.
  intros Hs. apply TrimSpace_solid. unfold solid_ends.
  destruct (bytes s) as [|c l] eqn:E; [done|].
  destruct (reverse (c :: l)) as [|d k] eqn:R; [done|].
  apply andb_true_iff. rewrite Forall_forall in Hs. split; apply Hs; [left|].
  apply elem_of_reverse. rewrite R. left.
Qed.
