(* ===== verification/Utf8.v ===== *)
(** * Decoding and encoding of runes

    [encode_rune] inverts [decode_rune], so a valid string is the encoding of
    its runes. *)

From S2P Require Import Prelude GoStrings.
Local Open Scope Z_scope.

(** ** Bit operations as arithmetic *)

Lemma lor_add a k b : 0 <= k -> 0 <= b < 2 ^ k -> Z.lor (a * 2 ^ k) b = a * 2 ^ k + b.
Proof.
  intros Hk Hb. assert (Hd : Z.land (a * 2 ^ k) b = 0).
  { apply Z.bits_inj'. intros n Hn. rewrite Z.land_spec, Z.bits_0.
    destruct (Z.ltb_spec n k).
    - by rewrite Z.mul_pow2_bits_low.
    - destruct (Z.eq_dec b 0) as [->|]; [rewrite Z.bits_0; apply andb_false_r|].
      rewrite (Z.bits_above_log2 b n); [apply andb_false_r|lia|].
      pose proof (proj1 (Z.log2_lt_pow2 b k ltac:(lia)) ltac:(lia)). lia. }
  rewrite <- Z.lxor_lor, <- Z.add_nocarry_lxor by done. done.
Qed.

Lemma land_low x k : 0 <= k -> Z.land x (Z.ones k) = x mod 2 ^ k.
Proof. apply Z.land_ones. Qed.

Ltac bits_to_arith :=
  change 0x3F with (Z.ones 6) in *; change 0x1F with (Z.ones 5) in *;
  change 0x0F with (Z.ones 4) in *; change 0x07 with (Z.ones 3) in *;
  repeat rewrite land_low in * by lia; rewrite ?Z.shiftl_mul_pow2, ?Z.shiftr_div_pow2 in * by lia.

Lemma decode2 b0 b1 : Z.lor (Z.shiftl (Z.land b0 0x1F) 6) (Z.land b1 0x3F) = b0 mod 32 * 64 + b1 mod 64.
Proof.
  bits_to_arith. rewrite lor_add; [done|lia|]. apply Z.mod_pos_bound. done.
Qed.

Lemma decode3 b0 b1 b2 :
  Z.lor (Z.shiftl (Z.land b0 0x0F) 12) (Z.lor (Z.shiftl (Z.land b1 0x3F) 6) (Z.land b2 0x3F))
  = b0 mod 16 * 4096 + b1 mod 64 * 64 + b2 mod 64.
Proof.
  bits_to_arith. pose proof (Z.mod_pos_bound b1 (2 ^ 6)). pose proof (Z.mod_pos_bound b2 (2 ^ 6)).
  change (2 ^ 6) with 64 in *. rewrite (lor_add (b1 mod 64) 6) by lia.
  rewrite (lor_add _ 12) by lia. change (2 ^ 6) with 64. change (2 ^ 12) with 4096. change (2 ^ 4) with 16. lia.
Qed.

Lemma decode4 b0 b1 b2 b3 :
  Z.lor (Z.shiftl (Z.land b0 0x07) 18)
    (Z.lor (Z.shiftl (Z.land b1 0x3F) 12) (Z.lor (Z.shiftl (Z.land b2 0x3F) 6) (Z.land b3 0x3F)))
  = b0 mod 8 * 262144 + b1 mod 64 * 4096 + b2 mod 64 * 64 + b3 mod 64.
Proof.
  bits_to_arith. pose proof (Z.mod_pos_bound b1 (2 ^ 6)). pose proof (Z.mod_pos_bound b2 (2 ^ 6)).
  pose proof (Z.mod_pos_bound b3 (2 ^ 6)).
  change (2 ^ 6) with 64 in *. rewrite (lor_add (b2 mod 64) 6) by lia. change (2 ^ 6) with 64.
  rewrite (lor_add (b1 mod 64) 12) by lia. change (2 ^ 12) with 4096.
  rewrite (lor_add _ 18) by lia. change (2 ^ 18) with 262144. change (2 ^ 3) with 8. lia.
Qed.

Lemma marked_byte c hi k x : 0 <= k -> 0 <= x < 2 ^ k -> bv c = hi * 2 ^ k + x ->
  byte_of (Z.lor (hi * 2 ^ k) x) = c.
Proof. intros Hk Hx H. rewrite lor_add by done. by rewrite <- H, byte_of_bv. Qed.

(** ** Encoding what was decoded *)

Definition rune_ok (r : Z) (n : nat) : bool := negb ((r =? runeError) && (n =? 1)%nat).

Lemma str1_app c s : str1 c +:+ s = String c s.
Proof. done. Qed.

Lemma encode_scalar r : 0 <= r <= 0x10FFFF -> ~ (0xD800 <= r <= 0xDFFF) ->
  encode_rune r =
  if r <? 0x80 then str1 (byte_of r)
  else if r <? 0x800 then
    String (byte_of (Z.lor 0xC0 (r / 64))) (str1 (byte_of (Z.lor 0x80 (r mod 64))))
  else if r <? 0x10000 then
    String (byte_of (Z.lor 0xE0 (r / 4096)))
      (String (byte_of (Z.lor 0x80 (r / 64 mod 64))) (str1 (byte_of (Z.lor 0x80 (r mod 64)))))
  else
    String (byte_of (Z.lor 0xF0 (r / 262144)))
      (String (byte_of (Z.lor 0x80 (r / 4096 mod 64)))
        (String (byte_of (Z.lor 0x80 (r / 64 mod 64))) (str1 (byte_of (Z.lor 0x80 (r mod 64)))))).
Proof.
  intros H1 H2. unfold encode_rune.
  replace (in_range 0 0x10FFFF r) with true by (unfold in_range; lia).
  replace (in_range 0xD800 0xDFFF r) with false by (unfold in_range; lia). cbn [andb negb].
  change 0x3F with (Z.ones 6). rewrite !land_low, !Z.shiftr_div_pow2 by lia. done.
Qed.

(** The bytes of a rune of two, three or four bytes. *)
Lemma encode2 c c1 : 194 <= bv c <= 223 -> 128 <= bv c1 <= 191 ->
  let r := bv c mod 32 * 64 + bv c1 mod 64 in
  encode_rune r = String c (str1 c1) /\ 0x80 <= r <= 0x7FF.
Proof.
  intros H H1 r.
  assert (Er : r = (bv c - 192) * 64 + (bv c1 - 128)) by (unfold r; Z.div_mod_to_equations; lia).
  clearbody r. split; [|lia]. rewrite encode_scalar by lia.
  replace (r <? 128) with false by lia. replace (r <? 2048) with true by lia.
  f_equal; [|f_equal].
  - apply (marked_byte _ 3 6); [done|..]; change (2 ^ 6) with 64; Z.div_mod_to_equations; lia.
  - apply (marked_byte _ 2 6); [done|..]; change (2 ^ 6) with 64; Z.div_mod_to_equations; lia.
Qed.

Lemma encode3 c c1 c2 lo hi : 224 <= bv c <= 239 -> lo <= bv c1 <= hi -> 128 <= bv c2 <= 191 ->
  128 <= lo -> hi <= 191 -> (bv c = 224 -> lo = 160) -> (bv c = 237 -> hi = 159) ->
  let r := bv c mod 16 * 4096 + bv c1 mod 64 * 64 + bv c2 mod 64 in
  encode_rune r = String c (String c1 (str1 c2)) /\ 0x800 <= r <= 0xFFFF.
Proof.
  intros H H1 H2 Hlo Hhi Hfirst Hsur r.
  assert (Er : r = (bv c - 224) * 4096 + (bv c1 - 128) * 64 + (bv c2 - 128))
    by (unfold r; Z.div_mod_to_equations; lia).
  assert (Hr : 0x800 <= r <= 0xFFFF /\ ~ (0xD800 <= r <= 0xDFFF)) by (clear -H H1 H2 Hlo Hhi Hfirst Hsur Er; lia).
  clearbody r. clear Hfirst Hsur. split; [|lia]. rewrite encode_scalar by lia.
  replace (r <? 128) with false by lia. replace (r <? 2048) with false by lia.
  replace (r <? 65536) with true by lia.
  f_equal; [|f_equal; [|f_equal]].
  - apply (marked_byte _ 14 4); [done|..]; change (2 ^ 4) with 16; Z.div_mod_to_equations; lia.
  - apply (marked_byte _ 2 6); [done|..]; change (2 ^ 6) with 64; Z.div_mod_to_equations; lia.
  - apply (marked_byte _ 2 6); [done|..]; change (2 ^ 6) with 64; Z.div_mod_to_equations; lia.
Qed.

Lemma encode4 c c1 c2 c3 lo hi : 240 <= bv c <= 244 -> lo <= bv c1 <= hi -> 128 <= bv c2 <= 191 ->
  128 <= bv c3 <= 191 -> 128 <= lo -> hi <= 191 -> (bv c = 240 -> lo = 144) -> (bv c = 244 -> hi = 143) ->
  let r := bv c mod 8 * 262144 + bv c1 mod 64 * 4096 + bv c2 mod 64 * 64 + bv c3 mod 64 in
  encode_rune r = String c (String c1 (String c2 (str1 c3))) /\ 0x10000 <= r <= 0x10FFFF.
Proof.
  intros H H1 H2 H3 Hlo Hhi Hfirst Hlast r.
  assert (Er : r = (bv c - 240) * 262144 + (bv c1 - 128) * 4096 + (bv c2 - 128) * 64 + (bv c3 - 128))
    by (unfold r; Z.div_mod_to_equations; lia).
  assert (Hr : 0x10000 <= r <= 0x10FFFF) by (clear -H H1 H2 H3 Hlo Hhi Hfirst Hlast Er; lia).
  clearbody r. clear Hfirst Hlast. split; [|lia]. rewrite encode_scalar by lia.
  replace (r <? 128) with false by lia. replace (r <? 2048) with false by lia.
  replace (r <? 65536) with false by lia.
  f_equal; [|f_equal; [|f_equal; [|f_equal]]].
  - apply (marked_byte _ 15 4); [done|..]; change (2 ^ 4) with 16; Z.div_mod_to_equations; lia.
  - apply (marked_byte _ 2 6); [done|..]; change (2 ^ 6) with 64; Z.div_mod_to_equations; lia.
  - apply (marked_byte _ 2 6); [done|..]; change (2 ^ 6) with 64; Z.div_mod_to_equations; lia.
  - apply (marked_byte _ 2 6); [done|..]; change (2 ^ 6) with 64; Z.div_mod_to_equations; lia.
Qed.

Lemma utf8_first_spec b n lo hi : utf8_first b = Some (n, lo, hi) ->
  128 <= lo /\ hi <= 191 /\
  (n = 2%nat /\ 194 <= b <= 223 /\ lo = 128 /\ hi = 191
   \/ n = 3%nat /\ 224 <= b <= 239 /\ (b = 224 -> lo = 160) /\ (b = 237 -> hi = 159)
   \/ n = 4%nat /\ 240 <= b <= 244 /\ (b = 240 -> lo = 144) /\ (b = 244 -> hi = 143)).
Proof.
  unfold utf8_first, in_range. intros H.
  repeat split_match_in H; simplify_eq; (split; [lia|]); (split; [lia|]);
    first [left; lia | right; left; lia | right; right; lia].
Qed.

(** What [decode_rune] yields for a valid rune encodes to the bytes it read. *)
Lemma decode_encode c s r n : decode_rune c s = (r, n) -> rune_ok r n = true ->
  exists m, n = S m /\ encode_rune r = String c (take_bytes m s) /\ (m <= String.length s)%nat
            /\ 0 <= r <= 0x10FFFF.
Proof.
  unfold decode_rune. pose proof (bv_range c) as Hc. intros H Hok.
  assert (Hbad : (runeError, 1%nat) = (r, n) -> False) by (by intros [= <- <-]).
  destruct (bv c <? 0x80) eqn:E0.
  { injection H as <- <-. exists 0%nat. rewrite encode_scalar by lia. rewrite E0, byte_of_bv.
    split_and!; [done|done|lia..]. }
  destruct (utf8_first (bv c)) as [[[k lo] hi]|] eqn:Hf; [|by apply Hbad in H].
  apply utf8_first_spec in Hf as (Hlo & Hhi & [(-> & Hb & -> & ->)|[(-> & Hb & Ha & Hz)|(-> & Hb & Ha & Hz)]]).
  - destruct s as [|c1 s]; [by apply Hbad in H|].
    destruct (in_range _ _ (bv c1)) eqn:E1; [|by apply Hbad in H].
    rewrite decode2 in H. injection H as <- <-. exists 1%nat.
    destruct (encode2 c c1 Hb ltac:(unfold in_range in E1; lia)) as [-> ?].
    split_and!; [done|done|cbn; lia|lia|lia].
  - destruct s as [|c1 [|c2 s]]; [by apply Hbad in H..|].
    destruct (in_range lo hi (bv c1) && is_cont (bv c2)) eqn:E1; [|by apply Hbad in H].
    unfold is_cont, in_range in E1. rewrite decode3 in H. injection H as <- <-. exists 2%nat.
    destruct (encode3 c c1 c2 lo hi Hb ltac:(lia) ltac:(lia) Hlo Hhi Ha Hz) as [-> ?].
    split_and!; [done|done|cbn; lia|lia|lia].
  - destruct s as [|c1 [|c2 [|c3 s]]]; [by apply Hbad in H..|].
    destruct (_ && is_cont (bv c3)) eqn:E1; [|by apply Hbad in H].
    unfold is_cont, in_range in E1. rewrite decode4 in H. injection H as <- <-. exists 3%nat.
    destruct (encode4 c c1 c2 c3 lo hi Hb ltac:(lia) ltac:(lia) ltac:(lia) Hlo Hhi Ha Hz) as [-> ?].
    split_and!; [done|done|cbn; lia|lia|lia].
Qed.

Lemma runes_from_skip k s : runes_from k s = runes_from 0 (drop_bytes k s).
Proof.
  revert s. induction k as [|k IH]; intros [|c s]; try done. exact (IH s).
Qed.

(** A valid string is the encoding of its runes. *)
Lemma encode_runes_w s : forallb (fun '(r, n) => rune_ok r n) (runes_w s) = true ->
  encode_runes (runes s) = s.
Proof.
  unfold runes, runes_w. remember (String.length s) as len eqn:Hlen.
  revert s Hlen. induction len as [len IH] using lt_wf_ind. intros [|c s] ->; [done|].
  cbn [runes_from]. destruct (decode_rune c s) as [r n] eqn:E. cbn [forallb fmap list_fmap fst].
  intros [Hok Hrest]%andb_true_iff. destruct (decode_encode c s r n E Hok) as (m & -> & He & Hm & _).
  cbn [pred] in *. rewrite runes_from_skip in Hrest |- *.
  change (encode_runes (r :: ?l)) with (encode_rune r +:+ encode_runes l). cbn [encode_runes foldr].
  rewrite He. change (foldr _ "" ?l) with (encode_runes l).
  assert (Hcut : take_bytes m s +:+ drop_bytes m s = s).
  { clear. revert s. induction m as [|m IH]; intros [|c s]; try done. exact (f_equal (String c) (IH s)). }
  assert (Hl : (String.length (drop_bytes m s) < String.length (String c s))%nat).
  { rewrite <- Hcut at 2. cbn. rewrite string_length_app. lia. }
  change (String c (take_bytes m s) +:+ ?t) with (String c (take_bytes m s +:+ t)).
  rewrite (IH _ Hl _ eq_refl Hrest). by rewrite Hcut.
Qed.
