(* ===== verification/Base64.v ===== *)
(** * Standard Base64 ([encoding/base64.StdEncoding])

    Encoding with padding, and the decoder as [DecodeString] behaves: line
    breaks are skipped anywhere, padding is required, bytes after the padding
    are refused, and unused low bits of the last character are ignored. *)

From S2P Require Import Prelude GoStrings.
Local Open Scope Z_scope.

Definition alphabet : string :=
  "ABCDEFGHIJKLMNOPQRSTUVWXYZabcdefghijklmnopqrstuvwxyz0123456789+/".

Definition sextet_char (k : Z) : ascii :=
  match String.get (Z.to_nat k) alphabet with Some c => c | None => zero end.

Definition sextet_value (c : ascii) : option Z :=
  let b := bv c in
  if in_range 65 90 b then Some (b - 65)
  else if in_range 97 122 b then Some (b - 71)
  else if in_range 48 57 b then Some (b + 4)
  else if b =? 43 then Some 62
  else if b =? 47 then Some 63
  else None.

Definition pad : ascii := "=".

Fixpoint encode_from (l : list Z) : list ascii :=
  match l with
  | [] => []
  | [a] => [sextet_char (a / 4); sextet_char (a mod 4 * 16); pad; pad]
  | [a; b] => [sextet_char (a / 4); sextet_char (a mod 4 * 16 + b / 16);
               sextet_char (b mod 16 * 4); pad]
  | a :: b :: c :: r =>
      sextet_char (a / 4) :: sextet_char (a mod 4 * 16 + b / 16)
      :: sextet_char (b mod 16 * 4 + c / 64) :: sextet_char (c mod 64) :: encode_from r
  end.

(** [EncodeToString]. *)
Definition base64_encode (s : string) : string := of_bytes (encode_from (map bv (bytes s))).

(** One quantum: four characters, of which the last two may be padding at the
    very end. *)
Fixpoint decode_from (l : list ascii) : option (list Z) :=
  match l with
  | [] => Some []
  | a :: b :: c :: d :: r =>
      x ← sextet_value a; y ← sextet_value b;
      if Ascii.eqb c pad then
        if Ascii.eqb d pad && bool_decide (r = []) then Some [x * 4 + y / 16] else None
      else
        z ← sextet_value c;
        if Ascii.eqb d pad then
          if bool_decide (r = []) then Some [x * 4 + y / 16; y mod 16 * 16 + z / 4] else None
        else
          w ← sextet_value d; rest ← decode_from r;
          Some (x * 4 + y / 16 :: y mod 16 * 16 + z / 4 :: z mod 4 * 64 + w :: rest)
  | _ => None
  end.

Definition line_break (c : ascii) : bool := (bv c =? 10) || (bv c =? 13).

(** [DecodeString]; [None] is its error. *)
Definition base64_decode (s : string) : option string :=
  l ← decode_from (List.filter (fun c => negb (line_break c)) (bytes s));
  Some (of_bytes (map byte_of l)).

(** ** Round trip *)

Lemma sextet_table :
  forallb (fun n => let c := sextet_char (Z.of_nat n) in
                    match sextet_value c with
                    | Some v => (v =? Z.of_nat n) && negb (line_break c) && negb (Ascii.eqb c pad)
                    | None => false end) (seq 0 64) = true.
Proof. vm_compute. reflexivity. Qed.

Lemma sextet_char_spec k : 0 <= k < 64 ->
  sextet_value (sextet_char k) = Some k /\ line_break (sextet_char k) = false
  /\ Ascii.eqb (sextet_char k) pad = false.
Proof.
  intros Hk. pose proof sextet_table as H. rewrite forallb_forall in H.
  specialize (H (Z.to_nat k) ltac:(apply in_seq; lia)). cbv zeta in H. rewrite Z2Nat.id in H by lia.
  destruct (sextet_value _) as [v|]; [|done]. bool_to_prop.
  split; [f_equal; lia|]. by split.
Qed.

(** Induction three bytes at a time. *)
Lemma triple_ind {A} (P : list A -> Prop) :
  P [] -> (forall a, P [a]) -> (forall a b, P [a; b]) ->
  (forall a b c r, P r -> P (a :: b :: c :: r)) -> forall l, P l.
Proof.
  intros H0 H1 H2 H3 l. enough (P l /\ (forall x, P (x :: l)) /\ forall x y, P (x :: y :: l)) by tauto.
  induction l as [|z l (I0 & I1 & I2)]; [auto|]. split_and!; auto.
Qed.

Definition octet (z : Z) : Prop := 0 <= z < 256.

Ltac sextet k :=
  let H := fresh "H" in
  assert (H : 0 <= k < 64) by (unfold octet in *; Z.to_euclidean_division_equations; lia);
  let E := fresh "E" in
  destruct (sextet_char_spec k H) as (-> & _ & E); rewrite ?E; clear E.

Lemma decode_encode_from l : Forall octet l -> decode_from (encode_from l) = Some l.
Proof.
  induction l as [|a|a b|a b c r IH] using triple_ind; intros Hl; [done|..].
  - apply Forall_cons in Hl as [Ha _]. cbn [encode_from decode_from].
    sextet (a / 4). sextet (a mod 4 * 16). cbn. do 2 f_equal.
    unfold octet in *. Z.to_euclidean_division_equations; lia.
  - apply Forall_cons in Hl as [Ha Hl]. apply Forall_cons in Hl as [Hb _].
    cbn [encode_from decode_from].
    sextet (a / 4). sextet (a mod 4 * 16 + b / 16). sextet (b mod 16 * 4).
    cbn. unfold octet in *. f_equal.
    assert (a / 4 * 4 + (a mod 4 * 16 + b / 16) / 16 = a) as ->
      by (Z.to_euclidean_division_equations; lia).
    assert ((a mod 4 * 16 + b / 16) mod 16 * 16 + b mod 16 * 4 / 4 = b) as ->
      by (Z.to_euclidean_division_equations; lia). done.
  - apply Forall_cons in Hl as [Ha Hl]. apply Forall_cons in Hl as [Hb Hl].
    apply Forall_cons in Hl as [Hc Hl]. cbn [encode_from decode_from].
    sextet (a / 4). sextet (a mod 4 * 16 + b / 16). sextet (b mod 16 * 4 + c / 64).
    sextet (c mod 64). cbn [mbind option_bind]. rewrite (IH Hl). cbn [mbind option_bind].
    unfold octet in *.
    assert (a / 4 * 4 + (a mod 4 * 16 + b / 16) / 16 = a) as ->
      by (Z.to_euclidean_division_equations; lia).
    assert ((a mod 4 * 16 + b / 16) mod 16 * 16 + (b mod 16 * 4 + c / 64) / 4 = b) as ->
      by (Z.to_euclidean_division_equations; lia).
    assert ((b mod 16 * 4 + c / 64) mod 4 * 64 + c mod 64 = c) as ->
      by (Z.to_euclidean_division_equations; lia). done.
Qed.

Lemma encode_no_breaks l : Forall octet l ->
  List.filter (fun c => negb (line_break c)) (encode_from l) = encode_from l.
Proof.
  assert (Hk : forall k, 0 <= k < 64 -> line_break (sextet_char k) = false)
    by (intros k H; apply (sextet_char_spec k H)).
  induction l as [|a|a b|a b c r IH] using triple_ind; intros Hl; [done|..];
    repeat match goal with H : Forall _ (_ :: _) |- _ => apply Forall_cons in H as [? H] end;
    unfold octet in *; cbn [encode_from List.filter];
    rewrite !Hk by (Z.to_euclidean_division_equations; lia); cbn [negb]; [done..|].
  by rewrite IH.
Qed.

Lemma octets_bytes s : Forall octet (map bv (bytes s)).
Proof. apply Forall_forall. intros z (c & -> & _)%list_elem_of_fmap. apply bv_range. Qed.

Lemma base64_round_trip s : base64_decode (base64_encode s) = Some s.
Proof.
  unfold base64_decode, base64_encode. rewrite bytes_of_bytes, encode_no_breaks by apply octets_bytes.
  rewrite decode_encode_from by apply octets_bytes. cbn. f_equal.
  rewrite map_map, (map_ext _ id), map_id; [apply of_bytes_bytes|]. intros c. apply byte_of_bv.
Qed.

(** Encoding is injective. *)
Lemma base64_encode_inj s t : base64_encode s = base64_encode t -> s = t.
Proof. intros E. apply (f_equal base64_decode) in E. rewrite !base64_round_trip in E. by simplify_eq. Qed.

Lemma length_encode_from l : length (encode_from l) = (4 * ((length l + 2) / 3))%nat.
Proof.
  induction l as [|a|a b|a b c r IH] using triple_ind; [done..|].
  cbn [encode_from length]. rewrite IH.
  replace (S (S (S (length r))) + 2)%nat with ((length r + 2) + 1 * 3)%nat by lia.
  rewrite Nat.div_add by lia. lia.
Qed.

Lemma base64_length s : String.length (base64_encode s) = (4 * ((String.length s + 2) / 3))%nat.
Proof.
  unfold base64_encode. rewrite <- length_bytes, bytes_of_bytes, length_encode_from, length_map.
  by rewrite length_bytes.
Qed.

Example base64_known : base64_encode "Ma" = "TWE=" /\ base64_decode "TWE=" = Some "Ma"
  /\ base64_decode "TQ==x" = None /\ base64_decode "TQ" = None.
Proof. by vm_compute. Qed.

(** ** The alphabet *)

(** A property of the 64 characters and the pad holds of every Base64 text. *)
Lemma base64_alphabet (P : ascii -> bool) s :
  forallb (fun n => P (sextet_char (Z.of_nat n))) (seq 0 64) = true -> P pad = true ->
  forallb P (bytes (base64_encode s)) = true.
Proof.
  intros H Hpad.
  assert (Hk : forall k, 0 <= k < 64 -> P (sextet_char k) = true).
  { intros k Hk. rewrite forallb_forall in H. specialize (H (Z.to_nat k) ltac:(apply in_seq; lia)).
    cbv beta in H. by rewrite Z2Nat.id in H by lia. }
  unfold base64_encode. rewrite bytes_of_bytes. pose proof (octets_bytes s) as Hl. revert Hl.
  generalize (map bv (bytes s)). intros l.
  induction l as [|a|a b|a b c r IH] using triple_ind; intros Hl; [done|..];
    repeat match goal with H : Forall _ (_ :: _) |- _ => apply Forall_cons in H as [? H] end;
    unfold octet in *; cbn [encode_from forallb];
    rewrite !Hk by (Z.to_euclidean_division_equations; lia); cbn [andb]; rewrite ?Hpad; [done..|].
  by rewrite IH.
Qed.
