(* ===== verification/GoErrors.v ===== *)
(** * Go errors: the error tree and [errors.Is], [errors.As], [errors.Join]

    The daemon tells its failures apart by sentinel errors wrapped with [%w] and
    joined with [errors.Join]. An error is the tree those calls build. Its text,
    [errors.Is] and [errors.As] are computed from the tree. Sentinels are
    compared by identity, so they are constructors, not texts. *)

From S2P Require Import Prelude Models GoStrings.
Local Open Scope Z_scope.

(** The package-level error values that [errors.Is] is asked about. *)
Inductive sentinel : Type :=
| ErrInvalidEnvelope
| ErrFingerprintConflict
| ErrClaimInFlight
| ErrClaimNotFound
| ErrClaimStale
| ErrChainBusy
| ErrChainConflict
| ErrRejectedInput
| ErrInvoiceRejected
| ErrOutcomeAmbiguous
| ErrTenantSchemaNotReady
| ErrNoRows
| errTenantStopping.

#[export] Instance sentinel_eq_dec : EqDecision sentinel.
Proof. solve_decision. Defined.

Definition sentinel_text (s : sentinel) : string :=
  match s with
  | ErrInvalidEnvelope => "invalid queue envelope"
  | ErrFingerprintConflict => "queue request fingerprint conflict"
  | ErrClaimInFlight => "queue claim is in flight"
  | ErrClaimNotFound => "queue claim not found"
  | ErrClaimStale => "queue claim lease is stale"
  | ErrChainBusy => "branch invoice chain is busy"
  | ErrChainConflict => "branch invoice chain changed"
  | ErrRejectedInput => "document rejected before invoicing"
  | ErrInvoiceRejected => "ZATCA rejected a verified invoice"
  | ErrOutcomeAmbiguous => "ZATCA's outcome is ambiguous"
  | ErrTenantSchemaNotReady => "ZATCA tenant schema is not ready"
  | ErrNoRows => "sql: no rows in result set"
  | errTenantStopping => "tenant is being removed"
  end.

#[local] Set Warnings "-register-all".

(** [Wrap pre e post] is [fmt.Errorf("<pre>%w<post>", e)]; [NewError] is
    [errors.New] and a [fmt.Errorf] without [%w]. [MySQLError] is the driver's
    type, [APIError] is [client.APIError], [SchemaError] is
    [queue.SchemaError], which unwraps to [ErrTenantSchemaNotReady]. *)
Inductive error : Type :=
| Sentinel (s : sentinel)
| NewError (text : string)
| Wrap (pre : string) (e : error) (post : string)
| Joined (errs : list error)
| MySQLError (Number : Z) (text : string)
| APIError (StatusCode : Z) (Body : string) (Response : option InvoiceResponse)
| SchemaError (Missing : list string).

Definition newline : string := str1 (byte_of 10).

Fixpoint error_text (e : error) : string :=
  match e with
  | Sentinel s => sentinel_text s
  | NewError t => t
  | Wrap pre e post => pre +:+ error_text e +:+ post
  | Joined errs => Join (map error_text errs) newline
  | MySQLError n t => "Error " +:+ itoa n +:+ ": " +:+ t
  | APIError st body _ => "ZATCA API error (HTTP " +:+ itoa st +:+ "): " +:+ body
  | SchemaError missing =>
      sentinel_text ErrTenantSchemaNotReady +:+ ": missing " +:+ Join missing ", "
  end.

(** [errors.Is(e, target)]. *)
Fixpoint errors_is (target : sentinel) (e : error) : bool :=
  match e with
  | Sentinel s => bool_decide (s = target)
  | Wrap _ e _ => errors_is target e
  | Joined errs => existsb (errors_is target) errs
  | SchemaError _ => bool_decide (ErrTenantSchemaNotReady = target)
  | NewError _ | MySQLError _ _ | APIError _ _ _ => false
  end.

Fixpoint first_some {A B} (f : A -> option B) (l : list A) : option B :=
  match l with
  | [] => None
  | x :: l' => match f x with Some y => Some y | None => first_some f l' end
  end.

(** [errors.As(e, &mysqlErr)]: the number of the first server error. *)
Fixpoint as_mysql (e : error) : option Z :=
  match e with
  | MySQLError n _ => Some n
  | Wrap _ e _ => as_mysql e
  | Joined errs => first_some as_mysql errs
  | _ => None
  end.

(** [errors.As(e, &apiErr)]. *)
Fixpoint as_api (e : error) : option (Z * string * option InvoiceResponse) :=
  match e with
  | APIError st body resp => Some (st, body, resp)
  | Wrap _ e _ => as_api e
  | Joined errs => first_some as_api errs
  | _ => None
  end.

(** [errors.Join(a, b)] of two errors, and of a possibly nil [a]. *)
Definition errors_Join (a b : error) : error := Joined [a; b].
Definition errors_Join_opt (a : option error) (b : error) : error :=
  match a with Some a => Joined [a; b] | None => Joined [b] end.

Definition mysqlDuplicateKey : Z := 1062.
Definition mysqlLockNoWait : Z := 3572.

(** [queue.isMySQLError]. *)
Definition isMySQLError (err : error) (number : Z) : bool :=
  match as_mysql err with
  | Some n => n =? number
  | None => false
  end.

(** ** Facts *)

Lemma errors_is_join t a b :
  errors_is t (errors_Join a b) = errors_is t a || errors_is t b.
Proof. simpl. by rewrite orb_false_r. Qed.

Lemma errors_is_join_opt t a b :
  errors_is t (errors_Join_opt a b)
  = match a with Some a => errors_is t a | None => false end || errors_is t b.
Proof. destruct a; simpl; by rewrite ?orb_false_r. Qed.

#[export] Hint Rewrite errors_is_join errors_is_join_opt : go.
