(* ===== verification/Uuid.v ===== *)
(** * UUID parsing ([google/uuid], vendored)

    [Parse] of [src/vendor/github.com/google/uuid/uuid.go] and [xtob] of its
    [util.go]. The queue accepts an invoice UUID exactly when [Parse] succeeds
    and the value is not the nil UUID, so the textual forms it lets through are
    those of [Parse]: the 36-byte form, [urn:uuid:] before it, a 38-byte form
    whose first and last bytes are not looked at, and 32 hex digits. *)

From S2P Require Import Prelude GoStrings.
Local Open Scope Z_scope.

(** [xvalues] maps a byte to its hexadecimal value or 255. *)
Definition xvalues (c : ascii) : Z := match hex_val c with Some v => v | None => 255 end.

(** [xtob]: [(b1 << 4) | b2] as a byte, and whether both digits are valid. *)
Definition xtob (x1 x2 : ascii) : Z * bool :=
  let b1 := xvalues x1 in
  let b2 := xvalues x2 in
  (Z.lor (Z.land (Z.shiftl b1 4) 0xFF) b2, negb (b1 =? 255) && negb (b2 =? 255)).

Definition xtob_ok (x1 x2 : ascii) : option Z :=
  let '(v, ok) := xtob x1 x2 in if ok then Some v else None.

(** The byte [s[i]]; every index used below is within the string. *)
Definition at_ (s : string) (i : nat) : ascii := nth i (bytes s) nul.

Definition to_lower (c : ascii) : ascii :=
  if in_range 65 90 (bv c) then byte_of (bv c + 32) else c.

(** [strings.EqualFold(s, "urn:uuid:")]: none of these letters folds with a
    rune outside ASCII, so the comparison is bytewise. *)
Definition urn_prefix (s : string) : bool :=
  String.eqb (of_bytes (map to_lower (bytes s))) "urn:uuid:".

Definition uuid_offsets : list nat :=
  [0; 2; 4; 6; 9; 11; 14; 16; 19; 21; 24; 26; 28; 30; 32; 34]%nat.

Definition dash : ascii := "-".

(** The part of [Parse] after the [switch]: [s] has at least 36 bytes. *)
Definition parse_dashed (s : string) : option (list Z) :=
  if negb (Ascii.eqb (at_ s 8) dash && Ascii.eqb (at_ s 13) dash
           && Ascii.eqb (at_ s 18) dash && Ascii.eqb (at_ s 23) dash)
  then None
  else mapM (fun x => xtob_ok (at_ s x) (at_ s (S x))) uuid_offsets.

Definition Parse (s : string) : option (list Z) :=
  let len := String.length s in
  if (len =? 36)%nat then parse_dashed s
  else if (len =? 45)%nat then
    if urn_prefix (take_bytes 9 s) then parse_dashed (drop_bytes 9 s) else None
  else if (len =? 38)%nat then parse_dashed (drop_bytes 1 s)
  else if (len =? 32)%nat then
    mapM (fun i => xtob_ok (at_ s (2 * i)) (at_ s (S (2 * i)))) (seq 0 16)
  else None.

(** [uuid.Nil]. *)
Definition Nil : list Z := replicate 16 0.

(** ** Facts *)

Definition hex_byte (b : Z) : string :=
  String (hex_digit (b / 16)) (str1 (hex_digit (b mod 16))).

(** [uuid.UUID.String]: the canonical form. *)
Definition format_bytes (l : list Z) : string := foldr (fun b s => hex_byte b +:+ s) "" l.
Definition uuid_string (u : list Z) : string :=
  format_bytes (take 4 u) +:+ "-" +:+ format_bytes (take 2 (drop 4 u)) +:+ "-"
  +:+ format_bytes (take 2 (drop 6 u)) +:+ "-" +:+ format_bytes (take 2 (drop 8 u))
  +:+ "-" +:+ format_bytes (drop 10 u).

Lemma Parse_length s u : Parse s = Some u -> length u = 16%nat.
Proof.
  unfold Parse, parse_dashed. intros H.
  repeat split_match_in H; simplify_eq; by apply length_mapM in H.
Qed.

(** Every byte value is read back from its two hexadecimal digits. *)
Lemma xtob_hex_byte_all :
  forallb (fun n => match xtob_ok (hex_digit (Z.of_nat n / 16)) (hex_digit (Z.of_nat n mod 16)) with
                    | Some v => v =? Z.of_nat n | None => false end) (seq 0 256) = true.
Proof. vm_compute. reflexivity. Qed.

Lemma xtob_hex_byte b : 0 <= b < 256 ->
  xtob_ok (hex_digit (b / 16)) (hex_digit (b mod 16)) = Some b.
Proof.
  intros Hb. pose proof xtob_hex_byte_all as H. rewrite forallb_forall in H.
  specialize (H (Z.to_nat b)). rewrite Z2Nat.id in H by lia.
  destruct (xtob_ok _ _) as [v|].
  - f_equal. apply Z.eqb_eq, H, in_seq. lia.
  - assert (false = true); [|done]. apply H, in_seq. lia.
Qed.

Lemma parse_uuid_string u :
  length u = 16%nat -> Forall (fun b => 0 <= b < 256) u -> Parse (uuid_string u) = Some u.
Proof.
  intros Hlen Hu.
  do 16 (destruct u as [|? u]; [done|]). destruct u; [|done]. clear Hlen.
  repeat match goal with
  | H : Forall _ (_ :: _) |- _ => apply Forall_cons in H as [? H]
  end.
  set (s := uuid_string _).
  assert (Hs : Parse s = parse_dashed s) by done. rewrite Hs.
  unfold parse_dashed, s, uuid_offsets. cbv -[xtob_ok hex_digit Z.div Z.modulo Z.le Z.lt].
  by rewrite !xtob_hex_byte.
Qed.

(** ** Witness of the accepted forms *)

Example Parse_forms :
  let d := "00112233-4455-6677-8899-aAbBcCdDeEfF" in
  Parse d = Parse ("urn:UUID:" +:+ d)
  /\ Parse d = Parse ("{" +:+ d +:+ "}")
  /\ Parse d = Parse ("x" +:+ d +:+ "y")
  /\ Parse d = Parse "00112233445566778899aabbccddeeff"
  /\ Parse "00112233-4455-6677-8899-aabbccddeeff0" = None.
Proof. by vm_compute. Qed.
