(* ===== verification/Secutil.v ===== *)
(** * Encrypted database fields ([secutil/secutil.go])

    Keys are accepted as hexadecimal or Base64 text. A field is sealed with
    AES-256-GCM under a fresh nonce and stored as ["enc:"] and the Base64 text
    of nonce and ciphertext. AES-GCM itself is the interface [AEAD]: seal, open
    and the law that opening what was sealed gives the plaintext back. *)

From S2P Require Import Prelude GoStrings GoText GoErrors Base64 Uuid.
Local Open Scope Z_scope.

(** [cipher.NewGCM] of an AES block cipher under a 32-byte key, with the
    standard nonce of 12 bytes and no additional data. *)
Class AEAD : Type := mkAEAD {
  gcm_seal : list Z -> string -> string -> string;
  gcm_open : list Z -> string -> string -> option string;
  gcm_open_seal raw nonce plaintext :
    length raw = 32%nat -> String.length nonce = 12%nat ->
    gcm_open raw nonce (gcm_seal raw nonce plaintext) = Some plaintext
}.

Definition NonceSize : nat := 12.
Definition enc_prefix : string := "enc:".

(** [aes.NewCipher] takes keys of 16, 24 and 32 bytes. *)
Definition aes_key_size (n : nat) : bool := (n =? 16)%nat || (n =? 24)%nat || (n =? 32)%nat.

Record Key : Type := mkKey { raw : list Z }.

(** ** Hexadecimal keys *)

Definition hexVal (c : ascii) : result error Z :=
  let b := bv c in
  if (48 <=? b) && (b <=? 57) then Ok (b - 48)
  else if (97 <=? b) && (b <=? 102) then Ok (b - 97 + 10)
  else if (65 <=? b) && (b <=? 70) then Ok (b - 65 + 10)
  else Err (NewError ("invalid hex char: " +:+ encode_rune b)).

(** The loop of [decodeHex]; [hi<<4 | lo] of two digits. *)
Fixpoint decode_hex_pairs (s : string) : result error (list Z) :=
  match s with
  | String a (String b s') =>
      match hexVal a with
      | Err e => Err e
      | Ok hi =>
          match hexVal b with
          | Err e => Err e
          | Ok lo => match decode_hex_pairs s' with
                     | Err e => Err e
                     | Ok r => Ok (Z.lor (Z.shiftl hi 4) lo :: r)
                     end
          end
      end
  | _ => Ok []
  end.

Definition decodeHex (s : string) : result error (list Z) :=
  if negb (Nat.even (String.length s)) then Err (NewError "odd-length hex") else decode_hex_pairs s.

(** ** Keys *)

Definition key_error (got : nat) : error :=
  NewError ("secutil: key must be 32 bytes (got " +:+ itoa (Z.of_nat got)
            +:+ "); provide 64 hex chars or 44 base64 chars").

Definition NewKey (encoded : string) : result error Key :=
  let encoded := TrimSpace encoded in
  if String.eqb encoded "" then Err (NewError "secutil: encryption key is empty")
  else
    let hex :=
      match decodeHex encoded with
      | Ok raw => if (length raw =? 32)%nat then Ok (mkKey raw) else Err (key_error (length raw))
      | Err _ => Err (key_error 0)
      end in
    match base64_decode encoded with
    | Some raw => if (String.length raw =? 32)%nat then Ok (mkKey (map bv (bytes raw))) else hex
    | None => hex
    end.

Definition IsEncrypted (value : string) : bool := HasPrefix value enc_prefix.

Section fields.
Context `{AEAD}.

(** [nonce] is what [io.ReadFull(rand.Reader, nonce)] reads, if it succeeds. *)
Definition Encrypt (k : Key) (nonce : option string) (plaintext : string) : result error string :=
  if String.eqb plaintext "" then Ok ""
  else if negb (aes_key_size (length (raw k)))
  then Err (Wrap "secutil: new cipher: "
              (NewError ("crypto/aes: invalid key size " +:+ itoa (Z.of_nat (length (raw k))))) "")
  else match nonce with
       | None => Err (Wrap "secutil: random nonce: " (NewError "unexpected EOF") "")
       | Some nonce =>
           let ciphertext := nonce +:+ gcm_seal (raw k) nonce plaintext in
           Ok (enc_prefix +:+ base64_encode ciphertext)
       end.

Definition Decrypt (k : Key) (value : string) : result error string :=
  if String.eqb value "" then Ok ""
  else if negb (HasPrefix value enc_prefix)
  then Err (NewError "secutil: value is not encrypted (missing enc: prefix)")
  else match base64_decode (TrimPrefix value enc_prefix) with
       | None => Err (Wrap "secutil: base64 decode: " (NewError "illegal base64 data") "")
       | Some data =>
           if negb (aes_key_size (length (raw k)))
           then Err (Wrap "secutil: new cipher: "
                       (NewError ("crypto/aes: invalid key size " +:+ itoa (Z.of_nat (length (raw k))))) "")
           else if (String.length data <? NonceSize)%nat
           then Err (NewError "secutil: ciphertext too short")
           else match gcm_open (raw k) (take_bytes NonceSize data) (drop_bytes NonceSize data) with
                | None => Err (Wrap "secutil: decrypt: "
                                 (NewError "cipher: message authentication failed") "")
                | Some plaintext => Ok plaintext
                end
       end.
End fields.

(** ** Keys from their texts *)

Lemma NewKey_length s k : NewKey s = Ok k -> length (raw k) = 32%nat.
Proof.
  unfold NewKey. intros H. repeat split_match_in H; simplify_eq; cbn;
    rewrite ?length_map, ?length_bytes; by apply Nat.eqb_eq.
Qed.

Lemma hexVal_digits :
  forallb (fun n => let b := Z.of_nat n in
             match hexVal (hex_digit (b / 16)), hexVal (hex_digit (b mod 16)) with
             | Ok hi, Ok lo => (Z.lor (Z.shiftl hi 4) lo =? b)
                               && solid (hex_digit (b / 16)) && solid (hex_digit (b mod 16))
                               && negb (line_break (hex_digit (b / 16))) && negb (line_break (hex_digit (b mod 16)))
                               && negb (Ascii.eqb (hex_digit (b / 16)) pad) && negb (Ascii.eqb (hex_digit (b mod 16)) pad)
             | _, _ => false
             end) (seq 0 256) = true.
Proof. vm_compute. reflexivity. Qed.

(** A character of a hexadecimal text. *)
Definition hex_char (c : ascii) : Prop :=
  solid c = true /\ line_break c = false /\ Ascii.eqb c pad = false.

Lemma hex_byte_read b : octet b ->
  hex_char (hex_digit (b / 16)) /\ hex_char (hex_digit (b mod 16))
  /\ exists hi lo, hexVal (hex_digit (b / 16)) = Ok hi /\ hexVal (hex_digit (b mod 16)) = Ok lo
     /\ Z.lor (Z.shiftl hi 4) lo = b.
Proof.
  unfold octet, hex_char. intros Hb. pose proof hexVal_digits as H. rewrite forallb_forall in H.
  specialize (H (Z.to_nat b)). rewrite Z2Nat.id in H by lia. cbv zeta in H.
  specialize (H ltac:(apply in_seq; lia)).
  destruct (hexVal (hex_digit (b / 16))) as [hi|]; [|done].
  destruct (hexVal (hex_digit (b mod 16))) as [lo|]; [|done].
  bool_to_prop. split_and!; try done. by exists hi, lo.
Qed.

Lemma format_bytes_chars l : Forall octet l ->
  Forall hex_char (bytes (format_bytes l)) /\ String.length (format_bytes l) = (2 * length l)%nat
  /\ decode_hex_pairs (format_bytes l) = Ok l.
Proof.
  induction l as [|b l IH]; intros Hl; [done|]. apply Forall_cons in Hl as [Hb Hl].
  destruct (IH Hl) as (H1 & H2 & H3), (hex_byte_read b Hb) as (Hc & Hd & hi & lo & Eh & El & Ev).
  change (format_bytes (b :: l))
    with (String (hex_digit (b / 16)) (String (hex_digit (b mod 16)) (format_bytes l))).
  split_and!.
  - cbn [bytes]. auto.
  - cbn [String.length length]. rewrite H2. lia.
  - cbn [decode_hex_pairs]. by rewrite Eh, El, H3, Ev.
Qed.

Lemma decode_from_length l r : Forall (fun c => Ascii.eqb c pad = false) l ->
  decode_from l = Some r -> (4 * length r = 3 * length l)%nat.
Proof.
  revert r. induction l as [l IH] using (induction_ltof1 _ (@length ascii)). unfold ltof in IH.
  destruct l as [|a [|b [|c [|d k]]]]; intros r Hl Hr; try done; [by simplify_eq/=|].
  do 4 apply Forall_cons in Hl as [? Hl]. cbn [decode_from] in Hr.
  destruct (sextet_value a), (sextet_value b); try done. cbn in Hr.
  rewrite H1, H2 in Hr. destruct (sextet_value c), (sextet_value d); try done. cbn in Hr.
  destruct (decode_from k) as [r'|] eqn:Ek; [|done]. cbn in Hr. injection Hr as <-.
  apply IH in Ek; [cbn; lia|cbn; lia|done].
Qed.

Lemma hex_not_base64 l : Forall octet l -> length l = 32%nat ->
  match base64_decode (format_bytes l) with Some s => String.length s <> 32%nat | None => True end.
Proof.
  intros Hl Hlen. destruct (format_bytes_chars l Hl) as (Hc & Hn & _).
  unfold base64_decode. rewrite Forall_forall in Hc.
  assert (List.filter (fun c => negb (line_break c)) (bytes (format_bytes l)) = bytes (format_bytes l)) as ->.
  { generalize dependent (bytes (format_bytes l)). intros k Hk. clear -Hk.
    induction k as [|c k IH]; [done|]. cbn.
    destruct (Hk c ltac:(left)) as (_ & -> & _). cbn. rewrite IH; [done|]. intros. apply Hk. by right. }
  destruct (decode_from (bytes (format_bytes l))) as [r|] eqn:E; [|done]. cbn.
  apply decode_from_length in E; [|apply Forall_forall; intros c ?; by apply Hc].
  rewrite length_bytes, Hn, Hlen in E. rewrite <- length_bytes, bytes_of_bytes, length_map. lia.
Qed.

Lemma base64_solid l : Forall octet l -> Forall (fun c => solid c = true) (encode_from l).
Proof.
  assert (Hk : forall k, 0 <= k < 64 -> solid (sextet_char k) = true).
  { intros k Hk. assert (H : forallb (fun n => solid (sextet_char (Z.of_nat n))) (seq 0 64) = true)
      by (vm_compute; reflexivity).
    rewrite forallb_forall in H. specialize (H (Z.to_nat k)). rewrite Z2Nat.id in H by lia.
    apply H, in_seq. lia. }
  induction l as [|a|a b|a b c r IH] using triple_ind; intros Hl; [done|..];
    repeat match goal with H : Forall _ (_ :: _) |- _ => apply Forall_cons in H as [? H] end;
    unfold octet in *; cbn [encode_from];
    repeat (apply Forall_cons; split; [first [done | apply Hk; Z.to_euclidean_division_equations; lia]|]);
    [done..|]. by apply IH.
Qed.

Definition hex_text (raw : list Z) : string := format_bytes raw.
Definition base64_text (raw : list Z) : string := base64_encode (of_bytes (map byte_of raw)).

Lemma octet_bytes l : Forall octet l -> map bv (map byte_of l) = l.
Proof.
  induction l as [|z l IH]; intros Hl; [done|]. apply Forall_cons in Hl as [Hz Hl]. unfold octet in Hz.
  cbn. rewrite bv_byte_of, IH by done. by rewrite Z.mod_small.
Qed.

(** Both texts of a key are read as that key. *)
Lemma NewKey_texts raw text : Forall octet raw -> length raw = 32%nat ->
  text = hex_text raw \/ text = base64_text raw -> NewKey text = Ok (mkKey raw).
Proof.
  intros Hr Hlen [->| ->]; unfold NewKey.
  - destruct (format_bytes_chars raw Hr) as (Hc & Hn & Hd). unfold hex_text.
    rewrite TrimSpace_solid_all by (eapply Forall_impl; [done|]; by intros c []).
    destruct (String.eqb_spec (format_bytes raw) "") as [E|_]; [rewrite E in Hn; cbn in Hn; lia|].
    unfold decodeHex. rewrite Hn, Hlen, Hd. change (negb (Nat.even (2 * 32))) with false. cbn iota.
    rewrite Hlen. cbn [Nat.eqb].
    pose proof (hex_not_base64 raw Hr Hlen) as Hb.
    destruct (base64_decode (format_bytes raw)) as [s|]; [|done].
    by destruct (Nat.eqb_spec (String.length s) 32).
  - unfold base64_text.
    set (s := of_bytes (map byte_of raw)).
    assert (Hs : map bv (bytes s) = raw) by (unfold s; by rewrite bytes_of_bytes, octet_bytes).
    assert (Hl : String.length s = 32%nat) by (rewrite <- length_bytes, <- (length_map bv), Hs; done).
    rewrite TrimSpace_solid_all
      by (unfold base64_encode; rewrite bytes_of_bytes; apply base64_solid, octets_bytes).
    destruct (String.eqb_spec (base64_encode s) "") as [E|_].
    { apply (f_equal String.length) in E. rewrite base64_length, Hl in E. done. }
    by rewrite base64_round_trip, Hl, Hs.
Qed.

Section round_trip.
Context `{AEAD}.

Lemma Decrypt_Encrypt k nonce p c : length (raw k) = 32%nat -> String.length nonce = 12%nat ->
  Encrypt k (Some nonce) p = Ok c -> Decrypt k c = Ok p.
Proof.
  intros Hk Hn. unfold Encrypt. destruct (String.eqb_spec p "") as [->|Hp]; [by intros [= <-]|].
  rewrite Hk. cbn [aes_key_size negb Nat.eqb orb]. intros [= <-].
  unfold Decrypt. rewrite HasPrefix_app, TrimPrefix_app, base64_round_trip, Hk.
  change (String.eqb (enc_prefix +:+ base64_encode (nonce +:+ gcm_seal (raw k) nonce p)) "") with false.
  cbn [aes_key_size negb Nat.eqb orb]. unfold NonceSize. rewrite string_length_app, Hn.
  replace ((12 + _ <? 12)%nat) with false by (symmetry; apply Nat.ltb_ge; lia).
  rewrite <- Hn, take_bytes_app, drop_bytes_app, gcm_open_seal; done.
Qed.

Lemma Encrypt_total k nonce p : length (raw k) = 32%nat -> exists c, Encrypt k (Some nonce) p = Ok c.
Proof.
  intros Hk. unfold Encrypt. destruct (String.eqb p ""); [by eexists|]. rewrite Hk. by eexists.
Qed.

Lemma Encrypt_nonempty k nonce p c : Encrypt k nonce p = Ok c -> c = "" <-> p = "".
Proof.
  unfold Encrypt. destruct (String.eqb_spec p "") as [->|Hp]; [by intros [= <-]|].
  destruct (negb _); [done|]. destruct nonce; [|done]. by intros [= <-].
Qed.

(** C28: A key given as 64 hexadecimal digits or as 44 Base64 characters is read as its 32 bytes, and
    under it every field survives storage: encryption with any 12-byte nonce succeeds, marks a
    non-empty field, and decryption gives the field back; a stored text without the mark is refused. *)
Theorem field_round_trip raw text nonce p :
  Forall octet raw -> length raw = 32%nat -> text = hex_text raw \/ text = base64_text raw ->
  String.length nonce = 12%nat ->
  NewKey text = Ok (mkKey raw)
  /\ (exists c, Encrypt (mkKey raw) (Some nonce) p = Ok c /\ Decrypt (mkKey raw) c = Ok p
        /\ (IsEncrypted c = true <-> p <> ""))
  /\ (forall v, v <> "" -> IsEncrypted v = false -> is_ok (Decrypt (mkKey raw) v) = false).
Proof.
  intros Hr Hl Ht Hn. split; [by apply NewKey_texts|]. split.
  - destruct (Encrypt_total (mkKey raw) nonce p Hl) as [c Hc]. exists c.
    split; [done|]. split; [by eapply Decrypt_Encrypt|].
    revert Hc. unfold Encrypt, IsEncrypted. destruct (String.eqb_spec p "") as [->|Hp]; [by intros [= <-]|].
    cbn [Secutil.raw]. rewrite Hl. cbn [aes_key_size negb Nat.eqb orb]. intros [= <-]. by rewrite HasPrefix_app.
  - intros v Hv He. unfold Decrypt. destruct (String.eqb_spec v "") as [?|_]; [done|].
    unfold IsEncrypted in He. by rewrite He.
Qed.
End round_trip.

(** An instance of the interface: the nonce stands for the authentication tag. *)
#[export] Instance tagged_aead : AEAD.
Proof.
  refine (mkAEAD (fun _ nonce p => nonce +:+ p)
            (fun _ nonce c => if HasPrefix c nonce then Some (drop_bytes (String.length nonce) c) else None) _).
  intros k nonce p _ _. by rewrite HasPrefix_app, drop_bytes_app.
Defined.

Definition sample_key : list Z := map Z.of_nat (seq 0 32).

Lemma field_round_trip_witness :
  NewKey "000102030405060708090a0b0c0d0e0f101112131415161718191a1b1c1d1e1f" = Ok (mkKey sample_key)
  /\ exists c, Encrypt (mkKey sample_key) (Some "nonce-bytes!") "secret" = Ok c
     /\ Decrypt (mkKey sample_key) c = Ok "secret".
Proof.
  destruct (field_round_trip sample_key (hex_text sample_key) "nonce-bytes!" "secret") as (H1 & (c & H2 & H3 & _) & _).
  - repeat (apply Forall_cons; split; [unfold octet; lia|]). apply Forall_nil_2.
  - reflexivity.
  - by left.
  - reflexivity.
  - split; [exact H1|]. by exists c.
Defined.
