(* ===== verification/Message.v ===== *)
(** * The document envelope ([queue/message.go])

    [Message], its validation, and the keys and subjects derived from it. The
    validators loop over the runes of a field, so they are stated on [runes];
    the injectivity theorems use that a [range] loop sees every ASCII byte. *)

From S2P Require Import Prelude GoStrings Models GoErrors Uuid.
Local Open Scope Z_scope.

(** [queue.Message]. [DocType] is a Go string type. *)
Record Message : Type := mkMessage {
  DocType : string;
  ID : Z;
  BranchID : Z;
  DBName : string;
  TenantKey : string;
  PosID : string;
  BillRequestID : string;
  EventID : string;
  EGSSequenceID : string;
  InvoiceUUID : string;
  RequestFingerprint : string
}.

#[export] Instance Message_eq_dec : EqDecision Message.
Proof. solve_decision. Defined.

Definition DocBill : string := "bill".
Definition StreamName : string := "ZATCA".
Definition SubjectAll : string := "zatca.>".
Definition sha256Size : nat := 32.

(** The zero [Message], [Message{}]. *)
Definition Message0 : Message := mkMessage "" 0 0 "" "" "" "" "" "" "" "".

(** [int64] fields of a message hold 64-bit values. *)
Definition int64_range (z : Z) : Prop := min_int64 <= z <= max_int64.

Definition invalidf (text : string) : error :=
  Wrap "" (Sentinel ErrInvalidEnvelope) (": " +:+ text).

Definition isUUID (value : string) : bool :=
  match Parse value with
  | Some parsed => negb (bool_decide (parsed = Nil))
  | None => false
  end.

(** The rune test of [validOpaqueText] and [validEvidenceText]. *)
Definition control_rune (r : Z) : bool := (r =? 0) || (r <? 0x20) || (r =? 0x7F).

(** The rune test of [validIdentityText]: also ['*'], ['>'] and ['.']. *)
Definition identity_bad_rune (r : Z) : bool :=
  (r =? 0) || (r =? 42) || (r =? 62) || (r =? 46) || (r <? 0x20) || (r =? 0x7F).

Definition bounded_text (value : string) (maxRunes : nat) : bool :=
  negb (String.eqb (TrimSpace value) "" || negb (String.eqb (TrimSpace value) value)
        || (maxRunes <? rune_count value)%nat || negb (valid_string value)).

Definition validIdentityText (value : string) (maxRunes : nat) : bool :=
  bounded_text value maxRunes && negb (existsb identity_bad_rune (runes value)).

Definition validOpaqueText (value : string) (maxRunes : nat) : bool :=
  bounded_text value maxRunes && negb (existsb control_rune (runes value)).

Definition validFingerprint (value : string) : bool :=
  (String.length value =? 2 * sha256Size)%nat
  && match hex_decode value with Some _ => true | None => false end.

Definition Message_Validate (m : Message) : option error := (
  guard! negb (String.eqb (DocType m) DocBill)
    else invalidf ("unsupported doc_type " +:+ quote (DocType m)) ;;
  guard! ID m <=? 0 else invalidf "id is required" ;;
  guard! BranchID m <=? 0 else invalidf "branch_id is required" ;;
  guard! negb (validIdentityText (DBName m) 64)
    else invalidf "db_name is required and must be at most 64 characters" ;;
  guard! negb (validIdentityText (TenantKey m) 64)
    else invalidf "tenant_key is required and must be at most 64 characters" ;;
  guard! negb (validOpaqueText (PosID m) 64)
    else invalidf "pos_id is required and must be at most 64 characters" ;;
  guard! negb (validOpaqueText (BillRequestID m) 36)
    else invalidf "bill_request_id is required and must be at most 36 characters" ;;
  guard! negb (validOpaqueText (EventID m) 128)
    else invalidf "event_id is required and must be at most 128 characters" ;;
  guard! negb (String.eqb (EGSSequenceID m) (itoa (BranchID m)))
    else invalidf "egs_sequence_id must be the branch id" ;;
  guard! negb (isUUID (InvoiceUUID m)) else invalidf "invoice_uuid must be a UUID" ;;
  guard! negb (validFingerprint (RequestFingerprint m))
    else invalidf "request_fingerprint must be a 64-character SHA-256 hex value" ;;
  None)%go.

Definition RequestKey (m : Message) : string :=
  PosID m +:+ str1 nul +:+ BillRequestID m.

Definition PartitionKey (m : Message) : string :=
  TenantKey m +:+ str1 nul +:+ EGSSequenceID m.

Definition OrderedSubject (dbName : string) (branchID : Z) : string :=
  "zatca.*." +:+ dbName +:+ "." +:+ itoa branchID.

Definition OrderedConsumerName (dbName : string) (branchID : Z) : string :=
  "zatca_ordered_" +:+ dbName +:+ "_" +:+ itoa branchID.

(** ** What validation establishes *)

(** The text conditions of a valid message, as a proposition. *)
Record valid_message (m : Message) : Prop := {
  vm_doc : DocType m = DocBill;
  vm_id : 0 < ID m;
  vm_branch : 0 < BranchID m;
  vm_db : validIdentityText (DBName m) 64 = true;
  vm_tenant : validIdentityText (TenantKey m) 64 = true;
  vm_pos : validOpaqueText (PosID m) 64 = true;
  vm_request : validOpaqueText (BillRequestID m) 36 = true;
  vm_event : validOpaqueText (EventID m) 128 = true;
  vm_egs : EGSSequenceID m = itoa (BranchID m);
  vm_uuid : isUUID (InvoiceUUID m) = true;
  vm_fp : validFingerprint (RequestFingerprint m) = true
}.

Lemma Message_Validate_None m : Message_Validate m = None <-> valid_message m.
Proof.
  unfold Message_Validate. split.
  - intros H. repeat case_match; bool_to_prop; try done.
  - intros []. repeat case_match; bool_to_prop; done || lia || congruence.
Qed.

Lemma Message_Validate_error m e :
  Message_Validate m = Some e -> exists text, e = invalidf text.
Proof. unfold Message_Validate. intros H. repeat case_match; simplify_eq; eauto. Qed.

#[export] Instance valid_message_dec m : Decision (valid_message m).
Proof.
  destruct (Message_Validate m) eqn:E.
  - right. intros H. apply Message_Validate_None in H. congruence.
  - left. by apply Message_Validate_None.
Defined.

Lemma bounded_text_nonempty s n : bounded_text s n = true -> s <> "".
Proof. unfold bounded_text. intros H ->. done. Qed.

Lemma validIdentityText_nonempty s n : validIdentityText s n = true -> s <> "".
Proof. unfold validIdentityText. intros H. bool_to_prop. by eapply bounded_text_nonempty. Qed.

Lemma validOpaqueText_nul s n : validOpaqueText s n = true -> nul ∉ bytes s.
Proof.
  unfold validOpaqueText. intros H. bool_to_prop. by eapply runes_exclude.
Qed.

Lemma validIdentityText_excludes c s n :
  validIdentityText s n = true -> bv c < 128 -> identity_bad_rune (bv c) = true ->
  c ∉ bytes s.
Proof. unfold validIdentityText. intros H ??. bool_to_prop. by eapply runes_exclude. Qed.

(** ** Decimal numbers contain only digits and a sign *)

Lemma pretty_N_char_digit d : (d < 10)%N -> is_digit (pretty_N_char d) = true.
Proof.
  intros H. assert (Hd : In (N.to_nat d) (seq 0 10)) by (apply in_seq; lia).
  rewrite <- (N2Nat.id d). clear H. revert Hd. generalize (N.to_nat d). intros n Hn.
  simpl in Hn. by repeat destruct Hn as [<-|Hn].
Qed.

Lemma pretty_N_go_chars n s c :
  c ∈ bytes (pretty_N_go n s) -> is_digit c = true \/ c ∈ bytes s.
Proof.
  revert s. induction (N.lt_wf_0 n) as [n _ IH]; intros s.
  destruct (decide (n = 0)%N) as [->|Hn]; [rewrite pretty_N_go_0; auto|].
  rewrite pretty_N_go_step by lia. intros H.
  destruct (IH (n `div` 10)%N ltac:(apply N.div_lt; lia) _ H) as [?|Hc]; [auto|].
  simpl in Hc. apply elem_of_cons in Hc as [->|?]; [|auto].
  left. apply pretty_N_char_digit, N.mod_lt. lia.
Qed.

Definition decimal_char (c : ascii) : bool := is_digit c || Ascii.eqb c "-".

Lemma itoa_chars z c : c ∈ bytes (itoa z) -> decimal_char c = true.
Proof.
  unfold itoa, pretty, pretty_Z, decimal_char.
  assert (HN : forall n : N, c ∈ bytes (pretty n) -> (is_digit c || Ascii.eqb c "-") = true).
  { intros n. unfold pretty, pretty_N. case_match.
    - intros Hc. apply list_elem_of_singleton in Hc as ->. done.
    - intros Hc. apply pretty_N_go_chars in Hc as [->|Hc]; [done|]. simpl in Hc. set_solver. }
  destruct z; simpl.
  - intros Hc. apply list_elem_of_singleton in Hc as ->. done.
  - apply (HN (N.pos _)).
  - intros Hc. apply elem_of_cons in Hc as [->|Hc]; [done|].
    by apply (HN (N.pos p)).
Qed.

Lemma itoa_excludes z c : decimal_char c = false -> c ∉ bytes (itoa z).
Proof. intros H Hc. apply itoa_chars in Hc. congruence. Qed.

Lemma itoa_inj x y : itoa x = itoa y -> x = y.
Proof. apply (inj pretty). Qed.

(** ** Keys and names identify what they are built from *)

Lemma sep_inj c s1 s2 t1 t2 :
  c ∉ bytes s1 -> c ∉ bytes s2 ->
  s1 +:+ str1 c +:+ t1 = s2 +:+ str1 c +:+ t2 -> s1 = s2 /\ t1 = t2.
Proof.
  intros H1 H2 E. apply (f_equal bytes) in E. rewrite !bytes_app in E. simpl in E.
  apply app_sep_inj in E as [? ?]; [|done..]. split; by apply bytes_inj.
Qed.

Lemma sep_inj_r c s1 s2 t1 t2 :
  c ∉ bytes t1 -> c ∉ bytes t2 ->
  s1 +:+ str1 c +:+ t1 = s2 +:+ str1 c +:+ t2 -> s1 = s2 /\ t1 = t2.
Proof.
  intros H1 H2 E. apply (f_equal bytes) in E. rewrite !bytes_app in E. simpl in E.
  apply app_sep_inj_r in E as [? ?]; [|done..]. split; by apply bytes_inj.
Qed.

Lemma RequestKey_split m1 m2 :
  valid_message m1 -> valid_message m2 -> RequestKey m1 = RequestKey m2 ->
  PosID m1 = PosID m2 /\ BillRequestID m1 = BillRequestID m2.
Proof.
  intros V1 V2. apply sep_inj; eapply validOpaqueText_nul; by apply vm_pos.
Qed.

Lemma PartitionKey_split m1 m2 :
  valid_message m1 -> valid_message m2 -> PartitionKey m1 = PartitionKey m2 ->
  TenantKey m1 = TenantKey m2 /\ BranchID m1 = BranchID m2.
Proof.
  intros V1 V2 E. apply sep_inj in E as [? E];
    [| by eapply validIdentityText_excludes; [apply vm_tenant|..] ..].
  split; [done|]. rewrite (vm_egs _ V1), (vm_egs _ V2) in E. by apply itoa_inj.
Qed.

(** The envelope of [queue/testdata/bill_envelope.json], for concrete runs. *)
Definition bill_envelope : Message :=
  mkMessage DocBill 42 7 "tenant_acme" "acme-0001" "pos-1"
    "3f2b9c1e-7a4d-4e8b-9c21-5d0e6f7a8b9c" "9b1d2c3e-4f5a-4b6c-8d7e-0f1a2b3c4d5e" "7"
    "0c4f7a1e-2b3d-4e5f-8a9b-1c2d3e4f5a6b"
    "0123456789abcdef0123456789abcdef0123456789abcdef0123456789abcdef".

Lemma bill_envelope_valid : valid_message bill_envelope.
Proof. apply Message_Validate_None. by vm_compute. Qed.
