(* ===== verification/Decimal.v ===== *)
(** * Decimal text

    [strconv.FormatInt] and the decimal readers agree. *)

From S2P Require Import Prelude GoStrings Models GoErrors Uuid Message.
Local Open Scope Z_scope.

Lemma pretty_N_char_value d : (d < 10)%N -> bv (pretty_N_char d) = 48 + Z.of_N d.
Proof.
  intros H. assert (Hd : In (N.to_nat d) (seq 0 10)) by (apply in_seq; lia).
  rewrite <- (N2Nat.id d). clear H. revert Hd. generalize (N.to_nat d). intros n Hn.
  simpl in Hn. by repeat destruct Hn as [<-|Hn].
Qed.

Lemma digits_value_go n s : digits_value 0 (pretty_N_go n s) = digits_value (Z.of_N n) s.
Proof.
  revert s. induction (N.lt_wf_0 n) as [n _ IH]; intros s.
  destruct (decide (n = 0)%N) as [->|Hn]; [by rewrite pretty_N_go_0|].
  rewrite pretty_N_go_step by lia. rewrite IH by (apply N.div_lt; lia). cbn [digits_value].
  assert (Hm : (n `mod` 10 < 10)%N) by (apply N.mod_lt; lia).
  rewrite pretty_N_char_digit, pretty_N_char_value by done. f_equal.
  rewrite N2Z.inj_div, N2Z.inj_mod by lia. change (Z.of_N 10) with 10.
  Z.to_euclidean_division_equations; lia.
Qed.

Lemma digits_value_pretty (n : N) : digits_value 0 (pretty n) = Some (Z.of_N n).
Proof.
  unfold pretty, pretty_N. case_decide as Hn; [by subst|]. by rewrite digits_value_go.
Qed.

Lemma itoa_N z : 0 <= z -> itoa z = pretty (Z.to_N z).
Proof. intros Hz. unfold itoa, pretty, pretty_Z. by destruct z. Qed.

Lemma digits_value_itoa z : 0 <= z -> digits_value 0 (itoa z) = Some z.
Proof. intros Hz. rewrite itoa_N, digits_value_pretty by done. by rewrite Z2N.id. Qed.

Lemma itoa_neg z : z < 0 -> itoa z = String "-" (itoa (- z)).
Proof. intros Hz. unfold itoa, pretty, pretty_Z. by destruct z. Qed.

Lemma itoa_not_empty z : itoa z <> "".
Proof.
  destruct (Z.ltb_spec z 0); [by rewrite itoa_neg|]. intros E.
  pose proof (digits_value_itoa z H) as Hd. rewrite E in Hd. cbn in Hd. injection Hd as <-. done.
Qed.

Lemma ParseUint_itoa z : 0 <= z <= max_uint64 -> ParseUint (itoa z) = Some z.
Proof.
  intros Hz. unfold ParseUint. pose proof (itoa_not_empty z).
  destruct (itoa z) as [|c s] eqn:E; [done|]. rewrite <- E, digits_value_itoa by lia.
  by replace (z <=? max_uint64) with true by lia.
Qed.

Lemma pretty_N_digits (n : N) c : c ∈ bytes (pretty n) -> is_digit c = true.
Proof.
  unfold pretty, pretty_N. case_decide as Hn.
  - intros Hc. apply list_elem_of_singleton in Hc as ->. done.
  - intros [?|Hc]%pretty_N_go_chars; [done|]. by apply elem_of_nil in Hc.
Qed.

Lemma itoa_digits z c : 0 <= z -> c ∈ bytes (itoa z) -> is_digit c = true.
Proof. intros Hz. rewrite itoa_N by done. apply pretty_N_digits. Qed.
