(* ===== verification/ChainTypes.v ===== *)
(** * The data of the invoice chain ([queue/chain.go], [queue/sql.go])

    Outcome states, bookings, signed invoices and outcomes, with the pure
    functions on them: [SignedInvoice.Validate], the numeric status of an
    outcome, and the text under which external evidence is stored and read
    back. *)

From S2P Require Import Prelude GoStrings GoText Models GoErrors Uuid Message.
Local Open Scope Z_scope.

Definition GenesisPIH : string :=
  "NWZlY2ViNjZmZmM4NmYzOGQ5NTI3ODZjNmQ2OTZjNzljMmRiYzIzOWRkNGU5MWI0NjcyOWQ3M2EyN2ZiNTdlOQ==".

Definition OutcomeAccepted : string := "accepted".
Definition OutcomeWarning : string := "accepted_with_warning".
Definition OutcomeRejected : string := "rejected".
Definition OutcomeAmbiguous : string := "ambiguous".
Definition OutcomeTerminalFailure : string := "terminal_failure".
Definition outcomePending : string := "pending".

Definition InvoiceStandard : string := "standard".
Definition InvoiceSimplified : string := "simplified".

Definition EvidenceUnspecified : string := "".
Definition EvidenceProvider : string := "provider".
Definition EvidenceExternal : string := "external".
Definition EvidenceLocal : string := "local".

(** [defaultBookingLease], 5 minutes in nanoseconds. *)
Definition defaultBookingLease : Z := 5 * 60 * 1000000000.

(** [queue.Booking]. *)
Record Booking : Type := mkBooking {
  bk_BranchID : Z;
  bk_RequestKey : string;
  bk_EventID : string;
  bk_UUID : string;
  bk_ICV : Z;
  bk_PIH : string
}.

(** [queue.SignedInvoice]. *)
Record SignedInvoice : Type := mkSigned {
  si_SourceID : Z;
  si_BranchID : Z;
  si_UUID : string;
  si_ICV : Z;
  si_PIH : string;
  si_Hash : string;
  si_Kind : string;
  si_SignedXML : string;
  si_QR : string;
  si_Outcome : string;
  si_OutcomeEvidence : string;
  si_EvidenceID : string;
  si_ProviderCode : string;
  si_OutcomeMessage : string
}.

(** [queue.Outcome]. *)
Record Outcome : Type := mkOutcome {
  oc_State : string;
  oc_ProviderCode : string;
  oc_Message : string;
  oc_Evidence : string;
  oc_EvidenceID : string
}.

#[export] Instance Booking_eq_dec : EqDecision Booking.
Proof. solve_decision. Defined.
#[export] Instance SignedInvoice_eq_dec : EqDecision SignedInvoice.
Proof. solve_decision. Defined.
#[export] Instance Outcome_eq_dec : EqDecision Outcome.
Proof. solve_decision. Defined.

Definition Outcome0 : Outcome := mkOutcome "" "" "" "" "".

Definition valid_outcome_state (o : string) : bool :=
  String.eqb o "" || String.eqb o OutcomeAccepted || String.eqb o OutcomeWarning
  || String.eqb o OutcomeRejected || String.eqb o OutcomeAmbiguous
  || String.eqb o OutcomeTerminalFailure.

Definition SignedInvoice_Validate (i : SignedInvoice) : option error := (
  guard! si_SourceID i <=? 0 else NewError "signed invoice source id is required" ;;
  guard! si_BranchID i <=? 0 else NewError "signed invoice branch id is required" ;;
  guard! negb (isUUID (si_UUID i)) else NewError "signed invoice UUID is invalid" ;;
  guard! si_ICV i =? 0 else NewError "signed invoice ICV is required" ;;
  guard! blank (si_PIH i) else NewError "signed invoice PIH is required" ;;
  guard! blank (si_Hash i) else NewError "signed invoice hash is required" ;;
  guard! blank (si_SignedXML i) else NewError "signed invoice XML is required" ;;
  guard! negb (String.eqb (si_Kind i) InvoiceStandard)
         && negb (String.eqb (si_Kind i) InvoiceSimplified)
    else NewError ("signed invoice kind " +:+ quote (si_Kind i) +:+ " is invalid") ;;
  guard! negb (valid_outcome_state (si_Outcome i))
    else NewError ("signed invoice outcome " +:+ quote (si_Outcome i) +:+ " is invalid") ;;
  None)%go.

(** ** Outcomes as they are stored *)

Definition submissionStatus (state : string) : result error Z :=
  if String.eqb state OutcomeAccepted then Ok 2
  else if String.eqb state OutcomeRejected then Ok 3
  else if String.eqb state OutcomeWarning then Ok 4
  else if String.eqb state OutcomeAmbiguous then Ok 1
  else if String.eqb state OutcomeTerminalFailure then Ok 5
  else Err (NewError ("unknown outcome state " +:+ quote state)).

(** [truncate] of sql.go: at most [n] runes. *)
Definition truncate (s : string) (n : nat) : string :=
  if (length (runes s) <=? n)%nat then s else encode_runes (take n (runes s)).

(** [nullString]: a [sql.NullString] is an option. *)
Definition nullString (value : string) (n : nat) : option string :=
  if String.eqb value "" then None else Some (truncate value n).

(** The [String] field of a [sql.NullString]. *)
Definition null_str (o : option string) : string := default "" o.

Definition externalEvidencePrefix : string := "external-evidence:".

Definition outcomeMessage (outcome : Outcome) : string :=
  if negb (String.eqb (oc_Evidence outcome) EvidenceExternal) then oc_Message outcome
  else externalEvidencePrefix +:+ oc_EvidenceID outcome +:+ "|" +:+ oc_Message outcome.

Definition outcomeLogMessage (outcome : Outcome) (warningMsg : option string) : option string :=
  if String.eqb (oc_Evidence outcome) EvidenceExternal
  then nullString (outcomeMessage outcome) 1024
  else warningMsg.

(** The evidence source, the evidence id and the message of a stored text. *)
Definition parseOutcomeEvidence (message : string) : string * string * string :=
  if negb (HasPrefix message externalEvidencePrefix)
  then (EvidenceUnspecified, "", message)
  else match split2 "|" (TrimPrefix message externalEvidencePrefix) with
       | Some (id, rest) =>
           if blank id then (EvidenceExternal, "", message)
           else (EvidenceExternal, id, rest)
       | None => (EvidenceExternal, "", message)
       end.

(** ** Facts *)

(** What [Validate] establishes. *)
Record valid_invoice (i : SignedInvoice) : Prop := {
  vi_source : 0 < si_SourceID i;
  vi_branch : 0 < si_BranchID i;
  vi_uuid : isUUID (si_UUID i) = true;
  vi_icv : si_ICV i <> 0;
  vi_pih : blank (si_PIH i) = false;
  vi_hash : blank (si_Hash i) = false;
  vi_xml : blank (si_SignedXML i) = false;
  vi_kind : si_Kind i = InvoiceStandard \/ si_Kind i = InvoiceSimplified;
  vi_outcome : valid_outcome_state (si_Outcome i) = true
}.

Lemma SignedInvoice_Validate_None i : SignedInvoice_Validate i = None <-> valid_invoice i.
Proof.
  unfold SignedInvoice_Validate. split.
  - intros H. repeat (case_match; [done|]). bool_to_prop.
    split; try (done || lia).
    destruct (String.eqb_spec (si_Kind i) InvoiceStandard); [auto|].
    destruct (String.eqb_spec (si_Kind i) InvoiceSimplified); [auto|].
    match goal with H : _ && _ = false |- _ => discriminate H end.
  - intros [? ? Hu ? Hp Hh Hx Hk Ho]. rewrite Hu, Hp, Hh, Hx, Ho.
    repeat (case_match; bool_to_prop; try lia). all: try done.
    destruct Hk; congruence.
Qed.

Lemma blank_empty : blank "" = true.
Proof. reflexivity. Qed.

Lemma blank_nonempty s : blank s = false -> s <> "".
Proof. by intros H ->. Qed.

Lemma submissionStatus_Ok state st :
  submissionStatus state = Ok st ->
  state ∈ [OutcomeAccepted; OutcomeRejected; OutcomeWarning; OutcomeAmbiguous;
           OutcomeTerminalFailure].
Proof.
  unfold submissionStatus. intros H. rewrite !elem_of_cons.
  repeat case_match; bool_to_prop; subst; auto 10; done.
Qed.

Lemma submissionStatus_not_pending state st :
  submissionStatus state = Ok st -> state <> outcomePending.
Proof. intros H ->. discriminate. Qed.

Lemma truncate_short s n : (length (runes s) <= n)%nat -> truncate s n = s.
Proof. intros H. unfold truncate. by rewrite (proj2 (Nat.leb_le _ _) H). Qed.

Lemma split2_app c a b : c ∉ bytes a -> split2 c (a +:+ str1 c +:+ b) = Some (a, b).
Proof.
  induction a as [|d a IH]; intros H.
  - simpl. by rewrite (proj2 (Ascii.eqb_eq c c) eq_refl).
  - change (String d a +:+ str1 c +:+ b) with (String d (a +:+ str1 c +:+ b)). simpl.
    apply not_elem_of_cons in H as [Hd Ha].
    destruct (Ascii.eqb_spec d c) as [->|?]; [done|]. by rewrite IH.
Qed.

Definition bar : ascii := "|".

(** The text written for external evidence reads back, provided the evidence
    id is not blank and does not contain the separator. *)
Lemma parse_outcomeMessage o :
  oc_Evidence o = EvidenceExternal -> blank (oc_EvidenceID o) = false ->
  bar ∉ bytes (oc_EvidenceID o) ->
  parseOutcomeEvidence (outcomeMessage o) = (EvidenceExternal, oc_EvidenceID o, oc_Message o).
Proof.
  intros He Hb Hn. unfold outcomeMessage. rewrite He. cbn [negb String.eqb].
  change (String.eqb EvidenceExternal EvidenceExternal) with true. cbn [negb].
  unfold parseOutcomeEvidence. rewrite HasPrefix_app, TrimPrefix_app. cbn [negb].
  change "|" with (str1 bar). change "|"%char with bar. by rewrite split2_app, Hb.
Qed.
