(* ===== verification/Control.v ===== *)
(** * Control requests ([queue/onboard.go], [queue/reconcile.go])

    The onboarding request with its one-time OTP and the reconciliation request
    of an operator: their subjects and what their validation accepts. Decoding
    them from JSON is in [Envelope.v]. *)

From S2P Require Import Prelude GoStrings Models GoErrors Uuid Message ChainTypes.
Local Open Scope Z_scope.

(** ** Onboarding *)

Record OnboardRequest : Type := mkOnboardRequest {
  on_DBName : string;
  on_TenantKey : string;
  on_BranchID : Z;
  on_OTP : string
}.

Record OnboardReply : Type := mkOnboardReply {
  onr_Accepted : bool;
  onr_Error : string
}.

#[export] Instance OnboardRequest_eq_dec : EqDecision OnboardRequest.
Proof. solve_decision. Defined.
#[export] Instance OnboardReply_eq_dec : EqDecision OnboardReply.
Proof. solve_decision. Defined.

Definition OnboardSubject (dbName : string) (branchID : Z) : string :=
  "control.zatca.onboard." +:+ dbName +:+ "." +:+ itoa branchID.

Definition OnboardWildcard (dbName : string) : string :=
  "control.zatca.onboard." +:+ dbName +:+ ".*".

(** The [switch] of [DecodeOnboardRequest]. *)
Definition OnboardRequest_check (req : OnboardRequest) : option error := (
  guard! negb (validIdentityText (on_DBName req) 64)
    else invalidf "db_name is required and must be at most 64 characters" ;;
  guard! negb (validIdentityText (on_TenantKey req) 64)
    else invalidf "tenant_key is required and must be at most 64 characters" ;;
  guard! on_BranchID req <=? 0 else invalidf "branch_id is required" ;;
  guard! blank (on_OTP req) || (64 <? String.length (on_OTP req))%nat
    else invalidf "otp is required and must be at most 64 characters" ;;
  None)%go.

(** ** Reconciliation *)

Definition ReconcileActionStatus : string := "status".
Definition ReconcileActionRecord : string := "record".

Record ReconcileRequest : Type := mkReconcileRequest {
  rq_TenantKey : string;
  rq_DBName : string;
  rq_BranchID : Z;
  rq_BillID : Z;
  rq_Action : string;
  rq_InvoiceUUID : string;
  rq_InvoiceHash : string;
  rq_State : string;
  rq_ProviderCode : string;
  rq_Message : string;
  rq_EvidenceID : string
}.

Record ReconcileReply : Type := mkReconcileReply {
  rp_Accepted : bool;
  rp_State : string;
  rp_Evidence : string;
  rp_EvidenceID : string;
  rp_InvoiceHash : string;
  rp_Error : string
}.

#[export] Instance ReconcileRequest_eq_dec : EqDecision ReconcileRequest.
Proof. solve_decision. Defined.
#[export] Instance ReconcileReply_eq_dec : EqDecision ReconcileReply.
Proof. solve_decision. Defined.

Definition ReconcileSubject (tenantKey : string) : string :=
  "control.zatca.reconcile." +:+ tenantKey.
Definition ReconcileWildcard : string := "control.zatca.reconcile.*".

Definition validEvidenceText (value : string) (maxRunes : nat) : bool :=
  negb ((maxRunes <? rune_count value)%nat || negb (valid_string value))
  && negb (existsb control_rune (runes value)).

Definition record_state (s : string) : bool :=
  String.eqb s OutcomeAccepted || String.eqb s OutcomeWarning || String.eqb s OutcomeRejected.

Definition ReconcileRequest_Validate (r : ReconcileRequest) : option error := (
  guard! negb (validIdentityText (rq_TenantKey r) 64)
    else invalidf "tenant_key is required and must be at most 64 characters" ;;
  guard! negb (validIdentityText (rq_DBName r) 64)
    else invalidf "db_name is required and must be at most 64 characters" ;;
  guard! rq_BranchID r <=? 0 else invalidf "branch_id is required" ;;
  guard! rq_BillID r <=? 0 else invalidf "bill_id is required" ;;
  guard! negb (String.eqb (rq_Action r) ReconcileActionStatus)
         && negb (String.eqb (rq_Action r) ReconcileActionRecord)
    else invalidf ("action must be " +:+ quote ReconcileActionStatus +:+ " or "
                   +:+ quote ReconcileActionRecord) ;;
  guard! negb (String.eqb (rq_InvoiceUUID r) "") && negb (isUUID (rq_InvoiceUUID r))
    else invalidf "invoice_uuid must be a UUID when supplied" ;;
  guard! negb (String.eqb (rq_InvoiceHash r) "") && negb (validFingerprint (rq_InvoiceHash r))
    else invalidf "invoice_hash must be a 64-character SHA-256 hex value" ;;
  if negb (String.eqb (rq_Action r) ReconcileActionRecord) then None else
  guard! negb (record_state (rq_State r))
    else invalidf "record state must be accepted, accepted_with_warning, or rejected" ;;
  guard! blank (rq_InvoiceHash r)
    else invalidf "invoice_hash is required when recording external evidence" ;;
  guard! blank (rq_EvidenceID r) || negb (validEvidenceText (rq_EvidenceID r) 256)
    else invalidf "evidence_id is required and must be at most 256 characters" ;;
  guard! negb (validEvidenceText (rq_ProviderCode r) 64)
         || negb (validEvidenceText (rq_Message r) 1024)
    else invalidf "provider_code and message must be valid bounded text" ;;
  None)%go.

(** ** Facts *)

(** The action and the hash of a valid request. *)
Lemma valid_request_fields r : ReconcileRequest_Validate r = None ->
  (rq_Action r = ReconcileActionStatus \/ rq_Action r = ReconcileActionRecord)
  /\ (rq_InvoiceHash r = "" \/ String.length (rq_InvoiceHash r) = 64%nat).
Proof.
  unfold ReconcileRequest_Validate. intros H.
  destruct (String.eqb_spec (rq_Action r) ReconcileActionStatus) as [|Hs];
    destruct (String.eqb_spec (rq_Action r) ReconcileActionRecord) as [|Hr];
    cbn [negb andb] in H; try (by repeat case_match); (split; [by auto|]);
    repeat (case_match; try done); bool_to_prop;
    destruct (String.eqb_spec (rq_InvoiceHash r) ""); auto; right;
    destruct (validFingerprint (rq_InvoiceHash r)) eqn:Hf; try done;
    unfold validFingerprint in Hf; apply andb_true_iff in Hf as [Hf _]; by apply Nat.eqb_eq in Hf.
Qed.

(** What an accepted record request carries. *)
Lemma record_request_fields r :
  ReconcileRequest_Validate r = None -> rq_Action r = ReconcileActionRecord ->
  record_state (rq_State r) = true /\ blank (rq_EvidenceID r) = false
  /\ validEvidenceText (rq_EvidenceID r) 256 = true
  /\ rq_InvoiceHash r <> "" /\ String.length (rq_InvoiceHash r) = 64%nat.
Proof.
  unfold ReconcileRequest_Validate. intros H Ha. rewrite Ha in H.
  repeat (case_match; try done); bool_to_prop.
  assert (rq_InvoiceHash r <> "") by (by apply blank_nonempty).
  repeat split; try done.
  destruct (String.eqb_spec (rq_InvoiceHash r) ""); [done|].
  destruct (validFingerprint (rq_InvoiceHash r)) eqn:Hf; [|done].
  unfold validFingerprint in Hf. apply andb_true_iff in Hf as [Hf _].
  by apply Nat.eqb_eq in Hf.
Qed.
