(* ===== verification/Json.v ===== *)
(** * JSON as [encoding/json] decodes it into a flat struct

    The daemon decodes its envelopes and control requests with a [Decoder] that
    refuses unknown fields, into structs of strings, integers and booleans.
    This file models that: the syntax of one value (what follows it is not
    looked at), string unquoting, the match of a key with a field (exact, then
    folded), and the assignment of a value to a field: [null] leaves the field
    as it is, a value of another type is an error, a later duplicate wins.

    Folding maps ASCII letters to upper case, and the two runes outside ASCII
    that fold to ASCII letters, U+017F and U+212A, to [S] and [K]. Other runes
    are kept, since the field names are ASCII and cannot match them. The texts
    of syntax and type errors are abbreviated. *)

From S2P Require Import Prelude GoStrings.
Local Open Scope Z_scope.

#[local] Set Warnings "-register-all".

Inductive json : Type :=
| JNull
| JBool (b : bool)
| JNumber (literal : string)
| JString (s : string)
| JArray (l : list json)
| JObject (l : list (string * json)).

Inductive json_error : Type :=
| JsonEOF
| JsonUnexpectedEOF
| JsonSyntax
| JsonUnknownField (name : string)
| JsonType (field : string).

Definition json_error_text (e : json_error) : string :=
  match e with
  | JsonEOF => "EOF"
  | JsonUnexpectedEOF => "unexpected EOF"
  | JsonSyntax => "invalid character"
  | JsonUnknownField name => "json: unknown field " +:+ quote name
  | JsonType field => "json: cannot unmarshal into field " +:+ field
  end.

(** ** Syntax *)

Definition is_json_space (c : ascii) : bool :=
  (bv c =? 32) || (bv c =? 9) || (bv c =? 10) || (bv c =? 13).

Fixpoint skip_space (s : string) : string :=
  match s with
  | String c s' => if is_json_space c then skip_space s' else s
  | EmptyString => s
  end.

Definition hex4 (a b c d : ascii) : option Z :=
  match hex_val a, hex_val b, hex_val c, hex_val d with
  | Some x, Some y, Some z, Some w => Some (x * 4096 + y * 256 + z * 16 + w)
  | _, _, _, _ => None
  end.

(** [getu4] at the head of [s]: an escape [\uXXXX]. *)
Definition getu4 (s : string) : option Z :=
  match s with
  | String b (String u (String x (String y (String z (String w _))))) =>
      if Ascii.eqb b "\" && Ascii.eqb u "u" then hex4 x y z w else None
  | _ => None
  end.

Definition is_surrogate (r : Z) : bool := in_range 0xD800 0xDFFF r.

(** [utf16.DecodeRune]. *)
Definition utf16_decode (r1 r2 : Z) : option Z :=
  if in_range 0xD800 0xDBFF r1 && in_range 0xDC00 0xDFFF r2
  then Some ((r1 - 0xD800) * 1024 + (r2 - 0xDC00) + 0x10000) else None.

Definition simple_escape (c : ascii) : option ascii :=
  let b := bv c in
  if b =? 34 then Some c else if b =? 92 then Some c else if b =? 47 then Some c
  else if b =? 98 then Some (byte_of 8) else if b =? 102 then Some (byte_of 12)
  else if b =? 110 then Some (byte_of 10) else if b =? 114 then Some (byte_of 13)
  else if b =? 116 then Some (byte_of 9) else None.

(** The string after its opening quote: its value and what follows. [skip]
    counts the bytes of an escape or a rune that are consumed already. *)
Fixpoint parse_string (skip : nat) (s : string) : result json_error (string * string) :=
  match s with
  | EmptyString => Err JsonUnexpectedEOF
  | String c s' =>
      match skip with
      | S k => parse_string k s'
      | O =>
          if bv c =? 34 then Ok ("", s')
          else if bv c <? 0x20 then Err JsonSyntax
          else if bv c =? 92 then
            match s' with
            | EmptyString => Err JsonUnexpectedEOF
            | String e s2 =>
                if bv e =? 117 then
                  match getu4 s with
                  | None => Err JsonSyntax
                  | Some r =>
                      let '(r, n) :=
                        if is_surrogate r
                        then match getu4 (drop_bytes 6 s) with
                             | Some r2 => match utf16_decode r r2 with
                                          | Some d => (d, 11%nat)
                                          | None => (runeError, 5%nat)
                                          end
                             | None => (runeError, 5%nat)
                             end
                        else (r, 5%nat) in
                      match parse_string n s' with
                      | Ok (v, rest) => Ok (encode_rune r +:+ v, rest)
                      | Err e => Err e
                      end
                  end
                else match simple_escape e with
                     | None => Err JsonSyntax
                     | Some d => match parse_string 1 s' with
                                 | Ok (v, rest) => Ok (String d v, rest)
                                 | Err e => Err e
                                 end
                     end
            end
          else
            let '(r, n) := decode_rune c s' in
            match parse_string (pred n) s' with
            | Ok (v, rest) => Ok (encode_rune r +:+ v, rest)
            | Err e => Err e
            end
      end
  end.

Fixpoint span_digits (s : string) : string * string :=
  match s with
  | String c s' => if is_digit c then let '(a, b) := span_digits s' in (String c a, b) else ("", s)
  | EmptyString => ("", s)
  end.

(** The integer part: [0] or a digit string that does not start with [0]. *)
Definition parse_int_part (s : string) : result json_error (string * string) :=
  match s with
  | EmptyString => Err JsonUnexpectedEOF
  | String c s' =>
      if bv c =? 48 then Ok ("0", s')
      else if is_digit c then Ok (span_digits s) else Err JsonSyntax
  end.

Definition nonempty_digits (s : string) : result json_error (string * string) :=
  match span_digits s with
  | (EmptyString, EmptyString) => Err JsonUnexpectedEOF
  | (EmptyString, _) => Err JsonSyntax
  | r => Ok r
  end.

Definition parse_fraction (s : string) : result json_error (string * string) :=
  match s with
  | String c s' =>
      if bv c =? 46
      then match nonempty_digits s' with
           | Ok (d, r) => Ok (String c d, r) | Err e => Err e end
      else Ok ("", s)
  | EmptyString => Ok ("", s)
  end.

Definition parse_exponent (s : string) : result json_error (string * string) :=
  match s with
  | String c s' =>
      if (bv c =? 101) || (bv c =? 69) then
        let '(sign, s2) := match s' with
          | String g s3 => if (bv g =? 43) || (bv g =? 45) then (str1 g, s3) else ("", s')
          | EmptyString => ("", s') end in
        match nonempty_digits s2 with
        | Ok (d, r) => Ok (String c (sign +:+ d), r) | Err e => Err e end
      else Ok ("", s)
  | EmptyString => Ok ("", s)
  end.

Definition parse_number (s : string) : result json_error (string * string) :=
  let '(sign, s1) := match s with
    | String c s' => if bv c =? 45 then (str1 c, s') else ("", s)
    | EmptyString => ("", s) end in
  match parse_int_part s1 with
  | Err e => Err e
  | Ok (i, s2) =>
      match parse_fraction s2 with
      | Err e => Err e
      | Ok (f, s3) =>
          match parse_exponent s3 with
          | Err e => Err e
          | Ok (x, s4) => Ok (sign +:+ i +:+ f +:+ x, s4)
          end
      end
  end.

Definition expect (p s : string) : result json_error string :=
  if HasPrefix s p then Ok (drop_bytes (String.length p) s)
  else if HasPrefix p s then Err JsonUnexpectedEOF else Err JsonSyntax.

Definition literal (v : json) (p s : string) : result json_error (json * string) :=
  match expect p s with Ok r => Ok (v, r) | Err e => Err e end.

Definition one_of (c : ascii) (code : Z) : bool := bv c =? code.

(** One value, with fuel for its nesting and its members: the length of the
    input is always enough, since every call consumes a byte. *)
Fixpoint parse_value (fuel : nat) (s : string) : result json_error (json * string) :=
  match fuel with
  | O => Err JsonSyntax
  | S fuel =>
      match skip_space s with
      | EmptyString => Err JsonUnexpectedEOF
      | String c s' as t =>
          if one_of c 34 then
            match parse_string 0 s' with Ok (v, r) => Ok (JString v, r) | Err e => Err e end
          else if one_of c 123 then
            match skip_space s' with
            | String d r => if one_of d 125 then Ok (JObject [], r)
                            else match parse_members fuel s' with
                                 | Ok (l, r) => Ok (JObject l, r) | Err e => Err e end
            | EmptyString => Err JsonUnexpectedEOF
            end
          else if one_of c 91 then
            match skip_space s' with
            | String d r => if one_of d 93 then Ok (JArray [], r)
                            else match parse_elements fuel s' with
                                 | Ok (l, r) => Ok (JArray l, r) | Err e => Err e end
            | EmptyString => Err JsonUnexpectedEOF
            end
          else if one_of c 116 then literal (JBool true) "true" t
          else if one_of c 102 then literal (JBool false) "false" t
          else if one_of c 110 then literal JNull "null" t
          else if one_of c 45 || is_digit c then
            match parse_number t with Ok (n, r) => Ok (JNumber n, r) | Err e => Err e end
          else Err JsonSyntax
      end
  end
with parse_members (fuel : nat) (s : string) : result json_error (list (string * json) * string) :=
  match fuel with
  | O => Err JsonSyntax
  | S fuel =>
      match skip_space s with
      | EmptyString => Err JsonUnexpectedEOF
      | String c s1 =>
          if negb (one_of c 34) then Err JsonSyntax else
          match parse_string 0 s1 with
          | Err e => Err e
          | Ok (key, s2) =>
              match skip_space s2 with
              | EmptyString => Err JsonUnexpectedEOF
              | String d s3 =>
                  if negb (one_of d 58) then Err JsonSyntax else
                  match parse_value fuel s3 with
                  | Err e => Err e
                  | Ok (v, s4) =>
                      match skip_space s4 with
                      | EmptyString => Err JsonUnexpectedEOF
                      | String x s5 =>
                          if one_of x 125 then Ok ([(key, v)], s5)
                          else if one_of x 44 then
                            match parse_members fuel s5 with
                            | Ok (l, r) => Ok ((key, v) :: l, r) | Err e => Err e end
                          else Err JsonSyntax
                      end
                  end
              end
          end
      end
  end
with parse_elements (fuel : nat) (s : string) : result json_error (list json * string) :=
  match fuel with
  | O => Err JsonSyntax
  | S fuel =>
      match parse_value fuel s with
      | Err e => Err e
      | Ok (v, s1) =>
          match skip_space s1 with
          | EmptyString => Err JsonUnexpectedEOF
          | String x s2 =>
              if one_of x 93 then Ok ([v], s2)
              else if one_of x 44 then
                match parse_elements fuel s2 with
                | Ok (l, r) => Ok (v :: l, r) | Err e => Err e end
              else Err JsonSyntax
          end
      end
  end.

(** The next value of the input, as [Decoder.Decode] reads it. *)
Definition next_value (s : string) : result json_error json :=
  match skip_space s with
  | EmptyString => Err JsonEOF
  | _ => match parse_value (S (S (String.length s))) s with
         | Ok (v, _) => Ok v | Err e => Err e end
  end.

(** ** Assignment to the fields of a struct *)

Definition fold_rune (r : Z) : Z :=
  if in_range 97 122 r then r - 32
  else if r =? 0x017F then 83 else if r =? 0x212A then 75 else r.

Definition fold_name (s : string) : list Z := map fold_rune (runes s).

(** A field: its JSON name and the assignment of a value other than [null]. *)
Record field (A : Type) : Type := mkField {
  fd_name : string;
  fd_set : json -> A -> option A
}.
Arguments mkField {A}.
Arguments fd_name {A}.
Arguments fd_set {A}.

Definition find_field {A} (fields : list (field A)) (key : string) : option (field A) :=
  match find (fun f => String.eqb (fd_name f) key) fields with
  | Some f => Some f
  | None => find (fun f => bool_decide (fold_name (fd_name f) = fold_name key)) fields
  end.

Definition set_member {A} (fields : list (field A)) (key : string) (v : json) (a : A)
    : result json_error A :=
  match find_field fields key with
  | None => Err (JsonUnknownField key)
  | Some f =>
      match v with
      | JNull => Ok a
      | _ => match fd_set f v a with Some a' => Ok a' | None => Err (JsonType (fd_name f)) end
      end
  end.

(** The decoder goes on after an error of a member and returns the first one;
    the struct is not used then. *)
Fixpoint set_members {A} (fields : list (field A)) (l : list (string * json)) (a : A)
    : result json_error A :=
  match l with
  | [] => Ok a
  | (k, v) :: l' => match set_member fields k v a with
                    | Ok a' => set_members fields l' a' | Err e => Err e end
  end.

Definition decode_struct {A} (fields : list (field A)) (zero : A) (data : string)
    : result json_error A :=
  match next_value data with
  | Err e => Err e
  | Ok JNull => Ok zero
  | Ok (JObject l) => set_members fields l zero
  | Ok _ => Err (JsonType "")
  end.

Definition as_string (v : json) : option string :=
  match v with JString s => Some s | _ => None end.

(** [strconv.ParseInt(literal, 10, 64)] on a JSON number. *)
Definition parse_int64 (lit : string) : option Z :=
  let '(neg, digits) := match lit with
    | String c s => if bv c =? 45 then (true, s) else (false, lit)
    | EmptyString => (false, lit) end in
  match digits with
  | EmptyString => None
  | _ => v ← digits_value 0 digits;
         let z := if neg : bool then - v else v in
         if in_range min_int64 max_int64 z then Some z else None
  end.

Definition as_int64 (v : json) : option Z :=
  match v with JNumber n => parse_int64 n | _ => None end.

Definition string_field {A} (name : string) (set : string -> A -> A) : field A :=
  mkField name (fun v a => s ← as_string v; Some (set s a)).
Definition int64_field {A} (name : string) (set : Z -> A -> A) : field A :=
  mkField name (fun v a => z ← as_int64 v; Some (set z a)).

(** ** Facts *)

(** A member that names no field refuses the whole object. *)
Lemma set_members_unknown {A} (fields : list (field A)) l a k v :
  (k, v) ∈ l -> find_field fields k = None -> is_ok (set_members fields l a) = false.
Proof.
  intros Hin Hk. revert a. induction l as [|[k' v'] l IH]; intros a; [by apply elem_of_nil in Hin|].
  cbn. apply elem_of_cons in Hin as [E|Hin].
  - simplify_eq. unfold set_member. by rewrite Hk.
  - destruct (set_member fields k' v' a); [by apply IH|done].
Qed.
