(* ===== verification/Envelope.v ===== *)
(** * Decoding envelopes and control requests

    [strictDecode], [DecodeEnvelope], [DecodeOnboardRequest] and
    [DecodeReconcileRequest]: the JSON tags of the structs as field tables, and
    validation after decoding. *)

From S2P Require Import Prelude GoStrings Models GoErrors Uuid Message ChainTypes Control Json.
Local Open Scope Z_scope.

Definition strictDecode {A} (fields : list (field A)) (zero : A) (data : string) : result error A :=
  match decode_struct fields zero data with
  | Ok a => Ok a
  | Err e => Err (Wrap "" (Sentinel ErrInvalidEnvelope) (": " +:+ json_error_text e))
  end.

(** The JSON tags of [Message]. *)
Definition message_fields : list (field Message) :=
  [ string_field "doc_type" (fun s m => mkMessage s (ID m) (BranchID m) (DBName m) (TenantKey m)
      (PosID m) (BillRequestID m) (EventID m) (EGSSequenceID m) (InvoiceUUID m) (RequestFingerprint m));
    int64_field "id" (fun z m => mkMessage (DocType m) z (BranchID m) (DBName m) (TenantKey m)
      (PosID m) (BillRequestID m) (EventID m) (EGSSequenceID m) (InvoiceUUID m) (RequestFingerprint m));
    int64_field "branch_id" (fun z m => mkMessage (DocType m) (ID m) z (DBName m) (TenantKey m)
      (PosID m) (BillRequestID m) (EventID m) (EGSSequenceID m) (InvoiceUUID m) (RequestFingerprint m));
    string_field "db_name" (fun s m => mkMessage (DocType m) (ID m) (BranchID m) s (TenantKey m)
      (PosID m) (BillRequestID m) (EventID m) (EGSSequenceID m) (InvoiceUUID m) (RequestFingerprint m));
    string_field "tenant_key" (fun s m => mkMessage (DocType m) (ID m) (BranchID m) (DBName m) s
      (PosID m) (BillRequestID m) (EventID m) (EGSSequenceID m) (InvoiceUUID m) (RequestFingerprint m));
    string_field "pos_id" (fun s m => mkMessage (DocType m) (ID m) (BranchID m) (DBName m) (TenantKey m)
      s (BillRequestID m) (EventID m) (EGSSequenceID m) (InvoiceUUID m) (RequestFingerprint m));
    string_field "bill_request_id" (fun s m => mkMessage (DocType m) (ID m) (BranchID m) (DBName m)
      (TenantKey m) (PosID m) s (EventID m) (EGSSequenceID m) (InvoiceUUID m) (RequestFingerprint m));
    string_field "event_id" (fun s m => mkMessage (DocType m) (ID m) (BranchID m) (DBName m)
      (TenantKey m) (PosID m) (BillRequestID m) s (EGSSequenceID m) (InvoiceUUID m) (RequestFingerprint m));
    string_field "egs_sequence_id" (fun s m => mkMessage (DocType m) (ID m) (BranchID m) (DBName m)
      (TenantKey m) (PosID m) (BillRequestID m) (EventID m) s (InvoiceUUID m) (RequestFingerprint m));
    string_field "invoice_uuid" (fun s m => mkMessage (DocType m) (ID m) (BranchID m) (DBName m)
      (TenantKey m) (PosID m) (BillRequestID m) (EventID m) (EGSSequenceID m) s (RequestFingerprint m));
    string_field "request_fingerprint" (fun s m => mkMessage (DocType m) (ID m) (BranchID m) (DBName m)
      (TenantKey m) (PosID m) (BillRequestID m) (EventID m) (EGSSequenceID m) (InvoiceUUID m) s) ].

Definition DecodeEnvelope (data : string) : result error Message :=
  match strictDecode message_fields Message0 data with
  | Err e => Err e
  | Ok msg => match Message_Validate msg with Some e => Err e | None => Ok msg end
  end.

Definition onboard_fields : list (field OnboardRequest) :=
  [ string_field "db_name" (fun s r => mkOnboardRequest s (on_TenantKey r) (on_BranchID r) (on_OTP r));
    string_field "tenant_key" (fun s r => mkOnboardRequest (on_DBName r) s (on_BranchID r) (on_OTP r));
    int64_field "branch_id" (fun z r => mkOnboardRequest (on_DBName r) (on_TenantKey r) z (on_OTP r));
    string_field "otp" (fun s r => mkOnboardRequest (on_DBName r) (on_TenantKey r) (on_BranchID r) s) ].

Definition OnboardRequest0 : OnboardRequest := mkOnboardRequest "" "" 0 "".

Definition DecodeOnboardRequest (data : string) : result error OnboardRequest :=
  match strictDecode onboard_fields OnboardRequest0 data with
  | Err e => Err e
  | Ok req => match OnboardRequest_check req with Some e => Err e | None => Ok req end
  end.

Definition set_rq (f : string) (s : string) (r : ReconcileRequest) : ReconcileRequest :=
  let pick name old := if String.eqb f name then s else old in
  mkReconcileRequest (pick "tenant_key" (rq_TenantKey r)) (pick "db_name" (rq_DBName r))
    (rq_BranchID r) (rq_BillID r) (pick "action" (rq_Action r))
    (pick "invoice_uuid" (rq_InvoiceUUID r)) (pick "invoice_hash" (rq_InvoiceHash r))
    (pick "state" (rq_State r)) (pick "provider_code" (rq_ProviderCode r))
    (pick "message" (rq_Message r)) (pick "evidence_id" (rq_EvidenceID r)).

Definition reconcile_fields : list (field ReconcileRequest) :=
  [ string_field "tenant_key" (set_rq "tenant_key");
    string_field "db_name" (set_rq "db_name");
    int64_field "branch_id" (fun z r => mkReconcileRequest (rq_TenantKey r) (rq_DBName r) z
      (rq_BillID r) (rq_Action r) (rq_InvoiceUUID r) (rq_InvoiceHash r) (rq_State r)
      (rq_ProviderCode r) (rq_Message r) (rq_EvidenceID r));
    int64_field "bill_id" (fun z r => mkReconcileRequest (rq_TenantKey r) (rq_DBName r)
      (rq_BranchID r) z (rq_Action r) (rq_InvoiceUUID r) (rq_InvoiceHash r) (rq_State r)
      (rq_ProviderCode r) (rq_Message r) (rq_EvidenceID r));
    string_field "action" (set_rq "action");
    string_field "invoice_uuid" (set_rq "invoice_uuid");
    string_field "invoice_hash" (set_rq "invoice_hash");
    string_field "state" (set_rq "state");
    string_field "provider_code" (set_rq "provider_code");
    string_field "message" (set_rq "message");
    string_field "evidence_id" (set_rq "evidence_id") ].

Definition ReconcileRequest0 : ReconcileRequest := mkReconcileRequest "" "" 0 0 "" "" "" "" "" "" "".

Definition DecodeReconcileRequest (data : string) : result error ReconcileRequest :=
  match strictDecode reconcile_fields ReconcileRequest0 data with
  | Err e => Err e
  | Ok req => match ReconcileRequest_Validate req with Some e => Err e | None => Ok req end
  end.

(** ** Facts *)

Lemma strictDecode_error {A} (fields : list (field A)) zero data e :
  strictDecode fields zero data = Err e -> errors_is ErrInvalidEnvelope e = true.
Proof. unfold strictDecode. intros H. case_match; by simplify_eq. Qed.

Lemma DecodeEnvelope_valid data m : DecodeEnvelope data = Ok m -> valid_message m.
Proof.
  unfold DecodeEnvelope. intros H. repeat case_match; simplify_eq.
  by apply Message_Validate_None.
Qed.

Lemma DecodeEnvelope_error data e :
  DecodeEnvelope data = Err e -> errors_is ErrInvalidEnvelope e = true.
Proof.
  unfold DecodeEnvelope. intros H. repeat case_match; simplify_eq.
  - match goal with H : Message_Validate _ = Some _ |- _ =>
      apply Message_Validate_error in H as [text ->] end. done.
  - by eapply strictDecode_error.
Qed.

(** The fixture [queue/testdata/bill_envelope.json]. *)
Definition quoted (s : string) : string := quote s.
Definition envelope_json (branch : string) : string :=
  "{ " +:+ quoted "doc_type" +:+ ": " +:+ quoted "bill" +:+ ", " +:+ quoted "id" +:+ ": 42, "
  +:+ quoted "branch_id" +:+ ": " +:+ branch +:+ ", " +:+ quoted "db_name" +:+ ": " +:+ quoted "tenant_acme" +:+ ", "
  +:+ quoted "tenant_key" +:+ ": " +:+ quoted "acme-0001" +:+ ", "
  +:+ quoted "pos_id" +:+ ": " +:+ quoted "pos-1" +:+ ", "
  +:+ quoted "bill_request_id" +:+ ": " +:+ quoted "3f2b9c1e-7a4d-4e8b-9c21-5d0e6f7a8b9c" +:+ ", "
  +:+ quoted "event_id" +:+ ": " +:+ quoted "9b1d2c3e-4f5a-4b6c-8d7e-0f1a2b3c4d5e" +:+ ", "
  +:+ quoted "egs_sequence_id" +:+ ": " +:+ quoted branch +:+ ", "
  +:+ quoted "invoice_uuid" +:+ ": " +:+ quoted "0c4f7a1e-2b3d-4e5f-8a9b-1c2d3e4f5a6b" +:+ ", "
  +:+ quoted "request_fingerprint" +:+ ": "
  +:+ quoted "0123456789abcdef0123456789abcdef0123456789abcdef0123456789abcdef" +:+ " }".

Definition bill_envelope_json : string := envelope_json "7".

Example decode_fixture : DecodeEnvelope bill_envelope_json = Ok bill_envelope.
Proof. by vm_compute. Qed.

(** What follows the value is not looked at. *)
Example decode_trailing : DecodeEnvelope (bill_envelope_json +:+ " trailing") = Ok bill_envelope.
Proof. by vm_compute. Qed.

(** The message of README.md, section 3: five fields, one of them unknown to
    [Message] and seven of [Message] missing. *)
Definition readme_envelope (otp : list string) : string :=
  "{ " +:+ quoted "doc_type" +:+ ": " +:+ quoted "bill" +:+ ", " +:+ quoted "id" +:+ ": 42, "
  +:+ quoted "branch_id" +:+ ": 1, " +:+ quoted "db_name" +:+ ": " +:+ quoted "alfaris_db"
  +:+ String.concat "" otp +:+ " }".

Example readme_refused :
  is_ok (DecodeEnvelope (readme_envelope [", "; quoted "otp"; ": "; quoted ""])) = false
  /\ is_ok (DecodeEnvelope (readme_envelope [])) = false.
Proof. by vm_compute. Qed.

(** Keys match case-insensitively, and a later duplicate wins. *)
Example decode_folded :
  DecodeOnboardRequest ("{" +:+ quoted "DB_NAME" +:+ ":" +:+ quoted "a" +:+ ","
    +:+ quoted "tenant_key" +:+ ":" +:+ quoted "k" +:+ "," +:+ quoted "branch_id" +:+ ":7,"
    +:+ quoted "otp" +:+ ":" +:+ quoted "1" +:+ "," +:+ quoted "db_name" +:+ ":" +:+ quoted "b" +:+ "}")
  = Ok (mkOnboardRequest "b" "k" 7 "1").
Proof. by vm_compute. Qed.
