(* ===== verification/Routing.v ===== *)
(** * What an accepted envelope establishes, and how it is routed

    [DecodeEnvelope] accepts exactly complete envelopes, and the keys and names
    built from an accepted envelope (its partition, its request, its subject
    and its durable consumer) identify what they are built from. *)

From S2P Require Import Prelude GoStrings GoErrors Uuid Message Json Envelope.
Local Open Scope Z_scope.

(** ** Decimal numbers are not empty *)

Lemma pretty_N_go_nonempty n s : s <> "" -> pretty_N_go n s <> "".
Proof.
  revert s. induction (N.lt_wf_0 n) as [n _ IH]; intros s Hs.
  destruct (decide (n = 0)%N) as [->|Hn]; [by rewrite pretty_N_go_0|].
  rewrite pretty_N_go_step by lia. apply IH; [apply N.div_lt; lia|done].
Qed.

Lemma itoa_nonempty z : itoa z <> "".
Proof.
  assert (HN : forall n : N, (0 < n)%N -> pretty n <> "").
  { intros n Hn. unfold pretty, pretty_N. rewrite decide_False by lia.
    rewrite pretty_N_go_step by lia. by apply pretty_N_go_nonempty. }
  unfold itoa, pretty, pretty_Z. destruct z; [done|by apply HN|done].
Qed.

(** ** Which field a member sets *)

(** The member [kv] assigns the field [name]. *)
Definition assigns {A} (fields : list (field A)) (name : string) (kv : string * json) : bool :=
  match kv.2, find_field fields kv.1 with
  | JNull, _ | _, None => false
  | _, Some f => String.eqb (fd_name f) name
  end.

Lemma find_field_In {A} (fields : list (field A)) k f : find_field fields k = Some f -> In f fields.
Proof.
  unfold find_field. intros H. destruct (find _ fields) eqn:E1; simplify_eq;
    match goal with H : find _ _ = Some _ |- _ => by apply find_some in H as [? _] end.
Qed.

(** A projection that only the field [name] changes keeps its value when no
    member assigns that field. *)
Lemma set_members_frame {A B} (fields : list (field A)) (pi : A -> B) name l a a' :
  (forall f v b b', In f fields -> fd_name f <> name -> fd_set f v b = Some b' -> pi b' = pi b) ->
  existsb (assigns fields name) l = false ->
  set_members fields l a = Ok a' -> pi a' = pi a.
Proof.
  intros Hpi. revert a. induction l as [|[k v] l IH]; intros a Hl H; cbn in H; [by simplify_eq|].
  cbn in Hl. apply orb_false_iff in Hl as [Hkv Hl].
  destruct (set_member fields k v a) as [a1|] eqn:E; [|done].
  rewrite (IH a1 Hl H). unfold set_member in E. unfold assigns in Hkv. cbn in Hkv.
  destruct (find_field fields k) as [f|] eqn:Ef; [|done]. apply find_field_In in Ef.
  destruct v; try (injection E as <-; done); apply String.eqb_neq in Hkv;
    (destruct (fd_set f _ a) eqn:Es; [injection E as <-; by eapply Hpi|done]).
Qed.

Lemma set_members_known {A} (fields : list (field A)) l a a' :
  set_members fields l a = Ok a' ->
  forall k v, In (k, v) l -> exists f, find_field fields k = Some f.
Proof.
  revert a. induction l as [|[k v] l IH]; intros a H k' v' []; cbn in H.
  - simplify_eq. unfold set_member in H. destruct (find_field fields k') eqn:E; [by eexists|done].
  - destruct (set_member fields k v a) eqn:E; [|done]. by eapply IH.
Qed.

Lemma existsb_assigns {A} (fields : list (field A)) name l :
  existsb (assigns fields name) l = true ->
  exists k v f, In (k, v) l /\ v <> JNull /\ find_field fields k = Some f /\ fd_name f = name.
Proof.
  intros ([k v] & Hin & H)%existsb_exists. unfold assigns in H. cbn in H.
  destruct (find_field fields k) as [f|] eqn:E.
  - exists k, v, f. destruct v; try done; apply String.eqb_eq in H; done.
  - by destruct v.
Qed.

(** Membership in the field table of [Message], one case per field. *)
Ltac other_fields :=
  clear; intros f v b b' Hin Hne Hs; cbn in Hin;
  repeat (destruct Hin as [<-|Hin];
          [cbn [fd_name fd_set string_field int64_field] in Hne, Hs; first [by destruct Hne
             | apply bind_Some in Hs as (z & _ & Hs); injection Hs as <-; reflexivity] |]);
  destruct Hin.

(** A field whose value is not the zero value was assigned by some member. *)
Ltac assigned_field pi l m Hm :=
  match goal with |- existsb (assigns _ ?name) _ = true =>
    destruct (existsb (assigns message_fields name) l) eqn:Hx; [done|];
    assert (Hz : pi m = pi Message0)
      by (apply (set_members_frame message_fields pi name l Message0 m); [other_fields|done|done]);
    exfalso; revert Hz; clear -Hm; destruct Hm; destruct m; cbn in *
  end.

Lemma message_field_assigned l m name :
  set_members message_fields l Message0 = Ok m -> valid_message m ->
  In name (map fd_name message_fields) -> existsb (assigns message_fields name) l = true.
Proof.
  intros Hs Hm Hin. cbn in Hin.
  destruct Hin as [<-|[<-|[<-|[<-|[<-|[<-|[<-|[<-|[<-|[<-|[<-|[]]]]]]]]]]]].
  - assigned_field DocType l m Hm. intros ->. done.
  - assigned_field ID l m Hm. lia.
  - assigned_field BranchID l m Hm. lia.
  - assigned_field DBName l m Hm. by intros ->.
  - assigned_field TenantKey l m Hm. by intros ->.
  - assigned_field PosID l m Hm. by intros ->.
  - assigned_field BillRequestID l m Hm. by intros ->.
  - assigned_field EventID l m Hm. by intros ->.
  - assigned_field EGSSequenceID l m Hm. intros ->.
    match goal with H : "" = itoa ?z |- _ => by destruct (itoa_nonempty z) end.
  - assigned_field InvoiceUUID l m Hm. by intros ->.
  - assigned_field RequestFingerprint l m Hm. by intros ->.
Qed.

(** ** Accepted envelopes *)

Lemma decode_struct_members {A} (fields : list (field A)) zero data a :
  decode_struct fields zero data = Ok a ->
  a = zero \/ exists l, next_value data = Ok (JObject l) /\ set_members fields l zero = Ok a.
Proof.
  unfold decode_struct. intros H. destruct (next_value data) as [[]|] eqn:E; simplify_eq; eauto.
Qed.

(** C22: DecodeEnvelope accepts data only when its first JSON value is an object in which every
    member names a field of Message, every one of the eleven fields is assigned by a member that
    is not null, and the decoded message satisfies all conditions of Validate; any refusal is an
    ErrInvalidEnvelope. The theorem speaks of the first value: what follows it is not looked at
    ([Envelope.decode_trailing]). The five-field format that README.md documents is refused
    ([Envelope.readme_refused]). *)
Theorem DecodeEnvelope_sound data :
  match DecodeEnvelope data with
  | Err e => errors_is ErrInvalidEnvelope e = true
  | Ok m =>
      valid_message m
      /\ exists members, next_value data = Ok (JObject members)
         /\ (forall k v, In (k, v) members -> exists f, find_field message_fields k = Some f)
         /\ forall name, In name (map fd_name message_fields) ->
            exists k v f, In (k, v) members /\ v <> JNull
                          /\ find_field message_fields k = Some f /\ fd_name f = name
  end.
Proof.
  destruct (DecodeEnvelope data) as [m|e] eqn:E; [|by eapply DecodeEnvelope_error].
  pose proof (DecodeEnvelope_valid _ _ E) as Hv. split; [done|].
  unfold DecodeEnvelope, strictDecode in E.
  destruct (decode_struct message_fields Message0 data) as [m'|] eqn:Ed; [|done].
  destruct (Message_Validate m') eqn:Ev; [done|]. injection E as ->.
  apply decode_struct_members in Ed as [->|(l & Hn & Hs)]; [done|].
  exists l. split; [done|]. split; [by eapply set_members_known|].
  intros name Hin. apply existsb_assigns. by eapply message_field_assigned.
Qed.

(** ** Routing *)

Lemma OrderedSubject_split db1 db2 b1 b2 n :
  validIdentityText db1 n = true -> validIdentityText db2 n = true ->
  OrderedSubject db1 b1 = OrderedSubject db2 b2 -> db1 = db2 /\ b1 = b2.
Proof.
  unfold OrderedSubject. intros H1 H2 E. cbn in E. injection E as E.
  apply (sep_inj ".") in E as [? ?%itoa_inj]; [done|by eapply validIdentityText_excludes..].
Qed.

Lemma OrderedConsumerName_split db1 db2 b1 b2 :
  OrderedConsumerName db1 b1 = OrderedConsumerName db2 b2 -> db1 = db2 /\ b1 = b2.
Proof.
  unfold OrderedConsumerName. intros E. cbn in E. injection E as E.
  apply (sep_inj_r "_") in E as [? ?%itoa_inj]; [done|by apply itoa_excludes..].
Qed.

(** C23: Routing loses no identity: two valid envelopes share a partition exactly when they are of
    one tenant key and one branch, share a request key exactly when they are of one POS and one
    bill request id, and share a subject, or a durable consumer name, exactly when they are of one
    tenant database and one branch. *)
Theorem routing_identifies m1 m2 :
  valid_message m1 -> valid_message m2 ->
  (PartitionKey m1 = PartitionKey m2 <-> TenantKey m1 = TenantKey m2 /\ BranchID m1 = BranchID m2)
  /\ (RequestKey m1 = RequestKey m2 <->
      PosID m1 = PosID m2 /\ BillRequestID m1 = BillRequestID m2)
  /\ (OrderedSubject (DBName m1) (BranchID m1) = OrderedSubject (DBName m2) (BranchID m2) <->
      DBName m1 = DBName m2 /\ BranchID m1 = BranchID m2)
  /\ (OrderedConsumerName (DBName m1) (BranchID m1) = OrderedConsumerName (DBName m2) (BranchID m2) <->
      DBName m1 = DBName m2 /\ BranchID m1 = BranchID m2).
Proof.
  intros V1 V2. split_and!; split.
  - by apply PartitionKey_split.
  - intros [E1 E2]. unfold PartitionKey. by rewrite (vm_egs _ V1), (vm_egs _ V2), E1, E2.
  - by apply RequestKey_split.
  - intros [E1 E2]. unfold RequestKey. by rewrite E1, E2.
  - by apply (OrderedSubject_split _ _ _ _ 64); apply vm_db.
  - intros [-> ->]. done.
  - apply OrderedConsumerName_split.
  - intros [-> ->]. done.
Qed.

Lemma routing_identifies_witness :
  valid_message bill_envelope /\ (PartitionKey bill_envelope = PartitionKey bill_envelope <->
    TenantKey bill_envelope = TenantKey bill_envelope
    /\ BranchID bill_envelope = BranchID bill_envelope).
Proof.
  split; [apply bill_envelope_valid|].
  apply (routing_identifies bill_envelope bill_envelope bill_envelope_valid bill_envelope_valid).
Defined.
