(* ===== verification/Database.v ===== *)
(** * The tenant database

    The tables the daemon reads and writes while it processes documents, with
    the columns it uses, and the effect of running SQL statements against them.

    The tables belong to the backend. What the source relies on is kept: a
    submission is found by its bill (one row per bill), a claim by its
    [(pos_id, bill_request_id)], an event id belongs to one claim, and string
    columns are compared exactly. A [DATETIME] column may round what is
    written: [datetime] is what reads back.

    Every statement may fail. [fault] says, for the n-th statement of an
    operation, whether the server refuses it, in which case it has no effect,
    or the connection breaks, in which case the effect is either applied or
    not while the client sees an error either way. Errors that the source
    recognises by number, such as a lock that is not available, are server
    errors. A transaction locks the rows it reads with [FOR UPDATE] until it
    ends, so a transaction is one atomic step on the tables; other deliveries
    interleave between operations, not inside them. *)

From S2P Require Import Prelude GoStrings Models GoErrors ChainTypes.
Local Open Scope Z_scope.

(** ** Tables *)

(** [branch_zatca_config]: the chain columns. *)
Record config_row : Type := mkConfig {
  cf_last_icv : Z;
  cf_previous_invoice_hash : option string;
  cf_icv_reservation_key : option string;
  cf_icv_reservation_token : option string;
  cf_reserved_icv : option Z;
  cf_reservation_lease_expires_at : option Z
}.

(** [bill]: the columns the chain touches. *)
Record bill_row : Type := mkBill {
  bl_branch_id : Z;
  bl_state : Z;
  bl_invoice_uuid : option string;
  bl_invoice_hash : option string;
  bl_qr_code : option string
}.

(** [zatca_submission]. *)
Record submission_row : Type := mkSubmission {
  sb_id : Z;
  sb_branch_id : Z;
  sb_status : Z;
  sb_outcome_state : string;
  sb_invoice_icv : Z;
  sb_previous_invoice_hash : string;
  sb_invoice_uuid : string;
  sb_invoice_hash : string;
  sb_invoice_kind : string;
  sb_signed_xml : string;
  sb_provider_code : option string;
  sb_rejection_code : option string;
  sb_rejection_msg : option string;
  sb_provider_warning_message : option string;
  sb_submitted_at : option Z;
  sb_outcome_at : option Z
}.

(** [zatca_submission_outcome]. *)
Record outcome_row : Type := mkOutcomeRow {
  ol_submission_id : Z;
  ol_outcome_state : string;
  ol_provider_code : option string;
  ol_provider_warning_message : option string;
  ol_observed_at : Z
}.

(** [zatca_consumer_claim]. *)
Record claim_row : Type := mkClaim {
  cl_event_id : string;
  cl_egs_sequence_id : string;
  cl_fingerprint : string;
  cl_state : string;
  cl_lease_expires_at : option Z;
  cl_completed_at : option Z
}.

#[export] Instance config_row_eq_dec : EqDecision config_row.
Proof. solve_decision. Defined.
#[export] Instance bill_row_eq_dec : EqDecision bill_row.
Proof. solve_decision. Defined.
#[export] Instance submission_row_eq_dec : EqDecision submission_row.
Proof. solve_decision. Defined.
#[export] Instance outcome_row_eq_dec : EqDecision outcome_row.
Proof. solve_decision. Defined.
#[export] Instance claim_row_eq_dec : EqDecision claim_row.
Proof. solve_decision. Defined.

(** A request is unique by its POS and its request id. *)
Definition request_id : Type := string * string.
#[export] Instance request_id_eq_dec : EqDecision request_id := _.
#[export] Instance request_id_countable : Countable request_id := _.

Record db : Type := mkDB {
  configs : gmap Z config_row;
  bills : gmap Z bill_row;
  submissions : gmap Z submission_row;   (* by bill_id *)
  next_submission_id : Z;
  outcomes : list outcome_row;
  claims : gmap request_id claim_row
}.

Definition set_configs (f : gmap Z config_row -> gmap Z config_row) (d : db) : db :=
  mkDB (f (configs d)) (bills d) (submissions d) (next_submission_id d) (outcomes d) (claims d).
Definition set_bills (f : gmap Z bill_row -> gmap Z bill_row) (d : db) : db :=
  mkDB (configs d) (f (bills d)) (submissions d) (next_submission_id d) (outcomes d) (claims d).
Definition set_submissions (f : gmap Z submission_row -> gmap Z submission_row) (d : db) : db :=
  mkDB (configs d) (bills d) (f (submissions d)) (next_submission_id d) (outcomes d) (claims d).
Definition set_claims (f : gmap request_id claim_row -> gmap request_id claim_row) (d : db) : db :=
  mkDB (configs d) (bills d) (submissions d) (next_submission_id d) (outcomes d) (f (claims d)).

(** ** Statements *)

Inductive fault : Type :=
| ServerError (number : Z) (text : string)
| ConnError (text : string) (applied : bool).

(** The surroundings of one operation: the daemon's clock [now], the server's
    [CURRENT_TIMESTAMP], the rounding of a [DATETIME] column and the faults. *)
Record dbenv : Type := mkEnv {
  env_now : Z;
  env_server_now : Z;
  datetime : Z -> Z;
  fault_at : nat -> option fault
}.

Definition fault_error (f : fault) : error :=
  match f with
  | ServerError n t => MySQLError n t
  | ConnError t _ => NewError t
  end.

(** Operations: a state monad over the statement counter and the tables. *)
Definition DB (A : Type) : Type := dbenv -> nat * db -> A * (nat * db).

Definition ret {A} (a : A) : DB A := fun _ s => (a, s).
Definition bind {A B} (m : DB A) (k : A -> DB B) : DB B :=
  fun env s => let '(a, s') := m env s in k a env s'.
Definition ask {A} (f : dbenv -> A) : DB A := fun env s => (f env, s).

(** One statement: its result and effect, unless a fault strikes. *)
Definition stmt {A} (f : dbenv -> db -> result error A * db) : DB (result error A) :=
  fun env '(n, d) =>
    match fault_at env n with
    | None => let '(r, d') := f env d in (r, (S n, d'))
    | Some (ServerError k t) => (Err (MySQLError k t), (S n, d))
    | Some (ConnError t applied) =>
        (Err (NewError t), (S n, if applied then (f env d).2 else d))
    end.

Definition query {A} (f : db -> result error A) : DB (result error A) :=
  stmt (fun _ d => (f d, d)).

Notation "'let!' x ':=' m 'in' k" := (bind m (fun x => k))
  (at level 10, x binder, m at level 99, k at level 200) : go_scope.

(** [tx, err := db.BeginTx(...)]; [defer tx.Rollback()]; the body; and
    [tx.Commit()] when the body returns a value. [begin_err] and [commit_err]
    wrap the errors of the first and the last statement. *)
Definition in_tx {A} (begin_err : error -> error) (commit_err : A -> error -> error)
    (body : DB (result error A)) : DB (result error A) :=
  fun env '(n, d) =>
    match fault_at env n with
    | Some f => (Err (begin_err (fault_error f)), (S n, d))
    | None =>
        let '(r, (n', d')) := body env (S n, d) in
        match r with
        | Err e => (Err e, (n', d))
        | Ok a =>
            match fault_at env n' with
            | None => (Ok a, (S n', d'))
            | Some f =>
                (Err (commit_err a (fault_error f)),
                 (S n', match f with ConnError _ true => d' | _ => d end))
            end
        end
    end.

(** [SELECT ... WHERE key]: one row, or [sql.ErrNoRows]. *)
Definition select {A} (f : db -> option A) : DB (result error A) :=
  query (fun d => match f d with Some r => Ok r | None => Err (Sentinel ErrNoRows) end).

(** [UPDATE ... WHERE]: [f] gives the new table row, or nothing when no row
    matches. The result counts the rows whose value changed, which is what the
    driver reports. *)
Definition update_row {K R} `{EqDecision K, Countable K, EqDecision R}
    (tbl : db -> gmap K R) (set : (gmap K R -> gmap K R) -> db -> db)
    (k : K) (f : dbenv -> R -> option R) : DB (result error Z) :=
  stmt (fun env d =>
    match tbl d !! k with
    | None => (Ok 0, d)
    | Some r =>
        match f env r with
        | None => (Ok 0, d)
        | Some r' => (Ok (if decide (r' = r) then 0 else 1), set <[k := r']> d)
        end
    end).

(** Run an operation from its first statement. *)
Definition run_db {A} (m : DB A) (env : dbenv) (d : db) : A * db :=
  let '(a, (_, d')) := m env (0%nat, d) in (a, d').

(** No statement of the operation is disturbed. *)
Definition no_faults (env : dbenv) : Prop := forall n, fault_at env n = None.

(** ** Facts about operations *)

(** [m] does not touch the tables. *)
Definition read_only {A} (m : DB A) : Prop :=
  forall env n d, exists a n', m env (n, d) = (a, (n', d)).

Lemma query_read_only {A} (f : db -> result error A) : read_only (query f).
Proof.
  intros env n d. unfold query, stmt.
  destruct (fault_at env n) as [[|? []]|]; eauto.
Qed.

(** What a transaction can do: it either leaves the tables as they were, or
    its body succeeded and the result is the body's. *)
Lemma in_tx_cases {A} b c (body : DB (result error A)) env n d r n' d' :
  in_tx b c body env (n, d) = (r, (n', d')) ->
  (d' = d /\ exists e, r = Err e)
  \/ (exists a n1 d1, body env (S n, d) = (Ok a, (n1, d1))
        /\ ((r = Ok a /\ d' = d1)
            \/ exists f, fault_at env n1 = Some f /\ r = Err (c a (fault_error f))
                         /\ (d' = d \/ d' = d1))).
Proof.
  unfold in_tx. intros H.
  destruct (fault_at env n) as [f|]; [simplify_eq; left; eauto|].
  destruct (body env (S n, d)) as [[a|e] [n1 d1]] eqn:Hb; [|simplify_eq; left; eauto].
  right. exists a, n1, d1. split; [done|].
  destruct (fault_at env n1) as [f|] eqn:Hf; simplify_eq; [|auto].
  right. exists f. repeat split; [done..|]. destruct f as [|? []]; auto.
Qed.

(** A transaction whose body succeeds commits when nothing is disturbed. *)
Lemma in_tx_no_faults {A} b c (body : DB (result error A)) env n d :
  no_faults env ->
  in_tx b c body env (n, d) =
    let '(r, (n', d')) := body env (S n, d) in
    match r with Err e => (Err e, (n', d)) | Ok a => (Ok a, (S n', d')) end.
Proof.
  intros Hf. unfold in_tx. rewrite Hf. destruct (body _ _) as [[a|e] [n' d']]; [|done].
  by rewrite Hf.
Qed.

Lemma stmt_no_faults {A} (f : dbenv -> db -> result error A * db) env n d :
  no_faults env -> stmt f env (n, d) = let '(r, d') := f env d in (r, (S n, d')).
Proof. intros Hf. unfold stmt. by rewrite Hf. Qed.

(** A statement ends with its own result and effect, or with an error that is
    not [sql.ErrNoRows] and with the tables either way. *)
Lemma stmt_cases {A} (f : dbenv -> db -> result error A * db) env n d r n' d' :
  stmt f env (n, d) = (r, (n', d')) ->
  n' = S n /\
  ((f env d = (r, d'))
   \/ (exists ft, fault_at env n = Some ft /\ r = Err (fault_error ft)
                  /\ (d' = d \/ (d' = (f env d).2 /\ exists t, ft = ConnError t true)))).
Proof.
  unfold stmt. intros H. destruct (fault_at env n) as [[k t|t ap]|] eqn:Hf.
  - simplify_eq. split; [done|]. right. exists (ServerError k t). auto.
  - simplify_eq. split; [done|]. right. exists (ConnError t ap). destruct ap; eauto 10.
  - destruct (f env d) as [r1 d1]. simplify_eq. auto.
Qed.

Lemma fault_error_sentinel f s : errors_is s (fault_error f) = false.
Proof. by destruct f. Qed.

(** ** Running composed operations *)

Lemma bind_inv {A B} (m : DB A) (k : A -> DB B) env s b s' :
  bind m k env s = (b, s') -> exists a s1, m env s = (a, s1) /\ k a env s1 = (b, s').
Proof. unfold bind. destruct (m env s) as [a s1]. eauto. Qed.

Lemma query_inv {A} (f : db -> result error A) env n d r n' d' :
  query f env (n, d) = (r, (n', d')) ->
  d' = d /\ n' = S n /\ (r = f d \/ exists ft, r = Err (fault_error ft)).
Proof.
  intros H. apply stmt_cases in H as [-> [H|(ft & _ & -> & Hd)]].
  - simplify_eq. auto.
  - simpl in Hd. destruct Hd as [-> | [-> _]]; eauto.
Qed.

Lemma select_inv {A} (f : db -> option A) env n d r n' d' :
  select f env (n, d) = (r, (n', d')) ->
  d' = d /\ n' = S n /\
  match r with
  | Ok a => f d = Some a
  | Err e => errors_is ErrNoRows e = true <-> f d = None /\ e = Sentinel ErrNoRows
  end.
Proof.
  intros H. apply query_inv in H as (-> & -> & H). split; [done|]. split; [done|].
  destruct H as [->|[ft ->]].
  - destruct (f d); [done|]. split; [auto|]. by intros [_ _].
  - rewrite fault_error_sentinel. split; [done|]. intros [_ E]. by destruct ft.
Qed.

Lemma update_row_inv {K R} `{EqDecision K, Countable K, EqDecision R}
    (tbl : db -> gmap K R) set (k : K) (f : dbenv -> R -> option R) env n d r n' d' :
  update_row tbl set k f env (n, d) = (r, (n', d')) ->
  n' = S n /\
  ((d' = d /\ (forall z, r = Ok z -> z = 0))
   \/ exists x x', tbl d !! k = Some x /\ f env x = Some x' /\ d' = set <[k := x']> d
        /\ (forall z, r = Ok z -> z = if decide (x' = x) then 0 else 1)).
Proof.
  intros Hu. apply stmt_cases in Hu as [-> Hu]. split; [done|].
  destruct (tbl d !! k) as [x|] eqn:Hx; cycle 1.
  { left. destruct Hu as [Hu|(ft & _ & -> & Hd)]; simpl in *; simplify_eq; [naive_solver|].
    split; [by destruct Hd as [?|[? _]]|done]. }
  destruct (f env x) as [x'|] eqn:Hf; cycle 1.
  { left. destruct Hu as [Hu|(ft & _ & -> & Hd)]; simpl in *; simplify_eq; [naive_solver|].
    split; [by destruct Hd as [?|[? _]]|done]. }
  destruct Hu as [Hu|(ft & _ & -> & [->| [-> _]])]; simpl in *; simplify_eq;
    [right; naive_solver | left; done | right; naive_solver].
Qed.

(** Take an operation apart along its statements. *)
Ltac db_step H :=
  lazymatch type of H with
  | bind _ _ _ _ = _ =>
      let a := fresh "r" in let n := fresh "n" in let d := fresh "d" in
      let H1 := fresh "Hs" in
      apply bind_inv in H as (a & [n d] & H1 & H)
  | ret _ _ _ = _ => unfold ret in H; simplify_eq
  | ask _ _ _ = _ => unfold ask in H; simplify_eq
  end.

(** Surroundings without faults, at a given time. *)
Definition quiet_env (now : Z) : dbenv := mkEnv now now (fun t => t) (fun _ => None).

Lemma quiet_env_no_faults now : no_faults (quiet_env now).
Proof. by intros n. Qed.

Definition empty_db : db := mkDB ∅ ∅ ∅ 1 [] ∅.
