(* ===== verification/Claims.v ===== *)
(** * The claim store ([queue/claim.go], [queue/sql_claim_store.go])

    One claim per request. [SQLClaimStore_Claim] runs in a transaction;
    [SQLClaimStore_Release] and [SQLClaimStore_Complete] are single statements
    followed by a read when they changed nothing. *)

From S2P Require Import Prelude GoStrings Models GoErrors Uuid Message ChainTypes Database.
Local Open Scope Z_scope.
Local Open Scope go_scope.

Inductive ClaimDecision : Type :=
| ClaimProcess
| ClaimDuplicate
| ClaimConflict
| ClaimInFlight.

#[export] Instance ClaimDecision_eq_dec : EqDecision ClaimDecision.
Proof. solve_decision. Defined.

Definition claimProcessing : string := "processing".
Definition claimCompleted : string := "completed".

(** 30 minutes in nanoseconds. *)
Definition defaultClaimLease : Z := 30 * 60 * 1000000000.

(** [SQLClaimStore]; [cs_DB] says that the store and its database are set. The
    clock [Now] is the environment's. *)
Record SQLClaimStore : Type := mkSQLClaimStore {
  cs_DB : bool;
  cs_LeaseDuration : Z
}.

Definition NewSQLClaimStore : SQLClaimStore := mkSQLClaimStore true defaultClaimLease.

Definition cs_leaseDuration (s : SQLClaimStore) : Z :=
  if cs_LeaseDuration s <=? 0 then defaultClaimLease else cs_LeaseDuration s.

Definition request_of (m : Message) : request_id := (PosID m, BillRequestID m).
Arguments request_of : simpl never.

Definition sqlClaimDecision (state : string) (lease : option Z) (now : Z) : ClaimDecision :=
  if String.eqb state claimCompleted then ClaimDuplicate
  else match lease with
       | Some t => if now <? t then ClaimInFlight else ClaimProcess
       | None => ClaimProcess
       end.

(** ** Statements on [zatca_consumer_claim] *)

(** Another request's claim carries the event id. *)
Definition event_taken (k : request_id) (event : string) (d : db) : bool :=
  existsb (fun '(k', c) => negb (bool_decide (k' = k)) && String.eqb (cl_event_id c) event)
    (map_to_list (claims d)).

Definition duplicate_key : error := MySQLError mysqlDuplicateKey "Duplicate entry".

Definition insert_claim_row (k : request_id) (row : claim_row) : DB (result error unit) :=
  stmt (fun _ d =>
    if bool_decide (is_Some (claims d !! k)) || event_taken k (cl_event_id row) d
    then (Err duplicate_key, d)
    else (Ok tt, set_claims <[k := row]> d)).

Definition reclaim_row (k : request_id) (event egs : string) (lease : Z)
    : DB (result error unit) :=
  stmt (fun _ d =>
    match claims d !! k with
    | None => (Ok tt, d)
    | Some c =>
        if event_taken k event d then (Err duplicate_key, d)
        else (Ok tt, set_claims <[k := mkClaim event egs (cl_fingerprint c) claimProcessing
                                         (Some lease) (cl_completed_at c)]> d)
    end).

(** The [WHERE] clause of [Release] and [Complete]. *)
Definition owned_processing (m : Message) (c : claim_row) : bool :=
  String.eqb (cl_event_id c) (EventID m) && String.eqb (cl_fingerprint c) (RequestFingerprint m)
  && String.eqb (cl_state c) claimProcessing.

Definition released_row (m : Message) (c : claim_row) : option claim_row :=
  if owned_processing m c
  then Some (mkClaim (cl_event_id c) (cl_egs_sequence_id c) (cl_fingerprint c) (cl_state c)
               None (cl_completed_at c))
  else None.

Definition completed_row (now : Z) (m : Message) (c : claim_row) : option claim_row :=
  if owned_processing m c
  then Some (mkClaim (cl_event_id c) (cl_egs_sequence_id c) (cl_fingerprint c) claimCompleted
               None (Some now))
  else None.

Definition update_claim (m : Message) (f : dbenv -> claim_row -> option claim_row)
    : DB (result error Z) := update_row claims set_claims (request_of m) f.

(** [result.RowsAffected()], after the statement's own error. *)
Definition rows_affected (n : Z) : DB (result error Z) := query (fun _ => Ok n).

(** [SELECT state, event_id ... AND fingerprint = ?]. *)
Definition select_owner (m : Message) : DB (result error (string * string)) :=
  select (fun d =>
    match claims d !! request_of m with
    | Some c => if String.eqb (cl_fingerprint c) (RequestFingerprint m)
                then Some (cl_state c, cl_event_id c) else None
    | None => None
    end).

(** ** Operations *)

Definition wrap (pre : string) (e : error) : error := Wrap pre e "".
Definition not_configured : error := NewError "queue SQL claim store is not configured".

Definition insertClaim (s : SQLClaimStore) (m : Message) : DB (result error ClaimDecision) :=
  let! lease := ask (fun env => datetime env (env_now env + cs_leaseDuration s)) in
  let! r := insert_claim_row (request_of m)
              (mkClaim (EventID m) (EGSSequenceID m) (RequestFingerprint m) claimProcessing
                 (Some lease) None) in
  ret (match r with
       | Err e => if isMySQLError e mysqlDuplicateKey then Ok ClaimConflict
                  else Err (wrap ("insert queue claim " +:+ BillRequestID m +:+ ": ") e)
       | Ok _ => Ok ClaimProcess
       end).

Definition claimInTx (s : SQLClaimStore) (m : Message) : DB (result error ClaimDecision) :=
  let! found := select (fun d => claims d !! request_of m) in
  match found with
  | Err e =>
      if errors_is ErrNoRows e then insertClaim s m
      else ret (Err (wrap ("lookup queue claim " +:+ BillRequestID m +:+ ": ") e))
  | Ok c =>
      if negb (String.eqb (cl_fingerprint c) (RequestFingerprint m)) then ret (Ok ClaimConflict)
      else
        let! now := ask env_now in
        match sqlClaimDecision (cl_state c) (cl_lease_expires_at c) now with
        | ClaimProcess =>
            let! lease := ask (fun env => datetime env (now + cs_leaseDuration s)) in
            let! r := reclaim_row (request_of m) (EventID m) (EGSSequenceID m) lease in
            ret (match r with
                 | Err e => Err (wrap ("reclaim queue request " +:+ BillRequestID m +:+ ": ") e)
                 | Ok _ => Ok ClaimProcess
                 end)
        | decision => ret (Ok decision)
        end
  end.

Definition SQLClaimStore_Claim (s : SQLClaimStore) (m : Message)
    : DB (result error ClaimDecision) :=
  match Message_Validate m with
  | Some e => ret (Err e)
  | None =>
      if negb (cs_DB s) then ret (Err not_configured)
      else in_tx (wrap "begin queue claim: ")
             (fun _ => wrap ("commit queue claim " +:+ BillRequestID m +:+ ": "))
             (claimInTx s m)
  end.

Definition claimOwnerError (verb : string) (m : Message) : DB (result error unit) :=
  let! r := select_owner m in
  ret (match r with
       | Err e =>
           if errors_is ErrNoRows e
           then Err (Wrap "" (Sentinel ErrClaimNotFound) (": " +:+ BillRequestID m))
           else Err (wrap ("inspect queue claim " +:+ BillRequestID m +:+ verb +:+ ": ") e)
       | Ok (state, eventID) =>
           if negb (String.eqb eventID (EventID m))
           then Err (Wrap "" (Sentinel ErrClaimStale) (": " +:+ BillRequestID m))
           else if String.eqb state claimCompleted then Ok tt
           else Err (Wrap "" (Sentinel ErrClaimInFlight) (": " +:+ BillRequestID m))
       end).

Definition finish_update (verb noun : string) (m : Message)
    (f : dbenv -> claim_row -> option claim_row) (owner : string) : DB (result error unit) :=
  let! r := update_claim m f in
  match r with
  | Err e => ret (Err (wrap (verb +:+ " queue claim " +:+ BillRequestID m +:+ ": ") e))
  | Ok n =>
      let! rows := rows_affected n in
      match rows with
      | Err e => ret (Err (wrap ("inspect queue claim " +:+ BillRequestID m +:+ noun) e))
      | Ok n => if 0 <? n then ret (Ok tt) else claimOwnerError owner m
      end
  end.

Definition SQLClaimStore_Release (s : SQLClaimStore) (m : Message) : DB (result error unit) :=
  match Message_Validate m with
  | Some e => ret (Err e)
  | None =>
      if negb (cs_DB s) then ret (Err not_configured)
      else finish_update "release" " release: " m (fun _ => released_row m) " owner"
  end.

Definition SQLClaimStore_Complete (s : SQLClaimStore) (m : Message) : DB (result error unit) :=
  match Message_Validate m with
  | Some e => ret (Err e)
  | None =>
      if negb (cs_DB s) then ret (Err not_configured)
      else finish_update "complete" " completion: " m
             (fun env => completed_row (env_server_now env) m) ""
  end.
