(* ===== verification/ClaimsSpec.v ===== *)
(** * What the claim store promises

    The change each operation makes to the claim of its request, with or
    without faults; the abstract life of a request that these changes refine;
    and the promises the ordered stream relies on: a completed request stays
    completed, a live lease excludes every other delivery, an owner that lost
    its lease cannot act, and a reported success is durable. *)

From S2P Require Import Prelude GoStrings Models GoErrors Uuid Message ChainTypes Database.
From S2P Require Import Claims.
Local Open Scope Z_scope.

(** ** The change of one claim *)

Definition held_row (env : dbenv) (s : SQLClaimStore) (m : Message) (fp : string)
    (completed_at : option Z) : claim_row :=
  mkClaim (EventID m) (EGSSequenceID m) fp claimProcessing
    (Some (datetime env (env_now env + cs_leaseDuration s))) completed_at.

Inductive claim_op : Type := OpClaim | OpRelease | OpComplete.

Inductive claim_change (env : dbenv) (s : SQLClaimStore) (m : Message) (d : db) :
    claim_op -> option claim_row -> claim_row -> Prop :=
| change_insert :
    event_taken (request_of m) (EventID m) d = false ->
    claim_change env s m d OpClaim None (held_row env s m (RequestFingerprint m) None)
| change_reclaim c :
    cl_fingerprint c = RequestFingerprint m ->
    sqlClaimDecision (cl_state c) (cl_lease_expires_at c) (env_now env) = ClaimProcess ->
    event_taken (request_of m) (EventID m) d = false ->
    claim_change env s m d OpClaim (Some c) (held_row env s m (cl_fingerprint c) (cl_completed_at c))
| change_release c c' :
    released_row m c = Some c' -> claim_change env s m d OpRelease (Some c) c'
| change_complete c c' :
    completed_row (env_server_now env) m c = Some c' -> claim_change env s m d OpComplete (Some c) c'.

(** The tables after an operation of the claim store on [m]. *)
Definition claim_effect (env : dbenv) (s : SQLClaimStore) (m : Message) (op : claim_op)
    (d d' : db) : Prop :=
  d' = d \/ exists c', claim_change env s m d op (claims d !! request_of m) c'
                       /\ d' = set_claims <[request_of m := c']> d.

Lemma insert_claim_row_inv k row env n d r n' d' :
  insert_claim_row k row env (n, d) = (r, (n', d')) ->
  (d' = d /\ is_ok r = false)
  \/ (claims d !! k = None /\ event_taken k (cl_event_id row) d = false
      /\ d' = set_claims <[k := row]> d /\ (r = Ok tt \/ exists t, r = Err (NewError t))).
Proof.
  intros H. apply stmt_cases in H as [_ H]. revert H.
  destruct (bool_decide (is_Some (claims d !! k)) || event_taken k (cl_event_id row) d) eqn:E.
  - intros [H|(ft & _ & -> & Hd)]; simpl in *; simplify_eq; left; [done|]. by destruct Hd as [?|[? _]].
  - apply orb_false_iff in E as [E1 E2]. apply bool_decide_eq_false, eq_None_not_Some in E1.
    intros [H|(ft & _ & -> & [->| [-> [t ->]]])]; simpl in *; simplify_eq;
      [right|left|right]; eauto 10.
Qed.

Lemma reclaim_row_inv k event egs lease env n d r n' d' c :
  claims d !! k = Some c ->
  reclaim_row k event egs lease env (n, d) = (r, (n', d')) ->
  (d' = d /\ is_ok r = false)
  \/ (event_taken k event d = false
      /\ d' = set_claims <[k := mkClaim event egs (cl_fingerprint c) claimProcessing
                                  (Some lease) (cl_completed_at c)]> d).
Proof.
  intros Hc H. apply stmt_cases in H as [_ H]. revert H. rewrite Hc.
  destruct (event_taken k event d) eqn:E.
  - intros [H|(ft & _ & -> & Hd)]; simpl in *; simplify_eq; left; [done|]. by destruct Hd as [?|[? _]].
  - intros [H|(ft & _ & -> & [->| [-> _]])]; simpl in *; simplify_eq; [right|left|right]; auto.
Qed.

Definition decision_before (env : dbenv) (m : Message) (o : option claim_row)
    (dec : ClaimDecision) : Prop :=
  match o with
  | None => dec = ClaimConflict
  | Some c =>
      if String.eqb (cl_fingerprint c) (RequestFingerprint m)
      then dec = sqlClaimDecision (cl_state c) (cl_lease_expires_at c) (env_now env)
      else dec = ClaimConflict
  end.

(** The body of [Claim]: it changes the claim exactly when it answers
    [ClaimProcess]. *)
Lemma claimInTx_inv env s m n d r n' d' :
  claimInTx s m env (n, d) = (r, (n', d')) ->
  match r with
  | Ok ClaimProcess =>
      exists c', claim_change env s m d OpClaim (claims d !! request_of m) c'
                 /\ cl_event_id c' = EventID m /\ cl_fingerprint c' = RequestFingerprint m
                 /\ cl_state c' = claimProcessing
                 /\ cl_lease_expires_at c' = Some (datetime env (env_now env + cs_leaseDuration s))
                 /\ d' = set_claims <[request_of m := c']> d
  | Ok dec => d' = d /\ decision_before env m (claims d !! request_of m) dec
  | Err _ => True
  end.
Proof.
  unfold claimInTx. intros H. db_step H. apply select_inv in Hs as (-> & -> & Hr).
  destruct r0 as [c|e].
  - destruct (String.eqb (cl_fingerprint c) (RequestFingerprint m)) eqn:Hfp; simpl in H.
    + db_step H. db_step Hs.
      destruct (sqlClaimDecision _ _ _) eqn:Hdec.
      * db_step H. db_step Hs. db_step H.
        apply (reclaim_row_inv _ _ _ _ _ _ _ _ _ _ _ Hr) in Hs.
        destruct Hs as [[-> Hr1]|[Hev ->]]; [db_step H; by destruct r0|].
        db_step H. destruct r0; [|done]. rewrite Hr. bool_to_prop.
        exists (held_row env s m (cl_fingerprint c) (cl_completed_at c)).
        repeat split; [by constructor|done].
      * db_step H. unfold decision_before. rewrite Hr, Hfp. auto.
      * exfalso. unfold sqlClaimDecision in Hdec. repeat case_match; done.
      * db_step H. unfold decision_before. rewrite Hr, Hfp. auto.
    + db_step H. unfold decision_before. rewrite Hr, Hfp. auto.
  - destruct (errors_is ErrNoRows e) eqn:He; [|by db_step H].
    destruct (proj1 Hr eq_refl) as [Hn ->]. unfold insertClaim in H.
    db_step H. db_step Hs. db_step H.
    apply insert_claim_row_inv in Hs as [[-> Hok]|(_ & Hev & -> & Hres)].
    + db_step H. destruct r0; [done|]. unfold decision_before. rewrite Hn.
      by destruct (isMySQLError _ _).
    + db_step H. destruct Hres as [->|[t ->]]; [|done]. rewrite Hn.
      eexists. repeat split; [by constructor|done..].
Qed.

Lemma select_owner_inv m env n d r n' d' :
  select_owner m env (n, d) = (r, (n', d')) ->
  d' = d /\ match r with
            | Ok (st, ev) => exists c, claims d !! request_of m = Some c
                               /\ cl_fingerprint c = RequestFingerprint m
                               /\ cl_state c = st /\ cl_event_id c = ev
            | Err _ => True
            end.
Proof.
  intros H. apply select_inv in H as (-> & -> & H). split; [done|].
  destruct r as [[st ev]|e]; [|done].
  destruct (claims d !! request_of m) as [c|]; [|done].
  destruct (String.eqb_spec (cl_fingerprint c) (RequestFingerprint m)); simplify_eq. eauto.
Qed.

(** The claim of [m] is completed by [m]'s own delivery. *)
Definition completed_by (m : Message) (o : option claim_row) : Prop :=
  exists c, o = Some c /\ cl_state c = claimCompleted
            /\ cl_event_id c = EventID m /\ cl_fingerprint c = RequestFingerprint m.

Lemma claimOwnerError_inv verb m env n d r n' d' :
  claimOwnerError verb m env (n, d) = (r, (n', d')) ->
  d' = d /\ (r = Ok tt -> completed_by m (claims d !! request_of m)).
Proof.
  unfold claimOwnerError. intros H. db_step H. db_step H.
  apply select_owner_inv in Hs as [-> Hr]. split; [done|].
  destruct r0 as [[st ev]|e]; [|by case_match].
  destruct Hr as (c & Hc & Hfp & Hst & Hev).
  destruct (String.eqb_spec ev (EventID m)); [|done].
  destruct (String.eqb_spec st claimCompleted); [|done].
  intros _. exists c. naive_solver.
Qed.

Lemma set_claims_id k c d : claims d !! k = Some c -> set_claims <[k := c]> d = d.
Proof. intros H. destruct d. unfold set_claims. simpl in *. by rewrite insert_id. Qed.

Lemma finish_update_inv verb noun m f owner env n d r n' d' :
  finish_update verb noun m f owner env (n, d) = (r, (n', d')) ->
  (d' = d \/ exists c c', claims d !! request_of m = Some c /\ f env c = Some c'
                          /\ d' = set_claims <[request_of m := c']> d)
  /\ (r = Ok tt ->
        (exists c c', claims d !! request_of m = Some c /\ f env c = Some c'
                      /\ d' = set_claims <[request_of m := c']> d)
        \/ completed_by m (claims d' !! request_of m)).
Proof.
  unfold finish_update, update_claim. intros H. db_step H.
  apply update_row_inv in Hs as [_ Hs].
  assert (Hd : d0 = d \/ exists c c', claims d !! request_of m = Some c /\ f env c = Some c'
                          /\ d0 = set_claims <[request_of m := c']> d) by naive_solver.
  destruct r0 as [z|e]; [|by db_step H; auto].
  db_step H. apply query_inv in Hs0 as (-> & _ & Hr).
  destruct r0 as [z'|e]; [|by db_step H; auto].
  assert (z' = z) as -> by (destruct Hr as [Hr|[? Hr]]; congruence).
  destruct (0 <? z) eqn:Hz.
  - db_step H. split; [done|]. intros _. left.
    destruct Hs as [[_ Hz0]|Hs]; [specialize (Hz0 z eq_refl); bool_to_prop; lia|]. naive_solver.
  - apply claimOwnerError_inv in H as [-> Ho]. auto.
Qed.

(** ** Effects of the operations, whatever fails *)

Section operations.
Context (s : SQLClaimStore) (m : Message) (env : dbenv).

Lemma Claim_inv n d r n' d' :
  SQLClaimStore_Claim s m env (n, d) = (r, (n', d')) ->
  claim_effect env s m OpClaim d d'
  /\ match r with
     | Ok ClaimProcess =>
         exists c', claim_change env s m d OpClaim (claims d !! request_of m) c'
           /\ claims d' !! request_of m = Some c'
           /\ cl_event_id c' = EventID m /\ cl_fingerprint c' = RequestFingerprint m
           /\ cl_state c' = claimProcessing
           /\ cl_lease_expires_at c' = Some (datetime env (env_now env + cs_leaseDuration s))
     | Ok dec => d' = d /\ decision_before env m (claims d !! request_of m) dec
     | Err _ => True
     end.
Proof.
  unfold SQLClaimStore_Claim. intros H.
  destruct (Message_Validate m) as [e|]; [db_step H; by repeat split; left|].
  destruct (cs_DB s); cbn [negb] in H; [|db_step H; by repeat split; left].
  apply in_tx_cases in H as [[-> [e ->]]|(a & n1 & d1 & Hb & H)]; [by split; [left|]|].
  apply claimInTx_inv in Hb.
  assert (Hd1 : claim_effect env s m OpClaim d d1).
  { destruct a; [right; naive_solver | left; by apply Hb ..]. }
  destruct H as [[-> ->]|(ft & _ & -> & [->| ->])]; [|by split; [left|]|done].
  split; [done|]. destruct a; [|done..].
  destruct Hb as (c' & ? & ? & ? & ? & ? & ->). exists c'. simpl.
  by rewrite lookup_insert_eq.
Qed.

Lemma Release_inv n d r n' d' :
  SQLClaimStore_Release s m env (n, d) = (r, (n', d')) -> claim_effect env s m OpRelease d d'.
Proof.
  unfold SQLClaimStore_Release. intros H.
  destruct (Message_Validate m) as [e|]; [db_step H; by left|].
  destruct (cs_DB s); cbn [negb] in H; [|db_step H; by left].
  apply finish_update_inv in H as [[->|(c & c' & Hc & Hf & ->)] _]; [by left|].
  right. exists c'. rewrite Hc. split; [by apply change_release|done].
Qed.

Lemma completed_row_by c c' now :
  completed_row now m c = Some c' ->
  cl_state c' = claimCompleted /\ cl_event_id c' = EventID m
  /\ cl_fingerprint c' = RequestFingerprint m.
Proof.
  unfold completed_row, owned_processing. intros H.
  repeat case_match; simplify_eq. bool_to_prop. done.
Qed.

Lemma Complete_inv n d r n' d' :
  SQLClaimStore_Complete s m env (n, d) = (r, (n', d')) ->
  claim_effect env s m OpComplete d d'
  /\ (r = Ok tt -> completed_by m (claims d' !! request_of m)).
Proof.
  unfold SQLClaimStore_Complete. intros H.
  destruct (Message_Validate m) as [e|]; [db_step H; split; [by left|done]|].
  destruct (cs_DB s); cbn [negb] in H; [|db_step H; split; [by left|done]].
  apply finish_update_inv in H as [Hd Hr]. split.
  - destruct Hd as [->|(c & c' & Hc & Hf & ->)]; [by left|].
    right. exists c'. rewrite Hc. split; [by apply change_complete|done].
  - intros ->. destruct (Hr eq_refl) as [(c & c' & Hc & Hf & ->)|?]; [|done].
    exists c'. simpl. rewrite lookup_insert_eq. by apply completed_row_by in Hf.
Qed.
End operations.

(** ** The abstract life of a request *)

Inductive request_state : Type :=
| Unclaimed
| Processing (event fp : string) (lease : option Z)
| Completed (event fp : string).

#[export] Instance request_state_eq_dec : EqDecision request_state.
Proof. solve_decision. Defined.

Definition state_of (o : option claim_row) : request_state :=
  match o with
  | None => Unclaimed
  | Some c =>
      if String.eqb (cl_state c) claimCompleted then Completed (cl_event_id c) (cl_fingerprint c)
      else Processing (cl_event_id c) (cl_fingerprint c) (cl_lease_expires_at c)
  end.

(** What a delivery of [m] is told, and what the request becomes. [taken] says
    that another request already carries the event id of [m]. *)
Definition claim_spec (taken : bool) (now lease : Z) (m : Message) (st : request_state)
    : option ClaimDecision * request_state :=
  let held := Processing (EventID m) (RequestFingerprint m) (Some lease) in
  match st with
  | Unclaimed => if taken then (Some ClaimConflict, st) else (Some ClaimProcess, held)
  | Processing ev fp l =>
      if negb (String.eqb fp (RequestFingerprint m)) then (Some ClaimConflict, st)
      else if match l with Some t => now <? t | None => false end then (Some ClaimInFlight, st)
      else if taken then (None, st)
      else (Some ClaimProcess, held)
  | Completed ev fp =>
      (Some (if String.eqb fp (RequestFingerprint m) then ClaimDuplicate else ClaimConflict), st)
  end.

Definition owner_spec (m : Message) (next : string -> string -> request_state)
    (st : request_state) : option sentinel * request_state :=
  let other := match st with
    | Unclaimed => Some ErrClaimNotFound
    | Processing ev fp _ | Completed ev fp =>
        if negb (String.eqb fp (RequestFingerprint m)) then Some ErrClaimNotFound
        else if negb (String.eqb ev (EventID m)) then Some ErrClaimStale
        else None
    end in
  match other, st with
  | None, Processing ev fp _ => (None, next ev fp)
  | _, _ => (other, st)
  end.

(** [Release] of an already released claim changes no value of the row, so the
    driver reports no row and the code answers [ErrClaimInFlight]. *)
Definition release_spec (m : Message) (st : request_state) : option sentinel * request_state :=
  match owner_spec m (fun ev fp => Processing ev fp None) st with
  | (None, st') =>
      if decide (st' = st)
      then (match st with Completed _ _ => None | _ => Some ErrClaimInFlight end, st)
      else (None, st')
  | r => r
  end.

Definition complete_spec (m : Message) (st : request_state) : option sentinel * request_state :=
  owner_spec m (fun ev fp => Completed ev fp) st.

(** The states the two columns can hold. *)
Definition claim_state_ok (o : option claim_row) : Prop :=
  match o with
  | Some c => cl_state c = claimProcessing
              \/ (cl_state c = claimCompleted /\ cl_lease_expires_at c = None)
  | None => True
  end.

Definition claim_answer (r : result error ClaimDecision) : option ClaimDecision :=
  match r with Ok dec => Some dec | Err _ => None end.

(** The failure class of a release or completion: which sentinel, if any. *)
Definition has_failed (r : result error unit) (o : option sentinel) : Prop :=
  match o with
  | None => r = Ok tt
  | Some t => exists e, r = Err e /\ errors_is t e = true
  end.

(** ** Refinement in the absence of faults *)

Section refinement.
Context (s : SQLClaimStore) (m : Message) (env : dbenv).
Hypothesis Hstore : cs_DB s = true.
Hypothesis Hvalid : valid_message m.
Hypothesis Hquiet : no_faults env.

Let lease := datetime env (env_now env + cs_leaseDuration s).

Lemma Claim_quiet d :
  claim_state_ok (claims d !! request_of m) ->
  let '(r, d') := run_db (SQLClaimStore_Claim s m) env d in
  (claim_answer r, state_of (claims d' !! request_of m))
  = claim_spec (event_taken (request_of m) (EventID m) d) (env_now env) lease m
      (state_of (claims d !! request_of m)).
Proof.
  intros Hok. unfold run_db, SQLClaimStore_Claim.
  rewrite (proj2 (Message_Validate_None m) Hvalid), Hstore. cbn [negb].
  rewrite in_tx_no_faults by done. unfold claimInTx, bind at 1.
  unfold select, query. rewrite stmt_no_faults by done.
  destruct (claims d !! request_of m) as [c|] eqn:Hc.
  - cbn [state_of claim_spec].
    destruct (String.eqb (cl_state c) claimCompleted) eqn:Hst.
    + destruct (String.eqb (cl_fingerprint c) (RequestFingerprint m)) eqn:Hfp; cbn;
        unfold sqlClaimDecision; rewrite ?Hst; cbn; rewrite Hc; cbv [state_of];
        rewrite Hst; by rewrite Hfp.
    + destruct (String.eqb (cl_fingerprint c) (RequestFingerprint m)) eqn:Hfp; cbn;
        [|by rewrite Hc; cbv [state_of]; rewrite Hst; cbn; rewrite Hfp].
      unfold sqlClaimDecision. rewrite Hst.
      destruct (cl_lease_expires_at c) as [t|] eqn:Hl; [destruct (env_now env <? t) eqn:Ht|].
      * cbn. by rewrite Hc; cbv [state_of]; rewrite Hst, Hl; cbn; rewrite Hfp, ?Ht.
      * unfold bind, ask, reclaim_row. rewrite stmt_no_faults, Hc by done.
        destruct (event_taken _ _ d); cbn.
        -- by rewrite Hc; cbv [state_of]; rewrite Hst, Hl; cbn; rewrite Hfp, ?Ht.
        -- rewrite lookup_insert_eq. cbn. rewrite Hfp, ?Ht. bool_to_prop. by rewrite Hfp.
      * unfold bind, ask, reclaim_row. rewrite stmt_no_faults, Hc by done.
        destruct (event_taken _ _ d); cbn.
        -- by rewrite Hc; cbv [state_of]; rewrite Hst, Hl; cbn; rewrite Hfp, ?Ht.
        -- rewrite lookup_insert_eq. cbn. rewrite Hfp, ?Ht. bool_to_prop. by rewrite Hfp.
  - cbn. rewrite bool_decide_true by done. unfold insertClaim, bind, ask, insert_claim_row.
    cbv beta. rewrite stmt_no_faults, Hc by done. cbn.
    destruct (event_taken _ _ d); cbn; [by rewrite Hc|]. by rewrite lookup_insert_eq.
Qed.

(** The answer of the read that follows an update without effect. *)
Lemma owner_quiet verb n d :
  exists r, claimOwnerError verb m env (n, d) = (r, (S n, d))
  /\ has_failed r
       (match state_of (claims d !! request_of m) with
        | Unclaimed => Some ErrClaimNotFound
        | Processing ev fp _ | Completed ev fp =>
            if negb (String.eqb fp (RequestFingerprint m)) then Some ErrClaimNotFound
            else if negb (String.eqb ev (EventID m)) then Some ErrClaimStale
            else match state_of (claims d !! request_of m) with
                 | Completed _ _ => None | _ => Some ErrClaimInFlight end
        end).
Proof.
  unfold claimOwnerError, bind, select_owner, select, query.
  rewrite stmt_no_faults by done. eexists. split; [reflexivity|].
  destruct (claims d !! request_of m) as [c|]; [|by eexists].
  unfold state_of.
  destruct (String.eqb (cl_state c) claimCompleted) eqn:Hst;
    destruct (String.eqb (cl_fingerprint c) (RequestFingerprint m)); cbn; try (by eexists);
    destruct (String.eqb (cl_event_id c) (EventID m)); cbn; rewrite ?Hst; cbn; by eexists.
Qed.

Lemma finish_update_quiet verb noun owner f d r d' :
  run_db (finish_update verb noun m f owner) env d = (r, d') ->
  match claims d !! request_of m with
  | Some c =>
      match f env c with
      | Some c' =>
          if decide (c' = c) then claimOwnerError owner m env (2%nat, d) = (r, (3%nat, d'))
          else r = Ok tt /\ d' = set_claims <[request_of m := c']> d
      | None => claimOwnerError owner m env (2%nat, d) = (r, (3%nat, d'))
      end
  | None => claimOwnerError owner m env (2%nat, d) = (r, (3%nat, d'))
  end.
Proof.
  unfold run_db, finish_update, bind at 1, update_claim, update_row, rows_affected, query.
  rewrite stmt_no_faults by done.
  assert (Hown : forall n e, let '(a, (_, d1)) := claimOwnerError owner m env (n, e) in
            claimOwnerError owner m env (n, e) = (a, (S n, d1))).
  { intros n e. by destruct (owner_quiet owner n e) as (? & -> & _). }
  destruct (claims d !! request_of m) as [c|] eqn:Hc; [destruct (f env c) as [c'|]|].
  - unfold bind. rewrite stmt_no_faults by done. destruct (decide (c' = c)) as [->|]; cbn.
    + rewrite set_claims_id by done. specialize (Hown 2%nat d).
      destruct (claimOwnerError _ _ _ _) as [a [? d1]]. naive_solver.
    + naive_solver.
  - unfold bind. rewrite stmt_no_faults by done. cbn. specialize (Hown 2%nat d).
    destruct (claimOwnerError _ _ _ _) as [a [? d1]]. naive_solver.
  - unfold bind. rewrite stmt_no_faults by done. cbn. specialize (Hown 2%nat d).
    destruct (claimOwnerError _ _ _ _) as [a [? d1]]. naive_solver.
Qed.

Lemma Complete_quiet d :
  claim_state_ok (claims d !! request_of m) ->
  let '(r, d') := run_db (SQLClaimStore_Complete s m) env d in
  let '(o, st') := complete_spec m (state_of (claims d !! request_of m)) in
  has_failed r o /\ state_of (claims d' !! request_of m) = st'.
Proof.
  intros Hok. unfold SQLClaimStore_Complete.
  rewrite (proj2 (Message_Validate_None m) Hvalid), Hstore. cbn [negb].
  destruct (run_db _ env d) as [r d'] eqn:E. apply finish_update_quiet in E.
  destruct (owner_quiet "" 2 d) as (r0 & Ho & Hr0). rewrite Ho in E.
  destruct (claims d !! request_of m) as [c|] eqn:Hc;
    [|cbn in *; simplify_eq; by rewrite Hc].
  unfold completed_row, owned_processing in E. unfold complete_spec, owner_spec.
  unfold state_of in *.
  destruct (String.eqb (cl_state c) claimCompleted) eqn:Hst.
  - replace (String.eqb (cl_state c) claimProcessing) with false in E
      by (bool_to_prop; by rewrite Hst).
    rewrite andb_false_r in E. simplify_eq. rewrite Hc, Hst.
    destruct (negb (String.eqb (cl_fingerprint c) _)); [done|].
    by destruct (negb (String.eqb (cl_event_id c) _)).
  - assert (cl_state c = claimProcessing) as Hp.
    { destruct Hok as [?|[? _]]; [done|]. bool_to_prop. congruence. }
    rewrite Hp in E. cbn [String.eqb] in E. change (String.eqb claimProcessing claimProcessing) with true in E.
    rewrite andb_true_r in E.
    destruct (String.eqb (cl_fingerprint c) _) eqn:Hfp; cbn [negb] in *.
    + destruct (String.eqb (cl_event_id c) _) eqn:Hev; cbn [negb andb] in *.
      * rewrite decide_False in E
          by (intros Heq; apply (f_equal cl_state) in Heq; cbn in Heq; rewrite Hp in Heq; done).
        destruct E as [-> ->]. split; [done|]. cbn. by rewrite lookup_insert_eq.
      * simplify_eq. rewrite Hc, Hst. auto.
    + rewrite andb_false_r in E. simplify_eq. rewrite Hc, Hst. auto.
Qed.

Lemma Release_quiet d :
  claim_state_ok (claims d !! request_of m) ->
  let '(r, d') := run_db (SQLClaimStore_Release s m) env d in
  let '(o, st') := release_spec m (state_of (claims d !! request_of m)) in
  has_failed r o /\ state_of (claims d' !! request_of m) = st'.
Proof.
  intros Hok. unfold SQLClaimStore_Release.
  rewrite (proj2 (Message_Validate_None m) Hvalid), Hstore. cbn [negb].
  destruct (run_db _ env d) as [r d'] eqn:E. apply finish_update_quiet in E.
  destruct (owner_quiet " owner" 2 d) as (r0 & Ho & Hr0). rewrite Ho in E.
  destruct (claims d !! request_of m) as [c|] eqn:Hc;
    [|cbn in *; simplify_eq; by rewrite Hc].
  unfold released_row, owned_processing in E. unfold release_spec, owner_spec.
  unfold state_of in *.
  destruct (String.eqb (cl_state c) claimCompleted) eqn:Hst.
  - replace (String.eqb (cl_state c) claimProcessing) with false in E
      by (bool_to_prop; by rewrite Hst).
    rewrite andb_false_r in E. simplify_eq. rewrite Hc, Hst.
    destruct (negb (String.eqb (cl_fingerprint c) _)); [done|].
    destruct (negb (String.eqb (cl_event_id c) _)); [done|].
    by rewrite decide_True by done.
  - assert (cl_state c = claimProcessing) as Hp.
    { destruct Hok as [?|[? _]]; [done|]. bool_to_prop. congruence. }
    rewrite Hp in E. change (String.eqb claimProcessing claimProcessing) with true in E.
    rewrite andb_true_r in E.
    destruct (String.eqb (cl_fingerprint c) _) eqn:Hfp; cbn [negb] in *.
    + destruct (String.eqb (cl_event_id c) _) eqn:Hev; cbn [negb andb] in *.
      * destruct (cl_lease_expires_at c) as [t|] eqn:Hl.
        -- rewrite decide_False in E by (intros Heq; destruct c; simplify_eq/=).
           rewrite decide_False by done.
           destruct E as [-> ->]. split; [done|]. cbn. by rewrite lookup_insert_eq.
        -- rewrite decide_True in E by (destruct c; simpl in *; congruence).
           rewrite decide_True by done. simplify_eq. rewrite Hc, Hst, Hl. auto.
      * simplify_eq. rewrite Hc, Hst. auto.
    + rewrite andb_false_r in E. simplify_eq. rewrite Hc, Hst. auto.
Qed.
End refinement.

(** ** Sequences of calls by any deliveries, with any faults *)

Record claim_call : Type := mkCall { ca_op : claim_op; ca_msg : Message; ca_env : dbenv }.

(** The tables after a call, and the decision if it was a successful claim. *)
Definition run_call (s : SQLClaimStore) (c : claim_call) (d : db)
    : option ClaimDecision * db :=
  match ca_op c with
  | OpClaim => let '(r, d') := run_db (SQLClaimStore_Claim s (ca_msg c)) (ca_env c) d in
               (claim_answer r, d')
  | OpRelease => (None, (run_db (SQLClaimStore_Release s (ca_msg c)) (ca_env c) d).2)
  | OpComplete => (None, (run_db (SQLClaimStore_Complete s (ca_msg c)) (ca_env c) d).2)
  end.

Fixpoint run_calls (s : SQLClaimStore) (l : list claim_call) (d : db)
    : list (option ClaimDecision) * db :=
  match l with
  | [] => ([], d)
  | c :: l' =>
      let '(a, d1) := run_call s c d in
      let '(al, d2) := run_calls s l' d1 in (a :: al, d2)
  end.

Lemma run_db_inv {A} (op : DB A) env d r d' :
  run_db op env d = (r, d') -> exists n, op env (0%nat, d) = (r, (n, d')).
Proof. unfold run_db. destruct (op _ _) as [? [? ?]]. naive_solver. Qed.

Lemma run_call_inv s c d a d' :
  run_call s c d = (a, d') ->
  claim_effect (ca_env c) s (ca_msg c) (ca_op c) d d'
  /\ match a with
     | Some ClaimProcess =>
         ca_op c = OpClaim
         /\ exists c', claim_change (ca_env c) s (ca_msg c) d OpClaim
                        (claims d !! request_of (ca_msg c)) c'
           /\ claims d' !! request_of (ca_msg c) = Some c'
           /\ cl_event_id c' = EventID (ca_msg c) /\ cl_state c' = claimProcessing
     | Some dec => decision_before (ca_env c) (ca_msg c) (claims d !! request_of (ca_msg c)) dec
     | None => True
     end.
Proof.
  unfold run_call. destruct (ca_op c); intros H.
  - destruct (run_db _ _ _) as [r d1] eqn:E. simplify_eq.
    apply run_db_inv in E as [n E]. apply Claim_inv in E as [He Hr]. split; [done|].
    destruct r as [[]|]; simpl; [naive_solver|naive_solver..|done].
  - destruct (run_db _ _ _) as [r d1] eqn:E. simplify_eq.
    apply run_db_inv in E as [n E]. by apply Release_inv in E.
  - destruct (run_db _ _ _) as [r d1] eqn:E. simplify_eq.
    apply run_db_inv in E as [n E]. by apply Complete_inv in E as [? _].
Qed.

(** A completed claim, and a claim under a live lease of another delivery,
    admit no change. *)
Lemma no_change_completed env s m d op c c' :
  cl_state c = claimCompleted -> ~ claim_change env s m d op (Some c) c'.
Proof.
  intros Hc H.
  assert (Hn : owned_processing m c = false).
  { unfold owned_processing. rewrite Hc. by rewrite andb_false_r. }
  inversion H as [| |? ? Hr|? ? Hr]; subst.
  - match goal with H : sqlClaimDecision _ _ _ = _ |- _ =>
      unfold sqlClaimDecision in H; by rewrite Hc in H end.
  - unfold released_row in Hr. by rewrite Hn in Hr.
  - unfold completed_row in Hr. by rewrite Hn in Hr.
Qed.

Lemma owned_other_event m c : cl_event_id c <> EventID m -> owned_processing m c = false.
Proof.
  intros H. unfold owned_processing.
  by rewrite (proj2 (String.eqb_neq _ _) H).
Qed.

Lemma no_change_live env s m d op c c' t :
  cl_lease_expires_at c = Some t -> env_now env < t ->
  op = OpClaim \/ cl_event_id c <> EventID m ->
  ~ claim_change env s m d op (Some c) c'.
Proof.
  intros Hl Ht Hop H.
  inversion H as [| |? ? Hr|? ? Hr]; subst.
  - match goal with H : sqlClaimDecision _ _ _ = _ |- _ =>
      unfold sqlClaimDecision in H; rewrite Hl in H end.
    replace (env_now env <? t) with true in * by lia. by repeat case_match.
  - destruct Hop as [?|Hev]; [done|]. unfold released_row in Hr. by rewrite owned_other_event in Hr.
  - destruct Hop as [?|Hev]; [done|]. unfold completed_row in Hr. by rewrite owned_other_event in Hr.
Qed.

(** An effect on another request leaves the claim alone. *)
Lemma claim_effect_other env s m op d d' k :
  claim_effect env s m op d d' -> k <> request_of m -> claims d' !! k = claims d !! k.
Proof.
  intros [->|(c' & _ & ->)] Hk; [done|]. simpl. by rewrite lookup_insert_ne.
Qed.

Lemma claim_effect_fixed env s m op d d' c :
  claim_effect env s m op d d' -> claims d !! request_of m = Some c ->
  (forall c', ~ claim_change env s m d op (Some c) c') -> d' = d.
Proof. intros [->|(c' & Hc & ->)] Hl Hno; [done|]. rewrite Hl in Hc. by apply Hno in Hc. Qed.

Lemma claim_effect_evolve env s m op d d' k :
  claim_effect env s m op d d' ->
  match claims d !! k with
  | None => True
  | Some c => exists c', claims d' !! k = Some c' /\ cl_fingerprint c' = cl_fingerprint c
                /\ (cl_state c = claimCompleted -> c' = c)
  end.
Proof.
  intros H. destruct (claims d !! k) as [c|] eqn:Hc; [|done].
  destruct (decide (k = request_of m)) as [->|Hk];
    [|erewrite claim_effect_other by done; eauto].
  destruct H as [->|(c' & Hch & ->)]; [eauto|]. rewrite Hc in Hch. simpl.
  rewrite lookup_insert_eq. exists c'. split; [done|]. split.
  - unfold released_row, completed_row in *.
    inversion Hch; subst; unfold released_row, completed_row in *; repeat case_match;
      by simplify_eq.
  - intros Hst. by apply no_change_completed in Hch.
Qed.

(** The other tables, which the claim store leaves alone. *)
Definition same_chain (d d' : db) : Prop :=
  configs d' = configs d /\ bills d' = bills d /\ submissions d' = submissions d
  /\ next_submission_id d' = next_submission_id d /\ outcomes d' = outcomes d.

Lemma claim_effect_same_chain env s m op d d' : claim_effect env s m op d d' -> same_chain d d'.
Proof. by intros [->|(c' & _ & ->)]. Qed.

(** Induction over a sequence of calls for an invariant of the tables. *)
Lemma run_calls_ind (s : SQLClaimStore) (P : db -> Prop) (Q : claim_call -> option ClaimDecision -> Prop)
    (ok : claim_call -> Prop) :
  (forall c d a d', ok c -> P d -> run_call s c d = (a, d') -> P d' /\ Q c a) ->
  forall l d al d', Forall ok l -> P d -> run_calls s l d = (al, d') -> P d' /\ Forall2 Q l al.
Proof.
  intros Hstep l. induction l as [|c l IH]; intros d al d' Hok HP H; simpl in H.
  - simplify_eq. auto.
  - destruct (run_call s c d) as [a d1] eqn:E1. destruct (run_calls s l d1) as [al2 d2] eqn:E2.
    simplify_eq. apply Forall_cons in Hok as [Hc Hl].
    destruct (Hstep _ _ _ _ Hc HP E1) as [HP1 HQ]. destruct (IH _ _ _ Hl HP1 E2). auto.
Qed.

(** ** The promises *)

(** C6: Without faults, [Claim], [Release] and [Complete] on a valid message
    answer and change the claim of its request exactly as the abstract life of
    a request prescribes: conflict on another fingerprint or on an event id in
    use, duplicate once completed, in flight under a live lease, otherwise the
    claim is taken with a fresh lease; release and completion act only for the
    event that holds the claim and report not-found and stale owners apart. *)
Theorem claim_store_refines s m env d :
  cs_DB s = true -> valid_message m -> no_faults env ->
  claim_state_ok (claims d !! request_of m) ->
  (let '(r, d') := run_db (SQLClaimStore_Claim s m) env d in
   (claim_answer r, state_of (claims d' !! request_of m))
   = claim_spec (event_taken (request_of m) (EventID m) d) (env_now env)
       (datetime env (env_now env + cs_leaseDuration s)) m (state_of (claims d !! request_of m)))
  /\ (let '(r, d') := run_db (SQLClaimStore_Release s m) env d in
      let '(o, st') := release_spec m (state_of (claims d !! request_of m)) in
      has_failed r o /\ state_of (claims d' !! request_of m) = st')
  /\ (let '(r, d') := run_db (SQLClaimStore_Complete s m) env d in
      let '(o, st') := complete_spec m (state_of (claims d !! request_of m)) in
      has_failed r o /\ state_of (claims d' !! request_of m) = st').
Proof.
  intros. split; [by apply Claim_quiet|].
  split; [by apply Release_quiet | by apply Complete_quiet].
Qed.

(** C9: While the lease of a processing claim is live, no sequence of calls by
    any deliveries, with any faults, changes the claim or lets another delivery
    process the request: claims are refused, and the release or completion of
    any other event has no effect. *)
Theorem claim_lease_excludes s m row t calls d al d' :
  claims d !! request_of m = Some row -> cl_state row = claimProcessing ->
  cl_lease_expires_at row = Some t ->
  Forall (fun c => env_now (ca_env c) < t
            /\ (ca_op c = OpClaim \/ EventID (ca_msg c) <> cl_event_id row
                \/ request_of (ca_msg c) <> request_of m)) calls ->
  run_calls s calls d = (al, d') ->
  claims d' !! request_of m = Some row
  /\ Forall2 (fun c a => request_of (ca_msg c) = request_of m -> a <> Some ClaimProcess) calls al.
Proof.
  intros Hrow Hst Hl Hok Hrun.
  eapply (run_calls_ind s (fun d => claims d !! request_of m = Some row)); [|done..].
  clear - Hst Hl. intros c d a d' [Ht Hop] Hd H. apply run_call_inv in H as [He Ha].
  destruct (decide (request_of (ca_msg c) = request_of m)) as [Heq|Hne];
    [|by rewrite (claim_effect_other _ _ _ _ _ _ _ He)].
  rewrite Heq, Hd in Ha.
  assert (Hno : forall op c', op = OpClaim \/ EventID (ca_msg c) <> cl_event_id row ->
             ~ claim_change (ca_env c) s (ca_msg c) d op (Some row) c').
  { intros op c' Hopn. eapply no_change_live; [done..|]. naive_solver. }
  assert (d' = d) as ->.
  { eapply claim_effect_fixed; [done|by rewrite Heq|]. intros c'. apply Hno.
    by destruct Hop as [?|[?|?]]; auto. }
  split; [done|]. intros _ ->. destruct Ha as (_ & c' & Hc' & _).
  eapply Hno; [|done]. auto.
Qed.

(** A completed request stays completed: no sequence of calls by any
    deliveries, with any faults, changes its claim, and every later claim of it
    is told duplicate, conflict or an error, so it is never processed again. *)
Theorem completed_is_final s m row calls d al d' :
  claims d !! request_of m = Some row -> cl_state row = claimCompleted ->
  run_calls s calls d = (al, d') ->
  claims d' !! request_of m = Some row
  /\ Forall2 (fun c a => request_of (ca_msg c) = request_of m ->
        match a with
        | Some dec => dec = if String.eqb (cl_fingerprint row) (RequestFingerprint (ca_msg c))
                            then ClaimDuplicate else ClaimConflict
        | None => True
        end) calls al.
Proof.
  intros Hrow Hst Hrun.
  eapply (run_calls_ind s (fun d => claims d !! request_of m = Some row) _ (fun _ => True));
    [|by apply Forall_true|done..].
  clear - Hst. intros c d a d' _ Hd H. apply run_call_inv in H as [He Ha].
  destruct (decide (request_of (ca_msg c) = request_of m)) as [Heq|Hne];
    [|by rewrite (claim_effect_other _ _ _ _ _ _ _ He)].
  rewrite Heq, Hd in Ha.
  assert (d' = d) as ->.
  { eapply claim_effect_fixed; [done|by rewrite Heq|]. intros c'. by apply no_change_completed. }
  split; [done|]. intros _. destruct a as [[]|]; [|destruct (String.eqb _ _) eqn:Hfp..|done].
  all: unfold decision_before in Ha; try rewrite Hfp in Ha;
    unfold sqlClaimDecision in Ha; rewrite ?Hst in Ha; try done.
  destruct Ha as (_ & c' & Hc' & _). by apply no_change_completed in Hc'.
Qed.

(** A success that the claim store reports is durable, whatever faults
    struck on the way: after a nil error of [Complete] the claim is stored as
    completed by this event and fingerprint, and after [ClaimProcess] it is
    stored as held by this event until the new lease ends. *)
Theorem claim_success_durable s m env d :
  (let '(r, d') := run_db (SQLClaimStore_Complete s m) env d in
   r = Ok tt -> completed_by m (claims d' !! request_of m))
  /\ (let '(r, d') := run_db (SQLClaimStore_Claim s m) env d in
      r = Ok ClaimProcess ->
      state_of (claims d' !! request_of m)
      = Processing (EventID m) (RequestFingerprint m)
          (Some (datetime env (env_now env + cs_leaseDuration s)))).
Proof.
  split; destruct (run_db _ _ _) as [r d'] eqn:E; apply run_db_inv in E as [n E].
  - by apply Complete_inv in E as [_ ?].
  - intros ->. apply Claim_inv in E as [_ (c' & _ & -> & Hev & Hfp & Hst & Hl)].
    unfold state_of. by rewrite Hev, Hfp, Hst, Hl.
Qed.

(** ** Witnesses *)

Definition held_claim : claim_row :=
  mkClaim "event-9" "7" (RequestFingerprint bill_envelope) claimProcessing (Some 100) None.
Definition done_claim : claim_row :=
  mkClaim "event-9" "7" (RequestFingerprint bill_envelope) claimCompleted None (Some 3).
Definition claim_db (c : claim_row) : db :=
  set_claims <[request_of bill_envelope := c]> empty_db.
Definition sample_calls : list claim_call :=
  [mkCall OpClaim bill_envelope (quiet_env 10); mkCall OpRelease bill_envelope (quiet_env 20);
   mkCall OpComplete bill_envelope (quiet_env 30)].

Lemma claim_store_refines_witness :
  claim_answer (run_db (SQLClaimStore_Claim NewSQLClaimStore bill_envelope) (quiet_env 10) empty_db).1
  = Some ClaimProcess.
Proof.
  pose proof (claim_store_refines NewSQLClaimStore bill_envelope (quiet_env 10) empty_db
    eq_refl bill_envelope_valid (quiet_env_no_faults 10) I) as [H _].
  destruct (run_db (SQLClaimStore_Claim _ _) _ _) as [r d']. by apply (f_equal fst) in H.
Defined.

Lemma claim_lease_excludes_witness :
  claims (run_calls NewSQLClaimStore sample_calls (claim_db held_claim)).2
    !! request_of bill_envelope = Some held_claim.
Proof.
  destruct (run_calls NewSQLClaimStore sample_calls (claim_db held_claim)) as [al d'] eqn:E.
  refine (proj1 (claim_lease_excludes NewSQLClaimStore bill_envelope held_claim 100
    sample_calls (claim_db held_claim) al d' _ eq_refl eq_refl _ E)).
  - by vm_compute.
  - repeat (apply Forall_cons; split; [split; [done|]|]); [by left|by right; left..|].
    apply Forall_nil_2.
Defined.

Lemma completed_is_final_witness :
  claims (run_calls NewSQLClaimStore sample_calls (claim_db done_claim)).2
    !! request_of bill_envelope = Some done_claim.
Proof.
  destruct (run_calls NewSQLClaimStore sample_calls (claim_db done_claim)) as [al d'] eqn:E.
  refine (proj1 (completed_is_final NewSQLClaimStore bill_envelope done_claim
    sample_calls (claim_db done_claim) al d' _ eq_refl E)).
  by vm_compute.
Defined.

Lemma claim_success_durable_witness :
  completed_by bill_envelope
    (claims (run_db (SQLClaimStore_Complete NewSQLClaimStore bill_envelope) (quiet_env 10)
       (claim_db (mkClaim (EventID bill_envelope) "7" (RequestFingerprint bill_envelope)
                    claimProcessing (Some 100) None))).2 !! request_of bill_envelope).
Proof.
  pose proof (proj1 (claim_success_durable NewSQLClaimStore bill_envelope (quiet_env 10)
    (claim_db (mkClaim (EventID bill_envelope) "7" (RequestFingerprint bill_envelope)
                    claimProcessing (Some 100) None)))) as H.
  revert H. vm_compute. intros H. by apply H.
Defined.
