(* ===== verification/Chain.v ===== *)
(** * The invoice chain ([queue/chain.go])

    [SQLChain]: a booking reserves the next ICV of a branch, [Commit] stores the
    signed invoice and advances the chain in one transaction, [Stored] reads an
    invoice back and [Record] stores the answer to it. The chain state of a
    branch is its [branch_zatca_config] row. *)

From S2P Require Import Prelude GoStrings Models GoErrors Uuid Message ChainTypes Control.
From S2P Require Import Database.
Local Open Scope Z_scope.
Local Open Scope go_scope.

(** [SQLChain]; the clock [Now] is the environment's. *)
Record SQLChain : Type := mkSQLChain { ch_LeaseDuration : Z }.

Definition NewSQLChain : SQLChain := mkSQLChain defaultBookingLease.

Definition ch_leaseDuration (c : SQLChain) : Z :=
  if ch_LeaseDuration c <=? 0 then defaultBookingLease else ch_LeaseDuration c.

(** ** The chain row of a branch *)

Definition effectivePIH (r : config_row) : string :=
  match cf_previous_invoice_hash r with
  | Some h => if String.eqb h "" then GenesisPIH else h
  | None => GenesisPIH
  end.

Definition null_eqb (o : option string) (s : string) : bool :=
  match o with Some t => String.eqb t s | None => false end.

Definition ownedBy (r : config_row) (key : string) : bool :=
  null_eqb (cf_icv_reservation_key r) key.

Definition leaseLive (r : config_row) (now : Z) : bool :=
  match cf_reservation_lease_expires_at r with Some t => now <? t | None => false end.

Definition reserved_is (r : config_row) (icv : Z) : bool :=
  match cf_reserved_icv r with Some i => u64 i =? icv | None => false end.

Definition holds (r : config_row) (b : Booking) : bool :=
  ownedBy r (bk_RequestKey b)
  && null_eqb (cf_icv_reservation_token r) (bk_EventID b)
  && reserved_is r (bk_ICV b)
  && (u64 (cf_last_icv r + 1) =? bk_ICV b) && String.eqb (effectivePIH r) (bk_PIH b).

(** [loadChainRow]: [reserved_icv] is scanned into an [int64]. *)
Definition loadChainRow (branchID : Z) : DB (result error config_row) :=
  query (fun d =>
    match configs d !! branchID with
    | None => Err (Sentinel ErrNoRows)
    | Some r =>
        match cf_reserved_icv r with
        | Some i => if max_int64 <? i
                    then Err (NewError "sql: Scan error: value out of range") else Ok r
        | None => Ok r
        end
    end).

Definition wrap (pre : string) (e : error) : error := Wrap pre e "".
Definition conflictf (text : string) : error := Wrap "" (Sentinel ErrChainConflict) text.

Definition update_config (branchID : Z) (f : dbenv -> config_row -> option config_row)
    : DB (result error Z) := update_row configs set_configs branchID f.

(** ** Book and Release *)

Definition next_booking (row : config_row) (m : Message) : Booking :=
  mkBooking (BranchID m) (RequestKey m) (EventID m) (InvoiceUUID m)
    (u64 (cf_last_icv row + 1)) (effectivePIH row).

Definition booked_row (b : Booking) (lease : Z) (r : config_row) : config_row :=
  mkConfig (cf_last_icv r) (cf_previous_invoice_hash r) (Some (bk_RequestKey b))
    (Some (bk_EventID b)) (Some (bk_ICV b)) (Some lease).

(** The checks of [Book] between reading the row and writing the booking. *)
Definition book_refusal (row : config_row) (m : Message) (now : Z) : option error := (
  guard! cf_last_icv row =? max_uint64
    else conflictf (": branch " +:+ itoa (BranchID m) +:+ " ICV is exhausted") ;;
  guard! leaseLive row now
         && (negb (ownedBy row (RequestKey m))
             || negb (null_eqb (cf_icv_reservation_token row) (EventID m)))
    else Sentinel ErrChainBusy ;;
  guard! ownedBy row (RequestKey m)
         && match cf_reserved_icv row with
            | Some i => negb (u64 i =? u64 (cf_last_icv row + 1))
            | None => false
            end
    else Sentinel ErrChainConflict ;;
  None)%go.

Definition book_body (c : SQLChain) (m : Message) : DB (result error Booking) :=
  let! found := loadChainRow (BranchID m) in
  match found with
  | Err e =>
      ret (Err (if isMySQLError e mysqlLockNoWait then Sentinel ErrChainBusy
                else if errors_is ErrNoRows e
                then wrap ("branch " +:+ itoa (BranchID m) +:+ " has no invoice chain: ")
                       (Sentinel ErrRejectedInput)
                else wrap ("lock branch " +:+ itoa (BranchID m) +:+ " chain: ") e))
  | Ok row =>
      let! now := ask env_now in
      match book_refusal row m now with
      | Some e => ret (Err e)
      | None =>
          let booking := next_booking row m in
          let! lease := ask (fun env => datetime env (now + ch_leaseDuration c)) in
          let! r := update_config (BranchID m) (fun _ r => Some (booked_row booking lease r)) in
          ret (match r with
               | Err e => Err (wrap ("book ICV " +:+ itoa (bk_ICV booking) +:+ " of branch "
                                     +:+ itoa (BranchID m) +:+ ": ") e)
               | Ok _ => Ok booking
               end)
      end
  end.

Definition SQLChain_Book (c : SQLChain) (m : Message) : DB (result error Booking) :=
  in_tx (wrap "begin booking: ")
    (fun _ => wrap ("commit booking of branch " +:+ itoa (BranchID m) +:+ ": "))
    (book_body c m).

Definition unbooked_row (r : config_row) : config_row :=
  mkConfig (cf_last_icv r) (cf_previous_invoice_hash r) None None None None.

Definition SQLChain_Release (b : Booking) : DB (result error unit) :=
  let! r := update_config (bk_BranchID b) (fun _ r =>
              if ownedBy r (bk_RequestKey b)
                 && null_eqb (cf_icv_reservation_token r) (bk_EventID b)
              then Some (unbooked_row r) else None) in
  ret (match r with
       | Err e => Err (wrap ("release booking of branch " +:+ itoa (bk_BranchID b) +:+ ": ") e)
       | Ok _ => Ok tt
       end).

(** ** Commit *)

Definition advanced_row (i : SignedInvoice) (r : config_row) : config_row :=
  mkConfig (si_ICV i) (Some (si_Hash i)) None None None None.

Definition pending_row (id : Z) (i : SignedInvoice) : submission_row :=
  mkSubmission id (si_BranchID i) 0 outcomePending (si_ICV i) (si_PIH i) (si_UUID i)
    (si_Hash i) (si_Kind i) (si_SignedXML i) None None None None None None.

(** [INSERT INTO zatca_submission]: the table keeps one row per bill. *)
Definition insert_submission (i : SignedInvoice) : DB (result error unit) :=
  stmt (fun _ d =>
    match submissions d !! si_SourceID i with
    | Some _ => (Err (MySQLError mysqlDuplicateKey "Duplicate entry"), d)
    | None =>
        (Ok tt,
         mkDB (configs d) (bills d)
           (<[si_SourceID i := pending_row (next_submission_id d) i]> (submissions d))
           (next_submission_id d + 1) (outcomes d) (claims d))
    end).

Definition invoiced_bill (i : SignedInvoice) (branchID : Z) (r : bill_row) : option bill_row :=
  if bl_branch_id r =? branchID
  then Some (mkBill (bl_branch_id r) (bl_state r) (Some (si_UUID i)) (Some (si_Hash i))
               (Some (si_QR i)))
  else None.

Definition update_bill (id : Z) (f : bill_row -> option bill_row) : DB (result error Z) :=
  update_row bills set_bills id (fun _ => f).

(** A column that is set to something else than [s]. *)
Definition carries_other (o : option string) (s : string) : bool :=
  match o with Some t => negb (blank t) && negb (String.eqb t s) | None => false end.

Definition bill_refusal (bill : bill_row) (b : Booking) (i : SignedInvoice) : option error := (
  guard! negb (bl_branch_id bill =? bk_BranchID b)
    else conflictf (": bill " +:+ itoa (si_SourceID i) +:+ " belongs to branch "
                    +:+ itoa (bl_branch_id bill) +:+ ", not " +:+ itoa (bk_BranchID b)) ;;
  guard! carries_other (bl_invoice_uuid bill) (si_UUID i)
    else conflictf (": bill " +:+ itoa (si_SourceID i) +:+ " already carries invoice UUID "
                    +:+ null_str (bl_invoice_uuid bill)) ;;
  guard! carries_other (bl_invoice_hash bill) (si_Hash i)
    else conflictf (": bill " +:+ itoa (si_SourceID i)
                    +:+ " already carries another invoice hash") ;;
  None)%go.

(** [if _, err := tx.Exec(...); err != nil { return wrap(err) }] and on. *)
Definition exec_then {A B} (pre : string) (m : DB (result error A)) (k : DB (result error B))
    : DB (result error B) :=
  let! r := m in
  match r with Err e => ret (Err (wrap pre e)) | Ok _ => k end.

Definition commit_writes (b : Booking) (i : SignedInvoice) : DB (result error unit) :=
  let bill := itoa (si_SourceID i) in
  exec_then ("store invoice of bill " +:+ bill +:+ ": ") (insert_submission i)
  (exec_then ("record invoice fields of bill " +:+ bill +:+ ": ")
     (update_bill (si_SourceID i) (invoiced_bill i (bk_BranchID b)))
  (exec_then ("advance chain of branch " +:+ itoa (bk_BranchID b) +:+ ": ")
     (update_config (bk_BranchID b) (fun _ r => Some (advanced_row i r)))
  (ret (Ok tt)))).

Definition commit_body (b : Booking) (i : SignedInvoice) : DB (result error unit) :=
  let! found := loadChainRow (bk_BranchID b) in
  match found with
  | Err e => ret (Err (wrap ("lock branch " +:+ itoa (bk_BranchID b) +:+ " chain: ") e))
  | Ok row =>
      if negb (holds row b)
      then ret (Err (conflictf (": branch " +:+ itoa (bk_BranchID b))))
      else
        let! bill := select (fun d => bills d !! si_SourceID i) in
        match bill with
        | Err e =>
            ret (Err (if errors_is ErrNoRows e
                      then conflictf (": bill " +:+ itoa (si_SourceID i) +:+ " does not exist")
                      else wrap ("lock bill " +:+ itoa (si_SourceID i) +:+ ": ") e))
        | Ok bill =>
            match bill_refusal bill b i with
            | Some e => ret (Err e)
            | None => commit_writes b i
            end
        end
  end.

Definition matches_booking (b : Booking) (i : SignedInvoice) : bool :=
  (si_BranchID i =? bk_BranchID b) && (si_ICV i =? bk_ICV b)
  && String.eqb (si_UUID i) (bk_UUID b) && String.eqb (si_PIH i) (bk_PIH b).

Definition SQLChain_Commit (b : Booking) (i : SignedInvoice) : DB (result error unit) :=
  if negb (matches_booking b i)
  then ret (Err (conflictf ": the invoice does not match its booking"))
  else
    match SignedInvoice_Validate i with
    | Some e => ret (Err (conflictf (": " +:+ error_text e)))
    | None =>
        in_tx (wrap "begin invoice commit: ")
          (fun _ => wrap ("commit invoice of bill " +:+ itoa (si_SourceID i) +:+ ": "))
          (commit_body b i)
    end.

(** ** Stored and Record *)

(** The invoice of a submission row joined with its bill. *)
Definition invoice_of (bill_id : Z) (s : submission_row) (qr : option string) : SignedInvoice :=
  let base := fun outcome ev evid pc msg =>
    mkSigned bill_id (sb_branch_id s) (sb_invoice_uuid s) (sb_invoice_icv s)
      (sb_previous_invoice_hash s) (sb_invoice_hash s) (sb_invoice_kind s) (sb_signed_xml s)
      (null_str qr) outcome ev evid pc msg in
  if String.eqb (sb_outcome_state s) outcomePending then base "" "" "" "" ""
  else
    let text := match sb_rejection_msg s with
                | Some m => m
                | None => null_str (sb_provider_warning_message s)
                end in
    let '(ev, evid, msg) := parseOutcomeEvidence text in
    base (sb_outcome_state s) ev evid (null_str (sb_provider_code s)) msg.

Definition stored_row (bill_id : Z) (d : db) : option SignedInvoice :=
  match submissions d !! bill_id, bills d !! bill_id with
  | Some s, Some b => Some (invoice_of bill_id s (bl_qr_code b))
  | _, _ => None
  end.

Definition SQLChain_Stored (m : Message) : DB (result error (option SignedInvoice)) :=
  let! r := select (stored_row (ID m)) in
  ret (match r with
       | Ok i => Ok (Some i)
       | Err e => if errors_is ErrNoRows e then Ok None
                  else Err (wrap ("lookup invoice of bill " +:+ itoa (ID m) +:+ ": ") e)
       end).

Definition is_rejection (state : string) : bool :=
  String.eqb state OutcomeRejected || String.eqb state OutcomeTerminalFailure.

Definition rejection_code_of (o : Outcome) : option string :=
  if is_rejection (oc_State o) then nullString (oc_ProviderCode o) 64 else None.
Definition rejection_msg_of (o : Outcome) : option string :=
  if is_rejection (oc_State o) then nullString (outcomeMessage o) 512 else None.
Definition warning_msg_of (o : Outcome) : option string :=
  if is_rejection (oc_State o) then None else nullString (outcomeMessage o) 1024.

Definition answered_row (status now : Z) (o : Outcome) (s : submission_row) : submission_row :=
  mkSubmission (sb_id s) (sb_branch_id s) status (oc_State o) (sb_invoice_icv s)
    (sb_previous_invoice_hash s) (sb_invoice_uuid s) (sb_invoice_hash s) (sb_invoice_kind s)
    (sb_signed_xml s) (nullString (oc_ProviderCode o) 64) (rejection_code_of o)
    (rejection_msg_of o) (warning_msg_of o) (Some now) (Some now).

(** [UPDATE zatca_submission ... WHERE id = ? AND outcome_state = 'pending'];
    the row was found by its bill. *)
Definition update_answer (bill_id : Z) (status : Z) (o : Outcome) : DB (result error Z) :=
  update_row submissions set_submissions bill_id (fun env s =>
    if String.eqb (sb_outcome_state s) outcomePending
    then Some (answered_row status (env_server_now env) o s) else None).

Definition log_row (id : Z) (o : Outcome) (now : Z) : outcome_row :=
  mkOutcomeRow id (oc_State o) (nullString (oc_ProviderCode o) 64)
    (outcomeLogMessage o (warning_msg_of o)) now.

Definition append_outcome (id : Z) (o : Outcome) : DB (result error unit) :=
  stmt (fun env d =>
    (Ok tt, mkDB (configs d) (bills d) (submissions d) (next_submission_id d)
              (outcomes d ++ [log_row id o (env_server_now env)]) (claims d))).

Definition issued_bill (r : bill_row) : bill_row :=
  mkBill (bl_branch_id r) 3 (bl_invoice_uuid r) (bl_invoice_hash r) (bl_qr_code r).

Definition record_body (bill_id status : Z) (o : Outcome) : DB (result error bool) :=
  let bill := itoa bill_id in
  let! found := select (fun d => s ← submissions d !! bill_id; Some (sb_id s)) in
  match found with
  | Err e => ret (Err (wrap ("lock submission of bill " +:+ bill +:+ ": ") e))
  | Ok id =>
      let! r := update_answer bill_id status o in
      match r with
      | Err e => ret (Err (wrap ("record outcome of bill " +:+ bill +:+ ": ") e))
      | Ok n =>
          let! rows := query (fun _ => Ok n) in
          match rows with
          | Err e => ret (Err (wrap ("inspect outcome of bill " +:+ bill +:+ ": ") e))
          | Ok n =>
              if n =? 0 then ret (Ok false)
              else
                exec_then ("append outcome of bill " +:+ bill +:+ ": ") (append_outcome id o)
                (if String.eqb (oc_State o) OutcomeAccepted || String.eqb (oc_State o) OutcomeWarning
                 then exec_then ("mark bill " +:+ bill +:+ " issued: ")
                        (update_bill bill_id (fun r => Some (issued_bill r)))
                        (ret (Ok true))
                 else ret (Ok true))
          end
      end
  end.

Definition known_evidence (e : string) : bool :=
  String.eqb e EvidenceUnspecified || String.eqb e EvidenceProvider
  || String.eqb e EvidenceExternal || String.eqb e EvidenceLocal.

(** The checks of [Record] before its transaction, with the status to store. *)
Definition record_check (o : Outcome) : result error Z :=
  match submissionStatus (oc_State o) with
  | Err e => Err e
  | Ok status =>
      if negb (known_evidence (oc_Evidence o))
      then Err (NewError ("unknown outcome evidence " +:+ quote (oc_Evidence o)))
      else if String.eqb (oc_Evidence o) EvidenceExternal
              && (blank (oc_EvidenceID o) || negb (validEvidenceText (oc_EvidenceID o) 256))
      then Err (NewError "external outcome evidence id is required")
      else Ok status
  end.

Definition SQLChain_Record (i : SignedInvoice) (o : Outcome) : DB (result error unit) :=
  match record_check o with
  | Err e => ret (Err e)
  | Ok status =>
      let! r := in_tx (wrap "begin outcome record: ")
        (fun recorded : bool =>
           wrap ((if recorded then "commit outcome of bill "
                  else "commit repeated outcome of bill ") +:+ itoa (si_SourceID i) +:+ ": "))
        (record_body (si_SourceID i) status o) in
      ret (match r with Err e => Err e | Ok _ => Ok tt end)
  end.
