(* ===== verification/ChainSpec.v ===== *)
(** * Effects of the chain operations

    What each operation of [SQLChain] can do to the tables, with or without
    faults: [Book] and [Release] change the reservation of one branch,
    [Commit] changes everything or nothing, [Record] answers one pending
    submission. The later files reason about these effects only. *)

From S2P Require Import Prelude GoStrings Models GoErrors Uuid Message ChainTypes Control.
From S2P Require Import Database Chain.
Local Open Scope Z_scope.

(** ** Book *)

Definition book_lease (c : SQLChain) (env : dbenv) : Z :=
  datetime env (env_now env + ch_leaseDuration c).

Definition book_effect (c : SQLChain) (env : dbenv) (m : Message) (b : Booking) (d d' : db) : Prop :=
  exists row, configs d !! BranchID m = Some row /\ book_refusal row m (env_now env) = None
    /\ b = next_booking row m
    /\ d' = set_configs <[BranchID m := booked_row b (book_lease c env) row]> d.

Lemma loadChainRow_inv b env n d r n' d' :
  loadChainRow b env (n, d) = (r, (n', d')) ->
  d' = d /\ n' = S n /\
  match r with
  | Ok row => configs d !! b = Some row
  | Err e => errors_is ErrNoRows e = true -> configs d !! b = None
  end.
Proof.
  intros H. apply query_inv in H as (-> & -> & H). split; [done|]. split; [done|].
  destruct H as [->|[ft ->]]; [|by rewrite fault_error_sentinel].
  destruct (configs d !! b) as [row|]; [|done].
  destruct (cf_reserved_icv row) as [i|]; [destruct (max_int64 <? i)|]; done.
Qed.

Lemma Book_inv c m env n d r n' d' :
  SQLChain_Book c m env (n, d) = (r, (n', d')) ->
  (d' = d \/ exists b, book_effect c env m b d d')
  /\ match r with Ok b => book_effect c env m b d d' | Err _ => True end.
Proof.
  unfold SQLChain_Book. intros H.
  apply in_tx_cases in H as [[-> [e ->]]|(b & n1 & d1 & Hb & H)]; [auto|].
  assert (Heff : book_effect c env m b d d1).
  { unfold book_body in Hb. db_step Hb. apply loadChainRow_inv in Hs as (-> & -> & Hr).
    destruct r0 as [row|e]; [|by db_step Hb].
    db_step Hb. db_step Hs.
    destruct (book_refusal row m (env_now env)) eqn:Href; [by db_step Hb|].
    db_step Hb. db_step Hs. db_step Hb. db_step Hb.
    destruct r0 as [z|e]; [|done]. simplify_eq.
    exists row. repeat split; [done..|].
    apply stmt_cases in Hs as [_ [Hs|(ft & _ & Hs & _)]]; [|done].
    rewrite Hr in Hs. by simplify_eq. }
  destruct H as [[-> ->]|(ft & _ & -> & [->| ->])]; eauto.
Qed.

(** ** Release *)

Definition unbook_effect (b : Booking) (d d' : db) : Prop :=
  exists row, configs d !! bk_BranchID b = Some row
    /\ ownedBy row (bk_RequestKey b) = true
    /\ null_eqb (cf_icv_reservation_token row) (bk_EventID b) = true
    /\ d' = set_configs <[bk_BranchID b := unbooked_row row]> d.

Lemma Unbook_inv b env n d r n' d' :
  SQLChain_Release b env (n, d) = (r, (n', d')) -> d' = d \/ unbook_effect b d d'.
Proof.
  unfold SQLChain_Release. intros H. db_step H. db_step H.
  apply update_row_inv in Hs as [_ [[-> _]|(x & x' & Hx & Hf & -> & _)]]; [by left|].
  destruct (ownedBy _ _ && _) eqn:E; simplify_eq. apply andb_true_iff in E as [? ?].
  right. exists x. auto.
Qed.

(** ** Commit *)

Definition committed_db (b : Booking) (i : SignedInvoice) (bill : bill_row) (d : db) : db :=
  mkDB (<[bk_BranchID b := mkConfig (si_ICV i) (Some (si_Hash i)) None None None None]> (configs d))
    (<[si_SourceID i := mkBill (bl_branch_id bill) (bl_state bill) (Some (si_UUID i))
                          (Some (si_Hash i)) (Some (si_QR i))]> (bills d))
    (<[si_SourceID i := pending_row (next_submission_id d) i]> (submissions d))
    (next_submission_id d + 1) (outcomes d) (claims d).

(** Everything that has to hold for a commit to go through. *)
Record commit_allowed (b : Booking) (i : SignedInvoice) (row : config_row) (bill : bill_row)
    (d : db) : Prop := {
  ca_match : matches_booking b i = true;
  ca_valid : valid_invoice i;
  ca_row : configs d !! bk_BranchID b = Some row;
  ca_holds : holds row b = true;
  ca_bill : bills d !! si_SourceID i = Some bill;
  ca_refusal : bill_refusal bill b i = None;
  ca_new : submissions d !! si_SourceID i = None
}.

Definition commit_effect (b : Booking) (i : SignedInvoice) (d d' : db) : Prop :=
  exists row bill, commit_allowed b i row bill d /\ d' = committed_db b i bill d.

Lemma exec_then_inv {A B} pre (m : DB (result error A)) (k : DB (result error B)) env n d a n' d' :
  exec_then pre m k env (n, d) = (Ok a, (n', d')) ->
  exists x n1 d1, m env (n, d) = (Ok x, (n1, d1)) /\ k env (n1, d1) = (Ok a, (n', d')).
Proof. unfold exec_then. intros H. db_step H. destruct r as [x|e]; [eauto|by db_step H]. Qed.

Lemma stmt_ok {A} (f : dbenv -> db -> result error A * db) env n d a n' d' :
  stmt f env (n, d) = (Ok a, (n', d')) -> f env d = (Ok a, d').
Proof. intros H. by apply stmt_cases in H as [_ [H|(ft & _ & H & _)]]. Qed.

Lemma bill_refusal_branch bill b i :
  bill_refusal bill b i = None -> bl_branch_id bill = bk_BranchID b.
Proof. unfold bill_refusal. intros H. repeat case_match; try done. by bool_to_prop. Qed.

Lemma commit_writes_inv b i env n d a n' d' row bill :
  configs d !! bk_BranchID b = Some row -> bills d !! si_SourceID i = Some bill ->
  bl_branch_id bill = bk_BranchID b ->
  commit_writes b i env (n, d) = (Ok a, (n', d')) ->
  submissions d !! si_SourceID i = None /\ d' = committed_db b i bill d.
Proof.
  intros Hc Hb Hbr H. unfold commit_writes in H.
  apply exec_then_inv in H as (? & ? & d1 & H1 & H). apply stmt_ok in H1.
  destruct (submissions d !! si_SourceID i) eqn:Hs; [done|].
  apply exec_then_inv in H as (? & ? & d2 & H2 & H). apply stmt_ok in H2.
  apply exec_then_inv in H as (? & ? & d3 & H3 & H). apply stmt_ok in H3.
  split; [done|]. simplify_eq. cbn in H2.
  unfold invoiced_bill in H2. rewrite Hb in H2. rewrite Hbr, Z.eqb_refl in H2. simplify_eq.
  cbn in H3. rewrite Hc in H3. simplify_eq. db_step H.
  unfold committed_db, set_configs, set_bills. cbn. by rewrite Hbr.
Qed.

Lemma Commit_inv b i env n d r n' d' :
  SQLChain_Commit b i env (n, d) = (r, (n', d')) ->
  (d' = d /\ r <> Ok tt) \/ commit_effect b i d d'.
Proof.
  unfold SQLChain_Commit. intros H.
  destruct (matches_booking b i) eqn:Hm; cbn [negb] in H; [|by db_step H; left].
  destruct (SignedInvoice_Validate i) eqn:Hv; [by db_step H; left|].
  apply SignedInvoice_Validate_None in Hv.
  apply in_tx_cases in H as [[-> [e ->]]|([] & n1 & d1 & Hb & H)]; [by left|].
  assert (Heff : commit_effect b i d d1).
  { unfold commit_body in Hb. db_step Hb. apply loadChainRow_inv in Hs as (-> & -> & Hr).
    destruct r0 as [row|e]; [|by db_step Hb].
    destruct (holds row b) eqn:Hh; cbn [negb] in Hb; [|by db_step Hb].
    db_step Hb. apply select_inv in Hs as (-> & -> & Hbill).
    destruct r0 as [bill|e]; [|by db_step Hb].
    destruct (bill_refusal bill b i) eqn:Href; [by db_step Hb|].
    pose proof (bill_refusal_branch _ _ _ Href) as Hbr.
    destruct (commit_writes_inv _ _ _ _ _ _ _ _ _ _ Hr Hbill Hbr Hb) as [Hnew ->].
    exists row, bill. split; [by split|done]. }
  destruct H as [[-> ->]|(ft & _ & -> & [->| ->])]; auto.
Qed.

(** ** Stored *)

Lemma Stored_inv m env n d r n' d' :
  SQLChain_Stored m env (n, d) = (r, (n', d')) ->
  d' = d /\ match r with Ok o => o = stored_row (ID m) d | Err _ => True end.
Proof.
  unfold SQLChain_Stored. intros H. db_step H. db_step H.
  apply select_inv in Hs as (-> & -> & Hr). split; [done|].
  destruct r0 as [i|e]; [done|].
  destruct (errors_is ErrNoRows e); [|done]. by destruct (proj1 Hr eq_refl) as [-> _].
Qed.

(** ** Record *)

Definition recorded_db (bill_id status now : Z) (o : Outcome) (s : submission_row) (d : db) : db :=
  mkDB (configs d)
    (if String.eqb (oc_State o) OutcomeAccepted || String.eqb (oc_State o) OutcomeWarning
     then match bills d !! bill_id with
          | Some r => <[bill_id := issued_bill r]> (bills d)
          | None => bills d
          end
     else bills d)
    (<[bill_id := answered_row status now o s]> (submissions d))
    (next_submission_id d) (outcomes d ++ [log_row (sb_id s) o now]) (claims d).

Definition record_effect (env : dbenv) (bill_id : Z) (o : Outcome) (d d' : db) : Prop :=
  exists s status, submissions d !! bill_id = Some s /\ sb_outcome_state s = outcomePending
    /\ record_check o = Ok status
    /\ d' = recorded_db bill_id status (env_server_now env) o s d.

(** The submission of the bill has an answer. *)
Definition answered (bill_id : Z) (d : db) : Prop :=
  exists s, submissions d !! bill_id = Some s /\ sb_outcome_state s <> outcomePending.

Lemma record_check_status o st : record_check o = Ok st -> submissionStatus (oc_State o) = Ok st.
Proof. unfold record_check. intros H. repeat case_match; by simplify_eq. Qed.

Lemma answered_row_ne status now o s :
  sb_outcome_state s = outcomePending -> oc_State o <> outcomePending ->
  answered_row status now o s <> s.
Proof. intros Hs Ho E. apply (f_equal sb_outcome_state) in E. cbn in E. congruence. Qed.

Lemma record_body_inv bill_id status o env n d recorded n' d' :
  record_check o = Ok status ->
  record_body bill_id status o env (n, d) = (Ok recorded, (n', d')) ->
  (d' = d /\ answered bill_id d) \/ (record_effect env bill_id o d d').
Proof.
  intros Hck H. unfold record_body in H. db_step H.
  apply select_inv in Hs as (-> & -> & Hr).
  destruct r as [id|e]; [|by db_step H].
  destruct (submissions d !! bill_id) as [s|] eqn:Hsub; simplify_eq/=.
  db_step H. destruct r as [z|e]; [|by db_step H].
  apply stmt_ok in Hs. rewrite Hsub in Hs.
  db_step H. apply query_inv in Hs0 as (-> & _ & Hz).
  destruct r as [z'|e]; [|by db_step H].
  assert (z' = z) as -> by (destruct Hz as [Hz|[? Hz]]; congruence). clear Hz.
  pose proof (submissionStatus_not_pending _ _ (record_check_status _ _ Hck)) as Hnp.
  destruct (String.eqb_spec (sb_outcome_state s) outcomePending) as [Hp|Hp].
  - rewrite decide_False in Hs; [|by apply answered_row_ne]. simplify_eq. cbn [Z.eqb] in H.
    right. exists s, status. repeat split; [done..|].
    apply exec_then_inv in H as (? & ? & d1 & H1 & H). apply stmt_ok in H1. simplify_eq.
    unfold recorded_db. destruct (String.eqb _ _ || _) eqn:Hst; [|by db_step H].
    apply exec_then_inv in H as (? & ? & d2 & H2 & H). db_step H. apply stmt_ok in H2.
    cbn in H2. destruct (bills d !! bill_id) eqn:Hbill; by simplify_eq.
  - simplify_eq. cbn in H. db_step H. left. split; [done|]. by exists s.
Qed.

Lemma record_effect_answered env bill_id o d d' :
  record_effect env bill_id o d d' -> answered bill_id d'.
Proof.
  intros (s & st & Hs & _ & Hck & ->). eexists. cbn. rewrite lookup_insert_eq.
  split; [done|]. cbn. by eapply submissionStatus_not_pending, record_check_status.
Qed.

Lemma Record_inv i o env n d r n' d' :
  SQLChain_Record i o env (n, d) = (r, (n', d')) ->
  (d' = d \/ record_effect env (si_SourceID i) o d d')
  /\ (r = Ok tt -> answered (si_SourceID i) d').
Proof.
  unfold SQLChain_Record. intros H.
  destruct (record_check o) as [status|e] eqn:Hck; [|db_step H; split; [by left|done]].
  db_step H. db_step H.
  apply in_tx_cases in Hs as [[-> [e ->]]|(rec & n1 & d1 & Hb & Hs)];
    [split; [by left|done]|].
  pose proof (record_body_inv _ _ _ _ _ _ _ _ _ Hck Hb) as Heff.
  destruct Hs as [[-> ->]|(ft & _ & -> & [->| ->])].
  - destruct Heff as [[-> ?]|Heff]; [auto|]. split; [auto|]. intros _.
    by eapply record_effect_answered.
  - split; [by left|done].
  - split; [|done]. destruct Heff as [[-> ?]|?]; auto.
Qed.
