(* ===== verification/TenantSteps.v ===== *)
(** * Steps of a tenant database

    A tenant database changes by the operations of the claim store and of the
    chain, each with any surroundings and faults, and by the backend, which
    adds branches and bills. [tenant_step] is one such change and [reachable]
    any finite number of them, in any order, by any deliveries. *)

From S2P Require Import Prelude GoStrings Models GoErrors Uuid Message ChainTypes Control.
From S2P Require Import Database Claims ClaimsSpec Chain ChainSpec.
Local Open Scope Z_scope.

(** A branch row and a bill row as the backend creates them. *)
Definition new_branch_row : config_row := mkConfig 0 None None None None None.
Definition new_bill_row (branch state : Z) (uuid : option string) : bill_row :=
  mkBill branch state uuid None None.

Inductive tenant_step (d : db) : db -> Prop :=
| ts_claim s m env : tenant_step d (run_db (SQLClaimStore_Claim s m) env d).2
| ts_unclaim s m env : tenant_step d (run_db (SQLClaimStore_Release s m) env d).2
| ts_complete s m env : tenant_step d (run_db (SQLClaimStore_Complete s m) env d).2
| ts_stored m env : tenant_step d (run_db (SQLChain_Stored m) env d).2
| ts_book c m env : tenant_step d (run_db (SQLChain_Book c m) env d).2
| ts_unbook b env : tenant_step d (run_db (SQLChain_Release b) env d).2
| ts_commit b i env : tenant_step d (run_db (SQLChain_Commit b i) env d).2
| ts_record i o env : tenant_step d (run_db (SQLChain_Record i o) env d).2
| ts_backend_branch b :
    configs d !! b = None -> tenant_step d (set_configs <[b := new_branch_row]> d)
| ts_backend_bill id branch state uuid :
    bills d !! id = None ->
    tenant_step d (set_bills <[id := new_bill_row branch state uuid]> d).

Definition reachable : db -> db -> Prop := rtc tenant_step.

(** The change a step makes, by kind. *)
Inductive tenant_change (d : db) : db -> Prop :=
| tc_none : tenant_change d d
| tc_claim env s m op d' : claim_effect env s m op d d' -> tenant_change d d'
| tc_book c env m b d' : book_effect c env m b d d' -> tenant_change d d'
| tc_unbook b d' : unbook_effect b d d' -> tenant_change d d'
| tc_commit b i d' : commit_effect b i d d' -> tenant_change d d'
| tc_record env id o d' : record_effect env id o d d' -> tenant_change d d'
| tc_branch b :
    configs d !! b = None -> tenant_change d (set_configs <[b := new_branch_row]> d)
| tc_bill id branch state uuid :
    bills d !! id = None ->
    tenant_change d (set_bills <[id := new_bill_row branch state uuid]> d).

Lemma tenant_step_change d d' : tenant_step d d' -> tenant_change d d'.
Proof.
  destruct 1 as [s m env|s m env|s m env|m env|c m env|b env|b i env|i o env| |].
  1-8: match goal with |- tenant_change _ (run_db ?op ?env ?d).2 =>
         destruct (run_db op env d) as [r d'] eqn:E; cbn; apply run_db_inv in E as [n E] end.
  - apply Claim_inv in E as [E _]. by eapply tc_claim.
  - apply Release_inv in E. by eapply tc_claim.
  - apply Complete_inv in E as [E _]. by eapply tc_claim.
  - apply Stored_inv in E as [-> _]. constructor.
  - apply Book_inv in E as [[->|[b E]] _]; [constructor|by eapply tc_book].
  - apply Unbook_inv in E as [->|E]; [constructor|by eapply tc_unbook].
  - apply Commit_inv in E as [[-> _]|E]; [constructor|by eapply tc_commit].
  - apply Record_inv in E as [[->|E] _]; [constructor|by eapply tc_record].
  - by apply tc_branch.
  - by apply tc_bill.
Qed.

(** Reasoning about reachable states. *)
Lemma reachable_ind_inv (P : db -> Prop) d d' :
  (forall x y, P x -> tenant_change x y -> P y) -> reachable d d' -> P d -> P d'.
Proof.
  intros Hstep H. induction H as [|x y z Hxy _ IH]; [done|]. intros HP.
  apply IH. by eapply Hstep, tenant_step_change.
Qed.

Lemma reachable_preorder (R : db -> db -> Prop) `{!PreOrder R} d d' :
  (forall x y, tenant_change x y -> R x y) -> reachable d d' -> R d d'.
Proof.
  intros Hstep H. induction H as [|x y z Hxy _ IH]; [done|].
  etransitivity; [|done]. by apply Hstep, tenant_step_change.
Qed.

(** ** A concrete run

    Branch 7 and bill 42, as the backend creates them; then the bill is booked,
    committed and answered. *)

Definition sample_db : db :=
  set_bills <[42 := new_bill_row 7 1 None]> (set_configs <[7 := new_branch_row]> empty_db).

Definition sample_booking : Booking := next_booking new_branch_row bill_envelope.

Definition sample_invoice : SignedInvoice :=
  mkSigned 42 7 (InvoiceUUID bill_envelope) 1 GenesisPIH "hash-1" InvoiceSimplified
    "<Invoice/>" "qr-1" "" "" "" "" "".

Definition sample_outcome : Outcome :=
  mkOutcome OutcomeAccepted "200" "confirmed" EvidenceExternal "portal-77".

Definition booked_sample : db :=
  (run_db (SQLChain_Book NewSQLChain bill_envelope) (quiet_env 1000) sample_db).2.
Definition committed_sample : db :=
  (run_db (SQLChain_Commit sample_booking sample_invoice) (quiet_env 1001) booked_sample).2.
Definition answered_sample : db :=
  (run_db (SQLChain_Record sample_invoice sample_outcome) (quiet_env 1002) committed_sample).2.

Lemma sample_reachable : reachable empty_db sample_db.
Proof.
  eapply rtc_l; [by apply (ts_backend_branch _ 7)|].
  apply rtc_once. by apply (ts_backend_bill _ 42 7 1 None).
Qed.

Lemma committed_reachable : reachable sample_db committed_sample.
Proof. eapply rtc_l; [apply ts_book|]. apply rtc_once, ts_commit. Qed.

Lemma answered_reachable : reachable committed_sample answered_sample.
Proof. apply rtc_once, ts_record. Qed.

Example sample_run :
  (run_db (SQLChain_Book NewSQLChain bill_envelope) (quiet_env 1000) sample_db).1 = Ok sample_booking
  /\ (run_db (SQLChain_Commit sample_booking sample_invoice) (quiet_env 1001) booked_sample).1 = Ok tt
  /\ (run_db (SQLChain_Record sample_invoice sample_outcome) (quiet_env 1002) committed_sample).1 = Ok tt
  /\ cf_last_icv <$> configs answered_sample !! 7 = Some 1.
Proof. by vm_compute. Qed.
