(* ===== verification/ChainInv.v ===== *)
(** * The chain invariant of a tenant database

    Every branch carries one gapless, hash-linked chain of invoices, each bill
    is in at most one of them, a committed invoice never changes, and the first
    answer to it stands. These hold in every reachable state, under any
    interleaving of deliveries and any faults. *)

From S2P Require Import Prelude GoStrings Models GoErrors Uuid Message ChainTypes Control.
From S2P Require Import Database Claims ClaimsSpec Chain ChainSpec TenantSteps.
Local Open Scope Z_scope.

(** ** Chains *)

Record entry : Type := mkEntry {
  e_bill : Z;
  e_icv : Z;
  e_pih : string;
  e_hash : string
}.

Definition entry_of (bill : Z) (s : submission_row) : entry :=
  mkEntry bill (sb_invoice_icv s) (sb_previous_invoice_hash s) (sb_invoice_hash s).

(** Consecutive numbers from [icv + 1], each linked to the hash before it. *)
Fixpoint linked (icv : Z) (pih : string) (l : list entry) : Prop :=
  match l with
  | [] => True
  | e :: l' => e_icv e = icv + 1 /\ e_pih e = pih /\ linked (icv + 1) (e_hash e) l'
  end.

Fixpoint last_hash (pih : string) (l : list entry) : string :=
  match l with [] => pih | e :: l' => last_hash (e_hash e) l' end.

Lemma linked_snoc icv pih l e :
  linked icv pih l -> e_icv e = icv + Z.of_nat (length l) + 1 -> e_pih e = last_hash pih l ->
  linked icv pih (l ++ [e]).
Proof.
  revert icv pih. induction l as [|x l IH]; intros icv pih Hl Hi Hp; cbn in *.
  - repeat split; [lia|done].
  - destruct Hl as (? & ? & Hl). repeat split; [done..|]. apply IH; [done| |done].
    rewrite Hi. lia.
Qed.

Lemma last_hash_snoc pih l e : last_hash pih (l ++ [e]) = e_hash e.
Proof. revert pih. induction l as [|x l IH]; intros pih; [done|]. apply IH. Qed.

Lemma linked_lookup icv pih l k e :
  linked icv pih l -> l !! k = Some e ->
  e_icv e = icv + Z.of_nat k + 1
  /\ e_pih e = match k with O => pih | S k' => default "" (e_hash <$> l !! k') end.
Proof.
  revert icv pih k. induction l as [|x l IH]; intros icv pih k Hl Hk; [done|].
  destruct Hl as (Hi & Hp & Hl). destruct k as [|k]; cbn in Hk.
  - simplify_eq. split; [lia|done].
  - destruct (IH _ _ _ Hl Hk) as [Hi' Hp']. split; [lia|]. rewrite Hp'.
    destruct k; done.
Qed.

(** [l] lists the committed invoices of branch [b] in order, from [base]. *)
Record branch_chain (base : Z * string) (d : db) (b : Z) (cf : config_row) (l : list entry)
    : Prop := {
  bc_nodup : NoDup (e_bill <$> l);
  bc_sound : forall e, e ∈ l ->
    exists s, submissions d !! e_bill e = Some s /\ sb_branch_id s = b /\ e = entry_of (e_bill e) s;
  bc_complete : forall bill s, submissions d !! bill = Some s -> sb_branch_id s = b ->
    entry_of bill s ∈ l;
  bc_linked : linked base.1 base.2 l;
  bc_icv : cf_last_icv cf = base.1 + Z.of_nat (length l);
  bc_pih : effectivePIH cf = last_hash base.2 l
}.

(** [base] gives the number and hash a branch started from. *)
Record chain_inv (base : Z -> Z * string) (d : db) : Prop := {
  ci_branch : forall b cf, configs d !! b = Some cf ->
    0 <= cf_last_icv cf < 2 ^ 64 /\ exists l, branch_chain (base b) d b cf l;
  ci_known : forall bill s, submissions d !! bill = Some s -> is_Some (configs d !! sb_branch_id s);
  ci_new : forall b, configs d !! b = None -> base b = (0, GenesisPIH)
}.

(** Rows of other branches and columns that the chain does not read do not
    matter. *)
Lemma branch_chain_frame base d d' b cf cf' l :
  branch_chain base d b cf l ->
  (forall bill s', submissions d' !! bill = Some s' -> sb_branch_id s' = b ->
     exists s, submissions d !! bill = Some s /\ sb_branch_id s = b
               /\ entry_of bill s = entry_of bill s') ->
  (forall bill s, submissions d !! bill = Some s -> sb_branch_id s = b ->
     exists s', submissions d' !! bill = Some s' /\ sb_branch_id s' = b
               /\ entry_of bill s = entry_of bill s') ->
  cf_last_icv cf' = cf_last_icv cf -> effectivePIH cf' = effectivePIH cf ->
  branch_chain base d' b cf' l.
Proof.
  intros [? Hs Hc ? Hi Hp] Hback Hforth Ei Ep. split; [done| | |done|congruence..].
  - intros e He. destruct (Hs e He) as (s & Hl & Hb & Ee).
    destruct (Hforth _ _ Hl Hb) as (s' & ? & ? & ?). exists s'. split_and!; [done..|]. by etransitivity.
  - intros bill s' Hl Hb. destruct (Hback _ _ Hl Hb) as (s & Hs' & Hb' & <-). by apply Hc.
Qed.

(** A change that keeps the submissions and the chain columns. *)
Definition same_columns (d d' : db) : Prop :=
  submissions d' = submissions d
  /\ forall b, (fun c => (cf_last_icv c, cf_previous_invoice_hash c)) <$> configs d' !! b
             = (fun c => (cf_last_icv c, cf_previous_invoice_hash c)) <$> configs d !! b.

Lemma same_columns_lookup d d' b cf' :
  same_columns d d' -> configs d' !! b = Some cf' ->
  exists cf, configs d !! b = Some cf /\ cf_last_icv cf' = cf_last_icv cf
             /\ effectivePIH cf' = effectivePIH cf.
Proof.
  intros [_ H] Hb. specialize (H b). rewrite Hb in H.
  destruct (configs d !! b) as [cf|]; [|done]. cbn in H. injection H as Hi Hp. exists cf.
  unfold effectivePIH. by rewrite Hi, Hp.
Qed.

Lemma same_columns_none d d' b : same_columns d d' -> configs d' !! b = None <-> configs d !! b = None.
Proof.
  intros [_ H]. specialize (H b).
  destruct (configs d' !! b), (configs d !! b); done.
Qed.

Lemma same_columns_inv base d d' : same_columns d d' -> chain_inv base d -> chain_inv base d'.
Proof.
  intros Hsame [Hb Hk Hn]. pose proof Hsame as [Hsub _]. split.
  - intros b cf' Hcf. destruct (same_columns_lookup _ _ _ _ Hsame Hcf) as (cf & Hl & Hi & Hp).
    destruct (Hb b cf Hl) as [Hr (l & Hc)]. split; [by rewrite Hi|]. exists l.
    eapply branch_chain_frame; [done| | |done|done]; rewrite Hsub; eauto.
  - intros bill s Hs. rewrite Hsub in Hs. apply Hk in Hs as [cf Hcf].
    destruct (configs d' !! sb_branch_id s) eqn:E; [eauto|].
    apply (same_columns_none _ _ _ Hsame) in E. congruence.
  - intros b E. apply Hn. by apply (same_columns_none _ _ _ Hsame).
Qed.

Lemma same_columns_insert d d' b row row' :
  configs d !! b = Some row -> submissions d' = submissions d ->
  configs d' = <[b := row']> (configs d) -> cf_last_icv row' = cf_last_icv row ->
  cf_previous_invoice_hash row' = cf_previous_invoice_hash row -> same_columns d d'.
Proof.
  intros Hb Hs Hc Hi Hp. split; [done|]. intros k. rewrite Hc.
  destruct (decide (k = b)) as [->|?]; [|by rewrite lookup_insert_ne].
  rewrite lookup_insert_eq, Hb. cbn. congruence.
Qed.

Lemma book_same_columns c env m b d d' : book_effect c env m b d d' -> same_columns d d'.
Proof. intros (row & Hb & _ & -> & ->). by eapply same_columns_insert. Qed.

Lemma unbook_same_columns b d d' : unbook_effect b d d' -> same_columns d d'.
Proof. intros (row & Hb & _ & _ & ->). by eapply same_columns_insert. Qed.

(** ** A commit extends the chain of its branch by one *)

Lemma null_eqb_Some o s : null_eqb o s = true <-> o = Some s.
Proof.
  destruct o as [t|]; cbn; [|done]. rewrite String.eqb_eq. naive_solver.
Qed.

Lemma holds_inv row b :
  holds row b = true ->
  cf_icv_reservation_key row = Some (bk_RequestKey b)
  /\ cf_icv_reservation_token row = Some (bk_EventID b)
  /\ u64 (cf_last_icv row + 1) = bk_ICV b /\ effectivePIH row = bk_PIH b.
Proof.
  unfold holds, ownedBy. intros H. bool_to_prop.
  repeat match goal with H : null_eqb _ _ = true |- _ => apply null_eqb_Some in H end. done.
Qed.

Lemma matches_booking_inv b i :
  matches_booking b i = true ->
  si_BranchID i = bk_BranchID b /\ si_ICV i = bk_ICV b /\ si_UUID i = bk_UUID b
  /\ si_PIH i = bk_PIH b.
Proof. unfold matches_booking. intros H. by bool_to_prop. Qed.

(** The number of a committed invoice is the next one: the counter does not
    wrap, because an invoice with number 0 is not valid. *)
Lemma commit_next_icv b i row bill d :
  commit_allowed b i row bill d -> 0 <= cf_last_icv row < 2 ^ 64 ->
  si_ICV i = cf_last_icv row + 1 /\ si_ICV i < 2 ^ 64 /\ si_PIH i = effectivePIH row
  /\ si_BranchID i = bk_BranchID b.
Proof.
  intros [Hm Hv _ Hh _ _ _] Hr.
  apply matches_booking_inv in Hm as (? & Hi & _ & Hp).
  apply holds_inv in Hh as (_ & _ & Hn & Hph).
  pose proof (vi_icv _ Hv) as H0. unfold u64 in Hn.
  assert (cf_last_icv row + 1 <> 2 ^ 64) as Hne.
  { intros E. rewrite E, Z_mod_same_full in Hn. congruence. }
  rewrite Z.mod_small in Hn by lia. split_and!; congruence || lia.
Qed.

Lemma effectivePIH_hash icv h : blank h = false ->
  effectivePIH (mkConfig icv (Some h) None None None None) = h.
Proof.
  intros H. unfold effectivePIH. cbn.
  destruct (String.eqb_spec h ""); [|done]. by apply blank_nonempty in H.
Qed.

Lemma commit_extends base d b i row bill l :
  commit_allowed b i row bill d -> 0 <= cf_last_icv row < 2 ^ 64 ->
  branch_chain base d (bk_BranchID b) row l ->
  branch_chain base (committed_db b i bill d) (bk_BranchID b)
    (mkConfig (si_ICV i) (Some (si_Hash i)) None None None None)
    (l ++ [entry_of (si_SourceID i) (pending_row (next_submission_id d) i)]).
Proof.
  intros Hal Hr [Hnd Hs Hc Hl Hi Hp].
  destruct (commit_next_icv _ _ _ _ _ Hal Hr) as (Hicv & _ & Hpih & Hbr).
  destruct Hal as [_ Hv _ _ _ _ Hnew].
  assert (Hfresh : forall e, e ∈ l -> e_bill e <> si_SourceID i).
  { intros e He E. destruct (Hs e He) as (s & Hsub & _). rewrite E in Hsub. congruence. }
  split.
  - rewrite fmap_app. cbn. apply NoDup_app. split; [done|]. split; [|by apply NoDup_singleton].
    intros x Hx. rewrite list_elem_of_singleton. apply list_elem_of_fmap in Hx as (e & -> & He).
    by apply Hfresh.
  - intros e He. apply elem_of_app in He as [He|He%list_elem_of_singleton].
    + destruct (Hs e He) as (s & ? & ? & ?). exists s. cbn.
      rewrite lookup_insert_ne by (apply not_eq_sym; by apply Hfresh). auto.
    + subst. eexists. cbn. rewrite lookup_insert_eq. done.
  - intros bi s Hsub Hb. apply elem_of_app. cbn in Hsub.
    destruct (decide (bi = si_SourceID i)) as [->|?].
    + rewrite lookup_insert_eq in Hsub. simplify_eq. right. by apply list_elem_of_singleton.
    + rewrite lookup_insert_ne in Hsub by done. left. by apply Hc.
  - apply linked_snoc; [done|cbn; lia|]. cbn. congruence.
  - cbn. rewrite length_app. cbn. lia.
  - rewrite last_hash_snoc. rewrite effectivePIH_hash by apply Hv. done.
Qed.

Lemma commit_inv base b i d d' : commit_effect b i d d' -> chain_inv base d -> chain_inv base d'.
Proof.
  intros (row & bill & Hal & ->) [Hb Hk Hn].
  destruct (Hb _ _ (ca_row _ _ _ _ _ Hal)) as [Hr (l & Hl)].
  destruct (commit_next_icv _ _ _ _ _ Hal Hr) as (Hicv & Hmax & _ & Hbr).
  assert (Hsi : si_BranchID i = bk_BranchID b) by done.
  split.
  - intros k cf Hcf. cbn in Hcf. destruct (decide (k = bk_BranchID b)) as [->|Hne].
    + rewrite lookup_insert_eq in Hcf. simplify_eq. split; [cbn; lia|].
      eexists. by eapply commit_extends.
    + rewrite lookup_insert_ne in Hcf by done. destruct (Hb _ _ Hcf) as [? (l' & Hl')].
      split; [done|]. exists l'. eapply branch_chain_frame; [done| | |done..].
      * intros bi s' Hs' Hb'. cbn in Hs'. destruct (decide (bi = si_SourceID i)) as [->|?].
        -- rewrite lookup_insert_eq in Hs'. by simplify_eq.
        -- rewrite lookup_insert_ne in Hs' by done. eauto.
      * intros bi s Hs Hb'. exists s. cbn.
        rewrite lookup_insert_ne; [done|]. intros E. pose proof (ca_new _ _ _ _ _ Hal). congruence.
  - intros bi s Hs. cbn in *. destruct (decide (sb_branch_id s = bk_BranchID b)) as [->|?];
      [rewrite lookup_insert_eq; eauto|]. rewrite lookup_insert_ne by done.
    destruct (decide (bi = si_SourceID i)) as [->|?];
      [rewrite lookup_insert_eq in Hs; simplify_eq; cbn in *; congruence|].
    rewrite lookup_insert_ne in Hs by done. by eapply Hk.
  - intros k Hkn. cbn in Hkn. apply lookup_insert_None in Hkn as [Hkn _]. by apply Hn.
Qed.

(** ** The other changes *)

Lemma record_inv base env id o d d' : record_effect env id o d d' -> chain_inv base d -> chain_inv base d'.
Proof.
  intros (s & st & Hs & _ & _ & ->) [Hb Hk Hn].
  set (s1 := answered_row st (env_server_now env) o s).
  assert (Hback : forall bi s', <[id := s1]> (submissions d) !! bi = Some s' ->
            exists s0, submissions d !! bi = Some s0 /\ sb_branch_id s0 = sb_branch_id s'
                       /\ entry_of bi s0 = entry_of bi s').
  { intros bi s' H. destruct (decide (bi = id)) as [->|?].
    - rewrite lookup_insert_eq in H. simplify_eq. eauto.
    - rewrite lookup_insert_ne in H by done. eauto. }
  split; [|intros bi s' H; destruct (Hback _ _ H) as (s0 & H0 & <- & _); by eapply Hk|done].
  intros k cf Hcf. destruct (Hb _ _ Hcf) as [? (l & Hl)]. split; [done|]. exists l.
  eapply branch_chain_frame; [done| | |done..].
  - intros bi s' Hin Hbr. destruct (Hback _ _ Hin) as (s0 & ? & ? & ?). exists s0.
    split_and!; [done|congruence|done].
  - intros bi s0 Hin Hbr. cbn. destruct (decide (bi = id)) as [->|?].
    + rewrite lookup_insert_eq. eexists. split; [done|]. simplify_eq. done.
    + rewrite lookup_insert_ne by done. eauto.
Qed.

Lemma new_branch_inv base d b :
  configs d !! b = None -> chain_inv base d ->
  chain_inv base (set_configs <[b := new_branch_row]> d).
Proof.
  intros Hnone [Hb Hk Hn]. split.
  - intros k cf Hcf. cbn in Hcf. destruct (decide (k = b)) as [->|Hne].
    + rewrite lookup_insert_eq in Hcf. simplify_eq. split; [cbn; lia|]. exists [].
      rewrite (Hn b Hnone). split; try done; [apply NoDup_nil_2|set_solver|].
      intros bi s Hs E. cbn in Hs. destruct (Hk _ _ Hs). congruence.
    + rewrite lookup_insert_ne in Hcf by done. destruct (Hb _ _ Hcf) as [? (l & Hl)].
      split; [done|]. exists l. eapply branch_chain_frame; eauto.
  - intros bi s Hs. cbn in *. apply lookup_insert_is_Some'. right. by eapply Hk.
  - intros k Hkn. cbn in Hkn. apply lookup_insert_None in Hkn as [? _]. by apply Hn.
Qed.

Lemma chain_inv_step base d d' : tenant_change d d' -> chain_inv base d -> chain_inv base d'.
Proof.
  intros H Hinv. destruct H.
  - done.
  - match goal with H : claim_effect _ _ _ _ _ _ |- _ => apply claim_effect_same_chain in H as (Hc & _ & Hs & _) end.
    eapply same_columns_inv; [|done]. split; [done|]. intros k. by rewrite Hc.
  - eapply same_columns_inv; [by eapply book_same_columns|done].
  - eapply same_columns_inv; [by eapply unbook_same_columns|done].
  - by eapply commit_inv.
  - by eapply record_inv.
  - by apply new_branch_inv.
  - by eapply same_columns_inv; [|done].
Qed.

Lemma chain_inv_reachable base d d' : reachable d d' -> chain_inv base d -> chain_inv base d'.
Proof.
  intros H Hi. eapply reachable_ind_inv; [|done..].
  intros x y Hx Hxy. by eapply chain_inv_step.
Qed.

Lemma chain_inv_empty : chain_inv (fun _ => (0, GenesisPIH)) empty_db.
Proof. by split. Qed.

(** ** Reading the invariant *)

Section reading.
Context (base : Z * string) (d : db) (b : Z) (cf : config_row) (l : list entry).
Hypothesis Hl : branch_chain base d b cf l.

Lemma chain_entry k e : l !! k = Some e ->
  exists s, submissions d !! e_bill e = Some s /\ sb_branch_id s = b
    /\ sb_invoice_icv s = base.1 + Z.of_nat k + 1
    /\ sb_previous_invoice_hash s
       = match k with O => base.2 | S k' => default "" (e_hash <$> l !! k') end.
Proof.
  intros He. destruct (bc_sound _ _ _ _ _ Hl e) as (s & Hs & Hb & Ee);
    [by eapply list_elem_of_lookup_2|].
  destruct (linked_lookup _ _ _ _ _ (bc_linked _ _ _ _ _ Hl) He) as [Hi Hp].
  exists s. split_and!; [done..| |]; rewrite Ee in Hi, Hp; done.
Qed.

Lemma chain_position bill s : submissions d !! bill = Some s -> sb_branch_id s = b ->
  exists k, l !! k = Some (entry_of bill s) /\ sb_invoice_icv s = base.1 + Z.of_nat k + 1
    /\ sb_previous_invoice_hash s
       = match k with O => base.2 | S k' => default "" (e_hash <$> l !! k') end.
Proof.
  intros Hs Hb. pose proof (bc_complete _ _ _ _ _ Hl _ _ Hs Hb) as He.
  apply list_elem_of_lookup_1 in He as [k Hk]. exists k.
  destruct (linked_lookup _ _ _ _ _ (bc_linked _ _ _ _ _ Hl) Hk). done.
Qed.

Lemma last_hash_nth pih k : last_hash pih l = default "" (e_hash <$> l !! k) \/ S k <> length l.
Proof.
  destruct (decide (S k = length l)) as [Hk|]; [left|by right]. clear Hl.
  revert pih k Hk. induction l as [|x l' IH]; intros pih k Hk; [done|]. cbn.
  destruct k as [|k]; cbn; [by destruct l'|]. apply IH. cbn in Hk. lia.
Qed.
End reading.

(** C2: In every state reachable by any interleaving of deliveries, with any
    faults, the invoices of a branch carry the numbers from its base to
    [last_icv], each number once, no number left out; each invoice is linked to
    the hash of the one before it, the first to the base (for a new branch:
    number 1 and the genesis hash); and the chain row points at the last one. *)
Theorem branch_chain_reachable base d0 d b cf :
  chain_inv base d0 -> reachable d0 d -> configs d !! b = Some cf ->
  (forall bill s, submissions d !! bill = Some s -> sb_branch_id s = b ->
     (base b).1 < sb_invoice_icv s <= cf_last_icv cf
     /\ (sb_invoice_icv s = (base b).1 + 1 -> sb_previous_invoice_hash s = (base b).2)
     /\ (sb_invoice_icv s = cf_last_icv cf -> effectivePIH cf = sb_invoice_hash s))
  /\ (forall k, (base b).1 < k <= cf_last_icv cf ->
        exists bill s, submissions d !! bill = Some s /\ sb_branch_id s = b /\ sb_invoice_icv s = k)
  /\ (forall b1 s1 b2 s2,
        submissions d !! b1 = Some s1 -> sb_branch_id s1 = b ->
        submissions d !! b2 = Some s2 -> sb_branch_id s2 = b ->
        (sb_invoice_icv s1 = sb_invoice_icv s2 -> b1 = b2)
        /\ (sb_invoice_icv s2 = sb_invoice_icv s1 + 1 ->
            sb_previous_invoice_hash s2 = sb_invoice_hash s1))
  /\ (cf_last_icv cf = (base b).1 -> effectivePIH cf = (base b).2).
Proof.
  intros Hinv Hreach Hcf. pose proof (chain_inv_reachable _ _ _ Hreach Hinv) as [Hb _ _].
  destruct (Hb _ _ Hcf) as [_ (l & Hl)]. pose proof (bc_icv _ _ _ _ _ Hl) as Hicv.
  pose proof (bc_pih _ _ _ _ _ Hl) as Hpih. split_and!.
  - intros bill s Hs Hbr. destruct (chain_position _ _ _ _ _ Hl _ _ Hs Hbr) as (k & Hk & Hi & Hp).
    pose proof (lookup_lt_Some _ _ _ Hk). split_and!; [lia|lia| |].
    + intros E. assert (k = 0%nat) as -> by lia. done.
    + intros E. destruct (last_hash_nth l (base b).2 k) as [Hh|]; [|lia].
      by rewrite Hpih, Hh, Hk.
  - intros k Hk. destruct (lookup_lt_is_Some_2 l (Z.to_nat (k - (base b).1 - 1))) as [e He]; [lia|].
    destruct (chain_entry _ _ _ _ _ Hl _ _ He) as (s & ? & ? & ? & _).
    exists (e_bill e), s. split_and!; [done..|lia].
  - intros b1 s1 b2 s2 Hs1 Hb1 Hs2 Hb2.
    destruct (chain_position _ _ _ _ _ Hl _ _ Hs1 Hb1) as (k1 & Hk1 & Hi1 & _).
    destruct (chain_position _ _ _ _ _ Hl _ _ Hs2 Hb2) as (k2 & Hk2 & Hi2 & Hp2). split; intros E.
    + assert (k1 = k2) as -> by lia. rewrite Hk1 in Hk2. by simplify_eq.
    + assert (k2 = S k1) as -> by lia. by rewrite Hp2, Hk1.
  - intros E. assert (length l = 0%nat) as El by lia. by destruct l.
Qed.

(** ** Immutability *)

(** The invoice itself, without the answer to it. *)
Definition invoice_columns (s : submission_row) :=
  (sb_id s, sb_branch_id s, sb_invoice_icv s, sb_previous_invoice_hash s, sb_invoice_uuid s,
   sb_invoice_hash s, sb_invoice_kind s, sb_signed_xml s).

Record db_evolves (d d' : db) : Prop := {
  ev_sub : forall bill s, submissions d !! bill = Some s ->
    exists s', submissions d' !! bill = Some s' /\ invoice_columns s' = invoice_columns s
      /\ (sb_outcome_state s <> outcomePending -> s' = s);
  ev_config : forall b, is_Some (configs d !! b) -> is_Some (configs d' !! b);
  ev_log : outcomes d `prefix_of` outcomes d'
}.

#[export] Instance db_evolves_preorder : PreOrder db_evolves.
Proof.
  split.
  - intros d. split; eauto 6.
  - intros d1 d2 d3 [S1 C1 L1] [S2 C2 L2]. split; [|auto|by etransitivity].
    intros bill s H. destruct (S1 _ _ H) as (s1 & H1 & E1 & A1).
    destruct (S2 _ _ H1) as (s2 & H2 & E2 & A2). exists s2. split_and!; [done|congruence|].
    intros Hp. rewrite (A1 Hp) in A2. by apply A2.
Qed.

Lemma evolves_same d d' :
  submissions d' = submissions d -> (forall b, is_Some (configs d !! b) -> is_Some (configs d' !! b)) ->
  outcomes d' = outcomes d -> db_evolves d d'.
Proof. intros Hs Hc Ho. split; [|done|by rewrite Ho]. rewrite Hs. eauto. Qed.

Lemma insert_is_Some {A} (m : gmap Z A) k x b : is_Some (m !! b) -> is_Some (<[k := x]> m !! b).
Proof. intros H. apply lookup_insert_is_Some'. auto. Qed.

Lemma change_evolves d d' : tenant_change d d' -> db_evolves d d'.
Proof.
  intros H. destruct H as [|env s m op d' Hc|c env m b d' (row & ? & _ & -> & ->)
    |b d' (row & ? & _ & _ & ->)|b i d' (row & bill & Hal & ->)
    |env id o d' (s & st & Hs & Hp & _ & ->)| |].
  - done.
  - apply claim_effect_same_chain in Hc as (Hcf & _ & Hs & _ & Ho).
    apply evolves_same; [done|by rewrite Hcf|done].
  - apply evolves_same; [done| |done]. intros. by apply insert_is_Some.
  - apply evolves_same; [done| |done]. intros. by apply insert_is_Some.
  - split; [|intros; by apply insert_is_Some|done].
    intros bi s Hs. exists s. cbn. rewrite lookup_insert_ne; [done|].
    intros E. pose proof (ca_new _ _ _ _ _ Hal). congruence.
  - split; [|done|by eexists]. intros bi s0 Hs0. cbn.
    destruct (decide (bi = id)) as [->|?]; [|rewrite lookup_insert_ne by done; eauto].
    rewrite lookup_insert_eq. simplify_eq. eexists. split; [done|]. split; [done|]. by intros [].
  - apply evolves_same; [done| |done]. intros. by apply insert_is_Some.
  - by apply evolves_same.
Qed.

(** C4: A committed invoice is never changed or removed: in every state reached
    later, by any deliveries and with any faults, the bill still has the same
    invoice with the same number, hashes, UUID, kind and signed XML, and once an
    answer is recorded the whole row stays as it is. The answer log only grows. *)
Theorem committed_invoice_immutable d d' bill s :
  reachable d d' -> submissions d !! bill = Some s ->
  exists s', submissions d' !! bill = Some s' /\ invoice_columns s' = invoice_columns s
    /\ (sb_outcome_state s <> outcomePending -> s' = s)
    /\ outcomes d `prefix_of` outcomes d'.
Proof.
  intros Hr Hs. destruct (reachable_preorder db_evolves _ _ change_evolves Hr) as [Hsub _ Hlog].
  destruct (Hsub _ _ Hs) as (s' & ? & ? & ?). eauto 6.
Qed.

(** ** The answer log *)

(** Each answer is logged once, when it is recorded; submission ids are not
    reused. *)
Record log_inv (d : db) : Prop := {
  li_ids : forall bill s, submissions d !! bill = Some s -> sb_id s < next_submission_id d;
  li_inj : forall b1 s1 b2 s2, submissions d !! b1 = Some s1 -> submissions d !! b2 = Some s2 ->
    sb_id s1 = sb_id s2 -> b1 = b2;
  li_nodup : NoDup (ol_submission_id <$> outcomes d);
  li_sound : forall o, o ∈ outcomes d -> exists bill s,
    submissions d !! bill = Some s /\ sb_id s = ol_submission_id o
    /\ sb_outcome_state s = ol_outcome_state o /\ sb_outcome_state s <> outcomePending;
  li_complete : forall bill s, submissions d !! bill = Some s ->
    sb_outcome_state s <> outcomePending -> sb_id s ∈ ol_submission_id <$> outcomes d
}.

Lemma log_inv_same d d' :
  submissions d' = submissions d -> outcomes d' = outcomes d ->
  next_submission_id d' = next_submission_id d -> log_inv d -> log_inv d'.
Proof. intros E1 E2 E3 []. by split; rewrite ?E1, ?E2, ?E3. Qed.

Lemma log_inv_commit b i bill row d :
  commit_allowed b i row bill d -> log_inv d -> log_inv (committed_db b i bill d).
Proof.
  intros Hal [Hid Hinj Hnd Hs Hc]. pose proof (ca_new _ _ _ _ _ Hal) as Hnew.
  assert (Hcase : forall bi s, submissions (committed_db b i bill d) !! bi = Some s ->
            (bi = si_SourceID i /\ s = pending_row (next_submission_id d) i)
            \/ (bi <> si_SourceID i /\ submissions d !! bi = Some s)).
  { intros bi s H. cbn in H. destruct (decide (bi = si_SourceID i)) as [->|?].
    - rewrite lookup_insert_eq in H. simplify_eq. auto.
    - rewrite lookup_insert_ne in H by done. auto. }
  split; [| |done| |].
  - intros bi s [[-> ->]|[_ H]]%Hcase; cbn; [lia|]. apply Hid in H. lia.
  - intros b1 s1 b2 s2 [[-> ->]|[_ H1]]%Hcase [[-> ->]|[_ H2]]%Hcase E; cbn in *; [done| | |eauto].
    + apply Hid in H2. lia.
    + apply Hid in H1. lia.
  - intros o Ho. destruct (Hs o Ho) as (bi & s & Hsub & ?). exists bi, s. cbn.
    rewrite lookup_insert_ne by (intros E; congruence). auto.
  - intros bi s [[-> ->]|[_ H]]%Hcase Hp; [done|]. by eapply Hc.
Qed.

Lemma log_inv_record env id o d d' : record_effect env id o d d' -> log_inv d -> log_inv d'.
Proof.
  intros (s & st & Hsub & Hp & Hck & ->) [Hid Hinj Hnd Hs Hc].
  pose proof (submissionStatus_not_pending _ _ (record_check_status _ _ Hck)) as Hnp.
  set (s1 := answered_row st (env_server_now env) o s).
  assert (Hfresh : sb_id s ∉ ol_submission_id <$> outcomes d).
  { intros (r & E & Hr)%list_elem_of_fmap. destruct (Hs r Hr) as (bi & s' & H' & E' & _ & Hn).
    assert (bi = id) as -> by (eapply Hinj; [done..|congruence]). congruence. }
  assert (Hcase : forall bi s', <[id := s1]> (submissions d) !! bi = Some s' ->
            (bi = id /\ s' = s1) \/ (bi <> id /\ submissions d !! bi = Some s')).
  { intros bi s' H. destruct (decide (bi = id)) as [->|?].
    - rewrite lookup_insert_eq in H. simplify_eq. auto.
    - rewrite lookup_insert_ne in H by done. auto. }
  split; cbn.
  - intros bi s' [[-> ->]|[_ H]]%Hcase; [by apply (Hid id s)|by eapply Hid].
  - intros b1 x1 b2 x2 [[-> ->]|[? H1]]%Hcase [[-> ->]|[? H2]]%Hcase E; cbn in *; [done| | |eauto].
    + by apply (Hinj id s b2 x2).
    + by apply (Hinj b1 x1 id s).
  - rewrite fmap_app. cbn. apply NoDup_app. split; [done|]. split; [|by apply NoDup_singleton].
    intros x Hx. rewrite list_elem_of_singleton. by intros ->.
  - intros r [Hr|Hr%list_elem_of_singleton]%elem_of_app.
    + destruct (Hs r Hr) as (bi & s' & H' & E' & Es & Hn). exists bi, s'.
      rewrite lookup_insert_ne by (intros ->; congruence). auto.
    + subst. exists id, s1. rewrite lookup_insert_eq. done.
  - intros bi s' [[-> ->]|[_ H]]%Hcase Hn; rewrite fmap_app; apply elem_of_app.
    + right. by apply list_elem_of_singleton.
    + left. by eapply Hc.
Qed.

Lemma log_inv_change d d' : tenant_change d d' -> log_inv d -> log_inv d'.
Proof.
  intros H Hinv. destruct H as [|env s m op d' Hc|c env m b d' (row & ? & _ & -> & ->)
    |b d' (row & ? & _ & _ & ->)|b i d' (row & bill & Hal & ->)|env id o d' Hr| |].
  - done.
  - apply claim_effect_same_chain in Hc as (_ & _ & Hs & Hn & Ho). by apply (log_inv_same d).
  - by apply (log_inv_same d).
  - by apply (log_inv_same d).
  - by eapply log_inv_commit.
  - by eapply log_inv_record.
  - by apply (log_inv_same d).
  - by apply (log_inv_same d).
Qed.

Lemma log_inv_empty : log_inv empty_db.
Proof. split; cbn; try done; [apply NoDup_nil_2|set_solver]. Qed.

(** C18: In every reachable state the answer log holds exactly one row for each
    answered invoice, with the answer that is stored on it, and none for an
    invoice that is still pending. *)
Theorem answer_log_exact d0 d :
  log_inv d0 -> reachable d0 d ->
  NoDup (ol_submission_id <$> outcomes d)
  /\ (forall o, o ∈ outcomes d -> exists bill s, submissions d !! bill = Some s
        /\ sb_id s = ol_submission_id o /\ sb_outcome_state s = ol_outcome_state o
        /\ sb_outcome_state s <> outcomePending)
  /\ (forall bill s, submissions d !! bill = Some s ->
        (sb_id s ∈ ol_submission_id <$> outcomes d <-> sb_outcome_state s <> outcomePending)).
Proof.
  intros H0 Hr.
  assert (Hinv : log_inv d).
  { eapply reachable_ind_inv; [|done..]. intros x y Hx Hxy. by eapply log_inv_change. }
  destruct Hinv as [_ Hinj Hnd Hs Hc]. split_and!; [done..|].
  intros bill s Hsub. split; [|by eapply Hc].
  intros (r & E & Hrow)%list_elem_of_fmap. destruct (Hs r Hrow) as (bi & s' & H' & E' & _ & Hn).
  assert (bi = bill) as -> by (eapply Hinj; [done..|congruence]). congruence.
Qed.

(** ** Witnesses *)

Lemma branch_chain_reachable_witness :
  exists cf, configs committed_sample !! 7 = Some cf /\ cf_last_icv cf = 1
    /\ exists bill s, submissions committed_sample !! bill = Some s /\ sb_branch_id s = 7
                      /\ sb_invoice_icv s = 1.
Proof.
  eexists. split; [vm_compute; reflexivity|]. split; [reflexivity|].
  eapply (branch_chain_reachable (fun _ => (0, GenesisPIH)) empty_db committed_sample 7);
    [exact chain_inv_empty | | vm_compute; reflexivity | vm_compute; split; congruence].
  etransitivity; [exact sample_reachable | exact committed_reachable].
Defined.

Lemma committed_invoice_immutable_witness :
  exists s', submissions answered_sample !! 42 = Some s' /\ sb_signed_xml s' = "<Invoice/>".
Proof.
  assert (E : exists s, submissions committed_sample !! 42 = Some s /\ sb_signed_xml s = "<Invoice/>")
    by (eexists; split; vm_compute; reflexivity).
  destruct E as (s & Hs & Hx).
  destruct (committed_invoice_immutable committed_sample answered_sample 42 s answered_reachable Hs)
    as (s' & Hs' & Hc & _).
  exists s'. split; [exact Hs'|]. unfold invoice_columns in Hc. congruence.
Defined.

Lemma answer_log_exact_witness :
  exists bill s, submissions answered_sample !! bill = Some s
    /\ sb_outcome_state s <> outcomePending.
Proof.
  assert (Hr : reachable empty_db answered_sample).
  { etransitivity; [exact sample_reachable|].
    etransitivity; [exact committed_reachable | exact answered_reachable]. }
  destruct (answer_log_exact empty_db answered_sample log_inv_empty Hr) as (_ & Hs & _).
  destruct (Hs (log_row 1 sample_outcome 1002)) as (bill & s & H1 & _ & _ & H2).
  - vm_compute. left.
  - exists bill, s. split; [exact H1 | exact H2].
Defined.
