(* ===== verification/ChainThm.v ===== *)
(** * What the chain operations promise

    [Book] answers by its branches, a live booking is protected from every
    other delivery, [Commit] is all or nothing and succeeds when its conditions
    hold, and [Stored] reads back exactly what [Commit] and [Record] wrote. *)

From S2P Require Import Prelude GoStrings Models GoErrors Uuid Message ChainTypes Control.
From S2P Require Import Database Claims ClaimsSpec Chain ChainSpec TenantSteps ChainInv.
Local Open Scope Z_scope.

(** ** Book, branch by branch *)

Definition scan_error : error := NewError "sql: Scan error: value out of range".

Definition book_spec (c : SQLChain) (env : dbenv) (m : Message) (d : db) : result error Booking * db :=
  match configs d !! BranchID m with
  | None => (Err (Wrap ("branch " +:+ itoa (BranchID m) +:+ " has no invoice chain: ")
                    (Sentinel ErrRejectedInput) ""), d)
  | Some row =>
      if match cf_reserved_icv row with Some i => max_int64 <? i | None => false end
      then (Err (Wrap ("lock branch " +:+ itoa (BranchID m) +:+ " chain: ") scan_error ""), d)
      else match book_refusal row m (env_now env) with
           | Some e => (Err e, d)
           | None => (Ok (next_booking row m),
                      set_configs <[BranchID m := booked_row (next_booking row m) (book_lease c env) row]> d)
           end
  end.

Lemma Book_quiet c env m d : no_faults env -> run_db (SQLChain_Book c m) env d = book_spec c env m d.
Proof.
  intros Hq. unfold run_db, SQLChain_Book, book_spec. rewrite in_tx_no_faults by done.
  unfold book_body, bind at 1, loadChainRow, query. rewrite stmt_no_faults by done.
  destruct (configs d !! BranchID m) as [row|] eqn:Hrow; [|done].
  destruct (cf_reserved_icv row) as [i|] eqn:Hres; [destruct (max_int64 <? i); [done|]|];
    unfold bind at 1, ask at 1;
    (destruct (book_refusal row m (env_now env)); [done|]);
    unfold bind, ask, update_config, update_row; rewrite stmt_no_faults by done;
    cbn; by rewrite Hrow.
Qed.

(** C16: [Book] decides by its documented branches: no chain row is a rejected
    input, an exhausted counter and a reservation of another number conflict, a
    live reservation of another delivery is busy; otherwise the request gets
    number [last_icv + 1] linked to the last hash, and the row holds exactly
    that booking under a fresh lease while the counter and the hash stay. *)
Theorem Book_branches c env m d row :
  no_faults env -> configs d !! BranchID m = Some row ->
  0 <= cf_last_icv row < 2 ^ 64 ->
  match cf_reserved_icv row with Some i => 0 <= i <= max_int64 | None => True end ->
  let '(r, d') := run_db (SQLChain_Book c m) env d in
  let mine := cf_icv_reservation_key row = Some (RequestKey m)
              /\ cf_icv_reservation_token row = Some (EventID m) in
  let exhausted := cf_last_icv row = max_uint64 in
  let busy := (exists t, cf_reservation_lease_expires_at row = Some t /\ env_now env < t) /\ ~ mine in
  let clash := cf_icv_reservation_key row = Some (RequestKey m)
               /\ exists i, cf_reserved_icv row = Some i /\ i <> cf_last_icv row + 1 in
  (exhausted /\ d' = d /\ exists e, r = Err e /\ errors_is ErrChainConflict e = true)
  \/ (~ exhausted /\ busy /\ d' = d /\ r = Err (Sentinel ErrChainBusy))
  \/ (~ exhausted /\ ~ busy /\ clash /\ d' = d /\ r = Err (Sentinel ErrChainConflict))
  \/ (~ exhausted /\ ~ busy /\ ~ clash /\
      exists b row', r = Ok b /\ bk_ICV b = cf_last_icv row + 1 /\ bk_PIH b = effectivePIH row
        /\ configs d' !! BranchID m = Some row' /\ holds row' b = true
        /\ cf_reservation_lease_expires_at row' = Some (book_lease c env)
        /\ cf_last_icv row' = cf_last_icv row
        /\ cf_previous_invoice_hash row' = cf_previous_invoice_hash row).
Proof.
  intros Hq Hrow Hr Hres. destruct (run_db _ env d) as [r d'] eqn:E.
  rewrite Book_quiet in E by done. unfold book_spec in E. rewrite Hrow in E.
  replace (match cf_reserved_icv row with Some i => max_int64 <? i | None => false end) with false
    in E by (destruct (cf_reserved_icv row); lia).
  unfold book_refusal in E. cbv zeta.
  destruct (Z.eqb_spec (cf_last_icv row) max_uint64) as [Hx|Hx];
    [simplify_eq; left; by eauto 10|].
  assert (Hu : u64 (cf_last_icv row + 1) = cf_last_icv row + 1)
    by (apply u64_small; unfold max_uint64 in *; lia).
  assert (Hmine : negb (ownedBy row (RequestKey m))
            || negb (null_eqb (cf_icv_reservation_token row) (EventID m)) = false
          <-> cf_icv_reservation_key row = Some (RequestKey m)
              /\ cf_icv_reservation_token row = Some (EventID m)).
  { rewrite orb_false_iff, !negb_false_iff. unfold ownedBy. by rewrite !null_eqb_Some. }
  assert (Hlive : leaseLive row (env_now env) = true
          <-> exists t, cf_reservation_lease_expires_at row = Some t /\ env_now env < t).
  { unfold leaseLive. destruct (cf_reservation_lease_expires_at row) as [t|].
    - rewrite Z.ltb_lt. naive_solver.
    - naive_solver. }
  destruct (leaseLive row (env_now env) && _) eqn:Hbusy.
  { right; left. apply andb_true_iff in Hbusy as [H1 H2]. simplify_eq. split; [done|]. split; [|done].
    split; [by apply Hlive|]. intros Hm. apply Hmine in Hm. congruence. }
  assert (Hnb : ~ ((exists t, cf_reservation_lease_expires_at row = Some t /\ env_now env < t)
            /\ ~ (cf_icv_reservation_key row = Some (RequestKey m)
                  /\ cf_icv_reservation_token row = Some (EventID m)))).
  { intros [Hl Hm]. apply Hlive in Hl. rewrite Hl in Hbusy. cbn in Hbusy. apply Hm. by apply Hmine. }
  assert (Hclash : (ownedBy row (RequestKey m)
             && match cf_reserved_icv row with
                | Some i => negb (u64 i =? u64 (cf_last_icv row + 1)) | None => false end = true)
          <-> cf_icv_reservation_key row = Some (RequestKey m)
              /\ exists i, cf_reserved_icv row = Some i /\ i <> cf_last_icv row + 1).
  { rewrite andb_true_iff. unfold ownedBy. rewrite null_eqb_Some, Hu.
    destruct (cf_reserved_icv row) as [i|]; [|naive_solver].
    rewrite (u64_small i) by (unfold max_int64 in Hres; lia).
    rewrite negb_true_iff, Z.eqb_neq. naive_solver. }
  destruct (ownedBy row (RequestKey m) && _) eqn:Hc.
  - simplify_eq. right; right; left. split_and!; try done; by apply Hclash.
  - simplify_eq. right; right; right. split_and!; [done..| |].
    { intros H. apply Hclash in H. congruence. }
    eexists _, _. split; [done|]. cbn -[u64 effectivePIH holds]. rewrite lookup_insert_eq.
    split_and!; try done. unfold holds, ownedBy, reserved_is, effectivePIH. cbn -[u64].
    rewrite Hu, !(proj2 (String.eqb_eq _ _) eq_refl), Hu, !Z.eqb_refl. done.
Qed.

(** ** A live booking is protected *)

(** Another request, or another delivery of the same request. *)
Definition foreign (b : Booking) (key event : string) : Prop :=
  key <> bk_RequestKey b \/ event <> bk_EventID b.

(** What others do while [b] is booked: any step except a release or commit
    under the booking's own key and token, or a booking of its branch made
    after [t] or by its own request and event. *)
Inductive other_step (b : Booking) (t : Z) (d : db) : db -> Prop :=
| os_claim s m env : other_step b t d (run_db (SQLClaimStore_Claim s m) env d).2
| os_unclaim s m env : other_step b t d (run_db (SQLClaimStore_Release s m) env d).2
| os_complete s m env : other_step b t d (run_db (SQLClaimStore_Complete s m) env d).2
| os_book c m env :
    (env_now env < t /\ foreign b (RequestKey m) (EventID m)) \/ BranchID m <> bk_BranchID b ->
    other_step b t d (run_db (SQLChain_Book c m) env d).2
| os_unbook b' env :
    foreign b (bk_RequestKey b') (bk_EventID b') \/ bk_BranchID b' <> bk_BranchID b ->
    other_step b t d (run_db (SQLChain_Release b') env d).2
| os_commit b' i env :
    foreign b (bk_RequestKey b') (bk_EventID b') \/ bk_BranchID b' <> bk_BranchID b ->
    other_step b t d (run_db (SQLChain_Commit b' i) env d).2
| os_record i o env : other_step b t d (run_db (SQLChain_Record i o) env d).2
| os_branch k : configs d !! k = None -> other_step b t d (set_configs <[k := new_branch_row]> d)
| os_bill id branch state uuid :
    bills d !! id = None ->
    other_step b t d (set_bills <[id := new_bill_row branch state uuid]> d).

Definition booked (b : Booking) (row : config_row) : Prop :=
  cf_icv_reservation_key row = Some (bk_RequestKey b)
  /\ cf_icv_reservation_token row = Some (bk_EventID b).

Lemma foreign_not_owned b row key event :
  booked b row -> foreign b key event -> ownedBy row key && null_eqb (cf_icv_reservation_token row) event = false.
Proof.
  intros [Hk He] Hf. apply not_true_iff_false. unfold ownedBy. rewrite andb_true_iff, !null_eqb_Some.
  intros [? ?]. destruct Hf; congruence.
Qed.

Lemma other_step_keeps b t row d d' :
  booked b row -> cf_reservation_lease_expires_at row = Some t ->
  configs d !! bk_BranchID b = Some row -> other_step b t d d' ->
  configs d' !! bk_BranchID b = Some row.
Proof.
  intros Hbk Hl Hrow H.
  destruct H as [s m env|s m env|s m env|c m env Hf|b' env Hf|b' i env Hf|i o env|k Hk|].
  1-7: match goal with |- configs (run_db ?op ?env ?d).2 !! _ = _ =>
         destruct (run_db op env d) as [r d'] eqn:E; cbn; apply run_db_inv in E as [n E] end.
  - apply Claim_inv in E as [E _]. by destruct (claim_effect_same_chain _ _ _ _ _ _ E) as [-> _].
  - apply Release_inv in E. by destruct (claim_effect_same_chain _ _ _ _ _ _ E) as [-> _].
  - apply Complete_inv in E as [E _]. by destruct (claim_effect_same_chain _ _ _ _ _ _ E) as [-> _].
  - apply Book_inv in E as [[->|[b' (row' & Hr & Href & -> & ->)]] _]; [done|]. cbn.
    destruct (decide (BranchID m = bk_BranchID b)) as [Hbr|?]; [|by rewrite lookup_insert_ne].
    exfalso. destruct Hf as [[Ht Hf]|?]; [|done]. rewrite Hbr in Hr. simplify_eq.
    pose proof (foreign_not_owned _ _ _ _ Hbk Hf) as Hno.
    unfold book_refusal, leaseLive in Href. rewrite Hl in Href.
    replace (env_now env <? t) with true in Href by lia.
    rewrite <- negb_andb, Hno in Href. by case_match.
  - apply Unbook_inv in E as [->|(row' & Hr & Ho & Hto & ->)]; [done|]. cbn.
    destruct (decide (bk_BranchID b' = bk_BranchID b)) as [Hbr|?]; [|by rewrite lookup_insert_ne].
    exfalso. destruct Hf as [Hf|?]; [|done]. rewrite Hbr in Hr. simplify_eq.
    pose proof (foreign_not_owned _ _ _ _ Hbk Hf) as Hno. by rewrite Ho, Hto in Hno.
  - apply Commit_inv in E as [[-> _]|(row' & bill & Hal & ->)]; [done|]. cbn.
    destruct (decide (bk_BranchID b' = bk_BranchID b)) as [Hbr|?]; [|by rewrite lookup_insert_ne].
    exfalso. destruct Hf as [Hf|?]; [|done]. pose proof (ca_row _ _ _ _ _ Hal) as Hr.
    rewrite Hbr in Hr. simplify_eq.
    pose proof (foreign_not_owned _ _ _ _ Hbk Hf) as Hno.
    destruct (holds_inv _ _ (ca_holds _ _ _ _ _ Hal)) as (Hk & Htok & _).
    unfold ownedBy in Hno.
    by rewrite (proj2 (null_eqb_Some _ _) Hk), (proj2 (null_eqb_Some _ _) Htok) in Hno.
  - apply Record_inv in E as [[->|(s & st & _ & _ & _ & ->)] _]; done.
  - cbn. rewrite lookup_insert_ne; [done|]. congruence.
  - done.
Qed.

(** C17: A booking is exclusive until its lease ends: whatever other deliveries
    and the backend do meanwhile, with any faults, the branch still holds that
    very booking, so the number and hash it was given stay the next ones; in
    particular every [Book] of another delivery on the branch is refused. *)
Theorem booking_protected c env m b d0 d1 d2 :
  run_db (SQLChain_Book c m) env d0 = (Ok b, d1) ->
  match cf_last_icv <$> configs d0 !! BranchID m with
  | Some n => 0 <= n < 2 ^ 64 | None => True end ->
  rtc (other_step b (book_lease c env)) d1 d2 ->
  exists row, configs d2 !! BranchID m = Some row /\ holds row b = true
    /\ configs d1 !! BranchID m = Some row
    /\ (forall c' m' env' r d3, run_db (SQLChain_Book c' m') env' d2 = (r, d3) ->
          BranchID m' = BranchID m -> env_now env' < book_lease c env ->
          foreign b (RequestKey m') (EventID m') -> is_ok r = false).
Proof.
  intros Hb Hrange Hsteps. apply run_db_inv in Hb as [n Hb]. apply Book_inv in Hb as [_ Hb].
  destruct Hb as (row0 & Hr0 & Href & -> & ->). rewrite Hr0 in Hrange. cbn in Hrange.
  set (b := next_booking row0 m) in *. set (row := booked_row b (book_lease c env) row0) in *.
  assert (Hkeep : configs d2 !! bk_BranchID b = Some row).
  { assert (H1 : configs (set_configs <[BranchID m:=row]> d0) !! bk_BranchID b = Some row)
      by (cbn; by rewrite lookup_insert_eq).
    induction Hsteps as [|x y z Hxy _ IH]; [done|]. apply IH.
    eapply other_step_keeps; [| |exact H1|exact Hxy]; done. }
  exists row. change (bk_BranchID b) with (BranchID m) in Hkeep. split_and!; [done| | |].
  - unfold holds, ownedBy, reserved_is, effectivePIH. cbn -[u64].
    rewrite !(proj2 (String.eqb_eq _ _) eq_refl), u64_small by apply u64_range.
    by rewrite !Z.eqb_refl.
  - cbn. by rewrite lookup_insert_eq.
  - intros c' m' env' r d3 E Hbr Ht Hf. apply run_db_inv in E as [n' E].
    destruct r as [b'|e]; [|done]. apply Book_inv in E as [_ (row' & Hr' & Href' & _)].
    assert (row' = row) as -> by congruence.
    assert (Hno : ownedBy row (RequestKey m') && null_eqb (cf_icv_reservation_token row) (EventID m') = false)
      by (by eapply foreign_not_owned).
    unfold book_refusal, leaseLive in Href'. cbn -[book_lease] in Href'.
    replace (env_now env' <? book_lease c env) with true in Href' by lia.
    unfold ownedBy in Hno. cbn in Hno. unfold ownedBy in Href'. cbn in Href'.
    rewrite <- negb_andb, Hno in Href'. by case_match.
Qed.

(** ** Commit is all or nothing, and succeeds when it may *)

(** C15: Whatever faults strike, [Commit] either leaves every table as it was
    and returns an error, or applies all of its writes together: the pending
    submission, the bill's UUID, hash and QR code, the advanced chain row and
    the dropped booking. It applies them only if the row still holds the
    booking, the bill exists in that branch without another identity, and the
    bill has no invoice yet; a nil error means that they are applied. *)
Theorem Commit_all_or_nothing b i env d :
  let '(r, d') := run_db (SQLChain_Commit b i) env d in
  (d' = d /\ r <> Ok tt)
  \/ exists row bill, commit_allowed b i row bill d /\ d' = committed_db b i bill d.
Proof.
  destruct (run_db _ env d) as [r d'] eqn:E. apply run_db_inv in E as [n E].
  by apply Commit_inv in E.
Qed.

(** C25: Without faults a commit whose conditions hold goes through. *)
Theorem Commit_succeeds b i env d row bill :
  no_faults env -> commit_allowed b i row bill d ->
  match cf_reserved_icv row with Some n => n <= max_int64 | None => True end ->
  run_db (SQLChain_Commit b i) env d = (Ok tt, committed_db b i bill d).
Proof.
  intros Hq [Hm Hv Hrow Hh Hbill Href Hnew] Hres.
  unfold run_db, SQLChain_Commit. rewrite Hm. cbn [negb].
  rewrite (proj2 (SignedInvoice_Validate_None i) Hv), in_tx_no_faults by done.
  unfold commit_body, bind at 1, loadChainRow, query. rewrite stmt_no_faults by done.
  rewrite Hrow.
  replace (match cf_reserved_icv row with
           | Some i0 => if max_int64 <? i0 then Err (NewError "sql: Scan error: value out of range")
                        else Ok row
           | None => Ok row end) with (Ok (E := error) row)
    by (destruct (cf_reserved_icv row) as [n|]; [destruct (Z.ltb_spec max_int64 n); [lia|]|]; done).
  cbv beta iota. rewrite Hh. cbn [negb].
  unfold bind at 1, select, query. rewrite stmt_no_faults, Hbill by done. cbv beta iota.
  rewrite Href. unfold commit_writes, exec_then.
  unfold bind at 1, insert_submission. rewrite stmt_no_faults, Hnew by done. cbv beta iota.
  unfold bind at 1, update_bill, update_row. rewrite stmt_no_faults by done.
  cbn [bills set_bills]. rewrite Hbill. unfold invoiced_bill.
  rewrite (bill_refusal_branch _ _ _ Href), Z.eqb_refl. cbv beta iota.
  unfold bind at 1, update_config, update_row. rewrite stmt_no_faults by done.
  cbn [configs set_bills]. rewrite Hrow. cbv beta iota.
  unfold committed_db. by rewrite (bill_refusal_branch _ _ _ Href).
Qed.

(** ** Reading back *)

Lemma Stored_quiet m env d :
  no_faults env -> run_db (SQLChain_Stored m) env d = (Ok (stored_row (ID m) d), d).
Proof.
  intros Hq. unfold run_db, SQLChain_Stored, bind, select, query.
  rewrite stmt_no_faults by done. destruct (stored_row (ID m) d); done.
Qed.

(** An invoice as it is committed: without an answer. *)
Definition unanswered (i : SignedInvoice) : Prop :=
  si_Outcome i = "" /\ si_OutcomeEvidence i = "" /\ si_EvidenceID i = ""
  /\ si_ProviderCode i = "" /\ si_OutcomeMessage i = "".

(** C19: An invoice whose commit returned without error is read back by [Stored]
    exactly as it was built, whatever faults struck the commit. *)
Theorem commit_stored b i env d d' m env' :
  run_db (SQLChain_Commit b i) env d = (Ok tt, d') -> unanswered i -> no_faults env' ->
  ID m = si_SourceID i ->
  run_db (SQLChain_Stored m) env' d' = (Ok (Some i), d').
Proof.
  intros Hc (Ho & Hev & Hid & Hpc & Hmsg) Hq Hm. apply run_db_inv in Hc as [n Hc].
  apply Commit_inv in Hc as [[_ ?]|(row & bill & Hal & ->)]; [done|].
  rewrite Stored_quiet by done. do 3 f_equal. unfold stored_row. rewrite Hm. cbn.
  rewrite !lookup_insert_eq. destruct i; cbn in *. by subst.
Qed.

(** The text stored with an answer, and what [Stored] makes of it. *)
Definition kept_message (o : Outcome) : string :=
  null_str (nullString (outcomeMessage o) (if is_rejection (oc_State o) then 512 else 1024)).

Lemma kept_message_text status now o s :
  match sb_rejection_msg (answered_row status now o s) with
  | Some m => m
  | None => null_str (sb_provider_warning_message (answered_row status now o s))
  end = kept_message o.
Proof.
  unfold kept_message. cbn. unfold rejection_msg_of, warning_msg_of.
  destruct (is_rejection (oc_State o)); [|done]. by destruct (nullString _ _).
Qed.

Lemma record_stored_effect env bill_id o d d' bl :
  record_effect env bill_id o d d' -> bills d !! bill_id = Some bl ->
  exists i, stored_row bill_id d' = Some i /\ si_Outcome i = oc_State o
    /\ si_ProviderCode i = null_str (nullString (oc_ProviderCode o) 64)
    /\ (si_OutcomeEvidence i, si_EvidenceID i, si_OutcomeMessage i)
       = parseOutcomeEvidence (kept_message o).
Proof.
  intros (s & st & Hs & _ & Hck & ->) Hbl.
  pose proof (submissionStatus_not_pending _ _ (record_check_status _ _ Hck)) as Hnp.
  unfold stored_row. cbn. rewrite lookup_insert_eq.
  assert (exists bl', (if String.eqb (oc_State o) OutcomeAccepted || String.eqb (oc_State o) OutcomeWarning
            then match bills d !! bill_id with
                 | Some r => <[bill_id:=issued_bill r]> (bills d) | None => bills d end
            else bills d) !! bill_id = Some bl') as [bl' ->].
  { destruct (_ || _); rewrite ?Hbl; [rewrite lookup_insert_eq|]; eauto. }
  eexists. split; [done|]. unfold invoice_of. rewrite kept_message_text.
  cbn [sb_outcome_state answered_row]. rewrite (proj2 (String.eqb_neq _ _) Hnp).
  by destruct (parseOutcomeEvidence (kept_message o)) as [[? ?] ?].
Qed.

(** An externally evidenced answer that [Record] stores on a pending invoice
    is read back with its state, its evidence id and its message, provided the
    evidence id has no ['|'] and the stored text fits its column; and a later
    [Record] of any other answer leaves every table as it is. *)
Theorem record_external_stored i o env d d' m env' bl i2 o2 env2 :
  run_db (SQLChain_Record i o) env d = (Ok tt, d') ->
  (exists s, submissions d !! si_SourceID i = Some s /\ sb_outcome_state s = outcomePending) ->
  bills d !! si_SourceID i = Some bl -> ID m = si_SourceID i -> no_faults env' ->
  oc_Evidence o = EvidenceExternal -> bar ∉ bytes (oc_EvidenceID o) ->
  (length (runes (outcomeMessage o)) <= if is_rejection (oc_State o) then 512 else 1024)%nat ->
  si_SourceID i2 = si_SourceID i ->
  (exists inv, run_db (SQLChain_Stored m) env' d' = (Ok (Some inv), d')
     /\ si_Outcome inv = oc_State o /\ si_OutcomeEvidence inv = EvidenceExternal
     /\ si_EvidenceID inv = oc_EvidenceID o /\ si_OutcomeMessage inv = oc_Message o)
  /\ (run_db (SQLChain_Record i2 o2) env2 d').2 = d'.
Proof.
  intros Hr (s & Hs & Hp) Hbl Hm Hq He Hbar Hlen Hi2. apply run_db_inv in Hr as [n Hr].
  apply Record_inv in Hr as [Heff Hans]. specialize (Hans eq_refl).
  destruct Heff as [->|Heff].
  { destruct Hans as (s' & Hs' & Hn). congruence. }
  split.
  - destruct (record_stored_effect _ _ _ _ _ _ Heff Hbl) as (inv & Hst & Ho & _ & Hev).
    exists inv. rewrite Stored_quiet, Hm, Hst by done. split; [done|]. split; [done|].
    assert (Hblank : blank (oc_EvidenceID o) = false).
    { destruct Heff as (? & ? & _ & _ & Hck & _). unfold record_check in Hck. rewrite He in Hck.
      destruct (blank (oc_EvidenceID o)); [|done]. by repeat case_match. }
    assert (Hne : outcomeMessage o <> "").
    { unfold outcomeMessage. by rewrite He. }
    assert (Hk : kept_message o = outcomeMessage o).
    { unfold kept_message, nullString. rewrite (proj2 (String.eqb_neq _ _) Hne). cbn.
      apply truncate_short. by destruct (is_rejection _). }
    rewrite Hk, parse_outcomeMessage in Hev by done. by simplify_eq.
  - destruct (run_db (SQLChain_Record i2 o2) env2 d') as [r d2] eqn:E.
    apply run_db_inv in E as [n2 E]. apply Record_inv in E as [[->|(s2 & ? & H2 & Hp2 & _)] _]; [done|].
    destruct Hans as (s' & Hs' & Hn). rewrite Hi2 in H2. congruence.
Qed.

(** ** Witnesses *)

Lemma Book_branches_witness :
  exists b, (run_db (SQLChain_Book NewSQLChain bill_envelope) (quiet_env 1000) sample_db).1 = Ok b
            /\ bk_ICV b = 1.
Proof.
  pose proof (Book_branches NewSQLChain (quiet_env 1000) bill_envelope sample_db new_branch_row
    (quiet_env_no_faults 1000) eq_refl ltac:(cbn; lia) I) as H.
  destruct (run_db _ _ _) as [r d'].
  destruct H as [[E _]|[(_ & [(t & E & _) _] & _)|[(_ & _ & [E _] & _)|(_ & _ & _ & b & row' & -> & E & _)]]];
    [discriminate E..|].
  exists b. split; [reflexivity | exact E].
Defined.

Lemma booking_protected_witness :
  exists row, configs booked_sample !! 7 = Some row /\ holds row sample_booking = true.
Proof.
  destruct (booking_protected NewSQLChain (quiet_env 1000) bill_envelope sample_booking
    sample_db booked_sample booked_sample) as (row & H1 & H2 & _).
  - vm_compute. reflexivity.
  - vm_compute. split; congruence.
  - apply rtc_refl.
  - exists row. split; [exact H1 | exact H2].
Defined.

Definition sample_bill : bill_row := new_bill_row 7 1 None.
Definition sample_booked_row : config_row :=
  booked_row sample_booking (book_lease NewSQLChain (quiet_env 1000)) new_branch_row.

Lemma sample_commit_allowed :
  commit_allowed sample_booking sample_invoice sample_booked_row sample_bill booked_sample.
Proof.
  split; try (vm_compute; reflexivity).
  apply SignedInvoice_Validate_None. vm_compute. reflexivity.
Qed.

Lemma Commit_succeeds_witness :
  run_db (SQLChain_Commit sample_booking sample_invoice) (quiet_env 1001) booked_sample
  = (Ok tt, committed_db sample_booking sample_invoice sample_bill booked_sample).
Proof.
  apply (Commit_succeeds _ _ _ _ sample_booked_row sample_bill (quiet_env_no_faults 1001)
           sample_commit_allowed).
  vm_compute. congruence.
Defined.

Lemma commit_stored_witness :
  run_db (SQLChain_Stored bill_envelope) (quiet_env 1003) committed_sample
  = (Ok (Some sample_invoice), committed_sample).
Proof.
  apply (commit_stored sample_booking sample_invoice (quiet_env 1001) booked_sample committed_sample
           bill_envelope (quiet_env 1003)).
  - vm_compute. reflexivity.
  - repeat split.
  - apply quiet_env_no_faults.
  - reflexivity.
Defined.

Lemma record_external_stored_witness :
  exists inv, run_db (SQLChain_Stored bill_envelope) (quiet_env 1003) answered_sample
              = (Ok (Some inv), answered_sample)
    /\ si_EvidenceID inv = "portal-77" /\ si_OutcomeMessage inv = "confirmed".
Proof.
  destruct (record_external_stored sample_invoice sample_outcome (quiet_env 1002) committed_sample
    answered_sample bill_envelope (quiet_env 1003)
    (mkBill 7 1 (Some (InvoiceUUID bill_envelope)) (Some "hash-1") (Some "qr-1"))
    sample_invoice sample_outcome (quiet_env 1004)) as [(inv & H1 & _ & _ & H2 & H3) _].
  - vm_compute. reflexivity.
  - eexists. split; vm_compute; reflexivity.
  - vm_compute. reflexivity.
  - reflexivity.
  - apply quiet_env_no_faults.
  - reflexivity.
  - apply (bool_decide_unpack (bar ∉ bytes (oc_EvidenceID sample_outcome))). vm_compute. exact I.
  - apply Nat.leb_le. vm_compute. reflexivity.
  - reflexivity.
  - exists inv. split; [exact H1 | split; [exact H2 | exact H3]].
Defined.
