(* ===== verification/Program.v ===== *)
(** * Programs over the daemon's interfaces

    The ordered stream and the delivery handler work through interfaces: the
    claim store, the chain, the pipeline, the acknowledgement, the partition
    locks. A handler is a [prog], a tree of calls to these interfaces; each call
    is an [event], and its answer selects the rest of the handler. The reasoning
    principle is [wp]: every call is allowed by the calls and answers before it,
    and the result satisfies a postcondition on the whole history. *)

From S2P Require Import Prelude Models GoStrings GoErrors Message ChainTypes Claims.

Section program.
(** [queue.Prepared]: whatever [Pipeline.Prepare] hands to [Build]. *)
Context {Prepared : Type}.

Inductive event : Type :=
| EClaim (m : Message)                      (* ClaimStore.Claim *)
| EComplete (m : Message)                   (* ClaimStore.Complete *)
| EUnclaim (m : Message)                    (* ClaimStore.Release *)
| EStored (m : Message)                     (* Chain.Stored *)
| EBook (m : Message)                       (* Chain.Book *)
| EUnbook (b : Booking)                     (* Chain.Release *)
| ECommit (b : Booking) (i : SignedInvoice) (* Chain.Commit *)
| ERecord (i : SignedInvoice) (o : Outcome) (* Chain.Record *)
| EPrepare (m : Message)                    (* Pipeline.Prepare *)
| EBuild (p : Prepared) (b : Booking)       (* Prepared.Build *)
| ESubmit (i : SignedInvoice)               (* Pipeline.Submit *)
| EAck                                      (* the acknowledgement of the delivery *)
| ETerm                                     (* raw.Term *)
| EAlert (what : string) (err : error)      (* alert *)
| ELock (partition : string)
| EUnlock (partition : string).

Definition answer (e : event) : Type :=
  match e with
  | EClaim _ => result error ClaimDecision
  | EStored _ => result error (option SignedInvoice)
  | EBook _ => result error Booking
  | EPrepare _ => result error Prepared
  | EBuild _ _ => result error SignedInvoice
  | ESubmit _ => Outcome * option error
  | EComplete _ | EUnclaim _ | EUnbook _ | ECommit _ _ | ERecord _ _ | EAck | ETerm =>
      result error unit
  | EAlert _ _ | ELock _ | EUnlock _ => unit
  end.

Inductive prog (A : Type) : Type :=
| Ret (a : A)
| Vis (e : event) (k : answer e -> prog A).
Arguments Ret {A} a.
Arguments Vis {A} e k.

Fixpoint pbind {A B} (p : prog A) (f : A -> prog B) : prog B :=
  match p with
  | Ret a => f a
  | Vis e k => Vis e (fun x => pbind (k x) f)
  end.

(** A call and its answer. *)
Definition call : Type := { e : event & answer e }.
Definition Call (e : event) (a : answer e) : call := existT e a.

(** [p] can run from history [h] to result [a] and history [h']. *)
Inductive runs {A} : prog A -> list call -> A -> list call -> Prop :=
| runs_ret a h : runs (Ret a) h a h
| runs_vis e k x h a h' : runs (k x) (h ++ [Call e x]) a h' -> runs (Vis e k) h a h'.

Lemma runs_inv {A} (p : prog A) h a h' :
  runs p h a h' ->
  match p with
  | Ret b => a = b /\ h' = h
  | Vis e k => exists x, runs (k x) (h ++ [Call e x]) a h'
  end.
Proof. destruct 1; [done|by eexists]. Qed.

(** A run does not depend on the calls before it. *)
Lemma runs_extend {A} l (p : prog A) h a h' : runs p h a h' -> runs p (l ++ h) a (l ++ h').
Proof.
  induction 1 as [a h|e k x h a h' _ IH]; [constructor|].
  apply runs_vis with x. by rewrite <- app_assoc.
Qed.

Lemma runs_shift {A} (p : prog A) h a h' :
  runs p h a h' -> exists t, h' = h ++ t /\ runs p [] a t.
Proof.
  induction 1 as [a h|e k x h a h' Hr (t & -> & IH)];
    [exists []; split; [by rewrite app_nil_r|constructor]|].
  exists (Call e x :: t). split; [by rewrite <- app_assoc|]. apply runs_vis with x.
  exact (runs_extend [Call e x] _ _ _ _ IH).
Qed.

(** A run of a sequence is a run of its first part and one of the rest. *)
Lemma runs_bind {A B} (p : prog A) (f : A -> prog B) h b h' :
  runs (pbind p f) h b h' -> exists a h1 h2, h' = h1 ++ h2 /\ runs p h a h1 /\ runs (f a) [] b h2.
Proof.
  revert h. induction p as [a|e k IH]; cbn; intros h Hr.
  - destruct (runs_shift _ _ _ _ Hr) as (t & -> & Ht). exists a, h, t. split; [done|]. split; [constructor|done].
  - apply runs_inv in Hr as [x Hr]. destruct (IH x _ Hr) as (a & h1 & h2 & -> & H1 & H2).
    exists a, h1, h2. split; [done|]. split; [by apply runs_vis with x|done].
Qed.

Section wp.
Context {A : Type} (allowed : list call -> event -> Prop).

Fixpoint wp (p : prog A) (h : list call) (Q : A -> list call -> Prop) : Prop :=
  match p with
  | Ret a => Q a h
  | Vis e k => allowed h e /\ forall x, wp (k x) (h ++ [Call e x]) Q
  end.

Lemma wp_mono p h (Q Q' : A -> list call -> Prop) :
  (forall a h', Q a h' -> Q' a h') -> wp p h Q -> wp p h Q'.
Proof.
  intros HQ. revert h. induction p as [a|e k IH]; cbn; intros h; [auto|].
  intros [? Hk]. split; [done|]. auto.
Qed.

(** Every call of a run was allowed when it was made, and the result meets
    the postcondition. *)
Lemma wp_runs p h Q a h' :
  wp p h Q -> runs p h a h' ->
  Q a h' /\ forall h1 e x h2, h' = h1 ++ Call e x :: h2 -> (length h <= length h1)%nat ->
            allowed h1 e.
Proof.
  intros Hw Hr. induction Hr as [a h|e k x h a h' Hr IH]; cbn in Hw.
  - split; [done|]. intros h1 e x h2 -> Hl. rewrite length_app in Hl. cbn in Hl. lia.
  - destruct Hw as [Hal Hk]. destruct (IH (Hk x)) as [HQ Hall]. split; [done|].
    intros h1 e' x' h2 E Hl.
    destruct (decide (length h1 = length h)) as [El|Hne]; cycle 1.
    + eapply Hall; [done|]. rewrite length_app. cbn. lia.
    + assert (Hpre : exists t, h' = (h ++ [Call e x]) ++ t).
      { clear -Hr. induction Hr as [|e0 k0 x0 h0 a0 h0' _ [t IH]]; [by exists []; rewrite app_nil_r|].
        exists (Call e0 x0 :: t). by rewrite IH, <- !app_assoc. }
      destruct Hpre as [t Ht]. rewrite E, <- app_assoc in Ht.
      apply app_inj_1 in Ht as [-> Ht]; [|done]. cbn in Ht.
      apply (f_equal head) in Ht. cbn in Ht. by simplify_eq.
Qed.
End wp.

Lemma wp_bind {A B} allowed (p : prog A) (f : A -> prog B) h Q :
  wp allowed p h (fun a h' => wp allowed (f a) h' Q) -> wp allowed (pbind p f) h Q.
Proof.
  revert h. induction p as [a|e k IH]; cbn; intros h; [done|].
  intros [? Hk]. split; [done|]. auto.
Qed.
End program.

Arguments event : clear implicits.
Arguments prog : clear implicits.
Arguments call : clear implicits.
Arguments Ret {Prepared A} a.
Arguments Vis {Prepared A} e k.

Notation "'do!' x ':=' e 'in' k" := (Vis e (fun x => k))
  (at level 10, x name, e at level 99, k at level 200) : go_scope.
Notation "'run!' x ':=' p 'in' k" := (pbind p (fun x => k))
  (at level 10, x name, p at level 99, k at level 200) : go_scope.
