(* ===== verification/Stream.v ===== *)
(** * The ordered stream ([queue/ordered_stream.go])

    [HandleMessage] and [FinalizePermanentFailure] as programs over the claim
    store, the chain and the pipeline, with every early return and every error
    path of the source. *)

From S2P Require Import Prelude Models GoStrings GoErrors Uuid Message ChainTypes Claims.
From S2P Require Import Program.
Local Open Scope Z_scope.
Local Open Scope go_scope.

(** [checkStored]; [Ok] returns the invoice itself. *)
Definition checkStored (i : SignedInvoice) (m : Message) : result error SignedInvoice :=
  match SignedInvoice_Validate i with
  | Some e => Err (Wrap ("stored bill " +:+ itoa (ID m) +:+ " is invalid: ") e "")
  | None =>
      if negb (si_SourceID i =? ID m)
      then Err (NewError ("stored invoice source " +:+ itoa (si_SourceID i)
                          +:+ " does not match bill " +:+ itoa (ID m)))
      else if negb (String.eqb (si_UUID i) (InvoiceUUID m)) || negb (si_BranchID i =? BranchID m)
      then Err (NewError ("bill " +:+ itoa (ID m) +:+ " is stored as invoice " +:+ si_UUID i
                          +:+ " of branch " +:+ itoa (si_BranchID i) +:+ ", not "
                          +:+ InvoiceUUID m +:+ " of branch " +:+ itoa (BranchID m)))
      else Ok i
  end.

Definition checkBuilt (i : SignedInvoice) (m : Message) (b : Booking) : option error :=
  match SignedInvoice_Validate i with
  | Some e => Some (Wrap ("built bill " +:+ itoa (ID m) +:+ " is invalid: ") e "")
  | None => (
      guard! negb (si_SourceID i =? ID m)
        else NewError ("built invoice source " +:+ itoa (si_SourceID i)
                       +:+ " does not match bill " +:+ itoa (ID m)) ;;
      guard! negb (si_BranchID i =? BranchID m)
        else NewError ("built invoice branch " +:+ itoa (si_BranchID i)
                       +:+ " does not match branch " +:+ itoa (BranchID m)) ;;
      guard! negb (String.eqb (si_UUID i) (InvoiceUUID m)) || negb (String.eqb (si_UUID i) (bk_UUID b))
        else NewError ("built invoice UUID " +:+ si_UUID i +:+ " does not match the backend UUID "
                       +:+ InvoiceUUID m) ;;
      guard! negb (si_ICV i =? bk_ICV b)
        else NewError ("built invoice ICV " +:+ itoa (si_ICV i) +:+ " does not match booked ICV "
                       +:+ itoa (bk_ICV b)) ;;
      guard! negb (String.eqb (si_PIH i) (bk_PIH b))
        else NewError "built invoice PIH does not match the booking" ;;
      None)%go
  end.

Section stream.
Context {Prepared : Type}.
Local Abbreviation prog := (prog Prepared).

(** [failed]: a rejected input ends the request, any other failure releases
    the claim. *)
Definition failed (m : Message) (cause : error) : prog error :=
  if negb (errors_is ErrRejectedInput cause) then
    do! r := EUnclaim m in
    Ret (match r with Err e => errors_Join cause e | Ok _ => cause end)
  else
    do! r := EComplete m in
    match r with
    | Err e => Ret (errors_Join cause e)
    | Ok _ =>
        do! a := EAck in
        Ret (match a with Err e => errors_Join cause e | Ok _ => cause end)
    end.

(** [finish] completes the claim and acknowledges; [result] may be nil. *)
Definition finish (m : Message) (res : option error) : prog (option error) :=
  do! r := EComplete m in
  match r with
  | Err e => run! e' := failed m (Wrap "complete ordered stream claim: " e "") in Ret (Some e')
  | Ok _ =>
      do! a := EAck in
      Ret (match a with
           | Err e => Some (errors_Join_opt res (Wrap "ACK failed: " e ""))
           | Ok _ => res
           end)
  end.

(** [release] drops a booking and keeps the cause. *)
Definition release (b : Booking) (cause : error) : prog error :=
  do! r := EUnbook b in
  Ret (match r with Err e => errors_Join cause e | Ok _ => cause end).

Definition released (b : Booking) (cause : error) : prog (result error SignedInvoice) :=
  run! e := release b cause in Ret (Err e).

Definition invoiceFor (m : Message) : prog (result error SignedInvoice) :=
  do! stored := EStored m in
  match stored with
  | Err e => Ret (Err e)
  | Ok (Some i) => Ret (checkStored i m)
  | Ok None =>
      do! prepared := EPrepare m in
      match prepared with
      | Err e => Ret (Err e)
      | Ok p =>
          do! booking := EBook m in
          match booking with
          | Err e => Ret (Err e)
          | Ok b =>
              do! built := EBuild p b in
              match built with
              | Err e => released b e
              | Ok i =>
                  match checkBuilt i m b with
                  | Some e => released b e
                  | None =>
                      do! c := ECommit b i in
                      match c with
                      | Err e => released b e
                      | Ok _ => Ret (Ok i)
                      end
                  end
              end
          end
      end
  end.

Definition rejected_error (m : Message) (o : Outcome) : error :=
  Wrap "" (Sentinel ErrInvoiceRejected)
    (": bill " +:+ itoa (ID m) +:+ ": " +:+ oc_Message o).

(** A technical failure of [Submit]: any error but an ambiguous outcome. *)
Definition submit_failure (err : option error) : option error :=
  match err with
  | Some e => if errors_is ErrOutcomeAmbiguous e then None else Some e
  | None => None
  end.

Definition fail (m : Message) (cause : error) : prog (option error) :=
  run! e := failed m cause in Ret (Some e).

Definition process (m : Message) : prog (option error) :=
  run! found := invoiceFor m in
  match found with
  | Err e => fail m e
  | Ok i =>
      if negb (String.eqb (si_Outcome i) "") then finish m None
      else
        do! answer := ESubmit i in
        let '(o, err) := answer in
        match submit_failure err with
        | Some e => fail m e
        | None =>
            do! rec := ERecord i o in
            match rec with
            | Err e => fail m e
            | Ok _ =>
                finish m (if String.eqb (oc_State o) OutcomeRejected
                          then Some (rejected_error m o) else err)
            end
        end
  end.

(** What [HandleMessage] does under the partition lock. *)
Definition handle_locked (m : Message) : prog (option error) :=
  do! claimed := EClaim m in
  match claimed with
  | Err e => Ret (Some e)
  | Ok ClaimDuplicate =>
      do! a := EAck in Ret (match a with Err e => Some e | Ok _ => None end)
  | Ok ClaimConflict =>
      let conflict := Wrap "" (Sentinel ErrFingerprintConflict)
                        (": bill_request_id " +:+ BillRequestID m) in
      do! a := EAck in
      Ret (Some (match a with
                 | Err e => Wrap "" conflict ("; ACK failed: " +:+ error_text e)
                 | Ok _ => conflict
                 end))
  | Ok ClaimInFlight => Ret (Some (Sentinel ErrClaimInFlight))
  | Ok ClaimProcess => process m
  end.

(** [has_ack] says that the acknowledgement function is not nil. *)
Definition HandleMessage (m : Message) (has_ack : bool) : prog (option error) :=
  match Message_Validate m with
  | Some e => Ret (Some e)
  | None =>
      if negb has_ack then Ret (Some (NewError "ordered stream ACK function is required"))
      else
        do! _u := ELock (PartitionKey m) in
        run! r := handle_locked m in
        do! _v := EUnlock (PartitionKey m) in
        Ret r
  end.

Definition terminal_outcome (cause : error) : Outcome :=
  mkOutcome OutcomeTerminalFailure "DAEMON_RETRY_EXHAUSTED" (error_text cause) EvidenceLocal "".

Definition finalize_end (m : Message) (cause : error) : prog (option error) :=
  do! r := EComplete m in
  match r with
  | Err e => Ret (Some (errors_Join cause e))
  | Ok _ =>
      do! a := EAck in
      Ret (match a with Err e => Some (errors_Join cause e) | Ok _ => None end)
  end.

Definition FinalizePermanentFailure (m : Message) (cause : option error) (has_ack : bool)
    : prog (option error) :=
  match cause with
  | None => Ret (Some (NewError "permanent failure cause is required"))
  | Some cause =>
      if negb has_ack then Ret (Some (NewError "ordered stream ACK function is required"))
      else
        do! stored := EStored m in
        match stored with
        | Err e => Ret (Some (errors_Join cause e))
        | Ok (Some i) =>
            if String.eqb (si_Outcome i) "" then
              do! rec := ERecord i (terminal_outcome cause) in
              match rec with
              | Err e => Ret (Some (errors_Join cause e))
              | Ok _ => finalize_end m cause
              end
            else finalize_end m cause
        | Ok None => finalize_end m cause
        end
  end.
End stream.

(** ** Partition locks *)

(** The map [partition] of [OrderedStream], from a key to the identity of its
    mutex, and the next fresh identity. *)
Record lock_table : Type := mkLocks { lt_next : nat; lt_partition : gmap string nat }.

Definition lockFor (partition : string) (t : lock_table) : nat * lock_table :=
  match lt_partition t !! partition with
  | Some lock => (lock, t)
  | None => (lt_next t, mkLocks (S (lt_next t)) (<[partition := lt_next t]> (lt_partition t)))
  end.

(** [NewOrderedStream] starts with an empty map. *)
Definition new_locks : lock_table := mkLocks 0 ∅.
