(* ===== verification/StreamSpec.v ===== *)
(** * The contract of the ordered stream

    [allowed] says, for one delivery, which call may be made after which
    history of calls and answers, and [settled] what has to hold when the
    handler returns. [HandleMessage] meets the contract for every behaviour of
    the claim store, the chain, the pipeline and the acknowledgement. *)

From S2P Require Import Prelude Models GoStrings GoErrors Uuid Message ChainTypes Claims.
From S2P Require Import Program Stream.
Local Open Scope Z_scope.

Section contract.
Context {Prepared : Type}.
Local Abbreviation event := (event Prepared).
Local Abbreviation call := (call Prepared).

(** The call [e] was made and answered [x]. *)
Definition did (h : list call) (e : event) (x : answer e) : Prop := Call e x ∈ h.

(** The error a call was answered with. *)
Definition call_error (c : call) : option error :=
  match projT1 c as e return answer e -> option error with
  | EClaim _ => fun x => match x with Err e => Some e | Ok _ => None end
  | EStored _ => fun x => match x with Err e => Some e | Ok _ => None end
  | EBook _ => fun x => match x with Err e => Some e | Ok _ => None end
  | EPrepare _ => fun x => match x with Err e => Some e | Ok _ => None end
  | EBuild _ _ => fun x => match x with Err e => Some e | Ok _ => None end
  | ESubmit _ => fun x => x.2
  | EComplete _ | EUnclaim _ | EUnbook _ | ECommit _ _ | ERecord _ _ | EAck | ETerm =>
      fun x => match x with Err e => Some e | Ok _ => None end
  | EAlert _ _ | ELock _ | EUnlock _ => fun _ => None
  end (projT2 c).

(** Some call failed with an error that marks a rejected input. *)
Definition input_rejected (h : list call) : Prop :=
  exists c e, c ∈ h /\ call_error c = Some e /\ errors_is ErrRejectedInput e = true.

Definition is_submit (c : call) : bool :=
  match projT1 c with ESubmit _ => true | _ => false end.
Definition submits (h : list call) : nat := length (filter is_submit h).
Arguments submits : simpl never.

(** The call committed the invoice of a booking. *)
Definition commit_done (c : call) : bool :=
  match projT1 c as e return answer e -> bool with
  | ECommit _ _ => fun x => is_ok x
  | _ => fun _ => false
  end (projT2 c).

Definition is_unlock (c : call) : bool :=
  match projT1 c with EUnlock _ => true | _ => false end.

(** The booking, or the claim decision, that a call was answered with. *)
Definition booked_of (c : call) : option Booking :=
  match projT1 c as e return answer e -> option Booking with
  | EBook _ => fun x => match x with Ok b => Some b | Err _ => None end
  | _ => fun _ => None
  end (projT2 c).

Definition decided_of (c : call) : option ClaimDecision :=
  match projT1 c as e return answer e -> option ClaimDecision with
  | EClaim _ => fun x => match x with Ok dec => Some dec | Err _ => None end
  | _ => fun _ => None
  end (projT2 c).

(** An answer to the invoice of this delivery is recorded. *)
Definition answer_known (m : Message) (h : list call) : Prop :=
  (exists i o, did h (ERecord i o) (Ok tt))
  \/ (exists i, did h (EStored m) (Ok (Some i)) /\ si_Outcome i <> "")
  \/ (exists b i, did h (ECommit b i) (Ok tt) /\ si_Outcome i <> "").

Definition locked (m : Message) (h : list call) : Prop :=
  did h (ELock (PartitionKey m)) tt.

Definition allowed (m : Message) (h : list call) (e : event) : Prop :=
  match e with
  | ELock k => k = PartitionKey m /\ h = [] /\ valid_message m
  | EUnlock k => k = PartitionKey m /\ locked m h /\ existsb is_unlock h = false
  | EClaim m' => m' = m /\ locked m h
  | EStored m' => m' = m /\ did h (EClaim m) (Ok ClaimProcess)
  | EPrepare m' => m' = m /\ did h (EStored m) (Ok None)
  | EBook m' => m' = m /\ did h (EStored m) (Ok None) /\ exists p, did h (EPrepare m) (Ok p)
  | EBuild p b => did h (EPrepare m) (Ok p) /\ did h (EBook m) (Ok b)
  | ECommit b i =>
      did h (EBook m) (Ok b) /\ checkBuilt i m b = None
      /\ exists p, did h (EBuild p b) (Ok i)
  | EUnbook b => did h (EBook m) (Ok b) /\ existsb commit_done h = false
  | ESubmit i =>
      submits h = 0%nat
      /\ ((did h (EStored m) (Ok (Some i)) /\ checkStored i m = Ok i /\ si_Outcome i = "")
          \/ exists b, did h (ECommit b i) (Ok tt))
  | ERecord i o => exists err, did h (ESubmit i) (o, err) /\ submit_failure err = None
  | EComplete m' =>
      m' = m /\ did h (EClaim m) (Ok ClaimProcess) /\ (answer_known m h \/ input_rejected h)
  | EUnclaim m' => m' = m /\ did h (EClaim m) (Ok ClaimProcess)
  | EAck =>
      did h (EClaim m) (Ok ClaimDuplicate) \/ did h (EClaim m) (Ok ClaimConflict)
      \/ did h (EComplete m) (Ok tt)
  | ETerm | EAlert _ _ => False
  end.

(** What holds when the handler returns [r] after the calls [h]. *)
Record settled (m : Message) (r : option error) (h : list call) : Prop := {
  st_locks : h = [] \/ exists h0, h = Call (ELock (PartitionKey m)) tt :: h0
                                  ++ [Call (EUnlock (PartitionKey m)) tt];
  st_nil : r = None -> did h EAck (Ok tt);
  st_booking : forall b, b ∈ omap booked_of h ->
    (exists i, did h (ECommit b i) (Ok tt)) \/ exists x, did h (EUnbook b) x;
  st_claim : ClaimProcess ∈ omap decided_of h ->
    (exists x, did h (EComplete m) x) \/ exists x, did h (EUnclaim m) x;
  st_once : (submits h <= 1)%nat
}.

(** ** Facts used at the leaves of the proof *)

Lemma checkStored_Ok i i' m : checkStored i m = Ok i' -> i' = i.
Proof. unfold checkStored. intros H. by repeat case_match; simplify_eq. Qed.

Lemma checkStored_Err i m e : checkStored i m = Err e -> errors_is ErrRejectedInput e = false.
Proof.
  unfold checkStored, SignedInvoice_Validate. intros H. by repeat case_match; simplify_eq.
Qed.

Lemma checkBuilt_Some i m b e : checkBuilt i m b = Some e -> errors_is ErrRejectedInput e = false.
Proof.
  unfold checkBuilt, SignedInvoice_Validate. intros H. by repeat case_match; simplify_eq.
Qed.

(** ** Histories grow *)

Lemma did_app h c e x : did h e x -> did (h ++ [c]) e x.
Proof. unfold did. rewrite elem_of_app. auto. Qed.

Lemma did_last h e x : did (h ++ [Call e x]) e x.
Proof. unfold did. rewrite elem_of_app, list_elem_of_singleton. auto. Qed.

Lemma input_rejected_app h c : input_rejected h -> input_rejected (h ++ [c]).
Proof. intros (c' & e & H & ?). exists c', e. rewrite elem_of_app. auto. Qed.

Lemma input_rejected_last h c e :
  call_error c = Some e -> errors_is ErrRejectedInput e = true -> input_rejected (h ++ [c]).
Proof. intros. exists c, e. rewrite elem_of_app, list_elem_of_singleton. auto. Qed.

Lemma submits_app h c : submits (h ++ [c]) = (submits h + if is_submit c then 1 else 0)%nat.
Proof.
  unfold submits. rewrite filter_app, length_app. cbn. unfold filter, list_filter. cbn.
  by destruct (is_submit c).
Qed.

Lemma commits_app h c : existsb commit_done (h ++ [c]) = existsb commit_done h || commit_done c.
Proof. rewrite existsb_app. cbn. by rewrite orb_false_r. Qed.

Lemma unlocks_app h c : existsb is_unlock (h ++ [c]) = existsb is_unlock h || is_unlock c.
Proof. rewrite existsb_app. cbn. by rewrite orb_false_r. Qed.

Definition bookings_settled (h : list call) : Prop :=
  forall b, b ∈ omap booked_of h ->
    (exists i, did h (ECommit b i) (Ok tt)) \/ exists x, did h (EUnbook b) x.

Lemma bookings_settled_app h c :
  bookings_settled h -> booked_of c = None -> bookings_settled (h ++ [c]).
Proof.
  intros H Hc b. rewrite omap_app. cbn. rewrite Hc, app_nil_r. intros Hb.
  destruct (H b Hb) as [[i ?]|[x ?]]; [left; exists i|right; exists x]; by apply did_app.
Qed.

Lemma bookings_none h : omap booked_of h = [] -> bookings_settled h.
Proof. intros E b. rewrite E, elem_of_nil. done. Qed.

(** A booking that has just been committed or released. *)
Lemma bookings_settled_last h b c :
  omap booked_of h = [b] -> booked_of c = None ->
  (exists i, c = Call (ECommit b i) (Ok tt)) \/ (exists x, c = Call (EUnbook b) x) ->
  bookings_settled (h ++ [c]).
Proof.
  intros E Hc Hd b'. rewrite omap_app, E. cbn. rewrite Hc. intros ->%list_elem_of_singleton.
  destruct Hd as [[i ->]|[x ->]]; [left; exists i|right; exists x]; apply did_last.
Qed.

(** The delivery holds its claim, and has nothing open but that. *)
Record holding (m : Message) (h : list call) : Prop := {
  hd_lock : exists h0, h = Call (ELock (PartitionKey m)) tt :: h0;
  hd_claim : did h (EClaim m) (Ok ClaimProcess);
  hd_booking : bookings_settled h;
  hd_once : (submits h <= 1)%nat;
  hd_unlock : existsb is_unlock h = false
}.

Lemma holding_app m h c :
  holding m h -> booked_of c = None -> is_submit c = false -> is_unlock c = false ->
  holding m (h ++ [c]).
Proof.
  intros [[h0 ->] Hc Hb Ho Hu] H1 H2 H3. split.
  - by eexists.
  - by apply did_app.
  - by apply bookings_settled_app.
  - rewrite submits_app, H2. lia.
  - by rewrite unlocks_app, Hu, H3.
Qed.

(** The request is decided: everything [settled] asks for but the unlock. *)
Record finished (m : Message) (r : option error) (h : list call) : Prop := {
  fi_lock : exists h0, h = Call (ELock (PartitionKey m)) tt :: h0;
  fi_nil : r = None -> did h EAck (Ok tt);
  fi_booking : bookings_settled h;
  fi_claim : ClaimProcess ∈ omap decided_of h ->
    (exists x, did h (EComplete m) x) \/ exists x, did h (EUnclaim m) x;
  fi_once : (submits h <= 1)%nat;
  fi_unlock : existsb is_unlock h = false
}.

Lemma holding_finished m h r :
  holding m h -> (r = None -> did h EAck (Ok tt)) ->
  (exists x, did h (EComplete m) x) \/ (exists x, did h (EUnclaim m) x) -> finished m r h.
Proof. by intros []. Qed.

Lemma finished_settled m r h :
  finished m r h -> settled m r (h ++ [Call (EUnlock (PartitionKey m)) tt]).
Proof.
  intros [[h0 ->] Hn Hb Hc Ho Hu]. split.
  - right. by exists h0.
  - intros Hr. by apply did_app, Hn.
  - by apply (bookings_settled_app _ (Call (EUnlock (PartitionKey m)) tt)).
  - rewrite omap_app. cbn [omap list_omap]. rewrite app_nil_r. intros H.
    destruct (Hc H) as [[x ?]|[x ?]]; [left|right]; exists x; by apply did_app.
  - rewrite submits_app. cbn. lia.
Qed.

(** ** The parts of the handler *)

Ltac extend := first [done | by apply did_last | by apply did_app; extend | by eauto].

Lemma failed_wp m h cause :
  holding m h -> (errors_is ErrRejectedInput cause = true -> input_rejected h) ->
  wp (allowed m) (failed m cause) h (fun e h' => finished m (Some e) h').
Proof.
  intros Hh Hc. unfold failed. pose proof (hd_claim _ _ Hh) as Hcl.
  destruct (errors_is ErrRejectedInput cause); cbn -[allowed].
  - split; [by cbn; auto|]. intros [[]|e].
    + cbn -[allowed]. split; [cbn; right; right; apply did_last|]. intros x.
      apply holding_finished; [|done|left; eexists; apply did_app, did_last].
      apply holding_app; [by apply holding_app|done..].
    + apply holding_finished; [by apply holding_app|done|left; eexists; apply did_last].
  - split; [done|]. intros x.
    apply holding_finished; [by apply holding_app|done|right; eexists; apply did_last].
Qed.

Lemma fail_wp m h cause :
  holding m h -> (errors_is ErrRejectedInput cause = true -> input_rejected h) ->
  wp (allowed m) (fail m cause) h (finished m).
Proof.
  intros. apply wp_bind. by eapply wp_mono, failed_wp; [|done..].
Qed.

Lemma finish_wp m h res :
  holding m h -> answer_known m h -> wp (allowed m) (finish m res) h (finished m).
Proof.
  intros Hh Ha. unfold finish. cbn -[allowed failed].
  split; [cbn; split_and!; [done|by apply Hh|by left]|]. intros [[]|e]; cbn -[allowed failed].
  - split; [cbn; right; right; apply did_last|]. intros x.
    apply holding_finished; [|intros Hr|left; eexists; apply did_app, did_last].
    { apply holding_app; [by apply holding_app|done..]. }
    destruct x as [[]|e]; [apply did_last|by destruct res].
  - apply wp_bind. eapply wp_mono, failed_wp; [done| |].
    + by apply holding_app.
    + intros He. eapply input_rejected_last; [done|]. cbn in He. done.
Qed.

Lemma released_wp m h b cause (Q : result error SignedInvoice -> list call -> Prop) :
  did h (EBook m) (Ok b) -> existsb commit_done h = false ->
  (forall e x, (e = cause \/ exists e', x = Err e' /\ e = errors_Join cause e') ->
     Q (Err e) (h ++ [Call (EUnbook b) x])) ->
  wp (allowed m) (released b cause) h Q.
Proof.
  intros Hb Hn HQ. unfold released, release. cbn -[allowed]. split; [done|].
  intros [u|e]; apply HQ; eauto.
Qed.

(** After [invoiceFor]: the invoice is the stored one or was just committed;
    a failure left no booking behind. *)
Definition invoice_found (m : Message) (r : result error SignedInvoice) (h : list call) : Prop :=
  holding m h /\ submits h = 0%nat /\
  match r with
  | Ok i => (did h (EStored m) (Ok (Some i)) /\ checkStored i m = Ok i)
            \/ exists b, did h (ECommit b i) (Ok tt)
  | Err e => errors_is ErrRejectedInput e = true -> input_rejected h
  end.

(** The history when the delivery has just claimed its request. *)
Definition claimed (m : Message) : list call :=
  [Call (ELock (PartitionKey m)) tt; Call (EClaim m) (Ok ClaimProcess)].

Lemma claimed_holding m : holding m (claimed m).
Proof.
  split; [by eexists|unfold claimed; apply (did_last [_])|by apply bookings_none|by apply Nat.leb_le|done].
Qed.

(** A history with one booking that ends with its release. *)
Lemma released_holding m h b x :
  (exists h0, h = Call (ELock (PartitionKey m)) tt :: h0) ->
  did h (EClaim m) (Ok ClaimProcess) -> omap booked_of h = [b] -> submits h = 0%nat ->
  existsb is_unlock h = false ->
  holding m (h ++ [Call (EUnbook b) x]) /\ submits (h ++ [Call (EUnbook b) x]) = 0%nat.
Proof.
  intros [h0 ->] Hc Hb Hs Hu. assert (Hsub := submits_app (Call (ELock (PartitionKey m)) tt :: h0) (Call (EUnbook b) x)).
  rewrite Hs in Hsub. cbn in Hsub. split; [|done]. split.
  - by eexists.
  - by apply did_app.
  - eapply bookings_settled_last; eauto.
  - rewrite submits_app. cbn. lia.
  - by rewrite unlocks_app, Hu.
Qed.

Lemma release_found m h b cause :
  (exists h0, h = Call (ELock (PartitionKey m)) tt :: h0) ->
  did h (EClaim m) (Ok ClaimProcess) -> omap booked_of h = [b] -> submits h = 0%nat ->
  existsb is_unlock h = false -> did h (EBook m) (Ok b) -> existsb commit_done h = false ->
  (errors_is ErrRejectedInput cause = true -> input_rejected h) ->
  wp (allowed m) (released b cause) h (invoice_found m).
Proof.
  intros Hl Hc Hb Hs Hu Hbk Hn Hrej. apply released_wp; [done..|]. intros e x He.
  destruct (released_holding m h b x Hl Hc Hb Hs Hu) as [Hh Hs']. split_and!; [done..|].
  intros Hr. destruct He as [->|(e' & -> & ->)]; [by apply input_rejected_app, Hrej|].
  rewrite errors_is_join in Hr. apply orb_true_iff in Hr as [Hr|Hr].
  - by apply input_rejected_app, Hrej.
  - by eapply input_rejected_last.
Qed.

(** Membership and computed facts about an explicit history. *)
Ltac explicit :=
  first [ done | by eexists
        | by unfold did; repeat (first [by apply list_elem_of_here | apply list_elem_of_further]) ].

Ltac rejected_here := intros ?; eapply input_rejected_last; [cbn; reflexivity | done].

(** The last call failed, before anything was booked. *)
Lemma not_found m h c e :
  holding m h -> submits h = 0%nat -> booked_of c = None -> is_submit c = false ->
  is_unlock c = false -> call_error c = Some e -> invoice_found m (Err e) (h ++ [c]).
Proof.
  intros Hh Hs Hb Hc Hu He. split_and!.
  - by apply holding_app.
  - by rewrite submits_app, Hs, Hc.
  - intros Hr. by eapply input_rejected_last.
Qed.

Lemma invoiceFor_wp m :
  wp (allowed m) (invoiceFor m) (claimed m) (invoice_found m).
Proof.
  pose proof (claimed_holding m) as Hh. unfold invoiceFor.
  cbn -[allowed released claimed]. split; [split; [done|apply Hh]|].
  intros [[i|]|e]; cbn -[allowed released claimed]; [| |by apply not_found].
  { split_and!; [by apply holding_app|done|].
    destruct (checkStored i m) as [i'|e] eqn:Hc; [|by rewrite (checkStored_Err _ _ _ Hc)].
    pose proof (checkStored_Ok _ _ _ Hc) as ->. left. split; [apply did_last|done]. }
  set (h1 := claimed m ++ [Call (EStored m) (Ok None)]).
  assert (Hh1 : holding m h1) by (by apply holding_app).
  split; [split; [done|apply did_last]|]. intros [p|e]; cbn -[allowed released claimed h1];
    [|by apply not_found].
  set (h2 := h1 ++ [Call (EPrepare m) (Ok p)]).
  assert (Hh2 : holding m h2) by (by apply holding_app).
  split; [split_and!; [done|apply did_app, did_last|by exists p; apply did_last]|].
  intros [b|e]; cbn -[allowed released claimed h2]; [|by apply not_found].
  split; [split; [apply did_app, did_last|apply did_last]|].
  intros [i|e]; cbn -[allowed released claimed h2].
  2:{ apply release_found; try explicit. rejected_here. }
  destruct (checkBuilt i m b) as [e|] eqn:Hchk.
  { apply release_found; try explicit. by rewrite (checkBuilt_Some _ _ _ _ Hchk). }
  cbn -[allowed released claimed h2].
  split; [split_and!; [explicit|done|exists p; apply did_last]|].
  intros [[]|e]; cbn -[allowed released claimed h2].
  2:{ apply release_found; try explicit. rejected_here. }
  split_and!; [|done|right; exists b; apply did_last].
  split; [by eexists|explicit| |by apply Nat.leb_le|done].
  eapply bookings_settled_last; [done..|]. left. by exists i.
Qed.

Lemma process_wp m : wp (allowed m) (process m) (claimed m) (finished m).
Proof.
  unfold process. apply wp_bind. eapply wp_mono, invoiceFor_wp.
  intros r h (Hh & Hs & Hr). destruct r as [i|e]; [|by apply fail_wp].
  destruct (String.eqb_spec (si_Outcome i) "") as [Ho|Ho]; cbn -[allowed fail finish].
  - split.
    { split; [done|]. destruct Hr as [[? ?]|?]; auto. }
    intros [o err]; cbn -[allowed fail finish].
    set (h1 := h ++ [Call (ESubmit i) (o, err)]).
    assert (Hh1 : holding m h1).
    { destruct Hh as [[h0 ->] Hc Hb Hle Hu]. split; [by eexists|by apply did_app| | |].
      - by apply bookings_settled_app.
      - unfold h1. rewrite submits_app, Hs. cbn. lia.
      - unfold h1. by rewrite unlocks_app, Hu. }
    destruct (submit_failure err) as [e|] eqn:Hf.
    { apply fail_wp; [done|]. intros Hrej. unfold submit_failure in Hf.
      destruct err as [e'|]; [|done]. destruct (errors_is ErrOutcomeAmbiguous e'); simplify_eq.
      by eapply input_rejected_last. }
    cbn -[allowed fail finish]. split; [exists err; split; [apply did_last|done]|].
    intros [[]|e]; cbn -[allowed fail finish].
    + apply finish_wp; [by apply holding_app|]. left. exists i, o. apply did_last.
    + apply fail_wp; [by apply holding_app|rejected_here].
  - apply finish_wp; [done|]. right.
    destruct Hr as [[? ?]|[b ?]]; [left; by exists i|right; by exists b, i].
Qed.

(** The claim is decided without any work. *)
Lemma finished_unclaimed m r h :
  (exists h0, h = Call (ELock (PartitionKey m)) tt :: h0) ->
  (r = None -> did h EAck (Ok tt)) -> omap booked_of h = [] ->
  (ClaimProcess ∈ omap decided_of h -> False) -> submits h = 0%nat ->
  existsb is_unlock h = false -> finished m r h.
Proof.
  intros Hl Hn Hb Hc Hs Hu. split; [done|done|by apply bookings_none| |lia|done].
  intros H. by apply Hc in H.
Qed.

Lemma handle_locked_wp m :
  wp (allowed m) (handle_locked m) [Call (ELock (PartitionKey m)) tt] (finished m).
Proof.
  unfold handle_locked. cbn -[allowed process]. split; [split; [done|explicit]|].
  intros [[]|e]; cbn -[allowed process].
  - apply process_wp.
  - split; [cbn; left; apply (did_last [_])|]. intros x.
    apply finished_unclaimed; try explicit.
    + intros Hr. destruct x as [[]|]; [|done]. apply (did_last [_; _]).
    + cbn. by rewrite list_elem_of_singleton.
  - split; [cbn; right; left; apply (did_last [_])|]. intros x.
    apply finished_unclaimed; try explicit.
    cbn. by rewrite list_elem_of_singleton.
  - apply finished_unclaimed; try explicit. cbn. by rewrite list_elem_of_singleton.
  - apply finished_unclaimed; try explicit. cbn. by rewrite elem_of_nil.
Qed.

Lemma settled_nil m (e : error) : settled m (Some e) [].
Proof. split; [by left|done| | |by apply Nat.leb_le]; cbn; intros * H; by apply elem_of_nil in H. Qed.

Lemma HandleMessage_wp m has_ack :
  wp (allowed m) (HandleMessage m has_ack) [] (settled m).
Proof.
  unfold HandleMessage.
  destruct (Message_Validate m) eqn:Hv; [by apply settled_nil|].
  destruct has_ack; [|by apply settled_nil].
  apply Message_Validate_None in Hv. cbn -[allowed handle_locked].
  split; [done|]. intros []. apply wp_bind. eapply wp_mono, handle_locked_wp.
  intros r h Hf. cbn -[allowed]. split; [|intros []; by apply finished_settled].
  split; [done|]. split; [|apply Hf].
  destruct (fi_lock _ _ _ Hf) as [h0 ->]. apply list_elem_of_here.
Qed.
End contract.

(** Membership of a call in an explicit history. *)
Ltac in_history :=
  unfold did; repeat first [apply list_elem_of_here | apply list_elem_of_further].

