(* ===== verification/Delivery.v ===== *)
(** * Deliveries ([cmd/daemon/worker.go])

    [handleDelivery] decodes a delivery, refuses envelopes of another tenant or
    branch, runs the ordered stream and classifies its error: reported, left
    for a redelivery, or finalised when the delivery budget is spent. *)

From S2P Require Import Prelude Models GoStrings GoErrors Uuid Message ChainTypes Control Json.
From S2P Require Import Envelope Claims Program Stream StreamSpec.
Local Open Scope Z_scope.
Local Open Scope go_scope.

(** What the handler reads of a [nats.Msg]: its data, and [NumDelivered] of its
    metadata when that can be read. *)
Record delivery : Type := mkDelivery {
  dl_data : string;
  dl_num_delivered : option Z
}.

(** What the handler reads of [tenantCtx]. *)
Record tenant_ctx : Type := mkTenantCtx {
  tc_TenantKey : string;
  tc_AlertEmail : string;
  tc_maxDeliver : Z
}.

(** [int(meta.NumDelivered) >= maxDeliver]; [NumDelivered] is a [uint64]. *)
Definition deliveryBudgetExhausted (raw : delivery) (maxDeliver : Z) : bool :=
  if maxDeliver <? 1 then false
  else match dl_num_delivered raw with
       | Some n => maxDeliver <=? i64 n
       | None => false
       end.

Section delivery.
Context {Prepared : Type}.
Local Abbreviation prog := (prog Prepared).

Definition alert (tc : tenant_ctx) (what : string) (err : error) : prog unit :=
  if negb (String.eqb (tc_AlertEmail tc) "") then do! u := EAlert what err in Ret u else Ret tt.

Definition bill_of (m : Message) : string :=
  "bill " +:+ itoa (ID m) +:+ " of branch " +:+ itoa (BranchID m).

(** The [default] case of the classification. *)
Definition retry_or_finalize (tc : tenant_ctx) (raw : delivery) (m : Message) (err : error)
    : prog unit :=
  if deliveryBudgetExhausted raw (tc_maxDeliver tc)
     && negb (errors_is ErrClaimInFlight err) && negb (errors_is ErrChainBusy err)
  then
    run! r := FinalizePermanentFailure m (Some err) true in
    match r with
    | None => alert tc (bill_of m +:+ " reached the retry limit") err
    | Some _ =>
        do! _t := ETerm in
        alert tc (bill_of m +:+ " could not be finalized after the retry limit") err
    end
  else alert tc (bill_of m) err.

Definition after_handling (tc : tenant_ctx) (raw : delivery) (m : Message) (r : option error)
    : prog unit :=
  match r with
  | None => Ret tt
  | Some err =>
      if errors_is ErrClaimInFlight err || errors_is ErrChainBusy err then Ret tt
      else if errors_is ErrInvoiceRejected err
      then alert tc (bill_of m +:+ " rejected by ZATCA") err
      else if errors_is ErrOutcomeAmbiguous err
      then alert tc (bill_of m +:+ " needs reconciliation with ZATCA") err
      else if errors_is ErrRejectedInput err || errors_is ErrFingerprintConflict err
      then alert tc (bill_of m) err
      else retry_or_finalize tc raw m err
  end.

Definition foreign_envelope (tc : tenant_ctx) (dbName : string) (branchID : Z) (m : Message) : bool :=
  negb (String.eqb (DBName m) dbName) || negb (BranchID m =? branchID)
  || negb (String.eqb (TenantKey m) (tc_TenantKey tc)).

Definition handleDelivery (tc : tenant_ctx) (dbName : string) (branchID : Z) (raw : delivery)
    : prog unit :=
  match DecodeEnvelope (dl_data raw) with
  | Err _ => do! _t := ETerm in Ret tt
  | Ok m =>
      if foreign_envelope tc dbName branchID m then do! _t := ETerm in Ret tt
      else
        run! r := HandleMessage m true in
        after_handling tc raw m r
  end.

(** ** The contract of a delivery *)

(** What the handler of a delivery may do beyond [HandleMessage]: the
    finalisation reads the stored invoice, records a local terminal failure
    on it while it has no answer, and completes the claim. *)
Definition delivery_allowed (m : Message) (h : list (call Prepared)) (e : event Prepared) : Prop :=
  allowed m h e
  \/ match e with
     | ETerm | EAlert _ _ => True
     | EStored m' => m' = m
     | ERecord i o =>
         did h (EStored m) (Ok (Some i)) /\ si_Outcome i = ""
         /\ exists cause, o = terminal_outcome cause
     | EComplete m' => m' = m /\ exists x, did h (EStored m) x
     | _ => False
     end.

(** Errors of [HandleMessage] after which the delivery is left alone or only
    reported. *)
Definition reported (e : error) : bool :=
  errors_is ErrClaimInFlight e || errors_is ErrChainBusy e || errors_is ErrInvoiceRejected e
  || errors_is ErrOutcomeAmbiguous e || errors_is ErrRejectedInput e
  || errors_is ErrFingerprintConflict e.

(** How a handled delivery ends: [hr] is the result of [HandleMessage]. *)
Definition delivery_end (tc : tenant_ctx) (raw : delivery) (m : Message) (h : list (call Prepared))
    : Prop :=
  exists hr h1 h2, h = h1 ++ h2 /\ settled m hr h1
    /\ match hr with
       | None => h2 = []
       | Some e =>
           if reported e then forall c, c ∈ h2 -> exists w, c = Call (EAlert w e) tt
           else if deliveryBudgetExhausted raw (tc_maxDeliver tc)
           then did h EAck (Ok tt) \/ exists x, did h ETerm x
           else forall c, c ∈ h2 -> exists w, c = Call (EAlert w e) tt
       end.

Lemma wp_allowed {A} (al al' : list (call Prepared) -> event Prepared -> Prop) (p : prog A) h Q :
  (forall h e, al h e -> al' h e) -> wp al p h Q -> wp al' p h Q.
Proof.
  intros Hal. revert h. induction p as [a|e k IH]; cbn; intros h; [done|].
  intros [? Hk]. split; [auto|]. auto.
Qed.

Lemma alert_wp tc what err m h (Q : unit -> list (call Prepared) -> Prop) :
  Q tt h -> Q tt (h ++ [Call (EAlert what err) tt]) ->
  wp (delivery_allowed m) (alert tc what err) h Q.
Proof.
  intros H1 H2. unfold alert. destruct (negb _); [|done]. cbn -[delivery_allowed].
  split; [by right|]. by intros [].
Qed.

Lemma finalize_end_wp m cause h (Q : option error -> list (call Prepared) -> Prop) :
  (exists x, did h (EStored m) x) ->
  (forall r h', (exists t, h' = h ++ t) -> (r = None -> did h' EAck (Ok tt)) -> Q r h') ->
  wp (delivery_allowed m) (finalize_end m cause) h Q.
Proof.
  intros Hst HQ. unfold finalize_end. cbn -[delivery_allowed]. split; [by right|].
  intros [[]|e]; cbn -[delivery_allowed].
  - split; [left; cbn; right; right; apply did_last|].
    intros [[]|e]; (apply HQ; [eexists; by rewrite <- app_assoc|]);
      [intros _; apply did_last|done].
  - apply HQ; [by eexists|done].
Qed.

Lemma finalize_wp m cause h (Q : option error -> list (call Prepared) -> Prop) :
  (forall r h', (exists t, h' = h ++ t) -> (r = None -> did h' EAck (Ok tt)) -> Q r h') ->
  wp (delivery_allowed m) (FinalizePermanentFailure m (Some cause) true) h Q.
Proof.
  intros HQ. unfold FinalizePermanentFailure. cbn -[delivery_allowed finalize_end].
  split; [by right|].
  assert (Hend : forall h' t, h' = h ++ t -> (exists x, did h' (EStored m) x) ->
            wp (delivery_allowed m) (finalize_end m cause) h' Q).
  { intros h' t -> Hst. apply finalize_end_wp; [done|]. intros r h2 [t2 ->] Hr.
    apply HQ; [|done]. eexists. by rewrite <- app_assoc. }
  intros [[i|]|e]; cbn -[delivery_allowed finalize_end].
  - destruct (String.eqb_spec (si_Outcome i) "") as [Ho|Ho]; cbn -[delivery_allowed finalize_end].
    + split; [right; split_and!; [apply did_last|done|by eexists]|].
      intros [[]|e]; cbn -[delivery_allowed finalize_end].
      * eapply Hend; [by rewrite <- app_assoc|]. eexists. apply did_app, did_last.
      * apply HQ; [eexists; by rewrite <- app_assoc|done].
    + eapply Hend; [done|]. eexists. apply did_last.
  - eapply Hend; [done|]. eexists. apply did_last.
  - apply HQ; [by eexists|done].
Qed.

Lemma after_handling_wp tc raw m r h :
  settled m r h ->
  wp (delivery_allowed m) (after_handling tc raw m r) h (fun _ h' => delivery_end tc raw m h').
Proof.
  intros Hs. unfold after_handling.
  destruct r as [e|]; [|exists None, h, []; rewrite app_nil_r; done].
  assert (Hend : forall t, (if reported e then forall c, c ∈ t -> exists w, c = Call (EAlert w e) tt
             else if deliveryBudgetExhausted raw (tc_maxDeliver tc)
             then did (h ++ t) EAck (Ok tt) \/ exists x, did (h ++ t) ETerm x
             else forall c, c ∈ t -> exists w, c = Call (EAlert w e) tt) ->
             delivery_end tc raw m (h ++ t)).
  { intros t Ht. exists (Some e), h, t. done. }
  assert (Hnil : forall c : call Prepared, c ∈ [] -> exists w, c = Call (EAlert w e) tt)
    by (intros c Hc; by apply elem_of_nil in Hc).
  assert (Hone : forall w (c : call Prepared), c ∈ [Call (EAlert w e) tt] ->
            exists w', c = Call (EAlert w' e) tt)
    by (intros w c ->%list_elem_of_singleton; by exists w).
  assert (Hrep : reported e = true -> forall w, wp (delivery_allowed m) (alert tc w e) h
            (fun _ h' => delivery_end tc raw m h')).
  { intros He w. rewrite He in Hend. apply alert_wp; [|by apply Hend, Hone].
    specialize (Hend []). rewrite app_nil_r in Hend. by apply Hend. }
  destruct (errors_is ErrClaimInFlight e || errors_is ErrChainBusy e) eqn:E1.
  { specialize (Hend []). rewrite app_nil_r in Hend. apply Hend.
    unfold reported. rewrite E1. exact Hnil. }
  destruct (errors_is ErrInvoiceRejected e) eqn:E2;
    [apply Hrep; unfold reported; by rewrite E1, E2|].
  destruct (errors_is ErrOutcomeAmbiguous e) eqn:E3;
    [apply Hrep; unfold reported; by rewrite E1, E2, E3|].
  destruct (errors_is ErrRejectedInput e || errors_is ErrFingerprintConflict e) eqn:E4.
  { apply Hrep. unfold reported. rewrite E1, E2, E3. cbn. done. }
  assert (He : reported e = false).
  { unfold reported. rewrite E1, E2, E3. cbn. done. }
  rewrite He in Hend. unfold retry_or_finalize. apply orb_false_iff in E1 as [-> ->].
  cbn [negb]. rewrite !andb_true_r.
  destruct (deliveryBudgetExhausted raw (tc_maxDeliver tc)).
  - apply wp_bind, finalize_wp. intros r h' [t ->] Hack. destruct r as [e'|].
    + cbn -[delivery_allowed alert]. split; [by right|]. intros x.
      assert (Ht : did (h ++ t ++ [Call ETerm x]) ETerm x) by (rewrite app_assoc; apply did_last).
      rewrite <- app_assoc. apply alert_wp; rewrite <- ?app_assoc; apply Hend; right; exists x.
      * done.
      * rewrite !app_assoc. apply did_app. by rewrite <- app_assoc.
    + apply alert_wp; [apply Hend; left; by apply Hack|].
      rewrite <- app_assoc. apply Hend. left. rewrite app_assoc. apply did_app. by apply Hack.
  - apply alert_wp; [|by apply Hend, Hone].
    specialize (Hend []). rewrite app_nil_r in Hend. by apply Hend.
Qed.

(** The whole handler, for an envelope that is its own. *)
Lemma handleDelivery_wp tc dbName branchID raw :
  match DecodeEnvelope (dl_data raw) with
  | Ok m =>
      if foreign_envelope tc dbName branchID m
      then handleDelivery tc dbName branchID raw = Vis ETerm (fun _ => Ret tt)
      else wp (delivery_allowed m) (handleDelivery tc dbName branchID raw) []
             (fun _ h => delivery_end tc raw m h)
  | Err _ => handleDelivery tc dbName branchID raw = Vis ETerm (fun _ => Ret tt)
  end.
Proof.
  unfold handleDelivery. destruct (DecodeEnvelope (dl_data raw)) as [m|e]; [|done].
  destruct (foreign_envelope tc dbName branchID m); [done|].
  apply wp_bind. eapply wp_mono; [|eapply wp_allowed, HandleMessage_wp; by left].
  intros r h Hs. by apply after_handling_wp.
Qed.
End delivery.
