(* ===== verification/StreamThm.v ===== *)
(** * Theorems on one delivery

    The contract of [HandleMessage] and of the delivery handler for every
    behaviour of the interfaces they call, and the mutex identities of
    [lockFor]. *)

From S2P Require Import Prelude Models GoStrings GoErrors Uuid Message ChainTypes Json Envelope.
From S2P Require Import Database Claims Chain TenantSteps Program Stream StreamSpec Delivery.
Local Open Scope Z_scope.

(** ** Runs against an environment *)

Section environment.
Context {Prepared : Type}.
Local Abbreviation call := (call Prepared).

(** The environment's answers: any function of the calls so far. *)
Definition oracle : Type := list call -> forall e : event Prepared, answer e.

(** The run of [p] against an environment. *)
Fixpoint exec {A} (o : oracle) (p : prog Prepared A) (h : list call) : A * list call :=
  match p with
  | Ret a => (a, h)
  | Vis e k => exec o (k (o h e)) (h ++ [Call e (o h e)])
  end.

Lemma exec_runs {A} o (p : prog Prepared A) h : runs p h (exec o p h).1 (exec o p h).2.
Proof. revert h. induction p as [a|e k IH]; intros h; cbn; [constructor|]. econstructor. apply IH. Qed.

End environment.

(** ** Theorems *)

(** C3: For every behaviour of the claim store, the chain, the pipeline and the acknowledgement,
    HandleMessage makes only calls its contract allows: under the partition lock, the chain and
    the pipeline only after the claim was won, an invoice booked only when none is stored, built
    from that booking, committed only when it matches the booking and the envelope, submitted at
    most once and only when stored pending or just committed, its answer recorded only from that
    submission, the claim completed only with a recorded answer or a rejected input, and the
    delivery acknowledged only for a finished, duplicate or conflicting request. When it returns,
    the lock is released as its last call, a nil error means an acknowledged delivery, every
    booking was committed or released, and a won claim was completed or released. *)
Theorem HandleMessage_contract {Prepared} m has_ack r (h : list (call Prepared)) :
  runs (HandleMessage m has_ack) [] r h ->
  settled m r h /\ forall h1 e x h2, h = h1 ++ Call e x :: h2 -> allowed m h1 e.
Proof.
  intros Hr. pose proof (wp_runs _ _ _ _ _ _ (HandleMessage_wp m has_ack) Hr) as [Hs Hal].
  split; [done|]. intros h1 e x h2 E. eapply Hal; [done|]. cbn. lia.
Qed.

(** What the handling of one delivery comes to. A delivery that does not decode, or is for another
    tenant, database or branch, is terminated and nothing else happens. Any other delivery makes only
    the calls the stream's contract and the finalisation allow, and has one of the ends of
    [delivery_end]. *)
Definition delivery_contract {Prepared} (tc : tenant_ctx) (dbName : string) (branchID : Z) (raw : delivery)
    (h : list (call Prepared)) : Prop :=
  match DecodeEnvelope (dl_data raw) with
  | Ok m =>
      if foreign_envelope tc dbName branchID m then exists x, h = [Call ETerm x]
      else delivery_end tc raw m h
           /\ forall h1 e x h2, h = h1 ++ Call e x :: h2 -> delivery_allowed m h1 e
  | Err _ => exists x, h = [Call ETerm x]
  end.

Lemma handleDelivery_runs {Prepared} tc dbName branchID raw r (h : list (call Prepared)) :
  runs (handleDelivery tc dbName branchID raw) [] r h -> delivery_contract tc dbName branchID raw h.
Proof.
  intros Hr. pose proof (handleDelivery_wp (Prepared := Prepared) tc dbName branchID raw) as Hw.
  assert (Hterm : handleDelivery (Prepared := Prepared) tc dbName branchID raw = Vis ETerm (fun _ => Ret tt) ->
                  exists x, h = [Call ETerm x]).
  { intros E. rewrite E in Hr. destruct (runs_inv _ _ _ _ Hr) as [x Hx].
    apply runs_inv in Hx as [_ ->]. by exists x. }
  unfold delivery_contract. destruct (DecodeEnvelope (dl_data raw)) as [m|e]; [|by apply (Hterm Hw)].
  destruct (foreign_envelope tc dbName branchID m); [by apply (Hterm Hw)|].
  pose proof (wp_runs _ _ _ _ _ _ Hw Hr) as [Hend Hal].
  split; [done|]. intros h1 e x h2 E. eapply Hal; [done|]. cbn. lia.
Qed.

(** ** Mutex identities *)

(** The locks a sequence of calls of [lockFor] returns. *)
Fixpoint locks_for (partitions : list string) (t : lock_table) : list nat :=
  match partitions with
  | [] => []
  | p :: ps => let '(lock, t') := lockFor p t in lock :: locks_for ps t'
  end.

(** Locks handed out so far are below the next identity and distinct. *)
Definition locks_ok (t : lock_table) : Prop :=
  (forall p l, lt_partition t !! p = Some l -> (l < lt_next t)%nat)
  /\ forall p q l, lt_partition t !! p = Some l -> lt_partition t !! q = Some l -> p = q.

Lemma lockFor_ok p t : locks_ok t ->
  locks_ok (lockFor p t).2 /\ lt_partition (lockFor p t).2 !! p = Some (lockFor p t).1
  /\ lt_partition t ⊆ lt_partition (lockFor p t).2.
Proof.
  intros [Hlt Hinj]. unfold lockFor. destruct (lt_partition t !! p) as [l|] eqn:E; cbn; [done|].
  split_and!.
  - split; cbn; intros q.
    + intros l. rewrite lookup_insert_Some. intros [[_ <-]|[_ H]]; [lia|]. apply Hlt in H. lia.
    + intros q' l. rewrite !lookup_insert_Some.
      intros [[<- <-]|[_ H1]] [[<- E2]|[_ H2]]; [done| | |by eapply Hinj];
        [apply Hlt in H2|apply Hlt in H1]; lia.
  - by rewrite lookup_insert_eq.
  - by apply insert_subseteq.
Qed.

Lemma locks_for_lookup ps t i p l : locks_ok t ->
  ps !! i = Some p -> locks_for ps t !! i = Some l ->
  exists t', locks_ok t' /\ lt_partition t ⊆ lt_partition t' /\ lt_partition t' !! p = Some l
             /\ forall j q k, (i < j)%nat -> ps !! j = Some q -> locks_for ps t !! j = Some k ->
                 exists t2, locks_ok t2 /\ lt_partition t' ⊆ lt_partition t2
                            /\ lt_partition t2 !! q = Some k.
Proof.
  revert t i p l. induction ps as [|p0 ps IH]; intros t i p l Ht; [done|].
  pose proof (lockFor_ok p0 t Ht) as (Ht' & Hl & Hsub). cbn.
  destruct (lockFor p0 t) as [l0 t'] eqn:E. cbn in *.
  destruct i as [|i]; cbn; intros Hp Hli.
  - simplify_eq. exists t'. split_and!; [done..|]. intros [|j] q k Hj Hq Hk; [lia|].
    cbn in *. destruct (IH t' j q k Ht' Hq Hk) as (t2 & ? & ? & ? & _). by exists t2.
  - destruct (IH t' i p l Ht' Hp Hli) as (t2 & ? & ? & ? & Hlater). exists t2.
    split_and!; [done|by etransitivity|done|]. intros [|j] q k Hj Hq Hk; [lia|].
    apply (Hlater j); [lia|done..].
Qed.

(** The stream's partition locks are per partition: from the empty map of a new stream, any two
    calls of lockFor, at any positions of any sequence of calls, return the same mutex exactly
    when they are for the same partition key. *)
Theorem lockFor_identity partitions i j p q l k :
  partitions !! i = Some p -> partitions !! j = Some q ->
  locks_for partitions new_locks !! i = Some l -> locks_for partitions new_locks !! j = Some k ->
  l = k <-> p = q.
Proof.
  assert (H : forall i j p q l k, (i < j)%nat ->
    partitions !! i = Some p -> partitions !! j = Some q ->
    locks_for partitions new_locks !! i = Some l -> locks_for partitions new_locks !! j = Some k ->
    l = k <-> p = q).
  { clear. intros i j p q l k Hij Hp Hq Hl Hk.
    destruct (locks_for_lookup partitions new_locks i p l) as (t & _ & _ & Hpl & Hlater); [done..|].
    destruct (Hlater j q k Hij Hq Hk) as (t2 & [_ Hinj] & Hsub & Hqk).
    pose proof (lookup_weaken _ _ _ _ Hpl Hsub) as Hpl2.
    split; [intros <-; by eapply Hinj|intros <-; congruence]. }
  intros Hp Hq Hl Hk. destruct (Nat.lt_trichotomy i j) as [Hij|[<-|Hij]].
  - by eapply H.
  - simplify_eq. done.
  - pose proof (H j i q p k l Hij Hq Hp Hk Hl) as E. split; intros ?; symmetry; by apply E.
Qed.

(** ** Concrete runs *)

(** An environment in which every call succeeds and ZATCA accepts. *)
Definition happy : oracle (Prepared := unit) := fun _ e =>
  match e as e return answer e with
  | EClaim _ => Ok ClaimProcess
  | EStored _ => Ok None
  | EBook _ => Ok sample_booking
  | EPrepare _ => Ok tt
  | EBuild _ _ => Ok sample_invoice
  | ESubmit _ => (sample_outcome, None)
  | EComplete _ | EUnclaim _ | EUnbook _ | ECommit _ _ | ERecord _ _ | EAck | ETerm => Ok tt
  | EAlert _ _ | ELock _ | EUnlock _ => tt
  end.

Definition happy_run := exec happy (HandleMessage bill_envelope true) [].
Definition happy_context : tenant_ctx := mkTenantCtx "acme-0001" "ops@example.com" 10.

Lemma HandleMessage_contract_witness :
  happy_run.1 = None /\ settled bill_envelope happy_run.1 happy_run.2.
Proof.
  split; [by vm_compute|].
  apply (HandleMessage_contract bill_envelope true happy_run.1 happy_run.2).
  apply (exec_runs happy (HandleMessage bill_envelope true) []).
Defined.

Lemma lockFor_identity_witness :
  locks_for ["a"; "b"; "a"] new_locks = [0; 1; 0]%nat /\ (0%nat = 0%nat <-> "a" = "a").
Proof.
  split; [by vm_compute|].
  by apply (lockFor_identity ["a"; "b"; "a"] 0 2 "a" "a" 0 0).
Defined.
