(* ===== verification/StreamCourse.v ===== *)
(** * The courses of a delivery

    Which calls a delivery makes, in which order, when the calls that end or
    undo its work do not fail: an abstract description of the ordered stream
    ([queue/ordered_stream.go]) as the sequences of calls it can make, and the
    theorem that [HandleMessage] runs through one of them. *)

From S2P Require Import Prelude Models GoStrings GoErrors Uuid Message ChainTypes Json Envelope.
From S2P Require Import Database Claims Chain TenantSteps Program Stream StreamSpec StreamThm.
Local Open Scope Z_scope.

Section courses.
Context {Prepared : Type}.
Local Abbreviation call := (call Prepared).

(** The calls that end or undo a delivery's work, when they do not fail. *)
Definition clean (c : call) : bool :=
  match projT1 c as e return answer e -> bool with
  | EComplete _ | EUnclaim _ | EUnbook _ | EAck => fun x => is_ok x
  | _ => fun _ => true
  end (projT2 c).

Context (m : Message).

(** The calls that find the invoice of the delivery: it is stored, or it is
    prepared, booked, built and committed, in this order. *)
Inductive finds : list call -> SignedInvoice -> Prop :=
| finds_stored i :
    checkStored i m = Ok i ->
    finds [Call (EStored m) (Ok (Some i))] i
| finds_built p b i :
    checkBuilt i m b = None ->
    finds [Call (EStored m) (Ok None); Call (EPrepare m) (Ok p); Call (EBook m) (Ok b);
           Call (EBuild p b) (Ok i); Call (ECommit b i) (Ok tt)] i.

(** The calls up to the first failure, and its error. A failure between the
    booking and the end of the commit is followed by the release of the
    booking, and by nothing else. *)
Inductive fails : list call -> error -> Prop :=
| fails_stored e : fails [Call (EStored m) (Err e)] e
| fails_stored_check i e :
    checkStored i m = Err e -> fails [Call (EStored m) (Ok (Some i))] e
| fails_prepare e :
    fails [Call (EStored m) (Ok None); Call (EPrepare m) (Err e)] e
| fails_book p e :
    fails [Call (EStored m) (Ok None); Call (EPrepare m) (Ok p); Call (EBook m) (Err e)] e
| fails_build p b e :
    fails [Call (EStored m) (Ok None); Call (EPrepare m) (Ok p); Call (EBook m) (Ok b);
           Call (EBuild p b) (Err e); Call (EUnbook b) (Ok tt)] e
| fails_built_check p b i e :
    checkBuilt i m b = Some e ->
    fails [Call (EStored m) (Ok None); Call (EPrepare m) (Ok p); Call (EBook m) (Ok b);
           Call (EBuild p b) (Ok i); Call (EUnbook b) (Ok tt)] e
| fails_commit p b i e :
    checkBuilt i m b = None ->
    fails [Call (EStored m) (Ok None); Call (EPrepare m) (Ok p); Call (EBook m) (Ok b);
           Call (EBuild p b) (Ok i); Call (ECommit b i) (Err e); Call (EUnbook b) (Ok tt)] e
| fails_submit h i o e :
    finds h i -> si_Outcome i = "" -> errors_is ErrOutcomeAmbiguous e = false ->
    fails (h ++ [Call (ESubmit i) (o, Some e)]) e
| fails_record h i o err e :
    finds h i -> si_Outcome i = "" -> submit_failure err = None ->
    fails (h ++ [Call (ESubmit i) (o, err); Call (ERecord i o) (Err e)]) e.

(** A request that is over is completed and acknowledged; any other failure
    gives the claim back. *)
Definition over : list call := [Call (EComplete m) (Ok tt); Call EAck (Ok tt)].
Definition undone (e : error) : list call :=
  if errors_is ErrRejectedInput e then over else [Call (EUnclaim m) (Ok tt)].

(** What a delivery does under the claim it has won. *)
Inductive works : option error -> list call -> Prop :=
| works_failed h e : fails h e -> works (Some e) (h ++ undone e)
| works_answered h i : finds h i -> si_Outcome i <> "" -> works None (h ++ over)
| works_sent h i o err :
    finds h i -> si_Outcome i = "" -> submit_failure err = None ->
    works (if String.eqb (oc_State o) OutcomeRejected then Some (rejected_error m o) else err)
      (h ++ [Call (ESubmit i) (o, err); Call (ERecord i o) (Ok tt)] ++ over).

(** What a delivery does under the partition lock. *)
Inductive decides : option error -> list call -> Prop :=
| decides_failed e : decides (Some e) [Call (EClaim m) (Err e)]
| decides_duplicate :
    decides None [Call (EClaim m) (Ok ClaimDuplicate); Call EAck (Ok tt)]
| decides_conflict :
    decides (Some (Wrap "" (Sentinel ErrFingerprintConflict) (": bill_request_id " +:+ BillRequestID m)))
      [Call (EClaim m) (Ok ClaimConflict); Call EAck (Ok tt)]
| decides_in_flight :
    decides (Some (Sentinel ErrClaimInFlight)) [Call (EClaim m) (Ok ClaimInFlight)]
| decides_process r h :
    works r h -> decides r (Call (EClaim m) (Ok ClaimProcess) :: h).

Local Abbreviation cleanly h := (forallb clean h = true).

Lemma unclean {A} (p : prog Prepared A) h a h' :
  runs p h a h' -> forallb clean h = false -> cleanly h' -> False.
Proof. intros (t & -> & _)%runs_shift Hc. rewrite forallb_app. by rewrite Hc. Qed.

Lemma from_start {A} (p : prog Prepared A) h0 a h :
  runs p h0 a h -> cleanly h -> exists t, h = h0 ++ t /\ runs p [] a t /\ cleanly t.
Proof.
  intros (t & -> & Ht)%runs_shift Hc. rewrite forallb_app in Hc.
  apply andb_true_iff in Hc as [_ Hc]. by exists t.
Qed.

(** Takes a run apart, call by call; an unclean answer ends it. *)
Ltac next H := apply runs_inv in H; cbn -[clean] in H; destruct H as [? H].
Ltac over H := apply runs_inv in H as [-> ->].
Ltac soil H := exfalso; eapply unclean; [exact H|reflexivity|done].

Lemma fail_course h0 e r h :
  runs (fail m e) h0 r h -> cleanly h -> r = Some e /\ h = h0 ++ undone e.
Proof.
  intros H Hh. destruct (from_start _ _ _ _ H Hh) as (t & -> & H1 & Hc); clear H; rename H1 into H.
  unfold fail, failed, undone in *. destruct (errors_is ErrRejectedInput e).
  - next H. destruct x as [[]|]; [|soil H]. next H. destruct x as [[]|]; [|soil H]. by over H.
  - next H. destruct x as [[]|]; [|soil H]. by over H.
Qed.

Lemma finish_course h0 res r h :
  runs (finish m res) h0 r h -> cleanly h -> r = res /\ h = h0 ++ over.
Proof.
  intros H Hh. destruct (from_start _ _ _ _ H Hh) as (t & -> & H1 & Hc); clear H; rename H1 into H.
  unfold finish in H. next H. destruct x as [[]|]; [|soil H].
  next H. destruct x as [[]|]; [|soil H]. by over H.
Qed.

Lemma released_course b e h0 r h :
  runs (released b e) h0 r h -> cleanly h -> r = Err e /\ h = h0 ++ [Call (EUnbook b) (Ok tt)].
Proof.
  intros H Hh. destruct (from_start _ _ _ _ H Hh) as (t & -> & H1 & Hc); clear H; rename H1 into H.
  unfold released, release in H. next H. destruct x as [[]|]; [|soil H]. by over H.
Qed.

Lemma invoiceFor_course r h :
  runs (invoiceFor m) [] r h -> cleanly h ->
  match r with Ok i => finds h i | Err e => fails h e end.
Proof.
  intros H Hc. unfold invoiceFor in H. next H. destruct x as [[i|]|e]; [| |over H; constructor].
  { over H. destruct (checkStored i m) as [i'|e] eqn:Hi; [|by constructor].
    pose proof (checkStored_Ok _ _ _ Hi) as ->. by constructor. }
  next H. destruct x as [p|e]; [|over H; constructor].
  next H. destruct x as [b|e]; [|over H; constructor].
  next H. destruct x as [i|e].
  2:{ apply released_course in H as [-> ->]; [|done]. constructor. }
  destruct (checkBuilt i m b) as [e|] eqn:Hi.
  { apply released_course in H as [-> ->]; [|done]. by constructor. }
  next H. destruct x as [[]|e]; [over H; by constructor|].
  apply released_course in H as [-> ->]; [|done]. by constructor.
Qed.

Lemma process_course r h : runs (process m) [] r h -> cleanly h -> works r h.
Proof.
  intros H Hc. unfold process in H. apply runs_bind in H as (found & h1 & h2 & -> & H1 & H).
  rewrite forallb_app in Hc. apply andb_true_iff in Hc as [Hc1 Hc2].
  pose proof (invoiceFor_course _ _ H1 Hc1) as Hf. destruct found as [i|e].
  2:{ destruct (fail_course _ _ _ _ H Hc2) as [-> ->]. by constructor. }
  destruct (String.eqb_spec (si_Outcome i) "") as [Ho|Ho]; cbn -[fail finish] in H.
  2:{ destruct (finish_course _ _ _ _ H Hc2) as [-> ->]. by econstructor. }
  next H. destruct x as [o err]. destruct (submit_failure err) as [e|] eqn:He.
  { destruct (fail_course _ _ _ _ H Hc2) as [-> ->]. rewrite app_assoc. constructor.
    unfold submit_failure in He. destruct err as [e'|]; [|done].
    destruct (errors_is ErrOutcomeAmbiguous e') eqn:Ha; simplify_eq. by eapply fails_submit. }
  next H. destruct x as [[]|e].
  - destruct (finish_course _ _ _ _ H Hc2) as [-> ->]. by apply works_sent.
  - destruct (fail_course _ _ _ _ H Hc2) as [-> ->]. rewrite app_assoc. constructor.
    by eapply fails_record.
Qed.

Lemma handle_locked_course h0 r h : runs (handle_locked m) h0 r h -> cleanly h ->
  exists t, h = h0 ++ t /\ decides r t.
Proof.
  intros H Hh. destruct (from_start _ _ _ _ H Hh) as (t & -> & H1 & Hc); clear H; rename H1 into H.
  exists t. split; [done|]. unfold handle_locked in H. next H. destruct x as [[]|e].
  - destruct (from_start _ _ _ _ H Hc) as (t1 & -> & H1 & Hc1).
    apply decides_process. exact (process_course _ _ H1 Hc1).
  - next H. destruct x as [[]|]; [|soil H]. over H. constructor.
  - next H. destruct x as [[]|]; [|soil H]. over H. constructor.
  - over H. constructor.
  - over H. constructor.
Qed.

Lemma HandleMessage_course r h :
  valid_message m -> runs (HandleMessage m true) [] r h -> cleanly h ->
  exists t, decides r t
    /\ h = [Call (ELock (PartitionKey m)) tt] ++ t ++ [Call (EUnlock (PartitionKey m)) tt].
Proof.
  intros Hv H Hc. unfold HandleMessage in H. rewrite (proj2 (Message_Validate_None m) Hv) in H.
  apply runs_inv in H. cbn -[handle_locked pbind] in H. destruct H as [[] H].
  apply runs_bind in H as (r' & h1 & h2 & -> & H1 & H).
  rewrite forallb_app in Hc. apply andb_true_iff in Hc as [Hc1 _].
  destruct (handle_locked_course _ _ _ H1 Hc1) as (t & -> & Ht). exists t.
  next H. destruct x. over H. by rewrite <- !app_assoc.
Qed.

Lemma exec_clean {A} (o : oracle) (p : prog Prepared A) h :
  (forall h e, clean (Call e (o h e)) = true) -> cleanly h -> cleanly (exec o p h).2.
Proof.
  intros Ho. revert h. induction p as [a|e k IH]; intros h Hh; cbn -[clean]; [done|].
  apply IH. rewrite forallb_app, Hh. cbn -[clean]. by rewrite Ho.
Qed.
End courses.

(** ** Every delivery takes one of the courses *)

(** C24: Handling a valid message always comes to an end, and takes one of the described courses,
    whatever the claim store, the chain, the pipeline and ZATCA answer, as long as completing and
    releasing a claim, releasing a booking and acknowledging do not fail. Under the lock a
    duplicate or conflicting request is acknowledged and nothing else; one in flight, or whose
    claim failed, is left; and a won one goes through Stored, Prepare, Book, Build, Commit, Submit
    and Record in this order and each at most once, from the stored invoice on when there is one,
    and not past an answer that is already recorded. The first failure ends it: a booking that was
    not committed is released, then the claim is released, or completed and acknowledged when the
    input was rejected; without a failure the claim is completed and the delivery acknowledged.
    The result is the error of that failure, the rejection, or what Submit returned. *)
Theorem HandleMessage_courses {Prepared} m (o : oracle (Prepared := Prepared)) :
  valid_message m -> (forall h e, clean (Call e (o h e)) = true) ->
  exists r t, decides m r t
    /\ exec o (HandleMessage m true) []
       = (r, [Call (ELock (PartitionKey m)) tt] ++ t ++ [Call (EUnlock (PartitionKey m)) tt]).
Proof.
  intros Hv Ho. pose proof (exec_runs o (HandleMessage m true) []) as Hr.
  destruct (exec o (HandleMessage m true) []) as [r h] eqn:E. cbn in Hr.
  assert (Hc : forallb clean h = true).
  { change h with (r, h).2. rewrite <- E. by apply exec_clean. }
  destruct (HandleMessage_course m r h Hv Hr Hc) as (t & Ht & ->). by exists r, t.
Qed.

Lemma HandleMessage_courses_witness :
  exists r t, decides bill_envelope r t
    /\ happy_run = (r, [Call (ELock (PartitionKey bill_envelope)) tt] ++ t
                       ++ [Call (EUnlock (PartitionKey bill_envelope)) tt]).
Proof.
  apply (HandleMessage_courses bill_envelope happy); [by apply Message_Validate_None; vm_compute|].
  intros h e. by destruct e.
Defined.

(** The course of that run: twelve calls, ending with the acknowledgement. *)
Example happy_course :
  map (fun c : call unit => projT1 c) happy_run.2
  = [ELock (PartitionKey bill_envelope); EClaim bill_envelope; EStored bill_envelope;
     EPrepare bill_envelope; EBook bill_envelope; EBuild tt sample_booking;
     ECommit sample_booking sample_invoice; ESubmit sample_invoice;
     ERecord sample_invoice sample_outcome; EComplete bill_envelope; EAck;
     EUnlock (PartitionKey bill_envelope)].
Proof. vm_compute. reflexivity. Qed.
