(* ===== verification/Worker.v ===== *)
(** * The worker of a branch ([runWorkerContext] of [cmd/daemon/worker.go])

    The worker subscribes to the ordered subject of its branch and handles the
    deliveries it fetches one after the other, until its context is cancelled.
    What NATS and the context answer in each turn of the loop is the input; the
    handling of a delivery is the program of [Delivery]. *)

From S2P Require Import Prelude Models GoStrings GoErrors Uuid Message ChainTypes Control Json.
From S2P Require Import Envelope Claims Program Stream StreamSpec Delivery StreamThm.
Local Open Scope Z_scope.
Local Open Scope go_scope.

(** The durable consumer a worker asks for; durations are in nanoseconds. *)
Record consumer : Type := mkConsumer {
  cs_subject : string;
  cs_durable : string;
  cs_AckWait : Z;
  cs_MaxDeliver : Z
}.

Definition minute : Z := 60 * 10 ^ 9.

Definition worker_consumer (tc : tenant_ctx) (ackWait : Z) (dbName : string) (branchID : Z) : consumer :=
  mkConsumer (OrderedSubject dbName branchID) (OrderedConsumerName dbName branchID)
    (if ackWait <=? 0 then 5 * minute else ackWait)
    (if tc_maxDeliver tc <=? 0 then 10 else tc_maxDeliver tc).

(** What a failed fetch tells: whether the worker's context is done, and
    whether the error is one of the two timeouts. *)
Record fetch_error : Type := mkFetchError { fe_ctx_done : bool; fe_timeout : bool; fe_deadline : bool }.

(** One turn of the loop. *)
Inductive turn : Type :=
| Done                                             (* the context is done when the turn begins *)
| Fetched (r : result fetch_error (list delivery)).

(** What the loop does besides its calls. *)
Inductive worker_action : Type :=
| WHandled (raw : delivery)
| WSleep (nanoseconds : Z)
| WUnsubscribe.

Section worker.
Context {Prepared : Type}.
Local Abbreviation prog := (prog Prepared).

Section loop.
Context (tc : tenant_ctx) (dbName : string) (branchID : Z).

(** [for _, raw := range msgs]. *)
Fixpoint handle_all (msgs : list delivery) : prog (list worker_action) :=
  match msgs with
  | [] => Ret []
  | raw :: msgs' =>
      run! _t := handleDelivery tc dbName branchID raw in
      run! rest := handle_all msgs' in
      Ret (WHandled raw :: rest)
  end.

(** The loop, as far as its turns are known. *)
Fixpoint worker_loop (turns : list turn) : prog (list worker_action) :=
  match turns with
  | [] => Ret []
  | Done :: _ => Ret [WUnsubscribe]
  | Fetched (Err e) :: turns' =>
      if fe_ctx_done e then Ret [WUnsubscribe]
      else
        run! rest := worker_loop turns' in
        Ret ((if negb (fe_timeout e) && negb (fe_deadline e) then [WSleep (5 * 10 ^ 9)] else []) ++ rest)
  | Fetched (Ok msgs) :: turns' =>
      run! done := handle_all msgs in
      run! rest := worker_loop turns' in
      Ret (done ++ rest)
  end.
End loop.

(** [PullSubscribe] answers with an error or a subscription. *)
Definition runWorkerContext (PullSubscribe : consumer -> option error) (tc : tenant_ctx) (ackWait : Z)
    (dbName : string) (branchID : Z) (turns : list turn) : prog (list worker_action) :=
  match PullSubscribe (worker_consumer tc ackWait dbName branchID) with
  | Some _ => Ret []
  | None => worker_loop tc dbName branchID turns
  end.

(** ** What a worker is for *)

(** Whether a turn ends the worker. *)
Definition stops (t : turn) : bool :=
  match t with Done => true | Fetched (Err e) => fe_ctx_done e | Fetched (Ok _) => false end.

Definition turn_deliveries (t : turn) : list delivery :=
  match t with Fetched (Ok msgs) => msgs | _ => [] end.

(** The deliveries a worker is given before it is stopped. *)
Fixpoint given (turns : list turn) : list delivery :=
  match turns with
  | [] => []
  | t :: turns' => if stops t then [] else turn_deliveries t ++ given turns'
  end.

Definition handled (l : list worker_action) : list delivery :=
  omap (fun a => match a with WHandled raw => Some raw | _ => None end) l.

Lemma handled_app l1 l2 : handled (l1 ++ l2) = handled l1 ++ handled l2.
Proof. apply omap_app. Qed.

Lemma handled_map msgs : handled (map WHandled msgs) = msgs.
Proof. induction msgs as [|raw msgs IH]; [done|]. cbn. f_equal. exact IH. Qed.

Section runs.
Context (tc : tenant_ctx) (dbName : string) (branchID : Z).

(** A history is one contract after the other. *)
Definition one_by_one (raws : list delivery) (h : list (call Prepared)) : Prop :=
  exists hs, h = concat hs /\ Forall2 (delivery_contract tc dbName branchID) raws hs.

Lemma one_by_one_app l1 l2 h1 h2 : one_by_one l1 h1 -> one_by_one l2 h2 -> one_by_one (l1 ++ l2) (h1 ++ h2).
Proof.
  intros (hs1 & -> & H1) (hs2 & -> & H2). exists (hs1 ++ hs2). rewrite concat_app. split; [done|].
  by apply Forall2_app.
Qed.

Lemma one_by_one_nil : one_by_one [] [].
Proof. exists []. split; [done|constructor]. Qed.

Lemma handle_all_runs msgs l h : runs (handle_all tc dbName branchID msgs) [] l h ->
  l = map WHandled msgs /\ one_by_one msgs h.
Proof.
  revert l h. induction msgs as [|raw msgs IH]; cbn; intros l h.
  - intros [-> ->]%runs_inv. split; [done|apply one_by_one_nil].
  - intros (u & h1 & h2 & -> & H1 & H2)%runs_bind.
    apply runs_bind in H2 as (rest & h2' & h3 & -> & H2 & H3). apply runs_inv in H3 as [-> ->].
    destruct (IH _ _ H2) as [-> Ho]. split; [done|]. rewrite app_nil_r.
    apply (one_by_one_app [raw]); [|done]. exists [h1]. cbn. rewrite app_nil_r. split; [done|].
    constructor; [|constructor]. by apply handleDelivery_runs in H1.
Qed.

Lemma worker_loop_runs turns l h : runs (worker_loop tc dbName branchID turns) [] l h ->
  one_by_one (given turns) h /\ handled l = given turns
  /\ exists l', l = l' ++ (if existsb stops turns then [WUnsubscribe] else []) /\ WUnsubscribe ∉ l'.
Proof.
  assert (Hnil : forall P : list worker_action, P = [] -> WUnsubscribe ∉ P)
    by (intros P -> Hin; by apply elem_of_nil in Hin).
  revert l h. induction turns as [|[|[msgs|e]] turns IH]; cbn; intros l h.
  - intros [-> ->]%runs_inv. split_and!; [apply one_by_one_nil|done|]. exists []. split; [done|by apply Hnil].
  - intros [-> ->]%runs_inv. split_and!; [apply one_by_one_nil|done|]. exists []. split; [done|by apply Hnil].
  - intros (done & h1 & h2 & -> & H1 & H2)%runs_bind.
    apply runs_bind in H2 as (rest & h2' & h3 & -> & H2 & H3). apply runs_inv in H3 as [-> ->].
    apply handle_all_runs in H1 as [-> H1]. destruct (IH _ _ H2) as (Ho & Hh & l' & -> & Hl').
    rewrite app_nil_r. split_and!; [by apply one_by_one_app| |].
    + by rewrite handled_app, Hh, handled_map.
    + exists (map WHandled msgs ++ l'). rewrite app_assoc. split; [done|].
      intros [(raw & ? & _)%list_elem_of_fmap|]%elem_of_app; done.
  - destruct (fe_ctx_done e); cbn [orb].
    { intros [-> ->]%runs_inv. split_and!; [apply one_by_one_nil|done|]. exists []. split; [done|by apply Hnil]. }
    intros (rest & h1 & h2 & -> & H1 & H2)%runs_bind. apply runs_inv in H2 as [-> ->].
    destruct (IH _ _ H1) as (Ho & Hh & l' & -> & Hl'). rewrite app_nil_r.
    split_and!; [done| |].
    + rewrite handled_app, Hh. by destruct (negb _ && _).
    + eexists (_ ++ l'). rewrite app_assoc. split; [done|]. intros [Hin|]%elem_of_app; [|done].
      destruct (negb _ && _); [by apply list_elem_of_singleton in Hin|by apply elem_of_nil in Hin].
Qed.
End runs.
End worker.

(** The budget of a delivery is spent exactly at the consumer's own limit, when
    the limit is configured as [config.NATSConfig.Validate] wants it. *)
Lemma budget_at_consumer_limit tc ackWait dbName branchID raw : 1 <= tc_maxDeliver tc ->
  deliveryBudgetExhausted raw (tc_maxDeliver tc) = true
  <-> exists n, dl_num_delivered raw = Some n
                /\ cs_MaxDeliver (worker_consumer tc ackWait dbName branchID) <= i64 n.
Proof.
  intros Hm. unfold deliveryBudgetExhausted, worker_consumer. cbn [cs_MaxDeliver].
  replace (tc_maxDeliver tc <? 1) with false by lia. replace (tc_maxDeliver tc <=? 0) with false by lia.
  destruct (dl_num_delivered raw) as [n|]; [|split; [done|by intros (n & ? & _)]].
  rewrite Z.leb_le. split; [by exists n|]. by intros (n' & [= <-] & ?).
Qed.

(** C11: A worker handles exactly the deliveries it is given before it is stopped, one at a time
    and in their order: whatever NATS, the stores, the server and the mail relay answer, it runs on,
    and the calls of its run are those of one delivery after the other, each within the contract of a
    delivery. A delivery that does not decode or is foreign is only terminated; any other makes only
    the calls the stream's contract and the finalisation allow and is settled, reported, finalised
    and acknowledged at the delivery limit, or terminated. A stopped worker gives up its subscription
    once, as its last action, and only then; a worker that cannot subscribe does nothing. *)
Theorem worker_contract {Prepared} PullSubscribe tc ackWait dbName branchID turns :
  (forall o : oracle (Prepared := Prepared), exists l (h : list (call Prepared)),
     runs (runWorkerContext PullSubscribe tc ackWait dbName branchID turns) [] l h)
  /\ forall l (h : list (call Prepared)),
       runs (runWorkerContext PullSubscribe tc ackWait dbName branchID turns) [] l h ->
       match PullSubscribe (worker_consumer tc ackWait dbName branchID) with
       | Some _ => l = [] /\ h = []
       | None =>
           one_by_one tc dbName branchID (given turns) h /\ handled l = given turns
           /\ exists l', l = l' ++ (if existsb stops turns then [WUnsubscribe] else [])
                         /\ WUnsubscribe ∉ l'
       end.
Proof.
  split.
  - intros o. eexists _, _. apply (exec_runs o).
  - intros l h. unfold runWorkerContext. destruct (PullSubscribe _).
    + by intros [-> ->]%runs_inv.
    + apply worker_loop_runs.
Qed.

(** Two deliveries, a timeout and an error of the server, then the stop. *)
Definition sample_turns : list turn :=
  [ Fetched (Ok [mkDelivery bill_envelope_json (Some 1)]); Fetched (Err (mkFetchError false true false));
    Fetched (Ok [mkDelivery "{}" None]); Fetched (Err (mkFetchError false false false)); Done;
    Fetched (Ok [mkDelivery bill_envelope_json (Some 2)]) ].

Example sample_worker :
  let '(l, h) := exec happy (runWorkerContext (fun _ => None) happy_context 0 "tenant_acme" 7 sample_turns) [] in
  (l, length h) = ([ WHandled (mkDelivery bill_envelope_json (Some 1)); WHandled (mkDelivery "{}" None);
                     WSleep (5 * 10 ^ 9); WUnsubscribe ], 13%nat).
Proof. by vm_compute. Qed.
