(* ===== verification/Reconcile.v ===== *)
(** * Operator reconciliation ([cmd/daemon/reconcile.go])

    [handleReconcileRequest] answers a status request from the stored invoice,
    and records external evidence on an invoice that has no final answer yet.
    [respond] is the body of the NATS handler around it. *)

From S2P Require Import Prelude Base64 Models GoStrings GoErrors Uuid Message ChainTypes Control Json.
From S2P Require Import Envelope Database Claims Chain ChainSpec Program Stream StreamSpec.
Local Open Scope Z_scope.
Local Open Scope go_scope.

(** [queue.Message{ID: req.BillID}]. *)
Definition bill_query (bill : Z) : Message := mkMessage "" bill 0 "" "" "" "" "" "" "" "".

Definition reply_error (text : string) : ReconcileReply := mkReconcileReply false "" "" "" "" text.

Definition status_reply (stored : SignedInvoice) : ReconcileReply :=
  mkReconcileReply true
    (if String.eqb (si_Outcome stored) "" then "pending" else si_Outcome stored)
    (if String.eqb (si_OutcomeEvidence stored) EvidenceExternal then "external" else "recorded")
    (si_EvidenceID stored) (si_Hash stored) "".

Definition external_outcome (req : ReconcileRequest) : Outcome :=
  mkOutcome (rq_State req) (rq_ProviderCode req) (rq_Message req) EvidenceExternal
    (rq_EvidenceID req).

Definition recorded_reply (req : ReconcileRequest) (stored : SignedInvoice) : ReconcileReply :=
  mkReconcileReply true (rq_State req) "external" (rq_EvidenceID req) (si_Hash stored) "".

Definition reconcilable (stored : SignedInvoice) : bool :=
  String.eqb (si_Outcome stored) "" || String.eqb (si_Outcome stored) OutcomeAmbiguous.

Section reconcile.
Context {Prepared : Type}.
Local Abbreviation prog := (prog Prepared).

(** [tenantKey] and [dbName] are those of the tenant context. *)
Definition handleReconcileRequest (tenantKey dbName : string) (req : ReconcileRequest)
    : prog ReconcileReply :=
  if negb (String.eqb (rq_TenantKey req) tenantKey) || negb (String.eqb (rq_DBName req) dbName)
  then Ret (reply_error "the request is for another tenant")
  else
    do! found := EStored (bill_query (rq_BillID req)) in
    match found with
    | Err e => Ret (reply_error (error_text e))
    | Ok None => Ret (reply_error ("bill " +:+ itoa (rq_BillID req) +:+ " has no committed invoice"))
    | Ok (Some stored) =>
        if negb (String.eqb (rq_InvoiceUUID req) "")
           && negb (String.eqb (rq_InvoiceUUID req) (si_UUID stored))
        then Ret (reply_error "invoice UUID does not match the stored invoice")
        else if negb (String.eqb (rq_InvoiceHash req) "")
                && negb (String.eqb (rq_InvoiceHash req) (si_Hash stored))
        then Ret (reply_error "invoice hash does not match the stored invoice")
        else if String.eqb (rq_Action req) ReconcileActionStatus then Ret (status_reply stored)
        else if negb (reconcilable stored)
        then Ret (reply_error "the invoice already has a final recorded outcome")
        else
          do! r := ERecord stored (external_outcome req) in
          Ret (match r with
               | Err e => reply_error (error_text e)
               | Ok _ => recorded_reply req stored
               end)
    end.

(** The handler of [subscribeReconcileResponder]: decode, check, answer. *)
Definition respond (tenantKey dbName : string) (data : string) : prog ReconcileReply :=
  match DecodeReconcileRequest data with
  | Err e => Ret (reply_error (error_text e))
  | Ok req =>
      if negb (String.eqb (rq_TenantKey req) tenantKey)
      then Ret (reply_error "the request subject and tenant key do not match")
      else handleReconcileRequest tenantKey dbName req
  end.

(** What an operator request may do: read the stored invoice of its bill, and
    record external evidence on it while it has no final answer. *)
Definition operator_allowed (bill : Z) (h : list (call Prepared)) (e : event Prepared) : Prop :=
  match e with
  | EStored m => m = bill_query bill
  | ERecord i o =>
      did h (EStored (bill_query bill)) (Ok (Some i)) /\ reconcilable i = true
      /\ oc_Evidence o = EvidenceExternal /\ record_state (oc_State o) = true
  | _ => False
  end.

Lemma handleReconcileRequest_wp tenantKey dbName req :
  ReconcileRequest_Validate req = None ->
  wp (operator_allowed (rq_BillID req)) (handleReconcileRequest tenantKey dbName req) []
     (fun _ _ => True).
Proof.
  intros Hv. unfold handleReconcileRequest. destruct (negb _ || _); [done|].
  cbn -[operator_allowed]. split; [done|]. intros [[i|]|e]; [|done..].
  destruct (negb _ && _); [done|]. destruct (negb _ && _); [done|].
  destruct (String.eqb_spec (rq_Action req) ReconcileActionStatus) as [|Hne]; [done|].
  destruct (reconcilable i) eqn:Hr; [|done]. cbn -[operator_allowed]. split; [|done].
  split_and!; [apply list_elem_of_here|done|done|].
  assert (Ha : rq_Action req = ReconcileActionRecord).
  { unfold ReconcileRequest_Validate in Hv.
    destruct (String.eqb_spec (rq_Action req) ReconcileActionStatus); [done|].
    destruct (String.eqb_spec (rq_Action req) ReconcileActionRecord); [done|].
    cbn in Hv. repeat case_match; done. }
  by destruct (record_request_fields _ Hv Ha).
Qed.
End reconcile.

(** ** The handler on the tables *)

(** Run a program that only reads and records invoices; the n-th call runs in
    surroundings [env n]. *)
Fixpoint exec_chain {A} (env : nat -> dbenv) (n : nat) (p : prog Empty_set A) (d : db)
    : option (A * db) :=
  match p with
  | Ret a => Some (a, d)
  | Vis e k =>
      match e as e return (answer e -> prog Empty_set A) -> option (A * db) with
      | EStored m => fun k => let '(x, d') := run_db (SQLChain_Stored m) (env n) d in
                              exec_chain env (S n) (k x) d'
      | ERecord i o => fun k => let '(x, d') := run_db (SQLChain_Record i o) (env n) d in
                                exec_chain env (S n) (k x) d'
      | _ => fun _ => None
      end k
  end.

Definition run_request (env : nat -> dbenv) (tenantKey dbName : string) (req : ReconcileRequest)
    (d : db) : option (ReconcileReply * db) :=
  exec_chain env 0 (handleReconcileRequest tenantKey dbName req) d.

(** ** What reconciliation achieves *)

Lemma Stored_quiet_run m env d :
  no_faults env -> run_db (SQLChain_Stored m) env d = (Ok (stored_row (ID m) d), d).
Proof.
  intros Hq. unfold run_db, SQLChain_Stored, bind, select, query.
  rewrite stmt_no_faults by done. destruct (stored_row (ID m) d); done.
Qed.

(** With faults it fails and changes nothing. *)
Lemma Stored_env m env d x d' : run_db (SQLChain_Stored m) env d = (x, d') ->
  d' = d /\ (x = Ok (stored_row (ID m) d) \/ exists e, x = Err e).
Proof.
  unfold run_db. destruct (SQLChain_Stored m env (0%nat, d)) as [x0 [n d0]] eqn:E. intros [= <- <-].
  apply Stored_inv in E as [-> E]. split; [done|].
  destruct x0 as [a|e]; [left|right; by exists e]. by rewrite E.
Qed.

(** [Record] of a valid outcome without faults, on a pending and on an
    answered submission. *)
Lemma Record_quiet i o env d st s bl :
  no_faults env -> record_check o = Ok st ->
  submissions d !! si_SourceID i = Some s -> bills d !! si_SourceID i = Some bl ->
  run_db (SQLChain_Record i o) env d
  = (Ok tt, if String.eqb (sb_outcome_state s) outcomePending
            then recorded_db (si_SourceID i) st (env_server_now env) o s d else d).
Proof.
  intros Hq Hck Hs Hbl. unfold run_db, SQLChain_Record. rewrite Hck.
  pose proof (submissionStatus_not_pending _ _ (record_check_status _ _ Hck)) as Hnp.
  unfold bind at 1. rewrite in_tx_no_faults by done.
  unfold record_body, bind at 1, select, query. rewrite stmt_no_faults by done.
  cbn [mbind option_bind]. rewrite Hs. cbn [mbind option_bind].
  unfold bind at 1, update_answer, update_row. rewrite stmt_no_faults, Hs by done.
  destruct (String.eqb_spec (sb_outcome_state s) outcomePending) as [Hp|Hp].
  - rewrite decide_False; [|by apply answered_row_ne].
    unfold bind at 1. rewrite stmt_no_faults by done. cbn [Z.eqb].
    unfold exec_then at 1, bind at 1, append_outcome. rewrite stmt_no_faults by done.
    unfold recorded_db.
    destruct (String.eqb (oc_State o) OutcomeAccepted || String.eqb (oc_State o) OutcomeWarning); [|done].
    unfold exec_then, bind, update_bill, update_row. rewrite stmt_no_faults by done.
    cbn [bills set_submissions]. by rewrite Hbl.
  - unfold bind at 1. by rewrite stmt_no_faults by done.
Qed.

(** A record request that the daemon accepts for the invoice it names. *)
Record record_request (tenantKey dbName : string) (req : ReconcileRequest) (s : submission_row)
    : Prop := {
  rr_valid : ReconcileRequest_Validate req = None;
  rr_action : rq_Action req = ReconcileActionRecord;
  rr_tenant : rq_TenantKey req = tenantKey;
  rr_db : rq_DBName req = dbName;
  rr_uuid : rq_InvoiceUUID req = "" \/ rq_InvoiceUUID req = sb_invoice_uuid s;
  rr_hash : rq_InvoiceHash req = sb_invoice_hash s
}.

Lemma external_check req :
  ReconcileRequest_Validate req = None -> rq_Action req = ReconcileActionRecord ->
  exists st, record_check (external_outcome req) = Ok st.
Proof.
  intros Hv Ha. destruct (record_request_fields _ Hv Ha) as (Hst & Hb & Ht & _).
  unfold record_check. cbn [oc_State oc_Evidence oc_EvidenceID external_outcome].
  rewrite Hb, Ht. cbn. unfold record_state in Hst. unfold submissionStatus.
  destruct (String.eqb (rq_State req) OutcomeAccepted); [eauto|].
  destruct (String.eqb (rq_State req) OutcomeRejected); [eauto|].
  destruct (String.eqb (rq_State req) OutcomeWarning); [eauto|]. done.
Qed.

Lemma invoice_of_columns bill s qr :
  si_Hash (invoice_of bill s qr) = sb_invoice_hash s
  /\ si_UUID (invoice_of bill s qr) = sb_invoice_uuid s
  /\ si_SourceID (invoice_of bill s qr) = bill
  /\ (si_Outcome (invoice_of bill s qr)
      = if String.eqb (sb_outcome_state s) outcomePending then "" else sb_outcome_state s).
Proof.
  unfold invoice_of. destruct (String.eqb (sb_outcome_state s) outcomePending); [done|].
  by destruct (parseOutcomeEvidence _) as [[? ?] ?].
Qed.

Lemma run_record_request env tenantKey dbName req d s bl st :
  (forall n, no_faults (env n)) -> record_request tenantKey dbName req s ->
  submissions d !! rq_BillID req = Some s -> bills d !! rq_BillID req = Some bl ->
  record_check (external_outcome req) = Ok st ->
  sb_outcome_state s = outcomePending \/ sb_outcome_state s = OutcomeAmbiguous ->
  run_request env tenantKey dbName req d
  = Some (recorded_reply req (invoice_of (rq_BillID req) s (bl_qr_code bl)),
          if String.eqb (sb_outcome_state s) outcomePending
          then recorded_db (rq_BillID req) st (env_server_now (env 1%nat)) (external_outcome req) s d
          else d).
Proof.
  intros Hq [Hv Ha Ht Hdb Hu Hh] Hs Hbl Hck Hout.
  unfold run_request, handleReconcileRequest. rewrite Ht, Hdb, !(proj2 (String.eqb_eq _ _) eq_refl).
  cbn [negb orb exec_chain]. rewrite Stored_quiet_run by done. cbn [ID bill_query].
  unfold stored_row. rewrite Hs, Hbl.
  set (inv := invoice_of (rq_BillID req) s (bl_qr_code bl)).
  destruct (invoice_of_columns (rq_BillID req) s (bl_qr_code bl)) as (Eh & Eu & Ei & Eo).
  fold inv in Eh, Eu, Ei, Eo.
  replace (negb (String.eqb (rq_InvoiceUUID req) "") && negb (String.eqb (rq_InvoiceUUID req) (si_UUID inv)))
    with false.
  2:{ destruct Hu as [->| ->]; [done|]. rewrite Eu, (proj2 (String.eqb_eq _ _) eq_refl).
      by rewrite andb_false_r. }
  rewrite Eh, Hh, (proj2 (String.eqb_eq _ _) eq_refl), andb_false_r, Ha.
  change (String.eqb ReconcileActionRecord ReconcileActionStatus) with false. cbv beta iota.
  assert (Hrec : reconcilable inv = true).
  { unfold reconcilable. rewrite Eo. by destruct Hout as [-> | ->]. }
  rewrite Hrec. cbn [negb exec_chain].
  rewrite (Record_quiet inv _ (env 1%nat) d st s bl) by (rewrite ?Ei; done).
  by rewrite Ei.
Qed.

(** A pending invoice whose stored hash were 64 hexadecimal digits would be
    reconciled: a valid record request with that hash is accepted, and the
    invoice then carries the operator's state, with one row added to the answer
    log. The hashes that the pipeline stores have another form; see
    [stored_invoice_requests]. *)
Theorem pending_reconciled env tenantKey dbName req d s bl :
  (forall n, no_faults (env n)) -> record_request tenantKey dbName req s ->
  submissions d !! rq_BillID req = Some s -> bills d !! rq_BillID req = Some bl ->
  sb_outcome_state s = outcomePending ->
  exists reply d' s', run_request env tenantKey dbName req d = Some (reply, d')
    /\ rp_Accepted reply = true /\ rp_State reply = rq_State req
    /\ submissions d' !! rq_BillID req = Some s' /\ sb_outcome_state s' = rq_State req
    /\ length (outcomes d') = S (length (outcomes d)).
Proof.
  intros Hq Hr Hs Hbl Hp.
  destruct (external_check req (rr_valid _ _ _ _ Hr) (rr_action _ _ _ _ Hr)) as [st Hck].
  eexists _, _, _. split; [eapply run_record_request; eauto|].
  rewrite Hp. cbn [String.eqb]. change (String.eqb outcomePending outcomePending) with true.
  split; [done|]. split; [done|]. split; [cbn; by rewrite lookup_insert_eq|].
  split; [done|]. cbn. rewrite length_app. cbn. lia.
Qed.

(** An ambiguous invoice is not: the daemon lets the same request through
    and answers that it is accepted with the operator's state, but changes
    nothing, because the recording applies to pending invoices only; the
    invoice stays ambiguous. *)
Theorem ambiguous_reconciliation_lost env tenantKey dbName req d s bl :
  (forall n, no_faults (env n)) -> record_request tenantKey dbName req s ->
  submissions d !! rq_BillID req = Some s -> bills d !! rq_BillID req = Some bl ->
  sb_outcome_state s = OutcomeAmbiguous ->
  exists reply, run_request env tenantKey dbName req d = Some (reply, d)
    /\ rp_Accepted reply = true /\ rp_State reply = rq_State req
    /\ rp_State reply <> sb_outcome_state s.
Proof.
  intros Hq Hr Hs Hbl Hp.
  destruct (external_check req (rr_valid _ _ _ _ Hr) (rr_action _ _ _ _ Hr)) as [st Hck].
  destruct (record_request_fields _ (rr_valid _ _ _ _ Hr) (rr_action _ _ _ _ Hr)) as (Hst & _).
  eexists. split; [etransitivity; [eapply run_record_request; eauto|]|].
  - by rewrite Hp.
  - split_and!; [done..|]. cbn. rewrite Hp. by intros E; rewrite E in Hst.
Qed.

(** C30: Operator requests for an invoice as the pipeline stores it, whose hash is the Base64 text
    of a 32-byte digest. Whatever a valid request asks and whatever faults strike, the tables stay
    as they are: no record request is ever accepted, because it must carry 64 hexadecimal digits
    and these never equal the stored hash. Accepted are exactly the status requests for the own
    tenant and database that give no hash and no UUID other than the stored one (unless the read
    of the invoice fails), and they are answered with the stored state and hash. *)
Theorem stored_invoice_requests env tenantKey dbName req d s bl digest :
  ReconcileRequest_Validate req = None ->
  submissions d !! rq_BillID req = Some s -> bills d !! rq_BillID req = Some bl ->
  String.length digest = 32%nat -> sb_invoice_hash s = base64_encode digest ->
  let asked := rq_TenantKey req = tenantKey /\ rq_DBName req = dbName
    /\ rq_Action req = ReconcileActionStatus /\ rq_InvoiceHash req = ""
    /\ (rq_InvoiceUUID req = "" \/ rq_InvoiceUUID req = sb_invoice_uuid s) in
  exists reply, run_request env tenantKey dbName req d = Some (reply, d)
    /\ (rp_Accepted reply = true -> asked /\ rp_InvoiceHash reply = sb_invoice_hash s
         /\ rp_State reply = if String.eqb (sb_outcome_state s) "" then "pending" else sb_outcome_state s)
    /\ (asked -> no_faults (env 0%nat) -> rp_Accepted reply = true).
Proof.
  intros Hv Hs Hbl Hd Hh asked.
  destruct (valid_request_fields _ Hv) as [Hact Hlen].
  assert (Hother : rq_InvoiceHash req <> "" -> rq_InvoiceHash req <> sb_invoice_hash s).
  { intros Hne E. destruct Hlen as [|Hlen]; [done|]. rewrite E, Hh, base64_length, Hd in Hlen. done. }
  assert (Hno : forall text, (asked -> False) -> exists reply,
            Some (reply_error text, d) = Some (reply, d)
            /\ (rp_Accepted reply = true -> asked /\ rp_InvoiceHash reply = sb_invoice_hash s
                 /\ rp_State reply = if String.eqb (sb_outcome_state s) "" then "pending" else sb_outcome_state s)
            /\ (asked -> no_faults (env 0%nat) -> rp_Accepted reply = true)).
  { intros text H. eexists. split; [reflexivity|]. by split. }
  unfold run_request, handleReconcileRequest.
  destruct (negb _ || _) eqn:Ht.
  { apply Hno. intros (E1 & E2 & _). by rewrite E1, E2, !String.eqb_refl in Ht. }
  apply orb_false_iff in Ht as [Ht%negb_false_iff%String.eqb_eq Hdb%negb_false_iff%String.eqb_eq].
  cbn [exec_chain]. destruct (run_db _ (env 0%nat) d) as [x d'] eqn:E.
  destruct (Stored_env _ _ _ _ _ E) as [-> [-> |[e ->]]]; cycle 1.
  { cbn [exec_chain]. eexists. split; [reflexivity|]. split; [done|]. intros _ Hq.
    rewrite Stored_quiet_run in E by done. by injection E. }
  unfold stored_row. cbn [ID bill_query]. rewrite Hs, Hbl.
  set (inv := invoice_of (rq_BillID req) s (bl_qr_code bl)).
  destruct (invoice_of_columns (rq_BillID req) s (bl_qr_code bl)) as (Eh & Eu & _ & Eo).
  fold inv in Eh, Eu, Eo. rewrite Eh, Eu.
  destruct (String.eqb_spec (rq_InvoiceUUID req) "") as [Hu|Hu];
    [|destruct (String.eqb_spec (rq_InvoiceUUID req) (sb_invoice_uuid s)) as [Hu'|Hu']]; cbn [negb andb];
    [| |apply Hno; by intros (_ & _ & _ & _ & [|])].
  all: destruct (String.eqb_spec (rq_InvoiceHash req) "") as [Hh0|Hh0]; cbn [negb andb];
    [|rewrite (proj2 (String.eqb_neq _ _) (Hother Hh0)); cbn [negb]; apply Hno; by intros (_ & _ & _ & ? & _)].
  all: destruct Hact as [Ha|Ha];
    [|destruct (record_request_fields _ Hv Ha) as (_ & _ & _ & Hne & _); done].
  all: rewrite Ha; change (String.eqb ReconcileActionStatus ReconcileActionStatus) with true; cbn [exec_chain].
  all: eexists; split; [reflexivity|]; split; [|done]; intros _; split; [split_and!; auto|].
  all: split; [exact Eh|]; cbn [rp_State status_reply]; rewrite Eo; unfold outcomePending.
  all: destruct (String.eqb_spec (sb_outcome_state s) "pending") as [->|]; done.
Qed.

(** ** Witnesses *)

Definition hex64 : string := "0123456789abcdef0123456789abcdef0123456789abcdef0123456789abcdef".
Definition sample_submission (hash state : string) : submission_row :=
  mkSubmission 1 7 1 state 1 GenesisPIH (InvoiceUUID bill_envelope) hash InvoiceSimplified
    "<Invoice/>" None None None None None None.
Definition reconcile_db (hash state : string) : db :=
  mkDB ∅ {[42 := mkBill 7 1 None None None]} {[42 := sample_submission hash state]} 2 [] ∅.
Definition sample_request : ReconcileRequest :=
  mkReconcileRequest "acme-0001" "tenant_acme" 7 42 ReconcileActionRecord "" hex64 OutcomeAccepted
    "200" "confirmed" "portal-77".

Lemma sample_record_request state :
  record_request "acme-0001" "tenant_acme" sample_request (sample_submission hex64 state).
Proof. by split; [vm_compute| | | |left|]. Qed.

Lemma pending_reconciled_witness :
  exists d' s', submissions d' !! 42 = Some s' /\ sb_outcome_state s' = OutcomeAccepted.
Proof.
  destruct (pending_reconciled (fun _ => quiet_env 5) "acme-0001" "tenant_acme" sample_request
    (reconcile_db hex64 outcomePending) (sample_submission hex64 outcomePending)
    (mkBill 7 1 None None None) (fun _ => quiet_env_no_faults 5) (sample_record_request _)
    eq_refl eq_refl eq_refl) as (reply & d' & s' & _ & _ & _ & H1 & H2 & _).
  exists d', s'. split; [exact H1 | exact H2].
Defined.

Lemma ambiguous_reconciliation_lost_witness :
  exists reply, run_request (fun _ => quiet_env 5) "acme-0001" "tenant_acme" sample_request
                  (reconcile_db hex64 OutcomeAmbiguous)
                = Some (reply, reconcile_db hex64 OutcomeAmbiguous)
    /\ rp_Accepted reply = true.
Proof.
  destruct (ambiguous_reconciliation_lost (fun _ => quiet_env 5) "acme-0001" "tenant_acme"
    sample_request (reconcile_db hex64 OutcomeAmbiguous) (sample_submission hex64 OutcomeAmbiguous)
    (mkBill 7 1 None None None) (fun _ => quiet_env_no_faults 5) (sample_record_request _)
    eq_refl eq_refl eq_refl) as (reply & H1 & H2 & _).
  exists reply. split; [exact H1 | exact H2].
Defined.

Definition sample_digest : string := "not a real hash, just 32 bytes!!".

(** A status request for such an invoice is answered; the record request above is not. *)
Lemma stored_invoice_requests_witness :
  let req := mkReconcileRequest "acme-0001" "tenant_acme" 7 42 ReconcileActionStatus "" "" "" "" "" "" in
  let d := reconcile_db (base64_encode sample_digest) outcomePending in
  exists reply, run_request (fun _ => quiet_env 5) "acme-0001" "tenant_acme" req d = Some (reply, d)
    /\ rp_Accepted reply = true.
Proof.
  intros req d.
  destruct (stored_invoice_requests (fun _ => quiet_env 5) "acme-0001" "tenant_acme" req d
    (sample_submission (base64_encode sample_digest) outcomePending) (mkBill 7 1 None None None)
    sample_digest) as (reply & H1 & _ & H2); [vm_compute; reflexivity | reflexivity..|].
  exists reply. split; [exact H1|]. apply H2; [|exact (quiet_env_no_faults 5)].
  split; [reflexivity|]. split; [reflexivity|]. split; [reflexivity|]. split; [reflexivity|]. by left.
Defined.

Example record_refused :
  fst <$> run_request (fun _ => quiet_env 5) "acme-0001" "tenant_acme" sample_request
            (reconcile_db (base64_encode sample_digest) outcomePending)
  = Some (reply_error "invoice hash does not match the stored invoice").
Proof. vm_compute. reflexivity. Qed.
