(* ===== verification/System.v ===== *)
(** * The daemon as a concurrent system

    Any number of deliveries and operator requests run at once against one
    tenant database. A thread is a handler with the calls it has made; a step
    runs one call of one thread, creates the ordered stream of a worker, starts
    a handler on one of the streams, stops the daemon with all its threads, or
    changes the database from outside, as the backend or another daemon process
    does. Every worker has a stream of its own ([cmd/daemon/worker.go]), with
    its own map of partition mutexes: a delivery looks its mutex up with
    [lockFor] in the map of its stream and waits while it is held. A call to
    the claim store or the chain is one step on the tables, with any
    surroundings and faults. [Complete] and [Release] of the claim store are two
    statements each, so their answer is not tied to one state: a nil error of
    [Complete] only says that the claim is completed. *)

From S2P Require Import Prelude Models GoStrings GoErrors Uuid Message ChainTypes Control Json.
From S2P Require Import Envelope Database Claims ClaimsSpec Chain ChainSpec TenantSteps.
From S2P Require Import ChainInv Program Stream StreamSpec StreamThm Delivery Reconcile.
Local Open Scope Z_scope.

(** ** What a call leaves behind *)

Definition matches (i : SignedInvoice) (s : submission_row) : Prop :=
  si_BranchID i = sb_branch_id s /\ si_UUID i = sb_invoice_uuid s /\ si_ICV i = sb_invoice_icv s
  /\ si_PIH i = sb_previous_invoice_hash s /\ si_Hash i = sb_invoice_hash s
  /\ si_Kind i = sb_invoice_kind s /\ si_SignedXML i = sb_signed_xml s.

(** The invoice is the one committed for its bill. *)
Definition committed (d : db) (i : SignedInvoice) : Prop :=
  exists s, submissions d !! si_SourceID i = Some s /\ matches i s.

(** The request of [m] is completed, with [m]'s fingerprint. *)
Definition request_done (d : db) (m : Message) : Prop :=
  exists c, claims d !! request_of m = Some c /\ cl_state c = claimCompleted
            /\ cl_fingerprint c = RequestFingerprint m.

Lemma change_claims d d' k c :
  tenant_change d d' -> claims d !! k = Some c ->
  exists c', claims d' !! k = Some c' /\ cl_fingerprint c' = cl_fingerprint c
    /\ (cl_state c = claimCompleted -> c' = c).
Proof.
  intros H Hc. destruct H as [|env s m op d' He|cc env m b d' (row & _ & _ & _ & ->)
    |b d' (row & _ & _ & _ & ->)|b i d' (row & bill & _ & ->)|env id o d' (s & st & _ & _ & _ & ->)| |];
    [eauto| |eauto..].
  pose proof (claim_effect_evolve _ _ _ _ _ _ k He) as H. by rewrite Hc in H.
Qed.

Lemma committed_change d d' i : tenant_change d d' -> committed d i -> committed d' i.
Proof.
  intros H (s & Hs & Hm). destruct (ev_sub _ _ (change_evolves _ _ H) _ _ Hs) as (s' & Hs' & E & _).
  exists s'. split; [done|]. unfold matches, invoice_columns in *. by simplify_eq/=; destruct_and!; split_and!; congruence.
Qed.

Lemma request_done_change d d' m : tenant_change d d' -> request_done d m -> request_done d' m.
Proof.
  intros H (c & Hc & Hst & Hfp). destruct (change_claims _ _ _ _ H Hc) as (c' & Hc' & _ & Hsame).
  rewrite (Hsame Hst) in Hc'. by exists c.
Qed.

Section system.
Context {Prepared : Type}.
Local Abbreviation prog := (prog Prepared).
Local Abbreviation event := (event Prepared).
Local Abbreviation call := (call Prepared).

Definition call_sound (d : db) (c : call) : Prop :=
  match projT1 c as e return answer e -> Prop with
  | EClaim m => fun x => x = Ok ClaimDuplicate -> request_done d m
  | EComplete m => fun x => x = Ok tt -> request_done d m
  | EStored m => fun x => forall i, x = Ok (Some i) -> si_SourceID i = ID m /\ committed d i
  | ECommit _ i => fun x => x = Ok tt -> committed d i
  | _ => fun _ => True
  end (projT2 c).

Lemma call_sound_change d d' c : tenant_change d d' -> call_sound d c -> call_sound d' c.
Proof.
  intros H. destruct c as [e x]. destruct e; cbn; try done.
  - intros Hs E. by eapply request_done_change, Hs.
  - intros Hs E. by eapply request_done_change, Hs.
  - intros Hs i' E. destruct (Hs i' E). split; [done|]. by eapply committed_change.
  - intros Hs E. by eapply committed_change, Hs.
Qed.

(** ** Worlds and calls *)

Record world : Type := mkWorld {
  w_db : db;
  w_streams : list lock_table;    (* the map [partition] of each stream *)
  w_held : gset (nat * nat);      (* mutexes that are locked: stream and identity *)
  w_wire : list SignedInvoice     (* invoices sent to ZATCA, in order *)
}.

Definition with_db (w : world) (d : db) : world := mkWorld d (w_streams w) (w_held w) (w_wire w).

(** What a handler keeps of its own: the stream it runs on, and the mutex it has
    locked, the variable [lock] of [HandleMessage]. *)
Record frame : Type := mkFrame { fr_stream : nat; fr_lock : option nat }.

Context (s : SQLClaimStore) (c : SQLChain).

(** Calls to the claim store, the chain, the pipeline, the queue and the mail
    relay. *)
Definition serve (e : event) (x : answer e) (w w' : world) : Prop :=
  (match e as e return answer e -> Prop with
  | EClaim m => fun x => exists env d', run_db (SQLClaimStore_Claim s m) env (w_db w) = (x, d')
                                        /\ w' = with_db w d'
  | EComplete m => fun x => exists env d', claim_effect env s m OpComplete (w_db w) d'
                              /\ (x = Ok tt -> completed_by m (claims d' !! request_of m))
                              /\ w' = with_db w d'
  | EUnclaim m => fun _ => exists env d', claim_effect env s m OpRelease (w_db w) d'
                              /\ w' = with_db w d'
  | EStored m => fun x => exists env d', run_db (SQLChain_Stored m) env (w_db w) = (x, d')
                                         /\ w' = with_db w d'
  | EBook m => fun x => exists env d', run_db (SQLChain_Book c m) env (w_db w) = (x, d')
                                       /\ w' = with_db w d'
  | EUnbook b => fun x => exists env d', run_db (SQLChain_Release b) env (w_db w) = (x, d')
                                         /\ w' = with_db w d'
  | ECommit b i => fun x => exists env d', run_db (SQLChain_Commit b i) env (w_db w) = (x, d')
                                           /\ w' = with_db w d'
  | ERecord i o => fun x => exists env d', run_db (SQLChain_Record i o) env (w_db w) = (x, d')
                                           /\ w' = with_db w d'
  | ESubmit i => fun _ => w' = mkWorld (w_db w) (w_streams w) (w_held w) (w_wire w ++ [i])
  | EPrepare _ | EBuild _ _ | EAck | ETerm | EAlert _ _ => fun _ => w' = w
  | ELock _ | EUnlock _ => fun _ => False
  end) x.

(** [lock := s.lockFor(partition); lock.Lock()]: the mutex of the partition in
    the map of the handler's own stream, locked as soon as it is free. [lockFor]
    runs under the stream's own mutex and a call of it that has to wait changes
    the map no further, so look-up and lock are one step. *)
Definition lock_partition (partition : string) (f : frame) (w : world) (f' : frame) (w' : world) : Prop :=
  exists t, w_streams w !! fr_stream f = Some t /\
    let '(lock, t') := lockFor partition t in
    (fr_stream f, lock) ∉ w_held w
    /\ f' = mkFrame (fr_stream f) (Some lock)
    /\ w' = mkWorld (w_db w) (<[fr_stream f := t']> (w_streams w))
              ({[(fr_stream f, lock)]} ∪ w_held w) (w_wire w).

(** [lock.Unlock()] *)
Definition unlock (f : frame) (w : world) (f' : frame) (w' : world) : Prop :=
  exists lock, fr_lock f = Some lock /\ f' = mkFrame (fr_stream f) None
    /\ w' = mkWorld (w_db w) (w_streams w) (w_held w ∖ {[(fr_stream f, lock)]}) (w_wire w).

Definition perform (e : event) (x : answer e) (f : frame) (w : world) (f' : frame) (w' : world) : Prop :=
  match e with
  | ELock k => lock_partition k f w f' w'
  | EUnlock _ => unlock f w f' w'
  | _ => f' = f /\ serve e x w w'
  end.

(** ** Threads and steps *)

Inductive kind : Type :=
| Delivery (m : Message)    (* a delivery of this daemon's tenant and branch *)
| Refused                   (* an invalid or foreign envelope *)
| Operator (bill : Z).      (* a reconciliation request *)

Record thread : Type := mkThread {
  th_kind : kind;
  th_frame : frame;
  th_prog : prog unit;
  th_hist : list call
}.

Definition kind_allowed (k : kind) : list call -> event -> Prop :=
  match k with
  | Delivery m => delivery_allowed m
  | Refused => fun _ e => e = ETerm
  | Operator bill => operator_allowed bill
  end.

(** A handler as it starts, on one of the [n] streams of the daemon; an
    operator's request uses none of them. *)
Inductive starts (tc : tenant_ctx) (n : nat) : thread -> Prop :=
| start_delivery dbName branchID raw m stream :
    DecodeEnvelope (dl_data raw) = Ok m -> foreign_envelope tc dbName branchID m = false ->
    (stream < n)%nat ->
    starts tc n (mkThread (Delivery m) (mkFrame stream None)
      (handleDelivery tc dbName branchID raw) [])
| start_refused dbName branchID raw stream :
    match DecodeEnvelope (dl_data raw) with
    | Ok m => foreign_envelope tc dbName branchID m = true | Err _ => True end ->
    starts tc n (mkThread Refused (mkFrame stream None) (handleDelivery tc dbName branchID raw) [])
| start_operator dbName data stream :
    starts tc n (mkThread
      (Operator (match DecodeReconcileRequest data with Ok req => rq_BillID req | Err _ => 0 end))
      (mkFrame stream None) (pbind (respond (tc_TenantKey tc) dbName data) (fun _ => Ret tt)) []).

Record sys : Type := mkSys {
  sy_world : world;
  sy_threads : list thread;
  sy_past : list thread      (* threads of stopped daemons *)
}.

Inductive step (tc : tenant_ctx) (y : sys) : sys -> Prop :=
| step_worker :
    step tc y (mkSys (mkWorld (w_db (sy_world y)) (w_streams (sy_world y) ++ [new_locks])
                        (w_held (sy_world y)) (w_wire (sy_world y)))
                 (sy_threads y) (sy_past y))
| step_start th :
    starts tc (length (w_streams (sy_world y))) th ->
    step tc y (mkSys (sy_world y) (sy_threads y ++ [th]) (sy_past y))
| step_run i th e k x f' w' :
    sy_threads y !! i = Some th -> th_prog th = Vis e k ->
    perform e x (th_frame th) (sy_world y) f' w' ->
    step tc y (mkSys w' (<[i := mkThread (th_kind th) f' (k x) (th_hist th ++ [Call e x])]> (sy_threads y))
                 (sy_past y))
| step_stop :
    step tc y (mkSys (mkWorld (w_db (sy_world y)) [] ∅ (w_wire (sy_world y))) []
                 (sy_past y ++ sy_threads y))
| step_outside d' :
    tenant_step (w_db (sy_world y)) d' ->
    step tc y (mkSys (with_db (sy_world y) d') (sy_threads y) (sy_past y)).

(** ** Soundness of the calls *)

Lemma stored_row_committed bill d i :
  stored_row bill d = Some i -> si_SourceID i = bill /\ committed d i.
Proof.
  unfold stored_row. intros H. destruct (submissions d !! bill) as [sb|] eqn:Hs; [|done].
  destruct (bills d !! bill) as [b|]; simplify_eq.
  assert (E : si_SourceID (invoice_of bill sb (bl_qr_code b)) = bill) by apply invoice_of_columns.
  split; [done|]. exists sb. rewrite E. split; [done|].
  unfold invoice_of. destruct (String.eqb (sb_outcome_state sb) outcomePending); [done|].
  by destruct (parseOutcomeEvidence _) as [[? ?] ?].
Qed.

Lemma commit_effect_committed b i d d' : commit_effect b i d d' -> committed d' i.
Proof.
  intros (row & bill & _ & ->). eexists. cbn. rewrite lookup_insert_eq. done.
Qed.

Lemma completed_by_done m d : completed_by m (claims d !! request_of m) -> request_done d m.
Proof. intros (cl & Hc & ? & _ & ?). by exists cl. Qed.

Lemma decision_duplicate env m d :
  decision_before env m (claims d !! request_of m) ClaimDuplicate -> request_done d m.
Proof.
  unfold decision_before. destruct (claims d !! request_of m) as [cl|] eqn:E; [|done].
  destruct (String.eqb_spec (cl_fingerprint cl) (RequestFingerprint m)); [|done].
  unfold sqlClaimDecision. destruct (String.eqb_spec (cl_state cl) claimCompleted).
  - intros _. by exists cl.
  - repeat case_match; done.
Qed.

Lemma ran {A} (op : DB A) env d x d' :
  run_db op env d = (x, d') -> tenant_step d (run_db op env d).2 -> tenant_change d d'.
Proof. intros E H. rewrite E in H. by apply tenant_step_change. Qed.

(** A call changes the tables as one tenant change, and leaves behind what
    its answer says. *)
Lemma serve_change e x w w' :
  serve e x w w' -> tenant_change (w_db w) (w_db w') /\ call_sound (w_db w') (Call e x).
Proof.
  destruct e; cbn.
  - intros (env & d' & E & ->). split.
    + eapply ran; [exact E|apply ts_claim].
    + intros ->. apply run_db_inv in E as [n E]. apply Claim_inv in E as [_ [-> E]].
      by eapply decision_duplicate.
  - intros (env & d' & E & Hx & ->). split; [by eapply tc_claim|].
    intros ->. by apply completed_by_done, Hx.
  - intros (env & d' & E & ->). split; [by eapply tc_claim|done].
  - intros (env & d' & E & ->). apply run_db_inv in E as [n E]. apply Stored_inv in E as [-> E].
    split; [constructor|]. intros i ->. cbn. by apply stored_row_committed.
  - intros (env & d' & E & ->). split; [|done].
    eapply ran; [exact E|apply ts_book].
  - intros (env & d' & E & ->). split; [|done].
    eapply ran; [exact E|apply ts_unbook].
  - intros (env & d' & E & ->). split.
    + eapply ran; [exact E|apply ts_commit].
    + intros ->. apply run_db_inv in E as [n E].
      apply Commit_inv in E as [[_ ?]|E]; [done|]. by eapply commit_effect_committed.
  - intros (env & d' & E & ->). split; [|done].
    eapply ran; [exact E|apply ts_record].
  - intros ->. split; [constructor|done].
  - intros ->. split; [constructor|done].
  - intros ->. split; [constructor|done].
  - intros ->. split; [constructor|done].
  - intros ->. split; [constructor|done].
  - intros ->. split; [constructor|done].
  - done.
  - done.
Qed.

(** A call that is not a lock or an unlock is served, and leaves the frame and
    the locks alone. *)
Lemma perform_inv e x f w f' w' :
  perform e x f w f' w' ->
  (f' = f /\ serve e x w w')
  \/ (w_db w' = w_db w /\ w_wire w' = w_wire w
      /\ ((exists k, e = ELock k /\ lock_partition k f w f' w')
          \/ (exists k, e = EUnlock k) /\ unlock f w f' w')).
Proof.
  destruct e; cbn; auto.
  - intros H. right. pose proof H as (t & _ & Ht). destruct (lockFor partition t).
    destruct Ht as (_ & _ & ->). split_and!; eauto.
  - intros H. right. pose proof H as (l & _ & _ & ->). split_and!; eauto.
Qed.

Lemma perform_change e x f w f' w' :
  perform e x f w f' w' -> tenant_change (w_db w) (w_db w') /\ call_sound (w_db w') (Call e x).
Proof.
  intros [[_ H]|(-> & _ & [(k & -> & _)|[[k ->] _]])]%perform_inv; [by apply serve_change| |];
    (split; [constructor|done]).
Qed.

(** ** Invariants *)

Lemma respond_wp tenantKey dbName data :
  wp (operator_allowed (match DecodeReconcileRequest data with Ok req => rq_BillID req | Err _ => 0 end))
    (respond (Prepared := Prepared) tenantKey dbName data) [] (fun _ _ => True).
Proof.
  unfold respond. destruct (DecodeReconcileRequest data) as [req|e] eqn:E; [|done].
  destruct (negb _); [done|]. apply handleReconcileRequest_wp.
  unfold DecodeReconcileRequest in E. repeat case_match; by simplify_eq.
Qed.

Definition thread_ok (th : thread) : Prop :=
  wp (kind_allowed (th_kind th)) (th_prog th) (th_hist th) (fun _ _ => True).

Lemma starts_ok tc n th : starts tc n th -> thread_ok th /\ th_hist th = [].
Proof.
  destruct 1 as [dbName br raw m stream Hd Hf _|dbName br raw stream Hd|dbName data stream]; (split; [|done]); unfold thread_ok; cbn.
  - pose proof (handleDelivery_wp (Prepared := Prepared) tc dbName br raw) as H.
    rewrite Hd, Hf in H. by eapply wp_mono, H.
  - pose proof (handleDelivery_wp (Prepared := Prepared) tc dbName br raw) as H.
    destruct (DecodeEnvelope (dl_data raw)) as [m|e]; [rewrite Hd in H|]; by rewrite H.
  - apply wp_bind. by eapply wp_mono, respond_wp.
Qed.

(** What the wire may carry next: an invoice that this thread has read as
    committed or has committed. *)
Lemma submit_committed k h i d :
  kind_allowed k h (ESubmit i) -> Forall (call_sound d) h -> committed d i.
Proof.
  intros Ha Hs. rewrite Forall_forall in Hs. destruct k as [m| |bill]; cbn in Ha; [|done..].
  destruct Ha as [[_ [(H & _)|[b H]]]|[]].
  - destruct (Hs _ H i eq_refl). done.
  - exact (Hs _ H eq_refl).
Qed.

Record sys_inv (base : Z -> Z * string) (y : sys) : Prop := {
  si_chain : chain_inv base (w_db (sy_world y));
  si_threads : Forall thread_ok (sy_threads y);
  si_sound : Forall (fun th => Forall (call_sound (w_db (sy_world y))) (th_hist th))
               (sy_threads y ++ sy_past y);
  si_wire : Forall (committed (w_db (sy_world y))) (w_wire (sy_world y))
}.

Lemma sound_change d d' (l : list thread) :
  tenant_change d d' -> Forall (fun th => Forall (call_sound d) (th_hist th)) l ->
  Forall (fun th => Forall (call_sound d') (th_hist th)) l.
Proof.
  intros H Hl. refine (Forall_impl _ _ _ Hl _). intros th Hth.
  refine (Forall_impl _ _ _ Hth _). intros cl. by apply call_sound_change.
Qed.

Lemma serve_frame e x w w' :
  serve e x w w' ->
  w_wire w' = w_wire w ++ match e with ESubmit i => [i] | _ => [] end
  /\ w_streams w' = w_streams w /\ w_held w' = w_held w.
Proof.
  destruct e; cbn; first [ intros (env & d' & _ & _ & ->) | intros (env & d' & _ & ->)
                         | intros -> | intros [] ]; cbn; rewrite ?app_nil_r; by split_and!.
Qed.

Lemma wire_perform e x f w f' w' :
  perform e x f w f' w' ->
  w_wire w' = w_wire w ++ match e with ESubmit i => [i] | _ => [] end.
Proof.
  intros [[_ H]|(_ & -> & [(k & -> & _)|[[k ->] _]])]%perform_inv; [by eapply serve_frame| |];
    by rewrite app_nil_r.
Qed.

Lemma sys_inv_step base tc y y' : step tc y y' -> sys_inv base y -> sys_inv base y'.
Proof.
  intros H [Hc Ht Hs Hw].
  destruct H as [|th Hst|i th e k x f' w' Hi Hp Hx| |d' Hd]; [done|..].
  - destruct (starts_ok _ _ _ Hst) as [Hok Hh]. split; cbn; [done| | |done].
    + apply Forall_app. auto.
    + rewrite <- app_assoc. apply Forall_app in Hs as [H1 H2]. apply Forall_app. split; [done|].
      apply Forall_cons. rewrite Hh. auto.
  - assert (Hok : thread_ok th) by (by eapply Forall_lookup_1).
    unfold thread_ok in Hok. rewrite Hp in Hok. destruct Hok as [Hal Hk].
    destruct (perform_change _ _ _ _ _ _ Hx) as [Hch Hsound].
    assert (Hth : Forall (call_sound (w_db (sy_world y))) (th_hist th)).
    { apply Forall_app in Hs as [H1 _].
      exact (Forall_lookup_1 _ _ _ _ H1 Hi). }
    split; cbn.
    + by eapply chain_inv_step.
    + apply Forall_insert; [done|]. unfold thread_ok. cbn. by apply Hk.
    + apply Forall_app in Hs as [H1 H2]. apply Forall_app. split; [|by eapply sound_change].
      apply Forall_insert; [by eapply sound_change|]. cbn. apply Forall_app. split.
      * refine (Forall_impl _ _ _ Hth _). intros cl. by apply call_sound_change.
      * by apply Forall_singleton.
    + rewrite (wire_perform _ _ _ _ _ _ Hx). apply Forall_app. split.
      * refine (Forall_impl _ _ _ Hw _). intros j. by apply committed_change.
      * destruct e; try by apply Forall_nil_2. apply Forall_singleton.
        eapply committed_change; [done|]. by eapply submit_committed.
  - split; cbn; [done|by apply Forall_nil_2| |done].
    rewrite Permutation_app_comm in Hs. done.
  - assert (Hch : tenant_change (w_db (sy_world y)) d') by (by apply tenant_step_change).
    split; cbn; [by eapply chain_inv_step|done|by eapply sound_change|].
    refine (Forall_impl _ _ _ Hw _). intros j. by apply committed_change.
Qed.

(** ** Initial states *)

Definition boot (d : db) : sys := mkSys (mkWorld d [] ∅ []) [] [].

Lemma sys_inv_reachable base tc d y :
  chain_inv base d -> rtc (step tc) (boot d) y -> sys_inv base y.
Proof.
  intros Hd Hr. assert (H0 : sys_inv base (boot d)) by (by split; cbn; try apply Forall_nil_2).
  induction Hr as [|y1 y2 y3 H12 _ IH]; [done|]. apply IH. by eapply sys_inv_step.
Qed.

(** Every call in a history was allowed when it was made. *)
Definition hist_ok (th : thread) : Prop :=
  forall h1 e x h2, th_hist th = h1 ++ Call e x :: h2 -> kind_allowed (th_kind th) h1 e.

Lemma hist_ok_snoc k f p h e x f' p' :
  hist_ok (mkThread k f p h) -> kind_allowed k h e -> hist_ok (mkThread k f' p' (h ++ [Call e x])).
Proof.
  intros Hh Hal h1 e' x' h2 E. cbn in *.
  destruct h2 as [|z h2 _] using rev_ind.
  - apply app_inj_tail in E as [-> E]. apply (f_equal (@projT1 _ _)) in E. cbn in E. by subst.
  - rewrite app_comm_cons, app_assoc in E. apply app_inj_tail in E as [E _].
    by eapply Hh.
Qed.

Definition hists_inv (y : sys) : Prop :=
  Forall thread_ok (sy_threads y) /\ Forall hist_ok (sy_threads y ++ sy_past y).

Lemma hists_inv_step tc y y' : step tc y y' -> hists_inv y -> hists_inv y'.
Proof.
  intros H [Ht Hh]. destruct H as [|th Hst|i th e k x f' w' Hi Hp Hx| |d' Hd]; [done|..].
  - destruct (starts_ok _ _ _ Hst) as [Hok Hnil]. split; cbn; [apply Forall_app; auto|].
    rewrite <- app_assoc. apply Forall_app in Hh as [H1 H2]. apply Forall_app. split; [done|].
    apply Forall_cons. split; [|done]. intros h1 e x h2 E. rewrite Hnil in E. by destruct h1.
  - assert (Hok : thread_ok th) by (by eapply Forall_lookup_1).
    unfold thread_ok in Hok. rewrite Hp in Hok. destruct Hok as [Hal Hk].
    split; cbn; [apply Forall_insert; [done|]; unfold thread_ok; cbn; by apply Hk|].
    apply Forall_app in Hh as [H1 H2]. apply Forall_app. split; [|done].
    apply Forall_insert; [done|]. apply (hist_ok_snoc _ (th_frame th) (th_prog th)); [|done].
    pose proof (Forall_lookup_1 _ _ _ _ H1 Hi) as Hth. by destruct th.
  - split; cbn; [by apply Forall_nil_2|]. by rewrite Permutation_app_comm in Hh.
  - done.
Qed.

Lemma hists_inv_reachable tc d y : rtc (step tc) (boot d) y -> hists_inv y.
Proof.
  intros Hr. assert (H0 : hists_inv (boot d)) by (split; apply Forall_nil_2).
  induction Hr as [|y1 y2 y3 H12 _ IH]; [done|]. apply IH. by eapply hists_inv_step.
Qed.

(** ** Partition locks *)

Definition locks_key (k : string) (cl : call) : bool :=
  match projT1 cl with ELock k' => bool_decide (k' = k) | _ => false end.

(** The thread is between the lock and the unlock of partition [k]. *)
Definition inside (k : string) (th : thread) : bool :=
  existsb (locks_key k) (th_hist th) && negb (existsb is_unlock (th_hist th)).

(** The thread holds mutex [l], the one of partition [k] in its stream's map. *)
Definition holds (w : world) (k : string) (l : nat) (th : thread) : Prop :=
  fr_lock (th_frame th) = Some l
  /\ (exists t, w_streams w !! fr_stream (th_frame th) = Some t /\ lt_partition t !! k = Some l)
  /\ (fr_stream (th_frame th), l) ∈ w_held w.

Record locks_inv (y : sys) : Prop := {
  li_tables : Forall locks_ok (w_streams (sy_world y));
  li_streams : forall i th, sy_threads y !! i = Some th -> (exists m, th_kind th = Delivery m) ->
    is_Some (w_streams (sy_world y) !! fr_stream (th_frame th));
  li_inside : forall k i th, sy_threads y !! i = Some th -> inside k th = true ->
    exists l, holds (sy_world y) k l th;
  li_alone : forall k i j thi thj, sy_threads y !! i = Some thi -> sy_threads y !! j = Some thj ->
    fr_stream (th_frame thi) = fr_stream (th_frame thj) ->
    inside k thi = true -> inside k thj = true -> i = j;
  li_held : forall n l, (n, l) ∈ w_held (sy_world y) ->
    exists k j thj, sy_threads y !! j = Some thj /\ fr_stream (th_frame thj) = n
      /\ fr_lock (th_frame thj) = Some l /\ inside k thj = true
}.

(** How a call moves a thread in or out of a partition. *)
Lemma inside_snoc k kd f f' p p' h e x :
  inside k (mkThread kd f' p' (h ++ [Call e x]))
  = match e with
    | ELock k' => (existsb (locks_key k) h || bool_decide (k' = k)) && negb (existsb is_unlock h)
    | EUnlock _ => false
    | _ => inside k (mkThread kd f p h)
    end.
Proof.
  unfold inside. cbn. rewrite !existsb_app. cbn. unfold locks_key, is_unlock. cbn.
  destruct e; rewrite ?orb_false_r, ?orb_true_r; cbn; by rewrite ?andb_false_r.
Qed.

(** Only [kind_allowed] deliveries lock and unlock. *)
Lemma lock_allowed kd h k : kind_allowed kd h (ELock k) -> h = [].
Proof. destruct kd; [intros [(_ & -> & _)|[]]| |]; done. Qed.

Lemma unlock_allowed kd h k :
  kind_allowed kd h (EUnlock k) ->
  exists m, kd = Delivery m /\ k = PartitionKey m /\ did h (ELock k) tt
            /\ existsb is_unlock h = false.
Proof. destruct kd as [m| |]; [intros [(-> & Hl & Hu)|[]]| |]; [by exists m|done..]. Qed.

Lemma did_locks h k : did h (ELock k) tt -> existsb (locks_key k) h = true.
Proof.
  intros H. apply existsb_exists. eexists. split; [by apply list_elem_of_In|].
  cbn. by apply bool_decide_eq_true.
Qed.

(** Tables only get new partitions. *)
Definition tables_grow (w w' : world) : Prop :=
  forall n t, w_streams w !! n = Some t ->
  exists t', w_streams w' !! n = Some t' /\ lt_partition t ⊆ lt_partition t'.

Lemma holds_grow w w' k l th :
  tables_grow w w' -> (fr_stream (th_frame th), l) ∈ w_held w' -> holds w k l th -> holds w' k l th.
Proof.
  intros Hg Hh (? & (t & Ht & Hl) & _). split; [done|]. split; [|done].
  destruct (Hg _ _ Ht) as (t' & Ht' & Hsub). exists t'. split; [done|]. by eapply lookup_weaken.
Qed.

(** The mutex of a stream stands for one partition. *)
Lemma holds_key y k k' l th th' : locks_inv y ->
  holds (sy_world y) k l th -> holds (sy_world y) k' l th' ->
  fr_stream (th_frame th) = fr_stream (th_frame th') -> k = k'.
Proof.
  intros Hy (_ & (t & Ht & Hl) & _) (_ & (t' & Ht' & Hl') & _) E. rewrite E in Ht. simplify_eq.
  pose proof (Forall_lookup_1 _ _ _ _ (li_tables _ Hy) Ht) as [_ Hinj]. by eapply Hinj.
Qed.

(** A thread that moves while the locks stay as they are. *)
Lemma locks_inv_served y i th th' w' :
  locks_inv y -> sy_threads y !! i = Some th ->
  th_kind th' = th_kind th -> th_frame th' = th_frame th ->
  (forall k, inside k th' = inside k th) ->
  w_streams w' = w_streams (sy_world y) -> w_held w' = w_held (sy_world y) ->
  locks_inv (mkSys w' (<[i := th']> (sy_threads y)) (sy_past y)).
Proof.
  intros [Ht Hst Hin Hal Hhe] Hi Ek Ef Ei Es Eh.
  assert (Hold : forall j thj, <[i := th']> (sy_threads y) !! j = Some thj ->
    exists tho, sy_threads y !! j = Some tho /\ th_kind thj = th_kind tho
      /\ th_frame thj = th_frame tho /\ forall k, inside k thj = inside k tho).
  { intros j thj. rewrite list_lookup_insert_Some.
    intros [(<- & <- & _)|[_ Hj]]; [by exists th|by exists thj]. }
  split; cbn; rewrite ?Es, ?Eh; [done|..].
  - intros j thj (tho & Ho & E1 & E2 & _)%Hold [m Hm]. rewrite E2. apply (Hst j tho Ho).
    exists m. congruence.
  - intros k j thj (tho & Ho & _ & E2 & E3)%Hold Hk. rewrite E3 in Hk.
    destruct (Hin k j tho Ho Hk) as [l Hl]. exists l. unfold holds in *. by rewrite Es, Eh, E2.
  - intros k j1 j2 t1 t2 (o1 & H1 & _ & F1 & I1)%Hold (o2 & H2 & _ & F2 & I2)%Hold.
    rewrite F1, F2, I1, I2. by eapply Hal.
  - intros n l Hl. destruct (Hhe n l Hl) as (k & j & thj & Hj & En & El & Hk).
    destruct (decide (i = j)) as [->|Hne].
    + exists k, j, th'. simplify_eq. rewrite Ef, Ei. split; [|done].
      apply list_lookup_insert_eq. by eapply lookup_lt_Some.
    + exists k, j, thj. split; [|done]. by rewrite list_lookup_insert_ne.
Qed.

Lemma locks_inv_lock y i th k f' p w' :
  locks_inv y -> sy_threads y !! i = Some th -> th_hist th = [] ->
  lock_partition k (th_frame th) (sy_world y) f' w' ->
  locks_inv (mkSys w' (<[i := mkThread (th_kind th) f' p [Call (ELock k) tt]]> (sy_threads y))
               (sy_past y)).
Proof.
  intros Hy Hi Hnil (t & Hs & Hx). pose proof Hy as [Ht Hst Hin Hal Hhe].
  destruct (lockFor_ok k t (Forall_lookup_1 _ _ _ _ Ht Hs)) as (Hok & Hk & Hsub).
  destruct (lockFor k t) as [l t'] eqn:El. destruct Hx as (Hfree & -> & ->). cbn in Hok, Hk, Hsub.
  set (n := fr_stream (th_frame th)) in *. set (th' := mkThread _ _ _ _).
  assert (Hg : tables_grow (sy_world y) (mkWorld (w_db (sy_world y)) (<[n := t']> (w_streams (sy_world y)))
                 ({[(n, l)]} ∪ w_held (sy_world y)) (w_wire (sy_world y)))).
  { intros n0 t0 H0. cbn. destruct (decide (n0 = n)) as [->|Hne].
    - exists t'. simplify_eq. rewrite list_lookup_insert_eq; [done|by eapply lookup_lt_Some].
    - exists t0. by rewrite list_lookup_insert_ne. }
  assert (Hthis : forall key, inside key th' = true -> key = k).
  { intros key H. unfold inside, th', locks_key, is_unlock in H. cbn in H.
    rewrite !orb_false_r, andb_true_r in H. by apply bool_decide_eq_true in H. }
  assert (Hother : forall j thj, sy_threads y !! j = Some thj -> fr_stream (th_frame thj) = n ->
            inside k thj = true -> False).
  { intros j thj Hj En Hins. destruct (Hin k j thj Hj Hins) as (l0 & _ & (t0 & Ht0 & Hl0) & Hh0).
    rewrite En in *. simplify_eq. unfold lockFor in El. rewrite Hl0 in El. by simplify_eq. }
  split; cbn.
  - by apply Forall_insert.
  - intros j thj. rewrite list_lookup_insert_Some, list_lookup_insert_is_Some.
    intros [(<- & <- & _)|[_ Hj]]; [by eexists|by eapply Hst].
  - intros key j thj. rewrite list_lookup_insert_Some. intros [(<- & <- & _)|[_ Hj]] Hins.
    + rewrite (Hthis key Hins). exists l. split; [done|]. split; [|cbn; set_solver].
      exists t'. cbn. rewrite list_lookup_insert_eq; [done|by eapply lookup_lt_Some].
    + destruct (Hin key j thj Hj Hins) as [l0 H0]. exists l0. eapply holds_grow; [done| |done].
      cbn. destruct H0 as (_ & _ & ?). set_solver.
  - intros key j1 j2 t1 t2. rewrite !list_lookup_insert_Some.
    intros [(<- & <- & _)|[_ H1]] [(<- & <- & _)|[_ H2]] E I1 I2.
    + done.
    + rewrite (Hthis key I1) in I2. exfalso. by eapply Hother.
    + rewrite (Hthis key I2) in I1. exfalso. by eapply Hother.
    + by eapply Hal.
  - intros n0 l0 [E|Hl]%elem_of_union.
    + apply elem_of_singleton in E. injection E as -> ->. exists k, i, th'. split_and!; [|done..|].
      * apply list_lookup_insert_eq. by eapply lookup_lt_Some.
      * unfold inside, th', locks_key, is_unlock. cbn. by rewrite bool_decide_true.
    + destruct (Hhe n0 l0 Hl) as (key & j & thj & Hj & En & Elk & Hins).
      exists key, j, thj. split; [|done]. rewrite list_lookup_insert_ne; [done|]. intros <-.
      simplify_eq. unfold inside in Hins. by rewrite Hnil in Hins.
Qed.

Lemma locks_inv_unlock y i th k f' p w' :
  locks_inv y -> sy_threads y !! i = Some th -> inside k th = true ->
  unlock (th_frame th) (sy_world y) f' w' ->
  locks_inv (mkSys w' (<[i := mkThread (th_kind th) f' p (th_hist th ++ [Call (EUnlock k) tt])]>
                         (sy_threads y)) (sy_past y)).
Proof.
  intros Hy Hi Hins (l & Hl & -> & ->). pose proof Hy as [Ht Hst Hin Hal Hhe].
  set (n := fr_stream (th_frame th)) in *. set (th' := mkThread _ _ _ _).
  assert (Hout : forall key, inside key th' = false).
  { intros key. unfold th'. by rewrite (inside_snoc key _ (th_frame th) _ (th_prog th)). }
  assert (Hth : holds (sy_world y) k l th).
  { destruct (Hin k i th Hi Hins) as [l' H']. pose proof H' as [E _]. by simplify_eq. }
  split; cbn.
  - done.
  - intros j thj. rewrite list_lookup_insert_Some.
    intros [(<- & <- & _)|[_ Hj]]; [exact (Hst _ _ Hi)|by eapply Hst].
  - intros key j thj. rewrite list_lookup_insert_Some. intros [(<- & <- & _)|[Hne Hj]] Hk.
    { by rewrite Hout in Hk. }
    destruct (Hin key j thj Hj Hk) as [l0 H0]. exists l0. apply (holds_grow (sy_world y)); [by intros n0 t0 ?; exists t0| |done].
    cbn. apply elem_of_difference. pose proof H0 as (_ & _ & ?). split; [done|].
    intros E%elem_of_singleton. injection E as En ->. apply Hne.
    pose proof (holds_key y k key l th thj Hy Hth H0 (eq_sym En)) as <-. by eapply Hal.
  - intros key j1 j2 t1 t2. rewrite !list_lookup_insert_Some.
    intros [(<- & <- & _)|[_ H1]] [(<- & <- & _)|[_ H2]] E I1 I2;
      rewrite ?Hout in I1; rewrite ?Hout in I2; try done. by eapply Hal.
  - intros n0 l0 [Hl0 Hne]%elem_of_difference.
    destruct (Hhe n0 l0 Hl0) as (key & j & thj & Hj & En & Elk & Hk). exists key, j, thj. split; [|done].
    rewrite list_lookup_insert_ne; [done|]. intros <-. simplify_eq. by apply Hne, elem_of_singleton.
Qed.

Lemma locks_inv_run y i th e k x f' w' :
  hists_inv y -> locks_inv y -> sy_threads y !! i = Some th -> th_prog th = Vis e k ->
  perform e x (th_frame th) (sy_world y) f' w' ->
  locks_inv (mkSys w' (<[i := mkThread (th_kind th) f' (k x) (th_hist th ++ [Call e x])]>
                         (sy_threads y)) (sy_past y)).
Proof.
  intros [Ht _] Hy Hi Hp Hx.
  pose proof (Forall_lookup_1 _ _ _ _ Ht Hi) as Hok. unfold thread_ok in Hok. rewrite Hp in Hok.
  destruct Hok as [Hal _].
  destruct (perform_inv _ _ _ _ _ _ Hx) as [[-> Hserve]|(_ & _ & [(key & -> & Hl)|[[key ->] Hu]])].
  - destruct (serve_frame _ _ _ _ Hserve) as (_ & Es & Eh).
    apply (locks_inv_served y i th); [done..| |done|done]. intros key.
    rewrite (inside_snoc key _ (th_frame th) _ (th_prog th)). destruct th, e; done.
  - pose proof (lock_allowed _ _ _ Hal) as Hnil. rewrite Hnil. destruct x.
    by apply (locks_inv_lock y i th).
  - destruct (unlock_allowed _ _ _ Hal) as (m & _ & _ & Hdid & Hunl). destruct x.
    apply locks_inv_unlock; [done..| |done].
    unfold inside. by rewrite (did_locks _ _ Hdid), Hunl.
Qed.

Lemma locks_inv_step tc y y' : step tc y y' -> hists_inv y -> locks_inv y -> locks_inv y'.
Proof.
  intros H Hh Hy. destruct H as [|th Hs|i th e k x f' w' Hi Hp Hx| |d' Hd].
  - destruct Hy as [Ht Hst Hin Hal Hhe]. split; cbn; [|intros i th Hi Hk|intros k i th Hi Hk|done..].
    + by apply Forall_app_2; [|apply Forall_singleton].
    + rewrite lookup_app_l; [by eapply Hst|]. destruct (Hst i th Hi Hk). by eapply lookup_lt_Some.
    + destruct (Hin k i th Hi Hk) as (l & ? & (t & Hn & ?) & ?). exists l. split_and!; [done| |done].
      exists t. split; [|done]. cbn. by apply lookup_app_l_Some.
  - destruct (starts_ok _ _ _ Hs) as [_ Hnil]. destruct Hy as [Ht Hst Hin Hal Hhe].
    assert (Hold : forall key j thj, (sy_threads y ++ [th]) !! j = Some thj ->
              inside key thj = true -> sy_threads y !! j = Some thj).
    { intros key j thj Hj Hins. apply lookup_app_Some in Hj as [?|[_ Hj]]; [done|].
      apply list_lookup_singleton_Some in Hj as [_ <-]. unfold inside in Hins.
      by rewrite Hnil in Hins. }
    split; cbn; [done| |by eauto..|].
    + intros j thj [Hj|[_ Hj]]%lookup_app_Some Hk; [by eapply Hst|].
      apply list_lookup_singleton_Some in Hj as [_ <-]. destruct Hk as [m Hm].
      destruct Hs as [? ? ? ? stream ? ? Hlt|? ? ? ? _|? ? ?]; try done. by apply lookup_lt_is_Some.
    + intros n l (k & j & thj & Hj & ?)%Hhe. exists k, j, thj. split; [|done].
      by apply lookup_app_l_Some.
  - by eapply locks_inv_run.
  - split; cbn; [done|..]; intros * H1; by rewrite ?lookup_nil in H1.
  - by destruct Hy.
Qed.

Lemma locks_inv_reachable tc d y : rtc (step tc) (boot d) y -> locks_inv y.
Proof.
  intros Hr. assert (H0 : hists_inv (boot d)) by (split; apply Forall_nil_2).
  assert (H1 : locks_inv (boot d)).
  { split; cbn; [done|..]; intros * E; by rewrite ?lookup_nil in E. }
  induction Hr as [|y1 y2 y3 H12 _ IH]; [done|].
  apply IH; [by eapply hists_inv_step|by eapply locks_inv_step].
Qed.
End system.

(** ** The promises *)

Lemma chain_unique base d b1 s1 b2 s2 :
  chain_inv base d -> submissions d !! b1 = Some s1 -> submissions d !! b2 = Some s2 ->
  sb_branch_id s1 = sb_branch_id s2 -> sb_invoice_icv s1 = sb_invoice_icv s2 -> b1 = b2.
Proof.
  intros [Hb Hk _] H1 H2 Hbr Hi. destruct (Hk _ _ H1) as [cf Hcf].
  destruct (Hb _ _ Hcf) as [_ (l & Hl)].
  destruct (chain_position _ _ _ _ _ Hl _ _ H1 eq_refl) as (k1 & Hk1 & Hi1 & _).
  destruct (chain_position _ _ _ _ _ Hl _ _ H2 (eq_sym Hbr)) as (k2 & Hk2 & Hi2 & _).
  assert (k1 = k2) as -> by lia. rewrite Hk1 in Hk2. by simplify_eq.
Qed.

(** C1: Under every interleaving of deliveries, operator requests, outside
    changes, faults and daemon stops, an invoice that is sent to ZATCA is the
    one committed for its bill, with exactly the stored XML, hash, number and
    link; and two invoices sent with the same branch and number are the same
    committed invoice, so no number is ever reported with two documents. *)
Theorem submitted_is_committed {Prepared} (s : SQLClaimStore) (c : SQLChain) base tc d
    (y : sys (Prepared := Prepared)) :
  chain_inv base d -> rtc (step s c tc) (boot d) y ->
  (forall i, i ∈ w_wire (sy_world y) -> committed (w_db (sy_world y)) i)
  /\ (forall i j, i ∈ w_wire (sy_world y) -> j ∈ w_wire (sy_world y) ->
        si_BranchID i = si_BranchID j -> si_ICV i = si_ICV j ->
        si_SourceID i = si_SourceID j /\ si_UUID i = si_UUID j /\ si_PIH i = si_PIH j
        /\ si_Hash i = si_Hash j /\ si_Kind i = si_Kind j /\ si_SignedXML i = si_SignedXML j).
Proof.
  intros Hd Hr. destruct (sys_inv_reachable s c base tc d y Hd Hr) as [Hc _ _ Hw].
  rewrite Forall_forall in Hw. split; [done|]. intros i j Hi Hj Hbr Hicv.
  destruct (Hw i Hi) as (si & Hsi & Bi & Ui & Ni & Pi & Hhi & Ki & Xi).
  destruct (Hw j Hj) as (sj & Hsj & Bj & Uj & Nj & Pj & Hhj & Kj & Xj).
  assert (E : si_SourceID i = si_SourceID j).
  { eapply chain_unique; [done|exact Hsi|exact Hsj|congruence..]. }
  rewrite E in Hsi. rewrite Hsi in Hsj. simplify_eq. split_and!; congruence.
Qed.

(** C5: An acknowledged delivery is never lost: in every reachable state, for
    every delivery of this or an earlier daemon that called its
    acknowledgement, the request is stored as completed with the delivery's own
    fingerprint, or the delivery had been answered that its request identity
    conflicts. *)
Theorem acknowledged_is_final {Prepared} (s : SQLClaimStore) (c : SQLChain) base tc d
    (y : sys (Prepared := Prepared)) th m x :
  chain_inv base d -> rtc (step s c tc) (boot d) y ->
  th ∈ sy_threads y ++ sy_past y -> th_kind th = Delivery m -> did (th_hist th) EAck x ->
  request_done (w_db (sy_world y)) m \/ did (th_hist th) (EClaim m) (Ok ClaimConflict).
Proof.
  intros Hd Hr Hth Hk Hack. destruct (sys_inv_reachable s c base tc d y Hd Hr) as [_ _ Hs _].
  destruct (hists_inv_reachable s c tc d y Hr) as [_ Hh].
  rewrite Forall_forall in Hs, Hh. specialize (Hs th Hth). specialize (Hh th Hth).
  apply list_elem_of_split in Hack as (h1 & h2 & E). pose proof (Hh h1 _ _ h2 E) as Hal.
  rewrite Hk in Hal. rewrite Forall_forall in Hs.
  assert (Hsub : forall cl, cl ∈ h1 -> cl ∈ th_hist th) by (intros cl Hcl; rewrite E; set_solver).
  destruct Hal as [[H|[H|H]]|[]].
  - left. exact (Hs _ (Hsub _ H) eq_refl).
  - right. by apply Hsub.
  - left. exact (Hs _ (Hsub _ H) eq_refl).
Qed.

(** The delivery waits at the lock of its partition. *)
Definition waits {Prepared} (th : thread (Prepared := Prepared)) (m : Message) : Prop :=
  th_kind th = Delivery m /\ exists k, th_prog th = Vis (ELock (PartitionKey m)) k.

(** A delivery that has locked its partition carries a valid message. *)
Lemma inside_valid {Prepared} (th : thread (Prepared := Prepared)) k m :
  hist_ok th -> th_kind th = Delivery m -> inside k th = true -> EGSSequenceID m = itoa (BranchID m).
Proof.
  intros Hok Hkd Hin. apply andb_true_iff in Hin as [Hin _].
  apply existsb_exists in Hin as ([e x] & Hin & He).
  apply list_elem_of_In, list_elem_of_split in Hin as (h1 & h2 & Eh).
  pose proof (Hok h1 e x h2 Eh) as Hal. rewrite Hkd in Hal.
  destruct e; try discriminate He. destruct Hal as [(_ & _ & Hv)|[]]. by apply vm_egs.
Qed.

(** A free mutex, or a delivery of the same stream inside the partition. *)
Lemma lock_free_or_held {Prepared} (y : sys (Prepared := Prepared)) k n :
  locks_inv y -> is_Some (w_streams (sy_world y) !! n) ->
  (exists f' w', lock_partition k (mkFrame n None) (sy_world y) f' w')
  \/ exists i thi, sy_threads y !! i = Some thi /\ fr_stream (th_frame thi) = n /\ inside k thi = true.
Proof.
  intros Hy [t Ht]. destruct (lockFor k t) as [l t'] eqn:El.
  destruct (decide ((n, l) ∈ w_held (sy_world y))) as [Hin|Hout].
  - right. destruct (li_held _ Hy n l Hin) as (k' & i & thi & Hi & En & Elk & Hins).
    exists i, thi. split_and!; [done..|].
    destruct (li_inside _ Hy k' i thi Hi Hins) as (l' & E & (t0 & Ht0 & Hk') & _).
    rewrite En in Ht0. rewrite Elk in E. simplify_eq.
    pose proof (Forall_lookup_1 _ _ _ _ (li_tables _ Hy) Ht) as Hok. pose proof Hok as [Hlt Hinj].
    unfold lockFor in El. destruct (lt_partition t !! k) as [l0|] eqn:Hk; simplify_eq.
    + by rewrite (Hinj k k' _ Hk Hk').
    + apply Hlt in Hk'. lia.
  - left. do 2 eexists. exists t. split; [done|]. by rewrite El.
Qed.

(** C10: Deliveries of one tenant and branch run one at a time on the ordered stream of a
    worker: under every interleaving, two deliveries of one stream that are both between the lock
    and the unlock of their partitions serve different tenants or different branches; and a
    delivery that waits for its partition can take the lock at once, unless another delivery of
    the same stream is inside the same partition, so no lock is lost and partitions do not block
    one another. Streams of different workers do not exclude each other
    ([streams_do_not_exclude]): between workers the claim and the booking in the database do. *)
Theorem partition_exclusive {Prepared} (s : SQLClaimStore) (c : SQLChain) tc d
    (y : sys (Prepared := Prepared)) :
  rtc (step s c tc) (boot d) y ->
  (forall i j thi thj mi mj, i <> j ->
     sy_threads y !! i = Some thi -> sy_threads y !! j = Some thj ->
     fr_stream (th_frame thi) = fr_stream (th_frame thj) ->
     th_kind thi = Delivery mi -> th_kind thj = Delivery mj ->
     inside (PartitionKey mi) thi = true -> inside (PartitionKey mj) thj = true ->
     (TenantKey mi, BranchID mi) <> (TenantKey mj, BranchID mj))
  /\ (forall j th m, sy_threads y !! j = Some th -> waits th m ->
     (exists f' w', perform (Prepared := Prepared) s c (ELock (PartitionKey m)) tt (th_frame th) (sy_world y) f' w')
     \/ exists i thi, sy_threads y !! i = Some thi /\ inside (PartitionKey m) thi = true
          /\ fr_stream (th_frame thi) = fr_stream (th_frame th)).
Proof.
  intros Hr. pose proof (locks_inv_reachable s c tc d y Hr) as Hy.
  destruct (hists_inv_reachable s c tc d y Hr) as [_ [Hh _]%Forall_app]. split.
  - intros i j thi thj mi mj Hne Hi Hj En Ki Kj Ii Ij [= Et Eb]. apply Hne.
    apply (li_alone _ Hy (PartitionKey mi) i j thi thj); [done..|].
    assert (PartitionKey mi = PartitionKey mj) as ->; [|done]. unfold PartitionKey.
    by rewrite (inside_valid _ _ _ (Forall_lookup_1 _ _ _ _ Hh Hi) Ki Ii),
      (inside_valid _ _ _ (Forall_lookup_1 _ _ _ _ Hh Hj) Kj Ij), Et, Eb.
  - intros j th m Hj (Hk & _).
    destruct (lock_free_or_held y (PartitionKey m) (fr_stream (th_frame th)) Hy) as [?|(i & thi & ? & ? & ?)];
      [|by left|by right; exists i, thi].
    apply (li_streams _ Hy j th Hj). by exists m.
Qed.

(** ** A concrete run: one delivery from start to acknowledgement *)

Section drive.
Context (s : SQLClaimStore) (c : SQLChain) (env : dbenv).
Local Abbreviation event := (event unit).

(** Answers as the sample tenant gives them. *)
Definition sample_answer (e : event) (w : world) : answer e * world :=
  match e as e return answer e * world with
  | EClaim m => let '(x, d) := run_db (SQLClaimStore_Claim s m) env (w_db w) in (x, with_db w d)
  | EComplete m => let '(x, d) := run_db (SQLClaimStore_Complete s m) env (w_db w) in (x, with_db w d)
  | EUnclaim m => let '(x, d) := run_db (SQLClaimStore_Release s m) env (w_db w) in (x, with_db w d)
  | EStored m => let '(x, d) := run_db (SQLChain_Stored m) env (w_db w) in (x, with_db w d)
  | EBook m => let '(x, d) := run_db (SQLChain_Book c m) env (w_db w) in (x, with_db w d)
  | EUnbook b => let '(x, d) := run_db (SQLChain_Release b) env (w_db w) in (x, with_db w d)
  | ECommit b i => let '(x, d) := run_db (SQLChain_Commit b i) env (w_db w) in (x, with_db w d)
  | ERecord i o => let '(x, d) := run_db (SQLChain_Record i o) env (w_db w) in (x, with_db w d)
  | EPrepare _ => (Ok tt, w)
  | EBuild _ _ => (Ok sample_invoice, w)
  | ESubmit i => ((mkOutcome OutcomeAccepted "" "" "" "", None),
                  mkWorld (w_db w) (w_streams w) (w_held w) (w_wire w ++ [i]))
  | EAck | ETerm => (Ok tt, w)
  | EAlert _ _ => (tt, w)
  | ELock _ | EUnlock _ => (tt, w)
  end.

Definition sample_perform (e : event) (f : frame) (w : world) : option (answer e * frame * world) :=
  match e as e return option (answer e * frame * world) with
  | ELock k =>
      t ← w_streams w !! fr_stream f;
      let '(lock, t') := lockFor k t in
      if decide ((fr_stream f, lock) ∈ w_held w) then None
      else Some (tt, mkFrame (fr_stream f) (Some lock),
                 mkWorld (w_db w) (<[fr_stream f := t']> (w_streams w))
                   ({[(fr_stream f, lock)]} ∪ w_held w) (w_wire w))
  | EUnlock _ =>
      lock ← fr_lock f;
      Some (tt, mkFrame (fr_stream f) None,
            mkWorld (w_db w) (w_streams w) (w_held w ∖ {[(fr_stream f, lock)]}) (w_wire w))
  | e => let '(x, w') := sample_answer e w in Some (x, f, w')
  end.

Lemma sample_serve e w : match e with ELock _ | EUnlock _ => False | _ => True end ->
  serve s c e (sample_answer e w).1 w (sample_answer e w).2.
Proof.
  destruct e; cbn; intros Hl; try done;
    try (match goal with |- context [run_db ?op ?en ?d] => destruct (run_db op en d) as [x d'] eqn:E end;
         cbn; try by exists env, d').
  - apply run_db_inv in E as [n E]. apply Complete_inv in E as [? ?]. by exists env, d'.
  - apply run_db_inv in E as [n E]. apply Release_inv in E. by exists env, d'.
Qed.

Lemma sample_performs e f w x f' w' :
  sample_perform e f w = Some (x, f', w') -> perform s c e x f w f' w'.
Proof.
  intros H. destruct e as [| | | | | | | | | | | | | |k|k].
  15: { cbn in H. apply bind_Some in H as (t & Ht & H). exists t. split; [done|].
        destruct (lockFor k t). case_decide; by simplify_eq. }
  15: { cbn in H. apply bind_Some in H as (l & Hl & H). exists l. by simplify_eq. }
  all: match goal with |- perform _ _ ?e _ _ _ _ _ =>
         pose proof (sample_serve e w I) as Hs; unfold sample_perform in H;
         destruct (sample_answer e w) end; by simplify_eq.
Qed.

Fixpoint drive (fuel : nat) (th : thread) (w : world) : thread * world :=
  match fuel with
  | O => (th, w)
  | S fuel =>
      match th_prog th with
      | Ret _ => (th, w)
      | Vis e k =>
          match sample_perform e (th_frame th) w with
          | Some (x, f', w') =>
              drive fuel (mkThread (th_kind th) f' (k x) (th_hist th ++ [Call e x])) w'
          | None => (th, w)
          end
      end
  end.

Lemma drive_steps tc fuel th w ths past :
  rtc (step s c tc) (mkSys w (ths ++ [th]) past)
    (mkSys (drive fuel th w).2 (ths ++ [(drive fuel th w).1]) past).
Proof.
  revert th w. induction fuel as [|fuel IH]; intros th w; cbn; [done|].
  destruct (th_prog th) as [a|e k] eqn:Hp; [done|].
  destruct (sample_perform e (th_frame th) w) as [[[x f'] w']|] eqn:E; [|done].
  eapply rtc_l; [|apply IH].
  pose proof (step_run s c tc (mkSys w (ths ++ [th]) past) (length ths) th e k x f' w') as Hs.
  cbn in Hs. rewrite list_lookup_middle in Hs by done.
  rewrite insert_app_r_alt, Nat.sub_diag in Hs by lia.
  apply Hs; [done..|]. by apply sample_performs.
Qed.
End drive.

Definition sample_ctx : tenant_ctx := mkTenantCtx "acme-0001" "ops@example.com" 10.
Definition sample_delivery : delivery := mkDelivery bill_envelope_json (Some 1).
Definition thread_on (stream : nat) (m : Message) (branchID : Z) (raw : delivery)
    : thread (Prepared := unit) :=
  mkThread (Delivery m) (mkFrame stream None) (handleDelivery sample_ctx "tenant_acme" branchID raw) [].
Definition sample_thread : thread := thread_on 0 bill_envelope 7 sample_delivery.
(** One delivery alone in a daemon with one stream, after [fuel] calls. *)
Definition sample_world : world := mkWorld sample_db [new_locks] ∅ [].
Definition sample_drive := drive NewSQLClaimStore NewSQLChain (quiet_env 1000).
Definition sample_end (fuel : nat) : thread * world := sample_drive fuel sample_thread sample_world.
Definition sample_sys (fuel : nat) : sys (Prepared := unit) :=
  mkSys (sample_end fuel).2 [(sample_end fuel).1] [].
(** Another thread starts and makes [fuel] calls. *)
Definition joined (fuel : nat) (th : thread) (y : sys (Prepared := unit)) : sys :=
  mkSys (sample_drive fuel th (sy_world y)).2
    (sy_threads y ++ [(sample_drive fuel th (sy_world y)).1]) (sy_past y).

Lemma joined_reachable fuel th y d :
  starts sample_ctx (length (w_streams (sy_world y))) th ->
  rtc (step NewSQLClaimStore NewSQLChain sample_ctx) (boot d) y ->
  rtc (step NewSQLClaimStore NewSQLChain sample_ctx) (boot d) (joined fuel th y).
Proof.
  intros Hs Hr. etransitivity; [exact Hr|]. eapply rtc_l; [by apply step_start|].
  apply drive_steps.
Qed.

Lemma sample_sys_reachable fuel :
  rtc (step NewSQLClaimStore NewSQLChain sample_ctx) (boot sample_db) (sample_sys fuel).
Proof.
  apply (joined_reachable fuel sample_thread (mkSys sample_world [] [])).
  - apply (start_delivery sample_ctx 1 "tenant_acme" 7 sample_delivery bill_envelope 0);
      [vm_compute; reflexivity | vm_compute; reflexivity | cbn; lia].
  - apply rtc_once. apply (step_worker _ _ sample_ctx (boot sample_db)).
Qed.

(** The delivery runs to its end, sends its invoice and acknowledges. *)
Example sample_run_ends :
  w_wire (sample_end 20).2 = [sample_invoice]
  /\ (match th_prog (sample_end 20).1 with Ret _ => true | _ => false end) = true
  /\ w_held (sample_end 20).2 = ∅.
Proof. vm_compute. split; [reflexivity|]. split; reflexivity. Qed.

Lemma sample_chain_inv : chain_inv (fun _ => (0, GenesisPIH)) sample_db.
Proof. eapply chain_inv_reachable; [apply sample_reachable|apply chain_inv_empty]. Qed.

Lemma submitted_is_committed_witness :
  committed (w_db (sy_world (sample_sys 20))) sample_invoice.
Proof.
  apply (submitted_is_committed NewSQLClaimStore NewSQLChain (fun _ => (0, GenesisPIH)) sample_ctx
    sample_db (sample_sys 20) sample_chain_inv (sample_sys_reachable 20)).
  replace (w_wire (sy_world (sample_sys 20))) with [sample_invoice] by (vm_compute; reflexivity).
  apply list_elem_of_here.
Defined.

Lemma acknowledged_is_final_witness :
  request_done (w_db (sy_world (sample_sys 20))) bill_envelope
  \/ did (th_hist (sample_end 20).1) (EClaim bill_envelope) (Ok ClaimConflict).
Proof.
  apply (acknowledged_is_final NewSQLClaimStore NewSQLChain (fun _ => (0, GenesisPIH)) sample_ctx
    sample_db (sample_sys 20) (sample_end 20).1 bill_envelope (Ok tt) sample_chain_inv
    (sample_sys_reachable 20)).
  - apply list_elem_of_here.
  - vm_compute. reflexivity.
  - vm_compute. repeat first [apply list_elem_of_here | apply list_elem_of_further].
Defined.

Definition branch8_envelope : Message :=
  mkMessage DocBill 42 8 "tenant_acme" "acme-0001" "pos-1"
    (BillRequestID bill_envelope) (EventID bill_envelope) "8" (InvoiceUUID bill_envelope)
    (RequestFingerprint bill_envelope).
(** Two deliveries on one stream, of two branches, both inside their
    partitions. *)
Definition branch8_thread : thread :=
  thread_on 0 branch8_envelope 8 (mkDelivery (envelope_json "8") (Some 1)).
Definition two_inside : sys := joined 1 branch8_thread (sample_sys 1).

Lemma two_inside_reachable :
  rtc (step NewSQLClaimStore NewSQLChain sample_ctx) (boot sample_db) two_inside.
Proof.
  apply joined_reachable; [|apply sample_sys_reachable].
  apply (start_delivery sample_ctx _ "tenant_acme" 8 _ branch8_envelope 0);
    [vm_compute; reflexivity | vm_compute; reflexivity | vm_compute; lia].
Qed.

Lemma partition_exclusive_witness :
  (TenantKey bill_envelope, BranchID bill_envelope)
  <> (TenantKey branch8_envelope, BranchID branch8_envelope).
Proof.
  apply (proj1 (partition_exclusive NewSQLClaimStore NewSQLChain sample_ctx sample_db two_inside
    two_inside_reachable) 0%nat 1%nat (sample_end 1).1
    (sample_drive 1 branch8_thread (sample_end 1).2).1 bill_envelope branch8_envelope);
    [discriminate | reflexivity | reflexivity | vm_compute; reflexivity | vm_compute; reflexivity
    | vm_compute; reflexivity | vm_compute; reflexivity | vm_compute; reflexivity].
Defined.

(** A second delivery of the first branch does not get in: it stays at its lock. *)
Example second_waits :
  match th_prog (sample_drive 5 sample_thread (sample_end 3).2).1 with
  | Vis (ELock k) _ => String.eqb k (PartitionKey bill_envelope)
  | _ => false
  end = true.
Proof. vm_compute. reflexivity. Qed.

(** Two workers have two streams, and two maps of mutexes: the same delivery can be
    inside its partition on both. The claim keeps the second one from processing. *)
Definition new_worker (y : sys (Prepared := unit)) : sys :=
  mkSys (mkWorld (w_db (sy_world y)) (w_streams (sy_world y) ++ [new_locks])
           (w_held (sy_world y)) (w_wire (sy_world y))) (sy_threads y) (sy_past y).
Definition other_stream : sys := new_worker (sample_sys 3).
Definition second_thread : thread :=
  (sample_drive 2 (thread_on 1 bill_envelope 7 sample_delivery) (sy_world other_stream)).1.

Example streams_do_not_exclude :
  rtc (step NewSQLClaimStore NewSQLChain sample_ctx) (boot sample_db)
    (joined 2 (thread_on 1 bill_envelope 7 sample_delivery) other_stream)
  /\ inside (PartitionKey bill_envelope) (sample_end 3).1 = true
  /\ inside (PartitionKey bill_envelope) second_thread = true
  /\ existsb (fun cl => match projT1 cl as e return answer e -> bool with
                        | EClaim _ => fun x => match x with Ok ClaimInFlight => true | _ => false end
                        | _ => fun _ => false end (projT2 cl)) (th_hist second_thread) = true.
Proof.
  split; [|vm_compute; auto].
  apply joined_reachable.
  - apply (start_delivery sample_ctx _ "tenant_acme" 7 _ bill_envelope 1);
      [vm_compute; reflexivity | vm_compute; reflexivity | vm_compute; lia].
  - eapply rtc_r; [apply (sample_sys_reachable 3)|]. apply (step_worker _ _ sample_ctx (sample_sys 3)).
Qed.
