(* ===== verification/BigInt.v ===== *)
(** * Big integers as bytes ([math/big])

    [Int.Bytes], the shortest big-endian form of a non-negative integer, and
    [Int.SetBytes]. Bytes are integers from 0 to 255. *)

From S2P Require Import Prelude Base64.
Local Open Scope Z_scope.

Fixpoint be_bytes (fuel : nat) (n : Z) : list Z :=
  match fuel with
  | O => []
  | S fuel => if n <=? 0 then [] else be_bytes fuel (n / 256) ++ [n mod 256]
  end.

(** [n.Bytes()]; every division takes eight bits off, so the number of bits is
    enough fuel. *)
Definition big_bytes (n : Z) : list Z := be_bytes (S (Z.to_nat (Z.log2 n))) n.

(** [new(big.Int).SetBytes(l)]. *)
Definition SetBytes (l : list Z) : Z := fold_left (fun a b => a * 256 + b) l 0.

Lemma SetBytes_snoc l b : SetBytes (l ++ [b]) = SetBytes l * 256 + b.
Proof. unfold SetBytes. by rewrite fold_left_app. Qed.

Lemma be_bytes_value fuel n : 0 <= n < 2 ^ Z.of_nat fuel -> SetBytes (be_bytes fuel n) = n.
Proof.
  revert n. induction fuel as [|fuel IH]; intros n Hn; [cbn in *; lia|].
  cbn [be_bytes]. destruct (Z.leb_spec n 0) as [|Hp]; [cbn; lia|].
  rewrite SetBytes_snoc, IH.
  - pose proof (Z.div_mod n 256). lia.
  - rewrite Nat2Z.inj_succ, Z.pow_succ_r in Hn by lia. split; [apply Z.div_pos; lia|].
    apply Z.div_lt_upper_bound; lia.
Qed.

Lemma be_bytes_octets fuel n : Forall octet (be_bytes fuel n).
Proof.
  revert n. induction fuel as [|fuel IH]; intros n; [constructor|]. cbn [be_bytes].
  destruct (n <=? 0); [constructor|]. apply Forall_app. split; [apply IH|].
  apply Forall_singleton. unfold octet. apply Z.mod_pos_bound. lia.
Qed.

Lemma be_bytes_length fuel n k : 0 <= n < 256 ^ Z.of_nat k -> (length (be_bytes fuel n) <= k)%nat.
Proof.
  revert n k. induction fuel as [|fuel IH]; intros n k Hn; [cbn; lia|]. cbn [be_bytes].
  destruct (Z.leb_spec n 0) as [|Hp]; [cbn; lia|]. destruct k as [|k]; [cbn in Hn; lia|].
  rewrite length_app. cbn [length]. specialize (IH (n / 256) k).
  rewrite Nat2Z.inj_succ, Z.pow_succ_r in Hn by lia.
  enough (length (be_bytes fuel (n / 256)) <= k)%nat by lia. apply IH.
  split; [apply Z.div_pos; lia|]. apply Z.div_lt_upper_bound; lia.
Qed.

(** The form is the shortest one: it does not begin with zero. *)
Lemma be_bytes_head fuel n : 0 <= n < 2 ^ Z.of_nat fuel ->
  match be_bytes fuel n with [] => n = 0 | b :: _ => b <> 0 end.
Proof.
  revert n. induction fuel as [|fuel IH]; intros n Hn; [cbn in *; lia|].
  cbn [be_bytes]. destruct (Z.leb_spec n 0) as [|Hp]; [lia|].
  assert (H : 0 <= n / 256 < 2 ^ Z.of_nat fuel).
  { rewrite Nat2Z.inj_succ, Z.pow_succ_r in Hn by lia. split; [apply Z.div_pos; lia|].
    apply Z.div_lt_upper_bound; lia. }
  specialize (IH _ H). destruct (be_bytes fuel (n / 256)) as [|b l]; [|done]. cbn.
  pose proof (Z.div_mod n 256). lia.
Qed.

Lemma log2_fuel n : 0 <= n -> 0 <= n < 2 ^ Z.of_nat (S (Z.to_nat (Z.log2 n))).
Proof.
  intros Hn. split; [done|]. rewrite Nat2Z.inj_succ, Z2Nat.id by apply Z.log2_nonneg.
  destruct (Z.eq_dec n 0) as [->|]; [by vm_compute|]. apply Z.log2_spec. lia.
Qed.

Lemma SetBytes_big_bytes n : 0 <= n -> SetBytes (big_bytes n) = n.
Proof. intros Hn. by apply be_bytes_value, log2_fuel. Qed.

Lemma big_bytes_octets n : Forall octet (big_bytes n).
Proof. apply be_bytes_octets. Qed.

Lemma big_bytes_length n k : 0 <= n < 256 ^ Z.of_nat k -> (length (big_bytes n) <= k)%nat.
Proof. apply be_bytes_length. Qed.

Lemma big_bytes_head n : 0 <= n -> match big_bytes n with [] => n = 0 | b :: _ => b <> 0 end.
Proof. intros Hn. by apply be_bytes_head, log2_fuel. Qed.

Lemma SetBytes_zeros k l : SetBytes (replicate k 0 ++ l) = SetBytes l.
Proof. unfold SetBytes. rewrite fold_left_app. f_equal. induction k as [|k IH]; [done|exact IH]. Qed.

#[export] Hint Resolve big_bytes_octets : go.

Example big_bytes_sample : big_bytes 65537 = [1; 0; 1] /\ big_bytes 0 = [] /\ SetBytes [1; 0; 1] = 65537.
Proof. by vm_compute. Qed.
