(* ===== verification/Cert.v ===== *)
(** * Certificates and private keys ([crypto/cert.go])

    Parsing with the fallback for curves that Go's [crypto/x509] refuses, and
    the texts that a signature needs of a certificate. The decoders of PEM,
    X.509 and ASN.1 belong to Go's standard library and are the interface
    [Decoders]; [Hash] is its SHA-256. *)

From S2P Require Import Prelude GoStrings GoText Base64 GoErrors Uuid BigInt.
Local Open Scope Z_scope.

Definition bytes_text (l : list Z) : string := of_bytes (map byte_of l).
Definition text_bytes (s : string) : list Z := map bv (bytes s).

Class Hash : Type := mkHash {
  sha256 : string -> string;
  sha256_length s : String.length (sha256 s) = 32%nat
}.

(** ** What the standard library decodes *)

Record PublicKey : Type := mkPublicKey { pk_curve : string; pk_X : Z; pk_Y : Z }.
Record PrivateKey : Type := mkPrivateKey { sk_public : PublicKey; sk_D : Z }.

(** [x509.Certificate]; the key is missing when it is not an ECDSA key. *)
Record x509_cert : Type := mkX509 { xc_issuer : string; xc_serial : Z; xc_key : option PublicKey }.

(** The parts of [certificate] that are used: serial number, the raw issuer and
    the bits of the public key. *)
Record asn1_cert : Type := mkAsn1Cert { ac_serial : Z; ac_issuer : string; ac_key : string }.

(** [ecPrivateKey] and [pkcs8PrivateKey]; an absent curve is an empty identifier. *)
Record ec_private : Type := mkEcPrivate { ep_key : string; ep_curve : list Z; ep_public : string }.
Record pkcs8_private : Type := mkPkcs8 { p8_parameters : string; p8_key : string }.

Class Decoders : Type := mkDecoders {
  pem_Decode : string -> option string;
  x509_ParseCertificate : string -> option x509_cert;
  x509_ParseECPrivateKey : string -> option PrivateKey;
  x509_ParsePKCS8PrivateKey : string -> option (option PrivateKey); (* inner: an ECDSA key *)
  asn1_certificate : string -> result error (asn1_cert * string);   (* value and rest *)
  asn1_issuer : string -> result error (list (list (list Z * string)));
  asn1_oid : string -> option (list Z);
  asn1_ec_private : string -> result error ec_private;
  asn1_pkcs8 : string -> option pkcs8_private
}.

(** ** Certificates *)

Record CertInfo : Type := mkCertInfo {
  ci_Certificate : option x509_cert;
  ci_Raw : string;
  ci_PublicKey : PublicKey;
  ci_IssuerName : string;
  ci_SerialNum : Z
}.

Definition oidSecp256k1 : list Z := [1; 3; 132; 0; 10].
Definition secp256k1 : string := "secp256k1".

Definition sub_bytes (s : string) (i j : nat) : list Z := take (j - i) (drop i (text_bytes s)).

Definition uncompressed (data : string) : bool :=
  match text_bytes data with b :: _ => (b =? 4) && (String.length data =? 65)%nat | [] => false end.

Definition point_of (data : string) : PublicKey :=
  mkPublicKey secp256k1 (SetBytes (sub_bytes data 1 33)) (SetBytes (sub_bytes data 33 65)).

Definition parseSecp256k1PublicKey (data : string) : result error PublicKey :=
  match text_bytes data with
  | [] => Err (NewError "empty public key")
  | b :: _ =>
      if (b =? 4) && (String.length data =? 65)%nat then Ok (point_of data)
      else Err (NewError ("unsupported public key format (len=" +:+ itoa (Z.of_nat (String.length data))
                          +:+ ", prefix=0x" +:+ hex_byte b +:+ ")"))
  end.

(** [asn1.ObjectIdentifier.String]. *)
Definition oid_String (oid : list Z) : string := Join (map itoa oid) ".".

Definition oidToName (oid : list Z) : string :=
  if bool_decide (oid = [2; 5; 4; 3]) then "CN"
  else if bool_decide (oid = [2; 5; 4; 6]) then "C"
  else if bool_decide (oid = [2; 5; 4; 10]) then "O"
  else if bool_decide (oid = [2; 5; 4; 11]) then "OU"
  else oid_String oid.

(** The parts in reverse order, joined by commas. *)
Definition joinReverse (parts : list string) : string := Join (reverse parts) ",".

Section certificates.
Context `{Decoders} `{Hash}.

Definition parseIssuerDN (raw : string) : result error string :=
  match asn1_issuer raw with
  | Err e => Err e
  | Ok rdnSeq =>
      Ok (joinReverse (map (fun atv => oidToName atv.1 +:+ "=" +:+ atv.2) (concat rdnSeq)))
  end.

Definition parseCertDERManual (derBytes : string) : result error CertInfo :=
  match asn1_certificate derBytes with
  | Err e => Err (Wrap "asn1 parse certificate: " e "")
  | Ok (cert, rest) =>
      if negb (String.eqb rest "") then Err (NewError "trailing data after certificate")
      else
        let issuerName := match parseIssuerDN (ac_issuer cert) with Ok n => n | Err _ => "CN=unknown" end in
        match parseSecp256k1PublicKey (ac_key cert) with
        | Err e => Err (Wrap "parse secp256k1 public key: " e "")
        | Ok pubKey => Ok (mkCertInfo None derBytes pubKey issuerName (ac_serial cert))
        end
  end.

Definition parseCertDER (derBytes : string) : result error CertInfo :=
  match x509_ParseCertificate derBytes with
  | Some cert =>
      match xc_key cert with
      | None => Err (NewError "certificate public key is not ECDSA")
      | Some pubKey => Ok (mkCertInfo (Some cert) derBytes pubKey (xc_issuer cert) (xc_serial cert))
      end
  | None => parseCertDERManual derBytes
  end.

Definition ParseCertificate (base64Cert : string) : result error CertInfo :=
  match base64_decode base64Cert with
  | None => Err (Wrap "base64 decode certificate: " (NewError "illegal base64 data") "")
  | Some derBytes =>
      match parseCertDER derBytes with
      | Ok info => Ok info
      | Err err =>
          match base64_decode derBytes with
          | None => Err (Wrap "parse X.509 certificate: " err "")
          | Some innerDER => parseCertDER innerDER
          end
      end
  end.

Definition ParseCertificatePEM (pemData : string) : result error CertInfo :=
  match pem_Decode pemData with
  | None => Err (NewError "failed to decode PEM block")
  | Some block => parseCertDER block
  end.

(** [%x] of a byte slice. *)
Definition hex_of (s : string) : string := format_bytes (text_bytes s).

Definition CertDigest (ci : CertInfo) : string := base64_encode (hex_of (sha256 (ci_Raw ci))).
Definition CertBase64 (ci : CertInfo) : string := base64_encode (ci_Raw ci).

(** [copy(buf[off:end], l)], where [end = off + len(l)]. *)
Definition copy_at (off : nat) (l buf : list Z) : list Z :=
  take off buf ++ l ++ drop (off + length l) buf.

(** 65 bytes: 0x04, X and Y, padded to 32 bytes each; [None] is the panic of a
    slice that begins before the buffer. *)
Definition PublicKeyBytes (ci : CertInfo) : option string :=
  let x := big_bytes (pk_X (ci_PublicKey ci)) in
  let y := big_bytes (pk_Y (ci_PublicKey ci)) in
  let pubKey := 4 :: replicate 64 0 in
  if (length x <=? 33)%nat && (length y <=? 65)%nat
  then Some (bytes_text (copy_at (65 - length y) y (copy_at (33 - length x) x pubKey)))
  else None.

Definition IssuerNameForXML (ci : CertInfo) : string :=
  match ci_Certificate ci with Some c => xc_issuer c | None => ci_IssuerName ci end.

Definition SerialNumberDecimal (ci : CertInfo) : string := itoa (ci_SerialNum ci).

(** ** Private keys *)

Definition buildSecp256k1Key (privBytes pubBytes : string) : result error PrivateKey :=
  if uncompressed pubBytes
  then Ok (mkPrivateKey (point_of pubBytes) (SetBytes (text_bytes privBytes)))
  else Err (NewError "secp256k1 key missing embedded public key").

(** The inner key of a PKCS8 structure whose curve is secp256k1, if it is one. *)
Definition pkcs8_secp256k1 (der : string) : option (result error PrivateKey) :=
  pkcs8 ← asn1_pkcs8 der;
  curveOID ← asn1_oid (p8_parameters pkcs8);
  if bool_decide (curveOID = oidSecp256k1) then
    Some match asn1_ec_private (p8_key pkcs8) with
         | Err e => Err (Wrap "parse inner EC key: " e "")
         | Ok ecKey => buildSecp256k1Key (ep_key ecKey) (ep_public ecKey)
         end
  else None.

Definition parseSecp256k1PrivateKey (der : string) : result error PrivateKey :=
  match pkcs8_secp256k1 der with
  | Some r => r
  | None =>
      match asn1_ec_private der with
      | Ok ecKey =>
          if bool_decide (ep_curve ecKey = oidSecp256k1) || bool_decide (ep_curve ecKey = [])
          then buildSecp256k1Key (ep_key ecKey) (ep_public ecKey)
          else Err (NewError "failed to parse secp256k1 private key")
      | Err _ => Err (NewError "failed to parse secp256k1 private key")
      end
  end.

Definition ParsePrivateKey (pemData : string) : result error PrivateKey :=
  match pem_Decode pemData with
  | None => Err (NewError "failed to decode PEM private key")
  | Some block =>
      match x509_ParseECPrivateKey block with
      | Some key => Ok key
      | None =>
          match x509_ParsePKCS8PrivateKey block with
          | Some (Some ecKey) => Ok ecKey
          | _ => parseSecp256k1PrivateKey block
          end
      end
  end.
End certificates.

(** ** Facts *)

Lemma text_bytes_text l : Forall octet l -> text_bytes (bytes_text l) = l.
Proof.
  intros Hl. unfold text_bytes, bytes_text. rewrite bytes_of_bytes.
  induction Hl as [|z l Hz _ IH]; [done|]. cbn. rewrite bv_byte_of, IH. f_equal. by apply Z.mod_small.
Qed.

Lemma length_bytes_text l : String.length (bytes_text l) = length l.
Proof. unfold bytes_text. by rewrite <- length_bytes, bytes_of_bytes, length_map. Qed.

(** The bytes of an integer below 2^256, padded to 32. *)
Definition padded (n : Z) : list Z := replicate (32 - length (big_bytes n)) 0 ++ big_bytes n.

Lemma padded_length n : 0 <= n < 2 ^ 256 -> length (padded n) = 32%nat.
Proof.
  intros Hn. pose proof (big_bytes_length n 32 Hn). unfold padded.
  rewrite length_app, length_replicate. lia.
Qed.

Lemma padded_octets n : Forall octet (padded n).
Proof. apply Forall_app. split; [|apply big_bytes_octets]. apply Forall_replicate. unfold octet. lia. Qed.

Lemma padded_value n : 0 <= n -> SetBytes (padded n) = n.
Proof. intros Hn. unfold padded. by rewrite SetBytes_zeros, SetBytes_big_bytes. Qed.

(** A slice of zeros at the end of a buffer, overwritten. *)
Lemma copy_at_zeros a k l b n : length a = n ->
  copy_at (n + k) l (a ++ replicate (k + length l) 0 ++ b) = a ++ replicate k 0 ++ l ++ b.
Proof.
  intros <-. unfold copy_at.
  rewrite replicate_add, <- (app_assoc (replicate k 0)), (app_assoc a (replicate k 0)).
  rewrite take_app_length' by (rewrite length_app, length_replicate; done).
  rewrite (app_assoc _ (replicate (length l) 0)), drop_app_length'
    by (rewrite !length_app, !length_replicate; done).
  by rewrite <- !app_assoc.
Qed.

Lemma PublicKeyBytes_small ci :
  0 <= pk_X (ci_PublicKey ci) < 2 ^ 256 -> 0 <= pk_Y (ci_PublicKey ci) < 2 ^ 256 ->
  PublicKeyBytes ci = Some (bytes_text (4 :: padded (pk_X (ci_PublicKey ci)) ++ padded (pk_Y (ci_PublicKey ci)))).
Proof.
  intros HX HY. unfold PublicKeyBytes, padded.
  pose proof (big_bytes_length _ 32 HX) as Hx. pose proof (big_bytes_length _ 32 HY) as Hy.
  set (x := big_bytes (pk_X (ci_PublicKey ci))) in *. set (y := big_bytes (pk_Y (ci_PublicKey ci))) in *.
  replace ((length x <=? 33)%nat && (length y <=? 65)%nat) with true
    by (symmetry; apply andb_true_iff; rewrite !Nat.leb_le; lia).
  f_equal. f_equal.
  pose proof (copy_at_zeros [4] (32 - length x) x (replicate (32 - length y + length y) 0) 1 eq_refl) as H1.
  pose proof (copy_at_zeros (4 :: replicate (32 - length x) 0 ++ x) (32 - length y) y [] 33) as H2.
  cbn [app] in H1, H2. rewrite <- replicate_add in H1. rewrite !app_nil_r in H2.
  replace (32 - length x + length x + (32 - length y + length y))%nat with 64%nat in H1 by lia.
  replace (1 + (32 - length x))%nat with (33 - length x)%nat in H1 by lia.
  replace (33 + (32 - length y))%nat with (65 - length y)%nat in H2 by lia.
  cbv zeta. rewrite H1. rewrite <- !app_assoc in H2. rewrite H2; [by rewrite <- app_assoc|].
  cbn [length]. rewrite length_app, length_replicate. lia.
Qed.

Lemma SetBytes_bound l : Forall octet l -> 0 <= SetBytes l < 256 ^ Z.of_nat (length l).
Proof.
  induction l as [|b l IH] using rev_ind; intros Hl; [by vm_compute|].
  apply Forall_app in Hl as [Hl Hb]. apply Forall_cons in Hb as [Hb _]. specialize (IH Hl). unfold octet in Hb.
  rewrite SetBytes_snoc, length_app. cbn [length]. rewrite Nat.add_1_r, Nat2Z.inj_succ, Z.pow_succ_r by lia. lia.
Qed.

(** An integer of [256^k] or more has more than [k] bytes. *)
Lemma big_bytes_long n k : 256 ^ Z.of_nat k <= n -> (k < length (big_bytes n))%nat.
Proof.
  intros Hn. assert (0 <= n) by (pose proof (Z.pow_pos_nonneg 256 (Z.of_nat k)); lia).
  pose proof (SetBytes_bound _ (big_bytes_octets n)) as Hb. rewrite SetBytes_big_bytes in Hb by done.
  apply Nat.nle_gt. intros Hle.
  pose proof (Z.pow_le_mono_r 256 (Z.of_nat (length (big_bytes n))) (Z.of_nat k) ltac:(lia) ltac:(lia)). lia.
Qed.

(** The public key of a 256-bit curve is written as the 65 bytes of its uncompressed point, and
    reading them back gives the same point; a key whose X coordinate takes more than 33 bytes, as
    the keys of P-384 and P-521 can, makes the writer slice before its buffer and panic. *)
Theorem public_key_bytes_exact ci :
  let '(X, Y) := (pk_X (ci_PublicKey ci), pk_Y (ci_PublicKey ci)) in
  (0 <= X < 2 ^ 256 -> 0 <= Y < 2 ^ 256 ->
     exists b, PublicKeyBytes ci = Some b /\ String.length b = 65%nat
       /\ parseSecp256k1PublicKey b = Ok (mkPublicKey secp256k1 X Y))
  /\ (2 ^ 264 <= X -> PublicKeyBytes ci = None).
Proof.
  set (X := pk_X (ci_PublicKey ci)). set (Y := pk_Y (ci_PublicKey ci)). split.
  - intros HX HY. pose proof (PublicKeyBytes_small ci HX HY) as Hb. fold X Y in Hb.
    eexists. split; [exact Hb|]. set (l := 4 :: padded X ++ padded Y).
    pose proof (padded_length X HX) as Lx. pose proof (padded_length Y HY) as Ly.
    assert (Hl : length l = 65%nat) by (unfold l; cbn [length]; rewrite length_app; lia).
    assert (Ho : Forall octet l).
    { constructor; [unfold octet; lia|]. apply Forall_app. split; apply padded_octets. }
    split; [by rewrite length_bytes_text|]. unfold parseSecp256k1PublicKey.
    rewrite text_bytes_text, length_bytes_text, Hl by done. unfold l at 1. cbn [Z.eqb Pos.eqb Nat.eqb andb].
    unfold point_of, sub_bytes. rewrite text_bytes_text by done. do 2 f_equal.
    + change (drop 1 l) with (padded X ++ padded Y).
      rewrite take_app_length' by (by rewrite Lx). apply padded_value. lia.
    + change (drop 33 l) with (drop 32 (padded X ++ padded Y)).
      rewrite drop_app_length' by (by rewrite Lx). rewrite take_ge by (rewrite Ly; lia). apply padded_value. lia.
  - intros HX. unfold PublicKeyBytes. fold X Y. cbv zeta.
    pose proof (big_bytes_long X 33 HX) as H.
    replace (length (big_bytes X) <=? 33)%nat with false; [done|]. symmetry. apply Nat.leb_gt. lia.
Qed.

Definition sample_cert (X Y : Z) : CertInfo := mkCertInfo None "der" (mkPublicKey secp256k1 X Y) "CN=test" 7.

Lemma public_key_bytes_exact_witness :
  (exists b, PublicKeyBytes (sample_cert 1 (2 ^ 255)) = Some b
     /\ parseSecp256k1PublicKey b = Ok (mkPublicKey secp256k1 1 (2 ^ 255)))
  /\ PublicKeyBytes (sample_cert (2 ^ 383) 1) = None.
Proof.
  split.
  - destruct (public_key_bytes_exact (sample_cert 1 (2 ^ 255))) as [H _].
    destruct H as (b & H1 & _ & H2); [cbn; lia..|]. exists b. split; [exact H1|exact H2].
  - apply (public_key_bytes_exact (sample_cert (2 ^ 383) 1)). cbn. lia.
Defined.
