(* ===== verification/InvoiceHash.v ===== *)
(** * The invoice hash ([crypto/hash.go])

    The document tree is that of [etree]; reading a document and its canonical
    form (C14N 1.1) belong to the libraries and are the interface [XmlLibrary].
    Three children of the root are left out of the hash: the extensions, the
    signature reference and the reference that carries the QR code. [hash_covers]
    states what is hashed without the program's matchers. *)

From S2P Require Import Prelude GoStrings GoText Base64 GoErrors Cert.
Local Open Scope Z_scope.

#[local] Set Warnings "-register-all".

(** ** Document trees *)

Record etree_attr : Type := mkAttr { at_Space : string; at_Key : string; at_Value : string }.

(** [etree.Token]: an element, character data, a comment, or a directive or
    processing instruction. *)
Inductive token : Type :=
| TElement (Space Tag : string) (Attr : list etree_attr) (Child : list token)
| TCharData (data : string)
| TComment (data : string)
| TOther (data : string).

Definition is_element (t : token) : bool := match t with TElement _ _ _ _ => true | _ => false end.

(** [Element.Text] of the children: the character data before the first element. *)
Fixpoint Text (children : list token) : string :=
  match children with
  | TCharData d :: rest => d +:+ Text rest
  | TComment _ :: rest => Text rest
  | _ => ""
  end.

Definition nsExt : string := "urn:oasis:names:specification:ubl:schema:xsd:CommonExtensionComponents-2".
Definition nsCAC : string := "urn:oasis:names:specification:ubl:schema:xsd:CommonAggregateComponents-2".

(** ** Removing children of the root *)

(** [resolveNamespace] at the root: the document above it has no attributes. *)
Definition resolveNamespace (attrs : list etree_attr) (prefix : string) : string :=
  match find (fun a => (String.eqb (at_Space a) "xmlns" && String.eqb (at_Key a) prefix)
                       || (String.eqb (at_Space a) "" && String.eqb (at_Key a) "xmlns" && String.eqb prefix ""))
             attrs with
  | Some a => at_Value a
  | None => ""
  end.

(** The two tests of [removeChildElement] for one child. *)
Definition matches (attrs : list etree_attr) (space tag : string) (child : token) : bool :=
  match child with
  | TElement s t _ _ =>
      (negb (String.eqb s "") && String.eqb (resolveNamespace attrs s) space && String.eqb t tag)
      || (String.eqb t tag
          && existsb (fun a => String.eqb (at_Key a) s && String.eqb (at_Space a) "xmlns"
                               && String.eqb (at_Value a) space) attrs)
  | _ => false
  end.

Fixpoint remove_first (p : token -> bool) (l : list token) : list token :=
  match l with
  | [] => []
  | t :: l' => if p t then l' else t :: remove_first p l'
  end.

Definition removeChildElement (attrs : list etree_attr) (space tag : string) (children : list token) : list token :=
  remove_first (matches attrs space tag) children.

(** A reference that holds an ID child with the text QR. *)
Definition is_qr_reference (t : token) : bool :=
  match t with
  | TElement _ tag _ children =>
      String.eqb tag "AdditionalDocumentReference"
      && existsb (fun sub => match sub with
                             | TElement _ t _ c => String.eqb t "ID" && String.eqb (TrimSpace (Text c)) "QR"
                             | _ => false
                             end) children
  | _ => false
  end.

Definition removeQRReference (children : list token) : list token := remove_first is_qr_reference children.

(** The children of the root that are hashed. *)
Definition strip (attrs : list etree_attr) (children : list token) : list token :=
  removeQRReference
    (removeChildElement attrs nsCAC "Signature" (removeChildElement attrs nsExt "UBLExtensions" children)).

(** ** The hash *)

(** [ReadFromString], and the canonical form of a root element. *)
Class XmlLibrary : Type := mkXmlLibrary {
  etree_Read : string -> result error (list token);
  c14n11 : string -> string -> list etree_attr -> list token -> result error string
}.

Section hash.
Context `{XmlLibrary} `{Hash}.

(** [doc.Root()]: the first element. *)
Definition Root (doc : list token) : option token := find is_element doc.

Definition canonicalizeForHashing (xmlContent : string) : result error string :=
  match etree_Read xmlContent with
  | Err e => Err (Wrap "parsing XML: " e "")
  | Ok doc =>
      match Root doc with
      | Some (TElement space tag attrs children) =>
          match c14n11 space tag attrs (strip attrs children) with
          | Err e => Err (Wrap "C14N11: " e "")
          | Ok c => Ok c
          end
      | _ => Err (NewError "no root element")
      end
  end.

Definition InvoiceHash (xmlContent : string) : result error string :=
  match canonicalizeForHashing xmlContent with
  | Err e => Err e
  | Ok c => Ok (base64_encode (sha256 c))
  end.

Definition InvoiceHashBytes (xmlContent : string) : result error string :=
  match canonicalizeForHashing xmlContent with
  | Err e => Err e
  | Ok c => Ok (sha256 c)
  end.

Definition ExportCanonicalizedXML (xmlContent : string) : result error string :=
  match canonicalizeForHashing xmlContent with
  | Err e => Err e
  | Ok c => Ok c
  end.

(** [doc.Indent(0)] and [doc.WriteToString]. *)
Context (etree_Write : list token -> string).

(** The document with other children of its root. *)
Fixpoint with_root (children : list etree_attr -> list token -> list token) (doc : list token) : list token :=
  match doc with
  | [] => []
  | TElement space tag attrs child :: rest => TElement space tag attrs (children attrs child) :: rest
  | t :: rest => t :: with_root children rest
  end.

Definition ExportStripForHashing (xmlContent : string) : string :=
  match etree_Read xmlContent with
  | Err _ => xmlContent
  | Ok doc => match Root doc with
              | None => xmlContent
              | Some _ => etree_Write (with_root strip doc)
              end
  end.

Definition PIHHash (signedXML : string) : string := base64_encode (sha256 signedXML).
End hash.

(** ** What is hashed *)

(** The parts of an invoice that its hash leaves out: the three XPath
    transforms that the signature names (buildSignedInfo of crypto/sign.go),
    not(ext:UBLExtensions), not(cac:Signature) and
    not(cac:AdditionalDocumentReference[cbc:ID='QR']), on the children of the
    root; an ID is read without surrounding space. A prefix stands for the
    namespace that the root declares for it. *)
Inductive left_out : Type := Extensions | SignatureReference | QRReference.

Definition ext_uri : string := "urn:oasis:names:specification:ubl:schema:xsd:CommonExtensionComponents-2".
Definition cac_uri : string := "urn:oasis:names:specification:ubl:schema:xsd:CommonAggregateComponents-2".

Inductive is_left_out (attrs : list etree_attr) : left_out -> token -> Prop :=
| out_extensions prefix a c :
    mkAttr "xmlns" prefix ext_uri ∈ attrs ->
    is_left_out attrs Extensions (TElement prefix "UBLExtensions" a c)
| out_signature prefix a c :
    mkAttr "xmlns" prefix cac_uri ∈ attrs ->
    is_left_out attrs SignatureReference (TElement prefix "Signature" a c)
| out_qr prefix a c id_prefix id_attrs id :
    mkAttr "xmlns" prefix cac_uri ∈ attrs ->
    TElement id_prefix "ID" id_attrs id ∈ c -> TrimSpace (Text id) = "QR" ->
    is_left_out attrs QRReference (TElement prefix "AdditionalDocumentReference" a c).

(** [kept] is [children] without the parts that are left out, in order. *)
Inductive without_parts (attrs : list etree_attr) : list token -> list token -> Prop :=
| without_nil : without_parts attrs [] []
| without_drop p t children kept :
    is_left_out attrs p t -> without_parts attrs children kept ->
    without_parts attrs (t :: children) kept
| without_keep t children kept :
    (forall p, is_left_out attrs p t -> False) -> without_parts attrs children kept ->
    without_parts attrs (t :: children) (t :: kept).

(** The shape of an invoice: no part occurs twice, and every document reference
    is one of the aggregate components. *)
Record invoice_shape (attrs : list etree_attr) (children : list token) : Prop := {
  sh_once : forall p i j t u, children !! i = Some t -> children !! j = Some u ->
    is_left_out attrs p t -> is_left_out attrs p u -> i = j;
  sh_references : forall prefix a c, TElement prefix "AdditionalDocumentReference" a c ∈ children ->
    mkAttr "xmlns" prefix cac_uri ∈ attrs
}.

(** The matcher of the program for each part. *)
Definition matcher (attrs : list etree_attr) (p : left_out) : token -> bool :=
  match p with
  | Extensions => matches attrs nsExt "UBLExtensions"
  | SignatureReference => matches attrs nsCAC "Signature"
  | QRReference => is_qr_reference
  end.

Lemma declared_existsb attrs prefix uri :
  existsb (fun a => String.eqb (at_Key a) prefix && String.eqb (at_Space a) "xmlns"
                    && String.eqb (at_Value a) uri) attrs = true
  <-> mkAttr "xmlns" prefix uri ∈ attrs.
Proof.
  rewrite existsb_exists. split.
  - intros ([s k v] & Hin & H). cbn in H. bool_to_prop. subst. by apply list_elem_of_In.
  - intros H. eexists. split; [by apply list_elem_of_In|]. cbn. by rewrite !String.eqb_refl.
Qed.

(** A prefix is resolved to a namespace that is declared for it. *)
Lemma resolved_declared attrs prefix uri : prefix <> "" -> uri <> "" ->
  resolveNamespace attrs prefix = uri -> mkAttr "xmlns" prefix uri ∈ attrs.
Proof.
  intros Hp Hu H. unfold resolveNamespace in H. destruct (find _ attrs) as [[s k v]|] eqn:E; [|done].
  apply find_some in E as [Hin E]. cbn in H, E. subst v.
  rewrite (proj2 (String.eqb_neq prefix "") Hp), andb_false_r, orb_false_r in E. bool_to_prop. subst.
  by apply list_elem_of_In.
Qed.

Lemma matches_spec attrs uri tag t : uri <> "" ->
  matches attrs uri tag t = true
  <-> exists prefix a c, t = TElement prefix tag a c /\ mkAttr "xmlns" prefix uri ∈ attrs.
Proof.
  intros Hu. destruct t as [s tg a c| | |]; [|split; [done|by intros (? & ? & ? & ? & _)]..].
  cbn [matches]. rewrite orb_true_iff, !andb_true_iff, negb_true_iff, !String.eqb_eq, String.eqb_neq,
    declared_existsb. split.
  - intros [[[Hs Hr] ->]|[-> Hd]]; exists s, a, c; (split; [done|]); [|done].
    by apply resolved_declared.
  - intros (p & a' & c' & [= -> -> -> ->] & Hd). by right.
Qed.

Lemma qr_reference_spec t :
  is_qr_reference t = true
  <-> exists prefix a c id_prefix id_attrs id, t = TElement prefix "AdditionalDocumentReference" a c
        /\ TElement id_prefix "ID" id_attrs id ∈ c /\ TrimSpace (Text id) = "QR".
Proof.
  destruct t as [s tag a c| | |]; [|split; [done|by intros (? & ? & ? & ? & ? & ? & ? & _)]..].
  cbn [is_qr_reference]. rewrite andb_true_iff, String.eqb_eq, existsb_exists. split.
  - intros [-> ([s' t' a' c'| | |] & Hin & H)]; try done. bool_to_prop. subst.
    exists s, a, c, s', a', c'. split_and!; [done|by apply list_elem_of_In|done].
  - intros (p & a' & c' & ip & ia & id & [= -> -> -> ->] & Hin & Hqr). split; [done|].
    eexists. split; [by apply list_elem_of_In|]. cbn [fst]. rewrite Hqr. done.
Qed.

(** A part is always found by its matcher. *)
Lemma left_out_matched attrs p t : is_left_out attrs p t -> matcher attrs p t = true.
Proof.
  destruct 1; cbn [matcher].
  - apply (matches_spec attrs nsExt); [done|]. by eexists _, _, _.
  - apply (matches_spec attrs nsCAC); [done|]. by eexists _, _, _.
  - apply qr_reference_spec. by eexists _, _, _, _, _, _.
Qed.

(** The root is the first element. *)
Lemma Root_first pre space tag attrs c post :
  Forall (fun t => is_element t = false) pre ->
  Root (pre ++ TElement space tag attrs c :: post) = Some (TElement space tag attrs c).
Proof. intros Hp. unfold Root. induction Hp as [|t l Ht _ IH]; [done|]. cbn. by rewrite Ht. Qed.

(** In an invoice the matchers find exactly the parts. *)
Lemma matcher_spec attrs children p t : invoice_shape attrs children -> t ∈ children ->
  matcher attrs p t = true <-> is_left_out attrs p t.
Proof.
  intros Hs Hin. destruct p; cbn [matcher].
  - rewrite (matches_spec attrs nsExt) by done. split; [by intros (? & ? & ? & -> & ?); constructor|].
    inversion 1; subst. by eexists _, _, _.
  - rewrite (matches_spec attrs nsCAC) by done. split; [by intros (? & ? & ? & -> & ?); constructor|].
    inversion 1; subst. by eexists _, _, _.
  - rewrite qr_reference_spec. split.
    + intros (pre & a & c & ip & ia & id & -> & Hc & Hqr). econstructor; [|exact Hc|done].
      by eapply sh_references.
    + inversion 1; subst. by eexists _, _, _, _, _, _.
Qed.

(** Removing the first match of a predicate that matches at most once. *)
Lemma remove_first_filter (p q : token -> bool) l :
  (forall i j t u, l !! i = Some t -> l !! j = Some u -> p t = true -> p u = true -> i = j) ->
  remove_first p (List.filter q l) = List.filter (fun t => q t && negb (p t)) l.
Proof.
  induction l as [|t l IH]; intros H; [done|].
  assert (IH' : remove_first p (List.filter q l) = List.filter (fun t => q t && negb (p t)) l).
  { apply IH. intros i j u v Hi Hj Hu Hv. by assert (S i = S j) as [= ->] by (by apply (H (S i) (S j) u v)). }
  cbn. destruct (q t) eqn:Q; [|done]. cbn. destruct (p t) eqn:E; cbn; [|by rewrite IH'].
  apply filter_ext_in. intros u (j & Hj)%list_elem_of_In%list_elem_of_lookup_1.
  destruct (p u) eqn:Hu; [|by rewrite andb_true_r].
  by specialize (H 0%nat (S j) t u eq_refl Hj E Hu).
Qed.

(** The children that no matcher finds. *)
Definition kept_children (attrs : list etree_attr) (children : list token) : list token :=
  List.filter (fun t => negb (matcher attrs Extensions t) && negb (matcher attrs SignatureReference t)
                        && negb (matcher attrs QRReference t)) children.

Lemma strip_kept attrs children : invoice_shape attrs children ->
  strip attrs children = kept_children attrs children.
Proof.
  intros Hs. unfold strip, removeChildElement, removeQRReference, kept_children.
  change (matches attrs nsExt "UBLExtensions") with (matcher attrs Extensions).
  change (matches attrs nsCAC "Signature") with (matcher attrs SignatureReference).
  change is_qr_reference with (matcher attrs QRReference).
  assert (Honce : forall p i j t u, children !! i = Some t -> children !! j = Some u ->
            matcher attrs p t = true -> matcher attrs p u = true -> i = j).
  { intros p i j t u Hi Hj Ht Hu. apply (sh_once _ _ Hs p i j t u); [done..| |];
      (eapply matcher_spec; [done|by eapply list_elem_of_lookup_2|done]). }
  assert (children = List.filter (fun _ => true) children) as E
    by (clear; induction children as [|t l IH]; [done|exact (f_equal (cons t) IH)]).
  rewrite E at 1. by rewrite !remove_first_filter by (by apply Honce).
Qed.

Lemma kept_without attrs children : invoice_shape attrs children ->
  without_parts attrs children (kept_children attrs children).
Proof.
  intros Hs. assert (Hin : forall t, t ∈ children -> t ∈ children) by done.
  revert Hin. generalize children at 1 3 4 as l. induction l as [|t l IH]; intros Hin; [constructor|].
  assert (Ht : t ∈ children) by (apply Hin; left).
  assert (IH' : without_parts attrs l (kept_children attrs l)) by (apply IH; intros u Hu; apply Hin; by right).
  unfold kept_children. cbn [List.filter].
  destruct (matcher attrs Extensions t) eqn:E1; cbn [negb andb];
    [apply (without_drop _ Extensions); [by apply (matcher_spec _ _ _ _ Hs Ht)|done]|].
  destruct (matcher attrs SignatureReference t) eqn:E2; cbn [negb andb];
    [apply (without_drop _ SignatureReference); [by apply (matcher_spec _ _ _ _ Hs Ht)|done]|].
  destruct (matcher attrs QRReference t) eqn:E3; cbn [negb andb];
    [apply (without_drop _ QRReference); [by apply (matcher_spec _ _ _ _ Hs Ht)|done]|].
  apply without_keep; [|done]. intros p Hp. apply (matcher_spec _ _ _ _ Hs Ht) in Hp. destruct p; congruence.
Qed.

Lemma without_unique attrs children kept kept' :
  without_parts attrs children kept -> without_parts attrs children kept' -> kept = kept'.
Proof.
  intros H. revert kept'. induction H as [|p t l k Hp _ IH|t l k Hn _ IH]; intros k'; inversion 1; subst.
  - done.
  - by apply IH.
  - by exfalso; eauto.
  - by exfalso; eauto.
  - f_equal. by apply IH.
Qed.

(** C29: The invoice hash covers exactly what the signature says it covers. For a document of the
    shape of an invoice, read as its root element with these children, InvoiceHash is the Base64
    text of the SHA-256 of the canonical form of the root with exactly the UBL extensions, the
    signature reference and the document reference with the ID QR left out, found by their
    namespaces, and every other child, the references of counter and previous hash included, kept
    in its order. So two documents that differ in those three parts only, as a document before
    and after they are filled, have the same hash. *)
Theorem hash_covers `{XmlLibrary} `{Hash} xml pre post space tag attrs children kept :
  etree_Read xml = Ok (pre ++ TElement space tag attrs children :: post) ->
  Forall (fun t => is_element t = false) pre ->
  invoice_shape attrs children -> without_parts attrs children kept ->
  InvoiceHash xml
  = match c14n11 space tag attrs kept with
    | Ok canonical => Ok (base64_encode (sha256 canonical))
    | Err e => Err (Wrap "C14N11: " e "")
    end
  /\ forall xml' pre' post' children',
       etree_Read xml' = Ok (pre' ++ TElement space tag attrs children' :: post') ->
       Forall (fun t => is_element t = false) pre' ->
       invoice_shape attrs children' -> without_parts attrs children' kept ->
       InvoiceHash xml' = InvoiceHash xml.
Proof.
  assert (Hall : forall xml pre post children,
    etree_Read xml = Ok (pre ++ TElement space tag attrs children :: post) ->
    Forall (fun t => is_element t = false) pre ->
    invoice_shape attrs children -> without_parts attrs children kept ->
    InvoiceHash xml = match c14n11 space tag attrs kept with
                      | Ok canonical => Ok (base64_encode (sha256 canonical))
                      | Err e => Err (Wrap "C14N11: " e "")
                      end).
  { clear. intros xml pre post children Hx Hp Hs Hw.
    unfold InvoiceHash, canonicalizeForHashing. rewrite Hx, Root_first by done.
    rewrite strip_kept by done. rewrite (without_unique _ _ _ _ (kept_without _ _ Hs) Hw).
    by destruct (c14n11 space tag attrs kept). }
  intros Hx Hp Hs Hw. split; [by eapply Hall|]. intros xml' pre' post' children' Hx' Hp' Hs' Hw'.
  transitivity (match c14n11 space tag attrs kept with
                | Ok canonical => Ok (base64_encode (sha256 canonical))
                | Err e => Err (Wrap "C14N11: " e "")
                end); [by eapply Hall|symmetry; by eapply Hall].
Qed.

(** ** A sample *)

(** An instance of the libraries: two documents, before and after their parts are filled, and a
    canonical form that lists the tags and their text. *)
Definition sample_attrs : list etree_attr :=
  [mkAttr "xmlns" "ext" ext_uri; mkAttr "xmlns" "cac" cac_uri; mkAttr "xmlns" "cbc" "cbc"].
Definition reference (id : string) (content : list token) : token :=
  TElement "cac" "AdditionalDocumentReference" []
    [TElement "cbc" "ID" [] [TCharData id]; TElement "cac" "Attachment" [] content].
Definition invoice_children (signature qr : list token) : list token :=
  [TElement "ext" "UBLExtensions" [] signature; TElement "cbc" "ID" [] [TCharData "INV-1"];
   reference "ICV" []; reference "PIH" [TCharData "hash-0"]; reference "QR" qr;
   TElement "cac" "Signature" [] []; TElement "cac" "InvoiceLine" [] []].
Definition kept_sample : list token :=
  [TElement "cbc" "ID" [] [TCharData "INV-1"]; reference "ICV" []; reference "PIH" [TCharData "hash-0"];
   TElement "cac" "InvoiceLine" [] []].
Definition filled_parts : list token * list token :=
  ([TElement "ds" "Signature" [] []], [TCharData "AQ=="]).

Definition sample_read (s : string) : result error (list token) :=
  Ok [TOther "xml version"; TElement "" "Invoice" sample_attrs
        (if String.eqb s "signed" then invoice_children filled_parts.1 filled_parts.2 else invoice_children [] [])].

#[export] Instance tag_list : XmlLibrary :=
  mkXmlLibrary sample_read
    (fun _ tag _ c => Ok (tag +:+ Join (map (fun t => match t with TElement _ t _ c => t +:+ Text c | _ => "" end) c) ",")).

#[export] Instance padded_hash : Hash :=
  mkHash (fun s => take_bytes 32 (s +:+ bytes_text (replicate 32 0)))
    ltac:(intros s; cbv beta; rewrite take_bytes_length, string_length_app, length_bytes_text; cbn [length replicate]; lia).

Ltac not_left_out := intros p Hout; inversion Hout; subst;
  repeat match goal with
  | H : _ ∈ _ :: _ |- _ => apply elem_of_cons in H as [H|H]
  | H : _ ∈ [] |- _ => by apply elem_of_nil in H
  end; simplify_eq/=; try done; match goal with H : _ = "QR" |- _ => by vm_compute in H end.

Lemma sample_without signature qr : without_parts sample_attrs (invoice_children signature qr) kept_sample.
Proof.
  unfold invoice_children, kept_sample.
  apply (without_drop _ Extensions); [constructor; left|].
  apply without_keep; [not_left_out|]. apply without_keep; [not_left_out|].
  apply without_keep; [not_left_out|].
  apply (without_drop _ QRReference); [apply (out_qr _ _ _ _ "cbc" [] [TCharData "QR"]); [right; left|left|reflexivity]|].
  apply (without_drop _ SignatureReference); [constructor; right; left|].
  apply without_keep; [not_left_out|]. constructor.
Qed.

Lemma sample_shape parts : parts = ([], []) \/ parts = filled_parts ->
  invoice_shape sample_attrs (invoice_children parts.1 parts.2).
Proof.
  intros Hp. split.
  - intros p i j t u Hi Hj Ht%left_out_matched Hu%left_out_matched.
    assert (Hin : forall n v, invoice_children parts.1 parts.2 !! n = Some v ->
              (n = 0 \/ n = 1 \/ n = 2 \/ n = 3 \/ n = 4 \/ n = 5 \/ n = 6)%nat).
    { intros n v Hn%lookup_lt_Some. cbn in Hn. lia. }
    pose proof (Hin _ _ Hi) as Ii. pose proof (Hin _ _ Hj) as Ij. clear Hin.
    destruct Hp as [-> | ->], p;
      destruct Ii as [->|[->|[->|[->|[->|[-> | ->]]]]]]; cbn in Hi; simplify_eq; try (by vm_compute in Ht);
      destruct Ij as [->|[->|[->|[->|[->|[-> | ->]]]]]]; cbn in Hj; simplify_eq; try done; by vm_compute in Hu.
  - intros prefix a c Hin. unfold invoice_children, reference in Hin.
    repeat (apply elem_of_cons in Hin as [Hin|Hin]; [simplify_eq; right; left|]). by apply elem_of_nil in Hin.
Qed.

Lemma hash_covers_witness :
  InvoiceHash "signed" = InvoiceHash "unsigned"
  /\ InvoiceHash "unsigned" = match c14n11 "" "Invoice" sample_attrs kept_sample with
                              | Ok canonical => Ok (base64_encode (sha256 canonical))
                              | Err e => Err (Wrap "C14N11: " e "") end.
Proof.
  destruct (hash_covers "unsigned" [TOther "xml version"] [] "" "Invoice" sample_attrs
    (invoice_children [] []) kept_sample) as [H1 H2].
  - reflexivity.
  - repeat constructor.
  - by apply (sample_shape ([], [])); left.
  - apply sample_without.
  - split; [|exact H1].
    apply (H2 "signed" [TOther "xml version"] [] (invoice_children filled_parts.1 filled_parts.2));
      [reflexivity | repeat constructor | by apply sample_shape; right | apply sample_without].
Defined.
