(* ===== verification/Civil.v ===== *)
(** * Wall-clock times

    The date and time of day of a [time.Time] in its own location, and the
    layouts of [Time.Format] that the program uses. *)

From S2P Require Import Prelude GoStrings.
Local Open Scope Z_scope.

Record civil : Type := mkCivil {
  t_year : Z; t_month : Z; t_day : Z; t_hour : Z; t_min : Z; t_sec : Z
}.

(** [time.Time{}] is midnight of 1 January of year 1, and [IsZero] tests it. *)
Definition zero_time : civil := mkCivil 1 1 1 0 0 0.
#[export] Instance civil_eq_dec : EqDecision civil.
Proof. solve_decision. Defined.
Definition IsZero (t : civil) : bool := bool_decide (t = zero_time).

(** [appendInt]: decimal, padded with zeros to a width. *)
Definition zeros (n : nat) : string := of_bytes (replicate n ("0" : ascii)).
Definition append_int (x : Z) (width : nat) : string :=
  let digits := itoa (Z.abs x) in
  (if x <? 0 then "-" else "") +:+ zeros (width - String.length digits) +:+ digits.

(** The layouts ["2006-01-02"], ["15:04:05"] and ["2006-01-02T15:04:05Z"]. *)
Definition format_date (t : civil) : string :=
  append_int (t_year t) 4 +:+ "-" +:+ append_int (t_month t) 2 +:+ "-" +:+ append_int (t_day t) 2.
Definition format_clock (t : civil) : string :=
  append_int (t_hour t) 2 +:+ ":" +:+ append_int (t_min t) 2 +:+ ":" +:+ append_int (t_sec t) 2.
Definition format_qr (t : civil) : string := format_date t +:+ "T" +:+ format_clock t +:+ "Z".

Example format_sample : format_qr (mkCivil 2024 3 9 7 5 0) = "2024-03-09T07:05:00Z".
Proof. by vm_compute. Qed.
