(* ===== verification/Float64.v ===== *)
(** * Go's [float64]

    A [float64] is an IEEE 754 binary64 value, and every operation rounds to
    nearest, ties to even: the Standard Library's [SpecFloat] at precision 53.
    No operation is fused, as on amd64. Conversion to [int] truncates; out of
    range it gives the smallest [int64], as on amd64. *)

From Stdlib Require Export SpecFloat.
From S2P Require Import Prelude GoStrings.
Local Open Scope Z_scope.

Abbreviation float64 := spec_float.

Definition f_mul : float64 -> float64 -> float64 := SFmul 53 1024.
Definition f_add : float64 -> float64 -> float64 := SFadd 53 1024.
Definition f_sub : float64 -> float64 -> float64 := SFsub 53 1024.
Definition f_div : float64 -> float64 -> float64 := SFdiv 53 1024.
Definition f_neg : float64 -> float64 := SFopp.
Definition f_ltb : float64 -> float64 -> bool := SFltb.
Definition f_leb : float64 -> float64 -> bool := SFleb.
Definition f_eqb : float64 -> float64 -> bool := SFeqb.

(** The nearest [float64] to [m * 2^e], and to an integer. *)
Definition f_of (m e : Z) : float64 := binary_normalize 53 1024 m e false.
Definition f_int (n : Z) : float64 := f_of n 0.
Definition f_zero : float64 := S754_zero false.
Definition f_half : float64 := f_of 1 (-1).

(** The conversion [int(v)]. *)
Definition int_of_float (v : float64) : Z :=
  match v with
  | S754_zero _ => 0
  | S754_finite s m e =>
      let a := if 0 <=? e then Z.pos m * 2 ^ e else Z.pos m / 2 ^ (- e) in
      let z := if s then - a else a in
      if in_range min_int64 max_int64 z then z else min_int64
  | S754_infinity _ | S754_nan => min_int64
  end.

(** The quotient of two positive integers rounded to the nearest, ties to even. *)
Definition div_even (a b : Z) : Z :=
  let q := a / b in
  let r := a mod b in
  if 2 * r <? b then q else if b <? 2 * r then q + 1 else if Z.even q then q else q + 1.

(** The digits of [n] with the last [prec] after a decimal point. *)
Definition fixed_digits (prec : nat) (n : Z) : string :=
  let d := itoa (n mod 10 ^ Z.of_nat prec) in
  itoa (n / 10 ^ Z.of_nat prec) +:+ "."
  +:+ of_bytes (replicate (prec - String.length d) ("0" : ascii)) +:+ d.

(** The verb [%.<prec>f]: the exact value rounded to [prec] decimals. *)
Definition format_fixed (prec : nat) (v : float64) : string :=
  match v with
  | S754_nan => "NaN"
  | S754_infinity s => if s then "-Inf" else "+Inf"
  | S754_zero s => (if s then "-" else "") +:+ fixed_digits prec 0
  | S754_finite s m e =>
      let num := Z.pos m * 10 ^ Z.of_nat prec in
      let n := if 0 <=? e then num * 2 ^ e else div_even num (2 ^ (- e)) in
      (if s then "-" else "") +:+ fixed_digits prec n
  end.

Example format_115_05 : format_fixed 2 (f_div (f_int 11505) (f_int 100)) = "115.05".
Proof. by vm_compute. Qed.
Example format_tie : format_fixed 2 (f_of 1 (-3)) = "0.12".
Proof. by vm_compute. Qed.
Example format_neg : format_fixed 6 (f_neg (f_of 5 (-1))) = "-2.500000".
Proof. by vm_compute. Qed.

(** ** Facts *)

Definition float_char (c : ascii) : bool :=
  is_digit c || existsb (Ascii.eqb c) (bytes "+-.INafn").

Lemma digits_char_replicate n c : c ∈ bytes (of_bytes (replicate n ("0" : ascii))) -> is_digit c = true.
Proof. rewrite bytes_of_bytes. intros H. by apply elem_of_replicate in H as [-> _]. Qed.
