(* ===== verification/Qr.v ===== *)
(** * QR codes ([crypto/qr.go])

    The tag-length-value encoding of ZATCA's QR codes, its decoder, and their
    round trip. Byte slices are strings; a length is an [int]. *)

From S2P Require Import Prelude GoStrings GoText Models GoErrors Base64 Civil.
Local Open Scope Z_scope.

Definition TagSellerName : Z := 1.
Definition TagVATNumber : Z := 2.
Definition TagTimestamp : Z := 3.
Definition TagTotalWithVAT : Z := 4.
Definition TagVATAmount : Z := 5.
Definition TagInvoiceHash : Z := 6.
Definition TagSignature : Z := 7.
Definition TagPublicKey : Z := 8.
Definition TagCertHash : Z := 9.

Record QRData : Type := mkQRData {
  qr_SellerName : string;
  qr_VATNumber : string;
  qr_Timestamp : civil;
  qr_Total : string;
  qr_VATAmount : string;
  qr_Hash : string;
  qr_Signature : string;
  qr_PublicKey : string;
  qr_CertHash : string
}.

Definition slen (s : string) : Z := Z.of_nat (String.length s).

(** The length bytes that [appendTLV] writes. *)
Definition tlv_length (length : Z) : string :=
  if length <=? 127 then str1 (byte_of length)
  else String (byte_of 0x82)
         (String (byte_of (Z.shiftr length 8)) (str1 (byte_of (Z.land length 0xFF)))).

Definition appendTLV (buf : string) (tag : Z) (value : string) : string :=
  buf +:+ str1 (byte_of tag) +:+ tlv_length (slen value) +:+ value.

Definition append_some (buf : string) (tag : Z) (value : string) : string :=
  if String.eqb value "" then buf else appendTLV buf tag value.

(** The TLV bytes of [GenerateQR], before Base64. *)
Definition qr_tlv (data : QRData) : string :=
  let tlv := appendTLV "" TagSellerName (qr_SellerName data) in
  let tlv := appendTLV tlv TagVATNumber (qr_VATNumber data) in
  let tlv := appendTLV tlv TagTimestamp (format_qr (qr_Timestamp data)) in
  let tlv := appendTLV tlv TagTotalWithVAT (qr_Total data) in
  let tlv := appendTLV tlv TagVATAmount (qr_VATAmount data) in
  let tlv := append_some tlv TagInvoiceHash (qr_Hash data) in
  let tlv := append_some tlv TagSignature (qr_Signature data) in
  let tlv := append_some tlv TagPublicKey (qr_PublicKey data) in
  append_some tlv TagCertHash (qr_CertHash data).

Definition GenerateQR (data : QRData) : result error string :=
  if String.eqb (qr_SellerName data) "" then Err (NewError "seller name is required for QR")
  else if String.eqb (qr_VATNumber data) "" then Err (NewError "VAT number is required for QR")
  else Ok (base64_encode (qr_tlv data)).

Definition GenerateSimpleQR (sellerName vatNumber : string) (timestamp : civil)
    (total vatAmount : string) : result error string :=
  GenerateQR (mkQRData sellerName vatNumber timestamp total vatAmount "" "" "" "").

(** The loop of [DecodeTLV] at offset [i], with the remaining data; [None] is
    exhausted fuel, which [decode_tlv_total] excludes. *)
Fixpoint decode_tlv (fuel : nat) (i : Z) (data : string) (acc : gmap Z string)
    : option (result error (gmap Z string)) :=
  match fuel with
  | O => None
  | S fuel =>
      match data with
      | EmptyString => Some (Ok acc)
      | String _ EmptyString =>
          Some (Err (NewError ("truncated TLV at offset " +:+ itoa i)))
      | String t (String l data') =>
          let tag := bv t in
          let i := i + 1 in
          match (if bv l =? 0x82 then
                   match data' with
                   | String h (String w rest) => Some (Z.lor (Z.shiftl (bv h) 8) (bv w), i + 3, rest)
                   | _ => None
                   end
                 else Some (bv l, i + 1, data')) with
          | None => Some (Err (NewError ("truncated multi-byte length at offset " +:+ itoa i)))
          | Some (length, i, rest) =>
              if slen rest <? length
              then Some (Err (NewError ("TLV value overflow at tag " +:+ itoa tag
                                        +:+ ", offset " +:+ itoa i)))
              else decode_tlv fuel (i + length) (drop_bytes (Z.to_nat length) rest)
                     (<[tag := take_bytes (Z.to_nat length) rest]> acc)
          end
      end
  end.

(** [corrupt] is the error text of the Base64 decoder. *)
Definition DecodeTLV (b64 : string) : result error (gmap Z string) :=
  match base64_decode b64 with
  | None => Err (Wrap "base64 decode: " (NewError "illegal base64 data") "")
  | Some data =>
      match decode_tlv (S (String.length data)) 0 data ∅ with
      | Some r => r
      | None => Err (NewError "")
      end
  end.

(** ** Facts *)

Lemma drop_bytes_length n s : (String.length (drop_bytes n s) <= String.length s)%nat.
Proof. revert s. induction n as [|n IH]; intros [|c s]; cbn; [lia..|]. etransitivity; [apply IH|lia]. Qed.

(** The fuel of [DecodeTLV] is enough: every round consumes a byte. *)
Lemma decode_tlv_total fuel i data acc :
  (String.length data < fuel)%nat -> exists r, decode_tlv fuel i data acc = Some r.
Proof.
  revert i data acc. induction fuel as [|fuel IH]; intros i data acc Hf; [lia|].
  cbn [decode_tlv]. destruct data as [|t [|l data']]; [by eexists..|]. cbn in Hf. cbv zeta.
  destruct (if bv l =? _ then _ else _) as [[[len j] rest]|] eqn:E; [|by eexists].
  assert (String.length rest <= String.length data')%nat.
  { destruct (bv l =? _); [|by simplify_eq].
    destruct data' as [|h [|w r]]; simplify_eq. cbn. lia. }
  destruct (slen rest <? len); [by eexists|]. apply IH.
  pose proof (drop_bytes_length (Z.to_nat len) rest). lia.
Qed.

(** The two length bytes give the length back. *)
Lemma tlv_length_bytes x : 0 <= x < 65536 ->
  Z.lor (Z.shiftl (bv (byte_of (Z.shiftr x 8))) 8) (bv (byte_of (Z.land x 0xFF))) = x.
Proof.
  intros Hx. change 0xFF with (Z.ones 8).
  rewrite !bv_byte_of, Z.shiftr_div_pow2, Z.shiftl_mul_pow2, Z.land_ones by lia.
  change (2 ^ 8) with 256.
  rewrite (Z.mod_small (x / 256)), Z.mod_mod by (Z.to_euclidean_division_equations; lia).
  rewrite <- Z.add_nocarry_lor; [Z.to_euclidean_division_equations; lia|].
  change 256 with (2 ^ 8). rewrite <- Z.shiftl_mul_pow2, <- Z.land_ones by lia.
  apply Z.bits_inj'. intros n Hn. rewrite Z.bits_0, Z.land_spec, Z.land_spec.
  destruct (decide (n < 8)).
  - by rewrite Z.shiftl_spec_low by lia.
  - by rewrite Z.ones_spec_high, !andb_false_r by lia.
Qed.

Definition entry (tag : Z) (value : string) : string :=
  str1 (byte_of tag) +:+ tlv_length (slen value) +:+ value.

Lemma decode_entry fuel i tag value rest acc :
  0 <= tag < 256 -> slen value < 65536 ->
  exists j, decode_tlv (S fuel) i (entry tag value +:+ rest) acc
            = decode_tlv fuel j rest (<[tag := value]> acc).
Proof.
  intros Ht Hv. unfold entry. rewrite !string_app_assoc.
  assert (Htag : bv (byte_of tag) = tag) by (rewrite bv_byte_of; apply Z.mod_small; lia).
  assert (Hn : Z.to_nat (slen value) = String.length value) by (unfold slen; lia).
  assert (Hlt : (slen (value +:+ rest) <? slen value) = false)
    by (apply Z.ltb_ge; unfold slen; rewrite string_length_app; lia).
  assert (0 <= slen value) by (unfold slen; lia).
  unfold tlv_length. destruct (slen value <=? 127) eqn:E.
  - exists (i + 1 + 1 + slen value).
    change (str1 (byte_of tag) +:+ str1 (byte_of (slen value)) +:+ value +:+ rest)
      with (String (byte_of tag) (String (byte_of (slen value)) (value +:+ rest))).
    cbn [decode_tlv]. cbv zeta.
    assert (Hl : bv (byte_of (slen value)) = slen value) by (rewrite bv_byte_of; apply Z.mod_small; lia).
    rewrite Hl, Htag. replace (slen value =? 130) with false by lia.
    by rewrite Hlt, Hn, drop_bytes_app, take_bytes_app.
  - exists (i + 1 + 3 + slen value).
    match goal with |- decode_tlv _ _ ?x _ = _ =>
      change x with (String (byte_of tag) (String (byte_of 0x82)
        (String (byte_of (Z.shiftr (slen value) 8))
          (String (byte_of (Z.land (slen value) 255)) (value +:+ rest))))) end.
    cbn [decode_tlv]. cbv zeta. rewrite (bv_byte_of 0x82). change (130 mod 256 =? 130) with true.
    cbv iota. rewrite tlv_length_bytes by lia.
    by rewrite Htag, Hlt, Hn, drop_bytes_app, take_bytes_app.
Qed.

(** The entries of a QR code, in order. *)
Definition opt_entry (tag : Z) (value : string) : list (Z * string) :=
  if String.eqb value "" then [] else [(tag, value)].
Definition qr_entries (d : QRData) : list (Z * string) :=
  [(TagSellerName, qr_SellerName d); (TagVATNumber, qr_VATNumber d);
   (TagTimestamp, format_qr (qr_Timestamp d)); (TagTotalWithVAT, qr_Total d);
   (TagVATAmount, qr_VATAmount d)]
  ++ opt_entry TagInvoiceHash (qr_Hash d) ++ opt_entry TagSignature (qr_Signature d)
  ++ opt_entry TagPublicKey (qr_PublicKey d) ++ opt_entry TagCertHash (qr_CertHash d).

Definition entries_tlv (l : list (Z * string)) : string :=
  foldr (fun e s => entry e.1 e.2 +:+ s) "" l.

Lemma entries_tlv_app l k : entries_tlv (l ++ k) = entries_tlv l +:+ entries_tlv k.
Proof.
  unfold entries_tlv. induction l as [|e l IH]; cbn [app foldr]; [done|].
  by rewrite IH, string_app_assoc.
Qed.

Lemma append_some_entries buf tag value :
  append_some buf tag value = buf +:+ entries_tlv (opt_entry tag value).
Proof.
  unfold append_some, opt_entry, appendTLV, entries_tlv, entry.
  destruct (String.eqb value ""); cbn [foldr fst snd]; by rewrite string_app_nil_r.
Qed.

Lemma appendTLV_entries buf tag value : appendTLV buf tag value = buf +:+ entries_tlv [(tag, value)].
Proof.
  unfold appendTLV, entries_tlv, entry. cbn [foldr fst snd]. by rewrite string_app_nil_r.
Qed.

Lemma qr_tlv_entries d : qr_tlv d = entries_tlv (qr_entries d).
Proof.
  unfold qr_tlv, qr_entries. rewrite !append_some_entries, !appendTLV_entries, !entries_tlv_app.
  cbn [entries_tlv foldr fst snd]. by rewrite !string_app_nil_r, !string_app_assoc.
Qed.

Lemma decode_entries l fuel i acc :
  Forall (fun e => 0 <= e.1 < 256 /\ slen e.2 < 65536) l -> (length l < fuel)%nat ->
  decode_tlv fuel i (entries_tlv l) acc
  = Some (Ok (fold_left (fun m e => <[e.1 := e.2]> m) l acc)).
Proof.
  revert fuel i acc. induction l as [|[tag value] l IH]; intros fuel i acc Hl Hf.
  - destruct fuel as [|fuel]; [lia|]. done.
  - apply Forall_cons in Hl as [[Ht Hv] Hl]. destruct fuel as [|fuel]; [lia|].
    cbn [entries_tlv foldr fst snd]. destruct (decode_entry fuel i tag value (entries_tlv l) acc) as [j E];
      [done..|]. unfold entries_tlv in E. rewrite E. apply IH; [done|]. cbn in Hf. lia.
Qed.

Lemma entries_length l : (length l <= String.length (entries_tlv l))%nat.
Proof.
  unfold entries_tlv. induction l as [|e l IH]; cbn [foldr length]; [lia|].
  rewrite string_length_app. unfold entry at 1. rewrite !string_length_app.
  change (String.length (str1 (byte_of e.1))) with 1%nat. lia.
Qed.

(** Every value of the code fits a two-byte length. *)
Definition qr_fits (d : QRData) : Prop := Forall (fun e => slen e.2 < 65536) (qr_entries d).

(** The value of a field that is written only when it is not empty. *)
Definition present (value : string) : option string := if String.eqb value "" then None else Some value.

(** C34: A generated QR code decodes to exactly the data it was generated from: for a seller name
    and VAT number that are not empty and values shorter than 64 KiB, GenerateQR returns Base64
    text that DecodeTLV accepts; it maps tags 1 to 5 to the seller name, VAT number, formatted
    timestamp, total and VAT amount, tags 6 to 9 to the hash, signature, key and certificate hash
    when they are present, and no other tag to anything. *)
Theorem qr_round_trip d :
  qr_SellerName d <> "" -> qr_VATNumber d <> "" -> qr_fits d ->
  exists q m, GenerateQR d = Ok q /\ DecodeTLV q = Ok m
    /\ m !! TagSellerName = Some (qr_SellerName d) /\ m !! TagVATNumber = Some (qr_VATNumber d)
    /\ m !! TagTimestamp = Some (format_qr (qr_Timestamp d))
    /\ m !! TagTotalWithVAT = Some (qr_Total d) /\ m !! TagVATAmount = Some (qr_VATAmount d)
    /\ m !! TagInvoiceHash = present (qr_Hash d) /\ m !! TagSignature = present (qr_Signature d)
    /\ m !! TagPublicKey = present (qr_PublicKey d) /\ m !! TagCertHash = present (qr_CertHash d)
    /\ forall tag, ~ (1 <= tag <= 9) -> m !! tag = None.
Proof.
  intros Hs Hv Hfit.
  exists (base64_encode (qr_tlv d)), (fold_left (fun m e => <[e.1 := e.2]> m) (qr_entries d) ∅).
  split; [unfold GenerateQR; by rewrite (proj2 (String.eqb_neq _ _) Hs), (proj2 (String.eqb_neq _ _) Hv)|].
  split.
  { unfold DecodeTLV. rewrite base64_round_trip, qr_tlv_entries, decode_entries; [done| |].
    - unfold qr_fits in Hfit. unfold qr_entries, opt_entry in *.
      repeat case_match; cbn in *; repeat (apply Forall_cons in Hfit as [? Hfit]);
        repeat constructor; cbn; unfold TagSellerName; try done.
    - pose proof (entries_length (qr_entries d)). lia. }
  unfold qr_entries, opt_entry, present. clear Hfit.
  destruct (String.eqb (qr_Hash d) ""), (String.eqb (qr_Signature d) ""),
    (String.eqb (qr_PublicKey d) ""), (String.eqb (qr_CertHash d) "");
    cbn [app fold_left fst snd];
    split_and!; try (by simplify_map_eq);
    intros tag Ht; unfold TagSellerName, TagVATNumber, TagTimestamp, TagTotalWithVAT, TagVATAmount,
      TagInvoiceHash, TagSignature, TagPublicKey, TagCertHash;
    repeat (rewrite lookup_insert_ne by lia); done.
Qed.

Definition sample_qr : QRData :=
  mkQRData "Bobs Records" "310122393500003" (mkCivil 2022 4 25 15 30 0) "1000.00" "150.00"
    "aGFzaA==" "sig" "" (of_bytes (replicate 200 ("x" : ascii))).

Lemma qr_round_trip_witness :
  exists q m, GenerateQR sample_qr = Ok q /\ DecodeTLV q = Ok m
    /\ m !! TagTimestamp = Some "2022-04-25T15:30:00Z" /\ m !! TagPublicKey = None.
Proof.
  destruct (qr_round_trip sample_qr) as (q & m & H1 & H2 & _ & _ & H3 & _ & _ & _ & _ & H4 & _).
  - discriminate.
  - discriminate.
  - unfold qr_fits. repeat constructor.
  - exists q, m. split_and!; [exact H1|exact H2|exact H3|exact H4].
Defined.
