(* ===== verification/Sign.v ===== *)
(** * Native signing ([crypto/sign.go])

    The XAdES signature of an invoice: digests, the texts of the signature
    blocks, their places in the document, the DER form of an ECDSA signature
    and the QR code. ECDSA itself is the interface [Signer]. *)

From S2P Require Import Prelude GoStrings GoText Base64 GoErrors Models Uuid BigInt Cert InvoiceHash Civil Qr.
Local Open Scope Z_scope.

(** [ecdsa.Sign] of a digest, with the randomness of the call. *)
Class Signer : Type := mkSigner { ecdsa_Sign : PrivateKey -> string -> result error (Z * Z) }.

Record SignResult : Type := mkSignResult {
  sr_SignedXML : string; sr_InvoiceHash : string; sr_SignatureB64 : string; sr_QRCode : string
}.

(** ** DER *)

(** [intToASN1]. *)
Definition intToASN1 (n : Z) : list Z :=
  let b := big_bytes n in
  let b := match b with x :: _ => if negb (Z.land x 0x80 =? 0) then 0 :: b else b | [] => b end in
  [2; Z.of_nat (length b) mod 256] ++ b.

Definition encodeECDSASignatureDER (r s : Z) : list Z :=
  let inner := intToASN1 r ++ intToASN1 s in
  [0x30; Z.of_nat (length inner) mod 256] ++ inner.

(** ** Blocks of the signature *)

Definition quoted (s : string) : string := str1 (byte_of 34) +:+ s +:+ str1 (byte_of 34).
Definition nl1 : string := str1 (byte_of 10).
Definition write_strings (l : list string) : string := foldr String.append "" l.

Definition ns_ds : string := "http://www.w3.org/2000/09/xmldsig#".
Definition ns_xades : string := "http://uri.etsi.org/01903/v1.3.2#".
Definition alg_sha256 : string := "http://www.w3.org/2001/04/xmlenc#sha256".
Definition alg_c14n11 : string := "http://www.w3.org/2006/12/xml-c14n11".
Definition alg_xpath : string := "http://www.w3.org/TR/1999/REC-xpath-19991116".
Definition xmlns_ds : string := " xmlns:ds=" +:+ quoted ns_ds.

Section sign.
Context `{Hash} `{XmlLibrary} `{Signer}.

Definition buildSignedProperties (signingTime : string) (cert : CertInfo) : string := write_strings [
  "<xades:SignedProperties xmlns:xades=" +:+ quoted ns_xades +:+ " Id=" +:+ quoted "xadesSignedProperties" +:+ ">";
  "<xades:SignedSignatureProperties>";
  "<xades:SigningTime>"; signingTime; "</xades:SigningTime>";
  "<xades:SigningCertificate>";
  "<xades:Cert>";
  "<xades:CertDigest>";
  "<ds:DigestMethod" +:+ xmlns_ds +:+ " Algorithm=" +:+ quoted alg_sha256 +:+ "/>";
  "<ds:DigestValue" +:+ xmlns_ds +:+ ">"; CertDigest cert; "</ds:DigestValue>";
  "</xades:CertDigest>";
  "<xades:IssuerSerial>";
  "<ds:X509IssuerName" +:+ xmlns_ds +:+ ">"; IssuerNameForXML cert; "</ds:X509IssuerName>";
  "<ds:X509SerialNumber" +:+ xmlns_ds +:+ ">"; SerialNumberDecimal cert; "</ds:X509SerialNumber>";
  "</xades:IssuerSerial>";
  "</xades:Cert>";
  "</xades:SigningCertificate>";
  "</xades:SignedSignatureProperties>";
  "</xades:SignedProperties>"].

Definition xpath_transform (expression : string) : string :=
  "<ds:Transform Algorithm=" +:+ quoted alg_xpath +:+ ">" +:+ "<ds:XPath>" +:+ expression +:+ "</ds:XPath>"
  +:+ "</ds:Transform>".

Definition buildSignedInfo (invoiceDigest signedPropsDigest : string) : string := write_strings [
  "<ds:SignedInfo" +:+ xmlns_ds +:+ ">";
  "<ds:CanonicalizationMethod Algorithm=" +:+ quoted alg_c14n11 +:+ "/>";
  "<ds:SignatureMethod Algorithm=" +:+ quoted "http://www.w3.org/2001/04/xmldsig-more#ecdsa-sha256" +:+ "/>";
  "<ds:Reference Id=" +:+ quoted "invoiceSignedData" +:+ " URI=" +:+ quoted "" +:+ ">";
  "<ds:Transforms>";
  xpath_transform "not(//ancestor-or-self::ext:UBLExtensions)";
  xpath_transform "not(//ancestor-or-self::cac:Signature)";
  xpath_transform "not(//ancestor-or-self::cac:AdditionalDocumentReference[cbc:ID='QR'])";
  "<ds:Transform Algorithm=" +:+ quoted alg_c14n11 +:+ "/>";
  "</ds:Transforms>";
  "<ds:DigestMethod Algorithm=" +:+ quoted alg_sha256 +:+ "/>";
  "<ds:DigestValue>"; invoiceDigest; "</ds:DigestValue>";
  "</ds:Reference>";
  "<ds:Reference Type=" +:+ quoted "http://www.w3.org/2000/09/xmldsig#SignatureProperties"
  +:+ " URI=" +:+ quoted "#xadesSignedProperties" +:+ ">";
  "<ds:DigestMethod Algorithm=" +:+ quoted alg_sha256 +:+ "/>";
  "<ds:DigestValue>"; signedPropsDigest; "</ds:DigestValue>";
  "</ds:Reference>";
  "</ds:SignedInfo>"].

Definition buildDSSignature (signedInfo signatureValue : string) (cert : CertInfo) (signedProps : string)
    : string := write_strings [
  "                    <ds:Signature" +:+ xmlns_ds +:+ " Id=" +:+ quoted "signature" +:+ ">" +:+ nl1;
  "                        "; signedInfo; nl1;
  "                        <ds:SignatureValue>"; signatureValue; "</ds:SignatureValue>" +:+ nl1;
  "                        <ds:KeyInfo>" +:+ nl1;
  "                            <ds:X509Data>" +:+ nl1;
  "                                <ds:X509Certificate>"; CertBase64 cert; "</ds:X509Certificate>" +:+ nl1;
  "                            </ds:X509Data>" +:+ nl1;
  "                        </ds:KeyInfo>" +:+ nl1;
  "                        <ds:Object>" +:+ nl1;
  "                            <xades:QualifyingProperties xmlns:xades=" +:+ quoted ns_xades +:+ " Target="
  +:+ quoted "signature" +:+ ">" +:+ nl1;
  "                                "; signedProps; nl1;
  "                            </xades:QualifyingProperties>" +:+ nl1;
  "                        </ds:Object>" +:+ nl1;
  "                    </ds:Signature>"].

(** ** Their places in the document *)

Definition signature_marker : string := "</sbc:ReferencedSignatureID>".
Definition closing_marker : string := "</sac:SignatureInformation>".

Definition injectSignature (xml dsSignature : string) : string :=
  match Index xml signature_marker with
  | None => xml
  | Some markerIdx =>
      let insertPoint := (markerIdx + String.length signature_marker)%nat in
      match Index (drop_bytes insertPoint xml) closing_marker with
      | None => xml
      | Some closingIdx =>
          take_bytes insertPoint xml +:+ nl1 +:+ dsSignature +:+ nl1 +:+ "                "
          +:+ drop_bytes (insertPoint + closingIdx) xml
      end
  end.

Definition qr_object (qr : string) : string :=
  "<cbc:EmbeddedDocumentBinaryObject mimeCode=" +:+ quoted "text/plain" +:+ ">" +:+ qr
  +:+ "</cbc:EmbeddedDocumentBinaryObject>".

Definition qr_id : string := "<cbc:ID>QR</cbc:ID>".

Definition injectQR (xml qrBase64 : string) : string :=
  match LastIndex xml qr_id with
  | None => xml
  | Some qrIDIdx =>
      take_bytes qrIDIdx xml +:+ Replace1 (drop_bytes qrIDIdx xml) (qr_object "") (qr_object qrBase64)
  end.

(** ** Signing *)

(** [time.Now().Format("2006-01-02T15:04:05")]. *)
Definition format_signing_time (now : civil) : string := format_date now +:+ "T" +:+ format_clock now.

(** Steps 1 to 7: the hash, the DER signature and the document with its signature. *)
Definition sign_document (unsignedXML : string) (privateKey : PrivateKey) (cert : CertInfo) (now : civil)
    : result error (string * string * string) :=
  match InvoiceHash unsignedXML with
  | Err e => Err (Wrap "computing invoice hash: " e "")
  | Ok invoiceHash =>
      let signedProps := buildSignedProperties (format_signing_time now) cert in
      let signedPropsDigest := base64_encode (hex_of (sha256 signedProps)) in
      let signedInfo := buildSignedInfo invoiceHash signedPropsDigest in
      match ecdsa_Sign privateKey (sha256 signedInfo) with
      | Err e => Err (Wrap "ECDSA sign: " e "")
      | Ok (r, s) =>
          let signatureBytes := bytes_text (encodeECDSASignatureDER r s) in
          let dsSignature := buildDSSignature signedInfo (base64_encode signatureBytes) cert signedProps in
          Ok (invoiceHash, signatureBytes, injectSignature unsignedXML dsSignature)
      end
  end.

(** [None] is the panic of [PublicKeyBytes]. *)
Definition SignInvoice (unsignedXML : string) (privateKey : PrivateKey) (cert : CertInfo) (isSimplified : bool)
    (now : civil) : option (result error SignResult) :=
  match sign_document unsignedXML privateKey cert now with
  | Err e => Some (Err e)
  | Ok (invoiceHash, signatureBytes, signedXML) =>
      qrCode ← (if isSimplified then
                  pub ← PublicKeyBytes cert;
                  Some match GenerateQR (mkQRData "" "" zero_time "" "" invoiceHash signatureBytes pub (ci_Raw cert)) with
                       | Ok qr => qr
                       | Err _ => ""
                       end
                else Some "");
      Some (Ok (mkSignResult (if String.eqb qrCode "" then signedXML else injectQR signedXML qrCode)
                  invoiceHash (base64_encode signatureBytes) qrCode))
  end.

(** Both kinds of invoice get the same QR code. *)
Definition SignInvoiceWithQR (unsignedXML : string) (privateKey : PrivateKey) (cert : CertInfo)
    (isSimplified : bool) (sellerName vatNumber : string) (timestamp : civil) (total vatAmount : string)
    (now : civil) : option (result error SignResult) :=
  match sign_document unsignedXML privateKey cert now with
  | Err e => Some (Err e)
  | Ok (invoiceHash, signatureBytes, signedXML) =>
      pub ← PublicKeyBytes cert;
      let qrData := mkQRData sellerName vatNumber timestamp total vatAmount invoiceHash signatureBytes pub
                      (ci_Raw cert) in
      Some match (if isSimplified then GenerateQR qrData else GenerateQR qrData) with
           | Err e => Err (Wrap "generating QR: " e "")
           | Ok qrCode =>
               Ok (mkSignResult (injectQR signedXML qrCode) invoiceHash (base64_encode signatureBytes) qrCode)
           end
  end.

(** SignInvoice, which is to generate the QR code of a simplified invoice, never does: it fills
    no seller name into the QR data and drops the error, so the code of its result is empty and the
    QR reference of the document keeps its empty placeholder. *)
Theorem sign_invoice_without_qr xml key cert simplified now r :
  SignInvoice xml key cert simplified now = Some (Ok r) ->
  sr_QRCode r = ""
  /\ exists hash sig, sign_document xml key cert now = Ok (hash, sig, sr_SignedXML r) /\ sr_InvoiceHash r = hash.
Proof.
  unfold SignInvoice. destruct (sign_document xml key cert now) as [[[hash sig] signed]|e]; [|done].
  destruct simplified.
  - destruct (PublicKeyBytes cert) as [pub|]; [|done]. cbn. intros [= <-]. cbn. eauto.
  - cbn. intros [= <-]. cbn. eauto.
Qed.
End sign.

(** ** Reading DER *)

(** A DER integer at the head of [l]: minimal, and not negative. *)
Definition read_integer (l : list Z) : option (Z * list Z) :=
  match l with
  | 2 :: n :: rest =>
      let body := take (Z.to_nat n) rest in
      let minimal := match body with
                     | [] => false
                     | [x] => x <? 128
                     | 0 :: y :: _ => 128 <=? y
                     | x :: _ => x <? 128
                     end in
      if (n <? 128) && (Z.of_nat (length body) =? n) && minimal
      then Some (SetBytes body, drop (Z.to_nat n) rest) else None
  | _ => None
  end.

(** A DER signature: a sequence of exactly two integers. *)
Definition read_signature (l : list Z) : option (Z * Z) :=
  match l with
  | 0x30 :: n :: rest =>
      if (n <? 128) && (Z.of_nat (length rest) =? n) then
        '(r, rest) ← read_integer rest;
        '(s, rest) ← read_integer rest;
        if bool_decide (rest = []) then Some (r, s) else None
      else None
  | _ => None
  end.

Lemma intToASN1_shape n : 0 < n < 2 ^ 256 -> exists b,
  intToASN1 n = 2 :: Z.of_nat (length b) :: b /\ (length b <= 33)%nat /\ SetBytes b = n /\ Forall octet b
  /\ match b with [] => False | [x] => x < 128 | 0 :: y :: _ => 128 <= y | x :: _ => x < 128 end.
Proof.
  intros Hn. pose proof (big_bytes_length n 32 ltac:(change (256 ^ Z.of_nat 32) with (2 ^ 256); lia)) as Hl.
  pose proof (big_bytes_head n ltac:(lia)) as Hh. pose proof (SetBytes_big_bytes n ltac:(lia)) as Hv.
  pose proof (big_bytes_octets n) as Ho. unfold intToASN1.
  destruct (big_bytes n) as [|x l] eqn:E; [cbn in Hv; lia|].
  assert (Hx : 0 <= x < 256) by (by apply Forall_cons in Ho as [? _]).
  assert (Hbit : (Z.land x 0x80 =? 0) = (x <? 128)).
  { assert (H : forallb (fun k => let z := Z.of_nat k in Bool.eqb (Z.land z 0x80 =? 0) (z <? 128)) (seq 0 256) = true)
      by (vm_compute; reflexivity).
    rewrite forallb_forall in H. specialize (H (Z.to_nat x)). rewrite Z2Nat.id in H by lia.
    apply eqb_prop, H, in_seq. lia. }
  rewrite Hbit. destruct (Z.ltb_spec x 128) as [Hs|Hs]; cbn [negb].
  - exists (x :: l). split_and!; [|cbn in *; lia|done|done|].
    + cbn [app]. do 2 f_equal. apply Z.mod_small. cbn in Hl |- *. lia.
    + destruct l, x; lia.
  - exists (0 :: x :: l). split_and!; [|cbn in *; lia|exact Hv|constructor; [unfold octet; lia|done]|lia].
    cbn [app]. do 2 f_equal. apply Z.mod_small. cbn in Hl |- *. lia.
Qed.

Lemma read_integer_ok b rest : (length b <= 33)%nat ->
  match b with [] => False | [x] => x < 128 | 0 :: y :: _ => 128 <= y | x :: _ => x < 128 end ->
  read_integer (2 :: Z.of_nat (length b) :: b ++ rest) = Some (SetBytes b, rest).
Proof.
  intros Hl Hm. unfold read_integer. rewrite Nat2Z.id, take_app_length, drop_app_length.
  replace (Z.of_nat (length b) <? 128) with true by lia. rewrite Z.eqb_refl. cbn [andb].
  match goal with |- (if ?c then _ else _) = _ => assert (c = true) as ->; [|done] end.
  destruct b as [|x [|y b]]; [done|by destruct x; cbv iota in *; apply Z.ltb_lt|].
  destruct x; cbv iota in *; by first [apply Z.leb_le|apply Z.ltb_lt].
Qed.

(** C40: The DER form of an ECDSA signature is exact for every signature of a 256-bit curve: it takes
    at most 72 bytes, so both length bytes hold their lengths, each integer is minimal and
    non-negative, and reading the sequence gives back the two numbers. *)
Theorem der_signature_exact r s : 0 < r < 2 ^ 256 -> 0 < s < 2 ^ 256 ->
  (length (encodeECDSASignatureDER r s) <= 72)%nat
  /\ Forall octet (encodeECDSASignatureDER r s)
  /\ read_signature (encodeECDSASignatureDER r s) = Some (r, s).
Proof.
  intros Hr Hs. destruct (intToASN1_shape r Hr) as (b & Eb & Lb & Vb & Ob & Mb).
  destruct (intToASN1_shape s Hs) as (d & Ed & Ld & Vd & Od & Md).
  unfold encodeECDSASignatureDER. rewrite Eb, Ed.
  set (inner := (2 :: Z.of_nat (length b) :: b) ++ 2 :: Z.of_nat (length d) :: d).
  assert (Hi : length inner = (length b + length d + 4)%nat) by (unfold inner; rewrite length_app; cbn; lia).
  rewrite Z.mod_small by lia. split_and!.
  - cbn [app length]. lia.
  - repeat (constructor; [unfold octet; lia|]). apply Forall_app.
    split; repeat (constructor; [unfold octet; lia|]); done.
  - cbn [app read_signature]. replace (Z.of_nat (length inner) <? 128) with true by lia.
    rewrite Z.eqb_refl. cbn [andb]. unfold inner. cbn [app].
    rewrite read_integer_ok by done. cbn [mbind option_bind].
    rewrite <- (app_nil_r d) at 2. rewrite read_integer_ok by done. cbn. by rewrite Vb, Vd.
Qed.

Lemma der_signature_exact_witness :
  0 < 2 ^ 255 < 2 ^ 256 /\ read_signature (encodeECDSASignatureDER (2 ^ 255) 7) = Some (2 ^ 255, 7).
Proof. split; [lia|]. apply (der_signature_exact (2 ^ 255) 7); lia. Defined.

Definition sample_key : PrivateKey := mkPrivateKey (mkPublicKey secp256k1 1 2) 3.
#[export] Instance fixed_signer : Signer := mkSigner (fun _ _ => Ok (5, 7)).

Lemma sign_invoice_without_qr_witness :
  match SignInvoice "unsigned" sample_key (sample_cert 1 2) true zero_time with
  | Some (Ok r) => sr_QRCode r = ""
  | _ => False
  end.
Proof.
  destruct (SignInvoice "unsigned" sample_key (sample_cert 1 2) true zero_time) as [[r|e]|] eqn:E.
  - apply (sign_invoice_without_qr "unsigned" sample_key (sample_cert 1 2) true zero_time r E).
  - vm_compute in E. discriminate E.
  - vm_compute in E. discriminate E.
Defined.
