(* ===== verification/Config.v ===== *)
(** * Configuration ([config/config.go], [config/nats.go], [config/taxpayer.go])

    Environments, branch configuration, the NATS mode, and the taxpayer data
    from which CSR and seller configuration are derived. *)

From S2P Require Import Prelude GoStrings Models GoErrors.
Local Open Scope Z_scope.
Local Open Scope go_scope.

(** ** config.go *)

Definition Environment : Type := string.
Definition Sandbox : Environment := "sandbox".
Definition Simulation : Environment := "simulation".
Definition Production : Environment := "production".

Definition BaseURL (e : Environment) : string :=
  if String.eqb e Sandbox then "https://gw-fatoora.zatca.gov.sa/e-invoicing/developer-portal"
  else if String.eqb e Simulation then "https://gw-fatoora.zatca.gov.sa/e-invoicing/simulation"
  else if String.eqb e Production then "https://gw-fatoora.zatca.gov.sa/e-invoicing/core"
  else "https://gw-fatoora.zatca.gov.sa/e-invoicing/developer-portal".

Record CSRConfig : Type := mkCSRConfig {
  csr_CommonName : string; csr_SerialNumber : string; csr_OrgIdentifier : string;
  csr_OrgUnit : string; csr_OrgName : string; csr_Country : string; csr_InvoiceType : string;
  csr_Location : string; csr_BusinessCategory : string
}.

Record SellerInfo : Type := mkSellerInfo {
  sl_Name : string; sl_NameAR : string; sl_VAT : string; sl_CRN : string; sl_Street : string;
  sl_Building : string; sl_District : string; sl_City : string; sl_PostalCode : string;
  sl_Country : string
}.

Record Config : Type := mkConfigRec {
  cg_Env : Environment;
  cg_OTP : string;
  cg_ComplianceUsername : string;
  cg_CompliancePassword : string;
  cg_ProductionUsername : string;
  cg_ProductionPassword : string;
  cg_EGSID : string;
  cg_CSR : CSRConfig;
  cg_Seller : SellerInfo
}.

Definition ParseEnv (s : string) : result error Environment :=
  if String.eqb s Sandbox || String.eqb s Simulation || String.eqb s Production then Ok s
  else Err (NewError ("invalid environment: " +:+ quote s
                      +:+ " (must be sandbox, simulation, or production)")).

(** ** nats.go: the mode *)

Definition NATSMode : Type := string.
Definition NATSExternal : NATSMode := "external".
Definition NATSEmbedded : NATSMode := "embedded".

(** [strings.ToLower] on ASCII letters. Beyond ASCII only two runes have an
    ASCII lower case, [i] and [k], and no mode contains those letters, so the
    comparison with a mode does not depend on them. *)
Definition lower_byte (c : ascii) : ascii :=
  if in_range 65 90 (bv c) then byte_of (bv c + 32) else c.
Definition ToLower (s : string) : string := of_bytes (map lower_byte (bytes s)).

Definition ParseNATSMode (value : string) : result error NATSMode :=
  let mode := ToLower (TrimSpace value) in
  if String.eqb mode NATSExternal || String.eqb mode NATSEmbedded then Ok mode
  else Err (NewError ("invalid NATS mode " +:+ quote value +:+ " (must be external or embedded)")).

(** ** taxpayer.go *)

Record Taxpayer : Type := mkTaxpayer {
  tp_CompanyName : string; tp_CompanyNameAR : string; tp_VATNumber : string; tp_CRN : string;
  tp_BranchName : string; tp_BusinessCategory : string; tp_Street : string; tp_Building : string;
  tp_District : string; tp_City : string; tp_PostalCode : string; tp_InvoiceType : string;
  tp_LocationCode : string; tp_Country : string; tp_TIN : string; tp_ComputerNumber : string
}.

(** The randomness that [applyDefaults] may draw: [rand.Int] below 999999999,
    or its failure, and the text of a new UUID. *)
Record entropy : Type := mkEntropy { rnd_int : option Z; rnd_uuid : string }.

(** [fmt.Sprintf("%09d", n)]. *)
Definition pad9 (n : Z) : string :=
  let d := itoa n in of_bytes (replicate (9 - String.length d) ("0" : ascii)) +:+ d.

Definition generateTIN (rnd : entropy) : string :=
  match rnd_int rnd with None => "100000000" | Some n => pad9 n end.

Definition if_empty (s default : string) : string := if String.eqb s "" then default else s.

Definition applyDefaults (rnd : entropy) (t : Taxpayer) : Taxpayer :=
  mkTaxpayer (tp_CompanyName t) (tp_CompanyNameAR t) (tp_VATNumber t) (tp_CRN t) (tp_BranchName t)
    (tp_BusinessCategory t) (tp_Street t) (tp_Building t) (tp_District t) (tp_City t)
    (tp_PostalCode t) (if_empty (tp_InvoiceType t) "1100") (tp_LocationCode t)
    (if_empty (tp_Country t) "SA") (if_empty (tp_TIN t) (generateTIN rnd))
    (if_empty (tp_ComputerNumber t) (rnd_uuid rnd)).

(** The methods change their receiver, so each returns it as well. *)
Definition CSR (rnd : entropy) (t : Taxpayer) : CSRConfig * Taxpayer :=
  let t := applyDefaults rnd t in
  (mkCSRConfig ("TST-" +:+ tp_TIN t +:+ "-" +:+ tp_VATNumber t)
     ("1-" +:+ tp_CompanyName t +:+ "|2-TST|3-" +:+ tp_ComputerNumber t)
     (tp_VATNumber t) (tp_BranchName t) (tp_CompanyName t) (tp_Country t) (tp_InvoiceType t)
     (tp_LocationCode t) (tp_BusinessCategory t), t).

Definition Seller (rnd : entropy) (t : Taxpayer) : SellerInfo * Taxpayer :=
  let t := applyDefaults rnd t in
  (mkSellerInfo (tp_CompanyName t) (tp_CompanyNameAR t) (tp_VATNumber t) (tp_CRN t) (tp_Street t)
     (tp_Building t) (tp_District t) (tp_City t) (tp_PostalCode t) (tp_Country t), t).

Definition Taxpayer_Config (rnd1 rnd2 : entropy) (t : Taxpayer) (env : Environment) (otp : string)
    : Config * Taxpayer :=
  let '(csr, t) := CSR rnd1 t in
  let '(seller, t) := Seller rnd2 t in
  (mkConfigRec env otp "" "" "" "" "" csr seller, t).

Definition required_fields (t : Taxpayer) : list (string * string) :=
  [(tp_CompanyName t, "CompanyName"); (tp_CompanyNameAR t, "CompanyNameAR");
   (tp_VATNumber t, "VATNumber"); (tp_CRN t, "CRN"); (tp_BranchName t, "BranchName");
   (tp_BusinessCategory t, "BusinessCategory"); (tp_Street t, "Street");
   (tp_Building t, "Building"); (tp_District t, "District"); (tp_City t, "City");
   (tp_PostalCode t, "PostalCode"); (tp_LocationCode t, "LocationCode")].

Definition Taxpayer_Validate (t : Taxpayer) : option error :=
  match find (fun c => String.eqb c.1 "") (required_fields t) with
  | Some c => Some (NewError ("Taxpayer." +:+ c.2 +:+ " is required"))
  | None =>
      if negb (String.length (tp_VATNumber t) =? 15)%nat
      then Some (NewError ("VATNumber must be 15 digits, got "
                           +:+ itoa (Z.of_nat (String.length (tp_VATNumber t)))))
      else None
  end.

(** ** Facts *)

Lemma ParseEnv_Ok s e :
  ParseEnv s = Ok e <-> e = s /\ (s = Sandbox \/ s = Simulation \/ s = Production).
Proof.
  unfold ParseEnv.
  destruct (String.eqb_spec s Sandbox), (String.eqb_spec s Simulation),
    (String.eqb_spec s Production); cbn; split; intros H; simplify_eq; try tauto;
    destruct H as [-> [?|[?|?]]]; done.
Qed.

Lemma pad9_nonempty n : pad9 n <> "".
Proof.
  unfold pad9. intros E. apply (f_equal String.length) in E. rewrite string_length_app in E.
  rewrite <- length_bytes, bytes_of_bytes, length_replicate in E. cbn in E. lia.
Qed.

Lemma generateTIN_nonempty rnd : generateTIN rnd <> "".
Proof. unfold generateTIN. destruct (rnd_int rnd); [apply pad9_nonempty|done]. Qed.

(** The CSR and the seller of one taxpayer agree, whatever randomness is drawn: the first
    derivation fixes the generated identifiers in the taxpayer, so the second draws nothing, both
    carry the taxpayer's VAT number and name and the same country, and deriving the configuration
    again from the resulting taxpayer gives the same configuration. *)
Theorem taxpayer_config_stable rnd1 rnd2 rnd3 rnd4 t env otp :
  rnd_uuid rnd1 <> "" ->
  let '(c, t') := Taxpayer_Config rnd1 rnd2 t env otp in
  let '(c', t'') := Taxpayer_Config rnd3 rnd4 t' env otp in
  c' = c /\ t'' = t'
  /\ csr_OrgIdentifier (cg_CSR c) = sl_VAT (cg_Seller c)
  /\ csr_OrgName (cg_CSR c) = sl_Name (cg_Seller c)
  /\ csr_Country (cg_CSR c) = sl_Country (cg_Seller c) /\ sl_Country (cg_Seller c) <> ""
  /\ csr_CommonName (cg_CSR c) = "TST-" +:+ tp_TIN t' +:+ "-" +:+ tp_VATNumber t
  /\ tp_TIN t' <> "" /\ tp_ComputerNumber t' <> "".
Proof.
  intros Hu.
  assert (Hid : forall x d, x <> "" -> if_empty x d = x)
    by (intros x d Hx; unfold if_empty; by rewrite (proj2 (String.eqb_neq x "") Hx)).
  assert (Hne : forall s d, d <> "" -> if_empty s d <> "")
    by (intros s d Hd; unfold if_empty; by destruct (String.eqb_spec s "")).
  unfold Taxpayer_Config, CSR, Seller, applyDefaults. cbn -[if_empty generateTIN String.append].
  assert (if_empty (tp_TIN t) (generateTIN rnd1) <> "") as H4 by apply Hne, generateTIN_nonempty.
  assert (if_empty (tp_ComputerNumber t) (rnd_uuid rnd1) <> "") as H3 by by apply Hne.
  assert (if_empty (tp_Country t) "SA" <> "") as H2 by by apply Hne.
  assert (if_empty (tp_InvoiceType t) "1100" <> "") as H1 by by apply Hne.
  revert H1 H2 H3 H4.
  generalize (if_empty (tp_TIN t) (generateTIN rnd1)) as tin.
  generalize (if_empty (tp_ComputerNumber t) (rnd_uuid rnd1)) as computer.
  generalize (if_empty (tp_Country t) "SA") as country.
  generalize (if_empty (tp_InvoiceType t) "1100") as kind.
  intros kind country computer tin H1 H2 H3 H4. 
  rewrite !(Hid kind), !(Hid country), !(Hid tin), !(Hid computer) by done. by split_and!.
Qed.

Definition sample_taxpayer : Taxpayer :=
  mkTaxpayer "Acme" "acme-ar" "310175397400003" "454634645645654" "Main" "Retail" "King" "1234"
    "Olaya" "Riyadh" "12345" "" "RRRD2929" "" "" "".

Lemma taxpayer_config_stable_witness :
  let rnd := mkEntropy (Some 42) "b7a5" in
  let '(c, t') := Taxpayer_Config rnd rnd sample_taxpayer Sandbox "123456" in
  csr_CommonName (cg_CSR c) = "TST-000000042-310175397400003"
  /\ (Taxpayer_Config (mkEntropy None "other") rnd t' Sandbox "123456").1 = c.
Proof.
  split; [vm_compute; reflexivity|].
  pose proof (taxpayer_config_stable (mkEntropy (Some 42) "b7a5") (mkEntropy (Some 42) "b7a5")
    (mkEntropy None "other") (mkEntropy (Some 42) "b7a5") sample_taxpayer Sandbox "123456") as H.
  apply H. discriminate.
Defined.
