(* ===== verification/Tenant.v ===== *)
(** * The tenant registry ([tenant/tenant.go])

    Validation of a registry snapshot and the transition between snapshots.
    Reading the snapshot and opening a tenant's database are I/O and enter the
    daemon's model as answers of its surroundings. *)

From S2P Require Import Prelude GoStrings Models GoErrors Uuid Message Config.
Local Open Scope Z_scope.
Local Open Scope go_scope.

Record Tenant : Type := mkTenant {
  tn_ID : Z;
  tn_TenantKey : string;
  tn_Name : string;
  tn_DBName : string;
  tn_ZATCAEnv : string;
  tn_AlertEmail : string
}.
#[export] Instance Tenant_eq_dec : EqDecision Tenant.
Proof. solve_decision. Defined.

(** The rune test of [validRegistryIdentity], in the order of the source. *)
Definition registry_bad_rune (r : Z) : bool :=
  (r =? 0) || (r =? 46) || (r =? 42) || (r =? 62) || (r <? 0x20) || (r =? 0x7F).

Definition validRegistryIdentity (value : string) : bool :=
  negb (String.eqb (TrimSpace value) "" || negb (String.eqb (TrimSpace value) value)
        || negb (valid_string value) || (64 <? rune_count value)%nat)
  && negb (existsb registry_bad_rune (runes value)).

Definition Tenant_Validate (t : Tenant) : option error :=
  if negb (validRegistryIdentity (tn_TenantKey t))
  then Some (NewError "tenant_key is required and must be a safe value of at most 64 characters")
  else if negb (validRegistryIdentity (tn_DBName t))
  then Some (NewError "db_name is required and must be a safe value of at most 64 characters")
  else if String.eqb (tn_ZATCAEnv t) "" then None
  else match ParseEnv (tn_ZATCAEnv t) with Err e => Some e | Ok _ => None end.

(** The loop of [ValidateAll], with the keys and database names seen so far. *)
Fixpoint validate_from (tenants : list Tenant) (tenantKeys dbNames : gset string) : option error :=
  match tenants with
  | [] => None
  | t :: rest =>
      match Tenant_Validate t with
      | Some e => Some (Wrap ("tenant " +:+ itoa (tn_ID t) +:+ " (" +:+ tn_Name t +:+ "): ") e "")
      | None =>
          if decide (tn_TenantKey t ∈ tenantKeys)
          then Some (NewError ("tenant_key " +:+ quote (tn_TenantKey t)
                               +:+ " is used by more than one tenant"))
          else if decide (tn_DBName t ∈ dbNames)
          then Some (NewError ("db_name " +:+ quote (tn_DBName t)
                               +:+ " is used by more than one tenant"))
          else validate_from rest ({[tn_TenantKey t]} ∪ tenantKeys) ({[tn_DBName t]} ∪ dbNames)
      end
  end.

Definition ValidateAll (tenants : list Tenant) : option error := validate_from tenants ∅ ∅.

(** What [LoadAllContext] makes of the rows it read, or of the query's error. *)
Definition LoadAllContext (rows : result error (list Tenant)) : result error (list Tenant) :=
  match rows with
  | Err e => Err e
  | Ok tenants =>
      match ValidateAll tenants with
      | Some e => Err (Wrap "validate tenants: " e "")
      | None => Ok tenants
      end
  end.

Record ReconcileResult : Type := mkReconcileResult {
  rr_Added : list Tenant;
  rr_Removed : list Tenant;
  rr_Updated : list Tenant;
  rr_Unchanged : list Tenant
}.

(** The registry: the last valid snapshot by tenant key. *)
Abbreviation registry := (gmap string Tenant).

Definition NewRegistry : registry := ∅.

(** The loop over the new snapshot. *)
Fixpoint classify (old : registry) (next : list Tenant) (res : ReconcileResult) : ReconcileResult :=
  match next with
  | [] => res
  | t :: rest =>
      classify old rest
        (match old !! tn_TenantKey t with
         | None => mkReconcileResult (rr_Added res ++ [t]) (rr_Removed res) (rr_Updated res)
                     (rr_Unchanged res)
         | Some previous =>
             if decide (previous = t)
             then mkReconcileResult (rr_Added res) (rr_Removed res) (rr_Updated res)
                    (rr_Unchanged res ++ [t])
             else mkReconcileResult (rr_Added res) (rr_Removed res) (rr_Updated res ++ [t])
                    (rr_Unchanged res)
         end)
  end.

Definition by_key (tenants : list Tenant) : registry :=
  fold_left (fun m t => <[tn_TenantKey t := t]> m) tenants ∅.

(** [Registry.Reconcile]; the removed tenants come in the iteration order of
    the map, here that of [map_to_list]. *)
Definition Registry_Reconcile (old : registry) (next : list Tenant)
    : result error ReconcileResult * registry :=
  match ValidateAll next with
  | Some e => (Err e, old)
  | None =>
      let nextByKey := by_key next in
      let res := classify old next (mkReconcileResult [] [] [] []) in
      let removed := map snd (filter (fun kt => nextByKey !! kt.1 = None) (map_to_list old)) in
      (Ok (mkReconcileResult (rr_Added res) (rr_Removed res ++ removed) (rr_Updated res)
             (rr_Unchanged res)), nextByKey)
  end.

(** [Registry.Snapshot], in some order. *)
Definition Snapshot (r : registry) : list Tenant := map snd (map_to_list r).

(** ** Facts *)

Lemma existsb_same {A} (f g : A -> bool) l : (forall x, f x = g x) -> existsb f l = existsb g l.
Proof. intros H. induction l as [|x l IH]; cbn; [done|]. by rewrite H, IH. Qed.

(** A registry name is exactly an identity an envelope may carry. *)
Lemma validRegistryIdentity_eq value : validRegistryIdentity value = validIdentityText value 64.
Proof.
  unfold validRegistryIdentity, validIdentityText, bounded_text. f_equal.
  - f_equal. rewrite <- !orb_assoc. f_equal. f_equal. apply orb_comm.
  - f_equal. apply existsb_same. intros r. unfold registry_bad_rune, identity_bad_rune.
    by destruct (r =? 0), (r =? 42), (r =? 62), (r =? 46), (r <? 32), (r =? 127).
Qed.

Definition valid_tenant (t : Tenant) : Prop :=
  validIdentityText (tn_TenantKey t) 64 = true /\ validIdentityText (tn_DBName t) 64 = true
  /\ (tn_ZATCAEnv t = "" \/ tn_ZATCAEnv t = Sandbox \/ tn_ZATCAEnv t = Simulation
      \/ tn_ZATCAEnv t = Production).

Lemma Tenant_Validate_None t : Tenant_Validate t = None <-> valid_tenant t.
Proof.
  unfold Tenant_Validate, valid_tenant. rewrite !validRegistryIdentity_eq.
  destruct (validIdentityText (tn_TenantKey t) 64); cbn [negb]; [|by split; [|intros [? _]]].
  destruct (validIdentityText (tn_DBName t) 64); cbn [negb]; [|by split; [|intros (_ & ? & _)]].
  destruct (String.eqb_spec (tn_ZATCAEnv t) "") as [->|Hne]; [by split; auto|].
  destruct (ParseEnv (tn_ZATCAEnv t)) as [e|e] eqn:E.
  - apply ParseEnv_Ok in E as [_ E]. split; [auto|done].
  - split; [done|]. intros (_ & _ & [?|H]); [done|].
    assert (ParseEnv (tn_ZATCAEnv t) = Ok (tn_ZATCAEnv t)) by (apply ParseEnv_Ok; auto). congruence.
Qed.

Lemma validate_from_None l ks ds :
  validate_from l ks ds = None <->
  Forall valid_tenant l
  /\ NoDup (map tn_TenantKey l) /\ (forall t, In t l -> tn_TenantKey t ∉ ks)
  /\ NoDup (map tn_DBName l) /\ (forall t, In t l -> tn_DBName t ∉ ds).
Proof.
  revert ks ds. induction l as [|t l IH]; intros ks ds; cbn.
  { split; [|done]. intros _. split_and!; try constructor; by intros ? []. }
  destruct (Tenant_Validate t) eqn:Hv.
  { split; [done|]. intros [H _]. apply Forall_cons in H as [H _].
    apply Tenant_Validate_None in H. congruence. }
  apply Tenant_Validate_None in Hv. rewrite Forall_cons, !NoDup_cons.
  destruct (decide (tn_TenantKey t ∈ ks)) as [Hk|Hk].
  { split; [done|]. intros (_ & _ & H & _). by destruct (H t (or_introl eq_refl)). }
  destruct (decide (tn_DBName t ∈ ds)) as [Hd|Hd].
  { split; [done|]. intros (_ & _ & _ & _ & H). by destruct (H t (or_introl eq_refl)). }
  rewrite IH. setoid_rewrite not_elem_of_union. setoid_rewrite not_elem_of_singleton.
  assert (Hin : forall (f : Tenant -> string), (forall x, In x l -> f x <> f t) <-> f t ∉ map f l).
  { intros f. split.
    - intros H (x & E & Hx)%list_elem_of_fmap. apply list_elem_of_In in Hx. by apply (H x Hx).
    - intros H x Hx E. apply H. apply list_elem_of_fmap. exists x. split; [done|].
      by apply list_elem_of_In. }
  split.
  - intros (Hall & Hn1 & H1 & Hn2 & H2). split_and!; try done.
    + apply Hin. intros x Hx. by apply H1.
    + intros x [<-|Hx]; [done|]. by apply H1.
    + apply Hin. intros x Hx. by apply H2.
    + intros x [<-|Hx]; [done|]. by apply H2.
  - intros ([_ Hall] & [Hk' Hn1] & H1 & [Hd' Hn2] & H2). split_and!; try done.
    + intros x Hx. split; [by apply Hin|]. apply H1. by right.
    + intros x Hx. split; [by apply Hin|]. apply H2. by right.
Qed.

(** A valid snapshot: valid tenants with distinct keys and distinct databases. *)
Definition valid_snapshot (l : list Tenant) : Prop :=
  Forall valid_tenant l /\ NoDup (map tn_TenantKey l) /\ NoDup (map tn_DBName l).

Lemma ValidateAll_None l : ValidateAll l = None <-> valid_snapshot l.
Proof.
  unfold ValidateAll, valid_snapshot. rewrite validate_from_None.
  split; [tauto|]. intros (? & ? & ?). split_and!; try done; intros ? _; set_solver.
Qed.

(** A list with distinct keys, as a map by that key. *)
Lemma fold_keyed_lookup (f : Tenant -> string) l k t : NoDup (map f l) ->
  fold_left (fun m t => <[f t := t]> m) l (∅ : registry) !! k = Some t <-> In t l /\ f t = k.
Proof.
  assert (H : forall m : registry, NoDup (map f l) -> (forall x, In x l -> m !! f x = None) ->
    fold_left (fun m t => <[f t := t]> m) l m !! k = Some t
    <-> (In t l /\ f t = k) \/ m !! k = Some t).
  { induction l as [|x l IH]; intros m Hn Hm; cbn; [tauto|].
    cbn in Hn. apply NoDup_cons in Hn as [Hx Hn]. rewrite IH; [|done|].
    - rewrite lookup_insert_Some. split.
      + intros [[? ?]|[[<- <-]|[? ?]]]; auto.
      + intros [[[<-|?] Hk]|Hk]; [auto|auto|].
        destruct (decide (f x = k)) as [<-|]; [|auto].
        rewrite (Hm x) in Hk; [done|by left].
    - intros y Hy. rewrite lookup_insert_ne; [apply Hm; by right|].
      intros E. apply Hx. apply list_elem_of_fmap. exists y. split; [done|by apply list_elem_of_In]. }
  intros Hn. rewrite H; [|done|intros; apply lookup_empty].
  rewrite lookup_empty. split; [by intros [?|?]|auto].
Qed.

Lemma by_key_lookup l k t : NoDup (map tn_TenantKey l) ->
  by_key l !! k = Some t <-> In t l /\ tn_TenantKey t = k.
Proof. apply fold_keyed_lookup. Qed.

#[local] Instance updated_dec (old : registry) t :
  Decision (exists p, old !! tn_TenantKey t = Some p /\ p <> t).
Proof.
  destruct (old !! tn_TenantKey t) as [p|] eqn:E; [|right; by intros (? & ? & _)].
  destruct (decide (p = t)) as [->|Hne]; [right; intros (? & ? & ?); by simplify_eq|].
  left. by exists p.
Qed.

Lemma classify_spec old l res t :
  let res' := classify old l res in
  (In t (rr_Added res') <-> In t (rr_Added res) \/ In t l /\ old !! tn_TenantKey t = None)
  /\ (In t (rr_Updated res') <->
      In t (rr_Updated res) \/ In t l /\ exists p, old !! tn_TenantKey t = Some p /\ p <> t)
  /\ (In t (rr_Unchanged res') <->
      In t (rr_Unchanged res) \/ In t l /\ old !! tn_TenantKey t = Some t)
  /\ rr_Removed res' = rr_Removed res.
Proof.
  revert res. induction l as [|x l IH]; intros res; cbn; [tauto|].
  destruct (old !! tn_TenantKey x) as [p|] eqn:E; [destruct (decide (p = x)) as [->|Hne]|];
    match goal with |- context [classify old l ?r] => destruct (IH r) as (-> & -> & -> & ->) end;
    cbn; rewrite ?in_app_iff; cbn; split_and!; try done;
    (split; [|]); intros H;
    repeat match goal with
           | H : _ \/ _ |- _ => destruct H as [H|H]
           | H : _ /\ _ |- _ => destruct H
           | H : exists _, _ |- _ => destruct H
           | H : False |- _ => destruct H
           end; subst; simplify_eq; eauto 8.
Qed.

(** A registry transition is validated and exact: an invalid snapshot is refused and keeps the
    registry; a valid one has valid tenants with distinct keys and distinct databases, becomes the
    registry, and every tenant of the old and the new snapshot is reported in exactly the list
    that applies: added, updated, unchanged or removed. *)
Theorem registry_reconcile_exact old next :
  let '(r, new) := Registry_Reconcile old next in
  match r with
  | Err _ => ~ valid_snapshot next /\ new = old
  | Ok res =>
      valid_snapshot next
      /\ (forall k t, new !! k = Some t <-> In t next /\ tn_TenantKey t = k)
      /\ forall t, (In t (rr_Added res) <-> In t next /\ old !! tn_TenantKey t = None)
         /\ (In t (rr_Updated res) <-> In t next /\ exists p, old !! tn_TenantKey t = Some p /\ p <> t)
         /\ (In t (rr_Unchanged res) <-> In t next /\ old !! tn_TenantKey t = Some t)
         /\ (In t (rr_Removed res) <-> exists k, old !! k = Some t /\ new !! k = None)
  end.
Proof.
  unfold Registry_Reconcile. destruct (ValidateAll next) eqn:Hv.
  { split; [|done]. intros H. apply ValidateAll_None in H. congruence. }
  apply ValidateAll_None in Hv. destruct Hv as (Hall & Hk & Hd). split; [done|]. split.
  - intros k t. by apply by_key_lookup.
  - intros t. cbn [rr_Added rr_Updated rr_Unchanged rr_Removed].
    pose proof (classify_spec old next (mkReconcileResult [] [] [] []) t) as (H1 & H2 & H3 & H4).
    rewrite H1, H2, H3, H4. cbn. split_and!; [tauto..|].
    rewrite <- list_elem_of_In, list_elem_of_fmap. split.
    + intros ([k t'] & -> & Hin). apply list_elem_of_filter in Hin as [Hn Hin].
      apply elem_of_map_to_list in Hin. by exists k.
    + intros (k & Ho & Hn). exists (k, t). split; [done|]. apply list_elem_of_filter.
      split; [done|]. by apply elem_of_map_to_list.
Qed.
