(* ===== verification/Topology.v ===== *)
(** * Live tenants, branches and workers ([cmd/daemon/reconcile.go], [cmd/daemon/worker.go])

    The reconciler's maps and every operation on them. A tenant context, a
    worker and a subscription are pointers in the source; here they are
    identities drawn from one counter, contexts with their fields in a heap.
    What the database, the registry query and NATS answer enters as
    [surroundings]. The maps are guarded by [mu]; a reconciliation runs under
    [reconcileMu], and this file gives its effect when nothing else runs
    between its critical sections. *)

From S2P Require Import Prelude GoStrings Models GoErrors Uuid Message Control Config Tenant.
Local Open Scope Z_scope.
Local Open Scope go_scope.

(** ** Keys *)

Definition branchKey (dbName : string) (branchID : Z) : string := dbName +:+ ":" +:+ itoa branchID.

(** The text after the last [':'], or all of it. *)
Fixpoint after_last_colon (s : string) : string :=
  match s with
  | EmptyString => EmptyString
  | String c s' =>
      if Ascii.eqb c ":" then after_last_colon s'
      else if existsb (Ascii.eqb ":") (bytes s') then after_last_colon s' else s
  end.

(** [fmt.Sscanf(s, "%d", &v)]: leading spaces, a sign, then decimal digits up to
    the first other character, as an [int64]; [None] is its error. A newline is
    no space for [Sscanf]. *)
Fixpoint skip_blanks (s : string) : string :=
  match s with
  | String c s' => if (bv c =? 32) || (bv c =? 9) then skip_blanks s' else s
  | EmptyString => EmptyString
  end.
Fixpoint digit_prefix (s : string) : string :=
  match s with
  | String c s' => if is_digit c then String c (digit_prefix s') else EmptyString
  | EmptyString => EmptyString
  end.
Definition scan_int64 (s : string) : option Z :=
  let s := skip_blanks s in
  let '(neg, s) := match s with
    | String c s' => if Ascii.eqb c "-" then (true, s')
                     else if Ascii.eqb c "+" then (false, s') else (false, s)
    | EmptyString => (false, s) end in
  match digit_prefix s with
  | EmptyString => None
  | d => v ← digits_value 0 d;
         let z := if neg : bool then - v else v in
         if in_range min_int64 max_int64 z then Some z else None
  end.

Definition branchIDFromKey (key : string) : Z :=
  match scan_int64 (after_last_colon key) with Some v => v | None => 0 end.

(** ** State *)

(** A [tenantCtx]: the tenant, its environment, whether it has an admin
    connection, the branches its last reconciliation expects, and
    [onboardingStopping]. *)
Record tenant_state : Type := mkTenantState {
  tx_tenant : Tenant;
  tx_env : Environment;
  tx_admin : bool;
  tx_expected : gset Z;
  tx_stopping : bool
}.

Section topology.
(** A cached service and configuration of a branch. *)
Context {entry : Type}.

Record daemon : Type := mkDaemon {
  dm_next : nat;                             (* the next fresh identity *)
  dm_ctxs : gmap nat tenant_state;           (* the heap of contexts *)
  dm_tenants : gmap string nat;              (* tenants: database name to context *)
  dm_workers : gmap string nat;              (* workers: branch key to worker *)
  dm_done : gset nat;                        (* workers whose done channel is closed *)
  dm_subs : gmap string nat;
  dm_unsubscribed : gset nat;                (* subscriptions that are not valid any more *)
  dm_caches : gmap string (gmap Z entry);
  dm_active : gset string;                   (* activeBranches *)
  dm_registry : registry;
  dm_last : option (option error)            (* lastReconcileAt is set, lastReconcileErr *)
}.

Definition newDaemonReconciler : daemon :=
  mkDaemon 0 ∅ ∅ ∅ ∅ ∅ ∅ ∅ ∅ NewRegistry None.

Definition set_workers (f : gmap string nat -> gmap string nat) (d : daemon) : daemon :=
  mkDaemon (dm_next d) (dm_ctxs d) (dm_tenants d) (f (dm_workers d)) (dm_done d) (dm_subs d)
    (dm_unsubscribed d) (dm_caches d) (dm_active d) (dm_registry d) (dm_last d).
Definition set_done (f : gset nat -> gset nat) (d : daemon) : daemon :=
  mkDaemon (dm_next d) (dm_ctxs d) (dm_tenants d) (dm_workers d) (f (dm_done d)) (dm_subs d)
    (dm_unsubscribed d) (dm_caches d) (dm_active d) (dm_registry d) (dm_last d).
Definition set_ctx (id : nat) (f : tenant_state -> tenant_state) (d : daemon) : daemon :=
  mkDaemon (dm_next d) (alter f id (dm_ctxs d)) (dm_tenants d) (dm_workers d) (dm_done d)
    (dm_subs d) (dm_unsubscribed d) (dm_caches d) (dm_active d) (dm_registry d) (dm_last d).
Definition set_subs (f : gmap string nat -> gmap string nat) (u : gset nat -> gset nat) (d : daemon)
    : daemon :=
  mkDaemon (dm_next d) (dm_ctxs d) (dm_tenants d) (dm_workers d) (dm_done d) (f (dm_subs d))
    (u (dm_unsubscribed d)) (dm_caches d) (dm_active d) (dm_registry d) (dm_last d).
Definition set_caches (f : gmap string (gmap Z entry) -> gmap string (gmap Z entry)) (d : daemon)
    : daemon :=
  mkDaemon (dm_next d) (dm_ctxs d) (dm_tenants d) (dm_workers d) (dm_done d) (dm_subs d)
    (dm_unsubscribed d) (f (dm_caches d)) (dm_active d) (dm_registry d) (dm_last d).
Definition set_active (f : gset string -> gset string) (d : daemon) : daemon :=
  mkDaemon (dm_next d) (dm_ctxs d) (dm_tenants d) (dm_workers d) (dm_done d) (dm_subs d)
    (dm_unsubscribed d) (dm_caches d) (f (dm_active d)) (dm_registry d) (dm_last d).
Definition set_registry (r : registry) (d : daemon) : daemon :=
  mkDaemon (dm_next d) (dm_ctxs d) (dm_tenants d) (dm_workers d) (dm_done d) (dm_subs d)
    (dm_unsubscribed d) (dm_caches d) (dm_active d) r (dm_last d).
Definition set_last (e : option error) (d : daemon) : daemon :=
  mkDaemon (dm_next d) (dm_ctxs d) (dm_tenants d) (dm_workers d) (dm_done d) (dm_subs d)
    (dm_unsubscribed d) (dm_caches d) (dm_active d) (dm_registry d) (Some e).
Definition set_tenants (f : gmap string nat -> gmap string nat) (d : daemon) : daemon :=
  mkDaemon (dm_next d) (dm_ctxs d) (f (dm_tenants d)) (dm_workers d) (dm_done d) (dm_subs d)
    (dm_unsubscribed d) (dm_caches d) (dm_active d) (dm_registry d) (dm_last d).
Definition alloc_ctx (c : tenant_state) (d : daemon) : daemon :=
  mkDaemon (S (dm_next d)) (<[dm_next d := c]> (dm_ctxs d)) (dm_tenants d) (dm_workers d)
    (dm_done d) (dm_subs d) (dm_unsubscribed d) (dm_caches d) (dm_active d) (dm_registry d)
    (dm_last d).
Definition bump (d : daemon) : daemon :=
  mkDaemon (S (dm_next d)) (dm_ctxs d) (dm_tenants d) (dm_workers d) (dm_done d) (dm_subs d)
    (dm_unsubscribed d) (dm_caches d) (dm_active d) (dm_registry d) (dm_last d).

(** ** Workers *)

Definition unmarkBranchActive (dbName : string) (branchID : Z) (d : daemon) : daemon :=
  set_active (fun s => s ∖ {[branchKey dbName branchID]}) d.

Definition has_db_prefix (dbName key : string) : bool := HasPrefix key (dbName +:+ ":").

(** Takes the workers that [pick] selects out of the map, with their active
    marks; they are cancelled and waited for, so their done channels close. *)
Definition stop_workers (dbName : string) (pick : string -> bool) (d : daemon) : daemon :=
  let stopped := filter (fun kw => pick kw.1 = true) (dm_workers d) in
  let d := set_workers (filter (fun kw => pick kw.1 = false)) d in
  let d := map_fold (fun key _ d => unmarkBranchActive dbName (branchIDFromKey key) d) d stopped in
  set_done (fun s => list_to_set (map snd (map_to_list stopped)) ∪ s) d.

(** [startBranch] for the context [id]. *)
Definition startBranch (id : nat) (dbName : string) (branchID : Z) (d : daemon) : daemon :=
  let key := branchKey dbName branchID in
  if negb (bool_decide (dm_tenants d !! dbName = Some id)) then d
  else match dm_workers d !! key with
       | Some _ => d
       | None => bump (set_active (fun s => {[key]} ∪ s) (set_workers <[key := dm_next d]> d))
       end.

(** ** Tenants *)

Definition onboard_key (dbName : string) : string := "onboard:" +:+ dbName.
Definition reconcile_key (tenantKey : string) : string := "reconcile:" +:+ tenantKey.

Definition drop_sub (key : string) (d : daemon) : daemon :=
  match dm_subs d !! key with
  | Some sub => set_subs (delete key) (fun u => {[sub]} ∪ u) d
  | None => d
  end.

Definition mark_stopping (c : tenant_state) : tenant_state :=
  mkTenantState (tx_tenant c) (tx_env c) (tx_admin c) (tx_expected c) true.

Definition removeTenant (dbName : string) (d : daemon) : daemon :=
  let tc := dm_tenants d !! dbName in
  let d := match tc with Some id => set_ctx id mark_stopping d | None => d end in
  let d := set_caches (delete dbName) (set_tenants (delete dbName) d) in
  let d := stop_workers dbName (has_db_prefix dbName) d in
  match tc with
  | Some id =>
      match dm_ctxs d !! id with
      | Some c => drop_sub (reconcile_key (tn_TenantKey (tx_tenant c)))
                    (drop_sub (onboard_key dbName) d)
      | None => drop_sub (onboard_key dbName) d
      end
  | None => d
  end.

(** What the databases and NATS answer during one reconciliation. *)
Record surroundings : Type := mkSurroundings {
  sr_rows : result error (list Tenant);         (* the registry query *)
  sr_open : Tenant -> option error;             (* tenant.OpenDB with the base DSN *)
  sr_admin : Tenant -> bool;                    (* an admin DSN is set and opens *)
  sr_preflight : Tenant -> option error;        (* SQLChain.Preflight *)
  sr_onboard : Tenant -> option error;          (* subscribeOnboardResponder *)
  sr_reconcile : Tenant -> option error;        (* subscribeReconcileResponder *)
  sr_branches : Tenant -> result error (list Z) (* processor.QueryActiveBranches *)
}.

Definition tenant_env (t : Tenant) : result error Environment :=
  if String.eqb (tn_ZATCAEnv t) "" then Ok Sandbox
  else match ParseEnv (tn_ZATCAEnv t) with
       | Ok e => Ok e
       | Err e => Err (Wrap "invalid ZATCA environment: " e "")
       end.

Definition addTenant (sr : surroundings) (t : Tenant) (d : daemon) : option error * daemon :=
  match tenant_env t with
  | Err e => (Some e, d)
  | Ok env =>
      match sr_open sr t with
      | Some e => (Some e, d)
      | None =>
          match sr_preflight sr t with
          | Some e => (Some e, d)
          | None =>
              let id := dm_next d in
              let d := alloc_ctx (mkTenantState t env (sr_admin sr t) ∅ false) d in
              let d := set_caches <[tn_DBName t := ∅]> (set_tenants <[tn_DBName t := id]> d) in
              match sr_onboard sr t with
              | Some e =>
                  (Some (Wrap ("subscribe onboarding for " +:+ tn_DBName t +:+ ": ") e ""),
                   removeTenant (tn_DBName t) d)
              | None =>
                  let onboardSub := dm_next d in
                  let d := bump d in
                  match sr_reconcile sr t with
                  | Some e =>
                      (Some (Wrap ("subscribe reconciliation for " +:+ tn_DBName t +:+ ": ") e ""),
                       removeTenant (tn_DBName t)
                         (set_subs (fun s => s) (fun u => {[onboardSub]} ∪ u) d))
                  | None =>
                      let reconcileSub := dm_next d in
                      (None, bump (set_subs (fun s => <[reconcile_key (tn_TenantKey t) := reconcileSub]>
                                      (<[onboard_key (tn_DBName t) := onboardSub]> s)) (fun u => u) d))
                  end
              end
          end
      end
  end.

Definition set_expected (branches : list Z) (c : tenant_state) : tenant_state :=
  mkTenantState (tx_tenant c) (tx_env c) (tx_admin c) (list_to_set branches) (tx_stopping c).

(** [reconcileBranches] for the context [id]. *)
Definition reconcileBranches (sr : surroundings) (id : nat) (t : Tenant) (d : daemon)
    : option error * daemon :=
  match sr_branches sr t with
  | Err e => (Some (Wrap "query active branches: " e ""), d)
  | Ok branches =>
      let dbName := tn_DBName t in
      let d := fold_left (fun d b => startBranch id dbName b d) branches d in
      let d := set_ctx id (set_expected branches) d in
      let d := set_caches (delete dbName) d in
      (None, stop_workers dbName
               (fun key => has_db_prefix dbName key
                           && negb (existsb (Z.eqb (branchIDFromKey key)) branches)) d)
  end.

(** ** Reconciliation *)

(** The Go runtime iterates a map in any order. *)
Context (order : list (string * nat) -> list (string * nat)).

(** The discovered tenants by database name. *)
Definition by_db (discovered : list Tenant) : gmap string Tenant :=
  fold_left (fun m t => <[tn_DBName t := t]> m) discovered ∅.

(** The first loop: a tenant that is gone or differs is removed. *)
Definition remove_outdated (desired : gmap string Tenant) (snapshot : list (string * nat))
    (d : daemon) : daemon :=
  fold_left (fun d '(dbName, id) =>
    match dm_ctxs d !! id, desired !! dbName with
    | None, _ => d
    | Some c, None => removeTenant dbName d
    | Some c, Some target =>
        if negb (String.eqb (tn_TenantKey target) (tn_TenantKey (tx_tenant c)))
        then removeTenant dbName d
        else if negb (bool_decide (tx_tenant c = target)) then removeTenant dbName d else d
    end) snapshot d.

Definition start_failure (t : Tenant) (e : error) : error :=
  Wrap ("tenant " +:+ tn_Name t +:+ " (" +:+ tn_DBName t +:+ ") failed to start: ") e "".
Definition branch_failure (t : Tenant) (e : error) : error :=
  Wrap ("tenant " +:+ tn_Name t +:+ " (" +:+ tn_DBName t +:+ ") branch reconciliation failed: ") e "".

Definition add_one (sr : surroundings) (st : list error * daemon) (t : Tenant)
    : list error * daemon :=
  let '(failures, d) := st in
  match dm_tenants d !! tn_DBName t with
  | Some _ => (failures, d)
  | None => match addTenant sr t d with
            | (Some e, d) => (failures ++ [start_failure t e], d)
            | (None, d) => (failures, d)
            end
  end.

Definition add_missing (sr : surroundings) (discovered : list Tenant) (d : daemon)
    : list error * daemon :=
  fold_left (add_one sr) discovered ([], d).

Definition reconcile_one (sr : surroundings) (st : list error * daemon) (entry : string * nat)
    : list error * daemon :=
  let '(failures, d) := st in
  match dm_ctxs d !! entry.2 with
  | None => (failures, d)
  | Some c => match reconcileBranches sr entry.2 (tx_tenant c) d with
              | (Some e, d) => (failures ++ [branch_failure (tx_tenant c) e], d)
              | (None, d) => (failures, d)
              end
  end.

Definition reconcile_all_branches (sr : surroundings) (snapshot : list (string * nat))
    (st : list error * daemon) : list error * daemon :=
  fold_left (reconcile_one sr) snapshot st.

(** [errors.Join] of the failures. *)
Definition join_failures (failures : list error) : option error :=
  match failures with [] => None | _ => Some (Joined failures) end.

Definition reconcile_body (sr : surroundings) (d : daemon) : option error * daemon :=
  match LoadAllContext (sr_rows sr) with
  | Err e => (Some e, d)
  | Ok discovered =>
      match Registry_Reconcile (dm_registry d) discovered with
      | (Err e, _) => (Some e, d)
      | (Ok _, registry) =>
          let d := set_registry registry d in
          let d := remove_outdated (by_db discovered) (order (map_to_list (dm_tenants d))) d in
          let '(failures, d) := add_missing sr discovered d in
          let '(failures, d) :=
            reconcile_all_branches sr (order (map_to_list (dm_tenants d))) (failures, d) in
          (join_failures failures, d)
      end
  end.

(** [reconcile], with the deferred record of its time and error. *)
Definition reconcile (sr : surroundings) (d : daemon) : option error * daemon :=
  let '(e, d) := reconcile_body sr d in (e, set_last e d).

(** [stop] removes every tenant. *)
Definition stop (d : daemon) : daemon :=
  fold_left (fun d '(dbName, _) => removeTenant dbName d) (order (map_to_list (dm_tenants d))) d.

(** ** Services *)

(** [load] is [storeconfig.LoadBranchZATCA] and what is built from its row;
    [Ok None] is a branch that is not registered. *)
Definition getService (load : tenant_state -> Z -> result error (option entry))
    (dbName : string) (branchID : Z) (d : daemon) : result error entry * daemon :=
  match dm_tenants d !! dbName with
  | None => (Err (NewError ("unknown tenant db: " +:+ dbName)), d)
  | Some id =>
      match (c ← dm_caches d !! dbName; c !! branchID), dm_ctxs d !! id with
      | Some e, _ => (Ok e, d)
      | None, None => (Err (NewError ""), d)
      | None, Some c =>
          match load c branchID with
          | Err e => (Err (Wrap ("load branch " +:+ itoa branchID +:+ " ZATCA config: ") e ""), d)
          | Ok None => (Err (NewError ("branch " +:+ itoa branchID +:+ " not registered with ZATCA")), d)
          | Ok (Some e) =>
              (Ok e, set_caches (fun m => <[dbName := <[branchID := e]>
                                   (match m !! dbName with Some c => c | None => ∅ end)]> m) d)
          end
      end
  end.

(** ** Readiness *)

(** [consumer] is the error of [js.ConsumerInfo], [None] for a nil JetStream
    context. *)
Definition sub_valid (d : daemon) (key : string) : bool :=
  match dm_subs d !! key with Some s => bool_decide (s ∉ dm_unsubscribed d) | None => false end.
Definition worker_live (d : daemon) (key : string) : bool :=
  match dm_workers d !! key with Some w => bool_decide (w ∉ dm_done d) | None => false end.

Definition branch_missing (consumer : option (string -> Z -> option error)) (d : daemon)
    (dbName : string) (b : Z) : list string :=
  let at_branch := dbName +:+ " branch " +:+ itoa b in
  if negb (worker_live d (branchKey dbName b)) then ["worker for " +:+ at_branch]
  else match consumer with
       | None => ["JetStream consumer for " +:+ at_branch]
       | Some info => match info dbName b with
                      | Some e => ["JetStream consumer for " +:+ at_branch +:+ ": " +:+ error_text e]
                      | None => []
                      end
       end.

Definition tenant_missing (consumer : option (string -> Z -> option error)) (d : daemon)
    (c : tenant_state) : list string :=
  let t := tx_tenant c in
  (if sub_valid d (onboard_key (tn_DBName t)) then []
   else ["onboarding responder for tenant " +:+ tn_DBName t])
  ++ (if sub_valid d (reconcile_key (tn_TenantKey t)) then []
      else ["reconciliation responder for tenant " +:+ tn_TenantKey t])
  ++ concat (map (branch_missing consumer d (tn_DBName t)) (elements (tx_expected c))).

Definition checkReadiness (consumer : option (string -> Z -> option error)) (d : daemon)
    : option error :=
  match dm_last d with
  | None => Some (NewError "tenant reconciliation has not completed")
  | Some (Some e) => Some (Wrap "tenant reconciliation is unhealthy: " e "")
  | Some None =>
      match concat (map (fun '(_, id) => match dm_ctxs d !! id with
                                         | Some c => tenant_missing consumer d c
                                         | None => [] end)
                      (order (map_to_list (dm_tenants d)))) with
      | [] => None
      | missing => Some (NewError ("daemon readiness is unhealthy; missing expected consumers: "
                                   +:+ Join missing "; "))
      end
  end.
End topology.
Arguments daemon : clear implicits.
