(* ===== verification/TopologySpec.v ===== *)
(** * What a reconciliation establishes

    An invariant of the reconciler's maps, the effect of each operation on the
    tenants that are served and on the workers, and the theorems on a whole
    reconciliation. *)

From S2P Require Import Prelude GoStrings GoText Models GoErrors Uuid Message ChainTypes Control Config.
From S2P Require Import Decimal Tenant Topology.
Local Open Scope Z_scope.

(** ** Keys *)

Definition colon : ascii := ":".
Definition no_colon (s : string) : Prop := colon ∉ bytes s.

Lemma prefix_inv p s : String.prefix p s = true -> exists r, s = p +:+ r.
Proof.
  revert s. induction p as [|c p IH]; intros s H; [by exists s|].
  destruct s as [|c' s]; [done|]. cbn in H.
  destruct (ascii_dec c c') as [<-|]; [|done]. destruct (IH s H) as [r ->]. by exists r.
Qed.

Lemma branchKey_inj db1 db2 b1 b2 : branchKey db1 b1 = branchKey db2 b2 -> db1 = db2 /\ b1 = b2.
Proof.
  intros E. apply (sep_inj_r ":") in E as [? ?%itoa_inj]; [done|by apply itoa_excludes..].
Qed.

Lemma has_db_prefix_key db db' b : no_colon db -> no_colon db' ->
  has_db_prefix db (branchKey db' b) = bool_decide (db' = db).
Proof.
  intros H H'. destruct (decide (db' = db)) as [->|Hne].
  - rewrite bool_decide_eq_true_2 by done. unfold has_db_prefix, HasPrefix, branchKey.
    rewrite <- string_app_assoc. apply HasPrefix_app.
  - rewrite bool_decide_eq_false_2 by done. apply not_true_is_false. intros Hp. apply Hne.
    apply prefix_inv in Hp as [r E]. unfold branchKey in E. rewrite string_app_assoc in E.
    by apply (sep_inj ":") in E as [-> _].
Qed.

Lemma existsb_bytes c s : existsb (Ascii.eqb c) (bytes s) = true <-> c ∈ bytes s.
Proof.
  rewrite existsb_exists. split.
  - intros (x & Hx & ->%Ascii.eqb_eq). by apply list_elem_of_In.
  - intros H. exists c. split; [by apply list_elem_of_In|apply Ascii.eqb_refl].
Qed.

Lemma after_last_colon_key db s : no_colon s -> after_last_colon (db +:+ ":" +:+ s) = s.
Proof.
  intros Hs.
  assert (Hn : after_last_colon s = s).
  { destruct s as [|c s]; [done|]. cbn. destruct (Ascii.eqb_spec c ":") as [->|Hc].
    - exfalso. apply Hs. left.
    - destruct (existsb _ _) eqn:E; [|done]. apply existsb_bytes in E. exfalso. apply Hs. by right. }
  induction db as [|c db IH]; [exact Hn|].
  change (String c db +:+ ":" +:+ s) with (String c (db +:+ ":" +:+ s)). cbn [after_last_colon].
  destruct (Ascii.eqb c ":"); [exact IH|].
  rewrite (proj2 (existsb_bytes _ _)); [exact IH|].
  rewrite bytes_app. apply elem_of_app. right. left.
Qed.

Lemma digit_prefix_all s : (forall c, c ∈ bytes s -> is_digit c = true) -> digit_prefix s = s.
Proof.
  induction s as [|c s IH]; intros H; cbn; [done|].
  rewrite (H c) by left. rewrite IH; [done|]. intros c' Hc. apply H. by right.
Qed.

Lemma first_byte_digit z : 0 <= z ->
  exists c s, itoa z = String c s /\ is_digit c = true.
Proof.
  intros Hz. pose proof (itoa_not_empty z). destruct (itoa z) as [|c s] eqn:E; [done|].
  exists c, s. split; [done|]. apply (itoa_digits z); [done|]. rewrite E. left.
Qed.

Lemma digit_not c : is_digit c = true ->
  (bv c =? 32) = false /\ (bv c =? 9) = false /\ Ascii.eqb c "-" = false /\ Ascii.eqb c "+" = false.
Proof.
  intros Hd. split_and!;
    [unfold is_digit, in_range in Hd; bool_to_prop; lia..| |];
    apply Ascii.eqb_neq; intros ->; by vm_compute in Hd.
Qed.

Lemma scan_int64_itoa b : min_int64 <= b <= max_int64 -> scan_int64 (itoa b) = Some b.
Proof.
  intros Hb. assert (Hr : in_range min_int64 max_int64 b = true) 
    by (unfold in_range; apply andb_true_intro; split; apply Z.leb_le; lia).
  unfold scan_int64. destruct (Z.ltb_spec b 0) as [Hneg|Hpos].
  - rewrite itoa_neg by done.
    change (skip_blanks (String "-" (itoa (- b)))) with (String "-" (itoa (- b))).
    cbv beta iota zeta. change (Ascii.eqb "-" "-") with true. cbv beta iota zeta.
    rewrite digit_prefix_all by (intros c; apply itoa_digits; lia).
    pose proof (itoa_not_empty (- b)). destruct (itoa (- b)) as [|c s] eqn:E; [done|].
    rewrite <- E, digits_value_itoa by lia. cbn -[in_range]. by rewrite Z.opp_involutive, Hr.
  - destruct (first_byte_digit b Hpos) as (c & s & E & Hd).
    destruct (digit_not c Hd) as (N1 & N2 & N3 & N4).
    rewrite E. cbn [skip_blanks]. rewrite N1, N2. cbn [orb]. cbv iota beta. rewrite N3, N4.
    rewrite <- E, digit_prefix_all by (intros c'; apply itoa_digits; lia).
    rewrite E. rewrite <- E, digits_value_itoa by lia. cbn -[in_range]. by rewrite Hr.
Qed.

(** The branch of a worker key is the branch it was made for. *)
Lemma branchIDFromKey_key db b : min_int64 <= b <= max_int64 ->
  branchIDFromKey (branchKey db b) = b.
Proof.
  intros Hb. unfold branchIDFromKey, branchKey.
  rewrite after_last_colon_key by (by apply itoa_excludes). by rewrite scan_int64_itoa.
Qed.

(** ** The tenants that are served, and the invariant of the maps *)

Section spec.
Context {entry : Type}.
Local Abbreviation daemon := (daemon entry).

Definition tenant_at (d : daemon) (id : nat) : option Tenant := tx_tenant <$> dm_ctxs d !! id.
Definition serves (d : daemon) (db : string) (t : Tenant) : Prop :=
  exists id, dm_tenants d !! db = Some id /\ tenant_at d id = Some t.

Definition sub_ok (d : daemon) (key : string) : Prop := sub_valid d key = true.

Record topology_ok (d : daemon) : Prop := {
  tp_ctx : forall db id, dm_tenants d !! db = Some id ->
    no_colon db /\ (id < dm_next d)%nat /\ exists t, tenant_at d id = Some t /\ tn_DBName t = db;
  tp_keys : forall db1 db2 t1 t2, serves d db1 t1 -> serves d db2 t2 ->
    tn_TenantKey t1 = tn_TenantKey t2 -> db1 = db2;
  tp_workers : forall key w, dm_workers d !! key = Some w ->
    (w < dm_next d)%nat /\ exists db id b, dm_tenants d !! db = Some id /\ key = branchKey db b
                                          /\ min_int64 <= b <= max_int64;
  tp_old : (forall w, w ∈ dm_done d -> (w < dm_next d)%nat)
    /\ forall u, u ∈ dm_unsubscribed d -> (u < dm_next d)%nat;
  tp_subs : forall db t, serves d db t ->
    sub_ok d (onboard_key db) /\ sub_ok d (reconcile_key (tn_TenantKey t));
  tp_sub_ids : (forall k u, dm_subs d !! k = Some u -> (u < dm_next d)%nat)
    /\ forall k1 k2 u, dm_subs d !! k1 = Some u -> dm_subs d !! k2 = Some u -> k1 = k2
}.

Lemma serves_db d db t : topology_ok d -> serves d db t -> tn_DBName t = db /\ no_colon db.
Proof.
  intros Hd (id & Hid & Ht). destruct (tp_ctx _ Hd _ _ Hid) as (? & _ & t' & Ht' & E).
  by rewrite Ht in Ht'; simplify_eq.
Qed.

Lemma serves_fun d db t t' : serves d db t -> serves d db t' -> t = t'.
Proof. intros (id & H1 & H2) (id' & H3 & H4). rewrite H1 in H3. simplify_eq. congruence. Qed.

Lemma newDaemonReconciler_ok : topology_ok newDaemonReconciler.
Proof.
  assert (Hs : forall db t, ~ serves newDaemonReconciler db t)
    by (intros db t (id & H & _); cbn in H; by rewrite lookup_empty in H).
  split; cbn.
  - intros db id H. by rewrite lookup_empty in H.
  - intros db1 db2 t1 t2 H. by apply Hs in H.
  - intros key w H. by rewrite lookup_empty in H.
  - split; intros ? H; by apply elem_of_empty in H.
  - intros db t H. by apply Hs in H.
  - split; intros * H; by rewrite lookup_empty in H.
Qed.

(** ** Stopping workers *)

Lemma stop_workers_spec db pick (d : daemon) :
  let d' := stop_workers db pick d in
  dm_next d' = dm_next d /\ dm_ctxs d' = dm_ctxs d /\ dm_tenants d' = dm_tenants d
  /\ dm_subs d' = dm_subs d /\ dm_unsubscribed d' = dm_unsubscribed d
  /\ (forall key, dm_workers d' !! key = if pick key then None else dm_workers d !! key)
  /\ (forall w, w ∈ dm_done d' <->
        w ∈ dm_done d \/ exists key, pick key = true /\ dm_workers d !! key = Some w).
Proof.
  cbv zeta. unfold stop_workers.
  set (stopped := filter (fun kw => pick kw.1 = true) (dm_workers d)).
  set (d1 := set_workers _ d).
  assert (Hf : let d2 := map_fold (fun key _ d => unmarkBranchActive db (branchIDFromKey key) d) d1 stopped in
    dm_next d2 = dm_next d1 /\ dm_ctxs d2 = dm_ctxs d1 /\ dm_tenants d2 = dm_tenants d1
    /\ dm_subs d2 = dm_subs d1 /\ dm_unsubscribed d2 = dm_unsubscribed d1
    /\ dm_workers d2 = dm_workers d1 /\ dm_done d2 = dm_done d1).
  { cbv zeta. apply (map_fold_weak_ind (fun d2 _ => dm_next d2 = dm_next d1 /\ dm_ctxs d2 = dm_ctxs d1
      /\ dm_tenants d2 = dm_tenants d1 /\ dm_subs d2 = dm_subs d1
      /\ dm_unsubscribed d2 = dm_unsubscribed d1 /\ dm_workers d2 = dm_workers d1
      /\ dm_done d2 = dm_done d1)); [done|]. by intros key w m d2 _ IH. }
  cbv zeta in Hf. destruct Hf as (E1 & E2 & E3 & E4 & E5 & E6 & E7).
  cbn [dm_next dm_ctxs dm_tenants dm_subs dm_unsubscribed dm_workers dm_done set_done].
  rewrite E1, E2, E3, E4, E5, E6, E7. split_and!; [done..| |].
  - intros key. cbn [dm_workers d1 set_workers]. destruct (pick key) eqn:E.
    + apply map_lookup_filter_None. right. intros w _. cbn. by rewrite E.
    + destruct (dm_workers d !! key) as [w|] eqn:Hw.
      * by apply map_lookup_filter_Some.
      * apply map_lookup_filter_None. by left.
  - intros w. cbn [dm_done d1 set_workers]. rewrite elem_of_union, elem_of_list_to_set.
    rewrite list_elem_of_fmap. split.
    + intros [([key w'] & -> & H)|H]; [right|by left]. exists key.
      apply elem_of_map_to_list, map_lookup_filter_Some in H. cbn in *. tauto.
    + intros [H|(key & Hp & H)]; [by right|left]. exists (key, w). split; [done|].
      apply elem_of_map_to_list, map_lookup_filter_Some. done.
Qed.

Lemma drop_sub_spec key (d : daemon) :
  let d' := drop_sub key d in
  dm_next d' = dm_next d /\ dm_ctxs d' = dm_ctxs d /\ dm_tenants d' = dm_tenants d
  /\ dm_workers d' = dm_workers d /\ dm_done d' = dm_done d
  /\ dm_subs d' = delete key (dm_subs d)
  /\ (forall u, u ∈ dm_unsubscribed d' <-> u ∈ dm_unsubscribed d \/ dm_subs d !! key = Some u).
Proof.
  unfold drop_sub. destruct (dm_subs d !! key) as [s|] eqn:E; cbn.
  - split_and!; try done. intros u. rewrite elem_of_union, elem_of_singleton.
    split; [intros [->|?]; auto|intros [?|?]; simplify_eq; auto].
  - split_and!; try done; [by rewrite delete_id|]. intros u. split; [auto|intros [?|?]; done].
Qed.

(** Dropping a subscription leaves the others valid. *)
Lemma drop_sub_valid key key' (d : daemon) :
  (forall k1 k2 u, dm_subs d !! k1 = Some u -> dm_subs d !! k2 = Some u -> k1 = k2) ->
  key <> key' -> sub_ok d key' -> sub_ok (drop_sub key d) key'.
Proof.
  intros Hinj Hne. destruct (drop_sub_spec key d) as (_ & _ & _ & _ & _ & Es & Eu).
  unfold sub_ok, sub_valid. rewrite Es, lookup_delete_ne by done.
  destruct (dm_subs d !! key') as [u|] eqn:E; [|done]. rewrite !bool_decide_eq_true, Eu.
  intros Hu [?|H]; [done|]. by apply Hne, (Hinj _ _ u).
Qed.

(** ** Removing a tenant *)

Record removed (db : string) (d d' : daemon) : Prop := {
  rm_next : dm_next d' = dm_next d;
  rm_ctxs : forall id, tenant_at d' id = tenant_at d id;
  rm_tenants : dm_tenants d' = delete db (dm_tenants d);
  rm_workers : forall key, dm_workers d' !! key
                           = if has_db_prefix db key then None else dm_workers d !! key;
  rm_done : forall w, w ∈ dm_done d' <->
    w ∈ dm_done d \/ exists key, has_db_prefix db key = true /\ dm_workers d !! key = Some w;
  rm_subs : forall k u, dm_subs d' !! k = Some u -> dm_subs d !! k = Some u;
  rm_unsub : forall u, u ∈ dm_unsubscribed d' ->
    u ∈ dm_unsubscribed d \/ exists k, dm_subs d !! k = Some u;
  rm_valid : forall key, sub_ok d key -> key <> onboard_key db ->
    (forall t, serves d db t -> key <> reconcile_key (tn_TenantKey t)) -> sub_ok d' key
}.

(** No two keys name one subscription. *)
Definition subs_distinct (d : daemon) : Prop :=
  forall k1 k2 u, dm_subs d !! k1 = Some u -> dm_subs d !! k2 = Some u -> k1 = k2.

(** Dropping a responder of the removed tenant. *)
Lemma removed_drop_sub db d k e : removed db d e -> subs_distinct e ->
  (k = onboard_key db \/ exists t, serves d db t /\ k = reconcile_key (tn_TenantKey t)) ->
  removed db d (drop_sub k e) /\ subs_distinct (drop_sub k e).
Proof.
  intros He Hi Hk. destruct (drop_sub_spec k e) as (N & C & T & W & D & S & U). split.
  - split.
    + rewrite N. apply He.
    + intros id. unfold tenant_at. rewrite C. apply He.
    + rewrite T. apply He.
    + rewrite W. apply He.
    + rewrite D. apply He.
    + intros k' u. rewrite S, lookup_delete_Some. intros [_ H]. by apply (rm_subs _ _ _ He).
    + intros u [H|H]%U; [by apply (rm_unsub _ _ _ He)|]. right. exists k.
      by apply (rm_subs _ _ _ He).
    + intros key Hok Hne Hser. apply drop_sub_valid; [done| |by apply (rm_valid _ _ _ He)].
      destruct Hk as [->|(t & Ht & ->)]; [done|]. intros E. by apply (Hser t Ht).
  - intros k1 k2 u. rewrite S, !lookup_delete_Some. intros [_ H1] [_ H2]. by eapply Hi.
Qed.

Lemma removeTenant_removed db (d : daemon) :
  subs_distinct d -> removed db d (removeTenant db d).
Proof.
  intros Hinj. unfold removeTenant.
  set (d0 := match dm_tenants d !! db with Some id => set_ctx id mark_stopping d | None => d end).
  set (d1 := set_caches (delete db) (set_tenants (delete db) d0)).
  assert (H0 : dm_next d1 = dm_next d /\ dm_tenants d1 = delete db (dm_tenants d)
    /\ dm_workers d1 = dm_workers d /\ dm_done d1 = dm_done d /\ dm_subs d1 = dm_subs d
    /\ dm_unsubscribed d1 = dm_unsubscribed d /\ forall id, tenant_at d1 id = tenant_at d id).
  { unfold d1, d0. destruct (dm_tenants d !! db) as [id|]; cbn; split_and!; try done.
    intros id'. unfold tenant_at. cbn. destruct (decide (id' = id)) as [->|Hne].
    - rewrite lookup_alter_eq. by destruct (dm_ctxs d !! id).
    - by rewrite lookup_alter_ne. }
  destruct H0 as (N1 & T1 & W1 & D1 & S1 & U1 & C1).
  destruct (stop_workers_spec db (has_db_prefix db) d1) as (N2 & C2 & T2 & S2 & U2 & W2 & D2).
  set (d2 := stop_workers db (has_db_prefix db) d1) in *.
  assert (Hbase : removed db d d2).
  { split.
    - congruence.
    - intros id. unfold tenant_at in *. by rewrite C2.
    - congruence.
    - intros key. by rewrite W2, W1.
    - intros w. rewrite D2, D1. by setoid_rewrite W1.
    - intros k u. by rewrite S2, S1.
    - intros u. rewrite U2, U1. auto.
    - intros key. unfold sub_ok, sub_valid. by rewrite S2, S1, U2, U1. }
  assert (Hi2 : subs_distinct d2) by (intros k1 k2 u; rewrite S2, S1; apply Hinj).
  destruct (dm_tenants d !! db) as [id|] eqn:Eid; [|done].
  assert (Hctx : dm_ctxs d2 !! id = mark_stopping <$> dm_ctxs d !! id)
    by (rewrite C2; unfold d1, d0; cbn; apply lookup_alter_eq).
  destruct (removed_drop_sub db d (onboard_key db) d2 Hbase Hi2 (or_introl eq_refl)) as [H3 Hi3].
  rewrite Hctx. destruct (dm_ctxs d !! id) as [c|] eqn:Ec; [|exact H3]. cbn [fmap option_fmap option_map].
  apply (removed_drop_sub _ _ _ _ H3 Hi3). right. exists (tx_tenant c). split; [|done].
  exists id. split; [done|]. unfold tenant_at. by rewrite Ec.
Qed.

Lemma removed_serves db d d' db' t :
  removed db d d' -> serves d' db' t <-> db' <> db /\ serves d db' t.
Proof.
  intros Hr. unfold serves. rewrite (rm_tenants _ _ _ Hr). split.
  - intros (id & H & Ht). apply lookup_delete_Some in H as [Hne H]. split; [done|].
    exists id. by rewrite <- (rm_ctxs _ _ _ Hr).
  - intros [Hne (id & H & Ht)]. exists id. rewrite (rm_ctxs _ _ _ Hr).
    by rewrite lookup_delete_ne.
Qed.

Lemma removed_ok db d d' : topology_ok d -> removed db d d' -> topology_ok d'.
Proof.
  intros Hd Hr. split.
  - intros db' id. rewrite (rm_tenants _ _ _ Hr), (rm_next _ _ _ Hr), (rm_ctxs _ _ _ Hr).
    intros [_ H]%lookup_delete_Some. by apply (tp_ctx _ Hd).
  - intros db1 db2 t1 t2. rewrite !(removed_serves _ _ _ _ _ Hr).
    intros [_ H1] [_ H2]. by apply (tp_keys _ Hd).
  - intros key w. rewrite (rm_workers _ _ _ Hr), (rm_next _ _ _ Hr), (rm_tenants _ _ _ Hr).
    destruct (has_db_prefix db key) eqn:Hp; [done|]. intros Hw.
    destruct (tp_workers _ Hd _ _ Hw) as (? & db' & id & b & Hid & -> & Hb). split; [done|].
    exists db', id, b. split; [|done]. rewrite lookup_delete_ne; [done|]. intros ->.
    unfold has_db_prefix, branchKey in Hp. rewrite <- string_app_assoc, HasPrefix_app in Hp. done.
  - destruct (tp_old _ Hd) as [H1 H2]. destruct (tp_sub_ids _ Hd) as [H3 _].
    rewrite (rm_next _ _ _ Hr). split.
    + intros w [?|(key & _ & Hw)]%(rm_done _ _ _ Hr); [auto|]. by apply (tp_workers _ Hd) in Hw as [? _].
    + intros u [?|(k & Hk)]%(rm_unsub _ _ _ Hr); eauto.
  - intros db' t. rewrite (removed_serves _ _ _ _ _ Hr). intros [Hne Ht].
    destruct (tp_subs _ Hd _ _ Ht) as [H1 H2]. split; apply (rm_valid _ _ _ Hr); try done.
    + intros E. apply (string_app_inj_l "onboard:") in E. done.
    + intros t' Ht' E. unfold reconcile_key in E. apply (string_app_inj_l "reconcile:") in E.
      apply Hne. by eapply (tp_keys _ Hd).
  - destruct (tp_sub_ids _ Hd) as [H1 H2]. rewrite (rm_next _ _ _ Hr). split.
    + intros k u Hk. by eapply H1, (rm_subs _ _ _ Hr).
    + intros k1 k2 u Hk1 Hk2. eapply H2; by apply (rm_subs _ _ _ Hr).
Qed.
End spec.
