(* ===== verification/TopologyOps.v ===== *)
(** * The loops of a reconciliation

    What removing outdated tenants, adding missing ones and reconciling the
    branches of each does to the tenants served and to the workers. *)

From S2P Require Import Prelude GoStrings Models GoErrors Uuid Message ChainTypes Control Config.
From S2P Require Import Tenant Topology TopologySpec.
Local Open Scope Z_scope.

Section ops.
Context {entry : Type}.
Local Abbreviation daemon := (daemon entry).

(** The worker of a branch. *)
Definition worker_of (d : daemon) (db : string) (b : Z) : option nat :=
  dm_workers d !! branchKey db b.

Lemma removed_worker_of db d d' db' b :
  removed db d d' -> no_colon db -> no_colon db' ->
  worker_of d' db' b = if bool_decide (db' = db) then None else worker_of d db' b.
Proof.
  intros Hr H1 H2. unfold worker_of. by rewrite (rm_workers _ _ _ Hr), has_db_prefix_key.
Qed.

Lemma removeTenant_ok db (d : daemon) :
  topology_ok d -> removed db d (removeTenant db d) /\ topology_ok (removeTenant db d).
Proof.
  intros Hd. assert (Hr : removed db d (removeTenant db d)).
  { apply removeTenant_removed. intros k1 k2 u. apply (tp_sub_ids _ Hd). }
  split; [done|]. by eapply removed_ok.
Qed.

(** ** Removing outdated tenants *)

Definition outdated (desired : gmap string Tenant) (db : string) (t : Tenant) : bool :=
  negb (bool_decide (desired !! db = Some t)).

Lemma remove_outdated_cons desired db id snap (d : daemon) t :
  tenant_at d id = Some t ->
  remove_outdated desired ((db, id) :: snap) d
  = remove_outdated desired snap (if outdated desired db t then removeTenant db d else d).
Proof.
  unfold tenant_at, remove_outdated, outdated. intros Ht. cbn [fold_left].
  destruct (dm_ctxs d !! id) as [c|] eqn:E; [|done]. injection Ht as Ht. rewrite Ht.
  destruct (desired !! db) as [target|] eqn:Ed; [|by rewrite bool_decide_eq_false_2].
  destruct (String.eqb_spec (tn_TenantKey target) (tn_TenantKey t)) as [Ek|Ek]; cbn [negb].
  - destruct (decide (t = target)) as [<-|Hne].
    + by rewrite !bool_decide_eq_true_2.
    + rewrite !bool_decide_eq_false_2; [done|congruence|done].
  - rewrite (bool_decide_eq_false_2 (Some target = Some t)); [done|]. congruence.
Qed.

Lemma remove_outdated_spec desired snap (d : daemon) :
  topology_ok d ->
  (forall db id, (db, id) ∈ snap -> no_colon db /\ exists t, tenant_at d id = Some t) ->
  let d' := remove_outdated desired snap d in
  topology_ok d'
  /\ (forall db t, serves d' db t <-> serves d db t
        /\ forall id t0, (db, id) ∈ snap -> tenant_at d id = Some t0 -> desired !! db = Some t0)
  /\ (forall db t b, serves d' db t -> worker_of d' db b = worker_of d db b)
  /\ (forall w, w ∈ dm_done d -> w ∈ dm_done d').
Proof.
  cbv zeta. revert d. induction snap as [|[db0 id0] snap IH]; intros d Hd Hs.
  { split_and!; try done. intros db t. split; [|tauto]. intros H. split; [done|].
    intros id t0 Hin. by apply elem_of_nil in Hin. }
  destruct (Hs db0 id0) as [Hc0 [t0 Ht0]]; [left|].
  rewrite (remove_outdated_cons _ _ _ _ _ _ Ht0).
  destruct (removeTenant_ok db0 d Hd) as [Hr Hd1]. unfold outdated.
  destruct (decide (desired !! db0 = Some t0)) as [Hkeep|Hgone].
  - rewrite bool_decide_eq_true_2 by done. cbn [negb].
    destruct (IH d Hd) as (H1 & H2 & H3 & H4); [intros; apply Hs; by right|].
    split_and!; try done. intros db t. rewrite H2. apply and_iff_compat_l. split.
    + intros H id t1 [E|Hin]%elem_of_cons Ht1; [|by eapply H]. simplify_eq. congruence.
    + intros H id t1 Hin. apply H. by right.
  - rewrite bool_decide_eq_false_2 by done. cbn [negb].
    destruct (IH (removeTenant db0 d) Hd1) as (H1 & H2 & H3 & H4).
    { intros db id Hin. rewrite (rm_ctxs _ _ _ Hr). apply Hs. by right. }
    split_and!; try done.
    + intros db t. rewrite H2, (removed_serves _ _ _ _ _ Hr). setoid_rewrite (rm_ctxs _ _ _ Hr).
      split.
      * intros [[Hne Hser] H]. split; [done|].
        intros id t1 [E|Hin]%elem_of_cons Ht1; [by simplify_eq|by eapply H].
      * intros [Hser H]. split_and!; [|done|intros id t1 Hin; apply H; by right].
        intros ->. apply Hgone. apply (H id0); [left|done].
    + intros db t b Hser. rewrite (H3 db t b Hser). apply H2 in Hser as [Hser _].
      apply (removed_serves _ _ _ _ _ Hr) in Hser as [Hne Hser].
      rewrite (removed_worker_of _ _ _ _ _ Hr); [by rewrite bool_decide_eq_false_2|done|].
      by apply (serves_db _ _ _ Hd Hser).
    + intros w Hw. apply H4, (rm_done _ _ _ Hr). by left.
Qed.

(** ** Adding a tenant *)

Definition starts (sr : surroundings) (t : Tenant) : Prop :=
  is_ok (tenant_env t) = true /\ sr_open sr t = None /\ sr_preflight sr t = None
  /\ sr_onboard sr t = None /\ sr_reconcile sr t = None.

#[export] Instance starts_dec sr t : Decision (starts sr t).
Proof. unfold starts. apply _. Defined.

Record added (sr : surroundings) (t : Tenant) (d : daemon) (e : option error) (d' : daemon) : Prop := {
  ad_ok : topology_ok d';
  ad_error : e = None <-> starts sr t;
  ad_serves : forall db t', serves d' db t' <->
    serves d db t' \/ starts sr t /\ db = tn_DBName t /\ t' = t;
  ad_workers : forall db b, no_colon db -> worker_of d' db b = worker_of d db b;
  ad_done : forall w, w ∈ dm_done d -> w ∈ dm_done d'
}.

(** States that differ in nothing the reconciler relies on. *)
Record same_topology (d d' : daemon) : Prop := {
  sm_next : (dm_next d <= dm_next d')%nat;
  sm_ctxs : forall id, (id < dm_next d)%nat -> tenant_at d' id = tenant_at d id;
  sm_tenants : dm_tenants d' = dm_tenants d;
  sm_workers : dm_workers d' = dm_workers d;
  sm_done : forall w, w ∈ dm_done d' <-> w ∈ dm_done d;
  sm_subs : forall k u, dm_subs d' !! k = Some u -> dm_subs d !! k = Some u;
  sm_unsub : forall u, u ∈ dm_unsubscribed d' -> (u < dm_next d')%nat;
  sm_valid : forall db t, serves d db t ->
    sub_ok d' (onboard_key db) /\ sub_ok d' (reconcile_key (tn_TenantKey t))
}.

Lemma same_topology_serves (d d' : daemon) db t :
  topology_ok d -> same_topology d d' -> serves d' db t <-> serves d db t.
Proof.
  intros Hd Hs. unfold serves. rewrite (sm_tenants _ _ Hs).
  split; intros (id & Hid & Ht); exists id; split; try done;
    destruct (tp_ctx _ Hd _ _ Hid) as (_ & Hlt & _); by rewrite (sm_ctxs _ _ Hs) in *.
Qed.

Lemma same_topology_ok (d d' : daemon) : topology_ok d -> same_topology d d' -> topology_ok d'.
Proof.
  intros Hd Hs. pose proof (sm_next _ _ Hs) as Hn. split.
  - intros db id. rewrite (sm_tenants _ _ Hs). intros Hid.
    destruct (tp_ctx _ Hd _ _ Hid) as (? & Hlt & ?). rewrite (sm_ctxs _ _ Hs) by done.
    split_and!; [done|lia|done].
  - intros db1 db2 t1 t2. rewrite !(same_topology_serves _ _ _ _ Hd Hs). apply (tp_keys _ Hd).
  - intros key w. rewrite (sm_workers _ _ Hs), (sm_tenants _ _ Hs).
    intros Hw. destruct (tp_workers _ Hd _ _ Hw). split; [lia|done].
  - destruct (tp_old _ Hd) as [H1 _]. split; [|apply (sm_unsub _ _ Hs)].
    intros w Hw%(sm_done _ _ Hs). apply H1 in Hw. lia.
  - intros db t. rewrite (same_topology_serves _ _ _ _ Hd Hs). apply (sm_valid _ _ Hs).
  - destruct (tp_sub_ids _ Hd) as [H1 H2]. split.
    + intros k u Hk%(sm_subs _ _ Hs). apply H1 in Hk. lia.
    + intros k1 k2 u Hk1%(sm_subs _ _ Hs) Hk2%(sm_subs _ _ Hs). by eapply H2.
Qed.

Lemma same_topology_refl (d : daemon) : topology_ok d -> same_topology d d.
Proof. intros Hd. split; try done; [apply (tp_old _ Hd)|apply (tp_subs _ Hd)]. Qed.

(** No worker belongs to a database that is not served. *)
Lemma no_workers_of (d : daemon) db key w :
  topology_ok d -> no_colon db -> dm_tenants d !! db = None ->
  dm_workers d !! key = Some w -> has_db_prefix db key = false.
Proof.
  intros Hd Hc Hn Hw. destruct (tp_workers _ Hd _ _ Hw) as (_ & db' & id & b & Hid & -> & _).
  rewrite has_db_prefix_key by (done || by apply (tp_ctx _ Hd _ _ Hid)).
  apply bool_decide_eq_false_2. congruence.
Qed.

(** A tenant whose context was put into the maps and then removed again. *)
Lemma undone_same t (d d1 d' : daemon) :
  topology_ok d -> no_colon (tn_DBName t) -> dm_tenants d !! tn_DBName t = None ->
  (forall db t', serves d db t' -> tn_TenantKey t' <> tn_TenantKey t) ->
  dm_tenants d1 = <[tn_DBName t := dm_next d]> (dm_tenants d) ->
  (forall id, (id < dm_next d)%nat -> tenant_at d1 id = tenant_at d id) ->
  tenant_at d1 (dm_next d) = Some t -> (dm_next d < dm_next d1)%nat ->
  dm_workers d1 = dm_workers d -> dm_done d1 = dm_done d -> dm_subs d1 = dm_subs d ->
  (forall u, u ∈ dm_unsubscribed d1 <-> u ∈ dm_unsubscribed d \/ (dm_next d < u < dm_next d1)%nat /\ u ∈ dm_unsubscribed d1) ->
  removed (tn_DBName t) d1 d' -> same_topology d d'.
Proof.
  intros Hd Hc Hn Hkey T1 C1 Ct N1 W1 D1 S1 U1 Hr.
  destruct (tp_old _ Hd) as [_ Hu]. destruct (tp_sub_ids _ Hd) as [Hsub _].
  assert (Hw : forall key w, dm_workers d !! key = Some w -> has_db_prefix (tn_DBName t) key = false)
    by (intros key w; by apply no_workers_of).
  split.
  - rewrite (rm_next _ _ _ Hr). lia.
  - intros id Hid. by rewrite (rm_ctxs _ _ _ Hr), C1.
  - rewrite (rm_tenants _ _ _ Hr), T1. by rewrite delete_insert_id.
  - apply map_eq. intros key. rewrite (rm_workers _ _ _ Hr), W1.
    destruct (has_db_prefix _ key) eqn:E; [|done].
    destruct (dm_workers d !! key) eqn:Ek; [|done]. by rewrite (Hw _ _ Ek) in E.
  - intros w. rewrite (rm_done _ _ _ Hr), W1, D1. split; [|auto].
    intros [?|(key & Hp & Hk)]; [done|]. by rewrite (Hw _ _ Hk) in Hp.
  - intros k u Hk%(rm_subs _ _ _ Hr). by rewrite S1 in Hk.
  - intros u [H|(k & H)]%(rm_unsub _ _ _ Hr); rewrite (rm_next _ _ _ Hr).
    + apply U1 in H as [H|[[_ H] _]]; [|done]. apply Hu in H. lia.
    + rewrite S1 in H. apply Hsub in H. lia.
  - intros db t' Hser. destruct (tp_subs _ Hd _ _ Hser) as [V1 V2].
    assert (Hdb : db <> tn_DBName t) by (intros ->; destruct Hser as (id & Hid & _); congruence).
    assert (Hold : forall key, sub_ok d key -> sub_ok d1 key).
    { unfold sub_ok, sub_valid. rewrite S1. intros key. destruct (dm_subs d !! key) as [u|] eqn:E; [|done].
      rewrite !bool_decide_eq_true. intros Hv [H|[[H _] _]]%U1; [done|]. apply Hsub in E. lia. }
    assert (Hothers : forall t0, serves d1 (tn_DBName t) t0 -> t0 = t).
    { intros t0 (id & Hid & Ht0). rewrite T1, lookup_insert_eq in Hid. simplify_eq. congruence. }
    split; apply (rm_valid _ _ _ Hr); try (by apply Hold).
    + intros E. by apply (string_app_inj_l "onboard:") in E.
    + intros t0 H0. done.
    + done.
    + intros t0 ->%Hothers E. apply (string_app_inj_l "reconcile:") in E. by eapply Hkey.
Qed.

Lemma added_failed sr t (d d' : daemon) e :
  topology_ok d -> ~ starts sr t -> same_topology d d' -> added sr t d (Some e) d'.
Proof.
  intros Hd Hn Hs. split.
  - by eapply same_topology_ok.
  - by split.
  - intros db t'. rewrite (same_topology_serves _ _ _ _ Hd Hs). tauto.
  - intros db b _. unfold worker_of. by rewrite (sm_workers _ _ Hs).
  - intros w. by rewrite (sm_done _ _ Hs).
Qed.

(** The maps after a tenant was added with both subscriptions. *)
Lemma added_started sr t (d d' : daemon) :
  topology_ok d -> no_colon (tn_DBName t) -> dm_tenants d !! tn_DBName t = None ->
  (forall db t', serves d db t' -> tn_TenantKey t' <> tn_TenantKey t) -> starts sr t ->
  dm_next d' = S (S (S (dm_next d))) ->
  (forall id, (id < dm_next d)%nat -> tenant_at d' id = tenant_at d id) ->
  tenant_at d' (dm_next d) = Some t ->
  dm_tenants d' = <[tn_DBName t := dm_next d]> (dm_tenants d) ->
  dm_workers d' = dm_workers d -> dm_done d' = dm_done d ->
  dm_unsubscribed d' = dm_unsubscribed d ->
  dm_subs d' = <[reconcile_key (tn_TenantKey t) := S (S (dm_next d))]>
                 (<[onboard_key (tn_DBName t) := S (dm_next d)]> (dm_subs d)) ->
  added sr t d None d'.
Proof.
  intros Hd Hc Hn Hkey Hst N C Ct T W D U S.
  destruct (tp_old _ Hd) as [Hdone Hunsub]. destruct (tp_sub_ids _ Hd) as [Hsub Hinj].
  assert (Hser : forall db t', serves d' db t' <->
            serves d db t' \/ db = tn_DBName t /\ t' = t).
  { intros db t'. unfold serves. rewrite T. split.
    - intros (id & Hid & Ht'). apply lookup_insert_Some in Hid as [[<- <-]|[Hne Hid]].
      + right. split; [done|congruence].
      + left. exists id. destruct (tp_ctx _ Hd _ _ Hid) as (_ & Hlt & _). by rewrite <- C.
    - intros [(id & Hid & Ht')|[-> ->]].
      + exists id. destruct (tp_ctx _ Hd _ _ Hid) as (_ & Hlt & _).
        rewrite lookup_insert_ne by congruence. by rewrite C.
      + exists (dm_next d). by rewrite lookup_insert_eq. }
  assert (Hok : forall key, key <> onboard_key (tn_DBName t) -> key <> reconcile_key (tn_TenantKey t) ->
            sub_ok d key -> sub_ok d' key).
  { intros key H1 H2. unfold sub_ok, sub_valid. rewrite S, !lookup_insert_ne by done. by rewrite U. }
  split.
  - split.
    + intros db id. rewrite T, N. intros [[<- <-]|[Hne Hid]]%lookup_insert_Some.
      * split_and!; [done|lia|]. by exists t.
      * destruct (tp_ctx _ Hd _ _ Hid) as (? & Hlt & ?). rewrite C by done. split_and!; [done|lia|done].
    + intros db1 db2 t1 t2 [H1|[-> ->]]%Hser [H2|[-> ->]]%Hser E; [by eapply (tp_keys _ Hd)|..|done];
        [by eapply Hkey in H1|symmetry in E; by eapply Hkey in H2].
    + intros key w. rewrite W, N, T. intros Hw.
      destruct (tp_workers _ Hd _ _ Hw) as (? & db & id & b & Hid & ? & ?). split; [lia|].
      exists db, id, b. split; [|done]. rewrite lookup_insert_ne; [done|congruence].
    + rewrite D, U, N. split; intros ? H; [apply Hdone in H|apply Hunsub in H]; lia.
    + intros db t' [H|[-> ->]]%Hser.
      * destruct (tp_subs _ Hd _ _ H) as [V1 V2].
        assert (Hdb : db <> tn_DBName t) by (intros ->; destruct H as (id & Hid & _); congruence).
        split; apply Hok; try done.
        -- intros E. by apply (string_app_inj_l "onboard:") in E.
        -- intros E. apply (string_app_inj_l "reconcile:") in E. by eapply Hkey.
      * unfold sub_ok, sub_valid. rewrite S, U. split.
        -- rewrite lookup_insert_ne by done. rewrite lookup_insert_eq, bool_decide_eq_true.
           intros H%Hunsub. lia.
        -- rewrite lookup_insert_eq, bool_decide_eq_true. intros H%Hunsub. lia.
    + rewrite S, N. split.
      * intros k u [[_ <-]|[_ [[_ <-]|[_ H]]%lookup_insert_Some]]%lookup_insert_Some;
          [lia|lia|apply Hsub in H; lia].
      * intros k1 k2 u H1 H2.
        apply lookup_insert_Some in H1 as [[<- <-]|[_ [[<- <-]|[_ H1]]%lookup_insert_Some]];
        apply lookup_insert_Some in H2 as [[<- E2]|[_ [[<- E2]|[_ H2]]%lookup_insert_Some]];
        try done; try lia; try (by eapply Hinj);
        try (apply Hsub in H1; lia); try (apply Hsub in H2; lia).
  - by split.
  - intros db t'. rewrite Hser. tauto.
  - intros db b _. unfold worker_of. by rewrite W.
  - intros w. by rewrite D.
Qed.

Lemma addTenant_added sr t (d : daemon) :
  topology_ok d -> no_colon (tn_DBName t) -> dm_tenants d !! tn_DBName t = None ->
  (forall db t', serves d db t' -> tn_TenantKey t' <> tn_TenantKey t) ->
  added sr t d (addTenant sr t d).1 (addTenant sr t d).2.
Proof.
  intros Hd Hc Hn Hkey.
  assert (Hquiet : forall e, ~ starts sr t -> added sr t d (Some e) d)
    by (intros e Hs; by apply added_failed, same_topology_refl).
  unfold addTenant. destruct (tenant_env t) as [env|e] eqn:Eenv;
    [|apply Hquiet; intros [H _]; by rewrite Eenv in H].
  destruct (sr_open sr t) eqn:Eo; [apply Hquiet; by intros (_ & ? & _); congruence|].
  destruct (sr_preflight sr t) eqn:Ep; [apply Hquiet; by intros (_ & _ & ? & _); congruence|].
  assert (Hat : forall c (d1 : daemon) id, dm_ctxs d1 = <[dm_next d := c]> (dm_ctxs d) ->
            (id < dm_next d)%nat -> tenant_at d1 id = tenant_at d id)
    by (intros c d1 id E Hid; unfold tenant_at; rewrite E, lookup_insert_ne by lia; done).
  assert (Hinj : forall k1 k2 u, dm_subs d !! k1 = Some u -> dm_subs d !! k2 = Some u -> k1 = k2)
    by apply (tp_sub_ids _ Hd).
  destruct (sr_onboard sr t) eqn:Es.
  { cbn [fst snd]. apply added_failed; [done|intros (_ & _ & _ & ? & _); congruence|].
    match goal with |- same_topology d (removeTenant _ ?d1) =>
      apply (undone_same t d d1); try done; [intros id Hid; by eapply Hat|..]; cbn; try lia end.
    - unfold tenant_at. cbn. by rewrite lookup_insert_eq.
    - intros u. split; [auto|intros [?|[_ ?]]; done].
    - by apply removeTenant_removed. }
  destruct (sr_reconcile sr t) eqn:Er.
  { cbn [fst snd]. apply added_failed; [done|intros (_ & _ & _ & _ & ?); congruence|].
    match goal with |- same_topology d (removeTenant _ ?d1) =>
      apply (undone_same t d d1); try done; [intros id Hid; by eapply Hat|..]; cbn; try lia end.
    - unfold tenant_at. cbn. by rewrite lookup_insert_eq.
    - intros u. rewrite elem_of_union, elem_of_singleton.
      split; [intros [->|?]; [right; split; [lia|auto]|auto]|intros [?|[_ ?]]; auto].
    - by apply removeTenant_removed. }
  apply added_started; try done; cbn.
  - by split_and!; [rewrite Eenv|..].
  - intros id Hid. by eapply Hat.
  - unfold tenant_at. cbn. by rewrite lookup_insert_eq.
Qed.

(** ** Adding the missing tenants *)

Lemma NoDup_map_eq {A B} (f : A -> B) l x y :
  NoDup (map f l) -> In x l -> In y l -> f x = f y -> x = y.
Proof.
  induction l as [|a l IH]; cbn; [done|]. intros [Ha Hn]%NoDup_cons.
  assert (Hin : forall z, In z l -> f z <> f a).
  { intros z Hz E. apply Ha, list_elem_of_fmap. exists z. split; [done|by apply list_elem_of_In]. }
  intros [->|Hx] [->|Hy] E; [done|symmetry in E; by apply Hin in E|by apply Hin in E|by apply IH].
Qed.

Lemma add_missing_spec sr (L l : list Tenant) fs (d : daemon) :
  valid_snapshot L -> (forall t, In t l -> In t L) -> (forall t, In t L -> no_colon (tn_DBName t)) ->
  topology_ok d -> (forall db t, serves d db t -> In t L) ->
  let '(fs', d') := fold_left (add_one sr) l (fs, d) in
  topology_ok d' /\ (forall db t, serves d' db t -> In t L)
  /\ (forall db t, serves d' db t <->
        serves d db t \/ In t l /\ db = tn_DBName t /\ starts sr t)
  /\ (forall db b, no_colon db -> worker_of d' db b = worker_of d db b)
  /\ (forall w, w ∈ dm_done d -> w ∈ dm_done d')
  /\ (fs' = [] <-> fs = [] /\ forall t, In t l -> serves d (tn_DBName t) t \/ starts sr t).
Proof.
  intros (_ & Hkeys & Hdbs) Hsub Hcol. revert fs d.
  induction l as [|t l IH]; intros fs d Hd HL; cbn [fold_left].
  { split_and!; try done; [intros db t; cbn; tauto|]. split; [by split|by intros [? _]]. }
  assert (HtL : In t L) by (apply Hsub; by left).
  assert (Hsub' : forall x, In x l -> In x L) by (intros x Hx; apply Hsub; by right).
  specialize (IH Hsub'). unfold add_one at 2. destruct (dm_tenants d !! tn_DBName t) as [id|] eqn:Et.
  - assert (Hser : serves d (tn_DBName t) t).
    { destruct (tp_ctx _ Hd _ _ Et) as (_ & _ & t' & Ht' & E).
      assert (Hs : serves d (tn_DBName t) t') by (by exists id).
      assert (t' = t) as ->; [|done]. apply (NoDup_map_eq tn_DBName L); try done. by eapply HL. }
    specialize (IH fs d Hd HL). destruct (fold_left _ l _) as [fs' d'].
    destruct IH as (H1 & H2 & H3 & H4 & H5 & H6). split_and!; try done.
    + intros db t'. rewrite H3. cbn. split; [intros [?|(? & ? & ?)]; auto|].
      intros [?|[[<-|?] [-> ?]]]; auto.
    + rewrite H6. cbn. apply and_iff_compat_l. split; [|auto].
      intros H x [<-|Hx]; [by left|by apply H].
  - assert (Hkey : forall db t', serves d db t' -> tn_TenantKey t' <> tn_TenantKey t).
    { intros db t' Hs E. assert (t' = t) as ->.
      { apply (NoDup_map_eq tn_TenantKey L); try done. by eapply HL. }
      destruct (serves_db _ _ _ Hd Hs) as [<- _]. destruct Hs as (id & Hid & _). congruence. }
    pose proof (addTenant_added sr t d Hd (Hcol t HtL) Et Hkey) as Ha.
    destruct (addTenant sr t d) as [e d1]. cbn [fst snd] in Ha. destruct Ha as [Hok He Hs Hw Hdn].
    assert (HL1 : forall db t', serves d1 db t' -> In t' L)
      by (intros db t' [H|(_ & _ & ->)]%Hs; [by eapply HL|done]).
    assert (Hnot : ~ serves d (tn_DBName t) t) by (intros (id & Hid & _); congruence).
    set (fs1 := match e with Some e0 => fs ++ [start_failure t e0] | None => fs end).
    replace (match e with Some e0 => (fs ++ [start_failure t e0], d1) | None => (fs, d1) end)
      with (fs1, d1) by (by destruct e).
    specialize (IH fs1 d1 Hok HL1). destruct (fold_left _ l _) as [fs' d'].
    destruct IH as (H1 & H2 & H3 & H4 & H5 & H6). split_and!; try done.
    + intros db t'. rewrite H3, Hs. cbn. split.
      * intros [[?|(? & -> & ->)]|(? & -> & ?)]; auto.
      * intros [?|[[<-|?] [-> ?]]]; auto.
    + intros db b Hc. by rewrite H4, Hw.
    + auto.
    + rewrite H6. unfold fs1. cbn. destruct e as [e|].
      * assert (Hns : ~ starts sr t) by (intros H; by apply He in H).
        split; [intros [H _]; by apply app_eq_nil in H as [_ ?]|].
        intros [_ H]. by destruct (H t (or_introl eq_refl)).
      * assert (Hst : starts sr t) by (by apply He). setoid_rewrite Hs.
        apply and_iff_compat_l. split.
        -- intros H x [<-|Hx]; [by right|]. destruct (H x Hx) as [[?|(? & _ & ->)]|?]; auto.
        -- intros H x Hx. destruct (H x (or_intror Hx)); auto.
Qed.

(** ** Branch workers *)

(** [d'] has the workers of [d], and one more for each new key in [keys]. *)
Lemma startBranch_spec id db b (d : daemon) :
  topology_ok d -> dm_tenants d !! db = Some id -> min_int64 <= b <= max_int64 ->
  let d' := startBranch id db b d in
  topology_ok d' /\ (forall db' t, serves d' db' t <-> serves d db' t)
  /\ dm_tenants d' = dm_tenants d /\ (forall i, tenant_at d' i = tenant_at d i)
  /\ (forall w, w ∈ dm_done d' <-> w ∈ dm_done d)
  /\ (forall key w, dm_workers d !! key = Some w -> dm_workers d' !! key = Some w)
  /\ (forall key, is_Some (dm_workers d' !! key) <->
        is_Some (dm_workers d !! key) \/ key = branchKey db b).
Proof.
  intros Hd Hid Hb. cbv zeta. unfold startBranch. rewrite bool_decide_eq_true_2 by done. cbn [negb].
  destruct (dm_workers d !! branchKey db b) as [w|] eqn:Ew.
  { split_and!; try done. intros key. split; [auto|]. intros [?| ->]; [done|]. by rewrite Ew. }
  cbn. split_and!; try done.
  - split; cbn.
    + intros db' i Hi. destruct (tp_ctx _ Hd _ _ Hi) as (? & ? & ?). split_and!; [done|lia|done].
    + apply (tp_keys _ Hd).
    + intros key w [[<- <-]|[_ Hw]]%lookup_insert_Some.
      * split; [lia|]. by exists db, id, b.
      * destruct (tp_workers _ Hd _ _ Hw). split; [lia|done].
    + destruct (tp_old _ Hd) as [H1 H2]. split; intros ? H; [apply H1 in H|apply H2 in H]; lia.
    + apply (tp_subs _ Hd).
    + destruct (tp_sub_ids _ Hd) as [H1 H2]. split; [intros k u H; apply H1 in H; lia|done].
  - intros key w Hw. rewrite lookup_insert_ne; [done|congruence].
  - intros key. destruct (decide (key = branchKey db b)) as [->|Hne].
    + rewrite lookup_insert_eq. split; [auto|by eexists].
    + rewrite lookup_insert_ne by done. tauto.
Qed.

Lemma start_all_spec id db bs (d : daemon) :
  topology_ok d -> dm_tenants d !! db = Some id ->
  Forall (fun b => min_int64 <= b <= max_int64) bs ->
  let d' := fold_left (fun d b => startBranch id db b d) bs d in
  topology_ok d' /\ (forall db' t, serves d' db' t <-> serves d db' t)
  /\ dm_tenants d' = dm_tenants d /\ (forall i, tenant_at d' i = tenant_at d i)
  /\ (forall w, w ∈ dm_done d' <-> w ∈ dm_done d)
  /\ (forall key w, dm_workers d !! key = Some w -> dm_workers d' !! key = Some w)
  /\ (forall key, is_Some (dm_workers d' !! key) <->
        is_Some (dm_workers d !! key) \/ exists b, In b bs /\ key = branchKey db b).
Proof.
  cbv zeta. revert d. induction bs as [|b bs IH]; intros d Hd Hid Hbs; cbn [fold_left].
  { split_and!; try done. intros key. split; [auto|]. intros [?|(? & [] & _)]; done. }
  apply Forall_cons in Hbs as [Hb Hbs].
  destruct (startBranch_spec id db b d Hd Hid Hb) as (H1 & H2 & H3 & H4 & H5 & H6 & H7).
  destruct (IH (startBranch id db b d) H1) as (I1 & I2 & I3 & I4 & I5 & I6 & I7); [by rewrite H3|done|].
  split_and!; try done.
  - intros db' t. by rewrite I2, H2.
  - by rewrite I3.
  - intros i. by rewrite I4.
  - intros w. by rewrite I5, H5.
  - intros key w Hw. by apply I6, H6.
  - intros key. rewrite I7, H7. cbn. split.
    + intros [[?| ->]|(b' & ? & ->)]; [by left|right; by exists b; auto|right; exists b'; auto].
    + intros [?|(b' & [<-|?] & ->)]; [auto|auto|right; by exists b'].
Qed.

(** ** The branches of one tenant, and of all *)

Definition int64 (b : Z) : Prop := min_int64 <= b <= max_int64.

(** Branch identities are [BIGINT] columns. *)
Definition int64_branches (sr : surroundings) : Prop :=
  forall t bs, sr_branches sr t = Ok bs -> Forall int64 bs.

Definition expected_of (d : daemon) (db : string) : option (gset Z) :=
  id ← dm_tenants d !! db; tx_expected <$> dm_ctxs d !! id.

(** What a reconciliation of the branches of [t] changes for its database. *)
Definition branches_done (sr : surroundings) (t : Tenant) (d d' : daemon) : Prop :=
  let db := tn_DBName t in
  match sr_branches sr t with
  | Ok bs =>
      (forall b, int64 b -> is_Some (worker_of d' db b) <-> In b bs)
      /\ (forall b w, In b bs -> worker_of d db b = Some w -> worker_of d' db b = Some w)
      /\ expected_of d' db = Some (list_to_set bs)
  | Err _ => forall b, worker_of d' db b = worker_of d db b
  end.

(** What it leaves alone for a database [db]. *)
Definition db_same (d d' : daemon) (db : string) : Prop :=
  (forall b, worker_of d' db b = worker_of d db b) /\ expected_of d' db = expected_of d db.

Record branch_frame (d d' : daemon) : Prop := {
  bf_ok : topology_ok d';
  bf_tenants : dm_tenants d' = dm_tenants d;
  bf_ctxs : forall id, tenant_at d' id = tenant_at d id;
  bf_done : forall w, w ∈ dm_done d -> w ∈ dm_done d'
}.

Lemma start_all_ctxs id db bs (d : daemon) :
  dm_ctxs (fold_left (fun d b => startBranch id db b d) bs d) = dm_ctxs d.
Proof.
  revert d. induction bs as [|b bs IH]; intros d; cbn [fold_left]; [done|]. rewrite IH.
  unfold startBranch. by repeat case_match.
Qed.

Lemma existsb_Zeqb b bs : existsb (Z.eqb b) bs = true <-> In b bs.
Proof.
  rewrite existsb_exists. split; [by intros (x & ? & ->%Z.eqb_eq)|].
  intros H. exists b. by rewrite Z.eqb_refl.
Qed.

Lemma stop_workers_ok db pick (d : daemon) :
  topology_ok d -> topology_ok (stop_workers db pick d).
Proof.
  intros Hd. destruct (stop_workers_spec db pick d) as (N & C & T & S & U & W & D).
  assert (Hs : forall db' t, serves (stop_workers db pick d) db' t <-> serves d db' t)
    by (intros db' t; unfold serves, tenant_at; by rewrite T, C).
  split.
  - unfold tenant_at. rewrite T, N, C. apply (tp_ctx _ Hd).
  - intros db1 db2 t1 t2. rewrite !Hs. apply (tp_keys _ Hd).
  - intros key w. rewrite W, N, T. destruct (pick key); [done|]. apply (tp_workers _ Hd).
  - rewrite N, U. destruct (tp_old _ Hd) as [H1 H2]. split; [|done].
    intros w [?|(key & _ & Hw)]%D; [auto|]. by apply (tp_workers _ Hd) in Hw as [? _].
  - intros db' t. rewrite Hs. unfold sub_ok, sub_valid. rewrite S, U. apply (tp_subs _ Hd).
  - rewrite S, N. apply (tp_sub_ids _ Hd).
Qed.

(** Changing the expected branches of a context and the caches changes no tenant. *)
Lemma expected_ok id f g (d : daemon) :
  (forall c, tx_tenant (f c) = tx_tenant c) -> topology_ok d ->
  topology_ok (set_caches g (set_ctx id f d))
  /\ forall i, tenant_at (set_caches g (set_ctx id f d)) i = tenant_at d i.
Proof.
  intros Hf Hd.
  assert (Hat : forall i, tenant_at (set_caches g (set_ctx id f d)) i = tenant_at d i).
  { intros i. unfold tenant_at. cbn. destruct (decide (i = id)) as [->|Hne].
    - rewrite lookup_alter_eq. destruct (dm_ctxs d !! id); cbn; [by rewrite Hf|done].
    - by rewrite lookup_alter_ne. }
  assert (Hs : forall db t, serves (set_caches g (set_ctx id f d)) db t <-> serves d db t)
    by (intros db t; unfold serves; by setoid_rewrite Hat).
  split; [|done]. split.
  - intros db i. rewrite Hat. apply (tp_ctx _ Hd).
  - intros db1 db2 t1 t2. rewrite !Hs. apply (tp_keys _ Hd).
  - apply (tp_workers _ Hd).
  - apply (tp_old _ Hd).
  - intros db t. rewrite Hs. apply (tp_subs _ Hd).
  - apply (tp_sub_ids _ Hd).
Qed.

Lemma reconcileBranches_spec sr id t (d : daemon) :
  int64_branches sr -> topology_ok d -> dm_tenants d !! tn_DBName t = Some id ->
  tenant_at d id = Some t ->
  let '(e, d') := reconcileBranches sr id t d in
  branch_frame d d' /\ branches_done sr t d d'
  /\ (forall db, no_colon db -> db <> tn_DBName t -> db_same d d' db)
  /\ (e = None <-> is_ok (sr_branches sr t) = true).
Proof.
  intros H64 Hd Hid Ht. unfold reconcileBranches, branches_done.
  destruct (sr_branches sr t) as [bs|e] eqn:Eb; [|by split_and!].
  set (db := tn_DBName t) in *. pose proof (H64 t bs Eb) as Hbs.
  assert (Hc : no_colon db) by apply (tp_ctx _ Hd _ _ Hid).
  destruct (start_all_spec id db bs d Hd Hid Hbs) as (O1 & S1 & T1 & C1 & D1 & K1 & W1).
  pose proof (start_all_ctxs id db bs d) as X1.
  set (d1 := fold_left _ bs d) in *.
  destruct (expected_ok id (set_expected bs) (delete db) d1 ltac:(done) O1) as [O2 C2].
  set (d2 := set_caches _ (set_ctx id _ d1)) in *.
  set (pick := fun key => has_db_prefix db key && negb (existsb (Z.eqb (branchIDFromKey key)) bs)).
  destruct (stop_workers_spec db pick d2) as (N3 & C3 & T3 & _ & _ & W3 & D3).
  pose proof (stop_workers_ok db pick d2 O2) as O3.
  set (d3 := stop_workers db pick d2) in *.
  assert (Hpick : forall db' b, no_colon db' -> int64 b ->
            pick (branchKey db' b) = bool_decide (db' = db) && negb (existsb (Z.eqb b) bs))
    by (intros db' b H1 H2; unfold pick; by rewrite has_db_prefix_key, branchIDFromKey_key).
  assert (Hexp : forall db', db' <> db -> expected_of d3 db' = expected_of d db').
  { intros db' Hne. unfold expected_of. rewrite T3, C3. change (dm_tenants d2) with (dm_tenants d1).
    change (dm_ctxs d2) with (alter (set_expected bs) id (dm_ctxs d1)).
    rewrite T1, X1. destruct (dm_tenants d !! db') as [id'|] eqn:Hid'; [|done].
    cbn [mbind option_bind]. rewrite lookup_alter_ne; [done|]. intros ->.
    destruct (tp_ctx _ Hd _ _ Hid') as (_ & _ & t' & Ht' & E). rewrite Ht in Ht'. by simplify_eq. }
  split; [|split; [|split]].
  - split; [done| | |].
    + rewrite T3. apply T1.
    + intros i. unfold tenant_at. rewrite C3. etransitivity; [apply C2|]. by rewrite C1.
    + intros w Hw. apply D3. left. by apply D1.
  - cbv beta iota zeta. split_and!.
    + intros b Hb. unfold worker_of. rewrite W3, Hpick, bool_decide_eq_true_2 by done. cbn [andb].
      destruct (existsb (Z.eqb b) bs) eqn:E; cbn [negb].
      * apply existsb_Zeqb in E. split; [done|]. intros _. apply W1. right. by exists b.
      * split; [by intros [? ?]|]. intros H%existsb_Zeqb. congruence.
    + intros b w Hin Hw. unfold worker_of in *.
      assert (int64 b) by (apply (proj1 (Forall_forall _ _) Hbs); by apply list_elem_of_In).
      rewrite W3, Hpick, (proj2 (existsb_Zeqb b bs)), andb_false_r by done. by apply K1.
    + unfold expected_of. rewrite T3, C3. change (dm_tenants d2) with (dm_tenants d1).
      change (dm_ctxs d2) with (alter (set_expected bs) id (dm_ctxs d1)).
      rewrite T1, X1, Hid. cbn [mbind option_bind]. rewrite lookup_alter_eq. unfold tenant_at in Ht.
      by destruct (dm_ctxs d !! id).
  - intros db' Hc' Hne. split; [|by apply Hexp]. intros b. unfold worker_of. rewrite W3.
    unfold pick. rewrite has_db_prefix_key, bool_decide_eq_false_2 by done. cbn.
    destruct (dm_workers d !! branchKey db' b) as [w|] eqn:Ew; [by apply K1|].
    destruct (dm_workers d1 !! branchKey db' b) as [w|] eqn:Ew1; [|done].
    assert (Hs : is_Some (dm_workers d1 !! branchKey db' b)) by by eexists.
    apply W1 in Hs as [[? Hs]|(b' & _ & [? _]%branchKey_inj)]; [congruence|done].
  - done.
Qed.

(** ** All tenants *)

Lemma db_same_trans (d d1 d2 : daemon) db : db_same d d1 db -> db_same d1 d2 db -> db_same d d2 db.
Proof. intros [H1 H2] [H3 H4]. split; [intros b; by rewrite H3, H1|congruence]. Qed.

Lemma branches_done_after sr t (d d1 d2 : daemon) :
  branches_done sr t d d1 -> db_same d1 d2 (tn_DBName t) -> branches_done sr t d d2.
Proof.
  intros H [Hw He]. unfold branches_done in *. cbv zeta in *.
  destruct (sr_branches sr t); rewrite ?He; setoid_rewrite Hw; exact H.
Qed.

Lemma branches_done_before sr t (d d1 d2 : daemon) :
  db_same d d1 (tn_DBName t) -> branches_done sr t d1 d2 -> branches_done sr t d d2.
Proof.
  intros [Hw He] H. unfold branches_done in *. cbv zeta in *.
  destruct (sr_branches sr t); rewrite <- ?He; setoid_rewrite <- Hw; exact H.
Qed.

Lemma reconcile_all_spec sr snap fs (d : daemon) :
  int64_branches sr -> topology_ok d -> NoDup (map fst snap) ->
  (forall db id, (db, id) ∈ snap -> dm_tenants d !! db = Some id) ->
  let '(fs', d') := reconcile_all_branches sr snap (fs, d) in
  branch_frame d d'
  /\ (forall db id t, (db, id) ∈ snap -> tenant_at d id = Some t -> branches_done sr t d d')
  /\ (forall db, no_colon db -> (forall id, (db, id) ∉ snap) -> db_same d d' db)
  /\ (fs' = [] <-> fs = [] /\ forall db id t, (db, id) ∈ snap -> tenant_at d id = Some t ->
                   is_ok (sr_branches sr t) = true).
Proof.
  intros H64. unfold reconcile_all_branches. revert fs d.
  induction snap as [|[db0 id0] snap IH]; intros fs d Hd Hn Hs; cbn [fold_left].
  { split_and!; try done; [by intros db id t ?%elem_of_nil|].
    split; [intros ->; split; [done|by intros db id t ?%elem_of_nil]|by intros [? _]]. }
  cbn in Hn. apply NoDup_cons in Hn as [Hdb0 Hn].
  assert (Hid0 : dm_tenants d !! db0 = Some id0) by (apply Hs; left).
  destruct (tp_ctx _ Hd _ _ Hid0) as (Hc0 & _ & t0 & Ht0 & E0).
  unfold reconcile_one at 2. cbn [snd]. pose proof Ht0 as Hctx. unfold tenant_at in Hctx.
  destruct (dm_ctxs d !! id0) as [c|]; [|done]. injection Hctx as Ec. rewrite Ec.
  pose proof (reconcileBranches_spec sr id0 t0 d H64 Hd ltac:(by rewrite E0) Ht0) as Hb.
  destruct (reconcileBranches sr id0 t0 d) as [e d1]. destruct Hb as (F1 & B1 & O1 & R1).
  set (fs1 := match e with Some e0 => fs ++ [branch_failure t0 e0] | None => fs end).
  replace (match e with Some e0 => (fs ++ [branch_failure t0 e0], d1) | None => (fs, d1) end)
    with (fs1, d1) by (by destruct e).
  assert (Hs1 : forall db id, (db, id) ∈ snap -> dm_tenants d1 !! db = Some id)
    by (intros db id H; rewrite (bf_tenants _ _ F1); apply Hs; by right).
  specialize (IH fs1 d1 (bf_ok _ _ F1) Hn Hs1). destruct (fold_left _ snap _) as [fs' d'].
  destruct IH as (F2 & B2 & O2 & R2). setoid_rewrite (bf_ctxs _ _ F1) in B2.
  setoid_rewrite (bf_ctxs _ _ F1) in R2.
  assert (Hfresh : forall id, (db0, id) ∉ snap)
    by (intros id H; apply Hdb0, list_elem_of_fmap; by exists (db0, id)).
  split_and!.
  - split; [apply F2| | |].
    + by rewrite (bf_tenants _ _ F2), (bf_tenants _ _ F1).
    + intros i. by rewrite (bf_ctxs _ _ F2), (bf_ctxs _ _ F1).
    + intros w Hw. by apply (bf_done _ _ F2), (bf_done _ _ F1).
  - intros db id t [E|Hin]%elem_of_cons Ht.
    + injection E as -> ->. rewrite Ht0 in Ht. injection Ht as <-.
      eapply branches_done_after; [exact B1|]. apply O2; by rewrite E0.
    + eapply branches_done_before; [|by eapply B2].
      assert (Hid : dm_tenants d !! db = Some id) by (apply Hs; by right).
      destruct (tp_ctx _ Hd _ _ Hid) as (Hc & _ & t' & Ht' & E'). rewrite Ht in Ht'. injection Ht' as <-.
      apply O1; rewrite E'; [done|]. intros E. rewrite E0 in E. rewrite E in Hin. by apply (Hfresh id).
  - intros db Hc Hnot. eapply db_same_trans; [apply O1|apply O2]; try done.
    + intros E. rewrite E, E0 in Hnot. apply (Hnot id0). left.
    + intros id H. apply (Hnot id). by right.
  - rewrite R2. unfold fs1. destruct e as [e|].
    + split; [intros [H _]; by apply app_eq_nil in H as [_ ?]|]. intros [_ H].
      assert (is_ok (sr_branches sr t0) = true) as H'%R1 by (apply (H db0 id0); [left|done]). done.
    + apply and_iff_compat_l. split.
      * intros H db id t [E|Hin]%elem_of_cons Ht; [|by eapply H].
        injection E as -> ->. rewrite Ht0 in Ht. injection Ht as <-. by apply R1.
      * intros H db id t Hin. apply (H db id). by right.
Qed.
End ops.
