(* ===== verification/TopologyThm.v ===== *)
(** * Theorems on the daemon's topology *)

From S2P Require Import Prelude GoStrings Models GoErrors Uuid Message ChainTypes Control Config.
From S2P Require Import Tenant Topology TopologySpec TopologyOps.
Local Open Scope Z_scope.

Section theorems.
Context {entry : Type}.
Local Abbreviation daemon := (daemon entry).

Lemma by_db_lookup l k t : NoDup (map tn_DBName l) ->
  by_db l !! k = Some t <-> In t l /\ tn_DBName t = k.
Proof. apply fold_keyed_lookup. Qed.

(** The context of a served tenant is one of the snapshot of the map. *)
Lemma snapshot_served (order : list (string * nat) -> list (string * nat)) (d : daemon) db id :
  (forall l, order l ≡ₚ l) ->
  (db, id) ∈ order (map_to_list (dm_tenants d)) <-> dm_tenants d !! db = Some id.
Proof. intros Ho. rewrite (Ho _). apply elem_of_map_to_list. Qed.

Lemma snapshot_NoDup (order : list (string * nat) -> list (string * nat)) (d : daemon) :
  (forall l, order l ≡ₚ l) -> NoDup (map fst (order (map_to_list (dm_tenants d)))).
Proof.
  intros Ho. assert (map fst (order (map_to_list (dm_tenants d))) ≡ₚ (map_to_list (dm_tenants d)).*1)
    as -> by (by rewrite (Ho _)). apply NoDup_fst_map_to_list.
Qed.

(** The body of a reconciliation with a valid registry snapshot [L]. *)
(** The first loop leaves exactly the served tenants that the snapshot still has. *)
Lemma outdated_spec order (d : daemon) L : (forall l, order l ≡ₚ l) -> topology_ok d -> valid_snapshot L ->
  let d1 := remove_outdated (by_db L) (order (map_to_list (dm_tenants d))) d in
  topology_ok d1
  /\ (forall db t, serves d1 db t <-> serves d db t /\ In t L)
  /\ (forall db t, serves d1 db t -> forall b, worker_of d1 db b = worker_of d db b)
  /\ (forall w, w ∈ dm_done d -> w ∈ dm_done d1).
Proof.
  intros Ho Hd HL d1.
  destruct (remove_outdated_spec (by_db L) (order (map_to_list (dm_tenants d))) d Hd) as (H1 & S1 & W1 & D1).
  { intros db id Hin. apply (snapshot_served order d db id Ho) in Hin.
    destruct (tp_ctx _ Hd _ _ Hin) as (? & _ & t & ? & _). by split; [|exists t]. }
  fold d1 in H1, S1, W1, D1.
  split_and!; [done| | |done].
  - intros db t. rewrite S1. split.
    + intros [(id & Hid & Ht) H]. split; [by exists id|].
      assert (Hdes : by_db L !! db = Some t)
        by (apply (H id); [by apply (snapshot_served order d db id Ho)|done]).
      apply by_db_lookup in Hdes; [tauto|apply HL].
    + intros [Hser Hin]. split; [done|]. intros id t0 Hid Ht0.
      apply (snapshot_served order d db id Ho) in Hid.
      assert (t0 = t) as -> by (apply (serves_fun d db); [by exists id|done]).
      apply by_db_lookup; [apply HL|]. split; [done|]. by apply (serves_db _ _ _ Hd).
  - intros db t Hs b. by apply W1 with t.
Qed.

Lemma reconcile_body_spec order sr (d : daemon) L :
  (forall l, order l ≡ₚ l) -> int64_branches sr -> topology_ok d ->
  sr_rows sr = Ok L -> valid_snapshot L -> (forall t, In t L -> no_colon (tn_DBName t)) ->
  let '(e, d') := reconcile_body order sr d in
  topology_ok d'
  /\ (forall db t, serves d' db t <->
        In t L /\ db = tn_DBName t /\ (serves d db t \/ starts sr t))
  /\ (forall t, serves d' (tn_DBName t) t ->
        (serves d (tn_DBName t) t -> branches_done sr t d d')
        /\ exists d2 : daemon, branches_done sr t d2 d')
  /\ (forall w, w ∈ dm_done d -> w ∈ dm_done d')
  /\ (e = None <-> forall t, In t L ->
        (serves d (tn_DBName t) t \/ starts sr t) /\ is_ok (sr_branches sr t) = true).
Proof.
  intros Ho H64 Hd Hrows HL Hcol. unfold reconcile_body, LoadAllContext.
  rewrite Hrows, (proj2 (ValidateAll_None L) HL).
  unfold Registry_Reconcile. rewrite (proj2 (ValidateAll_None L) HL).
  set (d0 := set_registry _ d).
  assert (H0 : topology_ok d0) by (destruct Hd; by split).
  assert (Hserved : forall db t, serves d db t -> tn_DBName t = db /\ no_colon db)
    by (intros db t; apply (serves_db _ _ _ Hd)).
  destruct (outdated_spec order d0 L Ho H0 HL) as (H1 & S1' & W1 & D1).
  set (d1 := remove_outdated _ _ d0) in *.
  pose proof (add_missing_spec sr L L [] d1 HL ltac:(done) Hcol H1 ltac:(by intros db t [_ ?]%S1')) as Ha.
  unfold add_missing. destruct (fold_left (add_one sr) L ([], d1)) as [fs2 d2].
  destruct Ha as (H2 & HL2 & S2 & W2 & D2 & F2).
  pose proof (reconcile_all_spec sr (order (map_to_list (dm_tenants d2))) fs2 d2 H64 H2
    (snapshot_NoDup order d2 Ho) ltac:(by intros db id ?%(snapshot_served order d2 db id Ho))) as Hb.
  destruct (reconcile_all_branches sr _ (fs2, d2)) as [fs3 d3].
  destruct Hb as (F3 & B3 & O3 & E3).
  assert (S3 : forall db t, serves d3 db t <-> serves d2 db t).
  { intros db t. unfold serves. rewrite (bf_tenants _ _ F3). by setoid_rewrite (bf_ctxs _ _ F3). }
  assert (S : forall db t, serves d3 db t <->
            In t L /\ db = tn_DBName t /\ (serves d db t \/ starts sr t)).
  { intros db t. rewrite S3, S2, S1'. split.
    - intros [[Hs ?]|(? & -> & ?)]; [|auto]. destruct (Hserved _ _ Hs) as [<- _]. auto.
    - intros (? & -> & [?|?]); auto. }
  split_and!; [apply F3|done| | |].
  - intros t Ht. apply S3 in Ht as (id & Hid & Ht).
    assert (Hdone : branches_done sr t d2 d3)
      by (eapply B3; [by apply (snapshot_served order d2 _ id Ho)|done]).
    split; [|by exists d2]. intros Hser. destruct (Hserved _ _ Hser) as [_ Hc].
    assert (Hin : In t L) by (apply (HL2 (tn_DBName t)); by exists id).
    assert (Hser1 : serves d1 (tn_DBName t) t) by by apply S1'.
    assert (Hw : forall b, worker_of d2 (tn_DBName t) b = worker_of d (tn_DBName t) b)
      by (intros b; rewrite W2 by done; by apply W1 with t).
    unfold branches_done in *. cbv zeta in *. destruct (sr_branches sr t) as [bs|e]; [|].
    + destruct Hdone as (A1 & A2 & A3). split_and!; try done. intros b w Hb Hold.
      apply A2; [done|]. by rewrite Hw.
    + intros b. by rewrite Hdone, Hw.
  - intros w Hw. by apply (bf_done _ _ F3), D2, D1.
  - unfold join_failures. transitivity (fs3 = []); [by destruct fs3|]. rewrite E3, F2.
    split.
    + intros [[_ Hst] Hok] t Hin.
      assert (Hs2 : serves d1 (tn_DBName t) t \/ starts sr t) by by apply Hst. split.
      * destruct Hs2 as [[? _]%S1'|?]; auto.
      * assert (serves d2 (tn_DBName t) t) as (id & Hid & Ht)
          by (apply S2; destruct Hs2; auto).
        eapply Hok; [by apply (snapshot_served order d2 _ id Ho)|done].
    + intros H. split; [split; [done|]|].
      * intros t Hin. destruct (H t Hin) as [[?|?] _]; [left; by apply S1'|by right].
      * intros db id t Hin Ht. apply (snapshot_served order d2 db id Ho) in Hin.
        apply H. apply (HL2 db). by exists id.
Qed.

Lemma set_last_view e (d : daemon) :
  (topology_ok d -> topology_ok (set_last e d))
  /\ (forall db t, serves (set_last e d) db t <-> serves d db t)
  /\ (forall db b, worker_of (set_last e d) db b = worker_of d db b)
  /\ (forall db, expected_of (set_last e d) db = expected_of d db).
Proof. split_and!; try done. intros []. by split. Qed.

(** C32: A reconciliation converges to the registry. From any consistent state, when the registry
    snapshot is valid and no database name contains a colon, afterwards exactly those tenants of
    the snapshot are served that were already served unchanged or that start; for each of them
    whose branches can be read, exactly the active branches have workers and are expected, and a
    branch that stays active keeps its running worker; the state is consistent again; a tenant
    that fails hinders no other; and the result is nil exactly when every tenant is served and
    its branches were read. *)
Theorem reconcile_converges order sr (d : daemon) L :
  (forall l, order l ≡ₚ l) -> int64_branches sr -> topology_ok d ->
  sr_rows sr = Ok L -> valid_snapshot L -> (forall t, In t L -> no_colon (tn_DBName t)) ->
  let '(e, d') := reconcile order sr d in
  topology_ok d'
  /\ (forall db t, serves d' db t <->
        In t L /\ db = tn_DBName t /\ (serves d db t \/ starts sr t))
  /\ (forall t bs, serves d' (tn_DBName t) t -> sr_branches sr t = Ok bs ->
        (forall b, int64 b -> is_Some (worker_of d' (tn_DBName t) b) <-> In b bs)
        /\ expected_of d' (tn_DBName t) = Some (list_to_set bs)
        /\ (serves d (tn_DBName t) t -> forall b w, In b bs ->
            worker_of d (tn_DBName t) b = Some w -> worker_of d' (tn_DBName t) b = Some w))
  /\ (e = None <-> forall t, In t L ->
        (serves d (tn_DBName t) t \/ starts sr t) /\ is_ok (sr_branches sr t) = true)
  /\ dm_last d' = Some e.
Proof.
  intros Ho H64 Hd Hrows HL Hcol. unfold reconcile.
  pose proof (reconcile_body_spec order sr d L Ho H64 Hd Hrows HL Hcol) as H.
  destruct (reconcile_body order sr d) as [e d']. destruct H as (H1 & H2 & H3 & _ & H5).
  destruct (set_last_view e d') as (V1 & V2 & V3 & V4).
  split_and!; [auto|intros db t; rewrite V2; apply H2| |done|done].
  intros t bs Ht Hbs. apply V2 in Ht. destruct (H3 t Ht) as [Hold [d2 Hd2]].
  unfold branches_done in *. rewrite Hbs in *. cbv zeta in *. setoid_rewrite V3. rewrite V4.
  destruct Hd2 as (A1 & _ & A3). split_and!; [done|done|]. intros Hser. by apply Hold.
Qed.

(** ** Readiness *)

Lemma concat_nil {A} (l : list (list A)) : concat l = [] <-> forall x, In x l -> x = [].
Proof.
  induction l as [|a l IH]; cbn; [tauto|]. split.
  - intros [-> H]%app_eq_nil x [<-|Hx]; [done|]. by apply IH.
  - intros H. rewrite (H a) by auto. apply IH. auto.
Qed.

Definition consumer_ok (consumer : option (string -> Z -> option error)) (db : string) (b : Z) : Prop :=
  exists info, consumer = Some info /\ info db b = None.

Lemma branch_missing_nil consumer (d : daemon) db b :
  branch_missing consumer d db b = []
  <-> worker_live d (branchKey db b) = true /\ consumer_ok consumer db b.
Proof.
  unfold branch_missing, consumer_ok.
  destruct (worker_live d (branchKey db b)); cbn [negb]; [|by split; [|intros [? _]]].
  destruct consumer as [info|]; [|split; [done|by intros (_ & ? & ? & _)]].
  destruct (info db b) eqn:E; [split; [done|]|split; [|done]].
  - intros (_ & info' & ? & ?). by simplify_eq.
  - intros _. split; [done|]. by exists info.
Qed.

(** Readiness is exact: checkReadiness reports healthy exactly when the last reconciliation
    succeeded and every tenant served has both its responders subscribed, a running worker for
    every expected branch and a JetStream consumer that can be read for it. *)
Theorem readiness_exact order consumer (d : daemon) :
  (forall l, order l ≡ₚ l) -> topology_ok d ->
  checkReadiness order consumer d = None <->
  dm_last d = Some None
  /\ forall db t, serves d db t ->
     sub_valid d (onboard_key db) = true /\ sub_valid d (reconcile_key (tn_TenantKey t)) = true
     /\ forall bs b, expected_of d db = Some bs -> b ∈ bs ->
        worker_live d (branchKey db b) = true /\ consumer_ok consumer db b.
Proof.
  intros Ho Hd. unfold checkReadiness.
  destruct (dm_last d) as [[e|]|]; [by split; [|intros [? _]]| |by split; [|intros [? _]]].
  set (missing := concat _).
  transitivity (missing = []); [by destruct missing|]. unfold missing. rewrite concat_nil.
  assert (Hnil : forall c db, tn_DBName (tx_tenant c) = db ->
    tenant_missing consumer d c = [] <->
    sub_valid d (onboard_key db) = true /\ sub_valid d (reconcile_key (tn_TenantKey (tx_tenant c))) = true
    /\ forall b, b ∈ tx_expected c -> worker_live d (branchKey db b) = true /\ consumer_ok consumer db b).
  { intros c db <-. unfold tenant_missing.
    destruct (sub_valid d (onboard_key _)); cbn [app]; [|by split; [|intros [? _]]].
    destruct (sub_valid d (reconcile_key _)); cbn [app]; [|by split; [|intros (_ & ? & _)]].
    rewrite concat_nil. split.
    - intros H. split_and!; try done. intros b Hb. apply branch_missing_nil, H, in_map_iff.
      exists b. split; [done|]. by apply list_elem_of_In, elem_of_elements.
    - intros (_ & _ & H) x (b & <- & Hb)%in_map_iff. apply branch_missing_nil, H.
      by apply elem_of_elements, list_elem_of_In. }
  split.
  - intros H. split; [done|]. intros db t (id & Hid & Ht).
    destruct (tp_ctx _ Hd _ _ Hid) as (_ & _ & t' & Ht' & E). rewrite Ht in Ht'. injection Ht' as <-.
    unfold tenant_at in Ht. destruct (dm_ctxs d !! id) as [c|] eqn:Ec; [|done]. injection Ht as Ht.
    rewrite <- Ht in E |- *. unfold expected_of. rewrite Hid. cbn. rewrite Ec. cbn.
    destruct (proj1 (Hnil c db E)) as (G1 & G2 & G3).
    + apply H, in_map_iff. exists (db, id). cbn. rewrite Ec. split; [done|].
      by apply list_elem_of_In, snapshot_served.
    + split_and!; try done. intros bs b [= <-]. apply G3.
  - intros [_ H] x ([db id] & <- & Hin)%in_map_iff.
    apply list_elem_of_In in Hin. apply (snapshot_served order d db id Ho) in Hin as Hid.
    destruct (tp_ctx _ Hd _ _ Hid) as (_ & _ & t & Ht & E).
    destruct (H db t) as (G1 & G2 & G3); [by exists id|].
    unfold tenant_at in Ht. unfold expected_of in G3. rewrite Hid in G3. cbn in G3.
    destruct (dm_ctxs d !! id) as [c|]; [|done]. injection Ht as <-.
    apply (Hnil c db E). split_and!; try done. intros b Hb. by apply (G3 _ b eq_refl).
Qed.

(** A worker that ended by itself, for example because its subscription failed, is not started
    again: as long as its tenant is unchanged and its branch active, a reconciliation keeps the
    ended worker in its place, reports success when all else succeeds, and readiness stays
    unhealthy. *)
Theorem dead_worker_stays order sr (d : daemon) L t bs b w :
  (forall l, order l ≡ₚ l) -> int64_branches sr -> topology_ok d ->
  sr_rows sr = Ok L -> valid_snapshot L -> (forall t, In t L -> no_colon (tn_DBName t)) ->
  In t L -> serves d (tn_DBName t) t -> sr_branches sr t = Ok bs -> In b bs ->
  worker_of d (tn_DBName t) b = Some w -> w ∈ dm_done d ->
  let '(e, d') := reconcile order sr d in
  worker_of d' (tn_DBName t) b = Some w /\ w ∈ dm_done d'
  /\ forall consumer, checkReadiness order consumer d' <> None.
Proof.
  intros Ho H64 Hd Hrows HL Hcol Hin Hser Hbs Hb Hw Hdone. unfold reconcile.
  pose proof (reconcile_body_spec order sr d L Ho H64 Hd Hrows HL Hcol) as H.
  destruct (reconcile_body order sr d) as [e d']. destruct H as (H1 & H2 & H3 & H4 & _).
  assert (Hser' : serves d' (tn_DBName t) t) by (apply H2; auto).
  destruct (H3 t Hser') as [Hold _]. specialize (Hold Hser).
  unfold branches_done in Hold. rewrite Hbs in Hold. destruct Hold as (_ & A2 & A3).
  split_and!; [by apply A2|by apply H4|]. intros consumer Hready.
  unfold checkReadiness in Hready. cbn [dm_last set_last] in Hready. destruct e as [e|]; [done|].
  assert (Hok : checkReadiness order consumer (set_last None d') = None) by exact Hready.
  clear Hready. revert Hok. unfold checkReadiness. cbn [dm_last set_last].
  set (missing := concat _). intros Hok.
  assert (Hmiss : missing = []) by (by destruct missing). clear Hok.
  unfold missing in Hmiss. rewrite concat_nil in Hmiss.
  destruct Hser' as (id & Hid & Ht). unfold tenant_at in Ht.
  destruct (dm_ctxs d' !! id) as [c|] eqn:Ec; [|done]. injection Ht as Ht.
  specialize (Hmiss (tenant_missing consumer (set_last None d') c)).
  assert (tenant_missing consumer (set_last None d') c = []) as Hm.
  { apply Hmiss, in_map_iff. exists (tn_DBName t, id). cbn. rewrite Ec. split; [done|].
    by apply list_elem_of_In, (snapshot_served order d'). }
  unfold tenant_missing in Hm. apply app_eq_nil in Hm as [_ Hm]. apply app_eq_nil in Hm as [_ Hm].
  rewrite concat_nil in Hm. specialize (Hm (branch_missing consumer (set_last None d') (tn_DBName t) b)).
  assert (branch_missing consumer (set_last None d') (tn_DBName t) b = []) as Hbm.
  { apply Hm, in_map_iff. exists b. rewrite Ht. split; [done|].
    apply list_elem_of_In, elem_of_elements.
    unfold expected_of in A3. rewrite Hid in A3. cbn in A3. rewrite Ec in A3. injection A3 as ->.
    by apply elem_of_list_to_set, list_elem_of_In. }
  apply branch_missing_nil in Hbm as [Hlive _]. unfold worker_live in Hlive.
  change (dm_workers (set_last None d')) with (dm_workers d') in Hlive.
  unfold worker_of in A2. rewrite (A2 b w Hb Hw) in Hlive.
  apply bool_decide_eq_true in Hlive. apply Hlive. by apply H4.
Qed.
End theorems.

(** ** Concrete states *)

(** Surroundings in which everything works and every tenant has the branches [bs]. *)
Definition calm (L : list Tenant) (bs : list Z) : surroundings :=
  mkSurroundings (Ok L) (fun _ => None) (fun _ => true) (fun _ => None) (fun _ => None)
    (fun _ => None) (fun _ => Ok bs).

Definition same_order (l : list (string * nat)) : list (string * nat) := l.

Definition acme : Tenant := mkTenant 1 "acme" "Acme" "acme_db" "sandbox" "".
Definition globex : Tenant := mkTenant 2 "globex" "Globex" "globex_db" "simulation" "".

(** The daemon after its first reconciliation. *)
Definition started : daemon unit :=
  (reconcile same_order (calm [acme; globex] [7; 8]) newDaemonReconciler).2.

Lemma valid_two a b : validIdentityText (tn_TenantKey a) 64 = true ->
  validIdentityText (tn_DBName a) 64 = true -> tn_ZATCAEnv a = Sandbox \/ tn_ZATCAEnv a = Simulation ->
  validIdentityText (tn_TenantKey b) 64 = true -> validIdentityText (tn_DBName b) 64 = true ->
  tn_ZATCAEnv b = Sandbox \/ tn_ZATCAEnv b = Simulation ->
  tn_TenantKey a <> tn_TenantKey b -> tn_DBName a <> tn_DBName b -> valid_snapshot [a; b].
Proof.
  intros. split_and!.
  - apply Forall_cons; split; [|apply Forall_cons; split; [|done]]; unfold valid_tenant; tauto.
  - apply NoDup_cons; split; [cbn; set_solver|apply NoDup_singleton].
  - apply NoDup_cons; split; [cbn; set_solver|apply NoDup_singleton].
Qed.

Lemma two_valid : valid_snapshot [acme; globex].
Proof. apply valid_two; vm_compute; auto; discriminate. Qed.

Lemma two_no_colon t : In t [acme; globex] -> no_colon (tn_DBName t).
Proof. intros [<-|[<-|[]]]; by apply (bool_decide_unpack _). Qed.

Lemma calm_int64 L : int64_branches (calm L [7; 8]).
Proof. intros t bs [= <-]. repeat constructor; vm_compute; discriminate. Qed.

Lemma started_converges :
  let '(e, d') := reconcile same_order (calm [acme; globex] [7; 8]) (newDaemonReconciler (entry := unit)) in
  topology_ok d' /\ e = None.
Proof.
  pose proof (reconcile_body_spec same_order (calm [acme; globex] [7; 8])
    (newDaemonReconciler (entry := unit)) [acme; globex] ltac:(done) (calm_int64 _)
    newDaemonReconciler_ok eq_refl two_valid two_no_colon) as H.
  unfold reconcile. destruct (reconcile_body _ _ _) as [e d'].
  destruct H as (H1 & _ & _ & _ & H5). split; [by apply set_last_view|].
  apply H5. intros t Ht. split; [right|done]. unfold starts.
  destruct Ht as [<-|[<-|[]]]; by vm_compute.
Qed.

Lemma started_ok : topology_ok started.
Proof. unfold started. pose proof started_converges as H. destruct (reconcile _ _ _). apply H. Qed.

Lemma started_serves t : In t [acme; globex] -> serves started (tn_DBName t) t.
Proof. intros [<-|[<-|[]]]; eexists; split; by vm_compute. Qed.

Lemma reconcile_converges_witness :
  let '(e, d') := reconcile same_order (calm [acme; globex] [7; 8]) started in
  e = None /\ is_Some (worker_of d' "acme_db" 7) /\ ~ is_Some (worker_of d' "acme_db" 9).
Proof.
  pose proof (reconcile_converges same_order (calm [acme; globex] [7; 8]) started [acme; globex]
    ltac:(done) (calm_int64 _) started_ok eq_refl two_valid two_no_colon) as H.
  destruct (reconcile same_order _ started) as [e d']. destruct H as (_ & H2 & H3 & H4 & _).
  assert (Hs : serves d' "acme_db" acme)
    by (apply H2; split_and!; [by left|done|left; apply (started_serves acme); by left]).
  destruct (H3 acme [7; 8] Hs eq_refl) as (W & _). split_and!.
  - apply H4. intros t Ht. split; [left; by apply started_serves|done].
  - apply W; [by vm_compute|by left].
  - intros [?|[?|[]]]%W; by vm_compute.
Defined.

Lemma readiness_exact_witness :
  checkReadiness same_order (Some (fun _ _ => None)) started = None
  /\ checkReadiness same_order None started <> None.
Proof.
  split.
  - by vm_compute.
  - rewrite (readiness_exact same_order None started ltac:(done) started_ok).
    intros [_ H]. destruct (H "acme_db" acme) as (_ & _ & Hb); [apply (started_serves acme); by left|].
    destruct (Hb {[7; 8]} 7) as (_ & info & ? & _); [by vm_compute|set_solver|done].
Defined.

Lemma set_done_ok {entry} f (d : daemon entry) :
  topology_ok d -> (forall w, w ∈ f (dm_done d) -> (w < dm_next d)%nat) ->
  topology_ok (set_done f d).
Proof. intros [T1 T2 T3 [T4 T5] T6 T7] H. by split. Qed.

Lemma done_added {entry} w (d : daemon entry) : w ∈ dm_done (set_done (fun s => {[w]} ∪ s) d).
Proof. unfold set_done. cbn [dm_done]. set_solver. Qed.

Lemma set_done_serves {entry} f (d : daemon entry) db t : serves (set_done f d) db t <-> serves d db t.
Proof. done. Qed.

Lemma dead_worker_stays_witness :
  let d := set_done (fun s => {[8%nat]} ∪ s) started in
  let '(e, d') := reconcile same_order (calm [acme; globex] [7; 8]) d in
  e = None /\ worker_of d' "acme_db" 7 = Some 8%nat
  /\ checkReadiness same_order (Some (fun _ _ => None)) d' <> None.
Proof.
  cbv zeta. set (d := set_done _ started).
  assert (Hd : topology_ok d).
  { apply set_done_ok; [apply started_ok|].
    intros w [->%elem_of_singleton|H]%elem_of_union; [|by apply (tp_old _ started_ok)].
    apply Nat.ltb_lt. vm_compute. reflexivity. }
  assert (Hw : 8%nat ∈ dm_done d) by exact (done_added 8 started).
  assert (Hs : serves d "acme_db" acme) by exact (proj2 (set_done_serves _ _ _ _) (started_serves acme (or_introl eq_refl))).
  assert (Hk : worker_of d "acme_db" 7 = Some 8%nat) by (vm_compute; reflexivity).
  pose proof (dead_worker_stays same_order (calm [acme; globex] [7; 8]) d [acme; globex] acme [7; 8] 7 8
    ltac:(done) (calm_int64 _) Hd eq_refl two_valid two_no_colon (or_introl eq_refl)
    Hs eq_refl (or_introl eq_refl) Hk Hw) as H.
  assert (He : (reconcile same_order (calm [acme; globex] [7; 8]) d).1 = None)
    by (vm_compute; reflexivity).
  destruct (reconcile same_order _ d) as [e d']. destruct H as (H1 & _ & H3).
  by split_and!; [|exact H1|apply H3].
Defined.

(** ** A database name with a colon *)

Definition tenant_a : Tenant := mkTenant 1 "one" "One" "a" "sandbox" "".
Definition tenant_ab : Tenant := mkTenant 2 "two" "Two" "a:b" "sandbox" "".

(** Branch 7 of the first, branch 9 of the second. *)
Definition colon_surroundings : surroundings :=
  mkSurroundings (Ok [tenant_a; tenant_ab]) (fun _ => None) (fun _ => true) (fun _ => None)
    (fun _ => None) (fun _ => None)
    (fun t => if String.eqb (tn_DBName t) "a" then Ok [7] else Ok [9]).

(** Database names with a colon break the convergence of the topology. For two tenants that the
    registry accepts, with the databases a and a:b, there is an order of the Go map for which a
    reconciliation reports success and still leaves the second tenant, which is served and whose
    branch 9 is active and expected, without a worker for it: the prefix of the first database
    matches the worker keys of the second. *)
Theorem colon_tenant_loses_worker :
  valid_snapshot [tenant_a; tenant_ab]
  /\ exists order : list (string * nat) -> list (string * nat), (forall l, order l ≡ₚ l)
     /\ let '(e, d) := reconcile order colon_surroundings (newDaemonReconciler (entry := unit)) in
        e = None /\ serves d "a:b" tenant_ab
        /\ sr_branches colon_surroundings tenant_ab = Ok [9]
        /\ expected_of d "a:b" = Some {[9]} /\ worker_of d "a:b" 9 = None.
Proof.
  split; [apply valid_two; vm_compute; auto; discriminate|].
  exists same_order. split; [done|].
  destruct (reconcile _ _ _) as [e d] eqn:E. vm_compute in E. injection E as <- <-.
  split_and!; [done| |done|by vm_compute|by vm_compute].
  eexists; split; by vm_compute.
Qed.
