(* ===== verification/Lifetime.v ===== *)
(** * The life of the reconciler ([loop] and [stop] of [cmd/daemon/reconcile.go])

    What may happen to the daemon's maps between its start and its end: rounds
    of reconciliation, workers started by onboarding, workers that end, service
    lookups, the cancellation and the removal of all tenants. A round, a removal
    and the shutdown run under [reconcileMu], so they are single steps. *)

From S2P Require Import Prelude GoStrings GoText Models GoErrors Uuid Message ChainTypes Control Config.
From S2P Require Import Tenant Topology TopologySpec TopologyOps TopologyThm.
Local Open Scope Z_scope.

Section lifetime.
Context {entry : Type}.
Local Abbreviation daemon := (daemon entry).

(** ** Nothing that ran is forgotten *)

(** Workers and subscriptions that leave the maps have ended. *)
Record accounted (d d' : daemon) : Prop := {
  ac_done : dm_done d ⊆ dm_done d';
  ac_workers : forall key w, dm_workers d !! key = Some w -> dm_workers d' !! key = Some w \/ w ∈ dm_done d';
  ac_unsub : dm_unsubscribed d ⊆ dm_unsubscribed d';
  ac_subs : forall k u, dm_subs d !! k = Some u -> dm_subs d' !! k = Some u \/ u ∈ dm_unsubscribed d'
}.

#[export] Instance accounted_po : PreOrder accounted.
Proof.
  split.
  - intros d. split; auto.
  - intros d1 d2 d3 [A1 A2 A3 A4] [B1 B2 B3 B4]. split; [set_solver| |set_solver|].
    + intros key w [H|H]%A2; [by apply B2|right; by apply B1].
    + intros k u [H|H]%A4; [by apply B4|right; by apply B3].
Qed.

(** Every subscription is a responder of a served tenant. *)
Definition owned (d : daemon) : Prop :=
  forall k u, dm_subs d !! k = Some u ->
  exists db t, serves d db t /\ (k = onboard_key db \/ k = reconcile_key (tn_TenantKey t)).

(** A change that leaves workers, subscriptions and tenants alone. *)
Definition keeps (d d' : daemon) : Prop :=
  dm_workers d' = dm_workers d /\ dm_done d' = dm_done d /\ dm_subs d' = dm_subs d
  /\ dm_unsubscribed d' = dm_unsubscribed d /\ forall db t, serves d db t -> serves d' db t.

Lemma keeps_accounted d d' : keeps d d' -> accounted d d' /\ (owned d -> owned d').
Proof.
  intros (W & D & S & U & T). split.
  - split; rewrite ?D, ?U; [done| |done|]; intros k u H; left; congruence.
  - intros Ho k u. rewrite S. intros (db & t & Ht & Hk)%Ho. exists db, t. auto.
Qed.

Lemma drop_sub_accounted k (d : daemon) : accounted d (drop_sub k d).
Proof.
  unfold drop_sub. destruct (dm_subs d !! k) as [sub|] eqn:E; [|done].
  split; cbn; [done|auto|set_solver|]. intros k' u Hk. destruct (decide (k' = k)) as [->|Hne].
  - right. simplify_eq. set_solver.
  - left. by rewrite lookup_delete_ne.
Qed.

Lemma stop_workers_accounted db pick (d : daemon) : accounted d (stop_workers db pick d).
Proof.
  destruct (stop_workers_spec db pick d) as (_ & _ & _ & S & U & W & D). split.
  - intros w Hw. apply D. by left.
  - intros key w Hw. rewrite W. destruct (pick key) eqn:E; [right|by left]. apply D. right. by exists key.
  - by rewrite U.
  - intros k u. rewrite S. auto.
Qed.

Lemma startBranch_accounted id db b (d : daemon) :
  accounted d (startBranch id db b d) /\ (owned d -> owned (startBranch id db b d)).
Proof.
  unfold startBranch. destruct (negb _); [done|]. destruct (dm_workers d !! _) eqn:E; [done|]. split; [|done].
  split; cbn; auto. intros key w Hw. left. rewrite lookup_insert_ne; [done|congruence].
Qed.

(** Removing a tenant ends its workers and responders. *)
Lemma removeTenant_accounted db (d : daemon) : subs_distinct d ->
  accounted d (removeTenant db d) /\ (owned d -> owned (removeTenant db d)).
Proof.
  intros Hd. split.
  - pose proof (removeTenant_removed db d Hd) as Hr. unfold removeTenant in *.
    set (d0 := match dm_tenants d !! db with Some id => set_ctx id mark_stopping d | None => d end) in *.
    set (d1 := stop_workers db _ _) in *.
    assert (H1 : accounted d d1).
    { etransitivity; [|apply stop_workers_accounted]. unfold d0. destruct (dm_tenants d !! db); split; cbn; auto. }
    destruct (dm_tenants d !! db) as [id|]; [|done].
    destruct (dm_ctxs d1 !! id); repeat (etransitivity; [|apply drop_sub_accounted]); done.
  - intros Ho k u Hk. pose proof (removeTenant_removed db d Hd) as Hr.
    destruct (Ho k u (rm_subs _ _ _ Hr _ _ Hk)) as (db' & t & Ht & Hkey).
    exists db', t. split; [|done]. apply (removed_serves _ _ _ _ _ Hr). split; [|done]. intros ->.
    revert Hk. destruct Ht as (id & Hid & Ht). unfold removeTenant. rewrite Hid. cbv zeta.
    set (d1 := stop_workers db _ _).
    assert (Hctx : dm_ctxs d1 !! id = mark_stopping <$> dm_ctxs d !! id).
    { destruct (stop_workers_spec db (has_db_prefix db)
        (set_caches (delete db) (set_tenants (delete db) (set_ctx id mark_stopping d)))) as (_ & C & _).
      unfold d1. rewrite C. apply lookup_alter_eq. }
    unfold tenant_at in Ht. rewrite Hctx. destruct (dm_ctxs d !! id) as [c|]; [|done]. injection Ht as <-. cbn [fmap option_fmap option_map].
    destruct (drop_sub_spec (reconcile_key (tn_TenantKey (tx_tenant (mark_stopping c)))) (drop_sub (onboard_key db) d1))
      as (_ & _ & _ & _ & _ & S1 & _).
    destruct (drop_sub_spec (onboard_key db) d1) as (_ & _ & _ & _ & _ & S2 & _).
    rewrite S1, S2. rewrite !lookup_delete_Some. intros (N1 & N2 & _). by destruct Hkey as [->| ->].
Qed.

(** ** The operations *)

Lemma ok_distinct (d : daemon) : topology_ok d -> subs_distinct d.
Proof. intros Hd. by destruct (tp_sub_ids _ Hd). Qed.

Lemma addTenant_accounted sr t (d : daemon) :
  topology_ok d -> owned d -> dm_tenants d !! tn_DBName t = None ->
  (forall db t', serves d db t' -> db <> tn_DBName t /\ tn_TenantKey t' <> tn_TenantKey t) ->
  accounted d (addTenant sr t d).2 /\ owned (addTenant sr t d).2.
Proof.
  intros Hd Ho Hn Hfresh. unfold addTenant. destruct (tenant_env t) as [env|e]; [|done].
  destruct (sr_open sr t); [done|]. destruct (sr_preflight sr t); [done|]. cbn zeta.
  set (c := mkTenantState t env (sr_admin sr t) ∅ false).
  set (d1 := set_caches _ (set_tenants _ (alloc_ctx c d))).
  assert (Hserves : forall db t', serves d db t' -> serves d1 db t').
  { intros db t' Ht. pose proof (Hfresh _ _ Ht) as [Hne _]. destruct Ht as (id & Hid & Ht).
    destruct (tp_ctx _ Hd _ _ Hid) as (_ & Hlt & _). exists id. cbn. unfold tenant_at. cbn.
    rewrite lookup_insert_ne by done. split; [done|]. by rewrite lookup_insert_ne by lia. }
  assert (Hnew : serves d1 (tn_DBName t) t).
  { exists (dm_next d). cbn. rewrite lookup_insert_eq. split; [done|]. unfold tenant_at. cbn. by rewrite lookup_insert_eq. }
  assert (Hold : forall k u, dm_subs d !! k = Some u ->
            k <> onboard_key (tn_DBName t) /\ k <> reconcile_key (tn_TenantKey t)).
  { intros k u (db & t' & Ht & [->| ->])%Ho; apply Hfresh in Ht as [H1 H2]; (split; [|]); try done.
    - by intros E%(string_app_inj_l "onboard:").
    - by intros E%(string_app_inj_l "reconcile:"). }
  assert (Hundo : forall d2 : daemon, accounted d d2 -> owned d2 -> dm_subs d2 = dm_subs d ->
            accounted d (removeTenant (tn_DBName t) d2) /\ owned (removeTenant (tn_DBName t) d2)).
  { intros d2 H2 Ho2 Hs2. destruct (removeTenant_accounted (tn_DBName t) d2) as [H3 H4].
    - intros k1 k2 u. rewrite Hs2. apply (tp_sub_ids _ Hd).
    - split; [by etransitivity|auto]. }
  assert (Ho1 : forall f, owned (set_subs (fun s => s) f (bump d1))).
  { intros f k u (db & t' & Ht & Hk)%Ho. exists db, t'. split; [exact (Hserves _ _ Ht)|done]. }
  destruct (sr_onboard sr t).
  { apply Hundo; [split; cbn; auto|apply (Ho1 (fun u => u))|done]. }
  destruct (sr_reconcile sr t).
  { apply Hundo; [split; cbn; auto; set_solver|apply Ho1|done]. }
  cbn [snd]. split.
  - split; cbn; auto. intros k u Hk. left. destruct (Hold _ _ Hk) as [H1 H2]. by rewrite !lookup_insert_ne.
  - intros k u. cbn. intros [[<- _]|[_ [[<- _]|[_ Hk]]%lookup_insert_Some]]%lookup_insert_Some.
    + exists (tn_DBName t), t. split; [exact Hnew|by right].
    + exists (tn_DBName t), t. split; [exact Hnew|by left].
    + apply Ho in Hk as (db & t' & Ht & Hk). exists db, t'. split; [exact (Hserves _ _ Ht)|done].
Qed.

Lemma reconcileBranches_accounted sr id t (d : daemon) :
  accounted d (reconcileBranches sr id t d).2 /\ (owned d -> owned (reconcileBranches sr id t d).2).
Proof.
  unfold reconcileBranches. destruct (sr_branches sr t) as [bs|e]; [|done]. cbn zeta. cbn [snd].
  set (d1 := fold_left _ bs d).
  assert (H1 : accounted d d1 /\ (owned d -> owned d1)).
  { unfold d1. clear. revert d. induction bs as [|b bs IH]; intros d; cbn [fold_left]; [done|].
    destruct (startBranch_accounted id (tn_DBName t) b d) as [A1 A2].
    destruct (IH (startBranch id (tn_DBName t) b d)) as [B1 B2]. split; [by etransitivity|auto]. }
  set (d2 := set_caches _ (set_ctx id _ d1)).
  assert (H2 : accounted d1 d2 /\ (owned d1 -> owned d2)).
  { apply keeps_accounted. split_and!; try done. intros db t' (id' & Hid & Ht). exists id'. split; [done|].
    revert Ht. unfold tenant_at. cbn. destruct (decide (id' = id)) as [->|Hne].
    - rewrite lookup_alter_eq. by destruct (dm_ctxs d1 !! id).
    - by rewrite lookup_alter_ne. }
  destruct H1 as [H1 H1'], H2 as [H2 H2']. split.
  - do 2 (etransitivity; [eassumption|]). apply stop_workers_accounted.
  - intros Ho k u. match goal with |- dm_subs (stop_workers ?db ?pick _) !! _ = _ -> _ =>
      destruct (stop_workers_spec db pick d2) as (_ & C & T & S & _) end.
    rewrite S. intros (db & t' & (id' & Hid & Ht) & Hk)%(H2' (H1' Ho)). exists db, t'. split; [|done].
    exists id'. unfold tenant_at in *. by rewrite T, C.
Qed.

(** ** The loops of a round *)

Lemma fold_accounted {A} (f : daemon -> A -> daemon) (Inv : daemon -> Prop) l d :
  (forall d a, Inv d -> accounted d (f d a) /\ Inv (f d a)) -> Inv d ->
  accounted d (fold_left f l d) /\ Inv (fold_left f l d).
Proof.
  intros Hf. revert d. induction l as [|a l IH]; intros d Hd; cbn [fold_left]; [done|].
  destruct (Hf d a Hd) as [H1 H2]. destruct (IH _ H2) as [H3 H4]. split; [by etransitivity|done].
Qed.

Lemma removal_step db (d : daemon) : subs_distinct d /\ owned d ->
  accounted d (removeTenant db d) /\ subs_distinct (removeTenant db d) /\ owned (removeTenant db d).
Proof.
  intros [Hd Ho]. destruct (removeTenant_accounted db d Hd) as [H1 H2].
  split_and!; [done| |auto]. intros k1 k2 u Hk1 Hk2. pose proof (removeTenant_removed db d Hd) as Hr.
  eapply Hd; by apply (rm_subs _ _ _ Hr).
Qed.

Lemma remove_outdated_accounted desired snap (d : daemon) : topology_ok d -> owned d ->
  accounted d (remove_outdated desired snap d) /\ owned (remove_outdated desired snap d).
Proof.
  intros Hd Ho. destruct (fold_accounted (fun d '(dbName, id) =>
    match dm_ctxs d !! id, desired !! dbName with
    | None, _ => d
    | Some c, None => removeTenant dbName d
    | Some c, Some target =>
        if negb (String.eqb (tn_TenantKey target) (tn_TenantKey (tx_tenant c))) then removeTenant dbName d
        else if negb (bool_decide (tx_tenant c = target)) then removeTenant dbName d else d
    end) (fun d => subs_distinct d /\ owned d) snap d) as [H1 [_ H2]]; [|split; [by apply ok_distinct|done]|by split].
  intros d0 [db id] H0. by repeat (case_match; try by apply removal_step).
Qed.

Lemma add_missing_accounted sr (L l : list Tenant) fs (d : daemon) :
  valid_snapshot L -> (forall t, In t l -> In t L) -> (forall t, In t L -> no_colon (tn_DBName t)) ->
  topology_ok d -> owned d -> (forall db t, serves d db t -> In t L) ->
  let '(_, d') := fold_left (add_one sr) l (fs, d) in accounted d d' /\ owned d'.
Proof.
  intros HL Hsub Hcol. revert fs d. induction l as [|t l IH]; intros fs d Hd Ho Hs; cbn [fold_left]; [done|].
  assert (Hsub' : forall x, In x l -> In x L) by (intros x Hx; apply Hsub; by right).
  unfold add_one at 2. destruct (dm_tenants d !! tn_DBName t) as [id|] eqn:Et; [by apply IH|].
  assert (HtL : In t L) by (apply Hsub; by left).
  assert (Hfresh : forall db t', serves d db t' -> db <> tn_DBName t /\ tn_TenantKey t' <> tn_TenantKey t).
  { intros db t' Ht. assert (Hdb : db <> tn_DBName t) by (intros ->; destruct Ht as (? & ? & _); congruence).
    split; [done|]. intros E. destruct (serves_db _ _ _ Hd Ht) as [E' _]. apply Hdb. rewrite <- E'. f_equal.
    destruct HL as (_ & Hk & _). by eapply (NoDup_map_eq tn_TenantKey L); [..|exact E]; [|eapply Hs|]. }
  destruct (addTenant_accounted sr t d Hd Ho Et Hfresh) as [H1 H2].
  pose proof (addTenant_added sr t d Hd (Hcol _ HtL) Et (fun db t' Ht => proj2 (Hfresh db t' Ht))) as Ha.
  destruct (addTenant sr t d) as [e d1]. cbn [fst snd] in *.
  assert (Hs1 : forall db t', serves d1 db t' -> In t' L).
  { intros db t' [Ht|(_ & _ & ->)]%(ad_serves _ _ _ _ _ Ha); [by eapply Hs|done]. }
  destruct e as [e|]; match goal with |- context [fold_left _ _ (?x, d1)] =>
    pose proof (IH Hsub' x d1 (ad_ok _ _ _ _ _ Ha) H2 Hs1) as H3; destruct (fold_left _ _ _) as [fs' d'] end;
    destruct H3 as [H3 H4]; (split; [by etransitivity|done]).
Qed.

Lemma reconcile_all_accounted sr snap fs (d : daemon) : owned d ->
  let '(_, d') := reconcile_all_branches sr snap (fs, d) in accounted d d' /\ owned d'.
Proof.
  unfold reconcile_all_branches. revert fs d. induction snap as [|[db id] snap IH]; intros fs d Ho; cbn [fold_left]; [done|].
  unfold reconcile_one at 2. cbn [snd]. destruct (dm_ctxs d !! id) as [c|]; [|by apply IH].
  destruct (reconcileBranches_accounted sr id (tx_tenant c) d) as [H1 H2].
  destruct (reconcileBranches sr id (tx_tenant c) d) as [e d1]. cbn [snd] in *.
  destruct e as [e|]; match goal with |- context [fold_left _ _ (?x, d1)] =>
    pose proof (IH x d1 (H2 Ho)) as H3; destruct (fold_left _ _ _) as [fs' d'] end;
    destruct H3 as [H3 H4]; (split; [by etransitivity|done]).
Qed.

(** ** A round *)

(** The snapshots a registry gives: valid, and without a colon in a name. *)
Definition round_ok (sr : surroundings) : Prop :=
  int64_branches sr /\ forall L, sr_rows sr = Ok L -> forall t, In t L -> no_colon (tn_DBName t).

Lemma set_last_tidy e (d : daemon) : accounted d (set_last e d) /\ (topology_ok d -> topology_ok (set_last e d))
  /\ (owned d -> owned (set_last e d)).
Proof. split_and!; [split; cbn; auto|apply set_last_view|done]. Qed.

Lemma reconcile_accounted order sr (d : daemon) :
  (forall l, order l ≡ₚ l) -> round_ok sr -> topology_ok d -> owned d ->
  let d' := (reconcile order sr d).2 in accounted d d' /\ topology_ok d' /\ owned d'.
Proof.
  intros Hord [H64 Hcol] Hd Ho. cbv zeta.
  assert (Hbody : accounted d (reconcile_body order sr d).2 /\ topology_ok (reconcile_body order sr d).2
                  /\ owned (reconcile_body order sr d).2).
  { destruct (sr_rows sr) as [L|e] eqn:Hrows; [|unfold reconcile_body, LoadAllContext; by rewrite Hrows].
    destruct (ValidateAll L) as [e|] eqn:HL.
    { unfold reconcile_body, LoadAllContext. by rewrite Hrows, HL. }
    apply ValidateAll_None in HL. specialize (Hcol L eq_refl).
    pose proof (reconcile_body_spec order sr d L Hord H64 Hd Hrows HL Hcol) as Hspec.
    unfold reconcile_body, LoadAllContext in *. rewrite Hrows, (proj2 (ValidateAll_None L) HL) in *.
    unfold Registry_Reconcile in *. rewrite (proj2 (ValidateAll_None L) HL) in *.
    set (d0 := set_registry _ d) in *.
    assert (H0 : topology_ok d0) by (destruct Hd; by split).
    assert (A0 : accounted d d0) by (split; cbn; auto).
    destruct (remove_outdated_accounted (by_db L) (order (map_to_list (dm_tenants d0))) d0 H0 Ho) as [A1 O1].
    destruct (outdated_spec order d0 L Hord H0 HL) as (H1 & S1 & _).
    set (d1 := remove_outdated _ _ d0) in *.
    pose proof (add_missing_accounted sr L L [] d1 HL ltac:(done) Hcol H1 O1 ltac:(by intros db t [_ ?]%S1)) as A2.
    unfold add_missing in *. destruct (fold_left (add_one sr) L ([], d1)) as [fs2 d2]. destruct A2 as [A2 O2].
    pose proof (reconcile_all_accounted sr (order (map_to_list (dm_tenants d2))) fs2 d2 O2) as A3.
    destruct (reconcile_all_branches sr _ (fs2, d2)) as [fs3 d3]. destruct A3 as [A3 O3]. cbn [snd].
    split; [|by split; [apply Hspec|]]. do 3 (etransitivity; [eassumption|]). done. }
  unfold reconcile. destruct (reconcile_body order sr d) as [e d']. cbn [snd] in *.
  destruct Hbody as (B1 & B2 & B3), (set_last_tidy e d') as (C1 & C2 & C3).
  split_and!; [by etransitivity|auto..].
Qed.

(** ** The shutdown *)

Definition at_rest (d : daemon) : Prop := dm_tenants d = ∅ /\ dm_workers d = ∅ /\ dm_subs d = ∅.

Lemma tidy_at_rest (d : daemon) : topology_ok d -> owned d -> dm_tenants d = ∅ -> at_rest d.
Proof.
  intros Hd Ho Ht. split_and!; [done|apply map_empty..]; intros k.
  - destruct (dm_workers d !! k) as [w|] eqn:E; [|done].
    destruct (tp_workers _ Hd _ _ E) as (_ & db & id & b & Hid & _). by rewrite Ht, lookup_empty in Hid.
  - destruct (dm_subs d !! k) as [u|] eqn:E; [|done].
    destruct (Ho _ _ E) as (db & t & (id & Hid & _) & _). by rewrite Ht, lookup_empty in Hid.
Qed.

Lemma stop_accounted order (d : daemon) : (forall l, order l ≡ₚ l) -> topology_ok d -> owned d ->
  accounted d (stop order d) /\ topology_ok (stop order d) /\ owned (stop order d) /\ dm_tenants (stop order d) = ∅.
Proof.
  intros Hord Hd Ho. unfold stop.
  assert (Hkeys : forall db, is_Some (dm_tenants d !! db) -> db ∈ map fst (order (map_to_list (dm_tenants d)))).
  { intros db [id Hid]. apply list_elem_of_fmap. exists (db, id). split; [done|]. rewrite Hord.
    by apply elem_of_map_to_list. }
  revert Hkeys. generalize (order (map_to_list (dm_tenants d))) as snap. intros snap. revert d Hd Ho.
  induction snap as [|[db id] snap IH]; intros d Hd Ho Hkeys; cbn [fold_left].
  - split_and!; [done..|]. apply map_empty. intros db. destruct (dm_tenants d !! db) eqn:E; [|done].
    assert (Hin : db ∈ @nil string) by (apply Hkeys; by eexists). by apply elem_of_nil in Hin.
  - pose proof (removeTenant_removed db d (ok_distinct d Hd)) as Hr.
    destruct (removeTenant_accounted db d (ok_distinct d Hd)) as [A1 O1].
    destruct (IH (removeTenant db d)) as (A2 & H2 & O2 & E2); [by eapply removed_ok|auto| |split_and!; [by etransitivity|done..]].
    intros db' [id' Hid]. rewrite (rm_tenants _ _ _ Hr) in Hid. apply lookup_delete_Some in Hid as [Hne Hid].
    assert (Hin : db' ∈ map fst ((db, id) :: snap)) by (apply Hkeys; by eexists). cbn in Hin.
    by apply elem_of_cons in Hin as [->|].
Qed.

(** ** The loop *)

Definition loop_interval (interval : Z) : Z := if interval <=? 0 then 60 * 10 ^ 9 else interval.

(** What the [select] of the loop receives next. *)
Inductive loop_event : Type := Tick (sr : surroundings) | CtxDone.

(** The state after the events, and whether the loop has returned. *)
Fixpoint loop (order : list (string * nat) -> list (string * nat)) (events : list loop_event) (d : daemon)
    : daemon * bool :=
  match events with
  | [] => (d, false)
  | CtxDone :: _ => (d, true)
  | Tick sr :: events' => loop order events' (reconcile order sr d).2
  end.

(** ** Everything that happens to the maps *)

(** The maps, and whether the reconciler's context is cancelled. *)
Record life : Type := mkLife { lf_daemon : daemon; lf_cancelled : bool }.

(** A round with a cancelled context gets no rows from [QueryContext]. *)
Inductive life_step : life -> life -> Prop :=
| life_round order sr d c :
    (forall l, order l ≡ₚ l) -> round_ok sr -> (c = true -> is_ok (sr_rows sr) = false) ->
    life_step (mkLife d c) (mkLife (reconcile order sr d).2 c)
| life_branch id db b d c :
    int64 b -> life_step (mkLife d c) (mkLife (startBranch id db b d) c)
| life_worker_ended key w d c :
    dm_workers d !! key = Some w ->
    life_step (mkLife d c) (mkLife (set_done (fun s => {[w]} ∪ s) d) c)
| life_service load db b d c :
    life_step (mkLife d c) (mkLife (getService load db b d).2 c)
| life_cancel d c : life_step (mkLife d c) (mkLife d true).

Definition life_ok (s : life) : Prop := topology_ok (lf_daemon s) /\ owned (lf_daemon s).

Lemma getService_caches load db b (d : daemon) :
  (getService load db b d).2 = d \/ exists f, (getService load db b d).2 = set_caches f d.
Proof. unfold getService. repeat (case_match; cbn [snd]; try by left). right. by eexists. Qed.

Lemma topology_caches f (d : daemon) : topology_ok d -> topology_ok (set_caches f d).
Proof. intros []. by split. Qed.

Lemma topology_done w key (d : daemon) : dm_workers d !! key = Some w -> topology_ok d ->
  topology_ok (set_done (fun s => {[w]} ∪ s) d).
Proof.
  intros Hw Hd. destruct (tp_workers _ Hd _ _ Hw) as [Hlt _]. destruct Hd as [H1 H2 H3 [H4 H5] H6 H7].
  split; try done. split; [|done]. cbn. intros w'. rewrite elem_of_union, elem_of_singleton.
  intros [->|H]; [done|by apply H4].
Qed.

Lemma life_step_ok s s' : life_step s s' -> life_ok s ->
  life_ok s' /\ accounted (lf_daemon s) (lf_daemon s').
Proof.
  unfold life_ok. intros H [Hd Ho].
  destruct H as [order sr d c Hord Hr _|id db b d c Hb|key w d c Hw|load db b d c|d c]; cbn [lf_daemon] in *.
  - destruct (reconcile_accounted order sr d Hord Hr Hd Ho) as (A & B & C). done.
  - destruct (startBranch_accounted id db b d) as [A B]. split; [|done]. split; [|auto].
    unfold startBranch in *. destruct (bool_decide (dm_tenants d !! db = Some id)) eqn:E; [|done].
    apply bool_decide_eq_true in E. destruct (startBranch_spec id db b d Hd E Hb) as [H _].
    unfold startBranch in H. by rewrite bool_decide_eq_true_2 in H.
  - split; [split; [by eapply topology_done|exact Ho]|]. split; cbn; auto; set_solver.
  - destruct (getService_caches load db b d) as [->|[f ->]]; [done|].
    split; [split; [by apply topology_caches|exact Ho]|]. split; cbn; auto.
  - done.
Qed.

Lemma life_steps_ok s s' : rtc life_step s s' -> life_ok s ->
  life_ok s' /\ accounted (lf_daemon s) (lf_daemon s').
Proof.
  induction 1 as [s|s1 s2 s3 H12 _ IH]; intros Hs; [done|].
  destruct (life_step_ok _ _ H12 Hs) as [H2 A]. destruct (IH H2) as [H3 B]. split; [done|by etransitivity].
Qed.

Lemma life_begins : life_ok (mkLife newDaemonReconciler false).
Proof. split; [apply newDaemonReconciler_ok|]. intros k u. cbn. by rewrite lookup_empty. Qed.

(** Once everything is removed, a cancelled reconciler stays at rest. *)
Lemma at_rest_step s s' : life_step s s' -> lf_cancelled s = true /\ at_rest (lf_daemon s) ->
  lf_cancelled s' = true /\ at_rest (lf_daemon s').
Proof.
  intros H [Hc (T & W & S)].
  destruct H as [order sr d c Hord _ Hrows|id db b d c _|key w d c Hw|load db b d c|d c]; cbn in *;
    (split; [done|]).
  - specialize (Hrows Hc). unfold reconcile, reconcile_body, LoadAllContext.
    destruct (sr_rows sr) as [|e]; [done|]. by split_and!.
  - unfold startBranch. rewrite T, lookup_empty. by rewrite bool_decide_eq_false_2.
  - by rewrite W, lookup_empty in Hw.
  - destruct (getService_caches load db b d) as [->|[f ->]]; by split_and!.
  - by split_and!.
Qed.

Lemma at_rest_steps s s' : rtc life_step s s' -> lf_cancelled s = true /\ at_rest (lf_daemon s) ->
  lf_cancelled s' = true /\ at_rest (lf_daemon s').
Proof. induction 1 as [|s1 s2 s3 H _ IH]; [done|]. intros H1. by eapply IH, at_rest_step. Qed.

(** The loop is made of rounds. *)
Lemma loop_steps order events d : (forall l, order l ≡ₚ l) ->
  Forall (fun e => match e with Tick sr => round_ok sr | CtxDone => True end) events ->
  rtc life_step (mkLife d false) (mkLife (loop order events d).1 false).
Proof.
  intros Hord. revert d. induction events as [|[sr|] events IH]; intros d; cbn; [done| |done].
  intros [Hr Hl]%Forall_cons. eapply rtc_l; [by apply (life_round order sr)|]. by apply IH.
Qed.

(** ** Theorem *)

(** C33: The shutdown is complete. However rounds of reconciliation, onboardings that start
    workers, workers that end, service lookups and the cancellation are interleaved from the
    daemon's start on, with registry rows whose database names have no colon, the state is
    consistent at every moment; and after [stop] has removed the
    tenants under a cancelled context, whatever still happens, no tenant is served and no worker or
    responder is left, and every worker and every subscription that existed at any earlier moment
    has ended. *)
Theorem shutdown_complete order (d0 d1 : daemon) c0 s :
  (forall l, order l ≡ₚ l) ->
  rtc life_step (mkLife newDaemonReconciler false) (mkLife d0 c0) ->
  rtc life_step (mkLife d0 c0) (mkLife d1 true) ->
  rtc life_step (mkLife (stop order d1) true) s ->
  topology_ok d0 /\ at_rest (lf_daemon s)
  /\ (forall key w, dm_workers d0 !! key = Some w -> w ∈ dm_done (lf_daemon s))
  /\ (forall k u, dm_subs d0 !! k = Some u -> u ∈ dm_unsubscribed (lf_daemon s)).
Proof.
  intros Hord H0 H1 H2. destruct (life_steps_ok _ _ H0 life_begins) as [Hd0 _].
  destruct (life_steps_ok _ _ H1 Hd0) as [[Hd1 Ho1] A1]. cbn [lf_daemon] in *.
  destruct (stop_accounted order d1 Hord Hd1 Ho1) as (A2 & Hd2 & Ho2 & Ht2).
  destruct (life_steps_ok _ _ H2 (conj Hd2 Ho2)) as [_ A3]. cbn [lf_daemon] in *.
  destruct (at_rest_steps _ _ H2 (conj eq_refl (tidy_at_rest _ Hd2 Ho2 Ht2))) as [_ Hr].
  assert (A : accounted d0 (lf_daemon s)) by (do 2 (etransitivity; [eassumption|]); done).
  destruct Hr as (Tr & Wr & Sr). split_and!; [apply Hd0|done| |].
  - intros key w [Hw|Hw]%(ac_workers _ _ A); [|done]. by rewrite Wr, lookup_empty in Hw.
  - intros k u [Hu|Hu]%(ac_subs _ _ A); [|done]. by rewrite Sr, lookup_empty in Hu.
Qed.
End lifetime.

Arguments life : clear implicits.

(** Two tenants with two branches each are served, then the daemon stops. *)
Lemma shutdown_complete_witness :
  worker_of started "acme_db" 7 <> None
  /\ at_rest (stop same_order started)
  /\ forall key w, dm_workers started !! key = Some w -> w ∈ dm_done (stop same_order started).
Proof.
  assert (Hround : round_ok (calm [acme; globex] [7; 8])).
  { split; [apply calm_int64|]. intros L [= <-]. exact two_no_colon. }
  assert (Hstart : rtc life_step (mkLife newDaemonReconciler false) (mkLife started false))
    by exact (rtc_once _ _ (life_round same_order _ _ false (fun l => reflexivity l) Hround (fun H => ltac:(discriminate H)))).
  destruct (shutdown_complete same_order started started false (mkLife (stop same_order started) true)
    (fun l => reflexivity l) Hstart (rtc_once _ _ (life_cancel _ _)) (rtc_refl _ _)) as (_ & Hr & Hw & _).
  split; [vm_compute; discriminate|]. split; [exact Hr | exact Hw].
Defined.
