(* ===== verification/Invoice.v ===== *)
(** * Invoices and their amounts ([invoice/invoice.go])

    The invoice record, line amounts and totals, in [float64] arithmetic as
    the source computes them. *)

From S2P Require Import Prelude GoStrings Civil Float64.
Local Open Scope Z_scope.
Local Open Scope go_scope.

Definition TypeCode : Type := Z.
Definition TypeInvoice : TypeCode := 388.
Definition TypeCreditNote : TypeCode := 381.
Definition TypeDebitNote : TypeCode := 383.

Definition SubType : Type := string.
Definition SubTypeStandard : SubType := "0100000".
Definition SubTypeSimplified : SubType := "0200000".

Definition TaxCategory : Type := string.
Definition TaxStandard : TaxCategory := "S".
Definition TaxZero : TaxCategory := "Z".
Definition TaxExempt : TaxCategory := "E".
Definition TaxOutScope : TaxCategory := "O".

Definition PaymentCash : string := "10".
Definition PaymentCredit : string := "30".
Definition PaymentBankCard : string := "48".
Definition PaymentTransfer : string := "42".

Record Party : Type := mkParty {
  pt_RegistrationName : string;
  pt_RegistrationNameAR : string;
  pt_VAT : string;
  pt_SchemeID : string;
  pt_ID : string;
  pt_Street : string;
  pt_Building : string;
  pt_District : string;
  pt_City : string;
  pt_PostalCode : string;
  pt_Country : string
}.

Record LineItem : Type := mkLineItem {
  ln_ID : string;
  ln_Name : string;
  ln_Quantity : float64;
  ln_UnitCode : string;
  ln_UnitPrice : float64;
  ln_Discount : float64;
  ln_TaxCategory : TaxCategory;
  ln_TaxPercent : float64
}.

Definition f_100 : float64 := f_int 100.

Definition roundTo2 (v : float64) : float64 :=
  f_div (f_int (int_of_float (f_add (f_mul v f_100) f_half))) f_100.

Definition fmtAmount (v : float64) : string := format_fixed 2 v.

Definition NetAmount (l : LineItem) : float64 :=
  roundTo2 (f_sub (f_mul (ln_Quantity l) (ln_UnitPrice l)) (ln_Discount l)).

Definition TaxAmount (l : LineItem) : float64 :=
  roundTo2 (f_div (f_mul (NetAmount l) (ln_TaxPercent l)) f_100).

Definition Line_TotalWithTax (l : LineItem) : float64 :=
  roundTo2 (f_add (NetAmount l) (TaxAmount l)).

Record Invoice : Type := mkInvoice {
  iv_ID : string;
  iv_UUID : string;
  iv_IssueDate : civil;
  iv_IssueTime : civil;
  iv_TypeCode : TypeCode;
  iv_SubType : SubType;
  iv_DocumentCurrency : string;
  iv_TaxCurrency : string;
  iv_Note : string;
  iv_NoteLang : string;
  iv_Supplier : Party;
  iv_Customer : Party;
  iv_DeliveryDate : civil;
  iv_PaymentMeans : string;
  iv_InstructionNote : string;
  iv_BillingReferenceID : string;
  iv_Discount : float64;
  iv_DiscountTax : TaxCategory;
  iv_DiscountTaxPercent : float64;
  iv_Lines : list LineItem;
  iv_PreviousInvoiceHash : string;
  iv_InvoiceCounterValue : Z;
  iv_ProfileID : string
}.

Definition sum_floats (start : float64) (l : list float64) : float64 := fold_left f_add l start.

Definition TaxableAmount (inv : Invoice) : float64 :=
  roundTo2 (sum_floats (f_neg (iv_Discount inv)) (map NetAmount (iv_Lines inv))).

Definition TotalTax (inv : Invoice) : float64 :=
  let total := sum_floats f_zero (map TaxAmount (iv_Lines inv)) in
  let total :=
    if f_ltb f_zero (iv_Discount inv) && f_ltb f_zero (iv_DiscountTaxPercent inv)
    then f_sub total (roundTo2 (f_div (f_mul (iv_Discount inv) (iv_DiscountTaxPercent inv)) f_100))
    else total in
  roundTo2 total.

Definition TotalWithTax (inv : Invoice) : float64 :=
  roundTo2 (f_add (TaxableAmount inv) (TotalTax inv)).

Definition IsSimplified (inv : Invoice) : bool := String.eqb (iv_SubType inv) SubTypeSimplified.
Definition IsStandard (inv : Invoice) : bool := String.eqb (iv_SubType inv) SubTypeStandard.

Definition profileID (inv : Invoice) : string :=
  if negb (String.eqb (iv_ProfileID inv) "") then iv_ProfileID inv
  else if IsStandard inv then "reporting:1.0" else "reporting:1.0".

Definition dateStr (inv : Invoice) : string := format_date (iv_IssueDate inv).
Definition timeStr (inv : Invoice) : string := format_clock (iv_IssueTime inv).
Definition deliveryDateStr (inv : Invoice) : string :=
  if IsZero (iv_DeliveryDate inv) then dateStr inv else format_date (iv_DeliveryDate inv).
