(* ===== verification/Xml.v ===== *)
(** * The UBL document of an invoice ([invoice/xml.go])

    Each [write...] function appends to a [strings.Builder]; here it gives the
    text it appends, and a sequence of [WriteString] calls is the
    concatenation of what they write. *)

From S2P Require Import Prelude GoStrings Civil Float64 Invoice.
Local Open Scope Z_scope.
Local Open Scope go_scope.

Definition nsInvoice : string := "urn:oasis:names:specification:ubl:schema:xsd:Invoice-2".
Definition nsCAC : string := "urn:oasis:names:specification:ubl:schema:xsd:CommonAggregateComponents-2".
Definition nsCBC : string := "urn:oasis:names:specification:ubl:schema:xsd:CommonBasicComponents-2".
Definition nsEXT : string := "urn:oasis:names:specification:ubl:schema:xsd:CommonExtensionComponents-2".
Definition nsSIG : string := "urn:oasis:names:specification:ubl:schema:xsd:CommonSignatureComponents-2".
Definition nsSAC : string := "urn:oasis:names:specification:ubl:schema:xsd:SignatureAggregateComponents-2".
Definition nsSBC : string := "urn:oasis:names:specification:ubl:schema:xsd:SignatureBasicComponents-2".

(** The quotation mark and the end of a line. *)
Definition q : string := str1 (byte_of 34).
Definition nl : string := str1 (byte_of 10).

(** [a="v"] and a start tag with attributes. *)
Definition attr (name value : string) : string := " " +:+ name +:+ "=" +:+ q +:+ value +:+ q.

(** A builder that received these strings in order. *)
Definition write (l : list string) : string := foldr String.append "" l.

(** ** Escaping: [xml.EscapeText] *)

(** [isInCharacterRange]. *)
Definition in_character_range (r : Z) : bool :=
  (r =? 0x09) || (r =? 0x0A) || (r =? 0x0D) || in_range 0x20 0xD7FF r
  || in_range 0xE000 0xFFFD r || in_range 0x10000 0x10FFFF r.

Definition escape_rune (r : Z) (width : nat) : string :=
  if r =? 34 then "&#34;" else if r =? 39 then "&#39;" else if r =? 38 then "&amp;"
  else if r =? 60 then "&lt;" else if r =? 62 then "&gt;" else if r =? 9 then "&#x9;"
  else if r =? 10 then "&#xA;" else if r =? 13 then "&#xD;"
  else if negb (in_character_range r) || ((r =? runeError) && (width =? 1)%nat)
  then encode_rune runeError
  else encode_rune r.

Definition xmlEscape (s : string) : string :=
  write (map (fun '(r, w) => escape_rune r w) (runes_w s)).

Definition orDefault (s def : string) : string := if String.eqb s "" then def else s.

(** ** Elements *)

Definition writeElementIndent (indent tag value : string) : string :=
  indent +:+ "<" +:+ tag +:+ ">" +:+ xmlEscape value +:+ "</" +:+ tag +:+ ">" +:+ nl.

Definition writeElement (tag value : string) : string := writeElementIndent "    " tag value.

(** The format of an amount element: [<cbc:Tag currencyID="cur">amount</cbc:Tag>]. *)
Definition amount_line (indent tag cur amount : string) : string :=
  indent +:+ "<" +:+ tag +:+ attr "currencyID" cur +:+ ">" +:+ amount +:+ "</" +:+ tag +:+ ">" +:+ nl.

Definition line (s : string) : string := s +:+ nl.

(** ** Validation *)

Definition validate (inv : Invoice) : option string := (
  guard! String.eqb (iv_ID inv) "" else "invoice ID is required" ;;
  guard! String.eqb (iv_UUID inv) "" else "invoice UUID is required" ;;
  guard! match iv_Lines inv with [] => true | _ => false end
    else "invoice must have at least one line item" ;;
  guard! String.eqb (pt_VAT (iv_Supplier inv)) "" else "supplier VAT number is required" ;;
  guard! IsStandard inv && String.eqb (pt_VAT (iv_Customer inv)) ""
    else "customer VAT number is required for standard invoices" ;;
  guard! String.eqb (iv_PreviousInvoiceHash inv) "" else "previous invoice hash (PIH) is required" ;;
  None)%go.

(** ** The parts of the document *)

Definition writeUBLExtensions : string := write [
  line "<ext:UBLExtensions>";
  line "    <ext:UBLExtension>";
  line "        <ext:ExtensionURI>urn:oasis:names:specification:ubl:dsig:enveloped:xades</ext:ExtensionURI>";
  line "        <ext:ExtensionContent>";
  line ("            <sig:UBLDocumentSignatures" +:+ attr "xmlns:sig" nsSIG +:+ attr "xmlns:sac" nsSAC
        +:+ attr "xmlns:sbc" nsSBC +:+ ">");
  line "                <sac:SignatureInformation>";
  line "                    <cbc:ID>urn:oasis:names:specification:ubl:signature:1</cbc:ID>";
  line "                    <sbc:ReferencedSignatureID>urn:oasis:names:specification:ubl:signature:Invoice</sbc:ReferencedSignatureID>";
  line "                </sac:SignatureInformation>";
  line "            </sig:UBLDocumentSignatures>";
  line "        </ext:ExtensionContent>";
  line "    </ext:UBLExtension>";
  line "</ext:UBLExtensions>"].

Definition binary_object : string := "<cbc:EmbeddedDocumentBinaryObject" +:+ attr "mimeCode" "text/plain" +:+ ">".

Definition writeAdditionalDocRefs (inv : Invoice) : string := write [
  line "    <cac:AdditionalDocumentReference>";
  writeElementIndent "        " "cbc:ID" "ICV";
  writeElementIndent "        " "cbc:UUID" (itoa (iv_InvoiceCounterValue inv));
  line "    </cac:AdditionalDocumentReference>";
  line "    <cac:AdditionalDocumentReference>";
  writeElementIndent "        " "cbc:ID" "PIH";
  line "        <cac:Attachment>";
  line ("            " +:+ binary_object +:+ iv_PreviousInvoiceHash inv +:+ "</cbc:EmbeddedDocumentBinaryObject>");
  line "        </cac:Attachment>";
  line "    </cac:AdditionalDocumentReference>";
  line "    <cac:AdditionalDocumentReference>";
  writeElementIndent "        " "cbc:ID" "QR";
  line "        <cac:Attachment>";
  line ("            " +:+ binary_object +:+ "</cbc:EmbeddedDocumentBinaryObject>");
  line "        </cac:Attachment>";
  line "    </cac:AdditionalDocumentReference>"].

Definition some_text (value : string) (s : string) : string :=
  if String.eqb value "" then "" else s.

Definition writeAddress (indent : string) (p : Party) : string := write [
  indent +:+ line "<cac:PostalAddress>";
  writeElementIndent (indent +:+ "    ") "cbc:StreetName" (pt_Street p);
  some_text (pt_Building p) (writeElementIndent (indent +:+ "    ") "cbc:BuildingNumber" (pt_Building p));
  some_text (pt_District p) (writeElementIndent (indent +:+ "    ") "cbc:CitySubdivisionName" (pt_District p));
  writeElementIndent (indent +:+ "    ") "cbc:CityName" (pt_City p);
  writeElementIndent (indent +:+ "    ") "cbc:PostalZone" (pt_PostalCode p);
  indent +:+ line "    <cac:Country>";
  writeElementIndent (indent +:+ "        ") "cbc:IdentificationCode" (orDefault (pt_Country p) "SA");
  indent +:+ line "    </cac:Country>";
  indent +:+ line "</cac:PostalAddress>"].

(** The name a party is registered under: the Arabic one first, if there is one. *)
Definition registered_name (p : Party) : string :=
  if String.eqb (pt_RegistrationNameAR p) "" then pt_RegistrationName p
  else pt_RegistrationNameAR p +:+ " | " +:+ pt_RegistrationName p.

Definition tax_scheme (p : Party) : string := write [
  line "            <cac:PartyTaxScheme>";
  writeElementIndent "                " "cbc:CompanyID" (pt_VAT p);
  line "                <cac:TaxScheme>";
  writeElementIndent "                    " "cbc:ID" "VAT";
  line "                </cac:TaxScheme>";
  line "            </cac:PartyTaxScheme>"].

Definition legal_entity (p : Party) : string := write [
  line "            <cac:PartyLegalEntity>";
  writeElementIndent "                " "cbc:RegistrationName" (registered_name p);
  line "            </cac:PartyLegalEntity>"].

Definition writeSupplier (inv : Invoice) : string :=
  let p := iv_Supplier inv in
  write [
    line "    <cac:AccountingSupplierParty>";
    line "        <cac:Party>";
    some_text (pt_ID p) (write [
      line "            <cac:PartyIdentification>";
      line ("                <cbc:ID" +:+ attr "schemeID" (xmlEscape (orDefault (pt_SchemeID p) "CRN"))
            +:+ ">" +:+ xmlEscape (pt_ID p) +:+ "</cbc:ID>");
      line "            </cac:PartyIdentification>"]);
    writeAddress "            " p;
    tax_scheme p;
    legal_entity p;
    line "        </cac:Party>";
    line "    </cac:AccountingSupplierParty>"].

Definition writeCustomer (inv : Invoice) : string :=
  let p := iv_Customer inv in
  write [
    line "    <cac:AccountingCustomerParty>";
    line "        <cac:Party>";
    writeAddress "            " p;
    some_text (pt_VAT p) (tax_scheme p);
    some_text (pt_RegistrationName p) (legal_entity p);
    line "        </cac:Party>";
    line "    </cac:AccountingCustomerParty>"].

(** ** Amounts *)

Definition currency (inv : Invoice) : string := orDefault (iv_DocumentCurrency inv) "SAR".

(** The tax category of an amount: code, percentage and the VAT scheme. *)
Definition category_lines (indent : string) (code : TaxCategory) (percent : float64) : string := write [
  line (indent +:+ "<cac:TaxCategory>");
  line (indent +:+ "    <cbc:ID" +:+ attr "schemeID" "UN/ECE 5305" +:+ attr "schemeAgencyID" "6" +:+ ">"
        +:+ code +:+ "</cbc:ID>");
  line (indent +:+ "    <cbc:Percent>" +:+ fmtAmount percent +:+ "</cbc:Percent>");
  line (indent +:+ "    <cac:TaxScheme>");
  line (indent +:+ "        <cbc:ID" +:+ attr "schemeID" "UN/ECE 5153" +:+ attr "schemeAgencyID" "6" +:+ ">VAT</cbc:ID>");
  line (indent +:+ "    </cac:TaxScheme>");
  line (indent +:+ "</cac:TaxCategory>")].

Definition writeAllowanceCharge (inv : Invoice) : string :=
  let taxCat := if String.eqb (iv_DiscountTax inv) "" then TaxStandard else iv_DiscountTax inv in
  let taxPct := if f_eqb (iv_DiscountTaxPercent inv) f_zero && String.eqb taxCat TaxStandard
                then f_int 15 else iv_DiscountTaxPercent inv in
  write [
    line "    <cac:AllowanceCharge>";
    writeElementIndent "        " "cbc:ChargeIndicator" "false";
    writeElementIndent "        " "cbc:AllowanceChargeReason" "discount";
    amount_line "        " "cbc:Amount" (currency inv) (fmtAmount (iv_Discount inv));
    category_lines "        " taxCat taxPct;
    line "    </cac:AllowanceCharge>"].

Record taxGroup : Type := mkTaxGroup {
  tg_category : TaxCategory;
  tg_percent : float64;
  tg_taxable : float64;
  tg_tax : float64
}.

Definition group_key (l : LineItem) : string :=
  ln_TaxCategory l +:+ "-" +:+ format_fixed 2 (ln_TaxPercent l).

(** One line added to the groups; [keys] has them in the order of their creation. *)
Definition add_to_group (st : gmap string taxGroup * list string) (l : LineItem)
    : gmap string taxGroup * list string :=
  let '(m, keys) := st in
  let key := group_key l in
  let '(m, keys) :=
    match m !! key with
    | Some _ => (m, keys)
    | None => (<[key := mkTaxGroup (ln_TaxCategory l) (ln_TaxPercent l) f_zero f_zero]> m, keys ++ [key])
    end in
  (alter (fun g => mkTaxGroup (tg_category g) (tg_percent g) (f_add (tg_taxable g) (NetAmount l))
                     (f_add (tg_tax g) (TaxAmount l))) key m, keys).

Definition round_group (g : taxGroup) : taxGroup :=
  mkTaxGroup (tg_category g) (tg_percent g) (roundTo2 (tg_taxable g)) (roundTo2 (tg_tax g)).

Definition taxGroups (inv : Invoice) : list taxGroup :=
  let '(m, keys) := fold_left add_to_group (iv_Lines inv) (∅, []) in
  omap (fun k => round_group <$> m !! k) keys.

Definition subtotal_lines (cur : string) (g : taxGroup) : string := write [
  line "        <cac:TaxSubtotal>";
  amount_line "            " "cbc:TaxableAmount" cur (fmtAmount (tg_taxable g));
  amount_line "            " "cbc:TaxAmount" cur (fmtAmount (tg_tax g));
  category_lines "            " (tg_category g) (tg_percent g);
  line "        </cac:TaxSubtotal>"].

Definition writeTaxTotals (inv : Invoice) : string :=
  let cur := currency inv in
  let totalTax := TotalTax inv in
  write [
    line "    <cac:TaxTotal>";
    amount_line "        " "cbc:TaxAmount" cur (fmtAmount totalTax);
    line "    </cac:TaxTotal>";
    line "    <cac:TaxTotal>";
    amount_line "        " "cbc:TaxAmount" cur (fmtAmount totalTax);
    write (map (subtotal_lines cur) (taxGroups inv));
    line "    </cac:TaxTotal>"].

Definition writeLegalMonetaryTotal (inv : Invoice) : string :=
  let cur := currency inv in
  let lineExt := roundTo2 (sum_floats f_zero (map NetAmount (iv_Lines inv))) in
  let taxExcl := roundTo2 (f_sub lineExt (iv_Discount inv)) in
  let taxIncl := roundTo2 (f_add taxExcl (TotalTax inv)) in
  write [
    line "    <cac:LegalMonetaryTotal>";
    amount_line "        " "cbc:LineExtensionAmount" cur (fmtAmount lineExt);
    amount_line "        " "cbc:TaxExclusiveAmount" cur (fmtAmount taxExcl);
    amount_line "        " "cbc:TaxInclusiveAmount" cur (fmtAmount taxIncl);
    amount_line "        " "cbc:AllowanceTotalAmount" cur (fmtAmount (iv_Discount inv));
    amount_line "        " "cbc:PrepaidAmount" cur "0.00";
    amount_line "        " "cbc:PayableAmount" cur (fmtAmount taxIncl);
    line "    </cac:LegalMonetaryTotal>"].

Definition writeLine (inv : Invoice) (l : LineItem) (seq : Z) : string :=
  let cur := currency inv in
  let lineID := if String.eqb (ln_ID l) "" then itoa seq else ln_ID l in
  write [
    line "    <cac:InvoiceLine>";
    writeElementIndent "        " "cbc:ID" lineID;
    line ("        <cbc:InvoicedQuantity" +:+ attr "unitCode" (orDefault (ln_UnitCode l) "PCE") +:+ ">"
          +:+ format_fixed 6 (ln_Quantity l) +:+ "</cbc:InvoicedQuantity>");
    amount_line "        " "cbc:LineExtensionAmount" cur (fmtAmount (NetAmount l));
    line "        <cac:TaxTotal>";
    amount_line "            " "cbc:TaxAmount" cur (fmtAmount (TaxAmount l));
    amount_line "            " "cbc:RoundingAmount" cur (fmtAmount (Line_TotalWithTax l));
    line "        </cac:TaxTotal>";
    line "        <cac:Item>";
    writeElementIndent "            " "cbc:Name" (ln_Name l);
    line "            <cac:ClassifiedTaxCategory>";
    writeElementIndent "                " "cbc:ID" (ln_TaxCategory l);
    line ("                <cbc:Percent>" +:+ fmtAmount (ln_TaxPercent l) +:+ "</cbc:Percent>");
    line "                <cac:TaxScheme>";
    writeElementIndent "                    " "cbc:ID" "VAT";
    line "                </cac:TaxScheme>";
    line "            </cac:ClassifiedTaxCategory>";
    line "        </cac:Item>";
    line "        <cac:Price>";
    amount_line "            " "cbc:PriceAmount" cur (fmtAmount (ln_UnitPrice l));
    (if f_ltb f_zero (ln_Discount l) then write [
       line "            <cac:AllowanceCharge>";
       writeElementIndent "                " "cbc:ChargeIndicator" "false";
       writeElementIndent "                " "cbc:AllowanceChargeReason" "discount";
       amount_line "                " "cbc:Amount" cur (fmtAmount (ln_Discount l));
       line "            </cac:AllowanceCharge>"]
     else "");
    line "        </cac:Price>";
    line "    </cac:InvoiceLine>"].

(** The loop over the lines, numbered from [seq]. *)
Fixpoint writeLines (inv : Invoice) (lines : list LineItem) (seq : Z) : string :=
  match lines with
  | [] => ""
  | l :: rest => writeLine inv l seq +:+ writeLines inv rest (seq + 1)
  end.

(** ** The document *)

(** The elements of the document, with what precedes the invoice's own. *)
Definition document_open : string := write [
  line ("<?xml version=" +:+ q +:+ "1.0" +:+ q +:+ " encoding=" +:+ q +:+ "UTF-8" +:+ q +:+ "?>");
  "<Invoice" +:+ attr "xmlns" nsInvoice +:+ attr "xmlns:cac" nsCAC +:+ attr "xmlns:cbc" nsCBC
  +:+ attr "xmlns:ext" nsEXT +:+ ">"].

Definition document_head (inv : Invoice) : string := write [
  writeUBLExtensions;
  writeElement "cbc:ProfileID" (profileID inv);
  writeElement "cbc:ID" (iv_ID inv);
  writeElement "cbc:UUID" (iv_UUID inv);
  writeElement "cbc:IssueDate" (dateStr inv);
  writeElement "cbc:IssueTime" (timeStr inv);
  line ("    <cbc:InvoiceTypeCode" +:+ attr "name" (iv_SubType inv) +:+ ">" +:+ itoa (iv_TypeCode inv)
        +:+ "</cbc:InvoiceTypeCode>");
  some_text (iv_Note inv)
    (line ("    <cbc:Note" +:+ attr "languageID" (xmlEscape (orDefault (iv_NoteLang inv) "ar")) +:+ ">"
           +:+ xmlEscape (iv_Note inv) +:+ "</cbc:Note>"));
  writeElement "cbc:DocumentCurrencyCode" (orDefault (iv_DocumentCurrency inv) "SAR");
  writeElement "cbc:TaxCurrencyCode" (orDefault (iv_TaxCurrency inv) "SAR");
  some_text (iv_BillingReferenceID inv) (write [
    line "    <cac:BillingReference>";
    line "        <cac:InvoiceDocumentReference>";
    writeElementIndent "            " "cbc:ID" (iv_BillingReferenceID inv);
    line "        </cac:InvoiceDocumentReference>";
    line "    </cac:BillingReference>"])].

Definition document_signature : string := write [
  line "    <cac:Signature>";
  writeElementIndent "      " "cbc:ID" "urn:oasis:names:specification:ubl:signature:Invoice";
  writeElementIndent "      " "cbc:SignatureMethod" "urn:oasis:names:specification:ubl:dsig:enveloped:xades";
  line "    </cac:Signature>"].

Definition document_payment (inv : Invoice) : string := write [
  (if IsStandard inv || negb (IsZero (iv_DeliveryDate inv)) then write [
     line "    <cac:Delivery>";
     writeElementIndent "        " "cbc:ActualDeliveryDate" (deliveryDateStr inv);
     line "    </cac:Delivery>"]
   else "");
  line "    <cac:PaymentMeans>";
  writeElementIndent "        " "cbc:PaymentMeansCode" (orDefault (iv_PaymentMeans inv) PaymentCash);
  some_text (iv_InstructionNote inv)
    (writeElementIndent "        " "cbc:InstructionNote" (iv_InstructionNote inv));
  line "    </cac:PaymentMeans>";
  (if f_ltb f_zero (iv_Discount inv) then writeAllowanceCharge inv else "")].

Definition ToXML_text (inv : Invoice) : string := write [
  document_open;
  document_head inv;
  writeAdditionalDocRefs inv;
  document_signature;
  writeSupplier inv;
  writeCustomer inv;
  document_payment inv;
  writeTaxTotals inv;
  writeLegalMonetaryTotal inv;
  writeLines inv (iv_Lines inv) 1;
  "</Invoice>"].

(** The error of a refused invoice is its text. *)
Definition ToXML (inv : Invoice) : result string string :=
  match validate inv with
  | Some e => Err e
  | None => Ok (ToXML_text inv)
  end.
