(* ===== verification/XmlSpec.v ===== *)
(** * The generated document is well-formed

    An executable recogniser of XML documents, as a machine that reads one
    byte at a time, and the theorem that it accepts what [ToXML] writes. *)

From S2P Require Import Prelude GoStrings Message Civil Float64 Invoice Xml.
Local Open Scope Z_scope.

(** ** The recogniser *)

(** Where character data may stand: between tags, or in the value of an
    attribute of a start tag with the attribute names seen so far. *)
Inductive place : Type := InText | InValue (tag : string) (seen : list string).

Inductive mode : Type :=
| At (p : place)
| Reference (p : place) (name : string)          (* after an ampersand *)
| TagStart                                       (* after the opening bracket *)
| OpenName (name : string)
| CloseName (name : string)
| Attributes (tag : string) (seen : list string) (* before an attribute name *)
| AttrName (tag : string) (seen : list string) (name : string)
| AttrEq (tag : string) (seen : list string)     (* before the quotation mark *)
| AttrEnd (tag : string) (seen : list string)    (* after the quotation mark *)
| Declaration.

(** The open elements, innermost first, and whether the root was closed. *)
Record xml_state : Type := mkXml { x_mode : mode; x_open : list string; x_closed : bool }.

Definition in_set (c : ascii) (s : string) : bool := existsb (Ascii.eqb c) (bytes s).
Definition name_start (c : ascii) : bool := in_range 65 90 (bv c) || in_range 97 122 (bv c) || in_set c "_:".
Definition name_char (c : ascii) : bool := name_start c || is_digit c || in_set c "-.".
Definition white (c : ascii) : bool := in_set c (str1 (byte_of 9) +:+ str1 (byte_of 10) +:+ str1 (byte_of 13) +:+ " ").
(** No byte of a multi-byte rune is below 32. *)
Definition char_data (c : ascii) : bool := (32 <=? bv c) || white c.

Definition hex_number (s : string) : bool :=
  match s with EmptyString => false | _ => forallb (fun c => match hex_val c with Some _ => true | None => false end) (bytes s) end.
Definition known_reference (name : string) : bool :=
  existsb (String.eqb name) ["amp"; "lt"; "gt"; "quot"; "apos"]
  || match name with
     | String "#" (String "x" h) => hex_number h
     | String "#" d => match d with EmptyString => false | _ => forallb is_digit (bytes d) end
     | _ => false
     end.

Definition open_element (tag : string) (st : xml_state) : option xml_state :=
  match x_open st, x_closed st with
  | [], true => None
  | _, _ => Some (mkXml (At InText) (tag :: x_open st) (x_closed st))
  end.

Definition close_element (tag : string) (st : xml_state) : option xml_state :=
  match x_open st with
  | top :: rest => if String.eqb top tag
                   then Some (mkXml (At InText) rest match rest with [] => true | _ => x_closed st end)
                   else None
  | [] => None
  end.

Definition is_char (c : ascii) (z : Z) : bool := bv c =? z.

Definition xml_step (c : ascii) (st : xml_state) : option xml_state :=
  let go m := Some (mkXml m (x_open st) (x_closed st)) in
  match x_mode st with
  | At InText =>
      if is_char c 60 then go TagStart
      else match x_open st with
           | [] => if white c then go (At InText) else None
           | _ => if is_char c 38 then go (Reference InText "")
                  else if char_data c then go (At InText) else None
           end
  | At (InValue tag seen) =>
      if is_char c 34 then go (AttrEnd tag seen)
      else if is_char c 38 then go (Reference (InValue tag seen) "")
      else if is_char c 60 then None
      else if char_data c then go (At (InValue tag seen)) else None
  | Reference p name =>
      if is_char c 59 then (if known_reference name then go (At p) else None)
      else go (Reference p (name +:+ str1 c))
  | TagStart =>
      if is_char c 47 then go (CloseName "")
      else if is_char c 63 then match x_open st, x_closed st with [], false => go Declaration | _, _ => None end
      else if name_start c then go (OpenName (str1 c)) else None
  | OpenName name =>
      if is_char c 62 then open_element name st
      else if white c then go (Attributes name [])
      else if name_char c then go (OpenName (name +:+ str1 c)) else None
  | CloseName name =>
      if is_char c 62 then close_element name st
      else if name_char c then go (CloseName (name +:+ str1 c)) else None
  | Attributes tag seen =>
      if is_char c 62 then open_element tag st
      else if white c then go (Attributes tag seen)
      else if name_start c then go (AttrName tag seen (str1 c)) else None
  | AttrName tag seen name =>
      if is_char c 61 then (if existsb (String.eqb name) seen then None else go (AttrEq tag (name :: seen)))
      else if name_char c then go (AttrName tag seen (name +:+ str1 c)) else None
  | AttrEq tag seen => if is_char c 34 then go (At (InValue tag seen)) else None
  | AttrEnd tag seen =>
      if is_char c 62 then open_element tag st
      else if white c then go (Attributes tag seen) else None
  | Declaration => if is_char c 62 then go (At InText) else go Declaration
  end.

Fixpoint xml_run (s : string) (st : xml_state) : option xml_state :=
  match s with
  | EmptyString => Some st
  | String c s' => st' ← xml_step c st; xml_run s' st'
  end.

(** A document: one root element, properly nested, nothing but space around it. *)
Definition well_formed (s : string) : bool :=
  match xml_run s (mkXml (At InText) [] false) with
  | Some (mkXml (At InText) [] true) => true
  | _ => false
  end.

Example nested : well_formed ("<a b=" +:+ q +:+ "1&amp;2" +:+ q +:+ ">x<c>&#xA;</c></a>") = true.
Proof. by vm_compute. Qed.
Example crossed : well_formed "<a><b></a></b>" = false.
Proof. by vm_compute. Qed.
Example two_roots : well_formed "<a></a><b></b>" = false.
Proof. by vm_compute. Qed.

(** ** Runs over parts of a document *)

Lemma run_seq a b st st1 r : xml_run a st = Some st1 -> xml_run b st1 = r -> xml_run (a +:+ b) st = r.
Proof.
  revert st. induction a as [|c a IH]; intros st.
  - by intros [= ->].
  - change (String c a +:+ b) with (String c (a +:+ b)). cbn [xml_run].
    destruct (xml_step c st) as [st'|]; [|done]. apply IH.
Qed.

(** Bytes that stand for themselves in text and in attribute values. *)
Definition plain_char (c : ascii) : bool :=
  (32 <=? bv c) && negb (is_char c 60) && negb (is_char c 38) && negb (is_char c 34).
Definition plain (s : string) : bool := forallb plain_char (bytes s).

Lemma plain_app s t : plain (s +:+ t) = plain s && plain t.
Proof. unfold plain. by rewrite bytes_app, forallb_app. Qed.

(** A state in which character data is read. *)
Definition reading (st : xml_state) : Prop :=
  match x_mode st with At InText => x_open st <> [] | At (InValue _ _) => True | _ => False end.

Lemma step_plain c st : reading st -> plain_char c = true -> xml_step c st = Some st.
Proof.
  unfold reading, plain_char. intros Hst Hc. bool_to_prop.
  assert (Hd : char_data c = true) by (unfold char_data; apply orb_true_iff; left; lia).
  destruct st as [[[|tag seen]| | | | | | | | |] open closed]; cbn in Hst |- *; try done.
  - unfold xml_step. cbn. rewrite H2, H1, Hd. by destruct open.
  - unfold xml_step. cbn. by rewrite H0, H1, H2, Hd.
Qed.

Lemma run_plain s st : reading st -> plain s = true -> xml_run s st = Some st.
Proof.
  intros Hst. induction s as [|c s IH]; [done|]. unfold plain. cbn [bytes forallb].
  intros [Hc Hs]%andb_true_iff. cbn [xml_run]. rewrite step_plain by done. by apply IH.
Qed.

Lemma high_bit z : Z.testbit z 7 = true -> 128 <= bv (byte_of z).
Proof.
  rewrite bv_byte_of. intros H. pose proof (Z.mod_pos_bound z 256 ltac:(lia)).
  destruct (Z.ltb_spec (z mod 256) 128) as [Hlt|]; [|done].
  assert (Z.testbit (z mod 2 ^ 8) 7 = true) as Hb by (rewrite Z.mod_pow2_bits_low; [done|lia]).
  change (2 ^ 8) with 256 in Hb. destruct (Z.eq_dec (z mod 256) 0) as [E|]; [by rewrite E in Hb|].
  rewrite Z.bits_above_log2 in Hb; [done|lia|]. apply Z.log2_lt_pow2; lia.
Qed.

Lemma plain_high c : 128 <= bv c -> plain_char c = true.
Proof. intros. unfold plain_char, is_char. rewrite !andb_true_iff, !negb_true_iff. lia. Qed.

Lemma plain_str c s : plain (String c s) = plain_char c && plain s.
Proof. done. Qed.

Lemma plain_encode_rune r :
  32 <= r -> r <> 34 -> r <> 38 -> r <> 60 -> plain (encode_rune r) = true.
Proof.
  intros H1 H2 H3 H4. unfold encode_rune.
  set (r' := if _ : bool then r else runeError).
  assert (Hr : 32 <= r' /\ r' <> 34 /\ r' <> 38 /\ r' <> 60)
    by (unfold r', runeError; destruct (_ && _); lia).
  clearbody r'. destruct Hr as (? & ? & ? & ?).
  destruct (r' <? 0x80) eqn:E.
  { unfold str1. rewrite plain_str. apply andb_true_iff. split; [|done].
    unfold plain_char, is_char. rewrite bv_byte_of, Z.mod_small by lia.
    rewrite !andb_true_iff, !negb_true_iff. lia. }
  destruct (r' <? 0x800), (r' <? 0x10000); unfold str1; rewrite ?plain_str;
    repeat (rewrite plain_high; [cbn [andb]|by apply high_bit; rewrite Z.lor_spec]); done.
Qed.

(** Escaped text is read back where it stands. *)
Lemma run_reference p rest acc open closed :
  known_reference (acc +:+ rest) = true ->
  forallb (fun c => negb (is_char c 59)) (bytes rest) = true ->
  xml_run (rest +:+ ";") (mkXml (Reference p acc) open closed) = Some (mkXml (At p) open closed).
Proof.
  revert acc. induction rest as [|c rest IH]; intros acc Hk Hr.
  - rewrite string_app_nil_r in Hk. change ("" +:+ ";") with ";". cbn [xml_run]. unfold xml_step.
    cbn [x_mode x_open x_closed]. change (is_char ";" 59) with true. cbv iota. by rewrite Hk.
  - change (String c rest +:+ ";") with (String c (rest +:+ ";")). cbn [bytes forallb] in Hr.
    apply andb_true_iff in Hr as [Hc Hr]. apply negb_true_iff in Hc.
    cbn [xml_run]. unfold xml_step. cbn [x_mode x_open x_closed]. rewrite Hc. cbn [mbind option_bind].
    apply IH; [by rewrite string_app_assoc|done].
Qed.

Lemma run_escape_rune r w st : reading st -> xml_run (escape_rune r w) st = Some st.
Proof.
  intros Hst. unfold escape_rune.
  assert (Hp : r <> 34 -> r <> 38 -> r <> 60 -> 32 <= r -> xml_run (encode_rune r) st = Some st)
    by (intros; by apply run_plain; [|apply plain_encode_rune]).
  destruct st as [[p| | | | | | | | |] open closed]; try done.
  assert (Href : forall s, known_reference s = true ->
    forallb (fun c => negb (is_char c 59)) (bytes s) = true ->
    xml_run ("&" +:+ s +:+ ";") (mkXml (At p) open closed) = Some (mkXml (At p) open closed)).
  { intros s H1 H2. apply (run_seq _ _ _ (mkXml (Reference p "") open closed)).
    - destruct p; [destruct open; [done|]|]; reflexivity.
    - by apply run_reference. }
  repeat match goal with
  | |- context [if r =? ?n then ?s else _] =>
      destruct (Z.eqb_spec r n); [by apply (Href (take_bytes (String.length s - 2) (drop_bytes 1 s)))|]
  end.
  destruct (negb (in_character_range r) || _) eqn:E; [by apply run_plain|].
  apply orb_false_iff in E as [E _]. apply negb_false_iff in E.
  apply Hp; try done. unfold in_character_range, in_range in E. lia.
Qed.

Lemma run_escape v st : reading st -> xml_run (xmlEscape v) st = Some st.
Proof.
  intros Hst. unfold xmlEscape. induction (runes_w v) as [|[r w] l IH]; [done|].
  cbn [map write foldr]. eapply run_seq; [by apply run_escape_rune|exact IH].
Qed.

(** ** What the writers append *)

Lemma plain_forall s : plain s = true <-> forall c, c ∈ bytes s -> plain_char c = true.
Proof. unfold plain. rewrite forallb_forall. by setoid_rewrite list_elem_of_In. Qed.

Lemma plain_itoa z : plain (itoa z) = true.
Proof.
  apply plain_forall. intros c Hc%itoa_chars. unfold decimal_char, is_digit, in_range in Hc.
  unfold plain_char, is_char. apply orb_true_iff in Hc as [Hc|Hc].
  - rewrite !andb_true_iff, !negb_true_iff. lia.
  - by apply Ascii.eqb_eq in Hc as ->.
Qed.

Lemma plain_fixed_digits prec n : plain (fixed_digits prec n) = true.
Proof.
  unfold fixed_digits. rewrite !plain_app, !plain_itoa, andb_true_r. cbn [andb].
  apply andb_true_iff. split; [done|]. apply plain_forall. intros c Hc.
  rewrite bytes_of_bytes in Hc. by apply elem_of_replicate in Hc as [-> _].
Qed.

Lemma plain_format_fixed prec v : plain (format_fixed prec v) = true.
Proof.
  destruct v as [[]|[]| |[] m e]; cbn [format_fixed]; rewrite ?plain_app, ?plain_fixed_digits; done.
Qed.

Lemma plain_or_default s d : plain s = true -> plain d = true -> plain (orDefault s d) = true.
Proof. unfold orDefault. by destruct (String.eqb s ""). Qed.

(** Text that can stand inside any element: it leaves the open elements as they are. *)
Definition content (s : string) : Prop :=
  forall top st closed,
    xml_run s (mkXml (At InText) (top :: st) closed) = Some (mkXml (At InText) (top :: st) closed).

Lemma content_nil : content "".
Proof. done. Qed.

Lemma content_app s t : content s -> content t -> content (s +:+ t).
Proof. intros Hs Ht top st closed. eapply run_seq; [apply Hs|apply Ht]. Qed.

Lemma content_if (b : bool) s t : content s -> content t -> content (if b then s else t).
Proof. by destruct b. Qed.

Lemma content_some_text v s : content s -> content (some_text v s).
Proof. intros. by apply content_if; [apply content_nil|]. Qed.

Lemma content_concat {A} (f : A -> string) l : (forall x, In x l -> content (f x)) -> content (write (map f l)).
Proof.
  induction l as [|x l IH]; intros H; [done|]. cbn [map write foldr].
  apply content_app; [apply H; by left|]. apply IH. intros y Hy. apply H. by right.
Qed.

Create HintDb xml discriminated.
#[export] Hint Resolve plain_itoa plain_format_fixed plain_or_default : xml.
#[export] Hint Resolve content_nil content_if content_some_text content_concat : xml.

(** Runs over a text written as a sequence: a closed part is computed, a value
    is read over by the lemma for it. *)
Ltac xml_leaf :=
  first [ match goal with |- xml_run (xmlEscape _) _ = _ => apply run_escape; done end
        | match goal with H : content ?s |- xml_run ?s _ = _ => apply H end
        | match goal with |- xml_run (fmtAmount _) _ = _ => apply run_plain; [done|apply plain_format_fixed] end
        | match goal with |- xml_run (format_fixed _ _) _ = _ => apply run_plain; [done|apply plain_format_fixed] end
        | match goal with |- xml_run (itoa _) _ = _ => apply run_plain; [done|apply plain_itoa] end
        | match goal with H : plain ?s = true |- xml_run ?s _ = _ => apply run_plain; [done|exact H] end
        | match goal with
          | |- xml_run ?s (mkXml (At InText) (_ :: _) _) = _ =>
              let H := fresh in assert (H : content s) by (auto with xml nocore); apply H
          end
        | vm_compute; reflexivity ].
Ltac xml_parts :=
  lazymatch goal with
  | |- xml_run (_ +:+ _) _ = _ => eapply run_seq; [xml_parts|xml_parts]
  | _ => xml_leaf
  end.
Ltac xml_run_all :=
  intros ???; cbn [write foldr]; unfold line, amount_line, writeElement, writeElementIndent, binary_object, attr;
  xml_parts.

Lemma content_extensions : content writeUBLExtensions.
Proof. intros ???. vm_compute. reflexivity. Qed.

Lemma content_signature : content document_signature.
Proof. intros ???. vm_compute. reflexivity. Qed.

Lemma content_refs inv : plain (iv_PreviousInvoiceHash inv) = true -> content (writeAdditionalDocRefs inv).
Proof. intros H. unfold writeAdditionalDocRefs. xml_run_all. Qed.

Lemma content_address p : content (writeAddress "            " p).
Proof.
  assert (H : forall tag v, tag = "cbc:BuildingNumber" \/ tag = "cbc:CitySubdivisionName" ->
    content (some_text v (writeElementIndent ("            " +:+ "    ") tag v)))
    by (intros tag v [-> | ->]; apply content_some_text; xml_run_all).
  pose proof (H _ (pt_Building p) (or_introl eq_refl)). pose proof (H _ (pt_District p) (or_intror eq_refl)).
  unfold writeAddress. clear H. xml_run_all.
Qed.

Lemma content_tax_scheme p : content (tax_scheme p).
Proof. unfold tax_scheme. xml_run_all. Qed.

Lemma content_legal_entity p : content (legal_entity p).
Proof. unfold legal_entity. xml_run_all. Qed.

#[export] Hint Resolve content_address content_tax_scheme content_legal_entity : xml.

Lemma content_supplier inv : content (writeSupplier inv).
Proof.
  unfold writeSupplier. cbv zeta. set (p := iv_Supplier inv).
  match goal with |- context [some_text (pt_ID p) ?s] =>
    assert (content (some_text (pt_ID p) s)) by (apply content_some_text; xml_run_all) end.
  xml_run_all.
Qed.

Lemma content_customer inv : content (writeCustomer inv).
Proof. unfold writeCustomer. cbv zeta. xml_run_all. Qed.

(** The fields that [ToXML] writes without escaping them. *)
Definition raw_plain (inv : Invoice) : Prop :=
  plain (iv_SubType inv) = true /\ plain (iv_DocumentCurrency inv) = true
  /\ plain (iv_PreviousInvoiceHash inv) = true /\ plain (iv_DiscountTax inv) = true
  /\ Forall (fun l => plain (ln_UnitCode l) = true /\ plain (ln_TaxCategory l) = true) (iv_Lines inv).

Lemma content_category code percent indent : plain code = true ->
  indent = "        " \/ indent = "            " -> content (category_lines indent code percent).
Proof. intros H [-> | ->]; unfold category_lines; xml_run_all. Qed.

Lemma plain_currency inv : plain (iv_DocumentCurrency inv) = true -> plain (currency inv) = true.
Proof. intros. by apply plain_or_default. Qed.

Lemma content_allowance inv : plain (iv_DocumentCurrency inv) = true -> plain (iv_DiscountTax inv) = true ->
  content (writeAllowanceCharge inv).
Proof.
  intros Hc%plain_currency Ht. unfold writeAllowanceCharge.
  set (cat := if String.eqb (iv_DiscountTax inv) "" then _ else _).
  set (pct := if _ : bool then f_int 15 else _).
  assert (content (category_lines "        " cat pct))
    by (apply content_category; [unfold cat; by destruct (String.eqb _ _)|by left]).
  cbv zeta. xml_run_all.
Qed.

Lemma content_subtotal cur g : plain cur = true -> plain (tg_category g) = true ->
  content (subtotal_lines cur g).
Proof.
  intros Hc Ht. unfold subtotal_lines.
  pose proof (content_category _ (tg_percent g) _ Ht (or_intror eq_refl)). xml_run_all.
Qed.

(** ** Tax groups *)

(** The keys in the order of their first occurrence. *)
Fixpoint firsts (seen : list string) (l : list string) : list string :=
  match l with
  | [] => []
  | k :: rest => if decide (k ∈ seen) then firsts seen rest else k :: firsts (seen ++ [k]) rest
  end.

Definition lines_of (k : string) (lines : list LineItem) : list LineItem :=
  filter (fun l => group_key l = k) lines.

(** The group of a key: category and percentage of its first line, and the
    sums of its lines' amounts in order. *)
Definition group_of (k : string) (lines : list LineItem) : option taxGroup :=
  match lines_of k lines with
  | [] => None
  | (l :: _) as ls =>
      Some (mkTaxGroup (ln_TaxCategory l) (ln_TaxPercent l) (sum_floats f_zero (map NetAmount ls))
              (sum_floats f_zero (map TaxAmount ls)))
  end.

Lemma sum_floats_snoc x l v : sum_floats x (l ++ [v]) = f_add (sum_floats x l) v.
Proof. unfold sum_floats. by rewrite fold_left_app. Qed.

Lemma lines_of_snoc k lines l :
  lines_of k (lines ++ [l]) = lines_of k lines ++ if decide (group_key l = k) then [l] else [].
Proof. unfold lines_of. by rewrite filter_app, filter_cons, filter_nil. Qed.

Lemma group_of_snoc_ne k lines l : group_key l <> k -> group_of k (lines ++ [l]) = group_of k lines.
Proof.
  intros H. unfold group_of. rewrite lines_of_snoc, decide_False by done. by rewrite app_nil_r.
Qed.

Lemma group_of_snoc lines l :
  group_of (group_key l) (lines ++ [l])
  = let g := default (mkTaxGroup (ln_TaxCategory l) (ln_TaxPercent l) f_zero f_zero)
               (group_of (group_key l) lines) in
    Some (mkTaxGroup (tg_category g) (tg_percent g) (f_add (tg_taxable g) (NetAmount l))
            (f_add (tg_tax g) (TaxAmount l))).
Proof.
  unfold group_of. rewrite lines_of_snoc, decide_True by done.
  destruct (lines_of (group_key l) lines) as [|l0 ls]; [unfold sum_floats; reflexivity|].
  cbv zeta. cbn [app default from_option id tg_category tg_percent tg_taxable tg_tax].
  rewrite !app_comm_cons, !map_app. by setoid_rewrite sum_floats_snoc.
Qed.

Lemma firsts_snoc seen l k :
  firsts seen (l ++ [k]) = firsts seen l ++ if decide (k ∈ seen ++ l) then [] else [k].
Proof.
  revert seen. induction l as [|x l IH]; intros seen; cbn [app firsts].
  - rewrite app_nil_r. by destruct (decide (k ∈ seen)).
  - destruct (decide (x ∈ seen)) as [Hx|Hx]; rewrite IH; cbn [app]; do 2 f_equal.
    + apply decide_ext. set_solver.
    + rewrite <- app_assoc. done.
Qed.

Lemma group_of_in k lines : is_Some (group_of k lines) <-> k ∈ map group_key lines.
Proof.
  unfold group_of, lines_of. rewrite list_elem_of_fmap. split.
  - destruct (filter _ lines) as [|l ls] eqn:E; [by intros []|]. intros _. exists l.
    assert (Hl : l ∈ filter (fun l => group_key l = k) lines) by (rewrite E; left).
    apply list_elem_of_filter in Hl as [<- ?]. done.
  - intros (l & -> & Hl). destruct (filter _ lines) as [|l0 ls] eqn:E; [|done]. exfalso.
    assert (Hf : l ∈ filter (fun l' => group_key l' = group_key l) lines) by (by apply list_elem_of_filter).
    rewrite E in Hf. by apply elem_of_nil in Hf.
Qed.

Lemma add_to_group_spec lines :
  let '(m, keys) := fold_left add_to_group lines (∅, []) in
  (forall k, m !! k = group_of k lines) /\ keys = firsts [] (map group_key lines).
Proof.
  induction lines as [|l lines IH] using rev_ind; [split; [intros k; apply lookup_empty|done]|].
  rewrite fold_left_app. cbn [fold_left]. destruct (fold_left add_to_group lines (∅, [])) as [m keys].
  destruct IH as [Hm Hk]. unfold add_to_group.
  rewrite map_app. cbn [map]. rewrite firsts_snoc, <- Hk. cbn [app].
  pose proof (group_of_in (group_key l) lines) as Hin. rewrite <- Hm in Hin.
  destruct (m !! group_key l) as [g|] eqn:Eg.
  - split; [|rewrite decide_True by (by apply Hin); by rewrite app_nil_r].
    intros k. destruct (decide (group_key l = k)) as [<-|Hne].
    + rewrite lookup_alter_eq, group_of_snoc, <- Hm, Eg. done.
    + by rewrite lookup_alter_ne, group_of_snoc_ne.
  - split; [|rewrite decide_False; [done|by intros ?%Hin%is_Some_None]].
    intros k. destruct (decide (group_key l = k)) as [<-|Hne].
    + by rewrite lookup_alter_eq, lookup_insert_eq, group_of_snoc, <- Hm, Eg.
    + by rewrite lookup_alter_ne, lookup_insert_ne, group_of_snoc_ne.
Qed.

(** C39: The tax subtotals of an invoice are those of the reference definition: one group for each
    key of tax category and percentage to two decimals, in the order in which the keys first occur,
    with the category and percentage of its first line and the rounded sums of the net and tax
    amounts of exactly the lines with that key, added in line order. *)
Theorem tax_groups_exact inv :
  map Some (taxGroups inv)
  = map (fun k => round_group <$> group_of k (iv_Lines inv)) (firsts [] (map group_key (iv_Lines inv))).
Proof.
  unfold taxGroups. pose proof (add_to_group_spec (iv_Lines inv)) as H.
  destruct (fold_left _ _ _) as [m keys]. destruct H as [Hm ->].
  assert (Hall : forall k, k ∈ firsts [] (map group_key (iv_Lines inv)) -> is_Some (group_of k (iv_Lines inv))).
  { intros k Hk. apply group_of_in. revert Hk. generalize ([] : list string). 
    induction (map group_key (iv_Lines inv)) as [|x l IH]; intros seen; cbn [firsts]; [done|].
    destruct (decide _); [intros ?%IH; by right|].
    intros [->|?%IH]%elem_of_cons; [by left|by right]. }
  induction (firsts _ _) as [|k l IH]; [done|]. cbn [omap list_omap map].
  rewrite Hm. destruct (Hall k) as [g Hg]; [by left|]. rewrite Hg. cbn. f_equal.
  apply IH. intros k' Hk'. apply Hall. by right.
Qed.

Lemma tax_group_category inv g : In g (taxGroups inv) ->
  exists l, In l (iv_Lines inv) /\ tg_category g = ln_TaxCategory l.
Proof.
  unfold taxGroups. pose proof (add_to_group_spec (iv_Lines inv)) as H.
  destruct (fold_left _ _ _) as [m keys]. destruct H as [Hm _]. intros Hg%list_elem_of_In.
  apply list_elem_of_omap in Hg as (k & _ & Hg). rewrite Hm in Hg. unfold group_of in Hg.
  destruct (lines_of k (iv_Lines inv)) as [|l ls] eqn:E; [done|]. injection Hg as <-.
  exists l. split; [|done]. apply list_elem_of_In.
  assert (Hl : l ∈ lines_of k (iv_Lines inv)) by (rewrite E; left).
  by apply list_elem_of_filter in Hl as [_ ?].
Qed.

Lemma content_tax_totals inv : raw_plain inv -> content (writeTaxTotals inv).
Proof.
  intros (_ & Hc%plain_currency & _ & _ & Hl). unfold writeTaxTotals. cbv zeta.
  assert (content (write (map (subtotal_lines (currency inv)) (taxGroups inv)))).
  { apply content_concat. intros g (l & Hin & E)%tax_group_category. apply content_subtotal; [done|].
    rewrite E. rewrite Forall_forall in Hl. by apply Hl, list_elem_of_In. }
  xml_run_all.
Qed.

Lemma content_monetary_total inv : plain (currency inv) = true -> content (writeLegalMonetaryTotal inv).
Proof. intros Hc. unfold writeLegalMonetaryTotal. cbv zeta. xml_run_all. Qed.

Lemma content_line inv l seq : plain (currency inv) = true -> plain (ln_UnitCode l) = true ->
  content (writeLine inv l seq).
Proof.
  intros Hc Hu. unfold writeLine. cbv zeta.
  assert (plain (orDefault (ln_UnitCode l) "PCE") = true) by (by apply plain_or_default).
  match goal with |- context [if f_ltb f_zero (ln_Discount l) then ?s else ""] =>
    assert (content (if f_ltb f_zero (ln_Discount l) then s else ""))
      by (apply content_if; [xml_run_all|apply content_nil]) end.
  xml_run_all.
Qed.

Lemma content_lines inv lines seq : plain (currency inv) = true ->
  Forall (fun l => plain (ln_UnitCode l) = true) lines -> content (writeLines inv lines seq).
Proof.
  intros Hc Hl. revert seq. induction Hl as [|l lines Hu _ IH]; intros seq; [apply content_nil|].
  cbn [writeLines]. apply content_app; [by apply content_line|apply IH].
Qed.

Lemma content_head inv : plain (iv_SubType inv) = true -> content (document_head inv).
Proof.
  intros Hs. unfold document_head. pose proof content_extensions.
  match goal with |- context [some_text (iv_Note inv) ?s] =>
    assert (content (some_text (iv_Note inv) s)) by (apply content_some_text; xml_run_all) end.
  match goal with |- context [some_text (iv_BillingReferenceID inv) ?s] =>
    assert (content (some_text (iv_BillingReferenceID inv) s)) by (apply content_some_text; xml_run_all) end.
  xml_run_all.
Qed.

Lemma content_payment inv : plain (iv_DocumentCurrency inv) = true -> plain (iv_DiscountTax inv) = true ->
  content (document_payment inv).
Proof.
  intros Hc Ht. unfold document_payment. pose proof (content_allowance inv Hc Ht).
  match goal with |- context [if ?b || ?c then ?s else ""] =>
    assert (content (if b || c then s else "")) by (apply content_if; [xml_run_all|apply content_nil]) end.
  assert (content (if f_ltb f_zero (iv_Discount inv) then writeAllowanceCharge inv else ""))
    by (apply content_if; [done|apply content_nil]).
  match goal with |- context [some_text (iv_InstructionNote inv) ?s] =>
    assert (content (some_text (iv_InstructionNote inv) s)) by (apply content_some_text; xml_run_all) end.
  xml_run_all.
Qed.

Lemma well_formed_text inv : raw_plain inv -> well_formed (ToXML_text inv) = true.
Proof.
  intros Hraw. pose proof Hraw as (Hs & Hc & Hp & Ht & Hl). pose proof (content_head inv Hs).
  pose proof (content_refs inv Hp). pose proof content_signature. pose proof (content_supplier inv).
  pose proof (content_customer inv). pose proof (content_payment inv Hc Ht).
  pose proof (content_tax_totals inv Hraw). apply plain_currency in Hc.
  pose proof (content_monetary_total inv Hc).
  assert (content (writeLines inv (iv_Lines inv) 1))
    by (apply content_lines; [done|]; by eapply Forall_impl; [exact Hl|intros l [? _]]).
  assert (Hrun : xml_run (ToXML_text inv) (mkXml (At InText) [] false) = Some (mkXml (At InText) [] true)).
  { unfold ToXML_text. cbn [write foldr].
    eapply run_seq; [vm_compute; reflexivity|]. xml_parts. }
  unfold well_formed. by rewrite Hrun.
Qed.

(** C38: What ToXML produces is a well-formed document, whatever the names, addresses, notes and
    other texts of the invoice hold: tags nest and match, attribute values stay quoted and every
    ampersand begins a known reference. It only takes that the fields which are written without
    escaping, the subtype, the currency, the previous hash, the tax categories and the unit codes,
    hold no markup. *)
Theorem to_xml_well_formed inv s : raw_plain inv -> ToXML inv = Ok s -> well_formed s = true.
Proof.
  intros Hraw H. unfold ToXML in H. destruct (validate inv); [done|]. injection H as <-.
  by apply well_formed_text.
Qed.

(** ** A sample *)

Definition sample_party : Party :=
  mkParty "Smith & Sons <KSA>" "" "399999999900003" "" "1010010000" "King's Road" "1234" "" "Riyadh"
    "12345" "SA".

Definition sample_invoice : Invoice :=
  mkInvoice "INV-7" "6f4d20e0-6bfe-4a80-9389-7dabe6620f12" (mkCivil 2024 5 1 10 20 30)
    (mkCivil 2024 5 1 10 20 30) TypeInvoice SubTypeStandard "SAR" "SAR" "a < b" "" sample_party
    sample_party zero_time "10" "" "" f_zero "" f_zero
    [mkLineItem "1" "Nuts & bolts" (f_int 3) "PCE" (f_div (f_int 1999) (f_int 100)) f_zero TaxStandard (f_int 15)]
    "NWZlY2ViNjZmZmM4" 7 "".

Lemma to_xml_well_formed_witness :
  exists s, ToXML sample_invoice = Ok s /\ well_formed s = true.
Proof.
  exists (ToXML_text sample_invoice).
  assert (H : ToXML sample_invoice = Ok (ToXML_text sample_invoice)) by reflexivity.
  split; [exact H|]. apply (to_xml_well_formed sample_invoice); [|exact H].
  split_and!; [reflexivity..|]. repeat constructor.
Defined.

(** Markup in a field that is not escaped does break the document. *)
Definition broken_invoice : Invoice :=
  mkInvoice "INV-7" "u" zero_time zero_time TypeInvoice SubTypeStandard "SAR" "SAR" "" "" sample_party
    sample_party zero_time "10" "" "" f_zero "" f_zero
    [mkLineItem "1" "n" (f_int 1) "PCE" (f_int 1) f_zero TaxStandard (f_int 15)] "<a>" 7 "".

Example raw_hash_breaks : well_formed (ToXML_text broken_invoice) = false.
Proof. by vm_compute. Qed.
