(* ===== verification/XmlText.v ===== *)
(** * Escaped text is read back

    The inverse of [xmlEscape]: a reader of XML character data resolves its
    references, and what it reads is the text that was escaped. *)

From S2P Require Import Prelude GoStrings Utf8 Civil Float64 Invoice Xml XmlSpec.
Local Open Scope Z_scope.

Fixpoint hex_value (acc : Z) (s : string) : option Z :=
  match s with
  | EmptyString => Some acc
  | String c s' => v ← hex_val c; hex_value (acc * 16 + v) s'
  end.

(** The text that a reference stands for. *)
Definition resolve (name : string) : option string :=
  if String.eqb name "amp" then Some "&" else if String.eqb name "lt" then Some "<"
  else if String.eqb name "gt" then Some ">" else if String.eqb name "apos" then Some "'"
  else if String.eqb name "quot" then Some q
  else match name with
       | String "#" (String "x" h) => encode_rune <$> hex_value 0 h
       | String "#" d => encode_rune <$> digits_value 0 d
       | _ => None
       end.

(** The value of character data; [ref] is the name read since an ampersand. *)
Fixpoint unescape (ref : option string) (s : string) : option string :=
  match s, ref with
  | EmptyString, None => Some ""
  | EmptyString, Some _ => None
  | String c s', None =>
      if is_char c 38 then unescape (Some "") s' else String c <$> unescape None s'
  | String c s', Some name =>
      if is_char c 59 then r ← resolve name; (fun t => r +:+ t) <$> unescape None s'
      else unescape (Some (name +:+ str1 c)) s'
  end.

(** Text that XML can carry: valid UTF-8 and only characters of XML. *)
Definition xml_text (s : string) : bool := valid_string s && forallb in_character_range (runes s).

Lemma unescape_plain a s : plain a = true ->
  unescape None (a +:+ s) = (fun t => a +:+ t) <$> unescape None s.
Proof.
  induction a as [|c a IH]; [intros _; change ("" +:+ s) with s; destruct (unescape None s); reflexivity|].
  rewrite plain_str. intros [Hc Ha]%andb_true_iff.
  change (String c a +:+ s) with (String c (a +:+ s)). cbn [unescape].
  unfold plain_char in Hc. apply andb_true_iff in Hc as [[_ Hamp%negb_true_iff]%andb_true_iff _].
  rewrite Hamp, IH by done.
  by destruct (unescape None s).
Qed.

Lemma unescape_rune r n s : rune_ok r n = true -> in_character_range r = true ->
  unescape None (escape_rune r n +:+ s) = (fun t => encode_rune r +:+ t) <$> unescape None s.
Proof.
  intros Hok Hr. unfold escape_rune, rune_ok in *. apply negb_true_iff in Hok.
  repeat match goal with
  | |- context [if r =? ?m then ?e else _] =>
      destruct (Z.eqb_spec r m) as [->|?]; [change (e +:+ s) with (String.append e s); cbn -[encode_rune]; reflexivity|]
  end.
  rewrite Hr, Hok. cbn [negb orb]. apply unescape_plain, plain_encode_rune; try done.
  unfold in_character_range, in_range in Hr. lia.
Qed.

Lemma unescape_runes l : Forall (fun rn => rune_ok rn.1 rn.2 = true /\ in_character_range rn.1 = true) l ->
  unescape None (write (map (fun '(r, w) => escape_rune r w) l)) = Some (encode_runes l.*1).
Proof.
  induction 1 as [|[r n] l [Hok Hr] _ IH]; [done|]. cbn [map write foldr].
  change (foldr String.append "" ?x) with (write x). rewrite unescape_rune by done. by rewrite IH.
Qed.

(** Escaping loses nothing: for every text that XML can carry, reading the escaped text as
    character data gives the text back, so the value of each element that ToXML writes is the field
    of the invoice it was written from. *)
Theorem xml_escape_round_trip s : xml_text s = true -> unescape None (xmlEscape s) = Some s.
Proof.
  unfold xml_text, valid_string. intros [Hv Hr]%andb_true_iff. unfold xmlEscape.
  rewrite unescape_runes.
  - f_equal. by apply encode_runes_w.
  - apply Forall_forall. intros [r n] Hin. rewrite forallb_forall in Hv, Hr.
    split; [by apply (Hv (r, n)), list_elem_of_In|]. apply Hr, list_elem_of_In. unfold runes.
    apply list_elem_of_fmap. by exists (r, n).
Qed.

(** "A & B's <café>" *)
Definition sample_text : string :=
  "A & B's <caf" +:+ String (byte_of 0xC3) (str1 (byte_of 0xA9)) +:+ ">".

Lemma xml_escape_round_trip_witness :
  xmlEscape sample_text <> sample_text /\ unescape None (xmlEscape sample_text) = Some sample_text.
Proof. split; [by vm_compute|apply xml_escape_round_trip; by vm_compute]. Defined.
