(* ===== verification/XmlLines.v ===== *)
(** * The lines of the invoice document

    Every line that [ToXML] writes begins with a tag or with its indentation,
    because line breaks in the texts of an invoice are escaped. A here-document
    that carries the invoice therefore ends only at its own delimiter. *)

From S2P Require Import Prelude GoStrings GoText Utf8 Civil Float64 Message Invoice Xml XmlSpec.
Local Open Scope Z_scope.

Definition is_lf (c : ascii) : bool := bv c =? 10.

(** Read [s] from a line start or from within a line: every line that is begun
    starts with [<] or a space. The result tells whether a line start follows. *)
Fixpoint calm (start : bool) (s : string) : option bool :=
  match s with
  | EmptyString => Some start
  | String c s' =>
      if start && negb (is_char c 60 || is_char c 32) then None else calm (is_lf c) s'
  end.

Definition no_break (s : string) : bool := forallb (fun c => negb (is_lf c)) (bytes s).

Lemma calm_seq st a b st1 r : calm st a = Some st1 -> calm st1 b = r -> calm st (a +:+ b) = r.
Proof.
  revert st. induction a as [|c a IH]; intros st; [by intros [= ->]|].
  change (String c a +:+ b) with (String c (a +:+ b)). cbn [calm].
  destruct (st && negb _); [done|apply IH].
Qed.

Lemma no_break_cons c s : no_break (String c s) = negb (is_lf c) && no_break s.
Proof. done. Qed.

Lemma no_break_app s t : no_break (s +:+ t) = no_break s && no_break t.
Proof. unfold no_break. by rewrite bytes_app, forallb_app. Qed.

Lemma no_break_forall s : (forall c, c ∈ bytes s -> is_lf c = false) -> no_break s = true.
Proof.
  intros H. unfold no_break. apply forallb_forall. intros c Hc%list_elem_of_In. by rewrite H.
Qed.

Lemma calm_no_break s : no_break s = true -> calm false s = Some false.
Proof.
  induction s as [|c s IH]; [done|]. rewrite no_break_cons. intros [Hc%negb_true_iff Hs]%andb_true_iff.
  cbn [calm andb]. rewrite Hc. by apply IH.
Qed.

Lemma high_no_lf c : 128 <= bv c -> is_lf c = false.
Proof. unfold is_lf. lia. Qed.

Lemma no_break_encode_rune r : r <> 10 -> no_break (encode_rune r) = true.
Proof.
  intros H. unfold encode_rune. set (r' := if _ : bool then r else runeError).
  assert (Hr : 0 <= r' /\ r' <> 10) by (unfold r', runeError; destruct (_ && _) eqn:E; unfold in_range in E; lia).
  clearbody r'. destruct Hr as [H0 H1].
  destruct (r' <? 0x80) eqn:E.
  { unfold str1. rewrite no_break_cons. unfold is_lf. rewrite bv_byte_of, Z.mod_small by lia.
    apply andb_true_iff. rewrite negb_true_iff. split; [lia|done]. }
  destruct (r' <? 0x800), (r' <? 0x10000); unfold str1; rewrite ?no_break_cons;
    repeat (rewrite high_no_lf; [cbn [andb negb]|by apply high_bit; rewrite Z.lor_spec]); done.
Qed.

Lemma no_break_escape v : no_break (xmlEscape v) = true.
Proof.
  unfold xmlEscape. induction (runes_w v) as [|[r w] l IH]; [done|]. cbn [map write foldr].
  rewrite no_break_app, andb_true_iff. split; [|exact IH]. unfold escape_rune.
  repeat match goal with |- context [if r =? ?n then _ else _] => destruct (Z.eqb_spec r n); [by vm_compute|] end.
  destruct (negb (in_character_range r) || _); by apply no_break_encode_rune.
Qed.

Lemma no_break_itoa z : no_break (itoa z) = true.
Proof.
  apply no_break_forall. intros c Hc%itoa_chars. unfold decimal_char, is_digit, in_range in Hc.
  unfold is_lf. apply orb_true_iff in Hc as [Hc|Hc]; [lia|]. by apply Ascii.eqb_eq in Hc as ->.
Qed.

Lemma no_break_zeros n : no_break (of_bytes (replicate n ("0" : ascii))) = true.
Proof. apply no_break_forall. intros c Hc%digits_char_replicate. unfold is_digit, in_range in Hc. unfold is_lf. lia. Qed.

Lemma no_break_format_fixed prec v : no_break (format_fixed prec v) = true.
Proof.
  destruct v as [[]|[]| |[] m e]; cbn [format_fixed]; unfold fixed_digits;
    rewrite ?no_break_app, ?no_break_itoa, ?no_break_zeros; done.
Qed.

Lemma no_break_default s d : no_break s = true -> no_break d = true -> no_break (orDefault s d) = true.
Proof. unfold orDefault. by destruct (String.eqb s ""). Qed.

(** ** Blocks of complete lines *)

Definition block (s : string) : Prop := calm true s = Some true.

Lemma block_nil : block "".
Proof. done. Qed.

Lemma block_app s t : block s -> block t -> block (s +:+ t).
Proof. intros Hs Ht. by eapply calm_seq. Qed.

Lemma block_if (b : bool) s t : block s -> block t -> block (if b then s else t).
Proof. by destruct b. Qed.

Lemma block_some_text v s : block s -> block (some_text v s).
Proof. intros. by apply block_if; [apply block_nil|]. Qed.

Lemma block_concat {A} (f : A -> string) l : (forall x, In x l -> block (f x)) -> block (write (map f l)).
Proof.
  induction l as [|x l IH]; intros H; [done|]. cbn [map write foldr].
  apply block_app; [apply H; by left|]. apply IH. intros y Hy. apply H. by right.
Qed.

Create HintDb lines discriminated.
#[export] Hint Resolve block_nil block_if block_some_text block_concat : lines.
#[export] Hint Resolve no_break_itoa no_break_format_fixed no_break_escape no_break_default : lines.

Ltac line_leaf :=
  first [ match goal with H : block ?s |- calm true ?s = _ => exact H end
        | match goal with |- calm false (xmlEscape _) = _ => apply calm_no_break, no_break_escape end
        | match goal with |- calm false (fmtAmount _) = _ => apply calm_no_break, no_break_format_fixed end
        | match goal with |- calm false (format_fixed _ _) = _ => apply calm_no_break, no_break_format_fixed end
        | match goal with |- calm false (itoa _) = _ => apply calm_no_break, no_break_itoa end
        | match goal with H : no_break ?s = true |- calm false ?s = _ => apply calm_no_break; exact H end
        | match goal with |- calm true ?s = _ => let H := fresh in assert (H : block s) by (auto with lines nocore); exact H end
        | vm_compute; reflexivity ].
Ltac line_parts :=
  lazymatch goal with
  | |- calm _ (_ +:+ _) = _ => eapply calm_seq; [line_parts|line_parts]
  | _ => line_leaf
  end.
Ltac lines_all :=
  unfold block; cbn [write foldr]; unfold line, amount_line, writeElement, writeElementIndent, binary_object, attr;
  line_parts.

Lemma block_extensions : block writeUBLExtensions.
Proof. vm_compute. reflexivity. Qed.

Lemma block_signature : block document_signature.
Proof. vm_compute. reflexivity. Qed.

Lemma block_refs inv : no_break (iv_PreviousInvoiceHash inv) = true -> block (writeAdditionalDocRefs inv).
Proof. intros H. unfold writeAdditionalDocRefs. lines_all. Qed.

Lemma block_address p : block (writeAddress "            " p).
Proof.
  assert (H : forall tag v, tag = "cbc:BuildingNumber" \/ tag = "cbc:CitySubdivisionName" ->
    block (some_text v (writeElementIndent ("            " +:+ "    ") tag v)))
    by (intros tag v [-> | ->]; apply block_some_text; lines_all).
  pose proof (H _ (pt_Building p) (or_introl eq_refl)). pose proof (H _ (pt_District p) (or_intror eq_refl)).
  unfold writeAddress. clear H. lines_all.
Qed.

Lemma block_tax_scheme p : block (tax_scheme p).
Proof. unfold tax_scheme. lines_all. Qed.

Lemma block_legal_entity p : block (legal_entity p).
Proof. unfold legal_entity. lines_all. Qed.

#[export] Hint Resolve block_address block_tax_scheme block_legal_entity : lines.

Lemma block_supplier inv : block (writeSupplier inv).
Proof.
  unfold writeSupplier. cbv zeta. set (p := iv_Supplier inv).
  match goal with |- context [some_text (pt_ID p) ?s] =>
    assert (block (some_text (pt_ID p) s)) by (apply block_some_text; lines_all) end.
  lines_all.
Qed.

Lemma block_customer inv : block (writeCustomer inv).
Proof. unfold writeCustomer. cbv zeta. lines_all. Qed.

(** The fields that [ToXML] writes without escaping them hold no line break. *)
Definition raw_lines (inv : Invoice) : Prop :=
  no_break (iv_SubType inv) = true /\ no_break (iv_DocumentCurrency inv) = true
  /\ no_break (iv_PreviousInvoiceHash inv) = true /\ no_break (iv_DiscountTax inv) = true
  /\ Forall (fun l => no_break (ln_UnitCode l) = true /\ no_break (ln_TaxCategory l) = true) (iv_Lines inv).

Lemma block_category code percent indent : no_break code = true ->
  indent = "        " \/ indent = "            " -> block (category_lines indent code percent).
Proof. intros H [-> | ->]; unfold category_lines; lines_all. Qed.

Lemma no_break_currency inv : no_break (iv_DocumentCurrency inv) = true -> no_break (currency inv) = true.
Proof. intros. by apply no_break_default. Qed.

Lemma block_allowance inv : no_break (iv_DocumentCurrency inv) = true -> no_break (iv_DiscountTax inv) = true ->
  block (writeAllowanceCharge inv).
Proof.
  intros Hc%no_break_currency Ht. unfold writeAllowanceCharge.
  set (cat := if String.eqb (iv_DiscountTax inv) "" then _ else _).
  set (pct := if _ : bool then f_int 15 else _).
  assert (block (category_lines "        " cat pct))
    by (apply block_category; [unfold cat; by destruct (String.eqb _ _)|by left]).
  cbv zeta. lines_all.
Qed.

Lemma block_subtotal cur g : no_break cur = true -> no_break (tg_category g) = true ->
  block (subtotal_lines cur g).
Proof.
  intros Hc Ht. unfold subtotal_lines.
  pose proof (block_category _ (tg_percent g) _ Ht (or_intror eq_refl)). lines_all.
Qed.

Lemma block_tax_totals inv : raw_lines inv -> block (writeTaxTotals inv).
Proof.
  intros (_ & Hc%no_break_currency & _ & _ & Hl). unfold writeTaxTotals. cbv zeta.
  assert (block (write (map (subtotal_lines (currency inv)) (taxGroups inv)))).
  { apply block_concat. intros g (l & Hin & E)%tax_group_category. apply block_subtotal; [done|].
    rewrite E. rewrite Forall_forall in Hl. by apply Hl, list_elem_of_In. }
  lines_all.
Qed.

Lemma block_monetary_total inv : no_break (currency inv) = true -> block (writeLegalMonetaryTotal inv).
Proof. intros Hc. unfold writeLegalMonetaryTotal. cbv zeta. lines_all. Qed.

Lemma block_line inv l seq : no_break (currency inv) = true -> no_break (ln_UnitCode l) = true ->
  block (writeLine inv l seq).
Proof.
  intros Hc Hu. unfold writeLine. cbv zeta.
  assert (no_break (orDefault (ln_UnitCode l) "PCE") = true) by (by apply no_break_default).
  match goal with |- context [if f_ltb f_zero (ln_Discount l) then ?s else ""] =>
    assert (block (if f_ltb f_zero (ln_Discount l) then s else ""))
      by (apply block_if; [lines_all|apply block_nil]) end.
  lines_all.
Qed.

Lemma block_lines inv lines seq : no_break (currency inv) = true ->
  Forall (fun l => no_break (ln_UnitCode l) = true) lines -> block (writeLines inv lines seq).
Proof.
  intros Hc Hl. revert seq. induction Hl as [|l lines Hu _ IH]; intros seq; [apply block_nil|].
  cbn [writeLines]. apply block_app; [by apply block_line|apply IH].
Qed.

Lemma block_head inv : no_break (iv_SubType inv) = true -> block (document_head inv).
Proof.
  intros Hs. unfold document_head. pose proof block_extensions.
  match goal with |- context [some_text (iv_Note inv) ?s] =>
    assert (block (some_text (iv_Note inv) s)) by (apply block_some_text; lines_all) end.
  match goal with |- context [some_text (iv_BillingReferenceID inv) ?s] =>
    assert (block (some_text (iv_BillingReferenceID inv) s)) by (apply block_some_text; lines_all) end.
  lines_all.
Qed.

Lemma block_payment inv : no_break (iv_DocumentCurrency inv) = true -> no_break (iv_DiscountTax inv) = true ->
  block (document_payment inv).
Proof.
  intros Hc Ht. unfold document_payment. pose proof (block_allowance inv Hc Ht).
  match goal with |- context [if ?b || ?c then ?s else ""] =>
    assert (block (if b || c then s else "")) by (apply block_if; [lines_all|apply block_nil]) end.
  assert (block (if f_ltb f_zero (iv_Discount inv) then writeAllowanceCharge inv else ""))
    by (apply block_if; [done|apply block_nil]).
  match goal with |- context [some_text (iv_InstructionNote inv) ?s] =>
    assert (block (some_text (iv_InstructionNote inv) s)) by (apply block_some_text; lines_all) end.
  lines_all.
Qed.

Lemma calm_relax c s b : calm true (String c s) = Some b -> calm false (String c s) = Some b.
Proof. cbn [calm andb]. by destruct (negb _). Qed.

Lemma calm_text inv : raw_lines inv -> calm true (ToXML_text inv) = Some false.
Proof.
  intros Hraw. pose proof Hraw as (Hs & Hc & Hp & Ht & Hl). pose proof (block_head inv Hs).
  pose proof (block_refs inv Hp). pose proof block_signature. pose proof (block_supplier inv).
  pose proof (block_customer inv). pose proof (block_payment inv Hc Ht).
  pose proof (block_tax_totals inv Hraw). apply no_break_currency in Hc.
  pose proof (block_monetary_total inv Hc).
  assert (block (writeLines inv (iv_Lines inv) 1))
    by (apply block_lines; [done|]; by eapply Forall_impl; [exact Hl|intros l [? _]]).
  unfold ToXML_text. cbn [write foldr].
  eapply calm_seq; [vm_compute; reflexivity|].
  assert (calm false (document_head inv) = Some true).
  { destruct (document_head inv) eqn:E; [by apply (f_equal String.length) in E|]. by apply calm_relax. }
  eapply calm_seq; [eassumption|]. line_parts.
Qed.
