(* ===== verification/Dates.v ===== *)
(** * Dates of a bill ([processor/types.go])

    [time.Parse] for the three layouts of [ParseFlexible]. It is as lenient as
    Go's: the hour may have one digit, a fraction may follow the seconds, and
    a space of the layout stands for any number of spaces. The zone moves the
    instant but not the date and time of day in that zone, which is what the
    program prints. *)

From S2P Require Import Prelude GoStrings Models GoErrors Message Decimal Civil.
Local Open Scope Z_scope.
Local Open Scope go_scope.

(** ** Parsing steps: each takes the rest of the text *)

Definition parser (A : Type) : Type := string -> option (A * string).

Definition digit_of (c : ascii) : option Z := if is_digit c then Some (bv c - 48) else None.

(** [getnum(value, fixed)]. *)
Definition getnum (fixed : bool) : parser Z := fun s =>
  match s with
  | String a (String b s') =>
      match digit_of a, digit_of b with
      | Some x, Some y => Some (x * 10 + y, s')
      | Some x, None => if fixed then None else Some (x, String b s')
      | None, _ => None
      end
  | String a EmptyString => if fixed then None else x ← digit_of a; Some (x, "")
  | EmptyString => None
  end.

Definition in_bounds (lo hi : Z) (p : parser Z) : parser Z := fun s =>
  '(v, s') ← p s; if in_range lo hi v then Some (v, s') else None.

(** The four digits of the year. *)
Definition get_year : parser Z := fun s =>
  if (String.length s <? 4)%nat then None
  else v ← digits_value 0 (take_bytes 4 s); Some (v, drop_bytes 4 s).

(** A literal of the layout. *)
Definition skip_char (c : ascii) : parser unit := fun s =>
  match s with String d s' => if Ascii.eqb c d then Some (tt, s') else None | EmptyString => None end.

Fixpoint cut_spaces (s : string) : string :=
  match s with String c s' => if Ascii.eqb c " " then cut_spaces s' else s | EmptyString => s end.
Definition skip_space : parser unit := fun s =>
  match s with
  | String c _ => if Ascii.eqb c " " then Some (tt, cut_spaces s) else None
  | EmptyString => Some (tt, s)
  end.

Fixpoint cut_digits (s : string) : string :=
  match s with String c s' => if is_digit c then cut_digits s' else s | EmptyString => s end.
(** A fraction after the seconds is read although the layout has none. *)
Definition skip_fraction (s : string) : string :=
  match s with
  | String c (String d _ as s') =>
      if (Ascii.eqb c "." || Ascii.eqb c ",") && is_digit d then cut_digits s' else s
  | _ => s
  end.

(** The zone ["Z07:00"]: [Z] or a signed offset, in seconds east of UTC. *)
Definition get_offset : parser Z := fun s =>
  match s with
  | String "Z" s' => Some (0, s')
  | String sign rest =>
      if Ascii.eqb sign "+" || Ascii.eqb sign "-" then
        '(hours, s') ← in_bounds 0 24 (getnum true) rest;
        '(_, s') ← skip_char ":" s';
        '(mins, s') ← in_bounds 0 60 (getnum true) s';
        let offset := (hours * 60 + mins) * 60 in
        Some (if Ascii.eqb sign "-" then - offset else offset, s')
      else None
  | EmptyString => None
  end.
Definition get_zone : parser unit := fun s => '(_, s') ← get_offset s; Some (tt, s').

(** ** Days of a month *)

Definition is_leap (year : Z) : bool :=
  (year mod 4 =? 0) && (negb (year mod 100 =? 0) || (year mod 400 =? 0)).

Definition daysIn (month year : Z) : Z :=
  if month =? 2 then (if is_leap year then 29 else 28)
  else if (month =? 4) || (month =? 6) || (month =? 9) || (month =? 11) then 30 else 31.

Definition get_date : parser (Z * Z * Z) := fun s =>
  '(year, s) ← get_year s;
  '(_, s) ← skip_char "-" s;
  '(month, s) ← in_bounds 1 12 (getnum true) s;
  '(_, s) ← skip_char "-" s;
  '(day, s) ← getnum true s;
  Some (year, month, day, s).

Definition get_hms : parser (Z * Z * Z) := fun s =>
  '(hour, s) ← in_bounds 0 23 (getnum false) s;
  '(_, s) ← skip_char ":" s;
  '(min, s) ← in_bounds 0 59 (getnum true) s;
  '(_, s) ← skip_char ":" s;
  '(sec, s) ← in_bounds 0 59 (getnum true) s;
  Some (hour, min, sec, s).
Definition get_clock : parser (Z * Z * Z) := fun s => '(hms, s) ← get_hms s; Some (hms, skip_fraction s).

(** The end of every layout: no text is left and the day exists. *)
Definition finish_date (ymd hms : Z * Z * Z) (rest : string) : option civil :=
  let '(year, month, day) := ymd in
  let '(hour, min, sec) := hms in
  if String.eqb rest "" && in_range 1 (daysIn month year) day
  then Some (mkCivil year month day hour min sec) else None.

Definition parse_rfc3339 (s : string) : option civil :=
  '(ymd, s) ← get_date s;
  '(_, s) ← skip_char "T" s;
  '(hms, s) ← get_clock s;
  '(_, s) ← get_zone s;
  finish_date ymd hms s.

Definition parse_datetime (s : string) : option civil :=
  '(ymd, s) ← get_date s;
  '(_, s) ← skip_space s;
  '(hms, s) ← get_clock s;
  finish_date ymd hms s.

Definition parse_date (s : string) : option civil :=
  '(ymd, s) ← get_date s; finish_date ymd (0, 0, 0) s.

(** ** [ParseFlexible], [ParseDates] *)

Definition ParseFlexible (s : string) : result error civil :=
  match parse_rfc3339 s with
  | Some t => Ok t
  | None => match parse_datetime s with
            | Some t => Ok t
            | None => match parse_date s with
                      | Some t => Ok t
                      | None => Err (NewError ("unsupported date format: " +:+ s))
                      end
            end
  end.

(** [now] is [time.Now()]. *)
Definition ParseDates (now : civil) (effDate payDue : option string) (id : Z) : result error civil :=
  match effDate with
  | None => Ok now
  | Some eff =>
      match ParseFlexible eff with
      | Err e => Err (Wrap ("parse effective_date for bill " +:+ itoa id +:+ ": ") e "")
      | Ok t =>
          match payDue with
          | None => Ok t
          | Some due => match ParseFlexible due with
                        | Err e => Err (Wrap ("parse payment_due_date for bill " +:+ itoa id +:+ ": ") e "")
                        | Ok _ => Ok t
                        end
          end
      end
  end.

(** ** Facts *)

(** A date and time of day that a layout can write and read back. *)
Definition valid_civil (t : civil) : Prop :=
  0 <= t_year t <= 9999 /\ 1 <= t_month t <= 12 /\ 1 <= t_day t <= daysIn (t_month t) (t_year t)
  /\ 0 <= t_hour t <= 23 /\ 0 <= t_min t <= 59 /\ 0 <= t_sec t <= 59.

Definition two_digits_ok (x : Z) : bool :=
  match append_int x 2 with
  | String a (String b EmptyString) =>
      match digit_of a, digit_of b with Some u, Some v => u * 10 + v =? x | _, _ => false end
  | _ => false
  end.

Lemma two_digits_all : forallb two_digits_ok (seqZ 0 100) = true.
Proof. by vm_compute. Qed.

Lemma two_digits x : 0 <= x <= 99 -> exists a b u v,
  append_int x 2 = String a (str1 b) /\ digit_of a = Some u /\ digit_of b = Some v /\ u * 10 + v = x.
Proof.
  intros Hx. pose proof two_digits_all as H. rewrite forallb_forall in H.
  specialize (H x ltac:(apply list_elem_of_In, elem_of_seqZ; lia)). unfold two_digits_ok in H.
  destruct (append_int x 2) as [|a [|b [|]]]; try done.
  destruct (digit_of a) as [u|] eqn:Ea; [|done]. destruct (digit_of b) as [v|] eqn:Eb; [|done].
  exists a, b, u, v. split_and!; try done. lia.
Qed.

Lemma getnum_two b x s : 0 <= x <= 99 -> getnum b (append_int x 2 +:+ s) = Some (x, s).
Proof.
  intros Hx. destruct (two_digits x Hx) as (c & d & u & v & -> & Hc & Hd & <-).
  change (String c (str1 d) +:+ s) with (String c (String d s)). cbn [getnum]. by rewrite Hc, Hd.
Qed.

Lemma bounds_two b lo hi x s : 0 <= x <= 99 -> lo <= x <= hi ->
  in_bounds lo hi (getnum b) (append_int x 2 +:+ s) = Some (x, s).
Proof.
  intros Hx Hb. unfold in_bounds. rewrite getnum_two by done. cbn.
  by replace (in_range lo hi x) with true by (unfold in_range; lia).
Qed.

Definition year_ok (x : Z) : bool :=
  (String.length (append_int x 4) =? 4)%nat
  && match digits_value 0 (append_int x 4) with Some v => v =? x | None => false end.

Lemma year_all : forallb year_ok (seqZ 0 10000) = true.
Proof. by vm_compute. Qed.

Lemma take_bytes_prefix s t n : String.length s = n -> take_bytes n (s +:+ t) = s /\ drop_bytes n (s +:+ t) = t.
Proof.
  revert s. induction n as [|n IH]; intros [|c s]; try done. intros [= H].
  destruct (IH s H) as [H1 H2]. split; [exact (f_equal (String c) H1)|exact H2].
Qed.

Lemma get_year_append x s : 0 <= x <= 9999 -> get_year (append_int x 4 +:+ s) = Some (x, s).
Proof.
  intros Hx. pose proof year_all as H. rewrite forallb_forall in H.
  specialize (H x ltac:(apply list_elem_of_In, elem_of_seqZ; lia)). unfold year_ok in H.
  apply andb_true_iff in H as [Hl%Nat.eqb_eq Hv].
  destruct (digits_value 0 (append_int x 4)) as [v|] eqn:E; [|done]. apply Z.eqb_eq in Hv as ->.
  unfold get_year. destruct (take_bytes_prefix _ s _ Hl) as [-> ->].
  replace (_ <? 4)%nat with false by (rewrite string_length_app, Hl; symmetry; apply Nat.ltb_ge; lia).
  by rewrite E.
Qed.

Lemma skip_lit c s : skip_char c (String c EmptyString +:+ s) = Some (tt, s).
Proof. change (String c "" +:+ s) with (String c s). unfold skip_char. by rewrite Ascii.eqb_refl. Qed.

Lemma days_le month year : daysIn month year <= 31.
Proof. unfold daysIn. repeat (case_match; try lia). Qed.

Lemma get_date_format t s : valid_civil t ->
  get_date (format_date t +:+ s) = Some (t_year t, t_month t, t_day t, s).
Proof.
  intros (Hy & Hm & Hd & _). pose proof (days_le (t_month t) (t_year t)).
  unfold get_date, format_date. rewrite !string_app_assoc, get_year_append by lia. cbn [mbind option_bind].
  rewrite skip_lit. cbn [mbind option_bind]. rewrite bounds_two by lia. cbn [mbind option_bind].
  rewrite skip_lit. cbn [mbind option_bind]. by rewrite getnum_two by lia.
Qed.

Lemma get_hms_format t s : valid_civil t ->
  get_hms (format_clock t +:+ s) = Some (t_hour t, t_min t, t_sec t, s).
Proof.
  intros (_ & _ & _ & Hh & Hm & Hs). unfold get_hms, format_clock.
  rewrite !string_app_assoc, bounds_two by lia. cbn [mbind option_bind].
  rewrite skip_lit. cbn [mbind option_bind]. rewrite bounds_two by lia. cbn [mbind option_bind].
  rewrite skip_lit. cbn [mbind option_bind]. by rewrite bounds_two by lia.
Qed.

Lemma get_clock_format t s : valid_civil t -> skip_fraction s = s ->
  get_clock (format_clock t +:+ s) = Some (t_hour t, t_min t, t_sec t, s).
Proof. intros Ht Hf. unfold get_clock. rewrite get_hms_format by done. cbn [mbind option_bind]. by rewrite Hf. Qed.

Lemma finish_valid t : valid_civil t ->
  finish_date (t_year t, t_month t, t_day t) (t_hour t, t_min t, t_sec t) "" = Some t.
Proof.
  intros (_ & _ & Hd & _). unfold finish_date.
  replace (in_range _ _ _) with true by (unfold in_range; lia). by destruct t.
Qed.

(** The text that MySQL gives for a DATETIME column, and the one ZATCA's QR
    code has, are read back as the time they were written from. *)
Lemma parse_qr_format t : valid_civil t -> ParseFlexible (format_qr t) = Ok t.
Proof.
  intros Ht. unfold ParseFlexible, parse_rfc3339, format_qr.
  rewrite get_date_format by done. cbn [mbind option_bind]. rewrite skip_lit. cbn [mbind option_bind].
  rewrite get_clock_format by done. unfold get_zone. cbn [mbind option_bind get_offset]. by rewrite finish_valid.
Qed.

Lemma cut_spaces_clock t : valid_civil t -> cut_spaces (format_clock t) = format_clock t.
Proof.
  intros (_ & _ & _ & Hh & _). unfold format_clock.
  destruct (two_digits (t_hour t) ltac:(lia)) as (a & b & u & v & -> & Ha & _ & _).
  match goal with |- context [String a (str1 b) +:+ ?s] =>
    change (String a (str1 b) +:+ s) with (String a (str1 b +:+ s)) end.
  cbn [cut_spaces]. destruct (Ascii.eqb_spec a " ") as [->|]; [by vm_compute in Ha|done].
Qed.

Lemma parse_datetime_format t : valid_civil t ->
  ParseFlexible (format_date t +:+ " " +:+ format_clock t) = Ok t.
Proof.
  intros Ht. unfold ParseFlexible, parse_rfc3339, parse_datetime.
  rewrite get_date_format by done. cbn [mbind option_bind].
  change (" " +:+ format_clock t) with (String " " (format_clock t)).
  cbn [skip_char skip_space]. change (Ascii.eqb "T" " ") with false. cbv iota. cbn [mbind option_bind].
  change (Ascii.eqb " " " ") with true. cbv iota. cbn [cut_spaces].
  change (Ascii.eqb " " " ") with true. cbv iota.
  pose proof (get_clock_format t "" Ht eq_refl) as Hk. rewrite string_app_nil_r in Hk.
  rewrite cut_spaces_clock by done. cbn [mbind option_bind]. rewrite Hk. cbn [mbind option_bind]. by rewrite finish_valid.
Qed.

Example parse_samples :
  ParseFlexible "2024-02-29" = Ok (mkCivil 2024 2 29 0 0 0)
  /\ ParseFlexible "2024-05-01T7:08:09.25+03:00" = Ok (mkCivil 2024 5 1 7 8 9)
  /\ is_ok (ParseFlexible "2023-02-29") = false /\ is_ok (ParseFlexible "2024-05-01 10:00") = false.
Proof. by vm_compute. Qed.
