(* ===== verification/Scan.v ===== *)
(** * DATETIME columns ([nullableTime] of [queue/sql.go])

    A column is read from whatever the driver gives: nothing, a time, or a text
    in MySQL's layout or in RFC 3339. A time is an instant, in nanoseconds since
    1970-01-01 UTC; a text without a zone is read as UTC. *)

From S2P Require Import Prelude GoStrings Models GoErrors Message Decimal Civil Dates.
Local Open Scope Z_scope.

(** ** Instants *)

(** Days since 1970-01-01 in the Gregorian calendar. *)
Definition days_of (year month day : Z) : Z :=
  let y := if month <=? 2 then year - 1 else year in
  let era := y / 400 in
  let yoe := y - era * 400 in
  let doy := (153 * (month + (if 2 <? month then -3 else 9)) + 2) / 5 + day - 1 in
  let doe := yoe * 365 + yoe / 4 - yoe / 100 + doy in
  era * 146097 + doe - 719468.

Definition unix_seconds (t : civil) : Z :=
  days_of (t_year t) (t_month t) (t_day t) * 86400 + t_hour t * 3600 + t_min t * 60 + t_sec t.

Definition instant_of (t : civil) (nanos offset : Z) : Z := (unix_seconds t - offset) * 10 ^ 9 + nanos.

(** ** [time.Parse] with the fraction and the zone *)

(** [parseNanoseconds]: at most nine digits count. *)
Fixpoint fraction_value (places : nat) (s : string) : Z :=
  match places, s with
  | S n, String c s' =>
      match digit_of c with Some d => d * 10 ^ Z.of_nat n + fraction_value n s' | None => 0 end
  | _, _ => 0
  end.

(** The nanoseconds that may follow the seconds, and what is left. *)
Definition get_fraction (s : string) : Z * string :=
  match s with
  | String c (String d _ as s') =>
      if (Ascii.eqb c "." || Ascii.eqb c ",") && is_digit d then (fraction_value 9 s', cut_digits s') else (0, s)
  | _ => (0, s)
  end.

Definition time_datetime (s : string) : option Z :=
  '(ymd, s) ← get_date s;
  '(_, s) ← skip_space s;
  '(hms, s) ← get_hms s;
  let '(nanos, s) := get_fraction s in
  t ← finish_date ymd hms s;
  Some (instant_of t nanos 0).

Definition time_rfc3339 (s : string) : option Z :=
  '(ymd, s) ← get_date s;
  '(_, s) ← skip_char "T" s;
  '(hms, s) ← get_hms s;
  let '(nanos, s) := get_fraction s in
  '(offset, s) ← get_offset s;
  t ← finish_date ymd hms s;
  Some (instant_of t nanos offset).

(** ** [nullableTime] *)

(** [None] is not valid. *)
Definition nullableTime : Type := option Z.

(** What a driver hands to a scanner: nil, a time, bytes, a string, or a value
    of another type with its name. *)
Inductive driver_value : Type :=
| DNil
| DTime (t : Z)
| DBytes (s : string)
| DString (s : string)
| DOther (type : string).

Definition nullable_parse (value : string) : result error nullableTime :=
  match time_datetime value with
  | Some t => Ok (Some t)
  | None => match time_rfc3339 value with
            | Some t => Ok (Some t)
            | None => Err (NewError ("invalid DATETIME " +:+ quote value))
            end
  end.

Definition nullable_scan (value : driver_value) : result error nullableTime :=
  match value with
  | DNil => Ok None
  | DTime t => Ok (Some t)
  | DBytes s | DString s => nullable_parse s
  | DOther type => Err (NewError ("unsupported DATETIME value " +:+ type))
  end.

(** ** Facts *)

(** The text MySQL gives for an instant and the driver's own time are read as
    the same instant. *)
Theorem scan_datetime t : valid_civil t ->
  nullable_scan (DBytes (format_date t +:+ " " +:+ format_clock t)) = nullable_scan (DTime (instant_of t 0 0))
  /\ nullable_scan (DString (format_qr t)) = nullable_scan (DTime (instant_of t 0 0)).
Proof.
  intros Ht. cbn [nullable_scan]. pose proof (get_hms_format t "" Ht) as Hh. rewrite string_app_nil_r in Hh.
  split; unfold nullable_parse, time_datetime.
  - rewrite get_date_format by done. cbn [mbind option_bind].
    change (" " +:+ format_clock t) with (String " " (format_clock t)).
    cbn [skip_space cut_spaces]. change (Ascii.eqb " " " ") with true. cbv iota.
    rewrite cut_spaces_clock by done. cbn [mbind option_bind]. rewrite Hh. cbn [mbind option_bind get_fraction].
    by rewrite finish_valid.
  - unfold time_rfc3339, format_qr. rewrite get_date_format by done. cbn [mbind option_bind].
    change ("T" +:+ ?x) with (String "T" x). cbn [skip_space skip_char].
    change (Ascii.eqb "T" " ") with false. change (Ascii.eqb "T" "T") with true. cbv iota. cbn [mbind option_bind].
    rewrite get_hms_format by done. cbn [mbind option_bind get_fraction get_offset]. by rewrite finish_valid.
Qed.

(** The start of the epoch, a fraction, an offset, and a leap day. *)
Example scan_samples :
  nullable_scan (DString "1970-01-01 00:00:00") = Ok (Some 0)
  /\ nullable_scan (DString "2024-02-29 12:00:00.5") = Ok (Some 1709208000500000000)
  /\ nullable_scan (DBytes "2024-02-29T15:00:00+03:00") = Ok (Some 1709208000000000000)
  /\ is_ok (nullable_scan (DString "0000-00-00 00:00:00")) = false
  /\ nullable_scan DNil = Ok None.
Proof. by vm_compute. Qed.
