(* ===== verification/Unmarshal.v ===== *)
(** * [json.Unmarshal] into the API types

    Unlike the strict decoder of the control messages, [json.Unmarshal] wants
    the whole input to be one value, ignores members that name no field and
    decodes nested lists and structs. The tags are those of [models/models.go]. *)

From S2P Require Import Prelude GoStrings Models GoErrors Json.
Local Open Scope Z_scope.

Definition whole_value (data : string) : result json_error json :=
  match skip_space data with
  | EmptyString => Err JsonUnexpectedEOF
  | _ => match parse_value (S (S (String.length data))) data with
         | Ok (v, rest) => match skip_space rest with EmptyString => Ok v | _ => Err JsonSyntax end
         | Err e => Err e
         end
  end.

Fixpoint set_known {A} (fields : list (field A)) (l : list (string * json)) (a : A) : result json_error A :=
  match l with
  | [] => Ok a
  | (k, v) :: rest =>
      match find_field fields k with
      | None => set_known fields rest a
      | Some _ => match set_member fields k v a with
                  | Ok a => set_known fields rest a
                  | Err e => Err e
                  end
      end
  end.

(** One value into a struct; the type error of a member is returned after the
    others are set, and then the struct is not used. *)
Definition into_struct {A} (fields : list (field A)) (zero : A) (v : json) : result json_error A :=
  match v with
  | JNull => Ok zero
  | JObject l => set_known fields l zero
  | _ => Err (JsonType "")
  end.

Definition json_unmarshal {A} (fields : list (field A)) (zero : A) (data : string) : result json_error A :=
  match whole_value data with Ok v => into_struct fields zero v | Err e => Err e end.

Fixpoint into_all {A} (fields : list (field A)) (zero : A) (l : list json) : option (list A) :=
  match l with
  | [] => Some []
  | v :: rest => match into_struct fields zero v with
                 | Ok a => rest ← into_all fields zero rest; Some (a :: rest)
                 | Err _ => None
                 end
  end.

(** A slice and a pointer to a struct as fields; the members of the API types
    occur once, so what a slice held before is not looked at. *)
Definition list_field {A B} (name : string) (fields : list (field B)) (zero : B) (set : list B -> A -> A) : field A :=
  mkField name (fun v a => match v with
                           | JArray l => bs ← into_all fields zero l; Some (set bs a)
                           | _ => None
                           end).
Definition struct_field {A B} (name : string) (fields : list (field B)) (zero : B) (get : A -> option B)
    (set : option B -> A -> A) : field A :=
  mkField name (fun v a => match into_struct fields (default zero (get a)) v with
                           | Ok b => Some (set (Some b) a)
                           | Err _ => None
                           end).

(** [json.Number]: a number, or a string that is one. *)
Definition is_number (s : string) : bool :=
  match parse_value (S (S (String.length s))) s with Ok (JNumber n, EmptyString) => String.eqb n s | _ => false end.
Definition number_field {A} (name : string) (set : string -> A -> A) : field A :=
  mkField name (fun v a => match v with
                           | JNumber n => Some (set n a)
                           | JString s => if is_number s then Some (set s a) else None
                           | _ => None
                           end).

(** ** The tags of the API types *)

Definition detail0 : ErrorDetail := Build_ErrorDetail "" "".
Definition detail_fields : list (field ErrorDetail) :=
  [ string_field "code" (fun s d => Build_ErrorDetail s (detail_message d));
    string_field "message" (fun s d => Build_ErrorDetail (detail_code d) s) ].

Definition message0 : ValidationMessage := Build_ValidationMessage "" "" "" "" "".
Definition vm_fields : list (field ValidationMessage) :=
  [ string_field "type" (fun s m => Build_ValidationMessage s (vm_code m) (vm_category m) (vm_message m) (vm_status m));
    string_field "code" (fun s m => Build_ValidationMessage (vm_type m) s (vm_category m) (vm_message m) (vm_status m));
    string_field "category" (fun s m => Build_ValidationMessage (vm_type m) (vm_code m) s (vm_message m) (vm_status m));
    string_field "message" (fun s m => Build_ValidationMessage (vm_type m) (vm_code m) (vm_category m) s (vm_status m));
    string_field "status" (fun s m => Build_ValidationMessage (vm_type m) (vm_code m) (vm_category m) (vm_message m) s) ].

Definition results0 : ValidationResults := Build_ValidationResults [] [] [] "".
Definition results_fields : list (field ValidationResults) :=
  [ list_field "infoMessages" vm_fields message0 (fun l r => Build_ValidationResults l (warningMessages r) (errorMessages r) (vr_status r));
    list_field "warningMessages" vm_fields message0 (fun l r => Build_ValidationResults (infoMessages r) l (errorMessages r) (vr_status r));
    list_field "errorMessages" vm_fields message0 (fun l r => Build_ValidationResults (infoMessages r) (warningMessages r) l (vr_status r));
    string_field "status" (fun s r => Build_ValidationResults (infoMessages r) (warningMessages r) (errorMessages r) s) ].

Definition response0 : InvoiceResponse := Build_InvoiceResponse "" "" "" "" "" None [] [].
Definition response_fields : list (field InvoiceResponse) :=
  [ string_field "invoiceHash" (fun s r => Build_InvoiceResponse s (resp_status r) (resp_clearanceStatus r)
      (resp_reportingStatus r) (resp_clearedInvoice r) (resp_validationResults r) (resp_warnings r) (resp_errors r));
    string_field "status" (fun s r => Build_InvoiceResponse (resp_invoiceHash r) s (resp_clearanceStatus r)
      (resp_reportingStatus r) (resp_clearedInvoice r) (resp_validationResults r) (resp_warnings r) (resp_errors r));
    string_field "clearanceStatus" (fun s r => Build_InvoiceResponse (resp_invoiceHash r) (resp_status r) s
      (resp_reportingStatus r) (resp_clearedInvoice r) (resp_validationResults r) (resp_warnings r) (resp_errors r));
    string_field "reportingStatus" (fun s r => Build_InvoiceResponse (resp_invoiceHash r) (resp_status r)
      (resp_clearanceStatus r) s (resp_clearedInvoice r) (resp_validationResults r) (resp_warnings r) (resp_errors r));
    string_field "clearedInvoice" (fun s r => Build_InvoiceResponse (resp_invoiceHash r) (resp_status r)
      (resp_clearanceStatus r) (resp_reportingStatus r) s (resp_validationResults r) (resp_warnings r) (resp_errors r));
    struct_field "validationResults" results_fields results0 resp_validationResults
      (fun v r => Build_InvoiceResponse (resp_invoiceHash r) (resp_status r) (resp_clearanceStatus r)
         (resp_reportingStatus r) (resp_clearedInvoice r) v (resp_warnings r) (resp_errors r));
    list_field "warnings" detail_fields detail0 (fun l r => Build_InvoiceResponse (resp_invoiceHash r) (resp_status r)
      (resp_clearanceStatus r) (resp_reportingStatus r) (resp_clearedInvoice r) (resp_validationResults r) l (resp_errors r));
    list_field "errors" detail_fields detail0 (fun l r => Build_InvoiceResponse (resp_invoiceHash r) (resp_status r)
      (resp_clearanceStatus r) (resp_reportingStatus r) (resp_clearedInvoice r) (resp_validationResults r) (resp_warnings r) l) ].

Definition csid0 : CSIDResponse := Build_CSIDResponse "" "" "" "" [].
Definition csid_fields : list (field CSIDResponse) :=
  [ number_field "requestID" (fun s r => Build_CSIDResponse s (csid_dispositionMessage r) (csid_binarySecurityToken r) (csid_secret r) (csid_errors r));
    string_field "dispositionMessage" (fun s r => Build_CSIDResponse (csid_requestID r) s (csid_binarySecurityToken r) (csid_secret r) (csid_errors r));
    string_field "binarySecurityToken" (fun s r => Build_CSIDResponse (csid_requestID r) (csid_dispositionMessage r) s (csid_secret r) (csid_errors r));
    string_field "secret" (fun s r => Build_CSIDResponse (csid_requestID r) (csid_dispositionMessage r) (csid_binarySecurityToken r) s (csid_errors r));
    list_field "errors" detail_fields detail0 (fun l r => Build_CSIDResponse (csid_requestID r) (csid_dispositionMessage r) (csid_binarySecurityToken r) (csid_secret r) l) ].

Definition request0 : InvoiceRequest := Build_InvoiceRequest "" "" "".
Definition request_fields : list (field InvoiceRequest) :=
  [ string_field "invoiceHash" (fun s r => Build_InvoiceRequest s (req_uuid r) (req_invoice r));
    string_field "uuid" (fun s r => Build_InvoiceRequest (req_invoiceHash r) s (req_invoice r));
    string_field "invoice" (fun s r => Build_InvoiceRequest (req_invoiceHash r) (req_uuid r) s) ].

(** A sample: unknown members are ignored, nested lists are read. *)
Definition dq (s : string) : string := let q := str1 (byte_of 34) in q +:+ s +:+ q.
Definition sample_response : string :=
  "{" +:+ dq "clearanceStatus" +:+ ":" +:+ dq "CLEARED" +:+ "," +:+ dq "other" +:+ ":[1,2],"
  +:+ dq "validationResults" +:+ ":{" +:+ dq "warningMessages" +:+ ":[{" +:+ dq "code" +:+ ":" +:+ dq "W1"
  +:+ "}]}}".

Example unmarshal_sample :
  json_unmarshal response_fields response0 sample_response
  = Ok (Build_InvoiceResponse "" "" "CLEARED" "" ""
          (Some (Build_ValidationResults [] [Build_ValidationMessage "" "W1" "" "" ""] [] "")) [] []).
Proof. by vm_compute. Qed.
