(* ===== verification/JsonText.v ===== *)
(** * JSON texts of flat structs ([json.Marshal], [json.Encoder.Encode])

    How [encoding/json] writes a struct of strings, integers and booleans, with
    HTML escaping on as it is by default, and that [json.Unmarshal] and the
    strict decoder read the same members back. *)

From S2P Require Import Prelude GoStrings GoText Utf8 Models GoErrors Uuid Message Decimal Json Unmarshal.
Local Open Scope Z_scope.

(** [\u00XX], with lower-case digits. *)
Definition json_hex (r : Z) : string :=
  "\u" +:+ String (hex_digit (r / 4096)) (String (hex_digit (r / 256 mod 16))
    (String (hex_digit (r / 16 mod 16)) (str1 (hex_digit (r mod 16))))).

(** One rune of a string; [width] tells an invalid byte from the rune U+FFFD. *)
Definition json_rune (r : Z) (width : nat) : string :=
  if r =? 34 then "\" +:+ str1 (byte_of 34)
  else if r =? 92 then "\\"
  else if r =? 8 then "\b" else if r =? 12 then "\f"
  else if r =? 10 then "\n" else if r =? 13 then "\r" else if r =? 9 then "\t"
  else if (r <? 0x20) || (r =? 60) || (r =? 62) || (r =? 38) then json_hex r
  else if (r =? runeError) && (width =? 1)%nat then "\ufffd"
  else if (r =? 0x2028) || (r =? 0x2029) then json_hex r
  else encode_rune r.

Definition quote_mark : string := str1 (byte_of 34).

Definition write_all (l : list string) : string := foldr String.append "" l.

Definition json_body (s : string) : string := write_all (map (fun '(r, w) => json_rune r w) (runes_w s)).
Definition json_string (s : string) : string := quote_mark +:+ json_body s +:+ quote_mark.

(** A member's value: a string, an [int64] or a [bool]. *)
Inductive scalar : Type :=
| SText (s : string)
| SInt (z : Z)
| SBool (b : bool).

Definition json_scalar (v : scalar) : string :=
  match v with
  | SText s => json_string s
  | SInt z => itoa z
  | SBool b => if b then "true" else "false"
  end.

(** The members of an object, in the order of the struct's fields. *)
Fixpoint json_members (l : list (string * scalar)) : string :=
  match l with
  | [] => ""
  | [(k, v)] => json_string k +:+ ":" +:+ json_scalar v
  | (k, v) :: l' => json_string k +:+ ":" +:+ json_scalar v +:+ "," +:+ json_members l'
  end.

(** What [Marshal] returns. *)
Definition json_marshal (l : list (string * scalar)) : string := "{" +:+ json_members l +:+ "}".

(** A member with [omitempty]. *)
Definition omitempty (k v : string) : list (string * scalar) :=
  if String.eqb v "" then [] else [(k, SText v)].

Definition text_members (l : list (string * string)) : list (string * scalar) :=
  map (fun kv => (kv.1, SText kv.2)) l.

(** What [Encode] writes for a struct of strings: the object and a line break. *)
Definition json_encode (l : list (string * string)) : string :=
  json_marshal (text_members l) +:+ str1 (byte_of 10).

(** ** Reading back *)

Lemma decode_rune_take c s r n t : decode_rune c s = (r, n) -> rune_ok r n = true ->
  decode_rune c (take_bytes (pred n) s +:+ t) = (r, n).
Proof.
  unfold decode_rune, rune_ok. intros H Hok.
  destruct (bv c <? 0x80); [done|].
  destruct (utf8_first (bv c)) as [[[k lo] hi]|]; [|done].
  repeat split_match_in H; try done; injection H as <- <-; try done; cbn [pred take_bytes];
    repeat match goal with |- context [String ?c ?s +:+ ?t] =>
      change (String c s +:+ t) with (String c (s +:+ t)) end;
    cbn iota; repeat match goal with E : ?x = true |- context [?x] => rewrite E end; done.
Qed.

Lemma parse_string_skip k s : parse_string k s = parse_string 0 (drop_bytes k s).
Proof. revert s. induction k as [|k IH]; intros [|c s]; try done. exact (IH s). Qed.

Definition prepend (p : string) (r : result json_error (string * string)) : result json_error (string * string) :=
  match r with Ok (v, rest) => Ok (p +:+ v, rest) | Err e => Err e end.

Lemma json_hex_table :
  forallb (fun n => let r := Z.of_nat n in
             match getu4 (json_hex r) with Some x => (x =? r) && negb (is_surrogate x) | None => false end)
    (seq 0 128) = true.
Proof. vm_compute. reflexivity. Qed.

Lemma parse_escape_u e s r : bv e = 117 -> getu4 (String "\" (String e s)) = Some r -> is_surrogate r = false ->
  parse_string 0 (String "\" (String e s)) = prepend (encode_rune r) (parse_string 4 s).
Proof.
  intros He Hg Hs. cbn -[getu4 bv drop_bytes]. rewrite Hg, He, Hs.
  change (bv "\" =? 34) with false. change (bv "\" <? 32) with false. change (bv "\" =? 92) with true.
  cbn -[drop_bytes]. by destruct (parse_string 4 s) as [[]|].
Qed.

Lemma parse_json_hex r t : 0 <= r < 128 \/ r = 0x2028 \/ r = 0x2029 ->
  parse_string 0 (json_hex r +:+ t) = prepend (encode_rune r) (parse_string 0 t).
Proof.
  intros Hr.
  assert (Hg : getu4 (json_hex r) = Some r /\ is_surrogate r = false).
  { destruct Hr as [Hr|[->| ->]]; [|by vm_compute..].
    pose proof json_hex_table as H. rewrite forallb_forall in H. specialize (H (Z.to_nat r)).
    rewrite Z2Nat.id in H by lia. specialize (H ltac:(apply in_seq; lia)). cbv zeta in H.
    destruct (getu4 (json_hex r)) as [x|]; [|done].
    apply andb_true_iff in H as [->%Z.eqb_eq ?%negb_true_iff]. done. }
  unfold json_hex in *. revert Hg.
  generalize (hex_digit (r / 4096)), (hex_digit (r / 256 mod 16)), (hex_digit (r / 16 mod 16)), (hex_digit (r mod 16)).
  intros x y z w [Hg Hs].
  change (getu4 _) with (hex4 x y z w) in Hg.
  exact (parse_escape_u "u" (String x (String y (String z (String w t)))) r eq_refl Hg Hs).
Qed.

(** A rune that is written as it is. *)
Lemma parse_plain_rune r n c s t : decode_rune c s = (r, n) -> rune_ok r n = true ->
  32 <= bv c -> bv c <> 34 -> bv c <> 92 ->
  parse_string 0 (encode_rune r +:+ t) = prepend (encode_rune r) (parse_string 0 t).
Proof.
  intros Hd Hok H1 H2 H3. pose proof (decode_encode c s r n Hd Hok) as (m & -> & He & Hm & _).
  pose proof (decode_rune_take c s r (S m) t Hd Hok) as Ht. cbn [pred] in Ht.
  rewrite He at 1. change (String c (take_bytes m s) +:+ t) with (String c (take_bytes m s +:+ t)).
  cbn -[decode_rune bv take_bytes encode_rune]. rewrite Ht. cbn [pred].
  replace (bv c =? 34) with false by lia. replace (bv c <? 32) with false by lia.
  replace (bv c =? 92) with false by lia. cbn iota.
  rewrite parse_string_skip.
  assert (String.length (take_bytes m s) = m) as Hl.
  { clear -Hm. revert s Hm. induction m as [|m IH]; intros [|d s] Hm; cbn in *; [lia..|]. rewrite IH; lia. }
  rewrite <- Hl at 1. rewrite drop_bytes_app. by destruct (parse_string 0 t) as [[]|].
Qed.

Lemma decode_first c s r n : decode_rune c s = (r, n) -> rune_ok r n = true ->
  (bv c < 128 /\ r = bv c) \/ (128 <= bv c /\ 128 <= r).
Proof.
  intros Hd Hok. destruct (Z.ltb_spec (bv c) 128) as [H|H].
  - left. rewrite decode_rune_ascii in Hd by done. by simplify_eq.
  - right. split; [done|]. destruct (Z.ltb_spec r 128) as [Hr|]; [|done]. exfalso.
    pose proof (decode_encode c s r n Hd Hok) as (m & _ & He & _ & Hr0).
    rewrite encode_scalar in He by lia. replace (r <? 0x80) with true in He by lia.
    injection He as Hc _. rewrite <- Hc, bv_byte_of, Z.mod_small in H by lia. lia.
Qed.

Lemma parse_json_rune r n c s t : decode_rune c s = (r, n) -> rune_ok r n = true ->
  parse_string 0 (json_rune r n +:+ t) = prepend (encode_rune r) (parse_string 0 t).
Proof.
  intros Hd Hok. pose proof (decode_first c s r n Hd Hok) as Hc. pose proof (bv_range c).
  unfold json_rune.
  repeat match goal with
  | |- context [if r =? ?m then ?e else _] =>
      destruct (Z.eqb_spec r m) as [->|?]; cbn iota;
      [match goal with |- parse_string 0 ?x = _ => let y := eval vm_compute in x in change x with y end;
       cbn -[encode_rune]; by destruct (parse_string 0 t) as [[]|]|]
  end.
  destruct ((r <? 32) || _ || _ || _) eqn:E; [apply parse_json_hex; lia|].
  unfold rune_ok in Hok. apply negb_true_iff in Hok as Hok'. rewrite Hok'.
  destruct ((r =? 0x2028) || (r =? 0x2029)) eqn:E'; [apply parse_json_hex; lia|].
  eapply parse_plain_rune; [done|done|lia..].
Qed.

(** The body of a valid string reads as the string. *)
Lemma parse_json_body s t : valid_string s = true ->
  parse_string 0 (json_body s +:+ t) = prepend s (parse_string 0 t).
Proof.
  unfold valid_string, json_body, runes_w. remember (String.length s) as len eqn:Hlen.
  revert s Hlen. induction len as [len IH] using lt_wf_ind. intros [|c s] ->.
  - intros _. change (write_all _ +:+ t) with t. by destruct (parse_string 0 t) as [[]|].
  - cbn [runes_from]. destruct (decode_rune c s) as [r n] eqn:E. cbn [forallb map write_all foldr].
    intros [Hok Hrest]%andb_true_iff. change (foldr String.append "" ?x) with (write_all x).
    destruct (decode_encode c s r n E Hok) as (m & -> & He & Hm & _). cbn [pred] in *.
    rewrite runes_from_skip in Hrest |- *. rewrite string_app_assoc, (parse_json_rune r (S m) c s) by done.
    rewrite (IH (String.length (drop_bytes m s))); [| |done|done].
    + rewrite He. destruct (parse_string 0 t) as [[v rest]|]; [|done]. cbn [prepend].
      rewrite <- string_app_assoc. change (String c ?a +:+ ?b) with (String c (a +:+ b)). by rewrite take_drop_bytes.
    + cbn [String.length]. rewrite <- (take_drop_bytes m s) at 2. rewrite string_length_app. lia.
Qed.

Lemma parse_json_string s t : valid_string s = true ->
  parse_string 0 (json_body s +:+ quote_mark +:+ t) = Ok (s, t).
Proof.
  intros Hs. rewrite parse_json_body by done. change (parse_string 0 (quote_mark +:+ t)) with (Ok (E := json_error) ("", t)).
  cbn [prepend]. by rewrite string_app_nil_r.
Qed.

(** ** Numbers *)

Lemma pretty_N_go_head (n : N) s : (0 < n)%N -> exists d, (0 < d < 10)%N /\ exists t, pretty_N_go n s = String (pretty_N_char d) t.
Proof.
  revert s. induction (N.lt_wf_0 n) as [n _ IH]; intros s Hn.
  rewrite pretty_N_go_step by done. destruct (N.ltb_spec n 10) as [Hlt|Hge].
  - exists n. split; [lia|]. rewrite N.div_small, N.mod_small, pretty_N_go_0 by done. by eexists.
  - apply IH; [apply N.div_lt; lia|]. apply N.div_str_pos. lia.
Qed.

(** A decimal integer is [0] or starts with another digit. *)
Lemma itoa_head z : 0 < z -> exists c s, itoa z = String c s /\ is_digit c = true /\ (bv c =? 48) = false.
Proof.
  intros Hz. rewrite itoa_N by lia. unfold pretty, pretty_N. rewrite decide_False by lia.
  destruct (pretty_N_go_head (Z.to_N z) "") as (d & Hd & t & ->); [lia|].
  exists (pretty_N_char d), t. pose proof (pretty_N_char_value d ltac:(lia)) as Hv.
  split_and!; [done| |lia]. unfold is_digit, in_range. lia.
Qed.

(** The end of a member's value. *)
Definition member_end (t : string) : Prop := exists r, t = "," +:+ r \/ t = "}" +:+ r.

Lemma span_digits_app s t : (forall c, c ∈ bytes s -> is_digit c = true) -> member_end t ->
  span_digits (s +:+ t) = (s, t).
Proof.
  intros Hs [r Ht]. induction s as [|c s IH].
  - by destruct Ht as [-> | ->].
  - change (String c s +:+ t) with (String c (s +:+ t)). cbn [span_digits].
    rewrite (Hs c) by apply list_elem_of_here. rewrite IH; [done|].
    intros d Hd. apply Hs. by apply list_elem_of_further.
Qed.

Lemma parse_int_part_itoa z t : 0 <= z -> member_end t -> parse_int_part (itoa z +:+ t) = Ok (itoa z, t).
Proof.
  intros Hz Ht. destruct (decide (z = 0)) as [->|Hne]; [done|].
  pose proof (span_digits_app (itoa z) t (fun c => itoa_digits z c Hz) Ht) as Hsp.
  destruct (itoa_head z) as (c & s & E & Hd & H0); [lia|]. rewrite E in *.
  change (String c s +:+ t) with (String c (s +:+ t)) in *. unfold parse_int_part. by rewrite H0, Hd, Hsp.
Qed.

Lemma parse_number_itoa z t : member_end t -> parse_number (itoa z +:+ t) = Ok (itoa z, t).
Proof.
  intros Ht. assert (Htail : parse_fraction t = Ok ("", t) /\ parse_exponent t = Ok ("", t))
    by (destruct Ht as [r [-> | ->]]; done).
  destruct Htail as [Hf Hx]. unfold parse_number. destruct (Z.ltb_spec z 0) as [Hz|Hz].
  - rewrite itoa_neg by done. change (String "-" ?a +:+ t) with (String "-" (a +:+ t)).
    cbn iota beta. change (bv "-" =? 45) with true. cbn iota beta.
    rewrite parse_int_part_itoa, Hf, Hx by (done || lia). by rewrite !string_app_nil_r.
  - pose proof (parse_int_part_itoa z t Hz Ht) as Hi.
    destruct (itoa z) as [|c s] eqn:E; [by destruct (itoa_not_empty z)|].
    assert (Hc : is_digit c = true) by (apply (itoa_digits z); [done|rewrite E; apply list_elem_of_here]).
    change (String c s +:+ t) with (String c (s +:+ t)) in *.
    cbn iota beta. replace (bv c =? 45) with false by (unfold is_digit, in_range in Hc; lia).
    cbn iota beta. rewrite Hi, Hf, Hx. by rewrite !string_app_nil_r.
Qed.

Lemma parse_int64_itoa z : min_int64 <= z <= max_int64 -> parse_int64 (itoa z) = Some z.
Proof.
  intros Hz. assert (Hin : in_range min_int64 max_int64 z = true) by (unfold in_range; lia).
  unfold parse_int64. destruct (Z.ltb_spec z 0) as [Hn|Hn].
  - rewrite itoa_neg by done. cbn iota beta. change (bv "-" =? 45) with true. cbn iota beta.
    pose proof (itoa_not_empty (- z)). destruct (itoa (- z)) as [|c s] eqn:E; [done|].
    rewrite <- E, digits_value_itoa by lia. cbn [mbind option_bind]. by rewrite Z.opp_involutive, Hin.
  - destruct (itoa z) as [|c s] eqn:E; [by destruct (itoa_not_empty z)|].
    assert (Hc : is_digit c = true) by (apply (itoa_digits z); [done|rewrite E; apply list_elem_of_here]).
    cbn iota beta. replace (bv c =? 45) with false by (unfold is_digit, in_range in Hc; lia).
    cbn iota beta. rewrite <- E, digits_value_itoa by lia. cbn [mbind option_bind]. by rewrite Hin.
Qed.

(** ** Objects *)

Definition scalar_json (v : scalar) : json :=
  match v with SText s => JString s | SInt z => JNumber (itoa z) | SBool b => JBool b end.

Definition as_members (l : list (string * scalar)) : list (string * json) :=
  map (fun kv => (kv.1, scalar_json kv.2)) l.

Definition scalar_valid (v : scalar) : Prop :=
  match v with SText s => valid_string s = true | _ => True end.

Definition members_valid (l : list (string * scalar)) : Prop :=
  Forall (fun kv => valid_string kv.1 = true /\ scalar_valid kv.2) l.

Definition texts_valid (l : list (string * string)) : Prop :=
  Forall (fun kv => valid_string kv.1 = true /\ valid_string kv.2 = true) l.

Lemma text_members_valid l : texts_valid l -> members_valid (text_members l).
Proof. intros H. apply Forall_map. exact H. Qed.

Lemma omitempty_valid k v : valid_string k = true -> valid_string v = true -> members_valid (omitempty k v).
Proof. intros Hk Hv. unfold omitempty. case_match; [apply Forall_nil_2|by apply Forall_singleton]. Qed.

Lemma parse_value_string fuel v t : valid_string v = true ->
  parse_value (S fuel) (json_string v +:+ t) = Ok (JString v, t).
Proof.
  intros Hv. unfold json_string. rewrite !string_app_assoc.
  change (quote_mark +:+ ?x) with (String (byte_of 34) x) at 1.
  cbn -[parse_string bv byte_of one_of is_json_space].
  change (is_json_space (byte_of 34)) with false. cbn -[parse_string bv byte_of one_of].
  change (one_of (byte_of 34) 34) with true. cbn iota. by rewrite parse_json_string.
Qed.

Lemma parse_value_number fuel z t : member_end t ->
  parse_value (S fuel) (itoa z +:+ t) = Ok (JNumber (itoa z), t).
Proof.
  intros Ht. pose proof (parse_number_itoa z t Ht) as Hn.
  assert (Hc : exists c s, itoa z = String c s /\ (bv c = 45 \/ is_digit c = true)).
  { destruct (Z.ltb_spec z 0) as [Hz|Hz]; [rewrite itoa_neg by done; by eexists _, _; split; [|left]|].
    destruct (itoa z) as [|c s] eqn:E; [by destruct (itoa_not_empty z)|]. eexists _, _. split; [done|right].
    apply (itoa_digits z); [done|rewrite E; apply list_elem_of_here]. }
  destruct Hc as (c & s & E & Hc). rewrite E in *. change (String c s +:+ t) with (String c (s +:+ t)) in *.
  assert (Hb : bv c = 45 \/ 48 <= bv c <= 57) by (unfold is_digit, in_range in Hc; lia).
  cbn [parse_value skip_space].
  replace (is_json_space c) with false by (unfold is_json_space; lia).
  unfold one_of.
  replace (bv c =? 34) with false by lia. replace (bv c =? 123) with false by lia.
  replace (bv c =? 91) with false by lia. replace (bv c =? 116) with false by lia.
  replace (bv c =? 102) with false by lia. replace (bv c =? 110) with false by lia.
  replace ((bv c =? 45) || is_digit c) with true by (unfold is_digit, in_range; lia).
  by rewrite Hn.
Qed.

Lemma parse_value_scalar fuel v t : scalar_valid v -> member_end t ->
  parse_value (S fuel) (json_scalar v +:+ t) = Ok (scalar_json v, t).
Proof.
  intros Hv Ht. destruct v as [s|z|[]]; [by apply parse_value_string|by apply parse_value_number|..]; by destruct Ht as [r [-> | ->]].
Qed.

(** One member: its key, the colon, its value. *)
Lemma parse_members_step fuel k v t : valid_string k = true -> scalar_valid v -> member_end t ->
  parse_members (S (S fuel)) (json_string k +:+ ":" +:+ json_scalar v +:+ t)
  = match skip_space t with
    | EmptyString => Err JsonUnexpectedEOF
    | String x s5 =>
        if one_of x 125 then Ok ([(k, scalar_json v)], s5)
        else if one_of x 44 then
          match parse_members (S fuel) s5 with
          | Ok (l, r) => Ok ((k, scalar_json v) :: l, r) | Err e => Err e end
        else Err JsonSyntax
    end.
Proof.
  intros Hk Hv Ht. unfold json_string at 1. rewrite !string_app_assoc.
  change (quote_mark +:+ ?x) with (String (byte_of 34) x) at 1.
  set (n := S fuel). cbn -[parse_string bv byte_of one_of is_json_space parse_value json_scalar scalar_json].
  change (is_json_space (byte_of 34)) with false. change (one_of (byte_of 34) 34) with true. cbn iota.
  rewrite parse_json_string by done.
  change (":" +:+ json_scalar v +:+ t) with (String ":" (json_scalar v +:+ t)).
  change (skip_space (String ":" ?x)) with (String ":" x). cbn iota.
  change (negb (one_of ":" 58)) with false. cbn iota.
  subst n. by rewrite parse_value_scalar.
Qed.

Lemma parse_members_all l fuel t : l <> [] -> members_valid l -> (length l <= fuel)%nat ->
  parse_members (S fuel) (json_members l +:+ "}" +:+ t) = Ok (as_members l, t).
Proof.
  assert (Hb : forall r, member_end ("}" +:+ r)) by (intros r; exists r; by right).
  assert (Hc : forall r, member_end ("," +:+ r)) by (intros r; exists r; by left).
  revert fuel. induction l as [|[k v] l IH]; intros [|fuel] Hne Hl Hf; try done; [cbn in Hf; lia|].
  apply Forall_cons in Hl as [[Hk Hv] Hl]. cbn [fst snd] in *.
  destruct l as [|kv l].
  - cbn [json_members]. rewrite !string_app_assoc, parse_members_step by done. done.
  - change (json_members ((k, v) :: kv :: l))
      with (json_string k +:+ ":" +:+ json_scalar v +:+ "," +:+ json_members (kv :: l)).
    rewrite !string_app_assoc, parse_members_step by done.
    change ("," +:+ ?x) with (String "," x). change (skip_space (String "," ?x)) with (String "," x).
    cbn iota. change (one_of "," 125) with false. change (one_of "," 44) with true. cbn iota.
    rewrite IH by (cbn in Hf |- *; done || lia). done.
Qed.

Lemma json_members_length l : (length l <= String.length (json_members l))%nat.
Proof.
  induction l as [|[k v] [|kv l] IH]; [cbn; lia| |].
  - cbn [json_members length]. rewrite !string_length_app. cbn. lia.
  - change (json_members ((k, v) :: kv :: l))
      with (json_string k +:+ ":" +:+ json_scalar v +:+ "," +:+ json_members (kv :: l)).
    rewrite !string_length_app in *. cbn [length String.length] in *. lia.
Qed.

(** A marshalled object is one JSON value. *)
Lemma parse_marshalled l fuel t : l <> [] -> members_valid l -> (length l <= fuel)%nat ->
  parse_value (S (S fuel)) (json_marshal l +:+ t) = Ok (JObject (as_members l), t).
Proof.
  intros Hne Hl Hf. unfold json_marshal. rewrite !string_app_assoc.
  pose proof (parse_members_all l fuel t Hne Hl Hf) as Hm. revert Hm. set (body := json_members l +:+ _). intros Hm.
  assert (Hhead : exists b, body = String (byte_of 34) b).
  { unfold body. destruct l as [|[k v] [|kv l]]; [done|by eexists..]. }
  destruct Hhead as [b Hb].
  change ("{" +:+ body) with (String "{" body).
  cbn -[parse_members skip_space one_of]. change (skip_space (String "{" body)) with (String "{" body).
  cbn iota. change (one_of "{" 34) with false. change (one_of "{" 123) with true. cbn iota.
  rewrite Hb at 1. change (skip_space (String (byte_of 34) b)) with (String (byte_of 34) b). cbn iota.
  change (one_of (byte_of 34) 125) with false. cbn iota. by rewrite Hm.
Qed.

Lemma parse_marshalled_all l t : l <> [] -> members_valid l ->
  parse_value (S (S (String.length (json_marshal l +:+ t)))) (json_marshal l +:+ t) = Ok (JObject (as_members l), t)
  /\ exists s, json_marshal l +:+ t = String "{" s.
Proof.
  intros Hne Hl. split; [|by eexists]. apply parse_marshalled; [done..|]. unfold json_marshal.
  pose proof (json_members_length l). rewrite !string_length_app. cbn [String.length]. lia.
Qed.

(** [json.Unmarshal] of a marshalled struct sets each member, and so does the
    strict decoder. *)
Lemma unmarshal_marshalled {A} (fields : list (field A)) zero l t : l <> [] -> members_valid l ->
  skip_space t = "" ->
  json_unmarshal fields zero (json_marshal l +:+ t) = set_known fields (as_members l) zero.
Proof.
  intros Hne Hl Ht. unfold json_unmarshal, whole_value.
  destruct (parse_marshalled_all l t Hne Hl) as [Hp [s E]]. rewrite E in *.
  change (skip_space (String "{" s)) with (String "{" s). cbn iota. by rewrite Hp, Ht.
Qed.

Lemma decode_marshalled {A} (fields : list (field A)) zero l : l <> [] -> members_valid l ->
  decode_struct fields zero (json_marshal l) = set_members fields (as_members l) zero.
Proof.
  intros Hne Hl. unfold decode_struct, next_value.
  destruct (parse_marshalled_all l "" Hne Hl) as [Hp [s E]]. rewrite string_app_nil_r in *. rewrite E in *.
  change (skip_space (String "{" s)) with (String "{" s). cbn iota. by rewrite Hp.
Qed.

Lemma unmarshal_encoded {A} (fields : list (field A)) zero l : l <> [] -> texts_valid l ->
  json_unmarshal fields zero (json_encode l) = set_known fields (as_members (text_members l)) zero.
Proof.
  intros Hne Hl. apply unmarshal_marshalled; [by destruct l|by apply text_members_valid|done].
Qed.
