(* ===== verification/Operator.v ===== *)
(** * The reconciliation command ([cmd/zatca-reconcile/main.go])

    The operator's command fills a request from its flags, sends it to the
    daemon that serves the tenant, prints the reply and exits with 0 when the
    request was accepted. The JSON texts of the request and the reply are those
    of [queue/reconcile.go], and [Reconcile.respond] is the other side. *)

From S2P Require Import Prelude GoStrings GoText Utf8 Models GoErrors Uuid Message ChainTypes Control Json.
From S2P Require Import Envelope Claims Program Stream StreamSpec Reconcile Unmarshal JsonText.
Local Open Scope Z_scope.

(** ** The texts of a request and its reply *)

(** The tags of [ReconcileRequest] in field order. *)
Definition ReconcileRequest_json (r : ReconcileRequest) : list (string * scalar) :=
  [ ("tenant_key", SText (rq_TenantKey r)); ("db_name", SText (rq_DBName r));
    ("branch_id", SInt (rq_BranchID r)); ("bill_id", SInt (rq_BillID r)); ("action", SText (rq_Action r)) ]
  ++ omitempty "invoice_uuid" (rq_InvoiceUUID r) ++ omitempty "invoice_hash" (rq_InvoiceHash r)
  ++ omitempty "state" (rq_State r) ++ omitempty "provider_code" (rq_ProviderCode r)
  ++ omitempty "message" (rq_Message r) ++ omitempty "evidence_id" (rq_EvidenceID r).

Definition EncodeReconcileRequest (req : ReconcileRequest) : result error string :=
  match ReconcileRequest_Validate req with
  | Some e => Err e
  | None => Ok (json_marshal (ReconcileRequest_json req))
  end.

(** The tags of [ReconcileReply], written and read. *)
Definition ReconcileReply_json (r : ReconcileReply) : list (string * scalar) :=
  [ ("accepted", SBool (rp_Accepted r)) ]
  ++ omitempty "state" (rp_State r) ++ omitempty "evidence" (rp_Evidence r)
  ++ omitempty "evidence_id" (rp_EvidenceID r) ++ omitempty "invoice_hash" (rp_InvoiceHash r)
  ++ omitempty "error" (rp_Error r).

Definition as_bool (v : json) : option bool := match v with JBool b => Some b | _ => None end.

Definition set_rp (f s : string) (r : ReconcileReply) : ReconcileReply :=
  let pick name old := if String.eqb f name then s else old in
  mkReconcileReply (rp_Accepted r) (pick "state" (rp_State r)) (pick "evidence" (rp_Evidence r))
    (pick "evidence_id" (rp_EvidenceID r)) (pick "invoice_hash" (rp_InvoiceHash r)) (pick "error" (rp_Error r)).

Definition ReconcileReply0 : ReconcileReply := mkReconcileReply false "" "" "" "" "".

Definition reply_fields : list (field ReconcileReply) :=
  [ mkField "accepted" (fun v r => b ← as_bool v; Some (mkReconcileReply b (rp_State r) (rp_Evidence r)
      (rp_EvidenceID r) (rp_InvoiceHash r) (rp_Error r)));
    string_field "state" (set_rp "state"); string_field "evidence" (set_rp "evidence");
    string_field "evidence_id" (set_rp "evidence_id"); string_field "invoice_hash" (set_rp "invoice_hash");
    string_field "error" (set_rp "error") ].

(** [json.MarshalIndent] of a struct with a member, with an empty prefix. *)
Fixpoint indent_members (indent : string) (l : list (string * scalar)) : string :=
  match l with
  | [] => ""
  | [(k, v)] => indent +:+ json_string k +:+ ": " +:+ json_scalar v
  | (k, v) :: l' => indent +:+ json_string k +:+ ": " +:+ json_scalar v +:+ "," +:+ str1 (byte_of 10)
                    +:+ indent_members indent l'
  end.
Definition json_indent (indent : string) (l : list (string * scalar)) : string :=
  "{" +:+ str1 (byte_of 10) +:+ indent_members indent l +:+ str1 (byte_of 10) +:+ "}".

(** ** The command *)

Definition envOrDefault (Getenv : string -> string) (key fallback : string) : string :=
  let value := Getenv key in if negb (String.eqb value "") then value else fallback.

(** The flags after [flag.Parse]; the timeout is in nanoseconds. *)
Record flags : Type := mkFlags {
  fl_natsURL : string;
  fl_tenantKey : string;
  fl_dbName : string;
  fl_branchID : Z;
  fl_billID : Z;
  fl_action : string;
  fl_invoiceUUID : string;
  fl_invoiceHash : string;
  fl_state : string;
  fl_providerCode : string;
  fl_message : string;
  fl_evidenceID : string;
  fl_timeout : Z
}.

(** The flags of a command line that sets none. *)
Definition default_flags (Getenv : string -> string) : flags :=
  mkFlags (envOrDefault Getenv "NATS_URL" "") "" "" 0 0 ReconcileActionStatus "" "" "" "" "" "" (10 * 10 ^ 9).

Definition flags_request (fl : flags) : ReconcileRequest :=
  mkReconcileRequest (fl_tenantKey fl) (fl_dbName fl) (fl_branchID fl) (fl_billID fl) (fl_action fl)
    (fl_invoiceUUID fl) (fl_invoiceHash fl) (fl_state fl) (fl_providerCode fl) (fl_message fl) (fl_evidenceID fl).

(** How the process ends: what it logged, what it printed, its exit code. *)
Record process_end : Type := mkEnd { pe_stderr : string; pe_stdout : string; pe_code : Z }.

(** [log.Fatal]; the time it writes first is left out. *)
Definition log_fatal (text : string) : process_end := mkEnd (text +:+ str1 (byte_of 10)) "" 1.

Section main.
(** [nats.Connect] of a URL, and [nc.Request] with a subject, data and a timeout. *)
Context (Connect : string -> option error) (Request : string -> string -> Z -> result error string).

Definition reconcile_main (fl : flags) : process_end :=
  if String.eqb (fl_natsURL fl) "" then log_fatal "NATS URL is required: set --nats-url or NATS_URL" else
  let req := flags_request fl in
  match EncodeReconcileRequest req with
  | Err e => log_fatal (error_text e)
  | Ok data =>
      match Connect (fl_natsURL fl) with
      | Some e => log_fatal ("connect to NATS: " +:+ error_text e)
      | None =>
          match Request (ReconcileSubject (rq_TenantKey req)) data (fl_timeout fl) with
          | Err e => log_fatal ("reconciliation request failed: " +:+ error_text e)
          | Ok replyData =>
              match json_unmarshal reply_fields ReconcileReply0 replyData with
              | Err e => log_fatal ("decode reconciliation reply: " +:+ json_error_text e)
              | Ok reply =>
                  mkEnd "" (json_indent "  " (ReconcileReply_json reply) +:+ str1 (byte_of 10))
                    (if negb (rp_Accepted reply) then 1 else 0)
              end
          end
      end
  end.
End main.

(** ** Round trips *)

Definition int64_ok (z : Z) : Prop := min_int64 <= z <= max_int64.

Section members.
Context {A : Type} (fields : list (field A)).

Lemma set_members_omitempty k set v rest a a' :
  find_field fields k = Some (string_field k set) -> set v a = a' -> (v = "" -> a = a') ->
  set_members fields (as_members (omitempty k v ++ rest)) a = set_members fields (as_members rest) a'.
Proof.
  intros Hf Hs He. unfold omitempty. destruct (String.eqb_spec v "") as [->|]; [by rewrite (He eq_refl)|].
  cbn [as_members app map fst snd scalar_json set_members]. unfold set_member. rewrite Hf. cbn. by rewrite Hs.
Qed.

Lemma set_members_text k set v rest a :
  find_field fields k = Some (string_field k set) ->
  set_members fields (as_members ((k, SText v) :: rest)) a = set_members fields (as_members rest) (set v a).
Proof. intros Hf. cbn [as_members map fst snd scalar_json set_members]. unfold set_member. by rewrite Hf. Qed.

Lemma set_members_int k set z rest a :
  find_field fields k = Some (int64_field k set) -> int64_ok z ->
  set_members fields (as_members ((k, SInt z) :: rest)) a = set_members fields (as_members rest) (set z a).
Proof.
  intros Hf Hz. cbn [as_members map fst snd scalar_json set_members]. unfold set_member. rewrite Hf.
  cbn -[parse_int64 itoa]. by rewrite parse_int64_itoa.
Qed.

(** [json.Unmarshal] and the strict decoder agree on members that name fields. *)
Lemma set_known_members l a :
  (forall k v, (k, v) ∈ l -> find_field fields k <> None) -> set_known fields l a = set_members fields l a.
Proof.
  revert a. induction l as [|[k v] l IH]; intros a Hl; [done|]. cbn.
  destruct (find_field fields k) eqn:E; [|by destruct (Hl k v); [left|]].
  destruct (set_member fields k v a); [|done]. apply IH. intros k' v' Hin. apply (Hl k' v'). by right.
Qed.
End members.

(** The texts of a request, and its numbers, as Go's types hold them and a
    UTF-8 command line gives them. *)
Definition request_ok (r : ReconcileRequest) : Prop :=
  members_valid (ReconcileRequest_json r) /\ int64_ok (rq_BranchID r) /\ int64_ok (rq_BillID r).

(** The next member, one with [omitempty]. *)
Ltac set_next k set :=
  erewrite (set_members_omitempty _ k set); [|reflexivity|reflexivity|by intros ->].

Lemma request_members r : int64_ok (rq_BranchID r) -> int64_ok (rq_BillID r) ->
  set_members reconcile_fields (as_members (ReconcileRequest_json r)) ReconcileRequest0 = Ok r.
Proof.
  intros H1 H2. destruct r as [tk db br bill action uuid hash state code msg ev].
  unfold ReconcileRequest_json. cbn [app rq_TenantKey rq_DBName rq_BranchID rq_BillID rq_Action rq_InvoiceUUID
    rq_InvoiceHash rq_State rq_ProviderCode rq_Message rq_EvidenceID] in *.
  rewrite (set_members_text _ "tenant_key" (set_rq "tenant_key")) by reflexivity.
  rewrite (set_members_text _ "db_name" (set_rq "db_name")) by reflexivity.
  erewrite (set_members_int _ "branch_id") by first [reflexivity | done].
  erewrite (set_members_int _ "bill_id") by first [reflexivity | done].
  rewrite (set_members_text _ "action" (set_rq "action")) by reflexivity. cbn.
  set_next "invoice_uuid" (set_rq "invoice_uuid"). set_next "invoice_hash" (set_rq "invoice_hash").
  set_next "state" (set_rq "state"). set_next "provider_code" (set_rq "provider_code").
  set_next "message" (set_rq "message").
  rewrite <- (app_nil_r (omitempty "evidence_id" _)).
  set_next "evidence_id" (set_rq "evidence_id"). reflexivity.
Qed.

(** The daemon reads the request that the command wrote. *)
Lemma request_round_trip r data : request_ok r ->
  EncodeReconcileRequest r = Ok data -> DecodeReconcileRequest data = Ok r.
Proof.
  intros (Hm & H1 & H2) He. unfold EncodeReconcileRequest in He.
  destruct (ReconcileRequest_Validate r) eqn:Hv; [done|]. injection He as <-.
  unfold DecodeReconcileRequest, strictDecode. rewrite decode_marshalled by done.
  rewrite request_members by done. by rewrite Hv.
Qed.

Lemma omitempty_in k v k' v' : (k', v') ∈ omitempty k v -> k' = k.
Proof. unfold omitempty. case_match; [by intros ?%elem_of_nil|]. by intros [= -> _]%list_elem_of_singleton. Qed.

(** The command reads the reply that the daemon wrote. *)
Lemma reply_round_trip r : members_valid (ReconcileReply_json r) ->
  json_unmarshal reply_fields ReconcileReply0 (json_marshal (ReconcileReply_json r)) = Ok r.
Proof.
  intros Hm. rewrite <- (string_app_nil_r (json_marshal _)). rewrite unmarshal_marshalled by done.
  rewrite set_known_members; cycle 1.
  { intros k v ([k0 v0] & [= -> ->] & Hin)%list_elem_of_fmap. unfold ReconcileReply_json in Hin.
    rewrite !elem_of_app, list_elem_of_singleton in Hin.
    destruct Hin as [[= -> ->]|Hin]; [done|].
    by repeat destruct Hin as [->%omitempty_in|Hin]; [..|apply omitempty_in in Hin as ->]. }
  destruct r as [acc st ev id hash err]. unfold ReconcileReply_json.
  cbn [app rp_Accepted rp_State rp_Evidence rp_EvidenceID rp_InvoiceHash rp_Error].
  cbn [as_members map fst snd scalar_json set_members]. unfold set_member at 1. cbn.
  set_next "state" (set_rp "state"). set_next "evidence" (set_rp "evidence").
  set_next "evidence_id" (set_rp "evidence_id"). set_next "invoice_hash" (set_rp "invoice_hash").
  rewrite <- (app_nil_r (omitempty "error" _)). set_next "error" (set_rp "error"). reflexivity.
Qed.

(** ** The daemon's side of an exchange *)

(** The invoice is the one a request names. *)
Definition names_invoice (req : ReconcileRequest) (stored : SignedInvoice) : Prop :=
  (rq_InvoiceUUID req = "" \/ rq_InvoiceUUID req = si_UUID stored)
  /\ (rq_InvoiceHash req = "" \/ rq_InvoiceHash req = si_Hash stored).

Section exchange.
Context {Prepared : Type}.
Local Abbreviation call := (call Prepared).

(** What the daemon has done for an accepted request: it read the invoice of
    the bill, which is the one the request names, and for a record request the
    invoice had no final answer and Record returned nil. Record returns nil
    without storing anything when the invoice is not pending any more, or is
    ambiguous: see [Reconcile.ambiguous_reconciliation_lost]. *)
Definition request_answered (req : ReconcileRequest) (h : list call) : Prop :=
  exists stored, did h (EStored (bill_query (rq_BillID req))) (Ok (Some stored))
    /\ names_invoice req stored
    /\ (rq_Action req = ReconcileActionStatus
        \/ reconcilable stored = true /\ did h (ERecord stored (external_outcome req)) (Ok tt)).

(** The answers of the reads and of the records among the calls. *)
Definition read_answer (c : call) : option (result error (option SignedInvoice)) :=
  match projT1 c as e return answer e -> option (result error (option SignedInvoice)) with
  | EStored _ => fun x => Some x
  | _ => fun _ => None
  end (projT2 c).
Definition record_answer (c : call) : option (result error unit) :=
  match projT1 c as e return answer e -> option (result error unit) with
  | ERecord _ _ => fun x => Some x
  | _ => fun _ => None
  end (projT2 c).

Lemma did_read h m x : did h (EStored m) x -> x ∈ omap read_answer h.
Proof. intros H. apply list_elem_of_omap. by exists (Call (EStored m) x). Qed.
Lemma did_record h i o x : did h (ERecord i o) x -> x ∈ omap record_answer h.
Proof. intros H. apply list_elem_of_omap. by exists (Call (ERecord i o) x). Qed.

Lemma names_invoice_spec req stored : names_invoice req stored <->
  negb (String.eqb (rq_InvoiceUUID req) "") && negb (String.eqb (rq_InvoiceUUID req) (si_UUID stored)) = false
  /\ negb (String.eqb (rq_InvoiceHash req) "") && negb (String.eqb (rq_InvoiceHash req) (si_Hash stored)) = false.
Proof. unfold names_invoice. by rewrite !andb_false_iff, !negb_false_iff, !String.eqb_eq. Qed.

(** These requests, when the read of the invoice is the first call. *)
Lemma served_after_read req x h :
  omap read_answer h = [] ->
  request_answered req (Call (EStored (bill_query (rq_BillID req))) x :: h) <->
  exists stored, x = Ok (Some stored) /\ names_invoice req stored
    /\ (rq_Action req = ReconcileActionStatus
        \/ reconcilable stored = true /\ did h (ERecord stored (external_outcome req)) (Ok tt)).
Proof.
  intros Hh. split; intros (stored & H1 & Hn & H2); exists stored.
  - apply did_read in H1. cbn in H1. rewrite Hh in H1. apply list_elem_of_singleton in H1 as <-.
    split_and!; [done..|]. destruct H2 as [|[Hr H2]]; [by left|right]. split; [done|].
    apply elem_of_cons in H2 as [H2|]; [|done].
    apply (f_equal record_answer) in H2. done.
  - subst x. split; [apply list_elem_of_here|]. split; [done|].
    destruct H2 as [|[Hr H2]]; [by left|right]. split; [done|]. by apply list_elem_of_further.
Qed.

(** Exactly these requests are accepted. *)
Lemma handle_accepts tk db req reply (h : list call) :
  runs (handleReconcileRequest tk db req) [] reply h ->
  rp_Accepted reply = true <-> rq_TenantKey req = tk /\ rq_DBName req = db /\ request_answered req h.
Proof.
  unfold handleReconcileRequest. destruct (negb _ || _) eqn:Ht.
  { intros [-> ->]%runs_inv. split; [done|]. intros (E1 & E2 & _). by rewrite E1, E2, !String.eqb_refl in Ht. }
  apply orb_false_iff in Ht as [Htk%negb_false_iff%String.eqb_eq Hdb%negb_false_iff%String.eqb_eq].
  intros [x Hr]%runs_inv. cbn [app] in Hr.
  assert (Hiff : forall P : Prop, (rp_Accepted reply = true <-> P) ->
            rp_Accepted reply = true <-> rq_TenantKey req = tk /\ rq_DBName req = db /\ P) by tauto.
  apply Hiff. clear Hiff.
  destruct x as [[stored|]|e];
    [|apply runs_inv in Hr as [-> ->]; rewrite served_after_read by done; split; [done|by intros (s & ? & _)]..].
  pose proof (names_invoice_spec req stored) as Hn.
  assert (Hrefuse : forall text, runs (Ret (reply_error text)) [Call (EStored (bill_query (rq_BillID req))) (Ok (Some stored))] reply h ->
            ~ (names_invoice req stored /\ (rq_Action req = ReconcileActionStatus \/ reconcilable stored = true)) ->
            rp_Accepted reply = true <-> request_answered req h).
  { intros text [-> ->]%runs_inv Hnot. rewrite served_after_read by done. naive_solver. }
  destruct (negb (String.eqb (rq_InvoiceUUID req) "") && _) eqn:E1 in Hr, Hn;
    [apply (Hrefuse _ Hr); intros [[]%Hn _]; done|].
  destruct (negb (String.eqb (rq_InvoiceHash req) "") && _) eqn:E2 in Hr, Hn;
    [apply (Hrefuse _ Hr); intros [[]%Hn _]; done|].
  assert (names_invoice req stored) by (by apply Hn).
  destruct (String.eqb_spec (rq_Action req) ReconcileActionStatus) as [Ha|Ha].
  { apply runs_inv in Hr as [-> ->]. rewrite served_after_read by done. split; [|done].
    intros _. exists stored. by split_and!; [..|left]. }
  destruct (reconcilable stored) eqn:Hrec; cbn [negb] in Hr;
    [|apply (Hrefuse _ Hr); by intros [_ []]].
  apply runs_inv in Hr as [x Hr]. apply runs_inv in Hr as [-> ->].
  cbn [app]. rewrite served_after_read by done. destruct x as [[]|e]; cbn; split; try done.
  - intros _. exists stored. split_and!; [done..|right; split; [done|apply list_elem_of_here]].
  - intros (s & [= <-] & _ & [|[_ Hd]]); [done|]. apply did_record in Hd. cbn in Hd.
    by apply list_elem_of_singleton in Hd.
Qed.

Lemma respond_accepts tk db data req reply (h : list call) :
  DecodeReconcileRequest data = Ok req -> runs (respond tk db data) [] reply h ->
  rp_Accepted reply = true <-> rq_TenantKey req = tk /\ rq_DBName req = db /\ request_answered req h.
Proof.
  intros Hd. unfold respond. rewrite Hd. destruct (String.eqb_spec (rq_TenantKey req) tk) as [E|E]; cbn [negb].
  - apply handle_accepts.
  - intros [-> ->]%runs_inv. split; [done|]. by intros [? _].
Qed.
End exchange.

(** ** The exchange *)

(** C31: A valid request goes to the daemon and back without loss: the daemon decodes exactly the
    request that the command's flags fill, the command prints exactly the reply that the daemon
    gave, and it exits with 0 exactly when the daemon accepted the request, that is, when it serves
    that tenant and database, found the invoice of the bill with the UUID and hash the operator
    gave, and, unless only the status was asked, the invoice had no final answer (none, or an
    ambiguous one) and the Record call for it returned nil. Exit code 0 does not say that the
    evidence was stored: Record returns nil without storing it when the invoice is not pending. *)
Theorem operator_exchange {Prepared} Connect Request fl tk db data reply (h : list (call Prepared)) :
  fl_natsURL fl <> "" -> Connect (fl_natsURL fl) = None ->
  request_ok (flags_request fl) -> EncodeReconcileRequest (flags_request fl) = Ok data ->
  runs (respond tk db data) [] reply h -> members_valid (ReconcileReply_json reply) ->
  Request (ReconcileSubject (fl_tenantKey fl)) data (fl_timeout fl)
    = Ok (json_marshal (ReconcileReply_json reply)) ->
  let accepted := fl_tenantKey fl = tk /\ fl_dbName fl = db /\ request_answered (flags_request fl) h in
  DecodeReconcileRequest data = Ok (flags_request fl)
  /\ pe_stdout (reconcile_main Connect Request fl)
     = json_indent "  " (ReconcileReply_json reply) +:+ str1 (byte_of 10)
  /\ (pe_code (reconcile_main Connect Request fl) = 0 <-> accepted).
Proof.
  intros Hurl Hc Hok He Hr Hv Hq. pose proof (request_round_trip _ _ Hok He) as Hd.
  pose proof (respond_accepts _ _ _ _ _ _ Hd Hr) as Ha.
  unfold reconcile_main. destruct (String.eqb_spec (fl_natsURL fl) "") as [|_]; [done|].
  cbv zeta. rewrite He, Hc. change (rq_TenantKey (flags_request fl)) with (fl_tenantKey fl). rewrite Hq.
  rewrite reply_round_trip by done. split_and!; [done..|].
  rewrite <- Ha. cbn [pe_code]. by destruct (rp_Accepted reply).
Qed.

Definition sample_flags : flags :=
  let fl := default_flags (fun k => if String.eqb k "NATS_URL" then "nats://localhost:4222" else "") in
  mkFlags (fl_natsURL fl) "acme-0001" "tenant_acme" 7 42 (fl_action fl) "" "" "" "" "" "" (fl_timeout fl).

Definition pending_invoice : SignedInvoice :=
  mkSigned 42 7 "0c4f7a1e-2b3d-4e5f-8a9b-1c2d3e4f5a6b" 1 GenesisPIH "hash-1" InvoiceSimplified
    "<Invoice/>" "qr-1" "" "" "" "" "".

Definition sample_text : string :=
  match EncodeReconcileRequest (flags_request sample_flags) with Ok data => data | Err _ => "" end.

(** A status request for an invoice that waits for its answer. *)
Lemma operator_exchange_witness :
  let Request _ _ _ := Ok (json_marshal (ReconcileReply_json (status_reply pending_invoice))) in
  pe_code (reconcile_main (fun _ => None) Request sample_flags) = 0
  /\ @request_answered unit (flags_request sample_flags)
       [Call (EStored (bill_query 42)) (Ok (Some pending_invoice))].
Proof.
  pose proof (operator_exchange (Prepared := unit) (fun _ => None)
    (fun _ _ _ => Ok (json_marshal (ReconcileReply_json (status_reply pending_invoice)))) sample_flags
    "acme-0001" "tenant_acme" sample_text (status_reply pending_invoice)
    [Call (EStored (bill_query 42)) (Ok (Some pending_invoice))]) as H.
  destruct H as (_ & _ & H).
  - discriminate.
  - reflexivity.
  - split; [|split; split; vm_compute; discriminate].
    repeat (apply Forall_cons; split; [split; [vm_compute; reflexivity|done]|]). apply Forall_nil_2.
  - vm_compute. reflexivity.
  - assert (Hd : DecodeReconcileRequest sample_text = Ok (flags_request sample_flags)) by (vm_compute; reflexivity).
    unfold respond. rewrite Hd. cbn. apply runs_vis with (Ok (Some pending_invoice)). constructor.
  - repeat (apply Forall_cons; split; [split; [vm_compute; reflexivity|vm_compute; reflexivity || exact I]|]). apply Forall_nil_2.
  - reflexivity.
  - cbv zeta. assert (Hcode : pe_code (reconcile_main (fun _ => None)
      (fun _ _ _ => Ok (json_marshal (ReconcileReply_json (status_reply pending_invoice)))) sample_flags) = 0)
      by (vm_compute; reflexivity).
    split; [exact Hcode | exact (proj2 (proj2 (proj1 H Hcode)))].
Defined.
