(* ===== verification/Io.v ===== *)
(** * Calls to the outside world

    The HTTP client and the signing tool talk to ZATCA's servers and to a
    subprocess. Their answers are a [world]: functions of the action and of the
    actions before it, so that the same request may be answered differently
    later. A computation of type [io A] takes the world and the actions so far,
    and gives its result and the actions after it. *)

From S2P Require Import Prelude GoStrings GoErrors.

(** What the program puts into an [http.Request]. *)
Record http_request : Type := mkRequest {
  rq_method : string;
  rq_url : string;
  rq_header : gmap string (list string);
  rq_body : string
}.

(** What it reads of an [http.Response]: the status, and the body or the error
    of reading it. *)
Record http_response : Type := mkResponse { rs_status : Z; rs_body : result error string }.

Inductive action : Type :=
| AHttp (req : http_request)    (* http.Client.Do *)
| AExec (script : string).      (* bash -c script *)

(** Standard output, standard error, and the error of the run. *)
Definition exec_result : Type := string * string * option error.

Record world : Type := mkWorld {
  w_http : list action -> http_request -> result error http_response;
  w_exec : list action -> string -> exec_result
}.

Definition io (A : Type) : Type := world -> list action -> A * list action.

Definition io_ret {A} (a : A) : io A := fun _ h => (a, h).
Definition io_bind {A B} (m : io A) (f : A -> io B) : io B :=
  fun w h => let '(a, h') := m w h in f a w h'.

Definition io_http (req : http_request) : io (result error http_response) :=
  fun w h => (w_http w h req, h ++ [AHttp req]).
Definition io_exec (script : string) : io exec_result :=
  fun w h => (w_exec w h script, h ++ [AExec script]).

(** [x, err := m; if err != nil { return e(err) }]. *)
Definition io_try {A B} (m : io (result error A)) (wrap : error -> error) (f : A -> io (result error B))
    : io (result error B) :=
  io_bind m (fun r => match r with Ok a => f a | Err e => io_ret (Err (wrap e)) end).

Declare Scope io_scope.
Delimit Scope io_scope with io.
Notation "'let!' x ':=' m 'in' k" := (io_bind m (fun x => k))
  (at level 10, x pattern, m at level 99, k at level 200) : io_scope.
Notation "'try_io!' x ':=' m 'or' w 'in' k" := (io_try m w (fun x => k))
  (at level 10, x pattern, m at level 99, w at level 99, k at level 200) : io_scope.

(** ** Facts *)

Lemma io_bind_eq {A B} (m : io A) (f : A -> io B) w h :
  io_bind m f w h = f (m w h).1 w (m w h).2.
Proof. unfold io_bind. by destruct (m w h). Qed.

(** A computation only adds actions. *)
Definition grows {A} (m : io A) : Prop := forall w h, exists t, (m w h).2 = h ++ t.

Lemma grows_ret {A} (a : A) : grows (io_ret a).
Proof. intros w h. exists []. by rewrite app_nil_r. Qed.

Lemma grows_bind {A B} (m : io A) (f : A -> io B) : grows m -> (forall a, grows (f a)) -> grows (io_bind m f).
Proof.
  intros Hm Hf w h. rewrite io_bind_eq. destruct (Hm w h) as [t ->]. destruct (Hf (m w h).1 w (h ++ t)) as [t' ->].
  exists (t ++ t'). by rewrite app_assoc.
Qed.

Lemma grows_try {A B} (m : io (result error A)) wrap (f : A -> io (result error B)) :
  grows m -> (forall a, grows (f a)) -> grows (io_try m wrap f).
Proof. intros Hm Hf. apply grows_bind; [done|]. intros [a|e]; [apply Hf|apply grows_ret]. Qed.

Lemma grows_http req : grows (io_http req).
Proof. intros w h. by eexists. Qed.
Lemma grows_exec s : grows (io_exec s).
Proof. intros w h. by eexists. Qed.

#[export] Hint Resolve grows_ret grows_bind grows_try grows_http grows_exec : go.
