(* ===== verification/Client.v ===== *)
(** * The HTTP client of ZATCA's API ([client/client.go])

    Each method builds one JSON request, sets its headers and authentication,
    sends it and decodes the answer. Debug lines are left out. The URLs are
    constants of the program, so [http.NewRequest] parses them without error. *)

From S2P Require Import Prelude GoStrings GoText Base64 Models GoErrors Config Json Unmarshal JsonText Io.
Local Open Scope Z_scope.
Local Open Scope io_scope.

(** ** Requests *)

(** [req.Header.Set]; the names the client uses are in canonical form. *)
Definition set_header (name value : string) (req : http_request) : http_request :=
  mkRequest (rq_method req) (rq_url req) (<[name := [value]]> (rq_header req)) (rq_body req).

(** [req.Header.Get]. *)
Definition get_header (name : string) (req : http_request) : string :=
  match rq_header req !! name with Some (v :: _) => v | _ => "" end.

Definition newJSONRequest (method url : string) (body : list (string * string)) : http_request :=
  set_header "Accept-Language" "en"
    (set_header "Accept-Version" "V2"
      (set_header "Accept" "application/json"
        (set_header "Content-Type" "application/json"
          (mkRequest method url ∅ (json_encode body))))).

Definition basic_token (user pass : string) : string := base64_encode (user +:+ ":" +:+ pass).

Definition set_basic (user pass : string) (req : http_request) : http_request :=
  if negb (String.eqb user "") && negb (String.eqb pass "")
  then set_header "Authorization" ("Basic " +:+ basic_token user pass) req
  else req.

Definition setComplianceAuth (c : Config) (req : http_request) : http_request :=
  set_basic (cg_ComplianceUsername c) (cg_CompliancePassword c) req.
Definition setProductionAuth (c : Config) (req : http_request) : http_request :=
  set_basic (cg_ProductionUsername c) (cg_ProductionPassword c) req.

(** ** Sending *)

(** The error of an answer outside the 2xx range, with the body decoded when it
    is an [InvoiceResponse]. *)
Definition api_error (status : Z) (body : string) : error :=
  APIError status body
    (if String.eqb body "" then None
     else match json_unmarshal response_fields response0 body with Ok r => Some r | Err _ => None end).

(** [do] into a result of the given fields. *)
Definition do_ {A} (fields : list (field A)) (zero : A) (req : http_request) : io (result error A) :=
  try_io! resp := io_http req or (fun e => Wrap "HTTP request failed: " e "") in
  io_ret
    match rs_body resp with
    | Err e => Err (Wrap "reading response body: " e "")
    | Ok body =>
        if (rs_status resp <? 200) || (300 <=? rs_status resp) then Err (api_error (rs_status resp) body)
        else if String.eqb body "" then Ok zero
        else match json_unmarshal fields zero body with
             | Ok a => Ok a
             | Err e => Err (Wrap "decoding response: " (NewError (json_error_text e)) "")
             end
    end.

Definition named {A} (name : string) (m : io (result error A)) : io (result error A) :=
  try_io! a := m or (fun e => Wrap (name +:+ ": ") e "") in io_ret (Ok a).

(** ** The methods *)

Definition MethodPost : string := "POST".
Definition MethodPatch : string := "PATCH".

Definition CSIDRequest_json (r : CSIDRequest) : list (string * string) := [("csr", csid_csr r)].
Definition ProductionCSIDRequest_json (r : ProductionCSIDRequest) : list (string * string) :=
  [("compliance_request_id", complianceRequestID r)].
Definition RenewalRequest_json (r : RenewalRequest) : list (string * string) := [("csr", renewal_csr r)].
Definition InvoiceRequest_json (r : InvoiceRequest) : list (string * string) :=
  [("invoiceHash", req_invoiceHash r); ("uuid", req_uuid r); ("invoice", req_invoice r)].

(** [c.cfg.BaseURL()]. *)
Definition base_url (c : Config) : string := BaseURL (cg_Env c).

(** [req.Header["OTP"] = ...]. *)
Definition set_otp (c : Config) (req : http_request) : http_request := set_header "OTP" (cg_OTP c) req.

Definition ComplianceCSID_request (c : Config) (csr : string) : http_request :=
  set_otp c (newJSONRequest MethodPost (base_url c +:+ "/compliance") (CSIDRequest_json (Build_CSIDRequest csr))).
Definition ComplianceCSID (c : Config) (csr : string) : io (result error CSIDResponse) :=
  named "ComplianceCSID" (do_ csid_fields csid0 (ComplianceCSID_request c csr)).

Definition ComplianceCheck_request (c : Config) (invoice : InvoiceRequest) : http_request :=
  setComplianceAuth c
    (newJSONRequest MethodPost (base_url c +:+ "/compliance/invoices") (InvoiceRequest_json invoice)).
Definition ComplianceCheck (c : Config) (invoice : InvoiceRequest) : io (result error InvoiceResponse) :=
  named "ComplianceCheck" (do_ response_fields response0 (ComplianceCheck_request c invoice)).

Definition ProductionCSID_request (c : Config) (id : string) : http_request :=
  setComplianceAuth c
    (newJSONRequest MethodPost (base_url c +:+ "/production/csids")
       (ProductionCSIDRequest_json (Build_ProductionCSIDRequest id))).
Definition ProductionCSID (c : Config) (id : string) : io (result error CSIDResponse) :=
  named "ProductionCSID" (do_ csid_fields csid0 (ProductionCSID_request c id)).

Definition RenewProductionCSID (c : Config) (csr : string) : io (result error CSIDResponse) :=
  named "RenewProductionCSID"
    (do_ csid_fields csid0
       (set_otp c (setProductionAuth c
          (newJSONRequest MethodPatch (base_url c +:+ "/production/csids")
             (RenewalRequest_json (Build_RenewalRequest csr)))))).

Definition ReportInvoice_request (c : Config) (invoice : InvoiceRequest) : http_request :=
  set_header "Clearance-Status" "0" (setProductionAuth c
    (newJSONRequest MethodPost (base_url c +:+ "/invoices/reporting/single") (InvoiceRequest_json invoice))).
Definition ReportInvoice (c : Config) (invoice : InvoiceRequest) : io (result error InvoiceResponse) :=
  named "ReportInvoice" (do_ response_fields response0 (ReportInvoice_request c invoice)).

Definition ClearInvoice_request (c : Config) (invoice : InvoiceRequest) : http_request :=
  set_header "Clearance-Status" "1" (setProductionAuth c
    (newJSONRequest MethodPost (base_url c +:+ "/invoices/clearance/single") (InvoiceRequest_json invoice))).
Definition ClearInvoice (c : Config) (invoice : InvoiceRequest) : io (result error InvoiceResponse) :=
  named "ClearInvoice" (do_ response_fields response0 (ClearInvoice_request c invoice)).

(** ** What is sent and how answers are read *)

Lemma get_set name v req : get_header name (set_header name v req) = v.
Proof. unfold get_header, set_header. cbn. by rewrite lookup_insert_eq. Qed.

Lemma get_set_ne name name' v req : name' <> name -> get_header name (set_header name' v req) = get_header name req.
Proof. intros Hn. unfold get_header, set_header. cbn. by rewrite lookup_insert_ne. Qed.

Lemma named_run {A} name (fields : list (field A)) zero req w h :
  (named name (do_ fields zero req) w h).2 = h ++ [AHttp req].
Proof.
  unfold named, do_, io_try. rewrite !io_bind_eq. unfold io_http. cbn.
  destruct (w_http w h req) as [resp|e]; [|done]. cbn. by destruct (match rs_body resp with Ok _ => _ | _ => _ end).
Qed.

(** How a response is read. *)
Definition read_response {A} (fields : list (field A)) (zero : A) (name : string)
    (r : result error http_response) : result error A :=
  match r with
  | Err e => Err (Wrap (name +:+ ": ") (Wrap "HTTP request failed: " e "") "")
  | Ok (mkResponse status (Err e)) =>
      Err (Wrap (name +:+ ": ") (Wrap "reading response body: " e "") "")
  | Ok (mkResponse status (Ok body)) =>
      if (200 <=? status) && (status <? 300)
      then if String.eqb body "" then Ok zero
           else match json_unmarshal fields zero body with
                | Ok a => Ok a
                | Err e => Err (Wrap (name +:+ ": ")
                             (Wrap "decoding response: " (NewError (json_error_text e)) "") "")
                end
      else Err (Wrap (name +:+ ": ") (api_error status body) "")
  end.

Lemma named_result {A} name (fields : list (field A)) zero req w h :
  (named name (do_ fields zero req) w h).1 = read_response fields zero name (w_http w h req).
Proof.
  unfold named, do_, io_try. rewrite !io_bind_eq. unfold io_http. cbn.
  destruct (w_http w h req) as [[status [body|e]]|e]; [|done..]. cbn.
  replace ((200 <=? status) && (status <? 300)) with (negb ((status <? 200) || (300 <=? status))) by lia.
  destruct ((status <? 200) || (300 <=? status)); [done|]. cbn.
  destruct (String.eqb body ""); [done|]. by destruct (json_unmarshal fields zero body).
Qed.

(** The status of a provider error is outside the 2xx range. *)
Lemma read_response_status {A} (fields : list (field A)) zero name r e status body resp :
  read_response fields zero name r = Err e -> as_api e = Some (status, body, resp) ->
  (forall e', r = Err e' -> as_api e' = None) ->
  (forall s e', r = Ok (mkResponse s (Err e')) -> as_api e' = None) ->
  exists b, r = Ok (mkResponse status (Ok b)) /\ body = b /\ ~ (200 <= status < 300).
Proof.
  intros H Ha H1 H2. destruct r as [[s [b|e']]|e']; cbn in H.
  - destruct ((200 <=? s) && (s <? 300)) eqn:Es.
    + destruct (String.eqb b ""); [done|]. destruct (json_unmarshal fields zero b); [done|].
      injection H as <-. done.
    + injection H as <-. cbn in Ha. unfold api_error in Ha. cbn in Ha.
      injection Ha as -> -> _. exists body. split_and!; [done|done|lia].
  - injection H as <-. cbn in Ha. rewrite (H2 s e' eq_refl) in Ha. done.
  - injection H as <-. cbn in Ha. rewrite (H1 e' eq_refl) in Ha. done.
Qed.

Definition request_valid (r : InvoiceRequest) : Prop :=
  valid_string (req_invoiceHash r) = true /\ valid_string (req_uuid r) = true
  /\ valid_string (req_invoice r) = true.

Lemma request_decodes r method url : request_valid r ->
  json_unmarshal request_fields request0 (rq_body (newJSONRequest method url (InvoiceRequest_json r))) = Ok r.
Proof.
  intros (H1 & H2 & H3). cbn [newJSONRequest set_header rq_body]. rewrite unmarshal_encoded.
  - by destruct r.
  - done.
  - repeat (apply Forall_cons; split; [split; [by vm_compute|done]|]). apply Forall_nil_2.
Qed.

Lemma basic_header user pass req : user <> "" -> pass <> "" ->
  exists token, get_header "Authorization" (set_basic user pass req) = "Basic " +:+ token
    /\ base64_decode token = Some (user +:+ ":" +:+ pass).
Proof.
  intros Hu Hp. unfold set_basic.
  destruct (String.eqb_spec user "") as [?|_]; [done|]. destruct (String.eqb_spec pass "") as [?|_]; [done|].
  cbn [negb andb]. exists (basic_token user pass). by rewrite get_set, <- base64_round_trip.
Qed.

(** How an invoice of a kind is sent: the call, its path and its clearance flag. *)
Definition submit_call (standard : bool) : Config -> InvoiceRequest -> io (result error InvoiceResponse) :=
  if standard then ClearInvoice else ReportInvoice.
Definition submit_request (standard : bool) : Config -> InvoiceRequest -> http_request :=
  if standard then ClearInvoice_request else ReportInvoice_request.
Definition submit_path (standard : bool) : string :=
  if standard then "/invoices/clearance/single" else "/invoices/reporting/single".
Definition submit_name (standard : bool) : string := if standard then "ClearInvoice" else "ReportInvoice".

Lemma submit_call_run standard c r w h :
  submit_call standard c r w h
  = (read_response response_fields response0 (submit_name standard) (w_http w h (submit_request standard c r)),
     h ++ [AHttp (submit_request standard c r)]).
Proof.
  rewrite (surjective_pairing (submit_call standard c r w h)).
  by destruct standard; unfold submit_call, ClearInvoice, ReportInvoice; rewrite named_run, named_result.
Qed.

(** C20: An invoice reaches ZATCA as it is: the call of its kind sends exactly one request, a POST to
    the path of that kind under the branch's environment, whose JSON body decodes to the given hash,
    UUID and document, whose Basic credentials decode to the branch's production user and password,
    and whose answer alone decides the result: 2xx is decoded, any other status is a provider error
    that keeps status and body. *)
Theorem invoice_sent_exactly standard c r w h :
  request_valid r -> cg_ProductionUsername c <> "" -> cg_ProductionPassword c <> "" ->
  exists req token,
    submit_call standard c r w h
      = (read_response response_fields response0 (submit_name standard) (w_http w h req), h ++ [AHttp req])
    /\ rq_method req = "POST" /\ rq_url req = base_url c +:+ submit_path standard
    /\ json_unmarshal request_fields request0 (rq_body req) = Ok r
    /\ get_header "Authorization" req = "Basic " +:+ token
    /\ base64_decode token = Some (cg_ProductionUsername c +:+ ":" +:+ cg_ProductionPassword c)
    /\ get_header "Clearance-Status" req = (if standard then "1" else "0")
    /\ get_header "Content-Type" req = "application/json" /\ get_header "Accept-Version" req = "V2".
Proof.
  intros Hr Hu Hp.
  destruct (basic_header _ _ (newJSONRequest MethodPost (base_url c +:+ submit_path standard) (InvoiceRequest_json r))
              Hu Hp) as (token & Ht & Hd).
  exists (submit_request standard c r), token. rewrite submit_call_run. split; [done|].
  pose proof (request_decodes r MethodPost (base_url c +:+ submit_path standard) Hr) as Hb.
  assert (Hname : "Clearance-Status" <> "Authorization") by done.
  destruct standard; unfold submit_request, ClearInvoice_request, ReportInvoice_request, setProductionAuth, set_basic in *;
    destruct (String.eqb_spec (cg_ProductionUsername c) "") as [?|_]; try done;
    destruct (String.eqb_spec (cg_ProductionPassword c) "") as [?|_]; try done; cbn [negb andb] in *;
    (split_and!; [done|done|exact Hb|by rewrite get_set_ne|done|by rewrite get_set|..];
     rewrite !get_set_ne by done; by vm_compute).
Qed.

Definition sample_request : InvoiceRequest := Build_InvoiceRequest "hash==" "b7a5-uuid" "PGludm9pY2U+".
Definition sample_config : Config :=
  mkConfigRec Sandbox "" "" "" "TUlJ" "secret" "egs" (mkCSRConfig "" "" "" "" "" "" "" "" "")
    (mkSellerInfo "" "" "" "" "" "" "" "" "" "").

Lemma invoice_sent_exactly_witness :
  exists req token,
    submit_call true sample_config sample_request (mkWorld (fun _ _ => Err (NewError "down")) (fun _ _ => ("", "", None))) []
      = (Err (Wrap "ClearInvoice: " (Wrap "HTTP request failed: " (NewError "down") "") ""), [AHttp req])
    /\ rq_url req = "https://gw-fatoora.zatca.gov.sa/e-invoicing/developer-portal/invoices/clearance/single"
    /\ get_header "Authorization" req = "Basic " +:+ token /\ base64_decode token = Some "TUlJ:secret".
Proof.
  destruct (invoice_sent_exactly true sample_config sample_request
              (mkWorld (fun _ _ => Err (NewError "down")) (fun _ _ => ("", "", None))) [])
    as (req & token & H1 & _ & H2 & _ & H3 & H4 & _).
  - split_and!; by vm_compute.
  - done.
  - done.
  - exists req, token. split_and!; [exact H1|exact H2|exact H3|exact H4].
Defined.
