(* ===== verification/Sdk.v ===== *)
(** * The signing tool ([sdk/sdk.go])

    The SDK runs ZATCA's command-line tool through [bash -c]. Each method is a
    script, the run of it, and the reading of its output. Log lines are left out. *)

From S2P Require Import Prelude GoStrings GoText GoErrors Config Io.
Local Open Scope Z_scope.
Local Open Scope io_scope.

Definition LF : ascii := byte_of 10.
Definition dquote : string := str1 (byte_of 34).
Definition lf : string := str1 LF.

Record SDK : Type := mkSDK { sdk_env : Environment; sdk_privateKey : string; sdk_certPEM : string }.

(** [sdk.New]. *)
Definition NewSDK (c : Config) : SDK := mkSDK (cg_Env c) "" "".

Definition SetCredentials (s : SDK) (privateKeyPEM certPEM : string) : SDK :=
  mkSDK (sdk_env s) privateKeyPEM certPEM.

(** ** PEM armor *)

Definition armor_line (t : string) : bool := HasPrefix t "-----BEGIN " || HasPrefix t "-----END ".

(** The first pass, line by line. *)
Definition strip_lines (s : string) : string :=
  foldr (fun line acc => let t := TrimSpace line in
           if String.eqb t "" then acc else if armor_line t then acc else t +:+ acc)
    "" (Split LF s).

Definition pem_white (r : Z) : bool := (r =? 32) || (r =? 9) || (r =? 13) || (r =? 10).

Definition stripPEMArmor (s : string) : string :=
  if String.eqb s "" then s
  else let out := strip_lines s in
       if negb (ContainsAny out (" " +:+ str1 (byte_of 9) +:+ str1 (byte_of 13) +:+ lf)) then out
       else encode_runes (List.filter (fun r => negb (pem_white r)) (runes out)).

(** ** Scripts *)

Definition key_path : string :=
  "/SDK/zatca-einvoicing-sdk-238-R4.0.0/Data/Certificates/ec-secp256k1-priv-key.pem".
Definition cert_path : string := "/SDK/zatca-einvoicing-sdk-238-R4.0.0/Data/Certificates/cert.pem".

Definition write_file (body path : string) : string := "printf '%s' '" +:+ body +:+ "' > " +:+ path +:+ lf.

Definition credentialScript (s : SDK) : string :=
  if String.eqb (sdk_privateKey s) "" && String.eqb (sdk_certPEM s) "" then ""
  else (if String.eqb (sdk_privateKey s) "" then ""
        else write_file (stripPEMArmor (sdk_privateKey s)) key_path)
       +:+ (if String.eqb (sdk_certPEM s) "" then ""
            else write_file (stripPEMArmor (sdk_certPEM s)) cert_path).

Definition envFlag (s : SDK) : string :=
  if String.eqb (sdk_env s) Sandbox then "-nonprod"
  else if String.eqb (sdk_env s) Simulation then "-sim"
  else if String.eqb (sdk_env s) Production then ""
  else "-nonprod".

(** The part of a script that stores the document. *)
Definition store_invoice (xmlContent : string) : string :=
  "cat > /tmp/invoice.xml << 'XMLEOF'" +:+ lf +:+ xmlContent +:+ lf +:+ "XMLEOF" +:+ lf.

Definition localExec (script : string) : io exec_result := io_exec script.

(** ** CSR *)

Definition csr_properties (c : CSRConfig) : string :=
  "csr.common.name=" +:+ csr_CommonName c +:+ lf
  +:+ "csr.serial.number=" +:+ csr_SerialNumber c +:+ lf
  +:+ "csr.organization.identifier=" +:+ csr_OrgIdentifier c +:+ lf
  +:+ "csr.organization.unit.name=" +:+ csr_OrgUnit c +:+ lf
  +:+ "csr.organization.name=" +:+ csr_OrgName c +:+ lf
  +:+ "csr.country.name=" +:+ csr_Country c +:+ lf
  +:+ "csr.invoice.type=" +:+ csr_InvoiceType c +:+ lf
  +:+ "csr.location.address=" +:+ csr_Location c +:+ lf
  +:+ "csr.industry.business.category=" +:+ csr_BusinessCategory c.

Definition apostrophe : ascii := byte_of 39.

(** [strings.ReplaceAll(props, "'", "'\\''")]. *)
Definition shell_escape (s : string) : string := ReplaceAll apostrophe "'\''" s.

(** The commands after the properties are written. *)
Definition csr_commands (flag : string) : string :=
  "cd /SDK/zatca-einvoicing-sdk-238-R4.0.0/Apps" +:+ lf
  +:+ "fatoora -csr -csrConfig /tmp/csr.properties -pem " +:+ flag +:+ " 1>&2" +:+ lf
  +:+ "CSR_FILE=$(ls -t generated-csr-*.csr 2>/dev/null | head -1)" +:+ lf
  +:+ "KEY_FILE=$(ls -t generated-private-key-*.key 2>/dev/null | head -1)" +:+ lf
  +:+ "if [ -z " +:+ dquote +:+ "$CSR_FILE" +:+ dquote +:+ " ] || [ -z " +:+ dquote +:+ "$KEY_FILE" +:+ dquote
  +:+ " ]; then" +:+ lf
  +:+ "  echo " +:+ dquote +:+ "ERROR: CSR generation failed" +:+ dquote +:+ " >&2" +:+ lf
  +:+ "  exit 1" +:+ lf
  +:+ "fi" +:+ lf
  +:+ "echo " +:+ dquote +:+ "===CSR===" +:+ dquote +:+ lf
  +:+ "cat " +:+ dquote +:+ "$CSR_FILE" +:+ dquote +:+ lf
  +:+ "echo " +:+ dquote +:+ "===KEY===" +:+ dquote +:+ lf
  +:+ "cat " +:+ dquote +:+ "$KEY_FILE" +:+ dquote +:+ lf.

Definition csr_script (flag props : string) : string :=
  lf +:+ "echo '" +:+ shell_escape props +:+ "' > /tmp/csr.properties" +:+ lf +:+ csr_commands flag.

Definition csr_marker : string := "===CSR===".
Definition key_marker : string := "===KEY===".

(** [output[i:j]]; [None] is the panic of a slice whose bounds are out of order. *)
Definition slice (s : string) (i j : nat) : option string :=
  if (i <=? j)%nat then Some (take_bytes (j - i) (drop_bytes i s)) else None.

(** [None] is a panic. *)
Definition parseCSROutput (output : string) : option (result error (string * string)) :=
  match Index output csr_marker, Index output key_marker with
  | Some csrIdx, Some keyIdx =>
      csr ← slice output (csrIdx + String.length csr_marker) keyIdx;
      Some (Ok (TrimSpace csr, TrimSpace (drop_bytes (keyIdx + String.length key_marker) output)))
  | _, _ => Some (Err (NewError "missing CSR or KEY markers in output"))
  end.

Record CSRResult : Type := mkCSRResult { cr_CSR : string; cr_PrivateKey : string }.

(** [None] is the panic of [parseCSROutput]. *)
Definition GenerateCSR (s : SDK) (c : CSRConfig) : io (option (result error CSRResult)) :=
  let! (stdout, stderr, err) := localExec (csr_script (envFlag s) (csr_properties c)) in
  io_ret
    match err with
    | Some e => Some (Err (Wrap "GenerateCSR: " e (lf +:+ "stderr: " +:+ stderr)))
    | None =>
        r ← parseCSROutput stdout;
        Some match r with
             | Err e => Err (Wrap "GenerateCSR: parsing output: " e (lf +:+ "raw output: " +:+ stdout))
             | Ok (csr, key) => Ok (mkCSRResult csr key)
             end
    end.

(** ** Validation and hash *)

Definition validate_script (flag xmlContent : string) : string :=
  lf +:+ store_invoice xmlContent +:+ "fatoora -validate -invoice /tmp/invoice.xml " +:+ flag +:+ lf.

(** The output is returned with the error as well. *)
Definition ValidateInvoice (s : SDK) (xmlContent : string) : io (string * option error) :=
  let! (stdout, stderr, err) := localExec (validate_script (envFlag s) xmlContent) in
  let combined := stdout +:+ lf +:+ stderr in
  io_ret
    match err with
    | Some e => if Contains combined "GLOBAL VALIDATION RESULT" then (combined, None)
                else (combined, Some (Wrap "ValidateInvoice: " e ""))
    | None => (combined, None)
    end.

Definition hash_script (flag xmlContent : string) : string :=
  lf +:+ store_invoice xmlContent +:+ "fatoora -generateHash -invoice /tmp/invoice.xml " +:+ flag +:+ lf.

(** The hash of a line of the tool's output: what follows its first equals sign. *)
Definition hash_of_line (line : string) : option string :=
  if Contains line "INVOICE HASH =" then
    match split2 "=" line with Some (_, v) => Some (TrimSpace v) | None => None end
  else None.

Definition GenerateHash (s : SDK) (xmlContent : string) : io (result error string) :=
  let! (stdout, stderr, err) := localExec (hash_script (envFlag s) xmlContent) in
  let combined := stdout +:+ lf +:+ stderr in
  io_ret
    match err with
    | Some e => Err (Wrap "GenerateHash: " e (lf +:+ "output: " +:+ combined))
    | None => match first_some hash_of_line (Split LF combined) with
              | Some h => Ok h
              | None => Err (NewError ("GenerateHash: could not find hash in output: " +:+ combined))
              end
    end.

(** ** Signing *)

Definition sign_script (s : SDK) (xmlContent : string) : string :=
  credentialScript s +:+ lf +:+ store_invoice xmlContent
  +:+ "fatoora -sign -invoice /tmp/invoice.xml -signedInvoice /tmp/signed.xml " +:+ envFlag s +:+ lf
  +:+ "echo " +:+ dquote +:+ "===SIGNED===" +:+ dquote +:+ lf
  +:+ "cat /tmp/signed.xml" +:+ lf.

Definition signed_marker : string := "===SIGNED===".

(** The last hash line counts. *)
Definition last_hash (lines : list string) : string :=
  fold_left (fun h line => default h (hash_of_line line)) lines "".

Definition SignInvoice (s : SDK) (xmlContent : string) : io (result error (string * string)) :=
  let! (stdout, stderr, errExec) := localExec (sign_script s xmlContent) in
  io_ret
    match errExec with
    | Some e => Err (Wrap "SignInvoice: " e (lf +:+ "stdout: " +:+ stdout +:+ lf +:+ "stderr: " +:+ stderr))
    | None =>
        let hash := last_hash (Split LF (stdout +:+ lf +:+ stderr)) in
        let signedXML := match Index stdout signed_marker with
                         | Some idx => TrimSpace (drop_bytes (idx + String.length signed_marker) stdout)
                         | None => ""
                         end in
        if String.eqb signedXML "" then Err (NewError "SignInvoice: no signed XML in output")
        else Ok (signedXML, hash)
    end.

(** ** The QR code of a signed document *)

(** [\s] of the regular expression. *)
Definition re_space (c : ascii) : bool :=
  (bv c =? 32) || (bv c =? 9) || (bv c =? 10) || (bv c =? 12) || (bv c =? 13).

Fixpoint skip_re_space (s : string) : string :=
  match s with String c s' => if re_space c then skip_re_space s' else s | EmptyString => s end.

Definition expect_text (p s : string) : option string :=
  if HasPrefix s p then Some (drop_bytes (String.length p) s) else None.

(** [[^x]*] up to the first [x]: what was read, and the rest from [x] on. *)
Fixpoint read_until (x : ascii) (s : string) : option (string * string) :=
  match s with
  | EmptyString => None
  | String c s' => if Ascii.eqb c x then Some ("", s)
                   else '(a, b) ← read_until x s'; Some (String c a, b)
  end.

Definition qr_close : string := "</cbc:EmbeddedDocumentBinaryObject>".

(** [<cbc:EmbeddedDocumentBinaryObject[^>]*>([^<]+)</...>] at the head of [s]: the group. *)
Definition embedded_here (s : string) : option string :=
  s ← expect_text "<cbc:EmbeddedDocumentBinaryObject" s;
  '(_, s) ← read_until ">" s;
  '(body, s) ← read_until "<" (drop_bytes 1 s);
  if String.eqb body "" then None else (fun _ => body) <$> expect_text qr_close s.

(** [.*?] before it: the first position at which the rest matches. *)
Fixpoint embedded_from (s : string) : option string :=
  match embedded_here s with
  | Some body => Some body
  | None => match s with EmptyString => None | String _ s' => embedded_from s' end
  end.

(** The whole expression at the head of [s]. *)
Definition qr_here (s : string) : option string :=
  s ← expect_text "<cac:AdditionalDocumentReference>" s;
  s ← expect_text "<cbc:ID>" (skip_re_space s);
  s ← expect_text "QR" (skip_re_space s);
  s ← expect_text "</cbc:ID>" (skip_re_space s);
  embedded_from s.

(** [qrEmbeddedRe.FindStringSubmatch(s)[1]]: the leftmost match. *)
Fixpoint qrEmbedded (s : string) : option string :=
  match qr_here s with
  | Some body => Some body
  | None => match s with EmptyString => None | String _ s' => qrEmbedded s' end
  end.

Definition GenerateQR (xmlContent : string) : result error string :=
  match qrEmbedded xmlContent with
  | Some m => let qr := TrimSpace m in
              if String.eqb qr ""
              then Err (NewError "GenerateQR: QR EmbeddedDocumentBinaryObject not found in signed XML")
              else Ok qr
  | None => Err (NewError "GenerateQR: QR EmbeddedDocumentBinaryObject not found in signed XML")
  end.

(** ** The request of the API *)

Definition request_script (s : SDK) (xmlContent : string) : string :=
  credentialScript s +:+ lf +:+ store_invoice xmlContent
  +:+ "fatoora -invoice /tmp/invoice.xml -invoiceRequest -apiRequest /tmp/api.json " +:+ envFlag s +:+ lf
  +:+ "cat /tmp/api.json" +:+ lf.

Definition json_line (line : string) : option string :=
  let trimmed := TrimSpace line in if HasPrefix trimmed "{" then Some trimmed else None.

Definition GenerateAPIRequest (s : SDK) (xmlContent : string) : io (result error string) :=
  let! (stdout, stderr, err) := localExec (request_script s xmlContent) in
  io_ret
    match err with
    | Some e => Err (Wrap "GenerateAPIRequest: " e (lf +:+ "stderr: " +:+ stderr))
    | None => Ok (default (TrimSpace stdout) (first_some json_line (Split LF stdout)))
    end.
