(* ===== verification/SdkThm.v ===== *)
(** * What the scripts hand to the shell

    The SDK passes the key, the certificate and the invoice through a shell
    script. The reading of quoted words and of here-documents is POSIX's
    (shell command language, 2.2 and 2.7.4), given here as recognisers. *)

From S2P Require Import Prelude GoStrings GoText Base64 GoErrors Message Config Civil Float64 Invoice Xml XmlSpec XmlLines Io Sdk.
Local Open Scope Z_scope.

(** ** Lines *)

Lemma Split_app sep a b : Split sep (a +:+ String sep b) = Split sep a ++ Split sep b.
Proof.
  induction a as [|c a IH].
  - change ("" +:+ String sep b) with (String sep b). cbn. by rewrite Ascii.eqb_refl.
  - change (String c a +:+ String sep b) with (String c (a +:+ String sep b)). cbn [Split].
    rewrite IH. destruct (Ascii.eqb c sep); [done|].
    destruct (Split sep a) eqn:E; [by apply Split_nonempty in E|done].
Qed.

(** A line of an invoice document is empty, or begins with [<] or a space. *)
Definition document_line (l : string) : bool :=
  match l with EmptyString => true | String c _ => is_char c 60 || is_char c 32 end.

Lemma calm_lines b s e : calm b s = Some e ->
  match Split LF s with
  | l :: ls => (b = true -> document_line l = true) /\ Forall (fun l => document_line l = true) ls
  | [] => True
  end.
Proof.
  revert b. induction s as [|c s IH]; intros b H; [by split; [|constructor]|]. cbn [calm] in H.
  destruct (b && negb (is_char c 60 || is_char c 32)) eqn:Eb; [done|]. apply IH in H. cbn [Split].
  assert (Ascii.eqb c LF = is_lf c) as ->.
  { unfold is_lf. apply Bool.eq_iff_eq_true. rewrite Ascii.eqb_eq, Z.eqb_eq.
    split; [by intros ->|]. intros E. apply bv_inj. by rewrite E. }
  destruct (is_lf c) eqn:El.
  - split; [done|]. destruct (Split LF s) as [|l ls]; [constructor|]. destruct H as [H1 H2].
    constructor; [by apply H1|done].
  - destruct (Split LF s) as [|l ls] eqn:Es; [by apply Split_nonempty in Es|]. destruct H as [_ H2]. split; [|done].
    intros ->. cbn [andb] in Eb. by apply negb_false_iff in Eb.
Qed.

(** A here-document delimiter that is no line of the document. *)
Lemma document_delimiter inv : raw_lines inv -> "XMLEOF" ∉ Split LF (ToXML_text inv).
Proof.
  intros H Hin. pose proof (calm_lines _ _ _ (calm_text inv H)) as Hl.
  destruct (Split LF (ToXML_text inv)) as [|l ls]; [by apply elem_of_nil in Hin|].
  destruct Hl as [H1 H2]. apply elem_of_cons in Hin as [<-|Hin]; [by discriminate (H1 eq_refl)|].
  rewrite Forall_forall in H2. by specialize (H2 _ Hin).
Qed.

(** Reading a here-document: its lines up to the delimiter, and the lines after it. *)
Fixpoint heredoc (delimiter : string) (lines : list string) : option (list string * list string) :=
  match lines with
  | [] => None
  | l :: ls => if String.eqb l delimiter then Some ([], ls)
               else '(body, rest) ← heredoc delimiter ls; Some (l :: body, rest)
  end.

Lemma heredoc_reads d body rest : d ∉ body -> heredoc d (body ++ d :: rest) = Some (body, rest).
Proof.
  induction body as [|l body IH]; intros Hd; cbn.
  - by rewrite String.eqb_refl.
  - apply not_elem_of_cons in Hd as [Hl Hd].
    destruct (String.eqb_spec l d) as [->|]; [done|]. by rewrite IH.
Qed.

(** ** Quoted words *)

(** A shell word of single-quoted parts and escaped characters, up to a space:
    its value and what follows. *)
Fixpoint shell_word (quoted : bool) (s : string) : option (string * string) :=
  match s with
  | EmptyString => None
  | String c s' =>
      if quoted then
        if Ascii.eqb c apostrophe then shell_word false s'
        else '(w, r) ← shell_word true s'; Some (String c w, r)
      else if Ascii.eqb c apostrophe then shell_word true s'
      else if Ascii.eqb c " " then Some ("", s)
      else if Ascii.eqb c "\" then
        match s' with
        | String d s2 => '(w, r) ← shell_word false s2; Some (String d w, r)
        | EmptyString => None
        end
      else None
  end.

(** What [strings.ReplaceAll] makes of an apostrophe is read back as one. *)
Lemma shell_word_escaped p t : shell_word true (shell_escape p +:+ "' " +:+ t) = Some (p, " " +:+ t).
Proof.
  unfold shell_escape. induction p as [|c p IH]; [done|]. cbn [ReplaceAll].
  destruct (Ascii.eqb_spec c apostrophe) as [->|Hc].
  - rewrite !string_app_assoc.
    change ("'\''" +:+ ?x) with (String "'" (String "\" (String "'" (String "'" x)))).
    cbn -[ReplaceAll apostrophe]. change (Ascii.eqb "'" apostrophe) with true. cbn iota.
    change (Ascii.eqb "\" apostrophe) with false. cbn iota. rewrite IH. done.
  - rewrite !string_app_assoc. change (str1 c +:+ ?x) with (String c x). cbn [shell_word].
    destruct (Ascii.eqb_spec c apostrophe); [done|]. by rewrite IH.
Qed.

Lemma shell_word_plain p t : apostrophe ∉ bytes p -> shell_word true (p +:+ "' " +:+ t) = Some (p, " " +:+ t).
Proof.
  induction p as [|c p IH]; intros Hp; [done|]. cbn [bytes] in Hp. apply not_elem_of_cons in Hp as [Hc Hp].
  change (String c p +:+ ?x) with (String c (p +:+ x)). cbn [shell_word].
  destruct (Ascii.eqb_spec c apostrophe) as [->|]; [done|]. by rewrite IH.
Qed.

(** ** PEM bodies *)

(** A character of a PEM body: a visible character that is not the dash of the
    armor and not an apostrophe. Base64 text consists of such characters. *)
Definition body_char (c : ascii) : bool := solid c && negb (Ascii.eqb c "-") && negb (Ascii.eqb c apostrophe).
Definition body_text (s : string) : bool := forallb body_char (bytes s).

Lemma base64_body s : body_text (base64_encode s) = true.
Proof. by apply base64_alphabet; vm_compute. Qed.

(** A text in PEM armor: header, body lines, footer. *)
Definition armored (label : string) (body : list string) : string :=
  "-----BEGIN " +:+ label +:+ "-----" +:+ lf
  +:+ foldr (fun l s => l +:+ lf +:+ s) ("-----END " +:+ label +:+ "-----" +:+ lf) body.

Lemma body_text_facts s : body_text s = true ->
  (forall c, c ∈ bytes s -> solid c = true /\ c <> apostrophe /\ c <> LF) /\ TrimSpace s = s
  /\ (s <> "" -> armor_line s = false).
Proof.
  unfold body_text. rewrite forallb_forall. intros H.
  assert (Hc : forall c, c ∈ bytes s -> solid c = true /\ c <> apostrophe /\ c <> LF /\ c <> "-"%char).
  { intros c Hin%list_elem_of_In%H. unfold body_char in Hin. bool_to_prop.
    split_and!; [done|by intros ->|intros ->; by vm_compute in H0|by intros ->]. }
  split_and!.
  - intros c Hin%Hc. tauto.
  - apply TrimSpace_solid_all, Forall_forall. intros c Hin%Hc. tauto.
  - intros Hne. destruct s as [|c s]; [done|]. destruct (Hc c ltac:(left)) as (_ & _ & _ & Hd).
    unfold armor_line, HasPrefix. cbn -[ascii_dec]. destruct (ascii_dec "-" c) as [<-|]; done.
Qed.

Definition marker_line (first label : string) : string := first +:+ label +:+ "-----".

Lemma marker_stripped first label : first = "-----BEGIN " \/ first = "-----END " ->
  LF ∉ bytes label ->
  (LF ∉ bytes (marker_line first label)) /\ TrimSpace (marker_line first label) = marker_line first label
  /\ armor_line (marker_line first label) = true /\ marker_line first label <> "".
Proof.
  intros Hf Hl. unfold marker_line. split_and!.
  - rewrite !bytes_app, !elem_of_app. intros [H|[H|H]]; [|done|].
    + destruct Hf as [-> | ->]; cbn in H; set_solver.
    + cbn in H. set_solver.
  - apply TrimSpace_solid. unfold solid_ends. rewrite !bytes_app, !reverse_app.
    destruct Hf as [-> | ->]; done.
  - unfold armor_line. destruct Hf as [-> | ->]; by rewrite HasPrefix_app, ?orb_true_r.
  - destruct Hf as [-> | ->]; done.
Qed.

Definition strip_step (line acc : string) : string :=
  let t := TrimSpace line in if String.eqb t "" then acc else if armor_line t then acc else t +:+ acc.

Lemma strip_lines_cons l s : LF ∉ bytes l -> strip_lines (l +:+ lf +:+ s) = strip_step l (strip_lines s).
Proof.
  intros Hl. unfold strip_lines. change (lf +:+ s) with (String LF s). by rewrite Split_line.
Qed.

Lemma strip_step_marker first label acc : first = "-----BEGIN " \/ first = "-----END " ->
  LF ∉ bytes label -> strip_step (marker_line first label) acc = acc.
Proof.
  intros Hf Hl. destruct (marker_stripped first label Hf Hl) as (_ & Ht & Ha & Hn).
  unfold strip_step. cbv zeta. rewrite Ht, Ha. by destruct (String.eqb (marker_line first label) "").
Qed.

Lemma strip_step_body l acc : body_text l = true -> strip_step l acc = l +:+ acc.
Proof.
  intros H. destruct (body_text_facts l H) as (_ & Ht & Ha). unfold strip_step. cbv zeta. rewrite Ht.
  destruct (String.eqb_spec l "") as [->|Hn]; [done|]. by rewrite Ha.
Qed.

Lemma strip_lines_armored label body : LF ∉ bytes label -> Forall (fun l => body_text l = true) body ->
  strip_lines (armored label body) = foldr String.append "" body.
Proof.
  intros Hl Hb. unfold armored.
  change ("-----BEGIN " +:+ label +:+ "-----" +:+ lf +:+ ?x) with ("-----BEGIN " +:+ (label +:+ ("-----" +:+ (lf +:+ x)))).
  rewrite <- (string_app_assoc label), <- (string_app_assoc "-----BEGIN ").
  change ("-----BEGIN " +:+ label +:+ "-----") with (marker_line "-----BEGIN " label).
  destruct (marker_stripped "-----BEGIN " label (or_introl eq_refl) Hl) as (Hlf & _).
  rewrite strip_lines_cons, strip_step_marker by auto.
  induction Hb as [|l body Hb _ IH]; cbn [foldr].
  - rewrite <- (string_app_assoc label), <- (string_app_assoc "-----END ").
    change ("-----END " +:+ label +:+ "-----") with (marker_line "-----END " label).
    destruct (marker_stripped "-----END " label (or_intror eq_refl) Hl) as (Hlf' & _).
    rewrite <- (string_app_nil_r lf), strip_lines_cons, strip_step_marker by auto. done.
  - destruct (body_text_facts l Hb) as (Hc & _). rewrite strip_lines_cons, strip_step_body, IH; [done|done|].
    intros Hin. by apply Hc in Hin as (_ & _ & ?).
Qed.

Lemma strip_lines_body s : body_text s = true -> strip_lines s = s.
Proof.
  intros H. destruct (body_text_facts s H) as (Hc & _). unfold strip_lines.
  rewrite Split_last by (intros Hin; by apply Hc in Hin as (_ & _ & ?)).
  change (strip_step s "" = s). rewrite strip_step_body by done. apply string_app_nil_r.
Qed.

Lemma body_text_concat body : Forall (fun l => body_text l = true) body -> body_text (foldr String.append "" body) = true.
Proof.
  induction 1 as [|l body Hl _ IH]; [done|]. cbn [foldr]. unfold body_text in *.
  by rewrite bytes_app, forallb_app, Hl, IH.
Qed.

Lemma body_no_white s : body_text s = true ->
  ContainsAny s (" " +:+ str1 (byte_of 9) +:+ str1 (byte_of 13) +:+ lf) = false.
Proof.
  intros H. destruct (body_text_facts s H) as (Hc & _). unfold ContainsAny. apply not_true_iff_false.
  intros (c & Hin%list_elem_of_In & (d & Hd & ->%Ascii.eqb_eq)%existsb_exists)%existsb_exists.
  apply Hc in Hin as (Hs & _). cbn in Hd. destruct Hd as [<-|[<-|[<-|[<-|[]]]]]; by vm_compute in Hs.
Qed.

(** Both forms of a credential are stripped to their body. *)
Lemma stripPEM_armored label body : LF ∉ bytes label -> Forall (fun l => body_text l = true) body ->
  stripPEMArmor (armored label body) = foldr String.append "" body.
Proof.
  intros Hl Hb. unfold stripPEMArmor. change (String.eqb (armored label body) "") with false. cbv zeta.
  rewrite strip_lines_armored by done. by rewrite body_no_white by (by apply body_text_concat).
Qed.

Lemma stripPEM_body s : body_text s = true -> stripPEMArmor s = s.
Proof.
  intros H. unfold stripPEMArmor. destruct (String.eqb s ""); [done|]. cbv zeta.
  rewrite strip_lines_body by done. by rewrite body_no_white.
Qed.

(** ** The signing script *)

Definition key_line (body : string) : string := "printf '%s' '" +:+ body +:+ "' > " +:+ key_path.
Definition cert_line (body : string) : string := "printf '%s' '" +:+ body +:+ "' > " +:+ cert_path.

(** The lines of the signing script: the two credentials, the here-document with the invoice, the
    signing command and the output of the signed file. *)
Definition sign_lines (key cert flag : string) (document : list string) : list string :=
  [key_line key; cert_line cert; ""; "cat > /tmp/invoice.xml << 'XMLEOF'"] ++ document
  ++ ["XMLEOF"; "fatoora -sign -invoice /tmp/invoice.xml -signedInvoice /tmp/signed.xml " +:+ flag;
      "echo " +:+ dquote +:+ "===SIGNED===" +:+ dquote; "cat /tmp/signed.xml"; ""].

Lemma Split_step l s : LF ∉ bytes l -> Split LF (l +:+ lf +:+ s) = l :: Split LF s.
Proof. intros Hl. change (lf +:+ s) with (String LF s). by apply Split_line. Qed.

Lemma credential_line_no_lf body path : body_text body = true -> path = key_path \/ path = cert_path ->
  LF ∉ bytes ("printf '%s' '" +:+ body +:+ "' > " +:+ path).
Proof.
  intros Hb Hp. destruct (body_text_facts body Hb) as (Hc & _).
  rewrite !bytes_app, !elem_of_app. intros [H|[H|[H|H]]].
  - apply list_elem_of_In in H. by vm_compute in H; intuition.
  - by apply Hc in H as (_ & _ & ?).
  - apply list_elem_of_In in H. by vm_compute in H; intuition.
  - apply list_elem_of_In in H. destruct Hp as [-> | ->]; by vm_compute in H; intuition.
Qed.

Lemma env_flag_no_lf s : LF ∉ bytes (envFlag s).
Proof.
  unfold envFlag. repeat split_match; intros H%list_elem_of_In; by vm_compute in H; intuition.
Qed.

Lemma sign_script_lines s xml key cert : sdk_privateKey s <> "" -> sdk_certPEM s <> "" ->
  stripPEMArmor (sdk_privateKey s) = key -> stripPEMArmor (sdk_certPEM s) = cert ->
  body_text key = true -> body_text cert = true ->
  Split LF (sign_script s xml) = sign_lines key cert (envFlag s) (Split LF xml).
Proof.
  intros Hk Hc <- <- Hkb Hcb. unfold sign_script, credentialScript, store_invoice, write_file, sign_lines.
  destruct (String.eqb_spec (sdk_privateKey s) "") as [?|_]; [done|].
  destruct (String.eqb_spec (sdk_certPEM s) "") as [?|_]; [done|]. cbn [andb].
  set (k := stripPEMArmor (sdk_privateKey s)) in *. set (c := stripPEMArmor (sdk_certPEM s)) in *.
  replace (("printf '%s' '" +:+ k +:+ "' > " +:+ key_path +:+ lf)
           +:+ ("printf '%s' '" +:+ c +:+ "' > " +:+ cert_path +:+ lf))
    with (key_line k +:+ lf +:+ cert_line c +:+ lf)
    by (unfold key_line, cert_line; by rewrite !string_app_assoc).
  rewrite !string_app_assoc. unfold key_line, cert_line.
  rewrite Split_step by (apply credential_line_no_lf; auto).
  rewrite Split_step by (apply credential_line_no_lf; auto).
  change (lf +:+ ?x) with ("" +:+ lf +:+ x) at 1. rewrite Split_step by (by intros ?%elem_of_nil).
  rewrite Split_step by (intros H%list_elem_of_In; by vm_compute in H; intuition).
  change (xml +:+ lf +:+ ?x) with (xml +:+ String LF x). rewrite Split_app.
  rewrite Split_step by (intros H%list_elem_of_In; by vm_compute in H; intuition).
  rewrite <- (string_app_assoc _ (envFlag s)).
  rewrite Split_step by (rewrite bytes_app, elem_of_app; intros [H%list_elem_of_In|H];
    [by vm_compute in H; intuition|by apply env_flag_no_lf in H]).
  done.
Qed.

(** A key or certificate as the SDK is given it, and its Base64 body: a text in
    PEM armor with any label and any number of lines, or the bare body. *)
Inductive credential : string -> string -> Prop :=
| credential_bare body :
    body <> "" -> body_text body = true -> credential body body
| credential_armored label lines :
    LF ∉ bytes label -> Forall (fun l => body_text l = true) lines ->
    credential (armored label lines) (foldr String.append "" lines).

Lemma credential_facts text body : credential text body ->
  text <> "" /\ stripPEMArmor text = body /\ body_text body = true /\ apostrophe ∉ bytes body.
Proof.
  assert (Ha : forall t, body_text t = true -> apostrophe ∉ bytes t)
    by (intros t Ht Hin; by apply (body_text_facts t Ht) in Hin as (_ & ? & _)).
  destruct 1 as [body Hne Hb|label lines Hl Hb]; split_and!; auto.
  - by apply stripPEM_body.
  - by apply stripPEM_armored.
  - by apply body_text_concat.
  - by apply Ha, body_text_concat.
Qed.

(** C12: The signing script hands the tool exactly the stored credentials and the invoice. For a
    key and a certificate that are each either in PEM armor or a bare body, both made of visible
    characters other than dash and apostrophe, as every Base64 text is ([base64_body]), and for a document of ToXML whose few
    unescaped fields hold no line break (raw_lines): the first two lines of the script write the
    bodies of key and certificate, without armor and line breaks, as single quoted words; the
    here-document that follows ends at its own delimiter, whatever the escaped texts of the
    invoice hold, so its content is the document line by line, and what the shell runs after it
    are the tool's own commands. *)
Theorem sign_script_delivers s inv xml key cert :
  ToXML inv = Ok xml -> raw_lines inv ->
  credential (sdk_privateKey s) key -> credential (sdk_certPEM s) cert ->
  exists key_word cert_word rest,
    Split LF (sign_script s xml)
      = ["printf '%s' " +:+ key_word; "printf '%s' " +:+ cert_word; ""; "cat > /tmp/invoice.xml << 'XMLEOF'"] ++ rest
    /\ shell_word false key_word = Some (key, " > " +:+ key_path)
    /\ shell_word false cert_word = Some (cert, " > " +:+ cert_path)
    /\ heredoc "XMLEOF" rest
       = Some (Split LF xml,
               ["fatoora -sign -invoice /tmp/invoice.xml -signedInvoice /tmp/signed.xml " +:+ envFlag s;
                "echo " +:+ dquote +:+ "===SIGNED===" +:+ dquote; "cat /tmp/signed.xml"; ""]).
Proof.
  intros Hx Hraw Hk Hc. unfold ToXML in Hx. destruct (validate inv); [done|]. injection Hx as <-.
  destruct (credential_facts _ _ Hk) as (Hkne & Hks & Hkb & Hka).
  destruct (credential_facts _ _ Hc) as (Hcne & Hcs & Hcb & Hca).
  exists ("'" +:+ key +:+ "' > " +:+ key_path), ("'" +:+ cert +:+ "' > " +:+ cert_path).
  eexists. split_and!.
  - by rewrite (sign_script_lines s _ key cert).
  - by apply (shell_word_plain key ("> " +:+ key_path)).
  - by apply (shell_word_plain cert ("> " +:+ cert_path)).
  - apply heredoc_reads. by apply document_delimiter.
Qed.

Definition sample_sdk : SDK := mkSDK Sandbox (armored "EC PRIVATE KEY" ["MHQCAQ=="; "oAcGBSuB"]) "TUlJQ+/8=".

Lemma sign_script_delivers_witness :
  exists xml key_word cert_word rest, ToXML sample_invoice = Ok xml
  /\ Split LF (sign_script sample_sdk xml)
     = ["printf '%s' " +:+ key_word; "printf '%s' " +:+ cert_word; ""; "cat > /tmp/invoice.xml << 'XMLEOF'"] ++ rest
  /\ shell_word false key_word = Some ("MHQCAQ==oAcGBSuB", " > " +:+ key_path).
Proof.
  destruct (sign_script_delivers sample_sdk sample_invoice (ToXML_text sample_invoice)
              "MHQCAQ==oAcGBSuB" "TUlJQ+/8=") as (kw & cw & rest & H1 & H2 & _).
  - reflexivity.
  - split_and!; [by vm_compute..|]. constructor; [by split; vm_compute|constructor].
  - apply (credential_armored "EC PRIVATE KEY" ["MHQCAQ=="; "oAcGBSuB"]); [|by repeat constructor].
    intros H%list_elem_of_In. by vm_compute in H; intuition.
  - by apply credential_bare.
  - exists (ToXML_text sample_invoice), kw, cw, rest. split_and!; [reflexivity|exact H1|exact H2].
Defined.

(** The comment in [credentialScript] calls the stripped body pure Base64; nothing checks it. A
    certificate with an apostrophe ends the quoted word, and the shell runs what follows. *)
Example certificate_injects :
  Split LF (credentialScript (mkSDK Sandbox "" "x';reboot;echo'"))
  = ["printf '%s' 'x';reboot;echo'' > " +:+ cert_path; ""].
Proof. by vm_compute. Qed.

(** ** The exchange of a CSR *)

Lemma HasPrefix_line sub a b : LF ∉ bytes sub -> HasPrefix (a +:+ lf +:+ b) sub = true -> HasPrefix a sub = true.
Proof.
  unfold HasPrefix. revert a. induction sub as [|c sub IH]; intros a Hn Hp; [by destruct a|].
  cbn [bytes] in Hn. apply not_elem_of_cons in Hn as [Hc Hn].
  destruct a as [|d a].
  - change ("" +:+ lf +:+ b) with (String LF b) in Hp. cbn -[ascii_dec LF] in Hp.
    by destruct (ascii_dec c LF).
  - change (String d a +:+ ?x) with (String d (a +:+ x)) in Hp. cbn -[ascii_dec] in Hp |- *.
    destruct (ascii_dec c d); [by apply IH|done].
Qed.

(** A search passes over a line that does not hold the text. *)
Lemma Index_line sub a b : LF ∉ bytes sub -> sub <> "" -> Contains a sub = false ->
  Index (a +:+ lf +:+ b) sub = Nat.add (S (String.length a)) <$> Index b sub.
Proof.
  intros Hn Hne. unfold Contains. induction a as [|c a IH]; intros Ha.
  - change ("" +:+ lf +:+ b) with (String LF b). cbn [Index].
    destruct (HasPrefix (String LF b) sub) eqn:E; [|by destruct (Index b sub)].
    exfalso. destruct sub as [|d sub]; [done|]. unfold HasPrefix in E. cbn -[ascii_dec LF] in E.
    destruct (ascii_dec d LF) as [->|]; [|done]. apply Hn. left.
  - change (String c a +:+ ?x) with (String c (a +:+ x)). cbn [Index] in *.
    destruct (HasPrefix (String c a) sub) eqn:E1; [done|].
    destruct (HasPrefix (String c (a +:+ lf +:+ b)) sub) eqn:E2.
    { apply (HasPrefix_line sub (String c a)) in E2; [congruence|done]. }
    destruct (Index a sub); [done|]. rewrite IH by done. by destruct (Index b sub).
Qed.

Lemma TrimSpace_lf s : s <> "" -> solid_ends s = true -> TrimSpace (lf +:+ s +:+ lf) = s.
Proof.
  intros Hne Hs. pose proof (TrimSpace_solid s Hs) as Ht. unfold TrimSpace in *.
  assert (Hl : trim_left 0 (lf +:+ s +:+ lf) = s +:+ lf /\ trim_left 0 s = s).
  { destruct s as [|c s]; [done|]. assert (Hc : solid c = true).
    { unfold solid_ends in Hs. cbn [bytes] in Hs. destruct (reverse (c :: bytes s)) eqn:E.
      - apply (f_equal length) in E. by rewrite length_reverse in E.
      - by apply andb_true_iff in Hs as [? _]. }
    split; [|by apply trim_left_solid].
    change (lf +:+ String c s +:+ lf) with (String LF (String c (s +:+ lf))).
    change (trim_left 0 (String LF ?x)) with (trim_left 0 x). by apply trim_left_solid. }
  destruct Hl as [-> E]. rewrite E in Ht. rewrite <- Ht at 2. unfold trim_right.
  rewrite bytes_app, reverse_app. change (reverse (bytes lf)) with [LF]. done.
Qed.

Definition no_lf (s : string) : Prop := LF ∉ bytes s.

Lemma drop_bytes_cut n a b : n = String.length a -> drop_bytes n (a +:+ b) = b.
Proof. intros ->. apply drop_bytes_app. Qed.
Lemma take_bytes_cut n a b : n = String.length a -> take_bytes n (a +:+ b) = a.
Proof. intros ->. apply take_bytes_app. Qed.

(** The output of the script: the two files between their markers. *)
Definition csr_output (csr key : string) : string :=
  csr_marker +:+ lf +:+ csr +:+ lf +:+ key_marker +:+ lf +:+ key +:+ lf.

Lemma parse_csr_output csr key : csr <> "" -> key <> "" -> solid_ends csr = true -> solid_ends key = true ->
  Contains csr key_marker = false -> parseCSROutput (csr_output csr key) = Some (Ok (csr, key)).
Proof.
  intros Hc Hk Hcs Hks Hno. unfold parseCSROutput, csr_output. rewrite Index_here.
  assert (Hn : LF ∉ bytes key_marker) by (intros H%list_elem_of_In; by vm_compute in H; intuition).
  rewrite Index_line by done. rewrite Index_line by done. rewrite Index_here. cbn [fmap option_fmap option_map].
  set (rest := key_marker +:+ lf +:+ key +:+ lf).
  unfold slice.
  replace (0 + String.length csr_marker <=? _)%nat with true by (symmetry; apply Nat.leb_le; cbn; lia).
  cbn [mbind option_bind]. rewrite (drop_bytes_cut _ csr_marker) by done.
  replace (lf +:+ csr +:+ lf +:+ rest) with ((lf +:+ csr +:+ lf) +:+ rest) by (by rewrite !string_app_assoc).
  rewrite take_bytes_cut by (rewrite !string_length_app; cbn; lia).
  rewrite TrimSpace_lf by done.
  replace (csr_marker +:+ (lf +:+ csr +:+ lf) +:+ rest)
    with ((csr_marker +:+ lf +:+ csr +:+ lf +:+ key_marker) +:+ lf +:+ key +:+ lf)
    by (unfold rest; by rewrite !string_app_assoc).
  rewrite drop_bytes_cut by (rewrite !string_length_app; cbn; lia).
  by rewrite TrimSpace_lf.
Qed.

(** C27: The CSR exchange is exact for every configuration: the properties reach the tool as one
    quoted word with every byte kept, apostrophes included, and when the tool prints the two files
    between their markers, the CSR and the private key are taken over as they were printed. *)
Theorem csr_exchange s c w h csr key stderr :
  csr <> "" -> key <> "" -> solid_ends csr = true -> solid_ends key = true ->
  Contains csr key_marker = false ->
  w_exec w h (csr_script (envFlag s) (csr_properties c)) = (csr_output csr key, stderr, None) ->
  GenerateCSR s c w h
    = (Some (Ok (mkCSRResult csr key)), h ++ [AExec (csr_script (envFlag s) (csr_properties c))])
  /\ exists word rest, csr_script (envFlag s) (csr_properties c) = lf +:+ "echo " +:+ word
     /\ shell_word false word = Some (csr_properties c, " > /tmp/csr.properties" +:+ lf +:+ rest).
Proof.
  intros Hc Hk Hcs Hks Hno Hw. split.
  - unfold GenerateCSR, localExec. rewrite io_bind_eq. unfold io_exec. cbn [fst snd]. rewrite Hw.
    by rewrite parse_csr_output.
  - exists ("'" +:+ shell_escape (csr_properties c) +:+ "' " +:+ "> /tmp/csr.properties" +:+ lf +:+ csr_commands (envFlag s)),
      (csr_commands (envFlag s)).
    split; [reflexivity|]. apply (shell_word_escaped (csr_properties c)).
Qed.

Definition sample_csr : CSRConfig :=
  mkCSRConfig "TST-1" "1-Bob's|2-TST|3-7" "399999999900003" "Main" "Bob's" "SA" "1100" "RRRD2929" "Retail".

Lemma csr_exchange_witness :
  let w := mkWorld (fun _ _ => Err (NewError "")) (fun _ _ => (csr_output "CSR==" "KEY", "", None)) in
  (GenerateCSR sample_sdk sample_csr w []).1 = Some (Ok (mkCSRResult "CSR==" "KEY")).
Proof.
  cbv zeta.
  destruct (csr_exchange sample_sdk sample_csr
    (mkWorld (fun _ _ => Err (NewError "")) (fun _ _ => (csr_output "CSR==" "KEY", "", None))) []
    "CSR==" "KEY" "") as [H _]; [discriminate|discriminate|reflexivity..|]. by rewrite H.
Defined.

(** Bounds of the slice in [parseCSROutput]: with the markers in the other order it panics. *)
Example markers_out_of_order_panic : parseCSROutput (key_marker +:+ csr_marker) = None.
Proof. by vm_compute. Qed.

(** A line break in a configured name adds a property of its own. *)
Example csr_property_injected :
  Split LF (csr_properties (mkCSRConfig "" "" "" "" ("Acme" +:+ lf +:+ "csr.invoice.type=0100") "SA" "1100" "" ""))
  = ["csr.common.name="; "csr.serial.number="; "csr.organization.identifier="; "csr.organization.unit.name=";
     "csr.organization.name=Acme"; "csr.invoice.type=0100"; "csr.country.name=SA"; "csr.invoice.type=1100";
     "csr.location.address="; "csr.industry.business.category="].
Proof. by vm_compute. Qed.
