(* ===== verification/Zatca.v ===== *)
(** * The ZATCA service ([zatca/zatca.go])

    Onboarding, reporting and clearance over the HTTP client and the signing
    tool. The service holds pointers to its configuration and its SDK, which the
    onboarding fills with credentials as it goes, so each step returns the
    service as it leaves it. Log lines are left out. *)

From S2P Require Import Prelude GoStrings GoText Base64 Models GoErrors Config BigInt Cert InvoiceHash Civil.
From S2P Require Import Qr Sign Float64 Invoice Xml Json Unmarshal JsonText Io Client Sdk.
Local Open Scope Z_scope.
Local Open Scope io_scope.

Record ZService : Type := mkZService { zs_Config : Config; zs_SDK : SDK }.

(** [zatca.New]; the client shares the configuration. *)
Definition NewService (c : Config) : ZService := mkZService c (NewSDK c).

Definition set_compliance (user pass : string) (c : Config) : Config :=
  mkConfigRec (cg_Env c) (cg_OTP c) user pass (cg_ProductionUsername c) (cg_ProductionPassword c) (cg_EGSID c)
    (cg_CSR c) (cg_Seller c).
Definition set_production (user pass : string) (c : Config) : Config :=
  mkConfigRec (cg_Env c) (cg_OTP c) (cg_ComplianceUsername c) (cg_CompliancePassword c) user pass (cg_EGSID c)
    (cg_CSR c) (cg_Seller c).

Record OnboardResult : Type := mkOnboardResult {
  or_CSR : string; or_PrivateKey : string;
  or_ComplianceCert : string; or_ComplianceSecret : string; or_ComplianceRequestID : string;
  or_ProductionCert : string; or_ProductionSecret : string; or_ProductionRequestID : string
}.

(** What the log shows of an OTP and of a key. *)
Definition maskOTP (s : string) : string :=
  if (String.length s <=? 4)%nat then s
  else take_bytes 2 s +:+ "****" +:+ drop_bytes (String.length s - 2) s.
Definition safePrefix (s : string) (n : nat) : string :=
  if (String.length s <=? n)%nat then s else take_bytes n s.

(** [pemToBase64]. *)
Definition pemToBase64 (pemStr : string) : string := base64_encode (TrimSpace pemStr).

(** ** Compliance invoices *)

(** The six kinds, in order: type, subtype and name. *)
Definition compliance_types : list (Z * string * string) :=
  [(TypeInvoice, SubTypeStandard, "Standard Invoice"); (TypeInvoice, SubTypeSimplified, "Simplified Invoice");
   (TypeCreditNote, SubTypeStandard, "Standard Credit Note"); (TypeCreditNote, SubTypeSimplified, "Simplified Credit Note");
   (TypeDebitNote, SubTypeStandard, "Standard Debit Note"); (TypeDebitNote, SubTypeSimplified, "Simplified Debit Note")].

Definition compliance_genesis : string :=
  "NWZlY2ViNjZmZmM4NmYzOGQ5NTI3ODZjNmQ2OTZjNzljMmRiYzIzOWRkNGU5MWI0NjcyOWQ3M2EyN2ZiNTdlOQ==".

Definition fatoora_customer : Party :=
  mkParty "Fatoora Samples LTD" "" "399999999800003" "" "" "Prince Sultan" "2322" "Al-Murabba" "Riyadh" "23333" "SA".

Definition compliance_supplier (s : SellerInfo) : Party :=
  mkParty (sl_Name s) "" (sl_VAT s) "CRN" (sl_CRN s) (sl_Street s) (sl_Building s) (sl_District s) (sl_City s)
    (sl_PostalCode s) (sl_Country s).

Definition compliance_line : LineItem :=
  mkLineItem "" "Compliance Test Item" (f_int 1) "PCE" (f_int 100) f_zero TaxStandard (f_int 15).

(** [now] is [time.Now().UTC()]. *)
Definition buildComplianceInvoice (s : ZService) (now : civil) (typeCode : Z) (subType : string) (icv : Z)
    (pih : string) : Invoice :=
  let note := (typeCode =? TypeCreditNote) || (typeCode =? TypeDebitNote) in
  let noted (text : string) := if note then text else "" in
  mkInvoice ("COMP-" +:+ append_int icv 6) ("00000000-0000-0000-0000-" +:+ append_int icv 12) now now typeCode subType
    "" "" (noted "Compliance test correction") (noted "en") (compliance_supplier (cg_Seller (zs_Config s)))
    fatoora_customer zero_time PaymentCash "" (noted "Compliance test correction") f_zero "" f_zero
    [compliance_line] pih icv (noted "COMP-000001").

Definition doc_request (hash uuid signedXML : string) : InvoiceRequest :=
  Build_InvoiceRequest hash uuid (base64_encode signedXML).

Definition lift_xml (r : result string string) : result error string :=
  match r with Ok x => Ok x | Err e => Err (NewError e) end.

Definition has_validation_errors (resp : InvoiceResponse) : bool :=
  match resp_validationResults resp with
  | Some vr => match errorMessages vr with [] => false | _ => true end
  | None => false
  end.

(** The error text of a list of messages is Go's [%v] of the slice; it is
    abbreviated to their number. *)
Definition validation_failure (resp : InvoiceResponse) : error :=
  NewError ("compliance validation errors: "
            +:+ itoa (match resp_validationResults resp with
                      | Some vr => Z.of_nat (length (errorMessages vr)) | None => 0 end)).

(** The signed document and its hash. *)
Definition signAndSubmitCompliance (s : ZService) (inv : Invoice) : io (result error (string * string)) :=
  try_io! xmlStr := io_ret (lift_xml (ToXML inv)) or (fun e => Wrap "generate XML: " e "") in
  try_io! (signedXML, hash) := SignInvoice (zs_SDK s) xmlStr or (fun e => Wrap "sign invoice: " e "") in
  try_io! resp := ComplianceCheck (zs_Config s) (doc_request hash (iv_UUID inv) signedXML)
    or (fun e => Wrap "compliance check: " e "") in
  io_ret (if has_validation_errors resp then Err (validation_failure resp) else Ok (signedXML, hash)).

(** The loop over the kinds; [now] gives the time at each counter value. *)
Fixpoint submit_kinds (s : ZService) (now : Z -> civil) (kinds : list (Z * string * string)) (pih : string) (icv : Z)
    : io (result error unit) :=
  match kinds with
  | [] => io_ret (Ok tt)
  | (typeCode, subType, name) :: rest =>
      try_io! (_, hash) :=
        signAndSubmitCompliance s (buildComplianceInvoice s (now icv) typeCode subType icv pih)
        or (fun e => Wrap (name +:+ ": ") e "") in
      submit_kinds s now rest hash (icv + 1)
  end.

Section service.
Context `{Decoders} `{Hash}.

Definition submitComplianceInvoices (s : ZService) (now : Z -> civil) (privateKeyPEM certBase64 : string)
    : io (result error unit) :=
  try_io! _ := io_ret (ParsePrivateKey privateKeyPEM) or (fun e => Wrap "parse private key: " e "") in
  try_io! _ := io_ret (ParseCertificate certBase64) or (fun e => Wrap "parse certificate: " e "") in
  submit_kinds s now compliance_types compliance_genesis 1.

(** ** Onboarding *)

Definition with_sdk (s : ZService) (priv cert : string) : ZService :=
  mkZService (zs_Config s) (SetCredentials (zs_SDK s) priv cert).
Definition with_config (s : ZService) (c : Config) : ZService := mkZService c (zs_SDK s).

Definition token_error (token : string) : error :=
  Wrap ("step 2: base64-decode binarySecurityToken (len=" +:+ itoa (Z.of_nat (String.length token)) +:+ "): ")
    (NewError "illegal base64 data") "".

(** Steps 2 to 4; the result and the service as it is left. *)
Definition OnboardWithCSR (s : ZService) (now : Z -> civil) (csrPEM privateKeyPEM : string)
    : io (result error OnboardResult * ZService) :=
  let s := with_sdk s privateKeyPEM "" in
  let! r := ComplianceCSID (zs_Config s) (pemToBase64 csrPEM) in
  match r with
  | Err e => io_ret (Err (Wrap "step 2 (compliance CSID): " e ""), s)
  | Ok compResp =>
      let token := csid_binarySecurityToken compResp in
      let s := with_config s (set_compliance token (csid_secret compResp) (zs_Config s)) in
      match base64_decode token with
      | None => io_ret (Err (token_error token), s)
      | Some certPEM =>
          let s := with_sdk s privateKeyPEM certPEM in
          let! r := submitComplianceInvoices s now privateKeyPEM token in
          match r with
          | Err e => io_ret (Err (Wrap "step 3 (compliance invoices): " e ""), s)
          | Ok _ =>
              let! r := ProductionCSID (zs_Config s) (csid_requestID compResp) in
              match r with
              | Err e => io_ret (Err (Wrap "step 4 (production CSID): " e ""), s)
              | Ok prodResp =>
                  io_ret
                    (Ok (mkOnboardResult "" "" token (csid_secret compResp) (csid_requestID compResp)
                           (csid_binarySecurityToken prodResp) (csid_secret prodResp) (csid_requestID prodResp)),
                     with_config s (set_production (csid_binarySecurityToken prodResp) (csid_secret prodResp)
                                      (zs_Config s)))
              end
          end
      end
  end.

(** [None] is the panic of [GenerateCSR]. *)
Definition Onboard (s : ZService) (now : Z -> civil) : io (option (result error OnboardResult * ZService)) :=
  let! r := GenerateCSR (zs_SDK s) (cg_CSR (zs_Config s)) in
  match r with
  | None => io_ret None
  | Some (Err e) => io_ret (Some (Err (Wrap "step 1 (CSR): " e ""), s))
  | Some (Ok csrResult) =>
      let! (r, s) := OnboardWithCSR s now (cr_CSR csrResult) (cr_PrivateKey csrResult) in
      io_ret (Some (match r with
                    | Err e => Err e
                    | Ok res => Ok (mkOnboardResult (cr_CSR csrResult) (cr_PrivateKey csrResult)
                                      (or_ComplianceCert res) (or_ComplianceSecret res) (or_ComplianceRequestID res)
                                      (or_ProductionCert res) (or_ProductionSecret res) (or_ProductionRequestID res))
                    end, s))
  end.
End service.

(** ** Reporting and clearance *)

Record ReportResult : Type := mkReportResult {
  rr_SignedXML : string; rr_InvoiceHash : string; rr_QRCode : string; rr_Status : string;
  rr_Warnings : list ErrorDetail
}.
Record ClearResult : Type := mkClearResult {
  cl_SignedXML : string; cl_ClearedXML : string; cl_InvoiceHash : string; cl_Status : string;
  cl_Warnings : list ErrorDetail
}.

Definition ReportInvoice (s : ZService) (inv : Invoice) : io (result error ReportResult) :=
  if negb (IsSimplified inv)
  then io_ret (Err (NewError "ReportInvoice is for simplified (B2C) invoices only"))
  else
    try_io! xmlStr := io_ret (lift_xml (ToXML inv)) or (fun e => Wrap "generate XML: " e "") in
    try_io! (signedXML, hash) := SignInvoice (zs_SDK s) xmlStr or (fun e => Wrap "sign invoice: " e "") in
    try_io! resp := Client.ReportInvoice (zs_Config s) (doc_request hash (iv_UUID inv) signedXML)
      or (fun e => Wrap "report invoice: " e "") in
    io_ret (Ok (mkReportResult signedXML hash "" (resp_status resp) (resp_warnings resp))).

(** The cleared document, when the answer holds one that decodes. *)
Definition cleared_xml (resp : InvoiceResponse) : string :=
  if String.eqb (resp_clearedInvoice resp) "" then ""
  else match base64_decode (resp_clearedInvoice resp) with Some decoded => decoded | None => "" end.

Definition ClearInvoice (s : ZService) (inv : Invoice) : io (result error ClearResult) :=
  if negb (IsStandard inv)
  then io_ret (Err (NewError "ClearInvoice is for standard (B2B) invoices only"))
  else
    try_io! xmlStr := io_ret (lift_xml (ToXML inv)) or (fun e => Wrap "generate XML: " e "") in
    try_io! (signedXML, hash) := SignInvoice (zs_SDK s) xmlStr or (fun e => Wrap "sign invoice: " e "") in
    try_io! resp := Client.ClearInvoice (zs_Config s) (doc_request hash (iv_UUID inv) signedXML)
      or (fun e => Wrap "clear invoice: " e "") in
    io_ret (Ok (mkClearResult signedXML (cleared_xml resp) hash (resp_status resp) (resp_warnings resp))).

Section native.
Context `{Decoders} `{Hash} `{XmlLibrary} `{Signer}.

(** The native signature of both flows; [None] is the panic of the public key. *)
Definition sign_native (inv : Invoice) (now : civil) (simplified : bool) (privateKeyPEM certBase64 : string)
    : option (result error SignResult) :=
  match ParsePrivateKey privateKeyPEM with
  | Err e => Some (Err (Wrap "parse private key: " e ""))
  | Ok privKey =>
      match ParseCertificate certBase64 with
      | Err e => Some (Err (Wrap "parse certificate: " e ""))
      | Ok cert =>
          match ToXML inv with
          | Err e => Some (Err (Wrap "generate XML: " (NewError e) ""))
          | Ok xmlStr =>
              match SignInvoiceWithQR xmlStr privKey cert simplified
                      (pt_RegistrationName (iv_Supplier inv)) (pt_VAT (iv_Supplier inv)) (iv_IssueDate inv)
                      (format_fixed 2 (TotalWithTax inv)) (format_fixed 2 (TotalTax inv)) now with
              | None => None
              | Some (Err e) => Some (Err (Wrap "sign invoice: " e ""))
              | Some (Ok r) => Some (Ok r)
              end
          end
      end
  end.

Definition ReportInvoiceNative (s : ZService) (inv : Invoice) (now : civil) (privateKeyPEM certBase64 : string)
    : io (option (result error ReportResult)) :=
  if negb (IsSimplified inv)
  then io_ret (Some (Err (NewError "ReportInvoice is for simplified (B2C) invoices only")))
  else
    match sign_native inv now true privateKeyPEM certBase64 with
    | None => io_ret None
    | Some (Err e) => io_ret (Some (Err e))
    | Some (Ok r) =>
        let! resp := Client.ReportInvoice (zs_Config s) (doc_request (sr_InvoiceHash r) (iv_UUID inv) (sr_SignedXML r)) in
        io_ret (Some match resp with
                     | Err e => Err (Wrap "report invoice: " e "")
                     | Ok resp => Ok (mkReportResult (sr_SignedXML r) (sr_InvoiceHash r) (sr_QRCode r)
                                        (resp_status resp) (resp_warnings resp))
                     end)
    end.

Definition ClearInvoiceNative (s : ZService) (inv : Invoice) (now : civil) (privateKeyPEM certBase64 : string)
    : io (option (result error ClearResult)) :=
  if negb (IsStandard inv)
  then io_ret (Some (Err (NewError "ClearInvoice is for standard (B2B) invoices only")))
  else
    match sign_native inv now false privateKeyPEM certBase64 with
    | None => io_ret None
    | Some (Err e) => io_ret (Some (Err e))
    | Some (Ok r) =>
        let! resp := Client.ClearInvoice (zs_Config s) (doc_request (sr_InvoiceHash r) (iv_UUID inv) (sr_SignedXML r)) in
        io_ret (Some match resp with
                     | Err e => Err (Wrap "clear invoice: " e "")
                     | Ok resp => Ok (mkClearResult (sr_SignedXML r) (cleared_xml resp) (sr_InvoiceHash r)
                                        (resp_status resp) (resp_warnings resp))
                     end)
    end.
End native.
