(* ===== verification/ZatcaThm.v ===== *)
(** * The onboarding sequence

    What [OnboardWithCSR] asks ZATCA, in which order, with which credentials,
    and that no production certificate is requested before all six compliance
    invoices have passed. *)

From S2P Require Import Prelude GoStrings GoText Base64 Models GoErrors Config BigInt Cert InvoiceHash Civil.
From S2P Require Import Qr Sign Float64 Invoice Xml Json Unmarshal JsonText Io Client Sdk Zatca.
Local Open Scope Z_scope.

(** ** Running [io] *)

Lemma io_try_run {A B} (m : io (result error A)) wrap (f : A -> io (result error B)) w h :
  io_try m wrap f w h = match m w h with
                        | (Ok a, h') => f a w h'
                        | (Err e, h') => (Err (wrap e), h')
                        end.
Proof. unfold io_try. rewrite io_bind_eq. by destruct (m w h) as [[a|e] h']. Qed.

Lemma SignInvoice_run s xml w h :
  exists r, SignInvoice s xml w h = (r, h ++ [AExec (sign_script s xml)]).
Proof.
  unfold SignInvoice, localExec. rewrite io_bind_eq. unfold io_exec. cbn [fst snd].
  destruct (w_exec w h (sign_script s xml)) as [[o e] x]. by eexists.
Qed.

Lemma ComplianceCheck_run c r w h :
  exists a, ComplianceCheck c r w h = (a, h ++ [AHttp (ComplianceCheck_request c r)]).
Proof.
  unfold ComplianceCheck. pose proof (named_run "ComplianceCheck" response_fields response0
    (ComplianceCheck_request c r) w h) as H. destruct (named _ _ w h) as [a h']. cbn in H. subst. by eexists.
Qed.

Lemma ComplianceCSID_run c csr w h :
  exists a, ComplianceCSID c csr w h = (a, h ++ [AHttp (ComplianceCSID_request c csr)]).
Proof.
  unfold ComplianceCSID. pose proof (named_run "ComplianceCSID" csid_fields csid0
    (ComplianceCSID_request c csr) w h) as H. destruct (named _ _ w h) as [a h']. cbn in H. subst. by eexists.
Qed.

Lemma ProductionCSID_run c id w h :
  exists a, ProductionCSID c id w h = (a, h ++ [AHttp (ProductionCSID_request c id)]).
Proof.
  unfold ProductionCSID. pose proof (named_run "ProductionCSID" csid_fields csid0
    (ProductionCSID_request c id) w h) as H. destruct (named _ _ w h) as [a h']. cbn in H. subst. by eexists.
Qed.

(** ** The compliance chain *)

(** The kinds were checked in order from history [h] to [h']: each invoice is
    built with its counter and the hash of the one before it, signed by the
    tool, submitted as signed, and answered without validation errors. *)
Inductive checked (s : ZService) (now : Z -> civil) (w : world) :
    list (Z * string * string) -> string -> Z -> list action -> list action -> Prop :=
| checked_nil pih icv h : checked s now w [] pih icv h h
| checked_cons typeCode subType name rest pih icv h xml signedXML hash resp h' :
    ToXML (buildComplianceInvoice s (now icv) typeCode subType icv pih) = Ok xml ->
    SignInvoice (zs_SDK s) xml w h = (Ok (signedXML, hash), h ++ [AExec (sign_script (zs_SDK s) xml)]) ->
    let req := ComplianceCheck_request (zs_Config s)
                 (doc_request hash ("00000000-0000-0000-0000-" +:+ append_int icv 12) signedXML) in
    let h1 := h ++ [AExec (sign_script (zs_SDK s) xml)] in
    ComplianceCheck (zs_Config s) (doc_request hash ("00000000-0000-0000-0000-" +:+ append_int icv 12) signedXML) w h1
      = (Ok resp, h1 ++ [AHttp req]) ->
    has_validation_errors resp = false ->
    checked s now w rest hash (icv + 1) (h1 ++ [AHttp req]) h' ->
    checked s now w ((typeCode, subType, name) :: rest) pih icv h h'.

(** A request for a production certificate. *)
Definition production_request (c : Config) (a : action) : Prop :=
  match a with AHttp r => rq_url r = base_url c +:+ "/production/csids" | AExec _ => False end.

Lemma BaseURL_urls e : BaseURL e +:+ "/compliance" <> BaseURL e +:+ "/production/csids"
  /\ BaseURL e +:+ "/compliance/invoices" <> BaseURL e +:+ "/production/csids".
Proof. split; intros H%string_app_inj_l; discriminate. Qed.

Lemma setComplianceAuth_url c r : rq_url (setComplianceAuth c r) = rq_url r.
Proof. unfold setComplianceAuth, set_basic. by destruct (_ && _). Qed.

Lemma check_not_production c r : ~ production_request c (AHttp (ComplianceCheck_request c r)).
Proof. unfold ComplianceCheck_request. cbn. rewrite setComplianceAuth_url. apply BaseURL_urls. Qed.

Lemma csid_not_production c csr : ~ production_request c (AHttp (ComplianceCSID_request c csr)).
Proof. apply BaseURL_urls. Qed.

Lemma exec_not_production c x : ~ production_request c (AExec x).
Proof. by intros []. Qed.

(** The actions added to a history, none of which asks for a production certificate. *)
Definition quiet_steps (c : Config) (h h' : list action) : Prop :=
  exists t, h' = h ++ t /\ Forall (fun a => ~ production_request c a) t.

Lemma quiet_refl c h : quiet_steps c h h.
Proof. exists []. split; [by rewrite app_nil_r|constructor]. Qed.
Lemma quiet_step c h h' a : quiet_steps c h h' -> ~ production_request c a -> quiet_steps c h (h' ++ [a]).
Proof.
  intros (t & -> & Ht) Ha. exists (t ++ [a]). split; [by rewrite app_assoc|].
  apply Forall_app. split; [done|by constructor].
Qed.
Lemma quiet_trans c h h1 h2 : quiet_steps c h h1 -> quiet_steps c h1 h2 -> quiet_steps c h h2.
Proof.
  intros (t & -> & Ht) (t' & -> & Ht'). exists (t ++ t'). split; [by rewrite app_assoc|]. by apply Forall_app.
Qed.

Lemma submit_kinds_run s now w kinds pih icv h :
  let '(r, h') := submit_kinds s now kinds pih icv w h in
  quiet_steps (zs_Config s) h h' /\ (r = Ok tt -> checked s now w kinds pih icv h h').
Proof.
  revert pih icv h. induction kinds as [|[[typeCode subType] name] rest IH]; intros pih icv h; cbn [submit_kinds].
  { split; [apply quiet_refl|]. intros _. constructor. }
  rewrite io_try_run. unfold signAndSubmitCompliance. rewrite io_try_run. cbn [io_ret].
  destruct (ToXML _) as [xml|e] eqn:Ex; cbn [lift_xml]; [|split; [apply quiet_refl|done]].
  rewrite io_try_run. destruct (SignInvoice_run (zs_SDK s) xml w h) as [[[signedXML hash]|e] Es]; rewrite Es;
    [|split; [apply quiet_step; [apply quiet_refl|apply exec_not_production]|done]].
  rewrite io_try_run. set (h1 := h ++ [AExec _]).
  set (req := doc_request hash _ signedXML).
  destruct (ComplianceCheck_run (zs_Config s) req w h1) as [[resp|e] Ec]; rewrite Ec.
  2: { split; [|done]. apply quiet_step; [apply quiet_step; [apply quiet_refl|apply exec_not_production]|apply check_not_production]. }
  assert (Hq : quiet_steps (zs_Config s) h (h1 ++ [AHttp (ComplianceCheck_request (zs_Config s) req)])).
  { apply quiet_step; [apply quiet_step; [apply quiet_refl|apply exec_not_production]|apply check_not_production]. }
  cbn [io_ret]. destruct (has_validation_errors resp) eqn:Ev; [by split|].
  specialize (IH hash (icv + 1) (h1 ++ [AHttp (ComplianceCheck_request (zs_Config s) req)])).
  destruct (submit_kinds s now rest hash (icv + 1) w _) as [r h']. destruct IH as [IH1 IH2].
  split; [by eapply quiet_trans|]. intros Hr. eapply checked_cons; [exact Ex|exact Es|exact Ec|exact Ev|].
  by apply IH2.
Qed.

Section onboarding.
Context `{Decoders} `{Hash}.

Lemma submitComplianceInvoices_run s now priv cert w h :
  let '(r, h') := submitComplianceInvoices s now priv cert w h in
  quiet_steps (zs_Config s) h h'
  /\ (r = Ok tt -> checked s now w compliance_types compliance_genesis 1 h h').
Proof.
  unfold submitComplianceInvoices. rewrite io_try_run. cbn [io_ret].
  destruct (ParsePrivateKey priv); [|split; [apply quiet_refl|done]].
  rewrite io_try_run. cbn [io_ret].
  destruct (ParseCertificate cert); [|split; [apply quiet_refl|done]].
  apply submit_kinds_run.
Qed.

(** The service with the credentials of a compliance answer: the configuration
    carries token and secret, the tool the key and the decoded certificate. *)
Definition compliant (s : ZService) (priv cert : string) (comp : CSIDResponse) : ZService :=
  mkZService (set_compliance (csid_binarySecurityToken comp) (csid_secret comp) (zs_Config s))
    (SetCredentials (zs_SDK s) priv cert).

Lemma onboard_cases s now csr priv w h :
  let h1 := h ++ [AHttp (ComplianceCSID_request (zs_Config s) (pemToBase64 csr))] in
  let '((r, s'), h') := OnboardWithCSR s now csr priv w h in
  (exists comp cert h2,
     let s2 := compliant s priv cert comp in
     ComplianceCSID (zs_Config s) (pemToBase64 csr) w h = (Ok comp, h1)
     /\ base64_decode (csid_binarySecurityToken comp) = Some cert
     /\ checked s2 now w compliance_types compliance_genesis 1 h1 h2
     /\ h' = h2 ++ [AHttp (ProductionCSID_request (zs_Config s2) (csid_requestID comp))]
     /\ match r with
        | Ok res => exists prod, ProductionCSID (zs_Config s2) (csid_requestID comp) w h2 = (Ok prod, h')
            /\ res = mkOnboardResult "" "" (csid_binarySecurityToken comp) (csid_secret comp) (csid_requestID comp)
                       (csid_binarySecurityToken prod) (csid_secret prod) (csid_requestID prod)
            /\ s' = with_config s2 (set_production (csid_binarySecurityToken prod) (csid_secret prod) (zs_Config s2))
        | Err _ => s' = s2
        end)
  \/ (is_ok r = false /\ quiet_steps (zs_Config s) h h').
Proof.
  intros h1. unfold OnboardWithCSR. rewrite io_bind_eq. cbn [with_sdk zs_Config].
  destruct (ComplianceCSID_run (zs_Config s) (pemToBase64 csr) w h) as [a Ea]. rewrite Ea. cbn [fst snd]. fold h1.
  assert (Hq : quiet_steps (zs_Config s) h h1)
    by (apply quiet_step; [apply quiet_refl|apply csid_not_production]).
  destruct a as [comp|e]; [|by right].
  destruct (base64_decode (csid_binarySecurityToken comp)) as [cert|] eqn:Ed; [|by right].
  change (with_sdk (with_config (with_sdk s priv "") _) priv cert) with (compliant s priv cert comp).
  set (s2 := compliant s priv cert comp).
  change (zs_Config (with_config (with_sdk s priv "") _)) with (zs_Config s2). rewrite io_bind_eq.
  pose proof (submitComplianceInvoices_run s2 now priv (csid_binarySecurityToken comp) w h1) as Hc.
  destruct (submitComplianceInvoices s2 now priv (csid_binarySecurityToken comp) w h1) as [r h2].
  destruct Hc as [Hq2 Hc]. cbn [fst snd]. destruct r as [[]|e]; [|right; split; [done|]; by eapply quiet_trans].
  rewrite io_bind_eq.
  destruct (ProductionCSID_run (zs_Config s2) (csid_requestID comp) w h2) as [p Ep]. rewrite Ep. cbn [fst snd].
  destruct p as [prod|e]; cbn [io_ret]; left; exists comp, cert, h2; split_and!; try done; [by apply Hc| |by apply Hc].
  exists prod. split_and!; [exact Ep|done|done].
Qed.

Lemma checked_length s now w kinds pih icv h h' : checked s now w kinds pih icv h h' ->
  length h' = (length h + 2 * length kinds)%nat.
Proof. induction 1; [cbn; lia|]. rewrite IHchecked. unfold h1. rewrite !length_app. cbn [length]. lia. Qed.

(** C7: The onboarding is one fixed sequence. A production certificate is requested only after the
    compliance certificate was issued and all six kinds of compliance invoice were built on the hash
    of the one before, signed with the new certificate, submitted as signed and answered without
    validation errors; it is requested once, as the last of fourteen calls, and the result carries
    the credentials of exactly these two answers. In every other case the onboarding fails and no
    production certificate was requested. *)
Theorem onboard_sequence s now csr priv w h :
  let '((r, s'), h') := OnboardWithCSR s now csr priv w h in
  (exists comp cert h2 prod_id,
     let s2 := compliant s priv cert comp in
     (ComplianceCSID (zs_Config s) (pemToBase64 csr) w h).1 = Ok comp
     /\ base64_decode (csid_binarySecurityToken comp) = Some cert
     /\ checked s2 now w compliance_types compliance_genesis 1
          (h ++ [AHttp (ComplianceCSID_request (zs_Config s) (pemToBase64 csr))]) h2
     /\ h' = h2 ++ [AHttp (ProductionCSID_request (zs_Config s2) prod_id)] /\ prod_id = csid_requestID comp
     /\ length h' = (length h + 14)%nat
     /\ match r with
        | Ok res => exists prod, (ProductionCSID (zs_Config s2) prod_id w h2).1 = Ok prod
            /\ or_ComplianceCert res = csid_binarySecurityToken comp /\ or_ComplianceSecret res = csid_secret comp
            /\ or_ComplianceRequestID res = prod_id
            /\ or_ProductionCert res = csid_binarySecurityToken prod /\ or_ProductionSecret res = csid_secret prod
            /\ cg_ProductionUsername (zs_Config s') = csid_binarySecurityToken prod
            /\ cg_ProductionPassword (zs_Config s') = csid_secret prod
        | Err _ => s' = s2
        end)
  \/ (is_ok r = false /\ quiet_steps (zs_Config s) h h').
Proof.
  pose proof (onboard_cases s now csr priv w h) as Hc. cbv zeta in Hc.
  destruct (OnboardWithCSR s now csr priv w h) as [[r s'] h'].
  destruct Hc as [(comp & cert & h2 & H1 & H2 & H3 & H4 & H5)|Hc]; [left|by right].
  exists comp, cert, h2, (csid_requestID comp). cbv zeta. rewrite H1.
  split_and!; try done.
  - rewrite H4, length_app, (checked_length _ _ _ _ _ _ _ _ H3), length_app. cbn. lia.
  - destruct r as [res|e]; [|done]. destruct H5 as (prod & Hp & -> & ->). exists prod. by rewrite Hp.
Qed.
End onboarding.
