(* ===== verification/Cli.v ===== *)
(** * The command-line tool ([cmd/zatca/main.go])

    The commands run the service for a fixed test company and print what it
    answers. Files and the clock are arguments; ZATCA and the signing tool are
    the world of [Io]. The text of the usage is left out, and the Arabic name of
    the company is written with its code points. *)

From S2P Require Import Prelude GoStrings GoText Utf8 Base64 Models GoErrors Config BigInt Cert InvoiceHash Civil.
From S2P Require Import Float64 Invoice Xml Json Unmarshal JsonText Operator Io Client Sdk Zatca ZatcaThm.
Local Open Scope Z_scope.
Local Open Scope io_scope.

(** How a command ends: what it printed, logged and wrote, and its exit code. *)
Record cli_end : Type := mkCliEnd {
  ce_stdout : string; ce_stderr : string; ce_file : option (string * string); ce_code : Z
}.

(** Files, the local time, the UTC time at each compliance invoice, and the
    randomness of the taxpayer's defaults. *)
Record surroundings : Type := mkCliSurroundings {
  cl_WriteFile : string -> string -> option error;
  cl_ReadFile : string -> result error string;
  cl_now : civil;
  cl_utc : Z -> civil;
  cl_entropy : entropy
}.

Definition println (s : string) : string := s +:+ lf.
(** [log.Fatalf], after [out] was printed; the time it writes first is left out. *)
Definition fatal (out text : string) : cli_end := mkCliEnd out (println text) None 1.
Definition printed (out : string) : cli_end := mkCliEnd out "" None 0.

Definition truncate (s : string) (n : nat) : string :=
  if (String.length s <=? n)%nat then s else take_bytes n s.

Definition runes_text (l : list Z) : string := write_all (map encode_rune l).

Definition cli_taxpayer : Taxpayer :=
  mkTaxpayer "Test Company Ltd"
    (runes_text [0x634; 0x631; 0x643; 0x629; 0x20; 0x62A; 0x62C; 0x631; 0x628; 0x629])
    "399999999900003" "4030000000" "Main Branch" "Supply activities" "King Fahad Road" "1234" "Al-Olaya" "Riyadh"
    "12345" "" "" "" "" "".

(** [now.Format("20060102150405")]. *)
Definition format_compact (t : civil) : string :=
  append_int (t_year t) 4 +:+ append_int (t_month t) 2 +:+ append_int (t_day t) 2
  +:+ append_int (t_hour t) 2 +:+ append_int (t_min t) 2 +:+ append_int (t_sec t) 2.

Definition buildSampleInvoice (s : ZService) (now : civil) (subType : string) : Invoice :=
  let seller := cg_Seller (zs_Config s) in
  mkInvoice ("INV-" +:+ format_compact now) "550e8400-e29b-41d4-a716-446655440000" now now TypeInvoice subType
    "" "" "" ""
    (mkParty (sl_Name seller) (sl_NameAR seller) (sl_VAT seller) "CRN" (sl_CRN seller) (sl_Street seller)
       (sl_Building seller) (sl_District seller) (sl_City seller) (sl_PostalCode seller) (sl_Country seller))
    (mkParty "Fatoora Samples LTD" "" "399999999800003" "" "" "Prince Sultan" "2322" "Al-Murabba" "Riyadh" "23333" "SA")
    now PaymentCash "" "" f_zero "" f_zero
    [mkLineItem "" "Laptop Computer" (f_int 2) "PCE" (f_int 3000) f_zero TaxStandard (f_int 15);
     mkLineItem "" "Wireless Mouse" (f_int 5) "PCE" (f_int 50) f_zero TaxStandard (f_int 15)]
    "NWZlY2ViNjZmZmM4NmYzOGQ5NTI3ODZjNmQ2OTZjNzljMmRiYzIzOWRkNGU5MWI0NjcyOWQ3M2EyN2ZiNTdlOQ==" 1 "".

(** [%v] of a list of details. *)
Definition details_text (l : list ErrorDetail) : string :=
  "[" +:+ Join (map (fun d => "{" +:+ detail_code d +:+ " " +:+ detail_message d +:+ "}") l) " " +:+ "]".
Definition warnings_line (l : list ErrorDetail) : string :=
  match l with [] => "" | _ => println ("Warnings: " +:+ details_text l) end.

(** [json.MarshalIndent] of the map, whose keys it sorts. *)
Definition credentials_json (r : OnboardResult) : string :=
  json_indent "  " [("private_key", SText (or_PrivateKey r)); ("production_cert", SText (or_ProductionCert r));
                    ("production_request_id", SText (or_ProductionRequestID r));
                    ("production_secret", SText (or_ProductionSecret r))].
Definition credentials_path : string := "output/credentials.json".

Definition onboarded_text (r : OnboardResult) : string :=
  println (lf +:+ "=== Onboarding Complete ===")
  +:+ println ("Compliance Request ID: " +:+ or_ComplianceRequestID r)
  +:+ println ("Production Request ID: " +:+ or_ProductionRequestID r)
  +:+ println ("Production Cert: " +:+ truncate (or_ProductionCert r) 40 +:+ "...")
  +:+ println ("Production Secret: " +:+ truncate (or_ProductionSecret r) 20 +:+ "...").

Section commands.
Context `{Decoders} `{Hash} (env : surroundings).

(** [None] is the panic of [GenerateCSR]. *)
Definition cmdOnboard (s : ZService) : io (option cli_end) :=
  let out := println "=== ZATCA Onboarding ===" +:+ println "Step 1: Generating CSR..." in
  let! r := Onboard s (cl_utc env) in
  io_ret
    match r with
    | None => None
    | Some (Err e, _) => Some (fatal out ("Onboarding failed: " +:+ error_text e))
    | Some (Ok res, _) =>
        let out := out +:+ onboarded_text res in
        let data := credentials_json res in
        Some match cl_WriteFile env credentials_path data with
             | Some e => printed (out +:+ println ("Warning: could not save credentials: " +:+ error_text e))
             | None => mkCliEnd (out +:+ println (lf +:+ "Credentials saved to output/credentials.json")) ""
                         (Some (credentials_path, data)) 0
             end
    end.

Definition cmdCSR (s : ZService) : io (option cli_end) :=
  let out := println "=== Generate CSR ===" in
  let! r := GenerateCSR (zs_SDK s) (cg_CSR (zs_Config s)) in
  io_ret
    match r with
    | None => None
    | Some (Err e) => Some (fatal out ("CSR generation failed: " +:+ error_text e))
    | Some (Ok res) => Some (printed (out +:+ println "CSR:" +:+ println (cr_CSR res)
                                      +:+ println (lf +:+ "Private Key:") +:+ println (cr_PrivateKey res)))
    end.

Definition cmdXML (s : ZService) : io (option cli_end) :=
  io_ret (Some match ToXML (buildSampleInvoice s (cl_now env) SubTypeStandard) with
               | Err e => fatal "" ("XML generation failed: " +:+ e)
               | Ok xmlStr => printed (println xmlStr)
               end).

Definition cmdValidate (s : ZService) (args : list string) : io (option cli_end) :=
  match args with
  | [] => io_ret (Some (fatal "" "Usage: zatca validate <invoice.xml>"))
  | path :: _ =>
      match cl_ReadFile env path with
      | Err e => io_ret (Some (fatal "" ("Read file: " +:+ error_text e)))
      | Ok data =>
          let! (result, err) := ValidateInvoice (zs_SDK s) data in
          io_ret (Some match err with
                       | Some e => fatal "" ("Validation failed: " +:+ error_text e)
                       | None => printed (println result)
                       end)
      end
  end.

Definition cmdReport (s : ZService) : io (option cli_end) :=
  let out := println "=== Report Simplified Invoice (B2C) ===" in
  let! r := Zatca.ReportInvoice s (buildSampleInvoice s (cl_now env) SubTypeSimplified) in
  io_ret (Some match r with
               | Err e => fatal out ("Report failed: " +:+ error_text e)
               | Ok res => printed (out +:+ println ("Status: " +:+ rr_Status res)
                                    +:+ println ("Hash: " +:+ rr_InvoiceHash res) +:+ warnings_line (rr_Warnings res))
               end).

Definition cmdClear (s : ZService) : io (option cli_end) :=
  let out := println "=== Clear Standard Invoice (B2B) ===" in
  let! r := Zatca.ClearInvoice s (buildSampleInvoice s (cl_now env) SubTypeStandard) in
  io_ret (Some match r with
               | Err e => fatal out ("Clearance failed: " +:+ error_text e)
               | Ok res =>
                   printed (out +:+ println ("Status: " +:+ cl_Status res) +:+ println ("Hash: " +:+ cl_InvoiceHash res)
                     +:+ (if String.eqb (cl_ClearedXML res) "" then ""
                          else println ("Cleared XML: " +:+ itoa (Z.of_nat (String.length (cl_ClearedXML res))) +:+ " bytes"))
                     +:+ warnings_line (cl_Warnings res))
               end).

(** The service of the test company. *)
Definition cli_service (zatcaEnv otp : string) : ZService :=
  NewService (Taxpayer_Config (cl_entropy env) (cl_entropy env) cli_taxpayer zatcaEnv otp).1.

Context (usage : string).

(** [args] is [flag.Args()]. *)
Definition cli_main (zatcaEnv otp : string) (args : list string) : io (option cli_end) :=
  match args with
  | [] => io_ret (Some (mkCliEnd "" usage None 1))
  | cmd :: rest =>
      let svc := cli_service zatcaEnv otp in
      if String.eqb cmd "onboard" then cmdOnboard svc
      else if String.eqb cmd "report" then cmdReport svc
      else if String.eqb cmd "clear" then cmdClear svc
      else if String.eqb cmd "csr" then cmdCSR svc
      else if String.eqb cmd "xml" then cmdXML svc
      else if String.eqb cmd "validate" then cmdValidate svc rest
      else io_ret (Some (mkCliEnd "" (println ("Unknown command: " +:+ cmd) +:+ usage) None 1))
  end.
End commands.

(** ** What the commands do *)

Section facts.
Context `{Decoders} `{Hash} (env : surroundings) (usage : string).

(** The actions of [report] and [clear]. *)
Definition anonymous (s : ZService) (a : action) : Prop :=
  match a with
  | AHttp req => get_header "Authorization" req = ""
  | AExec script => exists xml, script = sign_script (zs_SDK s) xml
  end.

Lemma anonymous_run s (standard : bool) inv w : cg_ProductionUsername (zs_Config s) = "" ->
  Forall (anonymous s) ((if standard then (Zatca.ClearInvoice s inv w []).2 else (Zatca.ReportInvoice s inv w []).2)).
Proof.
  intros Hu.
  assert (Hreq : forall r, get_header "Authorization" (submit_request standard (zs_Config s) r) = "").
  { intros r. destruct standard; unfold submit_request, ClearInvoice_request, ReportInvoice_request, setProductionAuth, set_basic;
      rewrite Hu; cbn [String.eqb negb andb]; by rewrite get_set_ne. }
  pose proof (fun r w h => submit_call_run standard (zs_Config s) r w h) as Hcall.
  destruct standard; unfold submit_call in *; unfold Zatca.ClearInvoice, Zatca.ReportInvoice;
    (destruct (negb _); [apply Forall_nil_2|]); rewrite io_try_run; cbn [io_ret];
    (destruct (lift_xml (ToXML inv)) as [xml|e]; [|apply Forall_nil_2]); rewrite io_try_run;
    destruct (SignInvoice_run (zs_SDK s) xml w []) as [r Er]; rewrite Er;
    (destruct r as [[signed hash]|e]; [|apply Forall_singleton; by eexists]); rewrite io_try_run, Hcall;
    (match goal with |- context [match ?x with _ => _ end] => destruct x end);
    (cbn; apply Forall_cons; split; [by eexists|]; apply Forall_singleton; apply Hreq).
Qed.

(** [report] and [clear] run for a service without credentials: no request they
    send is authorised, and the signing script stores neither key nor
    certificate. What [onboard] saved is not read. *)
Theorem commands_are_anonymous zatcaEnv otp cmd rest w :
  cmd = "report" \/ cmd = "clear" ->
  Forall (anonymous (cli_service env zatcaEnv otp)) (cli_main env usage zatcaEnv otp (cmd :: rest) w []).2
  /\ credentialScript (zs_SDK (cli_service env zatcaEnv otp)) = "".
Proof.
  intros Hcmd. split; [|done].
  assert (Hbind : forall {A B} (m : io A) (f : A -> B), (io_bind m (fun a => io_ret (f a)) w []).2 = (m w []).2)
    by (intros A B m f; rewrite io_bind_eq; done).
  destruct Hcmd as [->| ->]; cbn [cli_main].
  - change (Forall (anonymous (cli_service env zatcaEnv otp)) (cmdReport env (cli_service env zatcaEnv otp) w []).2).
    unfold cmdReport. rewrite Hbind. by apply (anonymous_run _ false).
  - change (Forall (anonymous (cli_service env zatcaEnv otp)) (cmdClear env (cli_service env zatcaEnv otp) w []).2).
    unfold cmdClear. rewrite Hbind. by apply (anonymous_run _ true).
Qed.

(** [onboard] writes a file only with the credentials of a finished onboarding. *)
Theorem onboard_saves s w h path data out err code :
  (cmdOnboard env s w h).1 = Some (mkCliEnd out err (Some (path, data)) code) ->
  exists res s', (Onboard s (cl_utc env) w h).1 = Some (Ok res, s')
    /\ path = credentials_path /\ data = credentials_json res /\ code = 0.
Proof.
  unfold cmdOnboard. rewrite io_bind_eq. cbn [io_ret fst snd].
  destruct (Onboard s (cl_utc env) w h) as [r h']. cbn [fst snd].
  destruct r as [[[res|e] s']|]; [|done..]. destruct (cl_WriteFile _ _ _); [done|].
  intros Heq. exists res, s'. by simplify_eq.
Qed.
End facts.
