(* ===== verification/Store.v ===== *)
(** * Branch credentials ([storeconfig/storeconfig.go])

    The ZATCA configuration of a branch as it is stored, its loading with the
    decryption of the secret fields, and the service made of it. A column is an
    option; [COALESCE] fills it. [CheckZATCAConnection] is modelled with the
    answer of its one request as a parameter. *)

From S2P Require Import Prelude GoStrings GoText Base64 Models GoErrors Config Secutil.
From S2P Require Import BigInt Cert InvoiceHash Civil Qr Sign Float64 Invoice Xml Json Unmarshal JsonText Io Client Sdk Zatca.
Local Open Scope Z_scope.

(** What the joins of branch, company and store give. *)
Record source_row : Type := mkSource {
  so_company_name : option string; so_company_name_ar : option string; so_vat : option string; so_crn : option string;
  so_branch_name : option string; so_business_category : option string;
  so_store_id : option Z; so_street : option string; so_building : option string; so_district : option string;
  so_city : option string; so_postal_code : option string; so_country : option string
}.

(** The columns of [branch_zatca_config] that onboarding and loading use. *)
Record zatca_row : Type := mkZatcaRow {
  zr_csr_org_identifier : option string; zr_csr_org_unit : option string; zr_csr_org_name : option string;
  zr_csr_country : option string; zr_csr_location : option string; zr_business_category : option string;
  zr_seller_vat : option string; zr_seller_crn : option string; zr_street : option string;
  zr_building : option string; zr_district : option string; zr_postal_code : option string;
  zr_csr : option string; zr_private_key : option string; zr_csr_tin : option string;
  zr_csr_computer_number : option string;
  zr_compliance_certificate : option string; zr_compliance_secret : option string;
  zr_compliance_request_id : option string;
  zr_production_username : option string; zr_production_password : option string;
  zr_production_request_id : option string
}.

Definition empty_row : zatca_row :=
  mkZatcaRow None None None None None None None None None None None None None None None None None None None None
    None None.

Definition coalesce (x : option string) (d : string) : string := default d x.

(** A column of a row that the LEFT JOIN may not find. *)
Definition column (r : option zatca_row) (f : zatca_row -> option string) : string :=
  coalesce (r ≫= f) "".

Record BranchZATCA : Type := mkBranchZATCA {
  bz_BranchID : Z; bz_StoreID : Z;
  bz_CompanyName : string; bz_CompanyNameAR : string; bz_VATReg : string; bz_CRN : string; bz_BranchName : string;
  bz_Street : string; bz_Building : string; bz_District : string; bz_City : string; bz_PostalCode : string;
  bz_Country : string;
  bz_ProductionUsername : string; bz_ProductionPassword : string; bz_PrivateKey : string;
  bz_Certificate : string; bz_EGSID : string
}.

Section store.
Context `{AEAD}.

(** [rows] is what the SELECT answers. *)
Definition LoadBranchZATCA (rows : result error (source_row * option zatca_row)) (branchID : Z) (encKey : Key)
    : result error BranchZATCA :=
  match rows with
  | Err e => Err (Wrap ("load ZATCA config for branch " +:+ itoa branchID +:+ ": ") e "")
  | Ok (s, z) =>
      match Decrypt encKey (column z zr_private_key) with
      | Err e => Err (Wrap ("decrypt private_key for branch " +:+ itoa branchID +:+ ": ") e "")
      | Ok privateKey =>
          match Decrypt encKey (column z zr_production_password) with
          | Err e => Err (Wrap ("decrypt production_password for branch " +:+ itoa branchID +:+ ": ") e "")
          | Ok password =>
              Ok (mkBranchZATCA branchID (default 0 (so_store_id s))
                    (coalesce (so_company_name s) "") (coalesce (so_company_name_ar s) "")
                    (coalesce (so_vat s) "") (coalesce (so_crn s) "") (coalesce (so_branch_name s) "")
                    (coalesce (so_street s) "") (coalesce (so_building s) "") (coalesce (so_district s) "")
                    (coalesce (so_city s) "") (coalesce (so_postal_code s) "") (coalesce (so_country s) "SA")
                    (column z zr_production_username) password privateKey
                    (column z zr_production_username) (column z zr_csr_computer_number))
          end
      end
  end.
End store.

Definition IsRegistered (bz : BranchZATCA) : bool :=
  negb (String.eqb (bz_ProductionUsername bz) "") && negb (String.eqb (bz_ProductionPassword bz) "").

Definition ToConfig (bz : BranchZATCA) (base : Config) : Config :=
  mkConfigRec (cg_Env base) (cg_OTP base) "" "" (bz_ProductionUsername bz) (bz_ProductionPassword bz) (bz_EGSID bz)
    (mkCSRConfig (csr_CommonName (cg_CSR base)) (csr_SerialNumber (cg_CSR base)) (bz_VATReg bz) (bz_BranchName bz)
       (bz_CompanyName bz) (bz_Country bz) (csr_InvoiceType (cg_CSR base)) (csr_Location (cg_CSR base))
       (csr_BusinessCategory (cg_CSR base)))
    (mkSellerInfo (bz_CompanyName bz) (bz_CompanyNameAR bz) (bz_VATReg bz) (bz_CRN bz) (bz_Street bz)
       (bz_Building bz) (bz_District bz) (bz_City bz) (bz_PostalCode bz) (bz_Country bz)).

Definition CertificatePEM (bz : BranchZATCA) : string :=
  if String.eqb (bz_Certificate bz) "" then ""
  else match base64_decode (bz_Certificate bz) with
       | Some decoded => if (0 <? String.length decoded)%nat then decoded else bz_Certificate bz
       | None => bz_Certificate bz
       end.

Definition BranchService (bz : BranchZATCA) (base : Config) : ZService :=
  let svc := NewService (ToConfig bz base) in
  if negb (String.eqb (bz_PrivateKey bz) "") && negb (String.eqb (bz_Certificate bz) "")
  then mkZService (zs_Config svc) (SetCredentials (zs_SDK svc) (bz_PrivateKey bz) (CertificatePEM bz))
  else svc.

(** ** Branch statuses *)

Definition StatusNotRegistered : string := "not_registered".
Definition StatusRegistered : string := "registered".
Definition StatusConnected : string := "connected".
Definition StatusError : string := "error".

Record BranchStatus : Type := mkBranchStatus {
  st_BranchID : Z; st_StoreID : Z; st_BranchName : string; st_Company : string; st_VAT : string;
  st_Status : string; st_Message : string
}.

(** One row of the statuses query. *)
Definition branch_status (branchID : Z) (s : source_row) (z : option zatca_row) : BranchStatus :=
  let registered := negb (String.eqb (column z zr_production_username) "")
                    && negb (String.eqb (column z zr_production_password) "") in
  mkBranchStatus branchID (default 0 (so_store_id s)) (coalesce (so_branch_name s) "")
    (coalesce (so_company_name s) "") (coalesce (so_vat s) "")
    (if registered then StatusRegistered else StatusNotRegistered)
    (if registered then "Credentials stored" else "No ZATCA credentials configured").

(** The loop over the rows, each scanned or not; [rowsErr] is [rows.Err()]. *)
Fixpoint scan_statuses (rows : list (result error (Z * source_row * option zatca_row))) (rowsErr : option error)
    (statuses : list BranchStatus) : list BranchStatus * option error :=
  match rows with
  | [] => (statuses, rowsErr)
  | Err e :: _ => ([], Some (Wrap "scan branch status: " e ""))
  | Ok (id, s, z) :: rest => scan_statuses rest rowsErr (statuses ++ [branch_status id s z])
  end.

(** [rows] are the active branches in the order of their ids. *)
Definition LoadAllBranchStatuses (rows : result error (list (result error (Z * source_row * option zatca_row))))
    (rowsErr : option error) : list BranchStatus * option error :=
  match rows with
  | Err e => ([], Some (Wrap "query branch statuses: " e ""))
  | Ok l => scan_statuses l rowsErr []
  end.

Definition with_status (st : BranchStatus) (status message : string) : BranchStatus :=
  mkBranchStatus (st_BranchID st) (st_StoreID st) (st_BranchName st) (st_Company st) (st_VAT st) status message.

(** [load] is what [LoadBranchZATCA] answers, [ping] the GET of the base URL. *)
Definition CheckZATCAConnection (st : BranchStatus) (baseCfg : Config) (load : result error BranchZATCA)
    (ping : string -> option error) : BranchStatus :=
  if String.eqb (st_Status st) StatusNotRegistered then st
  else match load with
       | Err e => with_status st StatusError ("Failed to load branch config: " +:+ error_text e)
       | Ok bz =>
           match ping (BaseURL (cg_Env (ToConfig bz baseCfg))) with
           | Some e => with_status st StatusError ("ZATCA API unreachable: " +:+ error_text e)
           | None => with_status st StatusConnected "ZATCA API reachable"
           end
       end.
