(* ===== verification/Onboard.v ===== *)
(** * Onboarding of a branch ([processor/onboard.go])

    A branch is onboarded from its row of [branch_zatca_config]: the taxpayer is
    built from the row and the company, a CSR is generated and stored at once,
    ZATCA issues the certificates, and the credentials are stored. The row is
    explicit state; each of the two writes can fail before it takes effect or
    after, as when the connection is lost before the answer. *)

From S2P Require Import Prelude GoStrings GoText Base64 Models GoErrors Config Secutil.
From S2P Require Import BigInt Cert InvoiceHash Civil Qr Sign Float64 Invoice Xml Json Unmarshal JsonText Io Client Sdk.
From S2P Require Import Zatca Store.
Local Open Scope Z_scope.

(** ** Loading *)

Record onboardBranchData : Type := mkOnboardData {
  ob_CompanyName : string; ob_CompanyNameAR : string; ob_VATReg : string; ob_CRN : string; ob_BranchName : string;
  ob_Street : string; ob_Building : string; ob_District : string; ob_City : string; ob_PostalCode : string;
  ob_Country : string; ob_BusinessCat : string; ob_CSRLocation : string;
  ob_CSRTIN : string; ob_CSRComputerNumber : string;
  ob_ExistingCSR : string; ob_ExistingPrivateKey : string; ob_ComplianceCert : string
}.

Definition taxpayer (b : onboardBranchData) : Taxpayer :=
  mkTaxpayer (ob_CompanyName b) (ob_CompanyNameAR b) (ob_VATReg b) (ob_CRN b) (ob_BranchName b) (ob_BusinessCat b)
    (ob_Street b) (ob_Building b) (ob_District b) (ob_City b) (ob_PostalCode b) "" (ob_CSRLocation b) (ob_Country b)
    "" "".

Definition pick (primary fallback : string) : string := if String.eqb primary "" then fallback else primary.

Section onboard.
Context `{AEAD} `{Decoders} `{Hash}.

Definition branch_data (s : source_row) (z : option zatca_row) (existingKey : string) : onboardBranchData :=
  mkOnboardData
    (pick (column z zr_csr_org_name) (coalesce (so_company_name s) ""))
    (coalesce (so_company_name_ar s) "")
    (pick (column z zr_seller_vat) (coalesce (so_vat s) ""))
    (pick (column z zr_seller_crn) (coalesce (so_crn s) ""))
    (pick (column z zr_csr_org_unit) (coalesce (so_branch_name s) ""))
    (pick (column z zr_street) (coalesce (so_street s) ""))
    (pick (column z zr_building) (coalesce (so_building s) ""))
    (pick (column z zr_district) (coalesce (so_district s) ""))
    (coalesce (so_city s) "")
    (pick (column z zr_postal_code) (coalesce (so_postal_code s) ""))
    (pick (column z zr_csr_country) (coalesce (so_country s) "SA"))
    (pick (column z zr_business_category) (coalesce (so_business_category s) "Supply activities"))
    (column z zr_csr_location) (column z zr_csr_tin) (column z zr_csr_computer_number) (column z zr_csr) existingKey
    (column z zr_compliance_certificate).

(** [source] is the join without the configuration row: [None] when the branch
    does not exist. *)
Definition loadOnboardBranch (source : result error (option source_row)) (z : option zatca_row) (branchID : Z)
    (encKey : Key) : result error onboardBranchData :=
  match source with
  | Err e => Err (Wrap ("load branch " +:+ itoa branchID +:+ ": ") e "")
  | Ok None => Err (NewError ("branch " +:+ itoa branchID +:+ " not found"))
  | Ok (Some s) =>
      let bzPriv := column z zr_private_key in
      if String.eqb bzPriv "" then Ok (branch_data s z "")
      else match Decrypt encKey bzPriv with
           | Err e => Err (Wrap "decrypt existing private key: " e "")
           | Ok dec => Ok (branch_data s z dec)
           end
  end.

(** ** The two writes *)

(** [INSERT ... ON DUPLICATE KEY UPDATE]: the given columns are set, in the row
    or in a new one. *)
Definition saveOnboardCSR (cfg : Config) (csrPEM encryptedPrivateKey tin computerNumber : string)
    (z : option zatca_row) : zatca_row :=
  let r := default empty_row z in
  let c := cg_CSR cfg in
  mkZatcaRow (Some (csr_OrgIdentifier c)) (Some (csr_OrgUnit c)) (Some (csr_OrgName c)) (Some (csr_Country c))
    (Some (csr_Location c)) (Some (csr_BusinessCategory c))
    (zr_seller_vat r) (zr_seller_crn r) (zr_street r) (zr_building r) (zr_district r) (zr_postal_code r)
    (Some csrPEM) (Some encryptedPrivateKey) (Some tin) (Some computerNumber)
    (zr_compliance_certificate r) (zr_compliance_secret r) (zr_compliance_request_id r)
    (zr_production_username r) (zr_production_password r) (zr_production_request_id r).

Definition save_credentials (cfg : Config) (b : onboardBranchData) (csrPEM encPriv encCompSecret encProdSecret : string)
    (result : OnboardResult) (z : option zatca_row) : zatca_row :=
  let r := default empty_row z in
  let c := cg_CSR cfg in
  mkZatcaRow (Some (csr_OrgIdentifier c)) (Some (csr_OrgUnit c)) (Some (csr_OrgName c)) (Some (csr_Country c))
    (Some (csr_Location c)) (Some (csr_BusinessCategory c))
    (Some (ob_VATReg b)) (Some (ob_CRN b)) (Some (ob_Street b)) (Some (ob_Building b)) (Some (ob_District b))
    (Some (ob_PostalCode b))
    (Some csrPEM) (Some encPriv) (zr_csr_tin r) (zr_csr_computer_number r)
    (Some (or_ComplianceCert result)) (Some encCompSecret) (Some (or_ComplianceRequestID result))
    (Some (or_ProductionCert result)) (Some encProdSecret) (Some (or_ProductionRequestID result)).

(** ** The onboarding *)

(** How a write ends: it is done, or it fails, with or without effect. *)
Inductive write_end : Type :=
| Written
| Failed (e : error) (applied : bool).

(** The row after a write that would make it [z']. *)
Definition after_write (w : write_end) (z z' : option zatca_row) : option zatca_row :=
  match w with Failed _ false => z | _ => z' end.

Definition write_error (w : write_end) : option error :=
  match w with Written => None | Failed e _ => Some e end.

(** What the run draws and how its writes end: the randomness of the taxpayer,
    the four nonces, the clock, and the two writes. *)
Record onboard_env : Type := mkOnboardEnv {
  oe_rnd : entropy;
  oe_nonces : nat -> option string;
  oe_now : Z -> civil;
  oe_save_csr : write_end;
  oe_save_credentials : write_end
}.

(** Its identifiers are reused once they were generated. *)
Definition egs_taxpayer (b : onboardBranchData) : Taxpayer :=
  let tp := taxpayer b in
  mkTaxpayer (tp_CompanyName tp) (tp_CompanyNameAR tp) (tp_VATNumber tp) (tp_CRN tp) (tp_BranchName tp)
    (tp_BusinessCategory tp) (tp_Street tp) (tp_Building tp) (tp_District tp) (tp_City tp) (tp_PostalCode tp)
    (tp_InvoiceType tp) (tp_LocationCode tp) (tp_Country tp)
    (if String.eqb (ob_CSRTIN b) "" then tp_TIN tp else ob_CSRTIN b)
    (if String.eqb (ob_CSRComputerNumber b) "" then tp_ComputerNumber tp else ob_CSRComputerNumber b).

Definition row_state : Type := option zatca_row.

(** From the stored CSR on: certificates, then the second write. *)
Definition finish_onboarding (env : onboard_env) (svc : ZService) (cfg : Config) (b : onboardBranchData)
    (csrPEM privateKey : string) (encKey : Key) (z : row_state) : io (result error unit * row_state) := (
  let! (r, _) := OnboardWithCSR (mkZService (zs_Config svc) (SetCredentials (zs_SDK svc) privateKey ""))
                   (oe_now env) csrPEM privateKey in
  io_ret
    match r with
    | Err e => (Err (Wrap "onboarding failed: " e ""), z)
    | Ok result =>
        match Encrypt encKey (oe_nonces env 1) privateKey with
        | Err e => (Err (Wrap "encrypt private key: " e ""), z)
        | Ok encPriv =>
            match Encrypt encKey (oe_nonces env 2) (or_ComplianceSecret result) with
            | Err e => (Err (Wrap "encrypt compliance secret: " e ""), z)
            | Ok encCompSecret =>
                match Encrypt encKey (oe_nonces env 3) (or_ProductionSecret result) with
                | Err e => (Err (Wrap "encrypt production secret: " e ""), z)
                | Ok encProdSecret =>
                    (match write_error (oe_save_credentials env) with
                     | Some e => Err (Wrap "save credentials to DB: " e "")
                     | None => Ok tt
                     end,
                     after_write (oe_save_credentials env) z
                       (Some (save_credentials cfg b csrPEM encPriv encCompSecret encProdSecret result z)))
                end
            end
        end
    end)%io.

(** The result and the row as it is left; [None] is the panic of [GenerateCSR]. *)
Definition OnboardBranch (env : onboard_env) (source : result error (option source_row)) (baseCfg : Config)
    (branchID : Z) (otp : string) (encKey : Key) (z : row_state) : io (option (result error unit) * row_state) := (
  match loadOnboardBranch source z branchID encKey with
  | Err e => io_ret (Some (Err e), z)
  | Ok branch =>
      match Taxpayer_Validate (taxpayer branch) with
      | Some e => io_ret (Some (Err (Wrap ("branch " +:+ itoa branchID +:+ ": ") e "")), z)
      | None =>
          if String.eqb (ob_CSRLocation branch) "" then
            io_ret (Some (Err (NewError ("branch " +:+ itoa branchID
              +:+ ": csr_location is required (4 letters + 4 digits, e.g. RRRD2929)"))), z)
          else
            let '(cfg, tp) := Taxpayer_Config (oe_rnd env) (oe_rnd env) (egs_taxpayer branch) (cg_Env baseCfg) otp in
            let svc := NewService cfg in
            if negb (String.eqb (ob_ComplianceCert branch) "") then
              io_ret (Some (Err (NewError ("branch " +:+ itoa branchID
                +:+ ": onboarding already completed (compliance certificate is present); "
                +:+ "revoke and clear branch_zatca_config to re-onboard"))), z)
            else
              let! r := GenerateCSR (zs_SDK svc) (cg_CSR cfg) in
              match r with
              | None => io_ret (None, z)
              | Some (Err e) => io_ret (Some (Err (Wrap "step 1 (generate CSR): " e "")), z)
              | Some (Ok csrResult) =>
                  match Encrypt encKey (oe_nonces env 0) (cr_PrivateKey csrResult) with
                  | Err e => io_ret (Some (Err (Wrap "step 1 (encrypt private key): " e "")), z)
                  | Ok encKey2 =>
                      let z := after_write (oe_save_csr env) z
                                 (Some (saveOnboardCSR cfg (cr_CSR csrResult) encKey2 (tp_TIN tp) (tp_ComputerNumber tp) z)) in
                      match write_error (oe_save_csr env) with
                      | Some e => io_ret (Some (Err (Wrap "step 1 (persist CSR): " e "")), z)
                      | None =>
                          let! (r, z) := finish_onboarding env svc cfg branch (cr_CSR csrResult) (cr_PrivateKey csrResult)
                                           encKey z in
                          io_ret (Some r, z)
                      end
                  end
              end
      end
  end)%io.
End onboard.
