(* ===== verification/OnboardThm.v ===== *)
(** * Theorems about branch onboarding

    A successful onboarding leaves a row from which the branch's service is
    loaded with exactly the credentials that ZATCA issued; an attempt that
    fails after its CSR was stored keeps the identity of the device for every
    later attempt. *)

From S2P Require Import Prelude GoStrings GoText Base64 Models GoErrors Config Secutil.
From S2P Require Import BigInt Cert InvoiceHash Civil Qr Sign Float64 Invoice Xml Json Unmarshal JsonText Io Client Sdk.
From S2P Require Import Zatca ZatcaThm Store Onboard.
Local Open Scope Z_scope.

(** ** What an attempt asks for *)

Lemma GenerateCSR_run s c w h :
  exists a, GenerateCSR s c w h = (a, h ++ [AExec (csr_script (envFlag s) (csr_properties c))]).
Proof.
  unfold GenerateCSR, localExec. rewrite io_bind_eq. unfold io_exec. cbn [fst snd].
  destruct (w_exec w h _) as [[o e] x]. by eexists.
Qed.

(** One attempt: what it reads of the database and of the environment. *)
Record attempt : Type := mkAttempt {
  at_env : onboard_env; at_source : result error (option source_row); at_cfg : Config; at_otp : string;
  at_world : world
}.

(** The stored identity of the device. *)
Definition identity (z : row_state) : string * string := (column z zr_csr_tin, column z zr_csr_computer_number).

(** The CSR carries an identity. *)
Definition csr_carries (id : string * string) (c : CSRConfig) : Prop :=
  (exists vat, csr_CommonName c = "TST-" +:+ id.1 +:+ "-" +:+ vat)
  /\ exists name, csr_SerialNumber c = "1-" +:+ name +:+ "|2-TST|3-" +:+ id.2.

(** The actions from [h] to [h'] begin with the generation of a CSR of [c]. *)
Definition asked_csr (c : CSRConfig) (h h' : list action) : Prop :=
  exists s t, h' = h ++ AExec (csr_script (envFlag s) (csr_properties c)) :: t.

Lemma if_empty_idem x d : if_empty (if_empty x d) d = if_empty x d.
Proof. unfold if_empty. destruct (String.eqb_spec x "") as [->|Hx]; [by destruct (String.eqb_spec d "")|]. by rewrite (proj2 (String.eqb_neq x "") Hx). Qed.

Section onboard.
Context `{AEAD} `{Decoders} `{Hash}.

Definition run_attempt (id : Z) (k : Key) (a : attempt) (z : row_state) (h : list action)
    : option (result error unit) * row_state * list action :=
  OnboardBranch (at_env a) (at_source a) (at_cfg a) id (at_otp a) k z (at_world a) h.

(** Later attempts on the same row. *)
Fixpoint run_attempts (id : Z) (k : Key) (l : list attempt) (z : row_state) (h : list action)
    : row_state * list action :=
  match l with
  | [] => (z, h)
  | a :: l' => let '(_, z', h') := run_attempt id k a z h in run_attempts id k l' z' h'
  end.

(** The configuration of an attempt. *)
Definition attempt_config (a : attempt) (b : onboardBranchData) : Config * Taxpayer :=
  Taxpayer_Config (oe_rnd (at_env a)) (oe_rnd (at_env a)) (egs_taxpayer b) (cg_Env (at_cfg a)) (at_otp a).

(** An attempt stops before its CSR, or after it without storing anything, or stores it and goes on,
    or stores it although the write answers with an error. *)
Inductive attempt_result (id : Z) (k : Key) (a : attempt) (z : row_state) (h : list action) :
    option (result error unit) -> row_state -> list action -> Prop :=
| attempt_refused e : attempt_result id k a z h (Some (Err e)) z h
| attempt_without_csr b r h' :
    loadOnboardBranch (at_source a) z id k = Ok b ->
    h' = h ++ [AExec (csr_script (envFlag (zs_SDK (NewService (attempt_config a b).1)))
                        (csr_properties (cg_CSR (attempt_config a b).1)))] ->
    is_ok (default (Err (NewError "")) r) = false ->
    attempt_result id k a z h r z h'
| attempt_csr_kept b csr c0 e :
    loadOnboardBranch (at_source a) z id k = Ok b ->
    let cfg := (attempt_config a b).1 in
    let tp := (attempt_config a b).2 in
    attempt_result id k a z h (Some (Err e))
      (Some (saveOnboardCSR cfg csr c0 (tp_TIN tp) (tp_ComputerNumber tp) z))
      (h ++ [AExec (csr_script (envFlag (zs_SDK (NewService cfg))) (csr_properties (cg_CSR cfg)))])
| attempt_stored b csr c0 r z' h1 h' :
    loadOnboardBranch (at_source a) z id k = Ok b -> ob_ComplianceCert b = "" ->
    let cfg := (attempt_config a b).1 in
    let tp := (attempt_config a b).2 in
    GenerateCSR (zs_SDK (NewService cfg)) (cg_CSR cfg) (at_world a) h = (Some (Ok csr), h1) ->
    h1 = h ++ [AExec (csr_script (envFlag (zs_SDK (NewService cfg))) (csr_properties (cg_CSR cfg)))] ->
    Encrypt k (oe_nonces (at_env a) 0) (cr_PrivateKey csr) = Ok c0 ->
    finish_onboarding (at_env a) (NewService cfg) cfg b (cr_CSR csr) (cr_PrivateKey csr) k
      (Some (saveOnboardCSR cfg (cr_CSR csr) c0 (tp_TIN tp) (tp_ComputerNumber tp) z)) (at_world a) h1
      = ((r, z'), h') ->
    attempt_result id k a z h (Some r) z' h'.

Lemma attempt_cases id k a z h :
  let '(r, z', h') := run_attempt id k a z h in attempt_result id k a z h r z' h'.
Proof.
  unfold run_attempt, OnboardBranch.
  destruct (loadOnboardBranch (at_source a) z id k) as [b|e] eqn:El; [|constructor].
  destruct (Taxpayer_Validate (taxpayer b)); [constructor|].
  destruct (String.eqb (ob_CSRLocation b) ""); [constructor|].
  fold (attempt_config a b). destruct (attempt_config a b) as [cfg tp] eqn:Ec.
  destruct (String.eqb_spec (ob_ComplianceCert b) "") as [Hb|_]; cbn [negb]; [|constructor].
  rewrite io_bind_eq.
  destruct (GenerateCSR_run (zs_SDK (NewService cfg)) (cg_CSR cfg) (at_world a) h) as [g Eg].
  pose proof (attempt_without_csr id k a z h b) as Hw. rewrite Ec in Hw. cbn [fst] in Hw.
  rewrite Eg. cbn [fst snd]. destruct g as [[csr|e]|]; [|by eapply Hw..].
  destruct (Encrypt k _ (cr_PrivateKey csr)) as [c0|e] eqn:E0; [|by eapply Hw].
  cbv zeta. destruct (oe_save_csr (at_env a)) as [|e []]; cbn [write_error after_write].
  2: { pose proof (attempt_csr_kept id k a z h b (cr_CSR csr) c0) as Hkept. rewrite Ec in Hkept. by apply Hkept. }
  2: { by eapply Hw. }
  rewrite io_bind_eq. pose proof (attempt_stored id k a z h b csr c0) as Hs. rewrite Ec in Hs. cbn [fst snd] in Hs.
  destruct (finish_onboarding _ _ _ _ _ _ _ _ _ _) as [[r z'] h'] eqn:Ef. cbn [fst snd].
  by eapply Hs.
Qed.

(** ** The rest of an attempt *)

Lemma finish_cases env svc cfg b csr key k z w h r z' h' :
  finish_onboarding env svc cfg b csr key k z w h = ((r, z'), h') ->
  (is_ok r = false /\ (z' = z \/ exists c1 c2 c3 res, z' = Some (save_credentials cfg b csr c1 c2 c3 res z)))
  \/ exists res s' c1 c2 c3,
      OnboardWithCSR (mkZService (zs_Config svc) (SetCredentials (zs_SDK svc) key "")) (oe_now env) csr key w h
        = ((Ok res, s'), h')
      /\ Encrypt k (oe_nonces env 1) key = Ok c1
      /\ Encrypt k (oe_nonces env 2) (or_ComplianceSecret res) = Ok c2
      /\ Encrypt k (oe_nonces env 3) (or_ProductionSecret res) = Ok c3
      /\ r = Ok tt /\ z' = Some (save_credentials cfg b csr c1 c2 c3 res z).
Proof.
  unfold finish_onboarding. rewrite io_bind_eq.
  destruct (OnboardWithCSR _ _ _ _ w h) as [[[res|e] s'] h2]; cbn [fst snd io_ret].
  2: { intros [= <- <- <-]. by left; split; [|left]. }
  destruct (Encrypt k _ key) as [c1|e] eqn:E1; [|intros [= <- <- <-]; by left; split; [|left]].
  destruct (Encrypt k _ (or_ComplianceSecret res)) as [c2|e] eqn:E2; [|intros [= <- <- <-]; by left; split; [|left]].
  destruct (Encrypt k _ (or_ProductionSecret res)) as [c3|e] eqn:E3; [|intros [= <- <- <-]; by left; split; [|left]].
  destruct (oe_save_credentials env) as [|e []]; intros [= <- <- <-].
  - right. by exists res, s', c1, c2, c3.
  - left. split; [done|]. right. by exists c1, c2, c3, res.
  - left. split; [done|]. by left.
Qed.

Lemma finish_grows env svc cfg b csr key k z w h :
  exists t, (finish_onboarding env svc cfg b csr key k z w h).2 = h ++ t.
Proof.
  apply (grows_bind (OnboardWithCSR _ _ _ _)); [|intros [[res|e] s']; apply grows_ret].
  intros w' h'. set (s := mkZService _ _). pose proof (onboard_cases s (oe_now env) csr key w' h') as Hc. cbv zeta in Hc.
  destruct (OnboardWithCSR s (oe_now env) csr key w' h') as [[r s'] h2]. cbn [snd].
  destruct Hc as [(comp & cert & h3 & _ & _ & H3 & -> & _)|[_ (t & -> & _)]]; [|by eexists].
  assert (exists t, h3 = (h' ++ [AHttp (ComplianceCSID_request (zs_Config s) (pemToBase64 csr))]) ++ t) as [t ->].
  { clear -H3. induction H3 as [|? ? ? ? ? ? h0 xml ? ? ? ? ? ? req h1 ? ? ? [t ->]]; [exists []; by rewrite app_nil_r|].
    unfold h1. rewrite <- !app_assoc. by eexists. }
  rewrite <- !app_assoc. by eexists.
Qed.

(** ** The identity of the device *)

Lemma loaded_identity src z id k b : loadOnboardBranch src z id k = Ok b ->
  (ob_CSRTIN b, ob_CSRComputerNumber b) = identity z /\ ob_ComplianceCert b = column z zr_compliance_certificate.
Proof.
  unfold loadOnboardBranch. intros Hb. repeat split_match_in Hb; simplify_eq; done.
Qed.

(** The identity that a configuration uses: the stored parts, or generated ones. *)
Lemma config_identity a b :
  let '(cfg, tp) := attempt_config a b in
  csr_carries (tp_TIN tp, tp_ComputerNumber tp) (cg_CSR cfg)
  /\ tp_TIN tp <> ""
  /\ (rnd_uuid (oe_rnd (at_env a)) <> "" -> tp_ComputerNumber tp <> "")
  /\ (ob_CSRTIN b <> "" -> tp_TIN tp = ob_CSRTIN b)
  /\ (ob_CSRComputerNumber b <> "" -> tp_ComputerNumber tp = ob_CSRComputerNumber b).
Proof.
  unfold attempt_config, Taxpayer_Config, CSR, Seller, applyDefaults, egs_taxpayer.
  cbn -[if_empty generateTIN String.append taxpayer String.eqb].
  set (rnd := oe_rnd (at_env a)).
  set (tin := if String.eqb (ob_CSRTIN b) "" then _ else _).
  set (cn := if String.eqb (ob_CSRComputerNumber b) "" then _ else _).
  assert (Ht : if_empty tin (generateTIN rnd) <> "").
  { unfold if_empty. destruct (String.eqb_spec tin ""); [apply generateTIN_nonempty|done]. }
  assert (Hi : forall x d, x <> "" -> if_empty x d = x)
    by (intros x d Hx; unfold if_empty; by rewrite (proj2 (String.eqb_neq x "") Hx)).
  rewrite (Hi (if_empty tin _)) by done.
  rewrite (if_empty_idem cn). split_and!.
  - split; cbn [fst snd csr_CommonName csr_SerialNumber]; by eexists.
  - done.
  - intros Hu. unfold if_empty. by destruct (String.eqb_spec cn "").
  - intros Hn. unfold tin. rewrite (proj2 (String.eqb_neq (ob_CSRTIN b) "") Hn). by apply Hi.
  - intros Hn. unfold cn. rewrite (proj2 (String.eqb_neq (ob_CSRComputerNumber b) "") Hn). by apply Hi.
Qed.

(** What an attempt does: nothing, or it asks for a CSR that carries a complete
    identity, the stored one where there was one, and stores at most that one. *)
Lemma attempt_identity id k a z h : rnd_uuid (oe_rnd (at_env a)) <> "" ->
  let '(r, z', h') := run_attempt id k a z h in
  (z' = z /\ h' = h)
  \/ exists c tin cn, asked_csr c h h' /\ csr_carries (tin, cn) c /\ tin <> "" /\ cn <> ""
       /\ ((identity z).1 <> "" -> tin = (identity z).1) /\ ((identity z).2 <> "" -> cn = (identity z).2)
       /\ (z' = z \/ identity z' = (tin, cn)).
Proof.
  intros Hu. pose proof (attempt_cases id k a z h) as Hc.
  destruct (run_attempt id k a z h) as [[r z'] h'].
  destruct Hc as [e|b r h' Hl -> _|b csr c0 e Hl cfg tp|b csr c0 r z' h1 h' Hl _ cfg tp _ -> _ Hf]; [by left|right..].
  - pose proof (config_identity a b) as Hi. destruct (attempt_config a b) as [cfg tp].
    destruct Hi as (Hi & Hn & Hn' & H3 & H4). destruct (loaded_identity _ _ _ _ _ Hl) as [<- _]. cbn [fst snd].
    exists (cg_CSR cfg), (tp_TIN tp), (tp_ComputerNumber tp). split_and!; auto.
    by exists (zs_SDK (NewService cfg)), [].
  - pose proof (config_identity a b) as Hi. subst cfg tp. destruct (attempt_config a b) as [cfg tp].
    destruct Hi as (Hi & Hn & Hn' & H3 & H4). destruct (loaded_identity _ _ _ _ _ Hl) as [<- _]. cbn [fst snd] in *.
    exists (cg_CSR cfg), (tp_TIN tp), (tp_ComputerNumber tp). split_and!; auto.
    by exists (zs_SDK (NewService cfg)), [].
  - pose proof (config_identity a b) as Hi. subst cfg tp. destruct (attempt_config a b) as [cfg tp].
    destruct Hi as (Hi & Hn & Hn' & H3 & H4). destruct (loaded_identity _ _ _ _ _ Hl) as [<- _]. cbn [fst snd] in *.
    exists (cg_CSR cfg), (tp_TIN tp), (tp_ComputerNumber tp). split_and!; auto.
    + pose proof (finish_grows (at_env a) (NewService cfg) cfg b (cr_CSR csr) (cr_PrivateKey csr) k
        (Some (saveOnboardCSR cfg (cr_CSR csr) c0 (tp_TIN tp) (tp_ComputerNumber tp) z)) (at_world a)
        (h ++ [AExec (csr_script (envFlag (zs_SDK (NewService cfg))) (csr_properties (cg_CSR cfg)))])) as [t Ht].
      rewrite Hf in Ht. cbn [snd] in Ht. exists (zs_SDK (NewService cfg)), t. by rewrite Ht, <- app_assoc.
    + right. by destruct (finish_cases _ _ _ _ _ _ _ _ _ _ _ _ _ Hf)
        as [[_ [->|(?&?&?&?& ->)]]|(?&?&?&?&?&_&_&_&_&_& ->)].
Qed.

(** A stored identity survives later attempts. *)
Lemma identity_kept id k a z h tin cn : rnd_uuid (oe_rnd (at_env a)) <> "" ->
  tin <> "" -> cn <> "" -> identity z = (tin, cn) ->
  let '(r, z', h') := run_attempt id k a z h in
  identity z' = (tin, cn) /\ (h' = h \/ exists c, asked_csr c h h' /\ csr_carries (tin, cn) c).
Proof.
  intros Hu Ht Hn Hz. pose proof (attempt_identity id k a z h Hu) as Hi.
  destruct (run_attempt id k a z h) as [[r z'] h']. rewrite Hz in Hi.
  destruct Hi as [[-> ->]|(c & tin' & cn' & Ha & Hc & _ & _ & Et & En & Hz')]; [by split; [|left]|].
  rewrite (Et Ht), (En Hn) in *. split; [by destruct Hz' as [->|]|right; by exists c].
Qed.

Definition draws_uuid (a : attempt) : Prop := rnd_uuid (oe_rnd (at_env a)) <> "".

Lemma identity_kept_all id k l z h tin cn : Forall draws_uuid l ->
  tin <> "" -> cn <> "" -> identity z = (tin, cn) -> identity (run_attempts id k l z h).1 = (tin, cn).
Proof.
  intros Hl Ht Hn. revert z h. induction Hl as [|a l Ha Hl IH]; intros z h Hz; [done|]. cbn [run_attempts].
  pose proof (identity_kept id k a z h tin cn Ha Ht Hn Hz) as Hk.
  destruct (run_attempt id k a z h) as [[r z'] h']. apply IH, Hk.
Qed.

(** C14: A branch has one device. The first attempt that stores a CSR stores with it the identity that
    the CSR carries, taxpayer number and computer number, both generated if the row has none; after
    any number of later attempts, whatever they read, draw and fail on, the row holds that identity,
    and every CSR that a later attempt asks for carries it. *)
Theorem egs_identity_stable id k a z h l a' : Forall draws_uuid (a :: a' :: l) ->
  let '(r, z1, h1) := run_attempt id k a z h in
  z1 = z \/ exists c tin cn, asked_csr c h h1 /\ csr_carries (tin, cn) c
    /\ tin <> "" /\ cn <> "" /\ identity z1 = (tin, cn)
    /\ let '(z2, h2) := run_attempts id k l z1 h1 in
       let '(r', z3, h3) := run_attempt id k a' z2 h2 in
       identity z2 = (tin, cn) /\ identity z3 = (tin, cn)
       /\ (h3 = h2 \/ exists c', asked_csr c' h2 h3 /\ csr_carries (tin, cn) c').
Proof.
  intros Hd. apply Forall_cons in Hd as [Ha Hd]. apply Forall_cons in Hd as [Ha' Hl].
  pose proof (attempt_identity id k a z h Ha) as Hi. destruct (run_attempt id k a z h) as [[r z1] h1].
  destruct Hi as [[-> _]|(c & tin & cn & H4 & H5 & H6 & H7 & _ & _ & [->|Hz])]; [by left|by left|right].
  exists c, tin, cn. split_and!; try done.
  pose proof (identity_kept_all id k l z1 h1 tin cn Hl H6 H7 Hz) as Hk.
  destruct (run_attempts id k l z1 h1) as [z2 h2]. cbn [fst] in Hk.
  pose proof (identity_kept id k a' z2 h2 tin cn Ha' H6 H7 Hk) as Hf.
  by destruct (run_attempt id k a' z2 h2) as [[r' z3] h3].
Qed.

(** ** Loading what was stored *)

(** The nonces that an attempt draws have the size of GCM's. *)
Definition gcm_nonces (env : onboard_env) : Prop :=
  forall i n, oe_nonces env i = Some n -> String.length n = 12%nat.

Lemma Decrypt_stored k (nonces : nat -> option string) i p c : length (raw k) = 32%nat ->
  (forall i n, nonces i = Some n -> String.length n = 12%nat) ->
  Encrypt k (nonces i) p = Ok c -> Decrypt k c = Ok p.
Proof.
  intros Hk Hn He. destruct (nonces i) as [n|] eqn:En; [by eapply Decrypt_Encrypt, He; eauto|].
  unfold Encrypt in He. destruct (String.eqb_spec p "") as [->|]; [by injection He as <-|].
  by destruct (negb _).
Qed.

(** The row that a successful attempt leaves, and the answers it was made of. *)
Lemma attempt_success id k a z h z' h' :
  run_attempt id k a z h = (Some (Ok tt), z', h') ->
  exists b csr c0 h1 comp h2 prod c1 c2 c3,
    let '(cfg, tp) := attempt_config a b in
    let c := set_compliance (csid_binarySecurityToken comp) (csid_secret comp) cfg in
    ob_ComplianceCert b = ""
    /\ GenerateCSR (zs_SDK (NewService cfg)) (cg_CSR cfg) (at_world a) h = (Some (Ok csr), h1)
    /\ (ProductionCSID c (csid_requestID comp) (at_world a) h2).1 = Ok prod
    /\ h' = h2 ++ [AHttp (ProductionCSID_request c (csid_requestID comp))]
    /\ Encrypt k (oe_nonces (at_env a) 1) (cr_PrivateKey csr) = Ok c1
    /\ Encrypt k (oe_nonces (at_env a) 2) (csid_secret comp) = Ok c2
    /\ Encrypt k (oe_nonces (at_env a) 3) (csid_secret prod) = Ok c3
    /\ z' = Some (save_credentials cfg b (cr_CSR csr) c1 c2 c3
                    (mkOnboardResult "" "" (csid_binarySecurityToken comp) (csid_secret comp) (csid_requestID comp)
                       (csid_binarySecurityToken prod) (csid_secret prod) (csid_requestID prod))
                    (Some (saveOnboardCSR cfg (cr_CSR csr) c0 (tp_TIN tp) (tp_ComputerNumber tp) z))).
Proof.
  intros Hr. pose proof (attempt_cases id k a z h) as Hc. rewrite Hr in Hc.
  inversion Hc as [|b r h2 Hl -> Hf| | b csr c0 r z2 h1 h2 Hl Hb cfg tp Hg _ He Hf]; subst; [done|].
  subst cfg tp. pose proof (finish_cases _ _ _ _ _ _ _ _ _ _ _ _ _ Hf) as
    [[Hf' _]|(res & s' & c1 & c2 & c3 & Ho & E1 & E2 & E3 & _ & ->)]; [done|].
  destruct (attempt_config a b) as [cfg tp] eqn:Ea. cbn [fst snd] in *.
  match type of Ho with OnboardWithCSR ?s _ _ _ _ _ = _ =>
    pose proof (onboard_cases s (oe_now (at_env a)) (cr_CSR csr) (cr_PrivateKey csr) (at_world a) h1) as Hs end.
  cbv zeta in Hs. rewrite Ho in Hs.
  destruct Hs as [(comp & cert & h2 & _ & _ & _ & Hh & prod & Hp & -> & _)|[Hs _]]; [|done].
  exists b, csr, c0, h1, comp, h2, prod, c1, c2, c3. rewrite Ea. split_and!; try done.
  cbn [compliant zs_Config NewService] in Hp. by rewrite Hp.
Qed.

Lemma completed_refused id k a z h : column z zr_compliance_certificate <> "" ->
  exists e, run_attempt id k a z h = (Some (Err e), z, h).
Proof.
  intros Hz. unfold run_attempt, OnboardBranch.
  destruct (loadOnboardBranch (at_source a) z id k) as [b|e] eqn:El; [|by eexists].
  destruct (Taxpayer_Validate (taxpayer b)); [by eexists|].
  destruct (String.eqb (ob_CSRLocation b) ""); [by eexists|].
  destruct (Taxpayer_Config _ _ _ _ _) as [cfg tp].
  destruct (loaded_identity _ _ _ _ _ El) as [_ ->].
  rewrite (proj2 (String.eqb_neq _ "") Hz). by eexists.
Qed.

(** C8: After a successful onboarding the branch's configuration loads, with the same key, to exactly
    what ZATCA and the tool issued: the last request was answered with the production token and the
    secret that the loaded configuration submits with, the private key is the one generated with the
    CSR, and the device number is the one the CSR carried. If the compliance token was not empty, a
    later onboarding of the branch is refused without any call, with any OTP: OnboardBranch takes the
    stored compliance certificate for a completed onboarding and demands that the row is cleared
    first. That contradicts README.md, section 11, which renews a certificate by onboarding again
    with a new OTP. *)
Theorem onboarded_branch_loads id k a z h z' h' :
  length (raw k) = 32%nat -> gcm_nonces (at_env a) ->
  run_attempt id k a z h = (Some (Ok tt), z', h') ->
  exists cfg tp csr h1 comp h2 prod,
    GenerateCSR (zs_SDK (NewService cfg)) (cg_CSR cfg) (at_world a) h = (Some (Ok csr), h1)
    /\ csr_carries (tp_TIN tp, tp_ComputerNumber tp) (cg_CSR cfg)
    /\ (let c := set_compliance (csid_binarySecurityToken comp) (csid_secret comp) cfg in
        h' = h2 ++ [AHttp (ProductionCSID_request c (csid_requestID comp))]
        /\ (ProductionCSID c (csid_requestID comp) (at_world a) h2).1 = Ok prod)
    /\ (forall s, exists bz, LoadBranchZATCA (Ok (s, z')) id k = Ok bz
         /\ bz_ProductionUsername bz = csid_binarySecurityToken prod
         /\ bz_ProductionPassword bz = csid_secret prod
         /\ bz_Certificate bz = csid_binarySecurityToken prod /\ bz_PrivateKey bz = cr_PrivateKey csr
         /\ bz_EGSID bz = tp_ComputerNumber tp
         /\ (IsRegistered bz = true <-> csid_binarySecurityToken prod <> "" /\ csid_secret prod <> ""))
    /\ (csid_binarySecurityToken comp <> "" -> forall a' h3, exists e,
         run_attempt id k a' z' h3 = (Some (Err e), z', h3)).
Proof.
  intros Hk Hn Hr. destruct (attempt_success id k a z h z' h' Hr) as (b & csr & c0 & h1 & comp & h2 & prod & c1 & c2 & c3 & Hs).
  pose proof (config_identity a b) as Hi. destruct (attempt_config a b) as [cfg tp]. cbv zeta in Hs.
  destruct Hs as (_ & Hg & Hp & -> & E1 & _ & E3 & ->).
  exists cfg, tp, csr, h1, comp, h2, prod. cbv zeta. split; [done|]. split; [apply Hi|]. split; [done|]. split.
  - intros s. unfold LoadBranchZATCA. cbn [column option_bind mbind save_credentials zr_private_key coalesce default
      zr_production_password zr_production_username].
    cbn. rewrite (Decrypt_stored _ _ _ _ _ Hk Hn E1), (Decrypt_stored _ _ _ _ _ Hk Hn E3).
    eexists. split; [done|]. cbn. split_and!; try done. unfold IsRegistered. cbn.
    destruct (String.eqb_spec (csid_binarySecurityToken prod) ""), (String.eqb_spec (csid_secret prod) ""); cbn;
      naive_solver.
  - intros Ht a' h3. by apply completed_refused.
Qed.
End onboard.

(** ** An onboarding from beginning to end *)

Definition sample_pair : PrivateKey := mkPrivateKey (mkPublicKey secp256k1 1 2) 3.

(** Decoders that accept every text, for the runs below. *)
Definition accepting_decoders : Decoders :=
  mkDecoders (fun s => Some s) (fun _ => Some (mkX509 "CN=sample" 1 (Some (sk_public sample_pair))))
    (fun _ => Some sample_pair) (fun _ => Some (Some sample_pair))
    (fun _ => Err (NewError "asn1")) (fun _ => Err (NewError "asn1")) (fun _ => None)
    (fun _ => Err (NewError "asn1")) (fun _ => None).

Definition sample_source : source_row :=
  mkSource (Some "Acme") (Some "acme-ar") (Some "310175397400003") (Some "454634645645654") (Some "Main") None
    (Some 1) (Some "King") (Some "1234") (Some "Olaya") (Some "Riyadh") (Some "12345") None.

(** The row as the backend fills it before the first attempt. *)
Definition located_row : zatca_row :=
  mkZatcaRow None None None None (Some "RRRD2929") None None None None None None None None None None None None None
    None None None None.

Definition json_texts (l : list (string * string)) : string := json_encode l.

(** The tool answers the CSR script first and signing scripts after it; ZATCA
    answers by URL, the production certificate with [production]. *)
Definition sample_onboarding_world (production : string) : world :=
  mkWorld
    (fun _ req =>
       let base := BaseURL Sandbox in
       Ok (mkResponse 200 (Ok (
         if String.eqb (rq_url req) (base +:+ "/compliance")
         then json_texts [("binarySecurityToken", "QUJD"); ("secret", "compliance-secret")]
         else if String.eqb (rq_url req) (base +:+ "/production/csids") then production
         else "{}"))))
    (fun h _ =>
       match h with
       | [] => (csr_marker +:+ "csr" +:+ key_marker +:+ "key", "", None)
       | _ => (signed_marker +:+ "<Invoice/>", "INVOICE HASH = aGFzaA==", None)
       end).

Definition sample_attempt (production : string) : attempt :=
  mkAttempt (mkOnboardEnv (mkEntropy (Some 42) "b7a5") (fun _ => Some "nonce-bytes!") (fun _ => mkCivil 2024 1 2 3 4 5)
               Written Written)
    (Ok (Some sample_source)) (Taxpayer_Config (mkEntropy None "") (mkEntropy None "") sample_taxpayer Sandbox "").1
    "123456" (sample_onboarding_world production).

Definition sample_production : string := json_texts [("binarySecurityToken", "UFJPRA=="); ("secret", "ps")].
Local Notation run_sample := (run_attempt (H0 := accepting_decoders) 7 (mkKey Secutil.sample_key)).

Definition attempt_outcome : Type := option (result error unit) * row_state * list action.

Lemma outcome_exists (o : attempt_outcome) (P : option (result error unit) -> row_state -> list action -> Prop) :
  (let '(r, z, h) := o in P r z h) -> exists r z h, o = (r, z, h) /\ P r z h.
Proof. destruct o as [[r z] h]. intros HP. by exists r, z, h. Qed.

Definition sample_registered (r : option (result error unit)) (z' : row_state) (h' : list action) : Prop :=
  r = Some (Ok tt) /\ length h' = 15%nat
  /\ match LoadBranchZATCA (Ok (sample_source, z')) 7 (mkKey Secutil.sample_key) with
     | Ok bz => bz_ProductionUsername bz = "UFJPRA==" /\ bz_ProductionPassword bz = "ps"
     | Err _ => False
     end.

Lemma sample_outcome : exists r z' h',
  run_sample (sample_attempt sample_production) (Some located_row) [] = (r, z', h') /\ sample_registered r z' h'.
Proof. apply outcome_exists. vm_compute. split; [|split]; try split; reflexivity. Qed.

Lemma onboarded_branch_loads_witness :
  exists z' h' bz, run_sample (sample_attempt sample_production) (Some located_row) [] = (Some (Ok tt), z', h')
    /\ length h' = 15%nat
    /\ LoadBranchZATCA (Ok (sample_source, z')) 7 (mkKey Secutil.sample_key) = Ok bz /\ IsRegistered bz = true.
Proof.
  destruct sample_outcome as (r & z' & h' & Er & -> & Hh & Hb).
  destruct (onboarded_branch_loads (H0 := accepting_decoders) 7 (mkKey Secutil.sample_key)
              (sample_attempt sample_production) (Some located_row) [] z' h')
    as (cfg & tp & csr & h1 & comp & h2 & prod & _ & _ & _ & Hbz & _);
    [reflexivity|intros i n [= <-]; reflexivity|exact Er|].
  destruct (Hbz sample_source) as (bz & Ebz & E1 & E2 & _ & _ & _ & Hreg). rewrite Ebz in Hb.
  exists z', h', bz. split; [exact Er|]. split; [exact Hh|]. split; [exact Ebz|].
  apply Hreg. rewrite <- E1, <- E2. destruct Hb as [-> ->]. split; discriminate.
Defined.

(** The same attempt with the second write failing, before or after it took effect. *)
Definition interrupted_attempt (applied : bool) : attempt :=
  mkAttempt (mkOnboardEnv (mkEntropy (Some 42) "b7a5") (fun _ => Some "nonce-bytes!") (fun _ => mkCivil 2024 1 2 3 4 5)
               Written (Failed (NewError "connection lost") applied))
    (Ok (Some sample_source)) (at_cfg (sample_attempt "")) "123456" (sample_onboarding_world sample_production).
Definition failing_attempt : attempt := interrupted_attempt false.

(** An attempt that draws another identity. *)
Definition other_attempt : attempt :=
  mkAttempt (mkOnboardEnv (mkEntropy (Some 77) "ffff") (fun _ => Some "nonce-bytes!") (fun _ => mkCivil 2024 1 2 3 4 5)
               Written Written)
    (Ok (Some sample_source)) (at_cfg (sample_attempt "")) "654321" (sample_onboarding_world sample_production).

Definition identity_drawn (_ : option (result error unit)) (z1 : row_state) (_ : list action) : Prop :=
  identity z1 = ("000000042", "b7a5") /\ z1 <> Some located_row.

Lemma failing_outcome : exists r z1 h1,
  run_sample failing_attempt (Some located_row) [] = (r, z1, h1) /\ identity_drawn r z1 h1.
Proof. apply outcome_exists. vm_compute. split; [reflexivity|discriminate]. Qed.

Lemma egs_identity_stable_witness :
  exists r z1 h1, run_sample failing_attempt (Some located_row) [] = (r, z1, h1)
    /\ exists r' z2 h2, run_sample other_attempt z1 h1 = (r', z2, h2) /\ identity z2 = ("000000042", "b7a5").
Proof.
  destruct failing_outcome as (r & z1 & h1 & E1 & Hi & Hz).
  exists r, z1, h1. split; [exact E1|].
  pose proof (egs_identity_stable (H0 := accepting_decoders) 7 (mkKey Secutil.sample_key) failing_attempt
                (Some located_row) [] [] other_attempt) as H.
  rewrite E1 in H.
  destruct H as [E|(c & tin & cn & _ & _ & _ & _ & Hz1 & Hn)].
  - do 2 (apply Forall_cons; split; [discriminate|]). apply Forall_nil_2.
  - destruct (Hz E).
  - cbn [run_attempts] in Hn. rewrite Hi in Hz1. injection Hz1 as <- <-.
    destruct (run_attempt (H0 := accepting_decoders) 7 (mkKey Secutil.sample_key) other_attempt z1 h1) as [[r' z2] h2].
    exists r', z2, h2. split; [reflexivity|]. exact (proj1 (proj2 Hn)).
Defined.

(** An empty answer to the request of the production certificate counts as
    success: the onboarding succeeds, the branch is not registered, and it can
    not be onboarded again. *)
Example empty_production_csid_completes :
  let '(r, z', h') := run_sample (sample_attempt "") (Some located_row) [] in
  r = Some (Ok tt)
  /\ match LoadBranchZATCA (Ok (sample_source, z')) 7 (mkKey Secutil.sample_key) with
     | Ok bz => IsRegistered bz = false
     | Err _ => False
     end
  /\ is_ok (default (Ok tt) (run_sample (sample_attempt sample_production) z' h').1.1) = false.
Proof. vm_compute. split; [reflexivity|]. split; reflexivity. Qed.

(** When the credentials are stored but the answer of the write is lost, the
    attempt reports a failure, the branch is registered all the same, and the
    next attempt is told that the onboarding is completed. *)
Example lost_answer_registers :
  let '(r, z', h') := run_sample (interrupted_attempt true) (Some located_row) [] in
  is_ok (default (Ok tt) r) = false
  /\ match LoadBranchZATCA (Ok (sample_source, z')) 7 (mkKey Secutil.sample_key) with
     | Ok bz => IsRegistered bz = true
     | Err _ => False
     end
  /\ is_ok (default (Ok tt) (run_sample other_attempt z' h').1.1) = false.
Proof. vm_compute. split; [reflexivity|]. split; reflexivity. Qed.
