(* ===== verification/Responder.v ===== *)
(** * The onboarding responder ([cmd/daemon/worker.go], [cmd/daemon/reconcile.go])

    Onboarding requests arrive as messages, each answered by a callback that
    may start a goroutine; at the same time a tenant can be removed. The global
    set of running onboardings, the flag and the wait group of each tenant
    context, and the callbacks and goroutines between their critical sections
    form the state of a step relation. Messages may arrive at any time, also
    after the subscription ended, and callbacks of all tenants interleave. *)

From S2P Require Import Prelude GoStrings Models GoErrors Message ChainTypes Control Json Envelope.
From S2P Require Import Config Tenant Topology.
Local Open Scope Z_scope.

Definition errTenantStopping : error := NewError "tenant is being removed".
Definition errAlreadyRunning : error := NewError "onboarding of this branch is already running".

(** ** The parts of a callback *)

Definition markBranchActive (dbName : string) (branchID : Z) (active : gset string) : bool * gset string :=
  let k := branchKey dbName branchID in
  if bool_decide (k ∈ active) then (false, active) else (true, {[k]} ∪ active).

Definition beginOnboarding (dbName : string) (branchID : Z) (onboarding : gset string) : bool * gset string :=
  let k := branchKey dbName branchID in
  if bool_decide (k ∈ onboarding) then (false, onboarding) else (true, {[k]} ∪ onboarding).

Definition endOnboarding (dbName : string) (branchID : Z) (onboarding : gset string) : gset string :=
  onboarding ∖ {[branchKey dbName branchID]}.

Inductive removal : Type := Serving | Removing | Closed.

(** The part of a tenant context that onboarding uses; [rc_removal] is where
    [removeTenant] of it is. *)
Record onboard_ctx : Type := mkOnboardCtx {
  oc_tenant : Tenant;
  oc_stopping : bool;
  oc_wg : nat;
  oc_removal : removal
}.

Definition set_wg (n : nat) (c : onboard_ctx) : onboard_ctx :=
  mkOnboardCtx (oc_tenant c) (oc_stopping c) n (oc_removal c).

Definition checkOnboardRequest (subject : string) (t : Tenant) (req : OnboardRequest) : option error :=
  if negb (String.eqb (on_DBName req) (tn_DBName t)) || negb (String.eqb (on_TenantKey req) (tn_TenantKey t))
  then Some (NewError "the request is for another tenant")
  else if negb (String.eqb subject (OnboardSubject (on_DBName req) (on_BranchID req)))
  then Some (NewError "the request subject does not name its branch")
  else None.

(** The callback up to [beginOnboarding]. *)
Definition receive (t : Tenant) (subject data : string) (onboarding : gset string)
    : result error OnboardRequest * gset string :=
  match DecodeOnboardRequest data with
  | Err e => (Err e, onboarding)
  | Ok req =>
      match checkOnboardRequest subject t req with
      | Some e => (Err e, onboarding)
      | None =>
          match beginOnboarding (tn_DBName t) (on_BranchID req) onboarding with
          | (true, onboarding) => (Ok req, onboarding)
          | (false, onboarding) => (Err errAlreadyRunning, onboarding)
          end
      end
  end.

(** The section under [onboardingStateMu]. *)
Definition enter (c : onboard_ctx) : option error * onboard_ctx :=
  if oc_stopping c then (Some errTenantStopping, c) else (None, set_wg (S (oc_wg c)) c).

Definition replyOnboard (cause : option error) : OnboardReply :=
  match cause with
  | None => mkOnboardReply true ""
  | Some e => mkOnboardReply false (error_text e)
  end.

Inductive effect : Type :=
| Replied (req : option OnboardRequest) (reply : OnboardReply)  (* no request if it was not decoded or not begun *)
| Onboarded (req : OnboardRequest) (err : option error)         (* processor.OnboardBranch returned *)
| Alerted (email what : string) (err : error)
| StartedBranch (dbName : string) (branchID : Z).

(** After [OnboardBranch] returned [err]; the daemon sets [startBranch]. *)
Definition onboardBranch (t : Tenant) (req : OnboardRequest) (err : option error) : list effect :=
  Onboarded req err ::
  match err with
  | Some e => if String.eqb (tn_AlertEmail t) "" then []
              else [Alerted (tn_AlertEmail t) ("onboarding of branch " +:+ itoa (on_BranchID req)) e]
  | None => [StartedBranch (on_DBName req) (on_BranchID req)]
  end.

(** The effects of starting a worker, and [activeBranches] after it; used where
    a context has no [startBranch] of its own. *)
Definition spawnBranchWorkers (dbName : string) (branchID : Z) (active : gset string) : list effect * gset string :=
  match markBranchActive dbName branchID active with
  | (true, active) => ([StartedBranch dbName branchID], active)
  | (false, active) => ([], active)
  end.

(** ** Interleaving *)

(** Where a callback or its goroutine is: begun, about to reply, about to give
    the branch back after a refusal, onboarding, and after [endOnboarding]. *)
Inductive phase : Type :=
| Entering
| Replying (cause : option error)
| Releasing
| Running
| Returned
| Ended.

Record task : Type := mkTask { tk_ctx : nat; tk_req : OnboardRequest; tk_phase : phase }.

Record responder : Type := mkResponder {
  rp_ctxs : gmap nat onboard_ctx;
  rp_onboarding : gset string;
  rp_tasks : list task;
  rp_log : list effect
}.

Definition task_key (k : task) : string := branchKey (on_DBName (tk_req k)) (on_BranchID (tk_req k)).

Inductive responder_step : responder -> responder -> Prop :=
| step_add id t cs o ts l : cs !! id = None ->
    responder_step (mkResponder cs o ts l) (mkResponder (<[id := mkOnboardCtx t false 0 Serving]> cs) o ts l)
| step_refuse id c subject data e o' cs o ts l : cs !! id = Some c ->
    receive (oc_tenant c) subject data o = (Err e, o') ->
    responder_step (mkResponder cs o ts l) (mkResponder cs o' ts (l ++ [Replied None (replyOnboard (Some e))]))
| step_receive id c subject data req o' cs o ts l : cs !! id = Some c ->
    receive (oc_tenant c) subject data o = (Ok req, o') ->
    responder_step (mkResponder cs o ts l) (mkResponder cs o' (mkTask id req Entering :: ts) l)
| step_enter id c req r c' cs o ts1 ts2 l : cs !! id = Some c -> enter c = (r, c') ->
    responder_step (mkResponder cs o (ts1 ++ mkTask id req Entering :: ts2) l)
      (mkResponder (<[id := c']> cs) o (ts1 ++ mkTask id req (Replying r) :: ts2) l)
| step_reply id req r cs o ts1 ts2 l :
    responder_step (mkResponder cs o (ts1 ++ mkTask id req (Replying r) :: ts2) l)
      (mkResponder cs o (ts1 ++ mkTask id req (match r with None => Running | Some _ => Releasing end) :: ts2)
         (l ++ [Replied (Some req) (replyOnboard r)]))
| step_release id c req cs o ts1 ts2 l : cs !! id = Some c ->
    responder_step (mkResponder cs o (ts1 ++ mkTask id req Releasing :: ts2) l)
      (mkResponder cs (endOnboarding (tn_DBName (oc_tenant c)) (on_BranchID req) o) (ts1 ++ ts2) l)
| step_run id c req err cs o ts1 ts2 l : cs !! id = Some c ->
    responder_step (mkResponder cs o (ts1 ++ mkTask id req Running :: ts2) l)
      (mkResponder cs o (ts1 ++ mkTask id req Returned :: ts2) (l ++ onboardBranch (oc_tenant c) req err))
| step_end id c req cs o ts1 ts2 l : cs !! id = Some c ->
    responder_step (mkResponder cs o (ts1 ++ mkTask id req Returned :: ts2) l)
      (mkResponder cs (endOnboarding (tn_DBName (oc_tenant c)) (on_BranchID req) o) (ts1 ++ mkTask id req Ended :: ts2) l)
| step_done id c req cs o ts1 ts2 l : cs !! id = Some c ->
    responder_step (mkResponder cs o (ts1 ++ mkTask id req Ended :: ts2) l)
      (mkResponder (<[id := set_wg (pred (oc_wg c)) c]> cs) o (ts1 ++ ts2) l)
| step_mark id c cs o ts l : cs !! id = Some c -> oc_removal c = Serving ->
    responder_step (mkResponder cs o ts l)
      (mkResponder (<[id := mkOnboardCtx (oc_tenant c) true (oc_wg c) Removing]> cs) o ts l)
| step_wait id c cs o ts l : cs !! id = Some c -> oc_removal c = Removing -> oc_wg c = O ->
    responder_step (mkResponder cs o ts l)
      (mkResponder (<[id := mkOnboardCtx (oc_tenant c) (oc_stopping c) (oc_wg c) Closed]> cs) o ts l).

Definition responder0 : responder := mkResponder ∅ ∅ [] [].
Definition responder_reachable : responder -> Prop := rtc responder_step responder0.
