(* ===== verification/ResponderThm.v ===== *)
(** * Theorems about the onboarding responder

    One invariant over all interleavings: the set of running onboardings is
    exactly the branches that callbacks and goroutines hold, each held once, and
    the wait group of a tenant counts its accepted requests until they are done.
    Mutual exclusion, the safety of removal and its completion follow. *)

From S2P Require Import Prelude GoStrings Models GoErrors Message ChainTypes Control Json Envelope.
From S2P Require Import Config Tenant Topology Responder.
Local Open Scope Z_scope.

(** ** Counting *)

(** The branch is still held in the global set. *)
Definition holding (p : phase) : bool := match p with Ended => false | _ => true end.
(** The wait group counts the task. *)
Definition counting (p : phase) : bool :=
  match p with Replying None | Running | Returned | Ended => true | _ => false end.
Definition running (p : phase) : bool := match p with Running => true | _ => false end.

Definition held1 (k : task) : list string := if holding (tk_phase k) then [task_key k] else [].
Definition held (ts : list task) : list string := flat_map held1 ts.

Definition unit_of (b : bool) : nat := if b then 1 else 0.
Definition counted (id : nat) (k : task) : nat := unit_of (bool_decide (tk_ctx k = id) && counting (tk_phase k)).
Definition running_req (req : OnboardRequest) (k : task) : nat :=
  unit_of (bool_decide (tk_req k = req) && running (tk_phase k)).

Definition accepted (req : OnboardRequest) (e : effect) : nat :=
  match e with Replied (Some r) reply => unit_of (bool_decide (r = req) && onr_Accepted reply) | _ => 0 end%nat.
Definition ran (req : OnboardRequest) (e : effect) : nat :=
  match e with Onboarded r _ => unit_of (bool_decide (r = req)) | _ => 0 end%nat.

Fixpoint tally {A} (f : A -> nat) (l : list A) : nat :=
  match l with [] => 0 | a :: l => f a + tally f l end%nat.

Lemma tally_app {A} (f : A -> nat) l1 l2 : tally f (l1 ++ l2) = (tally f l1 + tally f l2)%nat.
Proof. induction l1 as [|a l1 IH]; [done|]. cbn. rewrite IH. lia. Qed.

Lemma tally_mid {A} (f : A -> nat) l1 a l2 : tally f (l1 ++ a :: l2) = (f a + tally f (l1 ++ l2))%nat.
Proof. rewrite !tally_app. cbn. lia. Qed.

Lemma tally_in {A} (f : A -> nat) a l : a ∈ l -> (f a <= tally f l)%nat.
Proof. intros (l1 & l2 & ->)%list_elem_of_split. rewrite tally_mid. lia. Qed.

Lemma held_mid ts1 k ts2 : held (ts1 ++ k :: ts2) ≡ₚ held1 k ++ held (ts1 ++ ts2).
Proof.
  unfold held. rewrite !flat_map_app. cbn [flat_map].
  rewrite !app_assoc. apply Permutation_app_tail, Permutation_app_comm.
Qed.

(** ** The invariant *)

Definition wg_counts (cs : gmap nat onboard_ctx) (ts : list task) : Prop :=
  forall id c, cs !! id = Some c -> oc_wg c = tally (counted id) ts.

Definition ctx_ok (c : onboard_ctx) : Prop :=
  (oc_stopping c = false <-> oc_removal c = Serving) /\ (oc_removal c = Closed -> oc_wg c = O).

(** The task belongs to a context, and its request names that context's database. *)
Definition task_ok (cs : gmap nat onboard_ctx) (k : task) : Prop :=
  exists c, cs !! tk_ctx k = Some c /\ on_DBName (tk_req k) = tn_DBName (oc_tenant c).

Record responder_inv (s : responder) : Prop := mkResponderInv {
  ri_tasks : Forall (task_ok (rp_ctxs s)) (rp_tasks s);
  ri_held : NoDup (held (rp_tasks s));
  ri_set : rp_onboarding s = list_to_set (held (rp_tasks s));
  ri_wg : wg_counts (rp_ctxs s) (rp_tasks s);
  ri_ctxs : forall id c, rp_ctxs s !! id = Some c -> ctx_ok c;
  ri_log : forall req, tally (accepted req) (rp_log s)
             = (tally (ran req) (rp_log s) + tally (running_req req) (rp_tasks s))%nat
}.

(** Changing a context keeps its tenant. *)
Lemma task_ok_insert cs id c c' k : cs !! id = Some c -> oc_tenant c' = oc_tenant c ->
  task_ok cs k -> task_ok (<[id := c']> cs) k.
Proof.
  intros Hc Ht (d & Hd & Hn). destruct (decide (tk_ctx k = id)) as [E|E].
  - exists c'. rewrite E, lookup_insert_eq. split; [done|]. rewrite E, Hc in Hd. injection Hd as ->. by rewrite Ht.
  - exists d. by rewrite lookup_insert_ne.
Qed.

Lemma tasks_ok_insert cs id c c' ts : cs !! id = Some c -> oc_tenant c' = oc_tenant c ->
  Forall (task_ok cs) ts -> Forall (task_ok (<[id := c']> cs)) ts.
Proof. intros Hc Ht Hts. eapply Forall_impl; [exact Hts|]. intros k. by eapply task_ok_insert. Qed.

(** A context whose counter follows the tasks of its own. *)
Lemma wg_counts_insert cs ts ts' id c c' : cs !! id = Some c ->
  wg_counts cs ts ->
  (oc_wg c = tally (counted id) ts -> oc_wg c' = tally (counted id) ts') ->
  (forall id', id' <> id -> tally (counted id') ts' = tally (counted id') ts) ->
  wg_counts (<[id := c']> cs) ts'.
Proof.
  intros Hc Hw He Ho id' d Hd. destruct (decide (id' = id)) as [->|Hne].
  - rewrite lookup_insert_eq in Hd. injection Hd as <-. by apply He, Hw.
  - rewrite lookup_insert_ne in Hd by done. rewrite Ho by done. by apply Hw.
Qed.

Lemma ctxs_ok_insert (cs : gmap nat onboard_ctx) (id : nat) c' : (forall i c, cs !! i = Some c -> ctx_ok c) -> ctx_ok c' ->
  forall i c, <[id := c']> cs !! i = Some c -> ctx_ok c.
Proof. intros Hcs Hc i c. rewrite lookup_insert_Some. intros [[_ <-]|[_ H]]; [done|by eapply Hcs]. Qed.

(** The replacement of one task by another that is held and counted alike. *)
Lemma held_change ts1 k k' ts2 : held1 k' = held1 k -> held (ts1 ++ k' :: ts2) ≡ₚ held (ts1 ++ k :: ts2).
Proof. intros E. by rewrite !held_mid, E. Qed.

Lemma receive_Ok t subject data o req o' : receive t subject data o = (Ok req, o') ->
  on_DBName req = tn_DBName t /\ branchKey (on_DBName req) (on_BranchID req) ∉ o
  /\ o' = {[branchKey (on_DBName req) (on_BranchID req)]} ∪ o /\ DecodeOnboardRequest data = Ok req.
Proof.
  unfold receive, checkOnboardRequest, beginOnboarding. destruct (DecodeOnboardRequest data) as [r|] eqn:Ed; [|done].
  destruct (String.eqb_spec (on_DBName r) (tn_DBName t)) as [E|]; [|done]. cbn [negb orb].
  destruct (String.eqb (on_TenantKey r) _); [|done]. cbn [negb].
  destruct (negb _); [done|]. case_bool_decide; [done|]. intros [= -> <-]. rewrite E. by split_and!.
Qed.

Lemma receive_Err t subject data o e o' : receive t subject data o = (Err e, o') -> o' = o.
Proof.
  unfold receive, beginOnboarding. destruct (DecodeOnboardRequest data) as [r|]; [|by intros [= _ <-]].
  destruct (checkOnboardRequest subject t r); [by intros [= _ <-]|]. case_bool_decide; [by intros [= _ <-]|done].
Qed.

(** ** The invariant is kept *)

Lemma inv_initial : responder_inv responder0.
Proof. constructor; cbn; try done; constructor. Qed.

(** Giving a branch back. *)
Lemma held_release ts1 k ts2 l : NoDup (held (ts1 ++ k :: ts2)) -> holding (tk_phase k) = true ->
  held l ≡ₚ held (ts1 ++ ts2) ->
  NoDup (held l)
  /\ list_to_set (C := gset string) (held (ts1 ++ k :: ts2)) ∖ {[task_key k]} = list_to_set (C := gset string) (held l).
Proof.
  intros Hn Hk El. rewrite held_mid in Hn. unfold held1 in Hn. rewrite Hk in Hn. cbn [app] in Hn.
  apply NoDup_cons in Hn as [Hx Hn]. split; [by rewrite El|].
  rewrite (list_to_set_perm_L (C := gset string) _ _ (held_mid ts1 k ts2)), (list_to_set_perm_L (C := gset string) _ _ El).
  unfold held1. rewrite Hk. cbn [app list_to_set]. rewrite <- (elem_of_list_to_set (C := gset string)) in Hx. set_solver.
Qed.

Lemma task_key_ctx cs id req p c : task_ok cs (mkTask id req p) -> cs !! id = Some c ->
  branchKey (tn_DBName (oc_tenant c)) (on_BranchID req) = task_key (mkTask id req p).
Proof. intros (d & Hd & E) Hc. cbn in *. simplify_eq. unfold task_key. cbn. by rewrite E. Qed.

(** A step that only moves a task on, with its context perhaps changed. *)
Lemma inv_move cs o ts1 ts2 l id c c' req p p' l' :
  responder_inv (mkResponder cs o (ts1 ++ mkTask id req p :: ts2) l) -> cs !! id = Some c ->
  oc_tenant c' = oc_tenant c -> ctx_ok c' -> holding p = holding p' ->
  (oc_wg c' + unit_of (counting p) = oc_wg c + unit_of (counting p'))%nat ->
  (forall r, tally (accepted r) l' + tally (ran r) l + running_req r (mkTask id req p)
             = tally (accepted r) l + tally (ran r) l' + running_req r (mkTask id req p'))%nat ->
  responder_inv (mkResponder (<[id := c']> cs) o (ts1 ++ mkTask id req p' :: ts2) l').
Proof.
  intros [Ht Hh Hs Hw Hc Hl] Hcs Eten Hok Ehold Ewg Elog. cbn in *.
  assert (Eh : held (ts1 ++ mkTask id req p' :: ts2) ≡ₚ held (ts1 ++ mkTask id req p :: ts2)).
  { apply held_change. unfold held1. cbn. by rewrite Ehold. }
  constructor; cbn.
  - apply (tasks_ok_insert _ _ c _ _ Hcs Eten). rewrite Forall_app, Forall_cons in *. done.
  - by rewrite Eh.
  - by rewrite (list_to_set_perm_L (C := gset string) _ _ Eh).
  - eapply wg_counts_insert; [done|exact Hw| |].
    + rewrite !tally_mid. unfold counted at 1 3. cbn. rewrite bool_decide_true by done. cbn. lia.
    + intros id' Hne. rewrite !tally_mid. unfold counted at 1 3. cbn. by rewrite bool_decide_false by done.
  - by apply ctxs_ok_insert.
  - intros r. specialize (Hl r). specialize (Elog r). rewrite !tally_mid in *. lia.
Qed.

Lemma insert_same (cs : gmap nat onboard_ctx) (id : nat) (c : onboard_ctx) : cs !! id = Some c -> <[id := c]> cs = cs.
Proof. apply insert_id. Qed.

Lemma tally_running_cons req k ts : running (tk_phase k) = false ->
  tally (running_req req) (k :: ts) = tally (running_req req) ts.
Proof. intros E. cbn. unfold running_req at 1. by rewrite E, andb_false_r. Qed.

Lemma tally_none id cs ts : cs !! id = None -> Forall (task_ok cs) ts -> tally (counted id) ts = O.
Proof.
  intros Hn. induction 1 as [|k ts (c & Hc & _) _ IH]; [done|]. cbn. rewrite IH. unfold counted.
  rewrite bool_decide_false by (intros E; by rewrite E, Hn in Hc). done.
Qed.

Lemma inv_add id t cs o ts l : cs !! id = None -> responder_inv (mkResponder cs o ts l) ->
  responder_inv (mkResponder (<[id := mkOnboardCtx t false 0 Serving]> cs) o ts l).
Proof.
  intros Hn [Ht Hh Hs Hw Hc Hl]. cbn in *. constructor; cbn; try done.
  - eapply Forall_impl; [exact Ht|]. intros k (c & Hk & E). exists c. split; [|done].
    rewrite lookup_insert_ne; [done|]. intros ->. by rewrite Hn in Hk.
  - intros id' c. rewrite lookup_insert_Some. intros [[<- <-]|[_ H]]; [|by apply Hw].
    cbn. symmetry. by eapply tally_none.
  - by apply ctxs_ok_insert.
Qed.

Lemma inv_receive id c sub data req o' cs o ts l : cs !! id = Some c ->
  receive (oc_tenant c) sub data o = (Ok req, o') -> responder_inv (mkResponder cs o ts l) ->
  responder_inv (mkResponder cs o' (mkTask id req Entering :: ts) l).
Proof.
  intros Hid (En & Hx & -> & _)%receive_Ok [Ht Hh Hs Hw Hc Hl]. cbn in *. constructor; cbn.
  - constructor; [|done]. by exists c.
  - constructor; [|done]. rewrite <- (elem_of_list_to_set (C := gset string)), <- Hs. done.
  - by rewrite Hs.
  - intros id' c' H. cbn. unfold counted at 1. cbn. rewrite andb_false_r. by apply Hw.
  - done.
  - intros r. unfold running_req at 1. cbn. rewrite andb_false_r. apply Hl.
Qed.

(** A task leaves, or keeps only its place in the wait group. *)
Lemma inv_leave cs o o' ts1 ts2 l id c c' req p rest :
  responder_inv (mkResponder cs o (ts1 ++ mkTask id req p :: ts2) l) -> cs !! id = Some c ->
  oc_tenant c' = oc_tenant c -> ctx_ok c' -> running p = false ->
  rest = [] \/ rest = [mkTask id req Ended] ->
  (oc_wg c' + unit_of (counting p) = oc_wg c + length rest)%nat ->
  o' = (if holding p then endOnboarding (tn_DBName (oc_tenant c)) (on_BranchID req) o else o) ->
  responder_inv (mkResponder (<[id := c']> cs) o' (ts1 ++ rest ++ ts2) l).
Proof.
  intros [Ht Hh Hs Hw Hc Hl] Hid Eten Hok Hrun Hrest Ewg ->. cbn in *.
  apply Forall_app in Ht as [Ht1 Ht2]. apply Forall_cons in Ht2 as [Hk Ht2].
  assert (Eh : held (ts1 ++ rest ++ ts2) ≡ₚ held (ts1 ++ ts2)).
  { destruct Hrest as [->| ->]; [done|]. cbn [app]. by rewrite held_mid. }
  assert (Etally : forall f, tally f (ts1 ++ rest ++ ts2) = (tally f rest + tally f (ts1 ++ ts2))%nat).
  { intros f. rewrite !tally_app. lia. }
  constructor; cbn.
  - apply (tasks_ok_insert _ _ c _ _ Hid Eten). rewrite !Forall_app. split_and!; [done| |done].
    destruct Hrest as [->| ->]; [done|]. constructor; [|done]. destruct Hk as (d & Hd). by exists d.
  - destruct (holding p) eqn:Ep; [by eapply (held_release ts1 (mkTask id req p) ts2)|].
    rewrite Eh. rewrite held_mid in Hh. unfold held1 in Hh. cbn in Hh. by rewrite Ep in Hh.
  - destruct (holding p) eqn:Ep.
    + unfold endOnboarding. rewrite (task_key_ctx _ _ _ _ _ Hk Hid), Hs.
      by eapply (held_release ts1 (mkTask id req p) ts2).
    + rewrite Hs, (list_to_set_perm_L (C := gset string) _ _ (held_mid ts1 _ ts2)), (list_to_set_perm_L (C := gset string) _ _ Eh).
      unfold held1. cbn. by rewrite Ep.
  - eapply wg_counts_insert; [exact Hid|exact Hw| |].
    + rewrite Etally, tally_mid. unfold counted at 1. cbn. rewrite bool_decide_true by done. cbn.
      destruct Hrest as [->| ->]; cbn in *; [lia|]. unfold counted at 2. cbn. rewrite bool_decide_true by done. cbn. lia.
    + intros id' Hne. rewrite Etally, tally_mid. unfold counted at 3. cbn. rewrite bool_decide_false by done.
      destruct Hrest as [->| ->]; cbn; [done|]. unfold counted at 1. cbn. by rewrite bool_decide_false.
  - by apply ctxs_ok_insert.
  - intros r. rewrite (Hl r), Etally, tally_mid. unfold running_req at 1. cbn. rewrite Hrun, andb_false_r.
    destruct Hrest as [->| ->]; cbn; [done|]. unfold running_req at 2. cbn. by rewrite andb_false_r.
Qed.

(** A context changes, and not its counter. *)
Lemma inv_ctx cs o ts l id c c' : responder_inv (mkResponder cs o ts l) -> cs !! id = Some c ->
  oc_tenant c' = oc_tenant c -> oc_wg c' = oc_wg c -> ctx_ok c' ->
  responder_inv (mkResponder (<[id := c']> cs) o ts l).
Proof.
  intros [Ht Hh Hs Hw Hc Hl] Hid Eten Ewg Hok. cbn in *. constructor; cbn; try done.
  - by eapply tasks_ok_insert.
  - eapply wg_counts_insert; [exact Hid|exact Hw| |done]. by rewrite Ewg.
  - by apply ctxs_ok_insert.
Qed.

Lemma inv_task_ctx cs o ts1 ts2 l id req p : responder_inv (mkResponder cs o (ts1 ++ mkTask id req p :: ts2) l) ->
  exists c, cs !! id = Some c /\ ctx_ok c.
Proof.
  intros [Ht _ _ _ Hc _]. cbn in *. apply Forall_app in Ht as [_ Ht]. apply Forall_cons in Ht as [(c & Hk & _) _].
  exists c. split; [done|]. by apply (Hc id).
Qed.

Lemma inv_wg_positive cs o ts1 ts2 l id c req p : responder_inv (mkResponder cs o (ts1 ++ mkTask id req p :: ts2) l) ->
  cs !! id = Some c -> counting p = true -> (0 < oc_wg c)%nat.
Proof.
  intros [_ _ _ Hw _ _] Hid Hp. rewrite (Hw id c Hid). cbn. rewrite tally_mid. unfold counted at 1. cbn.
  rewrite bool_decide_true, Hp by done. cbn. lia.
Qed.

Lemma inv_step s s' : responder_inv s -> responder_step s s' -> responder_inv s'.
Proof.
  intros Hi Hs. destruct Hs as [id t cs o ts l Hn|id c sub data e o' cs o ts l Hc Hr|id c sub data req o' cs o ts l Hc Hr
    |id c req r c' cs o ts1 ts2 l Hc He|id req r cs o ts1 ts2 l|id c req cs o ts1 ts2 l Hc|id c req err cs o ts1 ts2 l Hc
    |id c req cs o ts1 ts2 l Hc|id c req cs o ts1 ts2 l Hc|id c cs o ts l Hc Hm|id c cs o ts l Hc Hm Hw].
  - by apply inv_add.
  - apply receive_Err in Hr as ->. destruct Hi. constructor; try done. cbn in *. intros r.
    rewrite !tally_app. cbn. rewrite ri_log0. lia.
  - by eapply inv_receive.
  - pose proof (ri_ctxs _ Hi id c Hc) as [Hok1 Hok2]. unfold enter in He.
    assert (Hl : forall q r0, running_req r0 (mkTask id req q) = unit_of (bool_decide (req = r0) && running q)) by done.
    destruct (oc_stopping c) eqn:Es; injection He as <- <-;
      (eapply inv_move; [exact Hi|exact Hc|done| |done|cbn; lia|intros r0; rewrite !Hl; cbn; rewrite andb_false_r; lia]).
    + split; [by rewrite Es|done].
    + split; cbn; [by rewrite Es|]. intros E. destruct Hok1 as [Hok1 _]. by rewrite Hok1 in E.
  - destruct (inv_task_ctx _ _ _ _ _ _ _ _ Hi) as (c & Hc & Hok). rewrite <- (insert_same cs id c Hc).
    destruct r as [e|]; (eapply inv_move; [exact Hi|exact Hc|done|done|done|done|]); intros r;
      rewrite !tally_app; cbn; unfold running_req; cbn; rewrite ?andb_false_r, ?andb_true_r; cbn [unit_of]; lia.
  - rewrite <- (insert_same cs id c Hc). apply (inv_leave cs o _ ts1 ts2 l id c c req Releasing []); try done.
    + by apply (ri_ctxs _ Hi id).
    + by left.
  - rewrite <- (insert_same cs id c Hc).
    eapply inv_move; [exact Hi|exact Hc|done|by apply (ri_ctxs _ Hi id)|done|done|].
    intros r. rewrite !tally_app. unfold onboardBranch. destruct err as [e|]; cbn; unfold running_req; cbn;
      rewrite ?andb_false_r, ?andb_true_r; cbn [unit_of]; [destruct (String.eqb _ _); cbn [tally accepted ran]|]; lia.
  - rewrite <- (insert_same cs id c Hc). apply (inv_leave cs o _ ts1 ts2 l id c c req Returned [mkTask id req Ended]); try done.
    + by apply (ri_ctxs _ Hi id).
    + by right.
  - pose proof (inv_wg_positive _ _ _ _ _ _ _ _ _ Hi Hc eq_refl) as Hp.
    pose proof (ri_ctxs _ Hi id c Hc) as [Hok1 Hok2].
    apply (inv_leave cs o _ ts1 ts2 l id c _ req Ended []); try done.
    + split; [done|]. cbn. intros E. rewrite (Hok2 E). done.
    + by left.
    + cbn. lia.
  - eapply inv_ctx; [exact Hi|exact Hc|done|done|]. by split.
  - eapply inv_ctx; [exact Hi|exact Hc|done|done|]. pose proof (ri_ctxs _ Hi id c Hc) as [Hok1 Hok2].
    split; [|done]. cbn. rewrite Hok1, Hm. done.
Qed.

Lemma reachable_inv s : responder_reachable s -> responder_inv s.
Proof.
  intros Hr. assert (H : forall a b, rtc responder_step a b -> responder_inv a -> responder_inv b)
    by (induction 1; eauto using inv_step).
  by eapply H, inv_initial.
Qed.

(** ** Mutual exclusion *)

Lemma held_in key ts : key ∈ held ts <-> exists k, k ∈ ts /\ holding (tk_phase k) = true /\ task_key k = key.
Proof.
  induction ts as [|k ts IH].
  - cbn. split; [by intros ?%not_elem_of_nil|by intros (k & ?%not_elem_of_nil & _)].
  - change (held (k :: ts)) with (held1 k ++ held ts). rewrite elem_of_app, IH. unfold held1. split.
    + intros [H|(k' & H1 & H2)]; [|exists k'; split; [by right|done]].
      destruct (holding (tk_phase k)) eqn:E; [|by apply not_elem_of_nil in H].
      apply list_elem_of_singleton in H. exists k. split_and!; [by left|done|done].
    + intros (k' & [->|H1]%elem_of_cons & H2 & H3); [left; rewrite H2; by apply list_elem_of_singleton|].
      right. by exists k'.
Qed.

Lemma held_once ts i j k1 k2 : NoDup (held ts) -> ts !! i = Some k1 -> ts !! j = Some k2 ->
  holding (tk_phase k1) = true -> holding (tk_phase k2) = true -> task_key k1 = task_key k2 -> i = j.
Proof.
  revert i j. induction ts as [|k ts IH]; intros i j Hn Hi Hj H1 H2 Hk; [done|].
  change (held (k :: ts)) with (held1 k ++ held ts) in Hn. apply NoDup_app in Hn as (_ & Hx & Hn).
  assert (Hin : forall m k', ts !! m = Some k' -> holding (tk_phase k') = true -> task_key k' ∈ held ts).
  { intros m k' Hm Hk'. apply held_in. exists k'. split_and!; [by eapply list_elem_of_lookup_2|done|done]. }
  assert (Hout : holding (tk_phase k) = true -> task_key k ∉ held ts).
  { intros Hh. apply Hx. unfold held1. rewrite Hh. by apply list_elem_of_singleton. }
  destruct i as [|i], j as [|j]; [done| | |f_equal; by eapply IH]; cbn in Hi, Hj; simplify_eq.
  - destruct (Hout H1). rewrite Hk. by eapply Hin.
  - destruct (Hout H2). rewrite <- Hk. by eapply Hin.
Qed.

(** C13: However the callbacks of all tenants, their goroutines and the removals interleave: no branch
    is onboarded twice at the same time, the set of running onboardings holds exactly the branches of
    requests that were begun and not ended, so that none is lost or kept, a removed tenant has no
    onboarding that still uses its closed databases, and every accepted request is onboarded once. *)
Theorem onboarding_exclusive s : responder_reachable s ->
  (forall i j k1 k2, rp_tasks s !! i = Some k1 -> rp_tasks s !! j = Some k2 ->
     holding (tk_phase k1) = true -> holding (tk_phase k2) = true ->
     on_DBName (tk_req k1) = on_DBName (tk_req k2) -> on_BranchID (tk_req k1) = on_BranchID (tk_req k2) -> i = j)
  /\ (forall key, key ∈ rp_onboarding s <->
       exists k, k ∈ rp_tasks s /\ holding (tk_phase k) = true /\ task_key k = key)
  /\ (forall k c, k ∈ rp_tasks s -> rp_ctxs s !! tk_ctx k = Some c -> oc_removal c = Closed ->
       counting (tk_phase k) = false)
  /\ (forall req, tally (accepted req) (rp_log s)
                  = (tally (ran req) (rp_log s) + tally (running_req req) (rp_tasks s))%nat).
Proof.
  intros [Ht Hh Hs Hw Hc Hl]%reachable_inv. split_and!.
  - intros i j k1 k2 Hi Hj H1 H2 E1 E2. eapply held_once; try done. unfold task_key. by rewrite E1, E2.
  - intros key. rewrite Hs, elem_of_list_to_set. apply held_in.
  - intros k c Hk Hid Hcl. destruct (counting (tk_phase k)) eqn:E; [|done].
    pose proof (Hc _ _ Hid) as [_ Hz]. specialize (Hz Hcl). rewrite (Hw _ _ Hid) in Hz.
    apply (tally_in (counted (tk_ctx k))) in Hk. unfold counted at 1 in Hk.
    rewrite bool_decide_true, E in Hk by done. cbn in Hk. lia.
  - done.
Qed.

(** ** Removal completes *)

(** The steps left of the accepted requests of a context. *)
Definition phase_work (p : phase) : nat :=
  match p with Replying None => 4 | Running => 3 | Returned => 2 | Ended => 1 | _ => 0 end.
Definition work1 (id : nat) (k : task) : nat := if bool_decide (tk_ctx k = id) then phase_work (tk_phase k) else 0%nat.
Definition work (id : nat) (s : responder) : nat := tally (work1 id) (rp_tasks s).

Definition removing (id : nat) (s : responder) : Prop :=
  exists c, rp_ctxs s !! id = Some c /\ oc_removal c = Removing.
Definition closed (id : nat) (s : responder) : Prop :=
  exists c, rp_ctxs s !! id = Some c /\ oc_removal c = Closed.

Lemma work_change id i req p p' ts1 ts2 : (phase_work p' <= phase_work p)%nat ->
  (tally (work1 id) (ts1 ++ mkTask i req p' :: ts2) <= tally (work1 id) (ts1 ++ mkTask i req p :: ts2))%nat.
Proof. intros H. rewrite !tally_mid. unfold work1 at 1 3. cbn. case_bool_decide; lia. Qed.

Lemma work_leave id k ts1 ts2 : (tally (work1 id) (ts1 ++ ts2) <= tally (work1 id) (ts1 ++ k :: ts2))%nat.
Proof. rewrite tally_mid. lia. Qed.

Lemma tally_some {A} (f : A -> nat) l : (0 < tally f l)%nat -> exists l1 a l2, l = l1 ++ a :: l2 /\ (0 < f a)%nat.
Proof.
  induction l as [|a l IH]; cbn; intros H; [lia|]. destruct (decide (f a = 0%nat)) as [E|E].
  - destruct IH as (l1 & b & l2 & -> & Hb); [lia|]. by exists (a :: l1), b, l2.
  - exists [], a, l. split; [done|lia].
Qed.

(** In a tenant that is removed no step adds work. *)
Lemma work_step id s s' : responder_inv s -> removing id s -> responder_step s s' ->
  (work id s' <= work id s)%nat /\ (removing id s' \/ closed id s').
Proof.
  intros Hi (c0 & H0 & Hm) Hs. unfold work.
  assert (Hsame : removing id s -> (work id s <= work id s)%nat /\ (removing id s \/ closed id s)) by (by split; [|left]).
  assert (Hother : forall i d cs, cs !! id = Some c0 -> (i = id -> oc_removal d = Removing \/ oc_removal d = Closed) ->
    forall o ts l, removing id (mkResponder (<[i := d]> cs) o ts l) \/ closed id (mkResponder (<[i := d]> cs) o ts l)).
  { intros i d cs Hid Hd o ts l. destruct (decide (i = id)) as [E|E].
    - destruct (Hd E); [left|right]; exists d; cbn; by rewrite E, lookup_insert_eq.
    - left. exists c0. cbn. by rewrite lookup_insert_ne. }
  destruct Hs as [i t cs o ts l Hn|i c sub data e o' cs o ts l Hc Hr|i c sub data req o' cs o ts l Hc Hr
    |i c req r c' cs o ts1 ts2 l Hc He|i req r cs o ts1 ts2 l|i c req cs o ts1 ts2 l Hc|i c req err cs o ts1 ts2 l Hc
    |i c req cs o ts1 ts2 l Hc|i c req cs o ts1 ts2 l Hc|i c cs o ts l Hc Hr|i c cs o ts l Hc Hr Hw]; cbn [rp_ctxs rp_tasks] in *.
  - split; [done|]. apply Hother; [done|]. intros ->. by rewrite Hn in H0.
  - split; [done|]. left. by exists c0.
  - split; [|left; by exists c0]. cbn. unfold work1 at 1. cbn. by case_bool_decide.
  - unfold enter in He. destruct (decide (i = id)) as [->|Hne].
    + rewrite Hc in H0. injection H0 as ->. pose proof (ri_ctxs _ Hi id c0 Hc) as [Hst _].
      destruct (oc_stopping c0); [|by rewrite (proj1 Hst eq_refl) in Hm]. injection He as <- <-.
      split; [by apply work_change|]. rewrite insert_same by done. left. by exists c0.
    + split; [|by apply Hother]. rewrite !tally_mid. unfold work1 at 1 3. cbn. by rewrite !bool_decide_false.
  - split; [|left; by exists c0]. apply work_change. destruct r; cbn; lia.
  - split; [apply work_leave|left; by exists c0].
  - split; [|left; by exists c0]. apply work_change. cbn; lia.
  - split; [|left; by exists c0]. apply work_change. cbn; lia.
  - split; [apply work_leave|]. apply Hother; [done|]. intros ->. rewrite Hc in H0. injection H0 as ->. by left.
  - split; [done|]. apply Hother; [done|]. intros ->. by left.
  - split; [done|]. apply Hother; [done|]. intros ->. by right.
Qed.

(** As long as there is work, some step does a part of it. *)
Lemma work_progress id s : responder_inv s -> removing id s -> (0 < work id s)%nat ->
  exists s', responder_step s s' /\ (work id s' < work id s)%nat /\ removing id s'.
Proof.
  destruct s as [cs o ts l]. intros Hi (c & Hc & Hm) Hw. apply tally_some in Hw as (ts1 & [i req p] & ts2 & E & Hk).
  cbn in Hc, E. subst ts.
  unfold work1 in Hk. cbn in Hk. case_bool_decide as E; [|lia]. subst i.
  assert (Hless : forall p', (phase_work p' < phase_work p)%nat -> forall cs' o' l',
    (work id (mkResponder cs' o' (ts1 ++ mkTask id req p' :: ts2) l')
     < work id (mkResponder cs o (ts1 ++ mkTask id req p :: ts2) l))%nat).
  { intros p' Hp cs' o' l'. unfold work. cbn [rp_tasks]. rewrite !tally_mid. unfold work1 at 1 3. cbn.
    rewrite bool_decide_true by done. lia. }
  destruct p as [|[e|]| | | |]; cbn in Hk; try lia.
  - eexists. split; [apply step_reply|]. split; [apply Hless; cbn; lia|by exists c].
  - eexists. split; [by apply (step_run id c req None)|]. split; [apply Hless; cbn; lia|by exists c].
  - eexists. split; [by apply (step_end id c)|]. split; [apply Hless; cbn; lia|by exists c].
  - eexists. split; [by apply (step_done id c)|]. split.
    + unfold work. cbn [rp_tasks]. rewrite tally_mid. unfold work1 at 2. cbn. rewrite bool_decide_true by done. lia.
    + exists (set_wg (pred (oc_wg c)) c). cbn. by rewrite lookup_insert_eq.
Qed.

Lemma counted_work id ts : tally (work1 id) ts = 0%nat -> tally (counted id) ts = 0%nat.
Proof.
  induction ts as [|k ts IH]; [done|]. cbn. intros H. rewrite IH by lia. unfold work1, counted in *.
  destruct (bool_decide _), (tk_phase k) as [|[]| | | |]; cbn in *; lia.
Qed.

(** C26: The removal of a tenant ends. From the moment it is marked, no step of any callback, goroutine
    or other removal adds to the work of its accepted requests, which is a number; while there is
    work some step does a part of it, and when there is none the wait returns: at most so many steps
    and one lead to the closed tenant. *)
Theorem removal_completes id s : responder_reachable s -> removing id s ->
  (forall s', responder_step s s' -> (work id s' <= work id s)%nat /\ (removing id s' \/ closed id s'))
  /\ (exists n s', (n <= S (work id s))%nat /\ nsteps responder_step n s s' /\ closed id s').
Proof.
  intros Hr Hm. apply reachable_inv in Hr. split; [intros s'; by apply work_step|].
  remember (work id s) as w eqn:Ew. revert s Ew Hr Hm.
  induction w as [w IH] using lt_wf_ind. intros s -> Hi Hm.
  destruct (decide (work id s = 0%nat)) as [Ez|Ez].
  - destruct s as [cs o ts l], Hm as (c & Hc & Hm). cbn in Hc.
    pose proof (ri_wg _ Hi id c Hc) as Hw. cbn in Hw. pose proof (counted_work id ts Ez) as Hz. rewrite Hz in Hw.
    exists 1%nat. eexists. split; [lia|]. split; [eapply nsteps_l; [by apply (step_wait id c)|constructor]|].
    eexists. cbn. by rewrite lookup_insert_eq.
  - destruct (work_progress id s Hi Hm ltac:(lia)) as (s1 & Hs & Hlt & Hm1).
    destruct (IH (work id s1) Hlt s1 eq_refl (inv_step _ _ Hi Hs) Hm1) as (n & s' & Hn & Hsteps & Hcl).
    exists (S n), s'. split; [lia|]. split; [by eapply nsteps_l|done].
Qed.

(** ** A run *)

Definition sample_tenant : Tenant := mkTenant 1 "key" "Shop" "shop" "" "ops@shop".
Definition sample_request : OnboardRequest := mkOnboardRequest "shop" "key" 7 "123456".
Definition sample_subject : string := "control.zatca.onboard.shop.7".
Definition sample_data : string :=
  "{" +:+ quoted "db_name" +:+ ":" +:+ quoted "shop" +:+ "," +:+ quoted "tenant_key" +:+ ":" +:+ quoted "key" +:+ ","
  +:+ quoted "branch_id" +:+ ":7," +:+ quoted "otp" +:+ ":" +:+ quoted "123456" +:+ "}".

(** One request is accepted and running when the tenant's removal begins; a
    second one for the branch is refused. *)
Definition sample_ctx (stopping : bool) (n : nat) (r : removal) : onboard_ctx := mkOnboardCtx sample_tenant stopping n r.

Lemma sample_received : receive sample_tenant sample_subject sample_data ∅ = (Ok sample_request, {["shop:7"]} ∪ ∅).
Proof. vm_compute. reflexivity. Qed.
Lemma sample_refused : receive sample_tenant sample_subject sample_data ({["shop:7"]} ∪ ∅)
  = (Err errAlreadyRunning, {["shop:7"]} ∪ ∅).
Proof. vm_compute. reflexivity. Qed.

Definition sample_removal : responder :=
  mkResponder (<[0%nat := sample_ctx true 1 Removing]> (<[0%nat := sample_ctx false 1 Serving]>
                (<[0%nat := sample_ctx false 0 Serving]> ∅)))
    ({["shop:7"]} ∪ ∅) [mkTask 0 sample_request Running]
    [Replied None (replyOnboard (Some errAlreadyRunning)); Replied (Some sample_request) (replyOnboard None)].

Lemma sample_removal_reachable : responder_reachable sample_removal.
Proof.
  eapply rtc_l; [by apply (step_add 0 sample_tenant ∅)|].
  eapply rtc_l; [eapply (step_receive 0 (sample_ctx false 0 Serving)); [apply lookup_insert_eq|apply sample_received]|].
  eapply rtc_l; [eapply (step_refuse 0 (sample_ctx false 0 Serving)); [apply lookup_insert_eq|apply sample_refused]|].
  eapply rtc_l; [eapply (step_enter 0 (sample_ctx false 0 Serving) sample_request None _ _ _ []); [apply lookup_insert_eq|reflexivity]|].
  eapply rtc_l; [eapply (step_reply 0 sample_request None _ _ [])|].
  eapply rtc_l; [eapply (step_mark 0 (sample_ctx false 1 Serving)); [apply lookup_insert_eq|reflexivity]|].
  constructor.
Qed.

Lemma onboarding_exclusive_witness :
  responder_reachable sample_removal /\ "shop:7" ∈ rp_onboarding sample_removal
  /\ tally (accepted sample_request) (rp_log sample_removal) = 1%nat.
Proof.
  split; [exact sample_removal_reachable|].
  destruct (onboarding_exclusive sample_removal sample_removal_reachable) as (_ & Hk & _ & Hl).
  split.
  - apply Hk. exists (mkTask 0 sample_request Running). split; [left|split; reflexivity].
  - rewrite Hl. reflexivity.
Defined.

Lemma removal_completes_witness :
  work 0 sample_removal = 3%nat
  /\ exists n s', (n <= 4)%nat /\ nsteps responder_step n sample_removal s' /\ closed 0 s'.
Proof.
  split; [reflexivity|]. apply (removal_completes 0 sample_removal); [exact sample_removal_reachable|].
  exists (sample_ctx true 1 Removing). split; [apply lookup_insert_eq|reflexivity].
Defined.
