(* ===== verification/Preflight.v ===== *)
(** * The schema check of a tenant ([queue/preflight.go])

    The columns the daemon relies on, the query for them, and the error that
    names every missing one. The answer of [information_schema] is a list of
    scanned rows; the query for it is an argument of the database. *)

From stdpp Require Import sorting.
From S2P Require Import Prelude GoStrings GoText GoErrors.

Record schemaRequirement : Type := mkRequirement { rq_table : string; rq_columns : list string }.

Definition runtimeSchema : list schemaRequirement :=
  [ mkRequirement "branch_zatca_config"
      ["branch_id"; "last_icv"; "previous_invoice_hash"; "icv_reservation_key"; "icv_reservation_token";
       "reserved_icv"; "reservation_lease_expires_at"];
    mkRequirement "bill" ["id"; "branch_id"; "state"; "invoice_uuid"; "invoice_hash"; "qr_code"];
    mkRequirement "zatca_submission"
      ["bill_id"; "branch_id"; "status"; "outcome_state"; "invoice_icv"; "previous_invoice_hash"; "invoice_uuid";
       "invoice_hash"; "invoice_kind"; "signed_xml"; "provider_code"; "rejection_code"; "rejection_msg";
       "provider_warning_message"; "submitted_at"; "outcome_at"];
    mkRequirement "zatca_submission_outcome"
      ["submission_id"; "outcome_state"; "provider_code"; "provider_warning_message"; "observed_at"];
    mkRequirement "zatca_consumer_claim"
      ["pos_id"; "bill_request_id"; "event_id"; "egs_sequence_id"; "fingerprint"; "state"; "lease_expires_at";
       "completed_at"] ].

(** ** The query *)

(** [strings.TrimRight(strings.Repeat("?,", n), ",")]. *)
Definition placeholders (n : nat) : string := Join (replicate n "?") ",".

Definition clause (r : schemaRequirement) : string :=
  "(table_name = ? AND column_name IN (" +:+ placeholders (length (rq_columns r)) +:+ "))".
Definition clauses : string := Join (map clause runtimeSchema) " OR ".
Definition query_args : list string := flat_map (fun r => rq_table r :: rq_columns r) runtimeSchema.

(** ** The comparison *)

Notation found_columns := (gmap string (gset string)).

Definition found_at (f : found_columns) (table : string) : gset string := default ∅ (f !! table).

Definition add_column (f : found_columns) (c : string * string) : found_columns :=
  <[c.1 := {[c.2]} ∪ found_at f c.1]> f.

(** The rows as [Scan] gives them, up to its first error. *)
Fixpoint scan_columns (rows : list (result error (string * string))) (f : found_columns) : result error found_columns :=
  match rows with
  | [] => Ok f
  | Err e :: _ => Err e
  | Ok c :: rest => scan_columns rest (add_column f c)
  end.

Definition missing_of (f : found_columns) (r : schemaRequirement) : list string :=
  omap (fun c => if bool_decide (c ∈ found_at f (rq_table r)) then None else Some (rq_table r +:+ "." +:+ c))
    (rq_columns r).

#[export] Instance string_le_dec s t : Decision (String.leb s t = true) := _.
(** [sort.Strings]. *)
Definition sort_strings (l : list string) : list string := merge_sort (fun s t => String.leb s t = true) l.

Definition not_ready (what : string) (e : error) : error :=
  Wrap "" (Sentinel ErrTenantSchemaNotReady) (": " +:+ what +:+ ": " +:+ error_text e).

(** What the query answers: its error, or rows and [rows.Err()]. [None] is a nil
    database. *)
Definition Preflight (db : option (list string -> result error (list (result error (string * string)) * option error)))
    : option error :=
  match db with
  | None => Some (Wrap "" (Sentinel ErrTenantSchemaNotReady) ": database is not configured")
  | Some query =>
      match query query_args with
      | Err e => Some (not_ready "inspect tenant schema" e)
      | Ok (rows, rowsErr) =>
          match scan_columns rows ∅ with
          | Err e => Some (not_ready "scan tenant schema" e)
          | Ok found =>
              match rowsErr with
              | Some e => Some (not_ready "read tenant schema" e)
              | None =>
                  match flat_map (missing_of found) runtimeSchema with
                  | [] => None
                  | missing => Some (SchemaError (sort_strings missing))
                  end
              end
          end
      end
  end.

(** ** Theorems *)

Definition required (table column : string) : Prop :=
  exists r, r ∈ runtimeSchema /\ rq_table r = table /\ column ∈ rq_columns r.

Lemma found_add f c table column :
  column ∈ found_at (add_column f c) table <-> c = (table, column) \/ column ∈ found_at f table.
Proof.
  destruct c as [t x]. unfold add_column. cbn [fst snd]. unfold found_at at 1.
  destruct (decide (t = table)) as [->|Hne].
  - rewrite lookup_insert_eq. cbn. rewrite elem_of_union, elem_of_singleton. naive_solver.
  - rewrite lookup_insert_ne by done. unfold found_at. naive_solver.
Qed.

Lemma scan_found rows f table column :
  match scan_columns (map Ok rows) f with
  | Ok g => column ∈ found_at g table <-> (table, column) ∈ rows \/ column ∈ found_at f table
  | Err _ => False
  end.
Proof.
  revert f. induction rows as [|c rows IH]; intros f; cbn [map scan_columns].
  - split; [by right|by intros [?%not_elem_of_nil|]].
  - specialize (IH (add_column f c)). destruct (scan_columns (map Ok rows) (add_column f c)); [|done].
    rewrite IH, found_add, elem_of_cons. naive_solver.
Qed.

Lemma in_missing f x : x ∈ flat_map (missing_of f) runtimeSchema <->
  exists table column, required table column /\ column ∉ found_at f table /\ x = table +:+ "." +:+ column.
Proof.
  rewrite list_elem_of_In, in_flat_map. unfold required, missing_of. split.
  - intros (r & Hr & Hx). apply list_elem_of_In, list_elem_of_omap in Hx as (c & Hc & Hx).
    case_bool_decide; simplify_eq. exists (rq_table r), c. split; [|done]. exists r. by rewrite list_elem_of_In.
  - intros (table & column & (r & Hr & <- & Hc) & Hn & ->). exists r. rewrite <- list_elem_of_In. split; [done|].
    apply list_elem_of_In, list_elem_of_omap. exists column. split; [done|]. by rewrite bool_decide_false.
Qed.

#[export] Instance string_le_total : Total (fun s t => String.leb s t = true).
Proof. intros s t. apply String.leb_total. Qed.

(** The schema check is exact. When the query and the reading of its rows succeed, it passes if and
    only if every required column of every table is among the rows; otherwise its error carries, in
    sorted order, exactly the missing columns with their tables, and is recognised as
    [ErrTenantSchemaNotReady]. *)
Theorem preflight_exact rows :
  let run := Preflight (Some (fun _ => Ok (map Ok rows, None))) in
  (run = None <-> forall table column, required table column -> (table, column) ∈ rows)
  /\ (forall e, run = Some e -> errors_is ErrTenantSchemaNotReady e = true
       /\ exists missing, e = SchemaError missing
          /\ Sorted (fun s t => String.leb s t = true) missing
          /\ forall x, x ∈ missing <->
               exists table column, required table column /\ (table, column) ∉ rows /\ x = table +:+ "." +:+ column).
Proof.
  cbv zeta. unfold Preflight.
  pose proof (fun t c => scan_found rows ∅ t c) as Hs.
  destruct (scan_columns (map Ok rows) ∅) as [f|e]; [|by destruct (Hs "" "")].
  assert (Hf : forall t c, c ∈ found_at f t <-> (t, c) ∈ rows).
  { intros t c. rewrite Hs. unfold found_at. rewrite lookup_empty. cbn. set_solver. }
  assert (Hm : forall x, x ∈ flat_map (missing_of f) runtimeSchema <->
    exists table column, required table column /\ (table, column) ∉ rows /\ x = table +:+ "." +:+ column).
  { intros x. rewrite in_missing. by setoid_rewrite Hf. }
  destruct (flat_map (missing_of f) runtimeSchema) as [|m ms]; split.
  - split; [|done]. intros _ t c Hr. destruct (decide ((t, c) ∈ rows)) as [|Hn]; [done|].
    assert ((t +:+ "." +:+ c) ∈ @nil string) as H%not_elem_of_nil by (apply Hm; by exists t, c). done.
  - done.
  - split; [done|]. intros H. destruct (proj1 (Hm m)) as (t & c & Hr & Hn & _); [left|]. by destruct (Hn (H t c Hr)).
  - intros e [= <-]. split; [reflexivity|]. exists (sort_strings (m :: ms)). split; [done|].
    split; [apply Sorted_merge_sort; apply _|]. intros x. unfold sort_strings. by rewrite merge_sort_Permutation.
Qed.

(** Every column that the tables of the claims need is among the required ones;
    the identifier of a submission, which the recording of an outcome reads, is not. *)
Example submission_id_not_required : ~ required "zatca_submission" "id".
Proof.
  intros (r & Hr & Ht & Hc). unfold runtimeSchema in Hr. rewrite !elem_of_cons in Hr.
  destruct Hr as [->|[->|[->|[->|[->|Hr]]]]]; try discriminate Ht; [|by apply not_elem_of_nil in Hr].
  revert Hc. cbn. rewrite !elem_of_cons, elem_of_nil. intros Hc. by repeat destruct Hc as [Hc|Hc].
Qed.
