(* ===== verification/Startup.v ===== *)
(** * Startup of the daemon ([config/nats.go], [dbutil/dsn.go], [cmd/daemon/nats.go], [cmd/daemon/main.go])

    Validation of the transport configuration, the choice of the NATS server,
    the guarded monitoring endpoint, the stream the daemon requires, and the
    connection strings from flags and environment. URL parsing, the formatting
    of MySQL connection strings and what servers answer are arguments. *)

From S2P Require Import Prelude GoStrings GoText Models GoErrors Message Config.
Local Open Scope Z_scope.
Local Open Scope go_scope.

(** ** config/nats.go *)

(** Durations are nanoseconds. *)
Record NATSConfig : Type := mkNATSConfig {
  nc_Mode : NATSMode; nc_URL : string; nc_Port : Z; nc_MonitorPort : Z; nc_DataDir : string;
  nc_AckWait : Z; nc_MaxDeliver : Z; nc_ReconcileInterval : Z
}.

Section validate.
(** [url.Parse]: scheme and host. *)
Context (url_Parse : string -> option (string * string)).

Definition check_url (url : string) : option error := (
  guard! String.eqb (TrimSpace url) "" else NewError "NATS URL is required in external mode" ;;
  match url_Parse url with
  | None => Some (NewError "NATS URL must use nats:// or tls:// in external mode")
  | Some (scheme, host) =>
      guard! negb (String.eqb scheme "nats") && negb (String.eqb scheme "tls")
        else NewError "NATS URL must use nats:// or tls:// in external mode" ;;
      guard! String.eqb host "" else NewError "NATS URL must include a host in external mode" ;;
      None
  end).

Definition port_ok (p : Z) : bool := negb ((p <? 0) || (65535 <? p)).

Definition NATSConfig_Validate (c : NATSConfig) : option error :=
  match ParseNATSMode (nc_Mode c) with
  | Err e => Some e
  | Ok mode => (
      guard! negb (port_ok (nc_Port c)) else NewError "NATS port must be between 0 and 65535" ;;
      guard! negb (port_ok (nc_MonitorPort c)) else NewError "NATS monitor port must be between 0 and 65535" ;;
      guard! nc_AckWait c <=? 0 else NewError "NATS ACK wait must be positive" ;;
      guard! nc_MaxDeliver c <? 1 else NewError "NATS max deliveries must be positive" ;;
      guard! nc_ReconcileInterval c <=? 0 else NewError "tenant reconciliation interval must be positive" ;;
      match (if String.eqb mode NATSExternal then check_url (nc_URL c) else None) with
      | Some e => Some e
      | None =>
          guard! String.eqb mode NATSEmbedded && String.eqb (TrimSpace (nc_DataDir c)) ""
            else NewError "NATS data directory is required in embedded mode" ;;
          None
      end)
  end.

(** ** cmd/daemon/nats.go: the connection *)

Record server_options : Type := mkServerOptions {
  so_Port : Z; so_StoreDir : string; so_HTTPHost : string; so_HTTPPort : Z
}.

(** The monitoring endpoint: its port, its password and the port it proxies to. *)
Record monitor : Type := mkMonitor { mn_port : Z; mn_password : string; mn_target : Z }.

Record nats_runtime : Type := mkNatsRuntime { nr_url : string; nr_server : option server_options }.

(** What NATS answers: connecting to a URL, creating the server, whether it is
    ready in time, and its URL. *)
Record nats_answers : Type := mkNatsAnswers {
  na_Connect : string -> option error;
  na_NewServer : server_options -> option error;
  na_ready : bool;
  na_ClientURL : string
}.

Inductive nats_effect : Type :=
| ServeMonitor (m : monitor)
| StartServer (o : server_options)
| StopServer (o : server_options).

(** The options, and the monitor if one is configured. *)
Definition monitor_options (c : NATSConfig) (monitorPassword : string)
    : result error (server_options * list nats_effect) :=
  if 0 <? nc_MonitorPort c then
    if String.eqb monitorPassword ""
    then Err (NewError "monitor password is required when NATS monitoring is enabled")
    else let internalPort := nc_MonitorPort c + 10000 in
         Ok (mkServerOptions (nc_Port c) (nc_DataDir c) "127.0.0.1" internalPort,
             [ServeMonitor (mkMonitor (nc_MonitorPort c) monitorPassword internalPort)])
  else Ok (mkServerOptions (nc_Port c) (nc_DataDir c) "" 0, []).

Definition openNATS (c : NATSConfig) (monitorPassword : string) (a : nats_answers)
    : result error nats_runtime * list nats_effect :=
  match NATSConfig_Validate c with
  | Some e => (Err e, [])
  | None =>
      let mode := match ParseNATSMode (nc_Mode c) with Ok m => m | Err _ => "" end in
      if String.eqb mode NATSExternal then
        match na_Connect a (nc_URL c) with
        | Some e => (Err (Wrap ("connect to external NATS " +:+ nc_URL c +:+ ": ") e ""), [])
        | None => (Ok (mkNatsRuntime (nc_URL c) None), [])
        end
      else
        match monitor_options c monitorPassword with
        | Err e => (Err e, [])
        | Ok (opts, effects) =>
            match na_NewServer a opts with
            | Some e => (Err (Wrap "create embedded NATS: " e ""), effects)
            | None =>
                let effects := effects ++ [StartServer opts] in
                if negb (na_ready a) then (Err (NewError "embedded NATS was not ready"), effects ++ [StopServer opts])
                else match na_Connect a (na_ClientURL a) with
                     | Some e => (Err (Wrap "connect to embedded NATS: " e ""), effects ++ [StopServer opts])
                     | None => (Ok (mkNatsRuntime (na_ClientURL a) (Some opts)), effects)
                     end
            end
        end
  end.
End validate.

(** ** The monitoring endpoint *)

(** Path, and user and password of basic authentication. *)
Record monitor_request : Type := mkMonitorRequest { mr_path : string; mr_auth : option (string * string) }.

Inductive monitor_response : Type :=
| Unauthorized
| Unhealthy (status : Z) (error : string)
| Proxied.

(** [daemonMonitorHandler]; [readiness] is [None] when it is not set. *)
Definition daemonMonitorHandler (readiness : option (option error)) (r : monitor_request) : monitor_response :=
  match readiness with
  | Some (Some e) => if String.eqb (mr_path r) "/healthz" then Unhealthy 503 (error_text e) else Proxied
  | _ => Proxied
  end.

Definition basicAuth (next : monitor_request -> monitor_response) (password : string) (r : monitor_request)
    : monitor_response :=
  match mr_auth r with
  | Some (_, pass) => if String.eqb pass password then next r else Unauthorized
  | None => Unauthorized
  end.

(** The endpoint that [openNATS] serves. *)
Definition monitor_handler (m : monitor) (readiness : option (option error)) : monitor_request -> monitor_response :=
  basicAuth (daemonMonitorHandler readiness) (mn_password m).

(** ** The stream *)

Inductive retention : Type := LimitsPolicy | InterestPolicy | WorkQueuePolicy.
#[export] Instance retention_eq_dec : EqDecision retention.
Proof. solve_decision. Defined.

Record stream_config : Type := mkStreamConfig {
  st_Name : string; st_Subjects : list string; st_Retention : retention; st_MaxAge : Z
}.

(** Name and subjects come from [queue/message.go]. *)
Definition stream_wanted : stream_config :=
  mkStreamConfig StreamName [SubjectAll] WorkQueuePolicy (7 * 24 * 3600 * 1000000000).

(** [info] is what [StreamInfo] answers ([Ok None] a nil information), [add] what
    [AddStream] does; the result, and the stream it tried to add. *)
Definition ensureStream (mode : NATSMode) (info : result error (option stream_config))
    (add : stream_config -> option error) : option error * option stream_config :=
  match info with
  | Err e =>
      if String.eqb mode NATSEmbedded then
        (match add stream_wanted with
         | Some e => Some (Wrap "create embedded ZATCA stream: " e "")
         | None => None
         end, Some stream_wanted)
      else (Some (Wrap ("shared NATS stream " +:+ quote StreamName +:+ " is unavailable: ") e ""), None)
  | Ok None => (Some (NewError ("NATS returned no stream info for " +:+ quote StreamName)), None)
  | Ok (Some cfg) =>
      if negb (bool_decide (st_Retention cfg = WorkQueuePolicy))
      then (Some (NewError ("NATS stream " +:+ quote StreamName +:+ " must use work-queue retention")), None)
      else if existsb (String.eqb SubjectAll) (st_Subjects cfg) then (None, None)
      else (Some (NewError ("NATS stream " +:+ quote StreamName +:+ " does not cover " +:+ quote SubjectAll)), None)
  end.

(** ** Connection strings *)

Definition envOrDefault (env : string -> string) (key fallback : string) : string :=
  if String.eqb (env key) "" then fallback else env key.

(** [net.JoinHostPort]. *)
Definition JoinHostPort (host port : string) : string :=
  if Contains host ":" then "[" +:+ host +:+ "]:" +:+ port else host +:+ ":" +:+ port.

Section dsn.
(** [mysql.Config.FormatDSN] of user, password, network, address and database. *)
Context (mysql_FormatDSN : string -> string -> string -> string -> string -> string).

Definition FormatDSN (user pass host port dbName : string) : string :=
  mysql_FormatDSN user pass "tcp" (JoinHostPort host port) dbName.
Definition FormatBaseDSN (user pass host port : string) : string := FormatDSN user pass host port "".

(** The parameters that are missing, in the order of the checks. *)
Definition missing_parameters (user host port dbName : string) : list string :=
  omap (fun c => if String.eqb c.1 "" then Some c.2 else None)
    [(host, "db-host/HOST"); (port, "db-port/PORT"); (user, "db-user/DBUSER"); (dbName, "db-name/DBNAME")].

Definition ResolveDSN (dsn user pass host port dbName : string) : result error string :=
  if negb (String.eqb dsn "") then Ok dsn
  else match missing_parameters user host port dbName with
       | [] => Ok (FormatDSN user pass host port dbName)
       | missing => Err (NewError ("missing required DB parameters: [" +:+ Join missing " " +:+ "]"))
       end.

(** The database flags of the daemon. *)
Record db_flags : Type := mkDbFlags {
  df_masterDSN : string; df_baseDSN : string; df_adminDSN : string;
  df_user : string; df_pass : string; df_host : string; df_port : string; df_masterDB : string
}.

Definition or_env (env : string -> string) (flag key : string) : string :=
  if String.eqb flag "" then env key else flag.
(** A flag that still has its default may be replaced by the environment. *)
Definition default_or_env (env : string -> string) (flag key default : string) : string :=
  if negb (String.eqb (env key) "") && String.eqb flag default then env key else flag.

Definition admin_dsn (env : string -> string) (flag host port : string) : string :=
  if negb (String.eqb flag "") then flag
  else if String.eqb (env "ADMIN_DB_USER") "" then ""
  else FormatBaseDSN (env "ADMIN_DB_USER") (env "ADMIN_DB_PASS")
         (if String.eqb (env "ADMIN_DB_HOST") "" then host else env "ADMIN_DB_HOST") port.

(** Master, base and admin connection strings; [None] is the fatal error. *)
Definition daemon_dsns (env : string -> string) (f : db_flags) : option (string * string * string) :=
  let user := or_env env (df_user f) "DB_USER" in
  let pass := or_env env (df_pass f) "DB_PASS" in
  let host := or_env env (df_host f) "DB_HOST" in
  let port := default_or_env env (df_port f) "DB_PORT" "3306" in
  let masterDB := default_or_env env (df_masterDB f) "MASTER_DB" "zatca_master" in
  let admin := admin_dsn env (df_adminDSN f) host port in
  let parts := negb (String.eqb user "") && negb (String.eqb host "") in
  let master := if String.eqb (df_masterDSN f) "" && parts then FormatDSN user pass host port masterDB
                else df_masterDSN f in
  let base := if String.eqb (df_baseDSN f) "" && parts then FormatBaseDSN user pass host port else df_baseDSN f in
  if String.eqb master "" || String.eqb base "" then None else Some (master, base, admin).
End dsn.

(** ** cmd/daemon/email.go *)

Record email : Type := mkEmail {
  em_addr : string; em_auth : option (string * string * string); em_from : string; em_to : list string;
  em_body : string
}.

Definition crlf : string := str1 (byte_of 13) +:+ str1 (byte_of 10).
Definition nl : string := str1 (byte_of 10).

(** What [sendAlert] hands to [smtp.SendMail]. *)
Definition sendAlert (env : string -> string) (recipients what dbName : string) (processErr : error) : option email :=
  if String.eqb recipients "" then None
  else
    let smtpHost := envOrDefault env "SMTP_HOST" "localhost" in
    let smtpPort := envOrDefault env "SMTP_PORT" "587" in
    let smtpUser := envOrDefault env "SMTP_USER" "" in
    let smtpPass := envOrDefault env "SMTP_PASS" "" in
    let fromAddr := envOrDefault env "SMTP_FROM" "zatca-daemon@localhost" in
    let subject := "ZATCA Processing Failed: " +:+ what +:+ " (" +:+ dbName +:+ ")" in
    let body := "ZATCA processing failed." +:+ nl +:+ nl +:+ "Tenant DB: " +:+ dbName +:+ nl +:+ "Item: " +:+ what
      +:+ nl +:+ "Error: " +:+ error_text processErr +:+ nl +:+ nl
      +:+ "The item is not invoiced or not submitted. Fix the cause; a bill that was not invoiced is retried by the daemon." in
    let toList := map TrimSpace (Split "," recipients) in
    let emailBody := "From: " +:+ fromAddr +:+ crlf +:+ "To: " +:+ Join toList ", " +:+ crlf +:+ "Subject: " +:+ subject
      +:+ crlf +:+ crlf +:+ body in
    Some (mkEmail (smtpHost +:+ ":" +:+ smtpPort)
            (if String.eqb smtpUser "" then None else Some (smtpUser, smtpPass, smtpHost))
            fromAddr toList emailBody).

(** ** Theorems *)

Section theorems.
Context (url_Parse : string -> option (string * string)).

Lemma validate_None c : NATSConfig_Validate url_Parse c = None ->
  exists mode, ParseNATSMode (nc_Mode c) = Ok mode
    /\ 0 <= nc_Port c <= 65535 /\ 0 <= nc_MonitorPort c <= 65535
    /\ 0 < nc_AckWait c /\ 1 <= nc_MaxDeliver c /\ 0 < nc_ReconcileInterval c
    /\ (mode = NATSExternal -> exists scheme host, url_Parse (nc_URL c) = Some (scheme, host)
         /\ (scheme = "nats" \/ scheme = "tls") /\ host <> "")
    /\ (mode = NATSEmbedded -> TrimSpace (nc_DataDir c) <> "").
Proof.
  unfold NATSConfig_Validate, port_ok. destruct (ParseNATSMode (nc_Mode c)) as [mode|]; [|done]. intros Hv.
  exists mode. split; [done|].
  destruct (_ || _) eqn:E1 in Hv; [done|]. destruct (_ || _) eqn:E2 in Hv; [done|]. cbn [negb] in Hv.
  destruct (nc_AckWait c <=? 0) eqn:E3; [done|]. destruct (nc_MaxDeliver c <? 1) eqn:E4; [done|].
  destruct (nc_ReconcileInterval c <=? 0) eqn:E5; [done|].
  split_and!; try lia.
  - intros ->. cbn in Hv. unfold check_url in Hv.
    destruct (String.eqb (TrimSpace (nc_URL c)) ""); [done|].
    destruct (url_Parse (nc_URL c)) as [[scheme host]|]; [|done]. exists scheme, host. split; [done|].
    destruct (String.eqb_spec scheme "nats"), (String.eqb_spec scheme "tls"), (String.eqb_spec host "");
      try done; auto.
  - intros -> E. by rewrite E in Hv.
Qed.

Lemma monitor_refuses m readiness r : (forall user, mr_auth r <> Some (user, mn_password m)) ->
  monitor_handler m readiness r = Unauthorized.
Proof.
  unfold monitor_handler, basicAuth. intros Hr. destruct (mr_auth r) as [[user pass]|]; [|done].
  destruct (String.eqb_spec pass (mn_password m)) as [->|]; [by destruct (Hr user)|done].
Qed.

(** Opening the transport is guarded. Whatever the configuration and the answers: a monitoring
    endpoint is served only with a password, so that every request without that password is refused
    before the health check or the server is consulted; a server that was started is stopped again
    when opening fails; and success means a valid configuration with ports, deliveries and
    intervals in range, and a server of its own exactly in embedded mode. *)
Theorem open_nats_guarded c password a :
  let '(r, effects) := openNATS url_Parse c password a in
  (forall m, ServeMonitor m ∈ effects ->
     mn_password m <> "" /\ mn_target m = mn_port m + 10000
     /\ forall readiness req, (forall user, mr_auth req <> Some (user, mn_password m)) ->
        monitor_handler m readiness req = Unauthorized)
  /\ (is_ok r = false -> forall o, StartServer o ∈ effects -> StopServer o ∈ effects)
  /\ (forall rt, r = Ok rt -> exists mode, ParseNATSMode (nc_Mode c) = Ok mode
       /\ 0 <= nc_Port c <= 65535 /\ 0 <= nc_MonitorPort c <= 65535 /\ 0 < nc_AckWait c /\ 1 <= nc_MaxDeliver c
       /\ match nr_server rt with
          | None => mode = NATSExternal /\ nr_url rt = nc_URL c /\ effects = []
          | Some o => mode = NATSEmbedded /\ StartServer o ∈ effects /\ StopServer o ∉ effects
          end).
Proof.
  unfold openNATS. destruct (NATSConfig_Validate url_Parse c) as [e|] eqn:Ev.
  { split_and!; [by intros ? ?%not_elem_of_nil|by intros _ ? ?%not_elem_of_nil|done]. }
  apply validate_None in Ev as (mode & Em & Hp & Hm & Hw & Hd & _ & _ & _). rewrite Em.
  assert (Hmode : mode = NATSExternal \/ mode = NATSEmbedded).
  { unfold ParseNATSMode in Em. destruct (String.eqb_spec (ToLower (TrimSpace (nc_Mode c))) NATSExternal) as [E|];
      [|destruct (String.eqb_spec (ToLower (TrimSpace (nc_Mode c))) NATSEmbedded) as [E|]];
      cbn in Em; simplify_eq; auto. }
  destruct (String.eqb_spec mode NATSExternal) as [->|Hne].
  { destruct (na_Connect a (nc_URL c)); (split_and!; [by intros ? ?%not_elem_of_nil|by intros _ ? ?%not_elem_of_nil|]);
      [done|]. intros rt [= <-]. by exists NATSExternal. }
  destruct Hmode as [->| ->]; [done|].
  unfold monitor_options.
  destruct (0 <? nc_MonitorPort c), (String.eqb_spec password "") as [|Hpw];
    try (split_and!; [by intros ? ?%not_elem_of_nil|by intros _ ? ?%not_elem_of_nil|done]);
    (destruct (na_NewServer a _); [|destruct (na_ready a); [destruct (na_Connect a (na_ClientURL a))|]]; cbn [negb app]);
    (split_and!;
      [ intros m Hin; rewrite ?elem_of_cons, ?elem_of_nil in Hin; repeat destruct Hin as [Hin|Hin]; simplify_eq;
        (split_and!; [done|done|]); intros readiness req; apply monitor_refuses
      | intros Hr o; cbn in Hr; try done; rewrite ?elem_of_cons, ?elem_of_nil; naive_solver
      | intros rt Hr; simplify_eq; exists NATSEmbedded; cbn [nr_server]; split_and!; try done; try lia;
        rewrite ?elem_of_cons, ?elem_of_nil; naive_solver ]).
Qed.

(** When the stream check passes, the daemon consumes from a stream that covers every document
    subject under work-queue retention, whether it existed or was just created; a stream is created
    only in embedded mode, and one that exists is never changed. *)
Theorem ensure_stream_guarantee mode info add tried : ensureStream mode info add = (None, tried) ->
  exists cfg, SubjectAll ∈ st_Subjects cfg /\ st_Retention cfg = WorkQueuePolicy
    /\ ((info = Ok (Some cfg) /\ tried = None)
        \/ (is_ok info = false /\ mode = NATSEmbedded /\ tried = Some cfg /\ add cfg = None)).
Proof.
  unfold ensureStream. destruct info as [[cfg|]|e].
  - case_bool_decide as Er; [|done]. cbn [negb]. destruct (existsb _ _) eqn:Ex; [|done]. intros [= <-].
    exists cfg. split_and!; [|done|by left].
    apply existsb_exists in Ex as (s & Hs & ->%String.eqb_eq). by apply list_elem_of_In.
  - done.
  - destruct (String.eqb_spec mode NATSEmbedded) as [->|]; [|done].
    destruct (add stream_wanted) eqn:Ea; [done|]. intros [= <-]. exists stream_wanted.
    split_and!; [left|done|by right].
Qed.
End theorems.

Lemma ensure_stream_guarantee_witness :
  ensureStream NATSEmbedded (Err (NewError "nats: stream not found")) (fun _ => None) = (None, Some stream_wanted)
  /\ SubjectAll ∈ st_Subjects stream_wanted.
Proof.
  split; [reflexivity|].
  destruct (ensure_stream_guarantee NATSEmbedded (Err (NewError "nats: stream not found")) (fun _ => None)
              (Some stream_wanted) eq_refl) as (cfg & Hs & _ & [[Hc _]|(_ & _ & Hc & _)]); [discriminate Hc|].
  injection Hc as <-. exact Hs.
Defined.

(** A monitoring port that the validation accepts and whose internal port does
    not exist. *)
Example internal_port_out_of_range :
  let c := mkNATSConfig "embedded" "" 4222 60000 "./nats-data" 1 1 1 in
  NATSConfig_Validate (fun _ => None) c = None
  /\ match monitor_options c "secret" with Ok (o, _) => so_HTTPPort o = 70000 | Err _ => False end.
Proof. split; reflexivity. Qed.
