(* ===== verification/Main.v ===== *)
(** * The daemon's process ([main] of [cmd/daemon/main.go])

    From flags and environment to the shutdown: every check that may end the
    process, in its order, and what is closed at the end. The reconciler's work
    in between is that of [Lifetime]. A fatal error ends the process at once,
    without the deferred calls. *)

From S2P Require Import Prelude GoStrings GoText Models GoErrors Message Config Secutil Startup.
Local Open Scope Z_scope.

(** The flags after [flag.Parse]; durations are in nanoseconds. *)
Record main_flags : Type := mkMainFlags {
  mf_db : db_flags;
  mf_natsMode : string; mf_natsURL : string; mf_natsPort : Z; mf_natsMonPort : Z; mf_natsDataDir : string;
  mf_natsAckWait : Z; mf_natsMaxDeliver : Z; mf_interval : Z
}.

Definition default_main_flags (env : string -> string) : main_flags :=
  mkMainFlags (mkDbFlags "" "" "" "" "" "" "3306" "zatca_master")
    (envOrDefault env "NATS_MODE" NATSExternal) (envOrDefault env "NATS_URL" "") 4222 0 "./nats-data"
    (5 * 60 * 10 ^ 9) 10 (60 * 10 ^ 9).

Definition nats_config (mode : NATSMode) (fl : main_flags) : NATSConfig :=
  mkNATSConfig mode (mf_natsURL fl) (mf_natsPort fl) (mf_natsMonPort fl) (mf_natsDataDir fl)
    (mf_natsAckWait fl) (mf_natsMaxDeliver fl) (mf_interval fl).

(** [readiness]: before the reconciler exists nothing is ready. *)
Definition main_readiness (reconciler : option (option error)) : option error :=
  match reconciler with
  | None => Some (NewError "daemon reconciliation has not started")
  | Some checked => checked
  end.

(** [natsRuntime.close] of an open runtime. *)
Inductive close_effect : Type := Drain | CloseConn | ShutdownServer | WaitForShutdown.
Definition nats_close (rt : nats_runtime) : list close_effect :=
  [Drain; CloseConn] ++ match nr_server rt with Some _ => [ShutdownServer; WaitForShutdown] | None => [] end.

(** What the process does, in order. *)
Inductive main_step : Type :=
| OpenNATS (c : NATSConfig) (effects : list nats_effect)
| CheckStream (created : option stream_config)
| OpenMaster (dsn : string)
| Reconcile (base admin : string) (key : Key) (ackWait maxDeliver : Z)
| Loop (interval : Z)
| Stop
| CloseMaster
| CloseNATS (effects : list close_effect).

(** What the outside answers: NATS, [JetStream], [StreamInfo] and [AddStream],
    [sql.Open] and the first reconciliation. *)
Record main_answers : Type := mkMainAnswers {
  ma_nats : nats_answers;
  ma_jetstream : option error;
  ma_info : result error (option stream_config);
  ma_add : stream_config -> option error;
  ma_open : string -> option error;
  ma_reconcile : option error
}.

Section main.
Context (mysql_FormatDSN : string -> string -> string -> string -> string -> string)
        (url_Parse : string -> option (string * string)).

(** Checks of the flags: connection strings, key and transport. *)
Definition main_config (env : string -> string) (fl : main_flags)
    : result string (string * string * string * Key * NATSMode * NATSConfig) :=
  match daemon_dsns mysql_FormatDSN env (mf_db fl) with
  | None => Err "Database connection required: use --master-dsn/--base-dsn OR --db-user/--db-pass/--db-host"
  | Some (master, base, admin) =>
      match NewKey (env "ENCRYPT_KEY") with
      | Err e => Err ("ENCRYPT_KEY is required: " +:+ error_text e +:+ " (generate with: openssl rand -base64 32)")
      | Ok key =>
          match ParseNATSMode (mf_natsMode fl) with
          | Err e => Err (error_text e)
          | Ok mode => Ok (master, base, admin, key, mode, nats_config mode fl)
          end
      end
  end.

(** The steps, and the text of the fatal error or the shutdown after a signal. *)
Definition daemon_main (env : string -> string) (fl : main_flags) (a : main_answers)
    : list main_step * result string unit :=
  match main_config env fl with
  | Err text => ([], Err text)
  | Ok (master, base, admin, key, mode, c) =>
      let '(r, effects) := openNATS url_Parse c (env "MONITOR_PASS") (ma_nats a) in
      let steps := [OpenNATS c effects] in
      match r with
      | Err e => (steps, Err ("NATS startup: " +:+ error_text e))
      | Ok rt =>
          match ma_jetstream a with
          | Some e => (steps, Err ("jetstream: " +:+ error_text e))
          | None =>
              let '(r, created) := ensureStream mode (ma_info a) (ma_add a) in
              let steps := steps ++ [CheckStream created] in
              match r with
              | Some e => (steps, Err ("ZATCA stream: " +:+ error_text e))
              | None =>
                  let steps := steps ++ [OpenMaster master] in
                  match ma_open a master with
                  | Some e => (steps, Err ("open master db: " +:+ error_text e))
                  | None =>
                      let steps := steps ++ [Reconcile base admin key (mf_natsAckWait fl) (mf_natsMaxDeliver fl)] in
                      match ma_reconcile a with
                      | Some e => (steps, Err ("initial tenant reconciliation: " +:+ error_text e))
                      | None =>
                          (steps ++ [Loop (mf_interval fl); Stop; CloseMaster; CloseNATS (nats_close rt)], Ok tt)
                      end
                  end
              end
          end
      end
  end.

(** ** The order of the start *)

(** The reconciliation is not among these steps. *)
Ltac no_step H :=
  cbn [fst app] in H; rewrite ?elem_of_cons, ?elem_of_nil in H; repeat destruct H as [H|H]; done.

(** Documents are served only after every check: a valid key, a valid transport
    configuration with a delivery limit of at least one, and a stream that
    covers all documents under work-queue retention. *)
Theorem serving_is_checked env fl a base admin key ackWait maxDeliver :
  Reconcile base admin key ackWait maxDeliver ∈ (daemon_main env fl a).1 ->
  base <> "" /\ NewKey (env "ENCRYPT_KEY") = Ok key /\ 0 < ackWait /\ 1 <= maxDeliver
  /\ exists mode, ParseNATSMode (mf_natsMode fl) = Ok mode
       /\ NATSConfig_Validate url_Parse (nats_config mode fl) = None
       /\ (ensureStream mode (ma_info a) (ma_add a)).1 = None.
Proof.
  unfold daemon_main, main_config.
  destruct (daemon_dsns _ env (mf_db fl)) as [[[master base0] admin0]|] eqn:Edsn; [|by intros ?%elem_of_nil].
  destruct (NewKey (env "ENCRYPT_KEY")) as [key0|]; [|by intros ?%elem_of_nil].
  destruct (ParseNATSMode (mf_natsMode fl)) as [mode|] eqn:Em; [|by intros ?%elem_of_nil].
  assert (Hbase : base0 <> "").
  { unfold daemon_dsns in Edsn. cbv zeta in Edsn. destruct (_ || _) eqn:E in Edsn; [done|].
    injection Edsn as _ <- _. apply orb_false_iff in E as [_ E]. by apply String.eqb_neq in E. }
  destruct (openNATS _ _ _ _) as [r effects] eqn:Eo. intros Hin.
  assert (Hv : is_ok r = true -> NATSConfig_Validate url_Parse (nats_config mode fl) = None).
  { intros Hr. unfold openNATS in Eo. destruct (NATSConfig_Validate _ _); [|done]. by simplify_eq. }
  destruct r as [rt|]; [|no_step Hin].
  specialize (Hv eq_refl). destruct (ma_jetstream a); [no_step Hin|].
  destruct (ensureStream mode (ma_info a) (ma_add a)) as [[e|] created] eqn:Es;
    [no_step Hin|].
  destruct (validate_None _ _ Hv) as (_ & _ & _ & _ & Ha & Hm & _).
  cbn [nats_config nc_AckWait nc_MaxDeliver] in Ha, Hm.
  destruct (ma_open a master); [|destruct (ma_reconcile a)];
    cbn [fst app] in Hin; rewrite ?elem_of_cons, ?elem_of_nil in Hin;
    repeat destruct Hin as [Hin|Hin]; simplify_eq; try done;
    (split_and!; [done..|by exists mode; rewrite Es]).
Qed.
End main.

(** A process in external mode from its start to its shutdown. *)
Example main_runs_through :
  let env key := if String.eqb key "ENCRYPT_KEY" then "MDEyMzQ1Njc4OTAxMjM0NTY3ODkwMTIzNDU2Nzg5MDE="
                 else if String.eqb key "NATS_URL" then "nats://queue:4222" else "" in
  let fl := default_main_flags env in
  let fl := mkMainFlags (mkDbFlags "" "" "" "app" "secret" "db" "3306" "zatca_master") (mf_natsMode fl)
    (mf_natsURL fl) (mf_natsPort fl) (mf_natsMonPort fl) (mf_natsDataDir fl) (mf_natsAckWait fl)
    (mf_natsMaxDeliver fl) (mf_interval fl) in
  let '(steps, r) := daemon_main (fun user _ net addr db => user +:+ "@" +:+ net +:+ "(" +:+ addr +:+ ")/" +:+ db)
    (fun _ => Some ("nats", "queue:4222")) env fl
    (mkMainAnswers (mkNatsAnswers (fun _ => None) (fun _ => None) true "") None (Ok (Some stream_wanted))
       (fun _ => None) (fun _ => None) None) in
  (length steps, r, List.last steps Stop) = (8%nat, Ok tt, CloseNATS [Drain; CloseConn]).
Proof. by vm_compute. Qed.
