(* ===== verification/Bill.v ===== *)
(** * The fiscal pipeline of a sale ([processor/bill.go], [processor/types.go])

    [Prepare] verifies a bill, [Build] turns it into a signed invoice under a
    booking, [Submit] sends a committed invoice and classifies the answer. A
    [sql.Null...] column is an option. The database, the signing tool and the
    HTTP client are functions that answer. *)

From S2P Require Import Prelude GoStrings Models GoErrors Uuid Message ChainTypes Config.
From S2P Require Import Json Unmarshal Civil Dates Float64 Invoice Xml.
Local Open Scope Z_scope.
Local Open Scope go_scope.

(** ** Rows *)

Record ProductRow : Type := mkProductRow {
  pr_ProductID : option Z;
  pr_Name : option string;
  pr_Price : option float64;
  pr_Quantity : option float64;
  pr_VAT : option float64;
  pr_Discount : option float64;
  pr_TotalBeforeVAT : option float64;
  pr_VATTotal : option float64;
  pr_TotalIncludingVAT : option float64
}.

Definition PriceOrZero (p : ProductRow) : float64 := default f_zero (pr_Price p).
Definition QuantityOrZero (p : ProductRow) : float64 := default (f_int 1) (pr_Quantity p).
Definition VATOrZero (p : ProductRow) : float64 := default (f_int 15) (pr_VAT p).

Record BillRow : Type := mkBillRow {
  bl_ID : Z; bl_BranchID : Z; bl_CompanyID : Z;
  bl_URL : option string; bl_EffectiveDate : option string; bl_PaymentDue : option string;
  bl_SeqNumber : option string; bl_PaymentMethod : option string; bl_UserName : option string;
  bl_CompanyName : option string; bl_VATReg : option string; bl_AddressName : option string;
  bl_BuyerName : option string; bl_BuyerCompany : option string; bl_BuyerVAT : option string;
  bl_BuyerAddress : option string; bl_BuyerStreet : option string; bl_BuyerBuilding : option string;
  bl_BuyerDistrict : option string; bl_BuyerCity : option string; bl_BuyerPostalCode : option string;
  bl_BuyerCountry : option string; bl_BuyerSchemeID : option string;
  bl_BuyerRegistration : option string;
  bl_State : Z;
  bl_InvoiceUUID : option string
}.

(** [x.Valid && x.String != ""]. *)
Definition filled (x : option string) : option string :=
  match x with Some s => if String.eqb s "" then None else Some s | None => None end.

(** ** The ZATCA service of a branch *)

Record Service : Type := mkService {
  sv_SignInvoice : string -> result error (string * string);
  sv_GenerateAPIRequest : string -> result error string;
  sv_GenerateQR : string -> result error string;
  sv_ClearInvoice : InvoiceRequest -> result error (option InvoiceResponse);
  sv_ReportInvoice : InvoiceRequest -> result error (option InvoiceResponse)
}.

Definition apiRequest (svc : Service) (signedXML : string) : result error InvoiceRequest :=
  match sv_GenerateAPIRequest svc signedXML with
  | Err e => Err (Wrap "generate API request: " e "")
  | Ok apiJSON =>
      match json_unmarshal request_fields request0 apiJSON with
      | Err e => Err (Wrap "parse API request: " (NewError (json_error_text e)) "")
      | Ok req => Ok req
      end
  end.

(** ** Verification of a bill *)

Definition finalizedInvoiceID (b : BillRow) : string :=
  match bl_SeqNumber b with
  | None => ""
  | Some seq =>
      match ParseUint (TrimSpace seq) with
      | Some value => if value =? 0 then "" else "INV-" +:+ itoa value
      | None => ""
      end
  end.

(** The lines are numbered from [i]. *)
Fixpoint verify_lines (i : Z) (products : list ProductRow) : option error :=
  match products with
  | [] => None
  | p :: rest => (
      guard! f_leb (QuantityOrZero p) f_zero
        else NewError ("line " +:+ itoa i +:+ " has no positive quantity") ;;
      guard! f_ltb (PriceOrZero p) f_zero
        else NewError ("line " +:+ itoa i +:+ " has a negative price") ;;
      verify_lines (i + 1) rest)%go
  end.

Definition verifyBill (cfg : Config) (msg : Message) (bill : BillRow) (products : list ProductRow)
    : option error := (
  guard! negb (bl_BranchID bill =? BranchID msg)
    else NewError ("the bill belongs to branch " +:+ itoa (bl_BranchID bill) +:+ ", not "
                   +:+ itoa (BranchID msg)) ;;
  guard! bl_State bill <? 1
    else NewError ("the bill is not a final sale (state " +:+ itoa (bl_State bill) +:+ ")") ;;
  guard! String.eqb (finalizedInvoiceID bill) ""
    else NewError "the bill has no finalized invoice sequence" ;;
  guard! match bl_InvoiceUUID bill with Some u => negb (String.eqb u (InvoiceUUID msg)) | None => false end
    else NewError "the bill carries another invoice UUID" ;;
  guard! String.eqb (sl_VAT (cg_Seller cfg)) "" else NewError "the branch has no seller VAT number" ;;
  guard! String.eqb (cg_EGSID cfg) ""
    else NewError "the branch has no EGS id: onboard the branch first" ;;
  guard! match products with [] => true | _ => false end else NewError "the bill has no lines" ;;
  verify_lines 1 products)%go.

(** ** The invoice of a bill *)

Definition paymentMeans (b : BillRow) : string := default PaymentCash (filled (bl_PaymentMethod b)).

(** [if x.Valid && x.String != "" { field = x.String }]. *)
Definition or_field (x : option string) (field : string) : string := default field (filled x).

Definition buildCustomer (b : BillRow) (isStandard : bool) : Party :=
  let name := match bl_UserName b with Some s => s | None => "Customer" end in
  if isStandard then
    mkParty
      (match filled (bl_BuyerCompany b) with
       | Some s => s
       | None => or_field (bl_BuyerName b) name
       end) ""
      (null_str (bl_BuyerVAT b))
      (or_field (bl_BuyerSchemeID b) "")
      (or_field (bl_BuyerRegistration b) "")
      (match filled (bl_BuyerStreet b) with
       | Some s => s
       | None => or_field (bl_BuyerAddress b) ""
       end)
      (or_field (bl_BuyerBuilding b) "") (or_field (bl_BuyerDistrict b) "") (or_field (bl_BuyerCity b) "")
      (or_field (bl_BuyerPostalCode b) "") (or_field (bl_BuyerCountry b) "SA")
  else mkParty name "" "" "" "" "" "" "" "" "" "SA".

Definition lineName (p : ProductRow) : string :=
  match filled (pr_Name p) with
  | Some s => s
  | None => match pr_ProductID p with
            | Some id => "product-" +:+ itoa id
            | None => "product"
            end
  end.

Fixpoint lines_from (i : Z) (products : list ProductRow) : list LineItem :=
  match products with
  | [] => []
  | p :: rest =>
      mkLineItem (itoa i) (lineName p) (QuantityOrZero p) "PCE" (PriceOrZero p) f_zero TaxStandard
        (VATOrZero p) :: lines_from (i + 1) rest
  end.
Definition buildLines (products : list ProductRow) : list LineItem := lines_from 1 products.

Definition is_standard_bill (b : BillRow) : bool :=
  match filled (bl_BuyerVAT b) with Some _ => true | None => false end.

Definition supplier_of (s : SellerInfo) : Party :=
  mkParty (sl_Name s) (sl_NameAR s) (sl_VAT s) (sl_CRN s) (sl_CRN s) (sl_Street s) (sl_Building s)
    (sl_District s) (sl_City s) (sl_PostalCode s) (sl_Country s).

(** [int(booking.ICV)] of a [uint64] keeps the bits. *)
Definition buildBillInvoice (cfg : Config) (b : BillRow) (products : list ProductRow)
    (issueTime : civil) (booking : Booking) : Invoice :=
  let isStandard := is_standard_bill b in
  mkInvoice (finalizedInvoiceID b) (bk_UUID booking) issueTime issueTime TypeInvoice
    (if isStandard then SubTypeStandard else SubTypeSimplified) "SAR" "SAR" "" ""
    (supplier_of (cg_Seller cfg)) (buildCustomer b isStandard) zero_time (paymentMeans b) "" ""
    f_zero "" f_zero (buildLines products) (bk_PIH booking) (i64 (bk_ICV booking)) "".

(** ** [Prepare] and [Build] *)

Record billDocument : Type := mkBillDocument {
  bd_svc : Service;
  bd_cfg : Config;
  bd_bill : BillRow;
  bd_products : list ProductRow;
  bd_issueTime : civil
}.

(** [service], [bill] and [products] are what [p.Service], [QueryBillByID] and
    [LoadProducts] answer. *)
Definition Prepare (now : civil) (service : Z -> result error (Service * Config))
    (QueryBillByID : Z -> result error BillRow) (LoadProducts : Z -> result error (list ProductRow))
    (msg : Message) : result error billDocument :=
  match service (BranchID msg) with
  | Err e => Err e
  | Ok (svc, cfg) =>
      match QueryBillByID (ID msg) with
      | Err e =>
          if errors_is ErrNoRows e
          then Err (Wrap "" (Sentinel ErrRejectedInput) (": bill " +:+ itoa (ID msg) +:+ " does not exist"))
          else Err e
      | Ok bill =>
          match LoadProducts (ID msg) with
          | Err e => Err (Wrap ("load products failed for bill " +:+ itoa (ID msg) +:+ ": ") e "")
          | Ok products =>
              let rejected e :=
                Err (Wrap "" (Sentinel ErrRejectedInput)
                       (": bill " +:+ itoa (ID msg) +:+ ": " +:+ error_text e)) in
              match verifyBill cfg msg bill products with
              | Some e => rejected e
              | None =>
                  match ParseDates now (bl_EffectiveDate bill) (bl_PaymentDue bill) (bl_ID bill) with
                  | Err e => rejected e
                  | Ok issueTime => Ok (mkBillDocument svc cfg bill products issueTime)
                  end
              end
          end
      end
  end.

Definition Build (d : billDocument) (booking : Booking) : result error SignedInvoice :=
  let b := bd_bill d in
  let inv := buildBillInvoice (bd_cfg d) b (bd_products d) (bd_issueTime d) booking in
  match ToXML inv with
  | Err e => Err (Wrap ("build XML of bill " +:+ itoa (bl_ID b) +:+ ": ") (NewError e) "")
  | Ok xmlStr =>
      match sv_SignInvoice (bd_svc d) xmlStr with
      | Err e => Err (Wrap ("sign bill " +:+ itoa (bl_ID b) +:+ ": ") e "")
      | Ok (signedXML, hash) =>
          match apiRequest (bd_svc d) signedXML with
          | Err e => Err e
          | Ok apiReq =>
              if negb (String.eqb (req_uuid apiReq) (bk_UUID booking))
              then Err (NewError ("signed bill " +:+ itoa (bl_ID b) +:+ " carries UUID "
                                  +:+ req_uuid apiReq +:+ ", not the booked " +:+ bk_UUID booking))
              else
                let invoiceHash := orDefault (req_invoiceHash apiReq) hash in
                if String.eqb invoiceHash ""
                then Err (NewError ("signed bill " +:+ itoa (bl_ID b) +:+ " has no invoice hash"))
                else match sv_GenerateQR (bd_svc d) signedXML with
                     | Err e => Err (Wrap ("QR code of bill " +:+ itoa (bl_ID b) +:+ ": ") e "")
                     | Ok qr =>
                         Ok (mkSigned (bl_ID b) (bk_BranchID booking) (bk_UUID booking) (bk_ICV booking)
                               (bk_PIH booking) invoiceHash
                               (if IsStandard inv then InvoiceStandard else InvoiceSimplified)
                               signedXML qr "" "" "" "" "")
                     end
          end
      end
  end.
