(* ===== verification/Submit.v ===== *)
(** * Sending a committed invoice ([processor/bill.go])

    [Submit] and the classification of what ZATCA answers: an answer of the
    2xx range can still refuse the invoice, a 208 or 409 is ambiguous unless
    its body proves success, other 4xx answers reject, and everything else is
    technical. *)

From S2P Require Import Prelude GoStrings Models GoErrors Uuid Message ChainTypes Config.
From S2P Require Import Json Unmarshal Civil Dates Float64 Invoice Xml Bill.
Local Open Scope Z_scope.
Local Open Scope go_scope.

Definition joinTexts {T} (items : list T) (text : T -> string) : string := Join (map text items) "; ".
Definition errorText (errs : list ErrorDetail) : string := joinTexts errs detail_message.
Definition validationText (messages : list ValidationMessage) : string := joinTexts messages vm_message.

Definition successStatus (kind : string) : string :=
  if String.eqb kind InvoiceStandard then "CLEARED"
  else if String.eqb kind InvoiceSimplified then "REPORTED" else "".

Definition providerStatus (kind : string) (resp : InvoiceResponse) : string :=
  if String.eqb kind InvoiceStandard && negb (String.eqb (resp_clearanceStatus resp) "")
  then resp_clearanceStatus resp
  else if negb (String.eqb kind InvoiceStandard) && String.eqb kind InvoiceSimplified
          && negb (String.eqb (resp_reportingStatus resp) "")
  then resp_reportingStatus resp
  else resp_status resp.

(** [queue.Outcome{State, ProviderCode, Message}]. *)
Definition outcome_of (state code message : string) : Outcome := mkOutcome state code message "" "".

(** The error and warning messages of the validation results, if there are any. *)
Definition result_errors (resp : InvoiceResponse) : list ValidationMessage :=
  match resp_validationResults resp with Some vr => errorMessages vr | None => [] end.
Definition result_warnings (resp : InvoiceResponse) : list ValidationMessage :=
  match resp_validationResults resp with Some vr => warningMessages vr | None => [] end.

Definition responseOutcome (kind : string) (resp : InvoiceResponse) : Outcome :=
  match resp_errors resp with
  | first :: _ =>
      outcome_of OutcomeRejected (detail_code first)
        (orDefault (errorText (resp_errors resp)) "provider returned top-level errors")
  | [] =>
      match result_errors resp with
      | first :: _ =>
          outcome_of OutcomeRejected (vm_code first)
            (orDefault (validationText (result_errors resp)) "provider returned validation errors")
      | [] =>
          let want := successStatus kind in
          if String.eqb want ""
          then outcome_of OutcomeRejected (resp_status resp) ("unsupported invoice kind " +:+ quote kind)
          else
            let status := providerStatus kind resp in
            if negb (String.eqb status want)
            then outcome_of OutcomeRejected status
                   ("the answer status " +:+ quote status +:+ " is not " +:+ want)
            else
              match resp_warnings resp with
              | warning :: _ => outcome_of OutcomeWarning (detail_code warning) (detail_message warning)
              | [] =>
                  match result_warnings resp with
                  | warning :: _ => outcome_of OutcomeWarning (vm_code warning) (vm_message warning)
                  | [] => outcome_of OutcomeAccepted "" ""
                  end
              end
      end
  end.

Definition StatusAlreadyReported : Z := 208.
Definition StatusConflict : Z := 409.

Definition isInvoiceRejection (status : Z) : bool :=
  if (status =? 401) || (status =? 403) || (status =? 408) || (status =? 429) then false
  else (400 <=? status) && (status <? 500).

Definition success_state (o : Outcome) : bool :=
  String.eqb (oc_State o) OutcomeAccepted || String.eqb (oc_State o) OutcomeWarning.

(** The answer of a 208 or 409 whose body proves that the invoice is accepted. *)
Definition proven_outcome (invoice : SignedInvoice) (status : Z) (resp : option InvoiceResponse)
    : option Outcome :=
  if (status =? StatusAlreadyReported) || (status =? StatusConflict) then
    match resp with
    | Some resp =>
        if String.eqb (si_Kind invoice) InvoiceStandard || String.eqb (si_Kind invoice) InvoiceSimplified
        then let outcome := responseOutcome (si_Kind invoice) resp in
             if success_state outcome then Some outcome else None
        else None
    | None => None
    end
  else None.

Definition ambiguous_error (invoice : SignedInvoice) (what : string) : error :=
  Wrap "" (Sentinel ErrOutcomeAmbiguous)
    (": bill " +:+ itoa (si_SourceID invoice) +:+ " (invoice " +:+ si_UUID invoice +:+ "): ZATCA already "
     +:+ what +:+ " this invoice, so the outcome needs reconciliation").

Definition rejectionOutcome (invoice : SignedInvoice) (err : error) : Outcome * option error :=
  match as_api err with
  | Some (status, body, resp) =>
      match proven_outcome invoice status resp with
      | Some outcome => (outcome, None)
      | None =>
          if status =? StatusConflict
          then (outcome_of OutcomeAmbiguous (itoa status) body, Some (ambiguous_error invoice "holds"))
          else if status =? StatusAlreadyReported
          then (outcome_of OutcomeAmbiguous (itoa status) body, Some (ambiguous_error invoice "reported"))
          else if isInvoiceRejection status
          then (outcome_of OutcomeRejected (itoa status) body, None)
          else (Outcome0, Some (Wrap "submit invoice to ZATCA: " err ""))
      end
  | None => (Outcome0, Some (Wrap "submit invoice to ZATCA: " err ""))
  end.

(** The call that carries an invoice of its kind. *)
Definition send (svc : Service) (invoice : SignedInvoice) : InvoiceRequest -> result error (option InvoiceResponse) :=
  if String.eqb (si_Kind invoice) InvoiceStandard then sv_ClearInvoice svc else sv_ReportInvoice svc.

(** [service] is what [p.Service] answers for the invoice's branch. *)
Definition Submit (service : Z -> result error (Service * Config)) (invoice : SignedInvoice)
    : Outcome * option error :=
  match SignedInvoice_Validate invoice with
  | Some e => (Outcome0, Some (Wrap ("cannot submit bill " +:+ itoa (si_SourceID invoice) +:+ ": ") e ""))
  | None =>
      match service (si_BranchID invoice) with
      | Err e => (Outcome0, Some e)
      | Ok (svc, _) =>
          match apiRequest svc (si_SignedXML invoice) with
          | Err e => (Outcome0, Some e)
          | Ok apiReq =>
              if negb (String.eqb (req_invoiceHash apiReq) "")
                 && negb (String.eqb (req_invoiceHash apiReq) (si_Hash invoice))
              then (Outcome0, Some (NewError ("stored hash of bill " +:+ itoa (si_SourceID invoice)
                                              +:+ " does not match its signed XML")))
              else
                match send svc invoice apiReq with
                | Err e => rejectionOutcome invoice e
                | Ok None =>
                    (Outcome0, Some (NewError ("ZATCA returned no response for bill "
                                               +:+ itoa (si_SourceID invoice))))
                | Ok (Some resp) => (responseOutcome (si_Kind invoice) resp, None)
                end
          end
      end
  end.

(** ** Classification *)

(** ZATCA's answer refuses the invoice: it carries errors, or lacks the success
    status of the kind. *)
Definition refused (kind : string) (resp : InvoiceResponse) : Prop :=
  resp_errors resp <> [] \/ result_errors resp <> []
  \/ successStatus kind = "" \/ providerStatus kind resp <> successStatus kind.

Definition warned (resp : InvoiceResponse) : Prop :=
  resp_warnings resp <> [] \/ result_warnings resp <> [].

(** The outcome says of the invoice what the answer [r] says. *)
Definition says (kind : string) (r : InvoiceResponse) (o : Outcome) : Prop :=
  (oc_State o = OutcomeRejected <-> refused kind r)
  /\ (oc_State o = OutcomeWarning <-> ~ refused kind r /\ warned r)
  /\ (oc_State o = OutcomeAccepted <-> ~ refused kind r /\ ~ warned r).

Lemma responseOutcome_state kind resp : says kind resp (responseOutcome kind resp).
Proof.
  unfold says, responseOutcome, refused, warned.
  destruct (resp_errors resp) as [|e1 es]; [|cbn; naive_solver].
  destruct (result_errors resp) as [|e1 es]; [|cbn; naive_solver].
  destruct (String.eqb_spec (successStatus kind) "") as [->|Hk]; [cbn; naive_solver|].
  destruct (String.eqb_spec (providerStatus kind resp) (successStatus kind)) as [E|E]; cbn [negb];
    [|cbn; naive_solver].
  destruct (resp_warnings resp); [|cbn; naive_solver].
  destruct (result_warnings resp); cbn; naive_solver.
Qed.

Lemma success_state_spec kind resp :
  success_state (responseOutcome kind resp) = true <-> ~ refused kind resp.
Proof.
  unfold responseOutcome, refused, success_state.
  destruct (resp_errors resp) as [|e1 es]; [|cbn; naive_solver].
  destruct (result_errors resp) as [|e1 es]; [|cbn; naive_solver].
  destruct (String.eqb_spec (successStatus kind) "") as [->|Hk]; [cbn; naive_solver|].
  destruct (String.eqb_spec (providerStatus kind resp) (successStatus kind)) as [E|E]; cbn [negb];
    [|cbn; naive_solver].
  destruct (resp_warnings resp); [|cbn; naive_solver].
  destruct (result_warnings resp); cbn; naive_solver.
Qed.

Definition is_ambiguous_status (status : Z) : Prop := status = StatusConflict \/ status = StatusAlreadyReported.

Lemma proven_outcome_sound invoice status resp o :
  proven_outcome invoice status resp = Some o ->
  is_ambiguous_status status
  /\ exists r, resp = Some r /\ ~ refused (si_Kind invoice) r /\ o = responseOutcome (si_Kind invoice) r.
Proof.
  unfold proven_outcome, is_ambiguous_status. intros H.
  destruct (Z.eqb_spec status StatusAlreadyReported), (Z.eqb_spec status StatusConflict);
    cbn [orb] in H; try done.
  all: destruct resp as [r|]; [|done].
  all: destruct (String.eqb (si_Kind invoice) InvoiceStandard || _); [|done].
  all: cbv zeta in H; destruct (success_state (responseOutcome (si_Kind invoice) r)) eqn:E; [|done].
  all: injection H as <-; split; [auto|]; exists r; split_and!; [done|by apply success_state_spec|done].
Qed.

(** The invoice was sent as its stored XML says, and this was the answer. *)
Definition answered (service : Z -> result error (Service * Config)) (invoice : SignedInvoice)
    (answer : result error (option InvoiceResponse)) : Prop :=
  SignedInvoice_Validate invoice = None
  /\ exists svc cfg req, service (si_BranchID invoice) = Ok (svc, cfg)
     /\ apiRequest svc (si_SignedXML invoice) = Ok req
     /\ (req_invoiceHash req = "" \/ req_invoiceHash req = si_Hash invoice)
     /\ answer = send svc invoice req.

(** What an answer says of the invoice. *)
Inductive verdict (invoice : SignedInvoice) : result error (option InvoiceResponse) -> Outcome * option error -> Prop :=
| VResponse r o : says (si_Kind invoice) r o -> verdict invoice (Ok (Some r)) (o, None)
| VNothing e : verdict invoice (Ok None) (Outcome0, Some e)
| VProven err status body r o :
    as_api err = Some (status, body, Some r) -> is_ambiguous_status status ->
    ~ refused (si_Kind invoice) r -> says (si_Kind invoice) r o ->
    verdict invoice (Err err) (o, None)
| VAmbiguous err status body resp what :
    as_api err = Some (status, body, resp) -> is_ambiguous_status status ->
    proven_outcome invoice status resp = None ->
    verdict invoice (Err err) (outcome_of OutcomeAmbiguous (itoa status) body, Some (ambiguous_error invoice what))
| VRejected err status body resp :
    as_api err = Some (status, body, resp) -> ~ is_ambiguous_status status ->
    400 <= status < 500 -> status <> 401 -> status <> 403 -> status <> 408 -> status <> 429 ->
    verdict invoice (Err err) (outcome_of OutcomeRejected (itoa status) body, None)
| VTechnical err :
    (forall status body resp, as_api err = Some (status, body, resp) ->
       ~ is_ambiguous_status status
       /\ (status = 401 \/ status = 403 \/ status = 408 \/ status = 429 \/ status < 400 \/ 500 <= status)) ->
    verdict invoice (Err err) (Outcome0, Some (Wrap "submit invoice to ZATCA: " err "")).

Lemma rejection_verdict invoice err : verdict invoice (Err err) (rejectionOutcome invoice err).
Proof.
  unfold rejectionOutcome. destruct (as_api err) as [[[status body] resp]|] eqn:E; [|by apply VTechnical; rewrite E].
  destruct (proven_outcome invoice status resp) as [o|] eqn:P.
  { apply proven_outcome_sound in P as (Hs & r & -> & Hr & ->).
    eapply VProven; [done..|apply responseOutcome_state]. }
  destruct (Z.eqb_spec status StatusConflict) as [->|H1].
  { eapply VAmbiguous; [done|by left|done]. }
  destruct (Z.eqb_spec status StatusAlreadyReported) as [->|H2].
  { eapply VAmbiguous; [done|by right|done]. }
  unfold isInvoiceRejection.
  destruct (_ || (status =? 429)) eqn:E1; [|destruct ((400 <=? status) && _) eqn:E2].
  - apply VTechnical. rewrite E. intros ??? [= <- <- <-]. split; [by intros [?|?]|]. lia.
  - eapply VRejected; [done|by intros [?|?]|lia..].
  - apply VTechnical. rewrite E. intros ??? [= <- <- <-]. split; [by intros [?|?]|]. lia.
Qed.

Lemma sent_verdict svc invoice req :
  verdict invoice (send svc invoice req)
    match send svc invoice req with
    | Err e => rejectionOutcome invoice e
    | Ok None =>
        (Outcome0, Some (NewError ("ZATCA returned no response for bill " +:+ itoa (si_SourceID invoice))))
    | Ok (Some resp) => (responseOutcome (si_Kind invoice) resp, None)
    end.
Proof. destruct (send svc invoice req) as [[r|]|e];
  [constructor; apply responseOutcome_state|constructor|apply rejection_verdict]. Qed.

(** C35: Submit says of an invoice exactly what ZATCA's answer to it says. It either fails with a
    technical error and no outcome before anything is sent, or the stored invoice was valid, its
    XML still has the committed hash and was sent by the call of its kind; then a 2xx answer is
    accepted or rejected by its content, 208 and 409 are a success only when the body proves it and
    ambiguous otherwise, other 4xx except authentication, timeout and rate limit reject, and the
    rest is technical. *)
Theorem submit_outcomes service invoice :
  (exists e, Submit service invoice = (Outcome0, Some e) /\ forall answer, ~ answered service invoice answer)
  \/ exists answer, answered service invoice answer /\ verdict invoice answer (Submit service invoice).
Proof.
  unfold Submit, answered. destruct (SignedInvoice_Validate invoice) as [e|]; [left; eexists; split; [done|by intros ? [? _]]|].
  destruct (service (si_BranchID invoice)) as [[svc cfg]|e] eqn:Es;
    [|left; eexists; split; [done|by intros ? (_ & ? & ? & ? & ? & _)]].
  destruct (apiRequest svc (si_SignedXML invoice)) as [req|e] eqn:Er;
    [|left; eexists; split; [done|]; intros ? (_ & ? & ? & ? & [= <- <-] & H & _); congruence].
  destruct (String.eqb_spec (req_invoiceHash req) "") as [H1|H1]; cbn [negb andb];
    [|destruct (String.eqb_spec (req_invoiceHash req) (si_Hash invoice)) as [H2|H2]; cbn [negb andb]].
  3: { left. eexists. split; [done|]. intros ? (_ & ? & ? & ? & [= <- <-] & H & [?|?] & _); congruence. }
  all: right; exists (send svc invoice req); (split; [split; [done|]; exists svc, cfg, req; auto|apply sent_verdict]).
Qed.
