(* ===== verification/SubmitThm.v ===== *)
(** * Submitting through the HTTP client

    [Submit] takes ZATCA's answer from [client.Client]. With the client in
    place, what reaches the classification is known: the 208 of an invoice that
    was reported before never arrives as an error. *)

From S2P Require Import Prelude GoStrings Models GoErrors Uuid Message ChainTypes Config.
From S2P Require Import Json Unmarshal JsonText Io Client Civil Dates Float64 Invoice Xml Bill Submit.
Local Open Scope Z_scope.
Local Open Scope go_scope.

(** A service whose two sending calls are those of the client. *)
Definition with_client (c : Config) (w : world) (h : list action) (svc : Service) : Service :=
  mkService (sv_SignInvoice svc) (sv_GenerateAPIRequest svc) (sv_GenerateQR svc)
    (fun r => match (ClearInvoice c r w h).1 with Ok resp => Ok (Some resp) | Err e => Err e end)
    (fun r => match (ReportInvoice c r w h).1 with Ok resp => Ok (Some resp) | Err e => Err e end).

Definition is_standard (invoice : SignedInvoice) : bool := String.eqb (si_Kind invoice) InvoiceStandard.

Lemma send_client c w h svc invoice req :
  send (with_client c w h svc) invoice req
  = match read_response response_fields response0 (submit_name (is_standard invoice))
            (w_http w h (submit_request (is_standard invoice) c req)) with
    | Ok resp => Ok (Some resp) | Err e => Err e end.
Proof.
  pose proof (submit_call_run (is_standard invoice) c req w h) as H.
  unfold send, is_standard in *. destruct (String.eqb (si_Kind invoice) InvoiceStandard);
    cbn [submit_call] in H; cbn [with_client sv_ClearInvoice sv_ReportInvoice]; by rewrite H.
Qed.

(** The committed invoice is sent under the request [req]. *)
Definition sent_as (service : Z -> result error (Service * Config)) (svc : Service) (invoice : SignedInvoice)
    (req : InvoiceRequest) : Prop :=
  SignedInvoice_Validate invoice = None
  /\ (exists cfg, service (si_BranchID invoice) = Ok (svc, cfg))
  /\ apiRequest svc (si_SignedXML invoice) = Ok req
  /\ (req_invoiceHash req = "" \/ req_invoiceHash req = si_Hash invoice).

Lemma Submit_sent service svc invoice req : sent_as service svc invoice req ->
  Submit service invoice
  = match send svc invoice req with
    | Err e => rejectionOutcome invoice e
    | Ok None => (Outcome0, Some (NewError ("ZATCA returned no response for bill " +:+ itoa (si_SourceID invoice))))
    | Ok (Some resp) => (responseOutcome (si_Kind invoice) resp, None)
    end.
Proof.
  intros (Hv & [cfg Hs] & Hr & Hh). unfold Submit. rewrite Hv, Hs, Hr.
  destruct (String.eqb_spec (req_invoiceHash req) ""); [done|].
  destruct (String.eqb_spec (req_invoiceHash req) (si_Hash invoice)); [done|]. cbn [negb andb]. tauto.
Qed.

Lemma responseOutcome_zero kind : oc_State (responseOutcome kind response0) = OutcomeRejected.
Proof.
  apply (responseOutcome_state kind response0). unfold refused, successStatus, providerStatus. cbn.
  destruct (String.eqb_spec kind InvoiceStandard) as [->|]; [by right; right; right|].
  destruct (String.eqb_spec kind InvoiceSimplified) as [->|]; [by right; right; right|by right; right; left].
Qed.

Lemma responseOutcome_states kind resp :
  oc_State (responseOutcome kind resp) ∈ [OutcomeRejected; OutcomeWarning; OutcomeAccepted].
Proof.
  unfold responseOutcome. repeat split_match; cbn; set_solver.
Qed.

(** C21: The ambiguity of a repeated invoice is lost in the client: every 2xx answer is decoded as a
    success, so a 208 (already reported) never reaches the classification that would call it
    ambiguous. Whatever a 2xx answer holds, the outcome is rejected, warning or accepted without an
    error, and the 208 with an empty body is recorded as a rejection of the invoice. *)
Theorem already_reported_rejected service c w h svc invoice req status body :
  sent_as service (with_client c w h svc) invoice req ->
  w_http w h (submit_request (is_standard invoice) c req) = Ok (mkResponse status (Ok body)) ->
  200 <= status < 300 ->
  let '(o, err) := Submit service invoice in
  oc_State o <> OutcomeAmbiguous
  /\ (forall e, err = Some e -> errors_is ErrOutcomeAmbiguous e = false)
  /\ (body = "" -> oc_State o = OutcomeRejected /\ err = None).
Proof.
  intros Hs Hw Hst. rewrite (Submit_sent _ _ _ _ Hs), send_client, Hw. cbn [read_response].
  replace ((200 <=? status) && (status <? 300)) with true by lia.
  assert (Hne : forall r, oc_State (responseOutcome (si_Kind invoice) r) <> OutcomeAmbiguous).
  { intros r. pose proof (responseOutcome_states (si_Kind invoice) r) as H. intros E. rewrite E in H.
    repeat (apply elem_of_cons in H as [H|H]; [done|]). by apply elem_of_nil in H. }
  destruct (String.eqb_spec body "") as [->|Hb].
  - split_and!; [apply Hne|done|]. intros _. split; [apply responseOutcome_zero|done].
  - destruct (json_unmarshal response_fields response0 body) as [r|e].
    + split_and!; [apply Hne|done|done].
    + cbn. unfold rejectionOutcome. cbn. split_and!; [done| |done]. by intros e' [= <-].
Qed.

Definition sample_signed : SignedInvoice :=
  mkSigned 5 1 "b7a51234-0000-4000-8000-000000000001" 1 "pih" "hash==" InvoiceSimplified "<Invoice/>" "qr" "" "" "" "" "".
Definition sample_service : Service :=
  mkService (fun x => Ok (x, "hash==")) (fun _ => Ok (json_encode (InvoiceRequest_json sample_request)))
    (fun _ => Ok "qr") (fun _ => Ok None) (fun _ => Ok None).
Definition reported_before : world :=
  mkWorld (fun _ _ => Ok (mkResponse 208 (Ok ""))) (fun _ _ => ("", "", None)).

Lemma already_reported_rejected_witness :
  let svc := with_client sample_config reported_before [] sample_service in
  let '(o, err) := Submit (fun _ => Ok (svc, sample_config)) sample_signed in
  oc_State o = OutcomeRejected /\ err = None.
Proof.
  pose proof (already_reported_rejected
    (fun _ => Ok (with_client sample_config reported_before [] sample_service, sample_config))
    sample_config reported_before [] sample_service sample_signed sample_request 208 "") as H.
  cbv zeta. destruct (Submit _ sample_signed) as [o err]. apply H.
  - split_and!; [by vm_compute|by eexists|by vm_compute|right; by vm_compute].
  - reflexivity.
  - lia.
  - reflexivity.
Defined.
