(* ===== verification/BillThm.v ===== *)
(** * From a verified bill to a signed invoice

    A bill that [Prepare] lets through can be built under any booking whose
    previous hash holds no markup: the document is produced, it is well-formed
    whatever the texts of the bill, and the signed invoice passes the ordered stream's checks. *)

From S2P Require Import Prelude GoStrings Base64 Models GoErrors Uuid Message Decimal ChainTypes Config.
From S2P Require Import Json Unmarshal Civil Dates Float64 Invoice Xml XmlSpec Bill.
From S2P Require Import Claims Program Stream.
Local Open Scope Z_scope.

(** ** What [Prepare] guarantees *)

Record verified (cfg : Config) (msg : Message) (b : BillRow) (products : list ProductRow) : Prop := {
  vf_branch : bl_BranchID b = BranchID msg;
  vf_final : 1 <= bl_State b;
  vf_sequence : exists s n, bl_SeqNumber b = Some s /\ ParseUint (TrimSpace s) = Some n /\ n <> 0
                            /\ finalizedInvoiceID b = "INV-" +:+ itoa n;
  vf_uuid : forall u, bl_InvoiceUUID b = Some u -> u = InvoiceUUID msg;
  vf_vat : sl_VAT (cg_Seller cfg) <> "";
  vf_egs : cg_EGSID cfg <> "";
  vf_lines : products <> [];
  vf_amounts : Forall (fun p => f_leb (QuantityOrZero p) f_zero = false
                                /\ f_ltb (PriceOrZero p) f_zero = false) products
}.

Lemma verify_lines_None i products : verify_lines i products = None ->
  Forall (fun p => f_leb (QuantityOrZero p) f_zero = false /\ f_ltb (PriceOrZero p) f_zero = false) products.
Proof.
  revert i. induction products as [|p rest IH]; intros i H; [constructor|]. cbn [verify_lines] in H.
  destruct (f_leb _ _) eqn:E1; [done|]. destruct (f_ltb (PriceOrZero p) f_zero) eqn:E2; [done|].
  constructor; [done|by eapply IH].
Qed.

Lemma finalized_nonempty b : finalizedInvoiceID b <> "" ->
  exists s n, bl_SeqNumber b = Some s /\ ParseUint (TrimSpace s) = Some n /\ n <> 0
              /\ finalizedInvoiceID b = "INV-" +:+ itoa n.
Proof.
  unfold finalizedInvoiceID. destruct (bl_SeqNumber b) as [s|]; [|done].
  destruct (ParseUint (TrimSpace s)) as [n|] eqn:E; [|done].
  destruct (Z.eqb_spec n 0); [done|]. intros _. by exists s, n.
Qed.

Lemma verifyBill_verified cfg msg b products :
  verifyBill cfg msg b products = None -> verified cfg msg b products.
Proof.
  unfold verifyBill. intros H.
  destruct (Z.eqb_spec (bl_BranchID b) (BranchID msg)) as [Hb|]; cbn [negb] in H; [|done].
  destruct (Z.ltb_spec (bl_State b) 1) as [|Hs]; [done|].
  destruct (String.eqb_spec (finalizedInvoiceID b) "") as [|Hf]; [done|].
  destruct (match bl_InvoiceUUID b with Some _ => _ | None => false end) eqn:Hu; [done|].
  destruct (String.eqb_spec (sl_VAT (cg_Seller cfg)) "") as [|Hv]; [done|].
  destruct (String.eqb_spec (cg_EGSID cfg) "") as [|He]; [done|].
  destruct products as [|p rest]; [done|]. split; try done.
  - by apply finalized_nonempty.
  - intros u E. rewrite E in Hu. by apply negb_false_iff, String.eqb_eq in Hu.
  - by eapply verify_lines_None.
Qed.

Lemma Prepare_verified now service query load msg d :
  Prepare now service query load msg = Ok d ->
  service (BranchID msg) = Ok (bd_svc d, bd_cfg d) /\ query (ID msg) = Ok (bd_bill d)
  /\ load (ID msg) = Ok (bd_products d)
  /\ verified (bd_cfg d) msg (bd_bill d) (bd_products d)
  /\ ParseDates now (bl_EffectiveDate (bd_bill d)) (bl_PaymentDue (bd_bill d)) (bl_ID (bd_bill d))
     = Ok (bd_issueTime d).
Proof.
  unfold Prepare. destruct (service (BranchID msg)) as [[svc cfg]|]; [|done].
  destruct (query (ID msg)) as [bill|e]; [|by destruct (errors_is ErrNoRows e)].
  destruct (load (ID msg)) as [products|]; [|done].
  destruct (verifyBill cfg msg bill products) eqn:Ev; [done|].
  destruct (ParseDates _ _ _ _) eqn:Ed; [|done]. intros [= <-]. cbn.
  split_and!; try done. by apply verifyBill_verified.
Qed.

(** ** The document of a verified bill *)

Lemma filled_nonempty x s : filled x = Some s -> x = Some s /\ s <> "".
Proof.
  unfold filled. destruct x as [t|]; [|done]. destruct (String.eqb_spec t ""); [done|].
  by intros [= <-].
Qed.

Lemma lines_from_spec i products :
  length (lines_from i products) = length products
  /\ Forall (fun l => plain (ln_UnitCode l) = true /\ plain (ln_TaxCategory l) = true) (lines_from i products).
Proof.
  revert i. induction products as [|p rest IH]; intros i; [by split|]. cbn [lines_from length].
  destruct (IH (i + 1)) as [E F]. split; [by rewrite E|]. by constructor.
Qed.

Lemma standard_customer b : is_standard_bill b = true -> pt_VAT (buildCustomer b true) <> "".
Proof.
  unfold is_standard_bill. destruct (filled (bl_BuyerVAT b)) as [v|] eqn:E; [|done]. intros _.
  apply filled_nonempty in E as [E Hv]. cbn. by rewrite E.
Qed.

Lemma bill_invoice_valid cfg msg b products t booking :
  verified cfg msg b products -> bk_UUID booking <> "" -> bk_PIH booking <> "" ->
  validate (buildBillInvoice cfg b products t booking) = None.
Proof.
  intros Hv Hu Hp. destruct (vf_sequence _ _ _ _ Hv) as (s & n & _ & _ & _ & Hid).
  assert (Hlines : buildLines products <> []).
  { unfold buildLines. intros E. apply (vf_lines _ _ _ _ Hv).
    apply length_zero_iff_nil. by rewrite <- (proj1 (lines_from_spec 1 products)), E. }
  unfold validate. cbn [buildBillInvoice iv_ID iv_UUID iv_Lines iv_Supplier iv_Customer iv_PreviousInvoiceHash
    pt_VAT supplier_of].
  rewrite Hid. change (String.eqb ("INV-" +:+ itoa n) "") with false.
  rewrite (proj2 (String.eqb_neq _ _) Hu), (proj2 (String.eqb_neq _ _) Hp),
    (proj2 (String.eqb_neq _ _) (vf_vat _ _ _ _ Hv)).
  destruct (buildLines products); [done|]. unfold IsStandard. cbn [buildBillInvoice iv_SubType].
  destruct (is_standard_bill b) eqn:E; [|done].
  by rewrite (proj2 (String.eqb_neq _ _) (standard_customer b E)).
Qed.

Lemma bill_invoice_raw_plain cfg b products t booking :
  plain (bk_PIH booking) = true -> raw_plain (buildBillInvoice cfg b products t booking).
Proof.
  intros Hp. unfold raw_plain. cbn [buildBillInvoice iv_SubType iv_DocumentCurrency iv_PreviousInvoiceHash
    iv_DiscountTax iv_Lines].
  split_and!; try done; [by destruct (is_standard_bill b)|apply lines_from_spec].
Qed.

(** A Base64 text holds no markup. *)
Lemma base64_plain s : plain (base64_encode s) = true.
Proof. by apply base64_alphabet; vm_compute. Qed.

(** C37: A bill that Prepare lets through is ready: under a booking with an invoice UUID and a
    previous hash that is not empty and holds no markup (plain), as every Base64 text is
    ([base64_plain]), building its document does not fail, and the document is well-formed whatever
    the texts of the bill, the buyer and the products hold. The condition on the hash is needed: it
    is written without escaping, and one with markup breaks the document
    ([XmlSpec.raw_hash_breaks]). *)
Theorem prepared_bill_builds now service query load msg d booking :
  Prepare now service query load msg = Ok d ->
  bk_UUID booking <> "" -> bk_PIH booking <> "" -> plain (bk_PIH booking) = true ->
  exists xml, ToXML (buildBillInvoice (bd_cfg d) (bd_bill d) (bd_products d) (bd_issueTime d) booking) = Ok xml
              /\ well_formed xml = true.
Proof.
  intros (_ & _ & _ & Hv & _)%Prepare_verified Hu Hp Hplain. eexists.
  assert (H : ToXML (buildBillInvoice (bd_cfg d) (bd_bill d) (bd_products d) (bd_issueTime d) booking)
              = Ok (ToXML_text (buildBillInvoice (bd_cfg d) (bd_bill d) (bd_products d) (bd_issueTime d) booking)))
    by (unfold ToXML; by rewrite (bill_invoice_valid _ msg)).
  split; [exact H|]. by apply well_formed_text, bill_invoice_raw_plain.
Qed.

(** ** The signed invoice passes the stream's checks *)

Lemma Build_fields d booking i : Build d booking = Ok i ->
  si_SourceID i = bl_ID (bd_bill d) /\ si_BranchID i = bk_BranchID booking /\ si_UUID i = bk_UUID booking
  /\ si_ICV i = bk_ICV booking /\ si_PIH i = bk_PIH booking /\ si_Outcome i = ""
  /\ si_Kind i = (if is_standard_bill (bd_bill d) then InvoiceStandard else InvoiceSimplified)
  /\ exists xml hash req, sv_SignInvoice (bd_svc d) xml = Ok (si_SignedXML i, hash)
     /\ apiRequest (bd_svc d) (si_SignedXML i) = Ok req
     /\ si_Hash i = orDefault (req_invoiceHash req) hash /\ si_Hash i <> "".
Proof.
  unfold Build. cbv zeta. destruct (ToXML _) as [xml|]; [|done].
  destruct (sv_SignInvoice (bd_svc d) xml) as [[signed hash]|] eqn:Es; [|done].
  destruct (apiRequest (bd_svc d) signed) as [req|] eqn:Er; [|done].
  destruct (negb _); [done|].
  destruct (String.eqb_spec (orDefault (req_invoiceHash req) hash) "") as [|Hh]; [done|].
  destruct (sv_GenerateQR (bd_svc d) signed) as [qr|]; [|done]. intros [= <-].
  cbn [si_SourceID si_BranchID si_UUID si_ICV si_PIH si_Outcome si_Kind si_SignedXML si_Hash].
  split_and!; try done.
  - unfold IsStandard. cbn [buildBillInvoice iv_SubType]. by destruct (is_standard_bill (bd_bill d)).
  - by exists xml, hash, req.
Qed.

(** C36: What the bill pipeline builds passes the check of the ordered stream: when the signing
    tool's texts are not blank and the row read for a bill is that bill's, the signed invoice of a
    prepared bill under a booking for its message is valid and matches message and booking in bill,
    branch, UUID, counter and previous hash, and it is standard exactly when the buyer has a VAT
    number. *)
Theorem built_invoice_passes now service query load msg d booking i :
  Prepare now service query load msg = Ok d -> Build d booking = Ok i ->
  valid_message msg -> bl_ID (bd_bill d) = ID msg ->
  bk_BranchID booking = BranchID msg -> bk_UUID booking = InvoiceUUID msg ->
  bk_ICV booking <> 0 -> blank (bk_PIH booking) = false ->
  (forall xml s h, sv_SignInvoice (bd_svc d) xml = Ok (s, h) -> blank s = false /\ (h = "" \/ blank h = false)) ->
  (forall s r, apiRequest (bd_svc d) s = Ok r -> req_invoiceHash r = "" \/ blank (req_invoiceHash r) = false) ->
  checkBuilt i msg booking = None
  /\ (si_Kind i = InvoiceStandard <-> exists v, bl_BuyerVAT (bd_bill d) = Some v /\ v <> "").
Proof.
  intros (_ & _ & _ & Hv & _)%Prepare_verified HB Hm Hid Hbr Hu Hicv Hpih Hsign Hreq.
  destruct (Build_fields _ _ _ HB) as (E1 & E2 & E3 & E4 & E5 & E6 & E7 & xml & h & req & Hs & Hr & E8 & Hne).
  destruct (Hsign _ _ _ Hs) as [Hxml Hh]. specialize (Hreq _ _ Hr).
  assert (Hhash : blank (si_Hash i) = false).
  { rewrite E8 in Hne |- *. unfold orDefault in *. destruct (String.eqb_spec (req_invoiceHash req) "") as [E|E].
    - by destruct Hh.
    - by destruct Hreq. }
  assert (Hvalid : SignedInvoice_Validate i = None).
  { unfold SignedInvoice_Validate. rewrite E1, E2, E3, E4, E5, E6, Hid, Hbr, Hu, Hpih, Hhash, Hxml, (vm_uuid _ Hm).
    rewrite (proj2 (Z.leb_gt _ _) (vm_id _ Hm)), (proj2 (Z.leb_gt _ _) (vm_branch _ Hm)),
      (proj2 (Z.eqb_neq _ _) Hicv). cbn [negb].
    rewrite E7. by destruct (is_standard_bill (bd_bill d)). }
  split.
  - unfold checkBuilt. rewrite Hvalid, E1, E2, E3, E4, E5, Hid, Hbr, Hu, !Z.eqb_refl, !String.eqb_refl. done.
  - rewrite E7. unfold is_standard_bill. destruct (filled (bl_BuyerVAT (bd_bill d))) as [v|] eqn:E.
    + apply filled_nonempty in E as [E Hvne]. split; [by exists v|done].
    + split; [done|]. intros (v & Ev & Hvne). unfold filled in E. rewrite Ev in E.
      by rewrite (proj2 (String.eqb_neq _ _) Hvne) in E.
Qed.

(** ** A sample *)

Definition sample_bill : BillRow :=
  mkBillRow 42 7 1 None (Some "2024-05-01 10:20:30") None (Some " 17 ") (Some "30") (Some "Ali & Co") None None None
    None (Some "Buyer <Ltd>") (Some "399999999900003") None (Some "King's Rd") None None (Some "Riyadh") None None
    None None 2 None.
Definition sample_products : list ProductRow :=
  [mkProductRow (Some 5) (Some "Nuts & bolts") (Some (f_int 10)) (Some (f_int 3)) None None None None None].
Definition sample_seller : SellerInfo :=
  mkSellerInfo "Shop" "" "310175397400003" "1010010000" "St" "1" "D" "Riyadh" "12345" "SA".
Definition sample_cfg : Config :=
  mkConfigRec Sandbox "" "" "" "" "" "7" (mkCSRConfig "" "" "" "" "" "" "" "" "") sample_seller.

(** A signing tool with fixed answers. *)
Definition echo_service : Service :=
  mkService (fun xml => Ok ("<signed/>", "aGFzaA=="))
    (fun _ => Ok ("{" +:+ dq "uuid" +:+ ":" +:+ dq (InvoiceUUID bill_envelope) +:+ "}"))
    (fun _ => Ok "qr") (fun _ => Ok None) (fun _ => Ok None).

Definition sample_prepare : result error billDocument :=
  Prepare zero_time (fun _ => Ok (echo_service, sample_cfg)) (fun _ => Ok sample_bill)
    (fun _ => Ok sample_products) bill_envelope.
(** The supplier's scheme, which is to name a kind of identifier, is the number itself. *)
Lemma supplier_scheme_is_crn cfg b products t booking :
  let supplier := iv_Supplier (buildBillInvoice cfg b products t booking) in
  pt_SchemeID supplier = sl_CRN (cg_Seller cfg) /\ pt_ID supplier = sl_CRN (cg_Seller cfg).
Proof. split; reflexivity. Qed.

Definition sample_document : billDocument :=
  mkBillDocument echo_service sample_cfg sample_bill sample_products (mkCivil 2024 5 1 10 20 30).
Definition sample_booking : Booking :=
  mkBooking 7 "k" "e" (InvoiceUUID bill_envelope) 9 GenesisPIH.

Lemma sample_prepared : sample_prepare = Ok sample_document.
Proof. vm_compute. reflexivity. Qed.

Lemma prepared_bill_builds_witness :
  exists xml, ToXML (buildBillInvoice sample_cfg sample_bill sample_products (mkCivil 2024 5 1 10 20 30) sample_booking) = Ok xml
              /\ well_formed xml = true.
Proof.
  apply (prepared_bill_builds _ _ _ _ _ sample_document sample_booking sample_prepared);
    [discriminate|discriminate|reflexivity].
Defined.

Lemma built_invoice_passes_witness :
  exists i, Build sample_document sample_booking = Ok i /\ checkBuilt i bill_envelope sample_booking = None
            /\ si_Kind i = InvoiceStandard.
Proof.
  destruct (Build sample_document sample_booking) as [i|e] eqn:E; [|by vm_compute in E].
  exists i. split; [done|].
  destruct (built_invoice_passes _ _ _ _ _ _ sample_booking i sample_prepared E bill_envelope_valid eq_refl
    eq_refl eq_refl) as [H1 H2].
  - discriminate.
  - reflexivity.
  - intros xml s h [= <- <-]. split; [reflexivity|right; reflexivity].
  - intros s r Hr. left. vm_compute in Hr. by injection Hr as <-.
  - split; [exact H1|]. apply H2. exists "399999999900003". split; [reflexivity|discriminate].
Defined.
