(* ===== verification/Query.v ===== *)
(** * Queries ([processor/query.go], [processor/types.go], [tenant/tenant.go])

    The reading of result sets: rows are scanned in order until the first
    error, and the error of the iteration comes last. A bill's row and the
    active branches of a tenant, as the SELECT statements define them. *)

From stdpp Require Import sorting.
From S2P Require Import Prelude GoStrings GoText Models GoErrors Config Secutil Float64 Invoice Tenant Store Bill.
Local Open Scope Z_scope.

(** A result set: the rows as [Scan] gives them, and [rows.Err()]. *)
Record result_set (A : Type) : Type := mkResultSet { rs_rows : list (result error A); rs_err : option error }.
Arguments mkResultSet {A}.
Arguments rs_rows {A}.
Arguments rs_err {A}.

(** [for rows.Next() { ... append }] and [rows.Err()]; [scanErr] wraps a scan error. *)
Fixpoint collect {A} (scanErr : error -> error) (rows : list (result error A)) (err : option error)
    : result error (list A) :=
  match rows with
  | [] => match err with Some e => Err e | None => Ok [] end
  | Err e :: _ => Err (scanErr e)
  | Ok a :: rest => match collect scanErr rest err with Ok l => Ok (a :: l) | Err e => Err e end
  end.

Definition query_all {A} (scanErr : error -> error) (answer : result error (result_set A)) : result error (list A) :=
  match answer with
  | Err e => Err e
  | Ok r => collect scanErr (rs_rows r) (rs_err r)
  end.

(** ** processor/types.go, processor/query.go *)

Definition LoadProducts (answer : result error (result_set ProductRow)) : result error (list ProductRow) :=
  query_all (fun e => e) answer.

(** The columns of the bill query that end up in the [BillRow]; the identifiers
    are scanned into integers, so NULL there is an error of [Scan]. *)
Record bill_columns : Type := mkBillColumns {
  bc_ids : option Z * option Z * option Z;       (* b.id, b.branch_id, company.id *)
  bc_state : option Z;
  bc_texts : BillRow                             (* the nullable texts *)
}.

Definition null_scan : error := NewError "sql: Scan error: converting NULL to int64 is unsupported".

(** [answer] is the row, or [sql.ErrNoRows] or another error. *)
Definition QueryBillByID (answer : result error bill_columns) (billID : Z) : result error BillRow :=
  match answer with
  | Err e => Err (Wrap ("query bill " +:+ itoa billID +:+ ": ") e "")
  | Ok c =>
      match bc_ids c with
      | (Some id, Some branch, Some company) =>
          let t := bc_texts c in
          Ok (mkBillRow id branch company (bl_URL t) (bl_EffectiveDate t) (bl_PaymentDue t) (bl_SeqNumber t)
                (bl_PaymentMethod t) (bl_UserName t) (bl_CompanyName t) (bl_VATReg t) (bl_AddressName t)
                (bl_BuyerName t) (bl_BuyerCompany t) (bl_BuyerVAT t) (bl_BuyerAddress t) (bl_BuyerStreet t)
                (bl_BuyerBuilding t) (bl_BuyerDistrict t) (bl_BuyerCity t) (bl_BuyerPostalCode t) (bl_BuyerCountry t)
                (bl_BuyerSchemeID t) (bl_BuyerRegistration t) (default 0 (bc_state c)) (bl_InvoiceUUID t))
      | _ => Err (Wrap ("query bill " +:+ itoa billID +:+ ": ") null_scan "")
      end
  end.

(** A branch, whether its company exists, and its configuration row. *)
Record branch_row : Type := mkBranchRow {
  br_id : Z; br_is_active : option Z; br_company : bool; br_config : option zatca_row
}.

(** The WHERE clause and the inner joins of the query. *)
Definition branch_selected (b : branch_row) : bool :=
  bool_decide (br_is_active b = Some 1) && br_company b
  && negb (String.eqb (column (br_config b) zr_production_username) "").

Definition QueryActiveBranches (answer : result error (list branch_row)) : result error (list Z) :=
  match answer with
  | Err e => Err e
  | Ok rows => Ok (merge_sort Z.le (map br_id (List.filter branch_selected rows)))
  end.

(** ** tenant/tenant.go *)

(** What [LoadAllContext] reads of the registry; [None] is a nil database. *)
Definition registry_rows (answer : option (result error (result_set Tenant))) : result error (list Tenant) :=
  match answer with
  | None => Err (NewError "master database is not configured")
  | Some (Err e) => Err (Wrap "query tenants: " e "")
  | Some (Ok r) => collect (fun e => Wrap "scan tenant: " e "") (rs_rows r) (rs_err r)
  end.

(** What opening a tenant's database does: parsing the base DSN, [sql.Open] and
    the ping. *)
Record open_answers : Type := mkOpenAnswers {
  oa_parse : string -> result error (string -> string);  (* the DSN with a database name *)
  oa_open : string -> option error;
  oa_ping : string -> option error
}.

(** The connection string, and whether the connection was closed again. *)
Definition OpenDB (a : open_answers) (t : Tenant) (baseDSN : string) : result error string * bool :=
  match oa_parse a baseDSN with
  | Err e => (Err (Wrap "parse base DSN: " e ""), false)
  | Ok with_name =>
      let dsn := with_name (tn_DBName t) in
      match oa_open a dsn with
      | Some e => (Err (Wrap ("open tenant db " +:+ tn_DBName t +:+ ": ") e ""), false)
      | None => match oa_ping a dsn with
                | Some e => (Err (Wrap ("ping tenant db " +:+ tn_DBName t +:+ ": ") e ""), true)
                | None => (Ok dsn, false)
                end
      end
  end.

(** ** Facts *)

Lemma collect_all {A} scanErr (l : list A) : collect scanErr (map Ok l) None = Ok l.
Proof. induction l as [|a l IH]; [done|]. cbn [map collect]. by rewrite IH. Qed.

Lemma collect_Ok {A} scanErr (rows : list (result error A)) err l :
  collect scanErr rows err = Ok l -> rows = map Ok l /\ err = None.
Proof.
  revert l. induction rows as [|[a|e] rows IH]; intros l; cbn [collect].
  - destruct err; [done|]. by intros [= <-].
  - destruct (collect scanErr rows err) as [l'|e]; [|done]. intros [= <-].
    destruct (IH l' eq_refl) as [-> ->]. done.
  - done.
Qed.

Lemma active_branches rows ids : QueryActiveBranches (Ok rows) = Ok ids ->
  Sorted Z.le ids /\ forall id, id ∈ ids <-> exists b, b ∈ rows /\ branch_selected b = true /\ br_id b = id.
Proof.
  intros [= <-]. split; [apply Sorted_merge_sort; apply _|]. intros id. rewrite merge_sort_Permutation.
  rewrite list_elem_of_In, in_map_iff. setoid_rewrite filter_In.
  split; intros (b & H); exists b; rewrite list_elem_of_In in *; naive_solver.
Qed.
