(* ===== verification/Status.v ===== *)
(** * The status tool ([cmd/store_status/main.go])

    Finds the connection string, lists the branches with their registration,
    optionally pings ZATCA for each, and prints a table or JSON. The database,
    the environment and ZATCA's answers are arguments. *)

From S2P Require Import Prelude GoStrings GoText Utf8 Base64 Models GoErrors Config Secutil Json Unmarshal JsonText.
From S2P Require Import Operator Io Client Sdk Zatca Store Startup.
Local Open Scope Z_scope.

Record status_flags : Type := mkStatusFlags {
  sf_dsn : string; sf_dbUser : string; sf_dbPass : string; sf_dbHost : string; sf_dbPort : string;
  sf_dbName : string; sf_zatcaEnv : string; sf_ping : bool; sf_asJSON : bool
}.

Definition default_status_flags : status_flags :=
  mkStatusFlags "" "" "" "" "3306" "" "production" false false.

Section dsn.
Context (mysql_FormatDSN : string -> string -> string -> string -> string -> string) (Getenv : string -> string).

Definition status_dsn (fl : status_flags) : result error string :=
  if negb (String.eqb (sf_dsn fl) "") then Ok (sf_dsn fl)
  else if negb (String.eqb (Getenv "DSN") "") then Ok (Getenv "DSN")
  else ResolveDSN mysql_FormatDSN "" (or_env Getenv (sf_dbUser fl) "DBUSER") (or_env Getenv (sf_dbPass fl) "PASSWORD")
         (or_env Getenv (sf_dbHost fl) "HOST") (default_or_env Getenv (sf_dbPort fl) "PORT" "3306")
         (or_env Getenv (sf_dbName fl) "DBNAME").
End dsn.

(** ** Output *)

(** The tags of [BranchStatus]. *)
Definition BranchStatus_json (s : BranchStatus) : list (string * scalar) :=
  [ ("branch_id", SInt (st_BranchID s)); ("store_id", SInt (st_StoreID s)); ("branch_name", SText (st_BranchName s));
    ("company", SText (st_Company s)); ("vat", SText (st_VAT s)); ("status", SText (st_Status s)) ]
  ++ omitempty "message" (st_Message s).

Definition newline : string := str1 (byte_of 10).

(** An indented array of objects; a nil slice is [null]. *)
Definition statuses_json (l : list BranchStatus) : string :=
  match l with
  | [] => "null"
  | _ =>
      "[" +:+ newline
      +:+ Join (map (fun s => "  {" +:+ newline +:+ indent_members "    " (BranchStatus_json s) +:+ newline +:+ "  }") l)
            ("," +:+ newline)
      +:+ newline +:+ "]"
  end +:+ newline.

(** [%-ns]: padded to [n] runes. *)
Definition pad_right (n : nat) (s : string) : string := s +:+ of_bytes (replicate (n - rune_count s) (" " : ascii)).

Definition truncate_name (s : string) (max : nat) : string :=
  if (String.length s <=? max)%nat then s else take_bytes (max - 2) s +:+ "..".

Definition columns (l : list (nat * string)) (last : string) : string :=
  Join (map (fun c => pad_right c.1 c.2) l) " " +:+ " " +:+ last +:+ newline.

Definition status_row (s : BranchStatus) : string :=
  columns [(8, itoa (st_BranchID s)); (8, itoa (st_StoreID s)); (25, truncate_name (st_BranchName s) 25);
           (25, truncate_name (st_Company s) 25); (20, st_VAT s); (16, st_Status s)]%nat (st_Message s).

Definition status_table (l : list BranchStatus) : string :=
  columns [(8, "BRANCH"); (8, "STORE"); (25, "BRANCH NAME"); (25, "COMPANY"); (20, "VAT"); (16, "STATUS")]%nat "MESSAGE"
  +:+ "-------- -------- ------------------------- ------------------------- -------------------- ---------------- -------------------------"
  +:+ newline +:+ write_all (map status_row l).

(** ** The tool *)

Section main.
Context (mysql_FormatDSN : string -> string -> string -> string -> string -> string) (Getenv : string -> string).
(** [sql.Open], the statuses query, the load of a branch with the key, and the
    GET of ZATCA's base URL for a branch. *)
Context (Open : string -> option error)
        (query : result error (list (result error (Z * source_row * option zatca_row))) * option error)
        (load : Key -> Z -> result error BranchZATCA) (ping : Z -> string -> option error).

(** An empty configuration with an environment. *)
Definition base_config (env : string) : Config :=
  mkConfigRec env "" "" "" "" "" "" (mkCSRConfig "" "" "" "" "" "" "" "" "")
    (mkSellerInfo "" "" "" "" "" "" "" "" "" "").

Definition ping_all (fl : status_flags) (l : list BranchStatus) : result string (list BranchStatus) :=
  if negb (sf_ping fl) then Ok l
  else if String.eqb (Getenv "ENCRYPT_KEY") ""
  then Err "ENCRYPT_KEY environment variable is required for --ping"
  else match NewKey (Getenv "ENCRYPT_KEY") with
       | Err e => Err ("invalid ENCRYPT_KEY: " +:+ error_text e)
       | Ok key => Ok (map (fun s => CheckZATCAConnection s (base_config (sf_zatcaEnv fl))
                                       (load key (st_BranchID s)) (ping (st_BranchID s))) l)
       end.

Definition status_main (fl : status_flags) : process_end :=
  match status_dsn mysql_FormatDSN Getenv fl with
  | Err e => log_fatal ("DSN required: use --dsn or --db-user/--db-pass/--db-host/--db-name: " +:+ error_text e)
  | Ok dsn =>
      match Open dsn with
      | Some e => log_fatal ("open db: " +:+ error_text e)
      | None =>
          let '(statuses, err) := LoadAllBranchStatuses query.1 query.2 in
          match err with
          | Some e => log_fatal ("load branch statuses: " +:+ error_text e)
          | None =>
              match ping_all fl statuses with
              | Err text => log_fatal text
              | Ok statuses => mkEnd "" (if sf_asJSON fl then statuses_json statuses else status_table statuses) 0
              end
          end
      end
  end.

(** Every branch of the query is listed, in its order, whatever the pings answer. *)
Lemma listing_complete fl rows statuses :
  query = (Ok (map Ok rows), None) -> ping_all fl (LoadAllBranchStatuses query.1 query.2).1 = Ok statuses ->
  map st_BranchID statuses = map (fun r => r.1.1) rows.
Proof.
  intros -> Hp. cbn [fst snd] in Hp.
  assert (Hl : forall acc, map st_BranchID (scan_statuses (map Ok rows) None acc).1
                           = map st_BranchID acc ++ map (fun r => r.1.1) rows).
  { clear Hp. induction rows as [|[[id s] z] rows IH]; intros acc; cbn; [by rewrite app_nil_r|].
    rewrite IH, map_app, <- app_assoc. done. }
  specialize (Hl []). cbn [map app] in Hl. rewrite <- Hl. unfold LoadAllBranchStatuses in Hp.
  unfold ping_all in Hp. destruct (negb (sf_ping fl)); [by injection Hp as ->|].
  destruct (String.eqb _ _); [done|]. destruct (NewKey _); [|done]. injection Hp as <-.
  rewrite map_map. apply map_ext. intros s. unfold CheckZATCAConnection, with_status. by repeat case_match.
Qed.
End main.

(** A long name is cut at a byte, which may be inside a letter: thirteen Arabic
    letters have 26 bytes and are cut after 23. *)
Example truncated_name_is_invalid :
  let name := write_all (repeat (encode_rune 0x628) 13) in
  valid_string name = true /\ valid_string (truncate_name name 25) = false.
Proof. by vm_compute. Qed.
